(* ===== verification/_CoqProject ===== *)
-Q . S2P
Prelude.v
Crc16.v
CString.v
World.v
TimeSpent.v
Led.v
SystemBase.v
Player.v
QbusSlave.v
IotQbus.v
SdCard.v
Wifi.v
Ble.v
SystemHandler.v
SystemControl.v
SystemSpec.v
Initializer.v
Metadata.v
MetadataSpec.v
Tracks.v
TracksSpec.v
Downloader.v
Firmware.v
Layout.v
Serial.v
Safety.v
Playback.v
Tape.v
DownloadSpec.v
Network.v
PlaySpec.v
Songs.v
