(* ===== verification/Prelude.v ===== *)
(** * Toy_with_ble: a verification library for the firmware of the Cubbies box

    The program is the firmware of a music box for children, C++ for an ESP32
    under [main/].  A toy with an RFID tag is placed on the box; the base of
    the box reports the tag, the battery, the keys and the position of the
    turntable over a serial line; the firmware plays the tracks that belong to
    the toy and to the side it faces, downloads them when they are missing,
    asks quiz questions, and is configured from a phone over BLE.

    ** The parts and their files

    - Prelude.v: machine integers, faults, the state-and-fault monad [M], its
      weakest preconditions, records with updates, and the two notions of
      "leaves alone": [keeps] (an observation) and [preserves] (an invariant),
      each with a hint database and a tactic.
    - CString.v: the C library's strings, printing and scanning.
    - World.v: the state.  Every global object and file-scope variable of
      main/inc/*.h and main/src/*.cpp is a field of one of the records that
      [world] joins; [fs] is the SD card, [hist] the calls made to code
      outside the repository.  The class [Env] answers those calls, the class
      [CJSON] stands for cJSON.
    - Crc16.v (crc16.cpp), TimeSpent.v (time_spent.cpp), Led.v (led_app.cpp).
    - QbusSlave.v (qbus_s.cpp): the serial slave, against the class [QBusPort]
      of its callbacks and the class [QBusSpec] of what it relies on.
    - IotQbus.v (iot_qbus.cpp, iot_qbus_port.cpp): the registers, the two
      tasks of the line and the instances of both classes.
    - SystemBase.v (system.cpp): setters, users, box ID and name.
    - SystemHandler.v (system.cpp): [System::handler], one definition
      [case_X] per case SYS_X, against the class [DownloaderOps].
    - SystemControl.v: the control graph, against the class [DownloaderSpec].
    - SystemSpec.v: what the state machine does, state by state.
    - Player.v (player.cpp), SdCard.v (sdcard.cpp), Wifi.v (wifi.cpp),
      Ble.v (ble_app.cpp).
    - Metadata.v, MetadataSpec.v (downloader.cpp up to the playlists): token,
      master JSON, names of the tracks, playlists.
    - Tracks.v, TracksSpec.v (the rest of downloader.cpp): the header of a
      track, the stream of its bytes, retries, the mark of completeness.
    - Downloader.v: [Downloader::begin] and the instances of [DownloaderOps]
      and [DownloaderSpec].
    - Firmware.v (main.cpp): start-up, and the relation [step] between states
      that interleaves the turns of all tasks and callbacks; the power flag.
    - Layout.v: sizes of the arrays and ranges of the counters.
    - Serial.v: the firmware refines the serial slave of QbusSlave.v.
    - Safety.v: the states in which the state machine cannot fault whatever
      the card holds, and the one value they read that was never written.
    - Playback.v: with well-formed content on the card ([good_card]), the
      states that open playlists and play tracks cannot fault either.
    - Tape.v: the whole firmware refines an abstract tape player with a
      playlist and a position in it.
    - DownloadSpec.v: a whole download, from the connection to the mark of
      completeness that the state machine looks for; [site_ready] is what the
      box, the card and the server need for it, the class [CJSONLaws] what it
      needs of cJSON.
    - Network.v: with servers that answer ([GoodServer]), the four states
      that use the network have one fault at most, the use of a freed object,
      and none where closes return ([FreedClose]) and tracks arrive.
    - PlaySpec.v: the turns from a toy on the pad to its first track, and
      their composition with a download.
    - Songs.v: a whole playlist of songs, turn after turn, with the player
      that reports the end of each of them.
    - Initializer.v (initializer.cpp): the class that [System::initialize] and
      [System::verifyUserIdWithServer] were copied from, compared with them.

    ** How the code is read

    A C++ function that reads and writes the state is a function into
    [FW A = world → res (A * world)]; it returns a value and the next state,
    or the fault it runs into: a NULL dereference, an access outside an
    array, an indeterminate pointer, the use of an object that was freed or
    of a stream that was closed, a scanf conversion that does not fit, an
    abort.  So "the function returns" is part of what the theorems say, unless
    a theorem is stated from an execution that is given ([= Ok (x, w')]).
    Early returns and conditions are [if] and [when]; the members of a class
    are the fields of its record; a [char] array that only ever holds a string
    is its contents, with the bound of the array checked where it is written.
    [char] is unsigned on the target; a FreeRTOS tick is ten milliseconds.
    [malloc], [strdup] and task creation are taken to succeed; [malloc(0)] is
    NULL.  Log output is left out.

    Loops follow their data: a [for] over an array is [for_each]; where the
    C loop is bounded by a count, the count is the fuel ([tx_loop]: the bytes
    to send; [copy_loop]: the bytes received, of which each turn copies at
    least one; [header_loop]: the bytes of the file; [perform_retry]: the
    attempts; [deleteEntireFolder]: the length of a path, by
    [deleteEntireFolder_terminates]).

    The HTTP client is its answer: the list of events it delivers, the result
    and the status, all chosen by [Env] from the calls made before, so the
    theorems hold for every server.  Its cleanup may deliver one more
    event to the handler ([env_disconnects]).  A directory listing is chosen in
    the same way.

    Where the code is undefined the model is not milder.  A client is closed
    after its cleanup at the end of every document and playlist: the close
    ([http_close_freed]) faults unless [Env] lets it return, and theorems about
    downloads that succeed say so by the hypothesis [FreedClose].  A track that
    fails closes its stream twice when the cleanup delivers its event
    ([finish_track]).  Where the player's listen times out, the message it was
    to fill is read all the same ([listen]): its content is [env_stack], any
    value at all, and the read is noted in [hist] ([uninitialised_reads]).
    The counter of connections is an [int]; where it overflows it wraps, as on
    the target ([i32]).

    A turn of a task is one step: preemption inside a turn is outside
    the model.

    ** What the theorems show

    - The whole firmware (Firmware.v, Layout.v, Serial.v, Safety.v, Playback.v,
      Tape.v, Network.v), through every interleaving of turns: the power flag is
      raised only after the shutdown state and never on a charged box in use;
      the objects keep their layout; the serial slave keeps its invariant and
      never faults; in 16 of the 28 states a turn of the state machine always
      returns, and in 24 with well-formed content on the card; in the other
      four, those that use the network, it returns or uses a freed object,
      when servers answer; and what the box
      plays is a run of a tape player: its tones, and the tracks of the
      playlists it opened, with their answers.
    - The state machine (SystemControl.v, SystemSpec.v): it follows its
      control graph; what it does with a toy, a track, a quiz, the battery,
      idling and the shutdown.
    - The serial line (Crc16.v, QbusSlave.v, IotQbus.v): the checksum is a
      division over GF(2) and detects every burst of up to 16 bits; whatever
      bytes arrive, what leaves is one reply per request that arrived; tags, registers and keys have the effect the map of registers says.
    - The phone and the network (Ble.v, Wifi.v, SystemBase.v): commands need a
      known user, stored credentials and users read back, connections are
      counted.
    - The downloads (MetadataSpec.v, TracksSpec.v, DownloadSpec.v): a response
      is stored byte by byte whatever its pieces are, the header written in
      front of a track is the header the player reads, with a server that
      answers a download stores everything that is missing and makes the toy
      ready exactly when a track was missing or the toy was marked before, and
      what happens when a connection breaks off.
    - From the server to the player (PlaySpec.v): a track of a download is
      played by the state machine within five turns, as the document of the
      server says: a question as a question, with its answer.  The songs of a
      toy that stays on the pad are played in the order of its playlist, over
      and over (Songs.v), whatever time each of them takes.
    - The move of the initialisation into the class System (Initializer.v)
      kept its behaviour.

    Some theorems state defects of the code as it is: a metadata file that
    stays open, a truncated track with its final name, a playlist of 256
    tracks that never ends, a toy that overrides a flat battery, a client that
    is closed after it was freed.

    ** What is not modelled

    - ESP-IDF, ESP-ADF, NimBLE, cJSON, FatFs and the components under
      [managed_components/] and [build/]: code of others; calls to it are in
      [hist], its answers in [Env] and [CJSON].
    - log_app.h: declarations without code.
    - components/my_board: the configuration (sdkconfig) selects the board of
      ESP-ADF, so this one is not built either.
    - Floating point: the text of the free memory is a parameter of Ble.v. *)

From Stdlib Require Export ZArith Lia.
From stdpp Require Export prelude gmap strings list numbers.

#[global] Open Scope Z_scope.

(** ** Machine integers

    An unsigned w-bit C object is a [Z] that the code keeps in [0, 2^w); the
    wrap-around of an assignment is written out with [u8], [u16], [u32]. *)

Definition u8 (z : Z) : Z := z mod 256.
Definition u16 (z : Z) : Z := z mod 65536.
Definition u32 (z : Z) : Z := z mod 4294967296.
Definition u64 (z : Z) : Z := z mod 18446744073709551616.

(** A 32-bit [int], which wraps around on the target. *)
Definition i32 (z : Z) : Z := (z + 2147483648) mod 4294967296 - 2147483648.

Lemma i32_small z : -2147483648 <= z < 2147483648 → i32 z = z.
Proof. intros Hz. unfold i32. rewrite Z.mod_small by lia. lia. Qed.

Abbreviation byte := Z (only parsing).
Abbreviation bytes := (list Z) (only parsing).

Definition byte_ok (b : Z) : Prop := 0 <= b < 256.
Abbreviation bytes_ok := (Forall byte_ok).

#[export] Instance byte_ok_dec b : Decision (byte_ok b).
Proof. unfold byte_ok. apply _. Defined.

(** ** Faults: the undefined behaviours of C the model distinguishes *)

Inductive fault :=
  | NullDeref        (* a NULL pointer is dereferenced *)
  | OutOfBounds      (* a read or write outside an object *)
  | Uninitialised    (* an indeterminate pointer is used *)
  | BadConversion    (* a scanf conversion that does not fit its object *)
  | UseAfterFree     (* an object that was freed or closed is used *)
  | Aborted.         (* ESP_ERROR_CHECK of an error *)

#[export] Instance fault_eq_dec : EqDecision fault.
Proof. solve_decision. Defined.

Inductive res (A : Type) :=
  | Ok (a : A)
  | Fault (f : fault).
Arguments Ok {A} _.
Arguments Fault {A} _.

#[export] Instance res_ret : MRet res := @Ok.
#[export] Instance res_bind : MBind res := λ A B k m,
  match m with Ok a => k a | Fault f => Fault f end.

Definition from_option_res {A} (f : fault) (o : option A) : res A :=
  match o with Some a => Ok a | None => Fault f end.

(** ** The state and fault monad

    A C function that reads and writes the state [W] is an [M W A]: it
    returns a value and the next state, or the fault it runs into. *)

Definition M (W A : Type) : Type := W → res (A * W).

Declare Scope M_scope.
Delimit Scope M_scope with M.
Bind Scope M_scope with M.

Section monad_ops.
Context {W : Type}.
Definition ret {A} (a : A) : M W A := λ w, Ok (a, w).
Definition bind {A B} (m : M W A) (k : A → M W B) : M W B := λ w,
  match m w with Ok (a, w') => k a w' | Fault f => Fault f end.
Definition gets {A} (f : W → A) : M W A := λ w, Ok (f w, w).
Definition modify (g : W → W) : M W () := λ w, Ok ((), g w).
Definition fail {A} (f : fault) : M W A := λ _, Fault f.
Definition lift {A} (r : res A) : M W A := λ w,
  match r with Ok a => Ok (a, w) | Fault f => Fault f end.
Definition skip : M W () := ret ().
Definition when (b : bool) (m : M W ()) : M W () := if b then m else skip.
End monad_ops.

Notation "x ← m ; k" := (bind m (λ x, k)) : M_scope.
Notation "' x ← m ; k" := (bind m (λ x, k)) : M_scope.
Notation "m ;; k" := (bind m (λ _, k)) : M_scope.
#[local] Open Scope M_scope.

(** A [for] loop over a list of values that only has effects. *)
Fixpoint for_each {W A} (l : list A) (f : A → M W ()) : M W () :=
  match l with
  | [] => skip
  | x :: l => f x;; for_each l f
  end.

(** A loop that collects one value per element. *)
Fixpoint map_each {W A B} (l : list A) (f : A → M W B) : M W (list B) :=
  match l with
  | [] => ret []
  | x :: l => y ← f x; ys ← map_each l f; ret (y :: ys)
  end.

(** ** Weakest preconditions: [wp] excludes faults, [wlp] ignores them *)

Section wp.
Context {W : Type}.
Implicit Types w : W.

Definition wp {A} (m : M W A) (Q : A → W → Prop) (w : W) : Prop :=
  match m w with Ok (a, w') => Q a w' | Fault _ => False end.

Definition wlp {A} (m : M W A) (Q : A → W → Prop) (w : W) : Prop :=
  match m w with Ok (a, w') => Q a w' | Fault _ => True end.

Lemma wp_bind {A B} (m : M W A) (k : A → M W B) Q w :
  wp (bind m k) Q w ↔ wp m (λ a, wp (k a) Q) w.
Proof. unfold wp, bind. destruct (m w) as [[a w']|]; done. Qed.

Lemma wp_ret {A} (a : A) Q w : wp (ret a) Q w ↔ Q a w.
Proof. done. Qed.

Lemma wp_mono {A} (m : M W A) (P Q : A → W → Prop) w :
  wp m P w → (∀ a w', P a w' → Q a w') → wp m Q w.
Proof. unfold wp. destruct (m w) as [[a w']|]; naive_solver. Qed.

Lemma wp_wlp {A} (m : M W A) Q w : wp m Q w → wlp m Q w.
Proof. unfold wp, wlp. by destruct (m w) as [[a w']|]. Qed.

Lemma wlp_elim {A} (m : M W A) (Q : A → W → Prop) w a w' :
  m w = Ok (a, w') → wlp m Q w → Q a w'.
Proof. unfold wlp. by intros ->. Qed.

Lemma wp_elim {A} (m : M W A) Q w :
  wp m Q w → ∃ a w', m w = Ok (a, w') ∧ Q a w'.
Proof. unfold wp. destruct (m w) as [[a w']|]; naive_solver. Qed.

Lemma wp_Ok {A} (m : M W A) (Q : A → W → Prop) w a w' :
  m w = Ok (a, w') → wp m Q w → Q a w'.
Proof. unfold wp. by intros ->. Qed.

Lemma wp_of_Ok {A} (m : M W A) (Q : A → W → Prop) w a w' :
  m w = Ok (a, w') → Q a w' → wp m Q w.
Proof. unfold wp. by intros ->. Qed.

(** Sequencing from a specification of the first operation. *)
Lemma wp_seq {A B} (m : M W A) (k : A → M W B) (P : A → W → Prop) Q w :
  wp m P w → (∀ a w', P a w' → wp (k a) Q w') → wp (bind m k) Q w.
Proof. intros Hm Hk. apply wp_bind. by eapply wp_mono. Qed.

Lemma wp_gets_bind {A B} (f : W → A) (k : A → M W B) Q w :
  wp (k (f w)) Q w → wp (bind (gets f) k) Q w.
Proof. done. Qed.

Lemma wp_modify_bind {B} (g : W → W) (k : () → M W B) Q w :
  wp (k ()) Q (g w) → wp (bind (modify g) k) Q w.
Proof. done. Qed.

Lemma wp_run_bind {A B} (m : M W A) (k : A → M W B) Q w a w1 :
  m w = Ok (a, w1) → wp (k a) Q w1 → wp (bind m k) Q w.
Proof. unfold wp, bind. by intros ->. Qed.

Lemma wp_lift_bind {A B} (r : res A) (a : A) (k : A → M W B) Q w :
  r = Ok a → wp (k a) Q w → wp (bind (lift r) k) Q w.
Proof. by intros ->. Qed.

Lemma bind_Ok {A B} (m : M W A) (k : A → M W B) w b w2 :
  (bind m k) w = Ok (b, w2) ↔ ∃ a w1, m w = Ok (a, w1) ∧ k a w1 = Ok (b, w2).
Proof.
  unfold bind. destruct (m w) as [[a w']|]; naive_solver.
Qed.

Lemma bind_run {A B} (m : M W A) (k : A → M W B) w a w1 :
  m w = Ok (a, w1) → (bind m k) w = k a w1.
Proof. unfold bind. by intros ->. Qed.

Lemma M_bind_assoc {A B C} (m : M W A) (k : A → M W B) (h : B → M W C) w :
  bind (bind m k) h w = bind m (λ a, bind (k a) h) w.
Proof. unfold bind. by destruct (m w) as [[a w']|]. Qed.
End wp.

Lemma for_each_app {W A} (l1 l2 : list A) (f : A → M W ()) w :
  for_each (l1 ++ l2) f w = bind (for_each l1 f) (λ _, for_each l2 f) w.
Proof.
  revert w. induction l1 as [|x l1 IH]; intros w; [done|]. cbn [app for_each].
  unfold bind. destruct (f x w) as [[[] w1]|]; [|done]. by rewrite IH.
Qed.

(** ** Records with updates

    [derive_update] builds the update of one field from the eta-expansion of
    the record, so every field gets its update in one line. *)

Class Eta (R : Type) := eta : R → R.
Class Update {R T : Type} (p : R → T) := update : (T → T) → R → R.
Arguments update {R T} p {_} _ _.

Definition set {R T : Type} (p : R → T) `{!Update p} (v : T) (r : R) : R :=
  update p (λ _, v) r.

Ltac derive_update :=
  lazymatch goal with
  | |- @Update ?R ?T ?p =>
      let f := fresh "f" in
      let r := fresh "r" in
      intros f r;
      let t := eval cbv beta delta [eta] in (eta r) in
      let t := eval hnf in t in
      let x := constr:(p r) in
      lazymatch eval pattern x in t with
      | ?F _ => let u := eval cbv beta in (F (f x)) in exact u
      end
  end.

(** ** What an operation leaves unchanged *)

Definition keeps {W A B} (f : W → B) (m : M W A) : Prop :=
  ∀ w a w', m w = Ok (a, w') → f w' = f w.

Create HintDb keeps discriminated.

Section keeps.
Context {W B : Type} (f : W → B).

Lemma keeps_ret {A} (a : A) : keeps f (ret a).
Proof. by intros w ? w' [= <- <-]. Qed.
Lemma keeps_skip : keeps f skip.
Proof. apply keeps_ret. Qed.
Lemma keeps_gets {A} (g : W → A) : keeps f (gets g).
Proof. by intros w ? w' [= <- <-]. Qed.
Lemma keeps_fail {A} x : keeps f (fail x : M W A).
Proof. by intros w ? w' ?. Qed.
Lemma keeps_lift {A} (r : res A) : keeps f (lift r).
Proof. intros w ? w'. unfold lift. by destruct r; intros [= <- <-]. Qed.
Lemma keeps_modify (g : W → W) : (∀ w, f (g w) = f w) → keeps f (modify g).
Proof. by intros Hg w ? w' [= <- <-]. Qed.
Lemma keeps_bind {A C} (m : M W A) (k : A → M W C) :
  keeps f m → (∀ a, keeps f (k a)) → keeps f (bind m k).
Proof.
  intros Hm Hk w c w2 (a & w1 & H1 & H2)%bind_Ok.
  by rewrite (Hk _ _ _ _ H2), (Hm _ _ _ H1).
Qed.
Lemma keeps_if {A} (b : bool) (m1 m2 : M W A) :
  keeps f m1 → keeps f m2 → keeps f (if b then m1 else m2).
Proof. by destruct b. Qed.
Lemma keeps_when b (m : M W ()) : keeps f m → keeps f (when b m).
Proof. unfold when. intros. apply keeps_if; [done|apply keeps_skip]. Qed.
Lemma keeps_for_each {A} (l : list A) (g : A → M W ()) :
  (∀ a, keeps f (g a)) → keeps f (for_each l g).
Proof.
  intros Hg. induction l; simpl; [apply keeps_skip|by apply keeps_bind].
Qed.
Lemma keeps_map_each {A C} (l : list A) (g : A → M W C) :
  (∀ a, keeps f (g a)) → keeps f (map_each l g).
Proof.
  intros Hg. induction l; simpl; [apply keeps_ret|].
  apply keeps_bind; [done|]. intros c. apply keeps_bind; [done|]. intros. apply keeps_ret.
Qed.
Lemma keeps_comp {C} (h : B → C) {A} (m : M W A) : keeps f m → keeps (λ w, h (f w)) m.
Proof. intros Hm w a w' H. by rewrite (Hm _ _ _ H). Qed.
End keeps.

#[export] Hint Resolve keeps_ret keeps_skip keeps_gets keeps_fail keeps_lift
  keeps_bind keeps_if keeps_when keeps_for_each keeps_map_each : keeps.
#[export] Hint Extern 1 (keeps _ (modify _)) => apply keeps_modify; intros ?; reflexivity : keeps.
#[export] Hint Extern 2 (keeps _ (match ?x with _ => _ end)) => destruct x : keeps.
#[export] Hint Extern 5 (keeps _ _) => progress cbn beta iota : keeps.

(** An operation with a name is unfolded. *)
Ltac keeps_unfold :=
  lazymatch goal with
  | |- keeps _ ?m =>
      let rec head t := lazymatch t with ?g _ => head g | _ => t end in
      let h := head m in
      lazymatch h with
      | @bind => fail | @ret => fail | @gets => fail | @modify => fail | @lift => fail
      | _ => progress unfold h
      end
  end.
#[export] Hint Extern 4 (keeps _ _) => keeps_unfold : keeps.

Ltac keeps := typeclasses eauto 60 with keeps nocore.

(** ** Invariants of an operation *)

(** [m] takes states of [I] to states of [I], when it returns. *)
Definition preserves {W A} (I : W → Prop) (m : M W A) : Prop :=
  ∀ w, I w → wlp m (λ _, I) w.

Create HintDb preserves discriminated.
Create HintDb pres discriminated.

Section preserves.
Context {W : Type} (I : W → Prop).

Lemma preserves_ret {A} (a : A) : preserves I (ret a).
Proof. by intros w ?. Qed.
Lemma preserves_skip : preserves I skip.
Proof. apply preserves_ret. Qed.
Lemma preserves_gets {A} (f : W → A) : preserves I (gets f).
Proof. by intros w ?. Qed.
Lemma preserves_fail {A} x : preserves I (fail x : M W A).
Proof. by intros w ?. Qed.
Lemma preserves_lift {A} (r : res A) : preserves I (lift r).
Proof. intros w ?. by destruct r. Qed.
Lemma preserves_modify g : (∀ w, I w → I (g w)) → preserves I (modify g).
Proof. intros Hg w Hw. by apply Hg. Qed.
Lemma preserves_bind {A B} (m : M W A) (k : A → M W B) :
  preserves I m → (∀ a, preserves I (k a)) → preserves I (bind m k).
Proof.
  intros Hm Hk w Hw. specialize (Hm w Hw). unfold wlp, bind in *.
  destruct (m w) as [[a w1]|]; [|done]. by apply (Hk a w1).
Qed.
(** A value read from the state comes with what the invariant says of it. *)
Lemma preserves_gets_bind {A B} (P : A → Prop) (f : W → A) (k : A → M W B) :
  (∀ w, I w → P (f w)) → (∀ a, P a → preserves I (k a)) → preserves I (bind (gets f) k).
Proof. intros HP Hk w Hw. apply (Hk (f w)); [by apply HP|done]. Qed.
Lemma preserves_gets_bind_at {A B} (f : W → A) (k : A → M W B) :
  (∀ w0, I w0 → preserves I (k (f w0))) → preserves I (bind (gets f) k).
Proof. intros Hk w Hw. by apply (Hk w). Qed.
Lemma preserves_lift_bind {A B} (r : res A) (k : A → M W B) :
  (∀ a, r = Ok a → preserves I (k a)) → preserves I (bind (lift r) k).
Proof. intros Hk w Hw. destruct r as [a|]; [|done]. by apply (Hk a). Qed.
(** What is known of the value of an operation. *)
Lemma preserves_value_bind {A B} (P : A → Prop) (m : M W A) (k : A → M W B) :
  (∀ w a w', m w = Ok (a, w') → P a) → preserves I m → (∀ a, P a → preserves I (k a)) →
  preserves I (bind m k).
Proof.
  intros HP Hm Hk w Hw. specialize (Hm w Hw). unfold wlp, bind in *.
  destruct (m w) as [[a w1]|] eqn:E; [|done]. apply (Hk a); [by eapply HP|done].
Qed.
Lemma preserves_map_each {A B} (l : list A) (g : A → M W B) :
  (∀ a, preserves I (g a)) → preserves I (map_each l g).
Proof.
  intros Hg. induction l; simpl; [apply preserves_ret|].
  apply preserves_bind; [done|]. intros b. apply preserves_bind; [done|]. intros. apply preserves_ret.
Qed.
Lemma preserves_if {A} (b : bool) (m1 m2 : M W A) :
  preserves I m1 → preserves I m2 → preserves I (if b then m1 else m2).
Proof. by destruct b. Qed.
Lemma preserves_when b (m : M W ()) : preserves I m → preserves I (when b m).
Proof. destruct b; [done|]. intros. apply preserves_skip. Qed.
Lemma preserves_for_each {A} (l : list A) (g : A → M W ()) :
  (∀ a, preserves I (g a)) → preserves I (for_each l g).
Proof. intros Hg. induction l; simpl; [apply preserves_skip|by apply preserves_bind]. Qed.
Lemma preserves_elim {A} (m : M W A) w a w' : preserves I m → I w → m w = Ok (a, w') → I w'.
Proof. intros Hm Hw Hr. specialize (Hm w Hw). unfold wlp in Hm. by rewrite Hr in Hm. Qed.
End preserves.

#[export] Hint Resolve preserves_ret preserves_skip preserves_gets preserves_fail preserves_lift
  preserves_bind preserves_if preserves_when preserves_for_each preserves_map_each : preserves.
#[export] Hint Extern 2 (preserves _ (match ?x with _ => _ end)) => destruct x : preserves.
#[export] Hint Extern 5 (preserves _ _) => progress cbn beta iota : preserves.

Ltac preserves := typeclasses eauto 60 with preserves nocore.
