(* ===== verification/Crc16.v ===== *)
(** * Crc16: the frame checksum (main/src/crc16.cpp)

    [Crc16GetFromSeed] and [Crc16Get] are the two functions of the file, the
    inner loop is [crc_bits].  The theorems relate the register machine to
    long division of the message by x^16 + x^15 + x^2 + 1 over GF(2), show
    that a checksum appended low byte first leaves the residue zero, that the
    checksum is linear, and that every burst of at most 16 bits is detected. *)

From S2P Require Import Prelude.

(** ** Definitions *)

(** The body of [for (i = 0; i < 8; ++i)]. *)
Definition crc_bit (crc : Z) : Z :=
  if bool_decide (Z.land crc 1 ≠ 0)
  then Z.lxor (Z.shiftr crc 1) 0xA001
  else Z.shiftr crc 1.

Fixpoint crc_bits (i : nat) (crc : Z) : Z :=
  match i with O => crc | S i => crc_bits i (crc_bit crc) end.

#[global] Arguments crc_bits : simpl never.

(** [while (len != 0)]: one byte is xored in and shifted out.  Reading past
    the object [data] points to is undefined. *)
Fixpoint Crc16GetFromSeed (seed : Z) (data : bytes) (len : nat) {struct len} : res Z :=
  match len with
  | O => Ok seed
  | S len =>
      match data with
      | [] => Fault OutOfBounds
      | d :: data => Crc16GetFromSeed (crc_bits 8 (Z.lxor seed d)) data len
      end
  end.

Definition Crc16Get (data : bytes) (len : nat) : res Z :=
  Crc16GetFromSeed 0xFFFF data len.

(** ** The checksum as a fold, over bytes and over bits *)

Definition crc_fold (seed : Z) (data : bytes) : Z :=
  foldl (λ crc d, crc_bits 8 (Z.lxor crc d)) seed data.

(** One bit of the message at a time. *)
Definition crc_in (crc : Z) (b : bool) : Z := crc_bit (Z.lxor crc (Z.b2z b)).

Definition crc_run (seed : Z) (bs : list bool) : Z := foldl crc_in seed bs.

(** The [n] low bits of a number, the lowest first, which is also the order
    in which a UART transmits a byte. *)
Definition low_bits (n : nat) (z : Z) : list bool :=
  (λ i, Z.testbit z (Z.of_nat i)) <$> seq 0 n.

Definition byte_bits (b : Z) : list bool := low_bits 8 b.

Definition msg_bits (data : bytes) : list bool := data ≫= byte_bits.

(** The number whose low bits are [bs], the lowest first. *)
Fixpoint bits_val (bs : list bool) : Z :=
  match bs with [] => 0 | b :: bs => Z.b2z b + 2 * bits_val bs end.

(** The reference: synthetic long division over GF(2).  The dividend is a
    list of coefficients, the highest degree first; the divisor is monic and
    given by its lower coefficients. *)
Fixpoint xor_prefix (p l : list bool) : list bool :=
  match p, l with
  | x :: p, y :: l => xorb x y :: xor_prefix p l
  | _, l => l
  end.

Fixpoint gf2_rem (n : nat) (g l : list bool) : list bool :=
  match n, l with
  | S n, b :: l => gf2_rem n g (if b then xor_prefix g l else l)
  | _, l => l
  end.

(** x^15 + x^2 + 1, the divisor without its leading x^16. *)
Definition crc_poly : list bool :=
  [true] ++ replicate 12 false ++ [true; false; true].

(** The sixteen coefficients a register holds: bit 0 is the highest. *)
Definition reg_bits (crc : Z) : list bool := low_bits 16 crc.

(** The message multiplied by x^16, with the seed xored into its head. *)
Definition crc_dividend (seed : Z) (data : bytes) : list bool :=
  xor_prefix (reg_bits seed) (msg_bits data ++ replicate 16 false).

(** ** Lemmas *)

Section crc_lemmas.

Definition crc_ok (c : Z) : Prop := 0 <= c < 65536.

Lemma testbit_small n c i : 0 <= c < 2 ^ n → n <= i → Z.testbit c i = false.
Proof.
  intros Hc Hi. destruct (decide (0 <= n)).
  - destruct (decide (c = 0)) as [->|]; [apply Z.bits_0|].
    apply Z.bits_above_log2; [lia|].
    eapply Z.lt_le_trans; [|done]. apply Z.log2_lt_pow2; lia.
  - rewrite Z.pow_neg_r in Hc; lia.
Qed.

Lemma small_testbit n c : 0 <= n → 0 <= c →
  (∀ i, n <= i → Z.testbit c i = false) → c < 2 ^ n.
Proof.
  intros Hn Hc H. destruct (decide (c = 0)) as [->|]; [lia|].
  apply Z.log2_lt_pow2; [lia|].
  destruct (decide (Z.log2 c < n)); [done|].
  specialize (H (Z.log2 c)). rewrite Z.bit_log2 in H by lia.
  discriminate H. lia.
Qed.

Lemma lxor_ok n a b : 0 <= n → 0 <= a < 2 ^ n → 0 <= b < 2 ^ n →
  0 <= Z.lxor a b < 2 ^ n.
Proof.
  intros Hn Ha Hb. assert (0 <= Z.lxor a b) by (apply Z.lxor_nonneg; lia).
  split; [done|]. apply small_testbit; [done..|]. intros i Hi.
  by rewrite Z.lxor_spec, (testbit_small n a), (testbit_small n b).
Qed.

Lemma crc_bit_odd c :
  crc_bit c = if Z.odd c then Z.lxor (Z.shiftr c 1) 0xA001 else Z.shiftr c 1.
Proof.
  assert (Z.land c 1 = Z.b2z (Z.odd c)) as Hl.
  { change (Z.land c (Z.ones 1) = Z.b2z (Z.odd c)). rewrite Z.land_ones by lia.
    change (2 ^ 1) with 2. rewrite Zmod_odd. by destruct (Z.odd c). }
  unfold crc_bit. rewrite Hl. by destruct (Z.odd c).
Qed.

Lemma crc_bit_spec c i : 0 <= i →
  Z.testbit (crc_bit c) i
  = xorb (Z.testbit c (i + 1)) (Z.testbit c 0 && Z.testbit 0xA001 i).
Proof.
  intros Hi. rewrite crc_bit_odd, <-Z.bit0_odd. destruct (Z.testbit c 0); simpl.
  - by rewrite Z.lxor_spec, Z.shiftr_spec.
  - by rewrite Z.shiftr_spec, xorb_false_r.
Qed.

Lemma crc_bit_ok c : crc_ok c → crc_ok (crc_bit c).
Proof.
  unfold crc_ok. intros Hc.
  assert (0 <= Z.shiftr c 1 < 2 ^ 16).
  { rewrite Z.shiftr_div_pow2 by lia. change (2 ^ 1) with 2.
    change (2 ^ 16) with 65536. Z.div_mod_to_equations; lia. }
  rewrite crc_bit_odd. destruct (Z.odd c); [|done].
  change 65536 with (2 ^ 16). apply lxor_ok; lia.
Qed.

Lemma crc_bit_lxor a b : crc_bit (Z.lxor a b) = Z.lxor (crc_bit a) (crc_bit b).
Proof.
  apply Z.bits_inj_iff'. intros i Hi.
  rewrite Z.lxor_spec, !crc_bit_spec, !Z.lxor_spec by lia.
  destruct (Z.testbit a (i + 1)), (Z.testbit b (i + 1)), (Z.testbit a 0),
    (Z.testbit b 0), (Z.testbit 0xA001 i); done.
Qed.

Lemma crc_bits_S n c : crc_bits (S n) c = crc_bits n (crc_bit c).
Proof. done. Qed.

Lemma crc_bits_lxor n a b :
  crc_bits n (Z.lxor a b) = Z.lxor (crc_bits n a) (crc_bits n b).
Proof.
  revert a b. induction n as [|n IH]; intros a b; [done|].
  by rewrite !crc_bits_S, crc_bit_lxor, IH.
Qed.

Lemma crc_bits_ok n c : crc_ok c → crc_ok (crc_bits n c).
Proof. revert c. induction n; intros c ?; [done|]. rewrite crc_bits_S. eauto using crc_bit_ok. Qed.

Lemma crc_fold_ok data c : crc_ok c → bytes_ok data → crc_ok (crc_fold c data).
Proof.
  unfold crc_fold. revert c.
  induction data as [|d data IH]; intros c Hc Hd; simpl; [done|].
  inversion Hd; subst. apply IH; [|done]. apply crc_bits_ok.
  apply (lxor_ok 16); unfold crc_ok, byte_ok in *; lia.
Qed.

Lemma crc_fold_app c d1 d2 : crc_fold c (d1 ++ d2) = crc_fold (crc_fold c d1) d2.
Proof. apply foldl_app. Qed.

Lemma Crc16GetFromSeed_fold seed data len :
  (len ≤ length data)%nat →
  Crc16GetFromSeed seed data len = Ok (crc_fold seed (take len data)).
Proof.
  revert seed data. induction len as [|len IH]; intros seed data Hl; [done|].
  destruct data as [|d data]; simpl in *; [lia|].
  rewrite IH by lia. done.
Qed.

Lemma Crc16Get_fold data len :
  (len ≤ length data)%nat →
  Crc16Get data len = Ok (crc_fold 0xFFFF (take len data)).
Proof. apply Crc16GetFromSeed_fold. Qed.

End crc_lemmas.

Create HintDb crc.
#[export] Hint Resolve crc_bit_ok crc_bits_ok crc_fold_ok : crc.

(** ** Feeding a byte is feeding its eight bits *)

Section bitwise.

Lemma low_bits_S n z : low_bits (S n) z = Z.testbit z 0 :: low_bits n (Z.div2 z).
Proof.
  unfold low_bits. cbn [seq fmap list_fmap]. f_equal.
  rewrite <-fmap_S_seq, <-list_fmap_compose. apply list_fmap_ext.
  intros _ i _. cbn. rewrite Z.div2_spec, Z.shiftr_spec by lia. f_equal. lia.
Qed.

Lemma length_low_bits n z : length (low_bits n z) = n.
Proof. unfold low_bits. by rewrite length_fmap, length_seq. Qed.

Lemma crc_bit_double d : 0 <= d → crc_bit (2 * d) = d.
Proof.
  intros. rewrite crc_bit_odd, Z.odd_mul. simpl.
  rewrite Z.shiftr_div_pow2 by lia. change (2 ^ 1) with 2. Z.div_mod_to_equations; lia.
Qed.

(** The lowest bit and the rest of a number, as an exclusive or. *)
Lemma lxor_split d : 0 <= d →
  d = Z.lxor (Z.b2z (Z.testbit d 0)) (2 * Z.div2 d).
Proof.
  intros. rewrite Z.bit0_odd.
  rewrite <-Z.add_nocarry_lxor.
  - rewrite (Z.div2_odd d) at 1. lia.
  - apply Z.bits_inj_iff'. intros i Hi. rewrite Z.land_spec, Z.bits_0.
    destruct (decide (i = 0)) as [->|].
    + by rewrite Z.testbit_even_0, andb_false_r.
    + by rewrite (testbit_small 1 (Z.b2z _)); [|destruct (Z.odd d); simpl; lia|lia].
Qed.

Lemma crc_in_lxor c b d : 0 <= d →
  crc_bit (Z.lxor c (Z.lxor (Z.b2z b) (2 * d))) = Z.lxor (crc_in c b) d.
Proof.
  intros. by rewrite <-Z.lxor_assoc, crc_bit_lxor, crc_bit_double.
Qed.

Lemma crc_bits_run n c d : 0 <= d < 2 ^ Z.of_nat n →
  crc_bits n (Z.lxor c d) = crc_run c (low_bits n d).
Proof.
  revert c d. induction n as [|n IH]; intros c d Hd.
  { change (2 ^ Z.of_nat 0) with 1 in Hd. assert (d = 0) as -> by lia. by rewrite Z.lxor_0_r. }
  rewrite crc_bits_S, low_bits_S. cbn [crc_run foldl].
  assert (0 <= Z.div2 d < 2 ^ Z.of_nat n).
  { rewrite Z.div2_div. rewrite Nat2Z.inj_succ, Z.pow_succ_r in Hd by lia.
    Z.div_mod_to_equations; lia. }
  rewrite (lxor_split d) at 1 by lia. rewrite crc_in_lxor by lia. by apply IH.
Qed.

Lemma crc_run_app c b1 b2 : crc_run c (b1 ++ b2) = crc_run (crc_run c b1) b2.
Proof. apply foldl_app. Qed.

Lemma crc_fold_run c data : bytes_ok data → crc_fold c data = crc_run c (msg_bits data).
Proof.
  intros Hd. revert c. induction Hd as [|d data Hd _ IH]; intros c; [done|].
  change (crc_fold (crc_bits 8 (Z.lxor c d)) data
          = crc_run c (low_bits 8 d ++ msg_bits data)).
  by rewrite crc_run_app, IH, (crc_bits_run 8 c d Hd).
Qed.

Lemma crc_in_ok c b : crc_ok c → crc_ok (crc_in c b).
Proof.
  intros. apply crc_bit_ok, (lxor_ok 16); [lia|done|destruct b; simpl; lia].
Qed.

Lemma crc_run_ok c bs : crc_ok c → crc_ok (crc_run c bs).
Proof. unfold crc_run. revert c. induction bs; simpl; eauto using crc_in_ok. Qed.

Lemma crc_run_lxor a b xs ys : length xs = length ys →
  crc_run (Z.lxor a b) (zip_with xorb xs ys) = Z.lxor (crc_run a xs) (crc_run b ys).
Proof.
  unfold crc_run. revert a b ys. induction xs as [|x xs IH]; intros a b [|y ys] Hl; [done..|].
  simpl in *. rewrite <-IH by lia. f_equal. unfold crc_in. rewrite <-crc_bit_lxor. f_equal.
  replace (Z.b2z (xorb x y)) with (Z.lxor (Z.b2z x) (Z.b2z y)) by by destruct x, y.
  apply Z.bits_inj. intros i. rewrite !Z.lxor_spec.
  by destruct (Z.testbit a i), (Z.testbit b i), (Z.testbit (Z.b2z x) i), (Z.testbit (Z.b2z y) i).
Qed.

End bitwise.

(** ** The residue of a checked frame *)

Section residue.

Lemma crc_bits_shift n x : (∀ i, 0 <= i < Z.of_nat n → Z.testbit x i = false) →
  crc_bits n x = Z.shiftr x (Z.of_nat n).
Proof.
  revert x. induction n as [|n IH]; intros x Hx; [by rewrite Z.shiftr_0_r|].
  rewrite crc_bits_S, crc_bit_odd, <-Z.bit0_odd, (Hx 0) by lia.
  rewrite IH; [rewrite Z.shiftr_shiftr by lia; f_equal; lia|].
  intros i Hi. rewrite Z.shiftr_spec by lia. apply Hx. lia.
Qed.

Lemma crc_fold_own c : crc_ok c → crc_fold c [Z.land c 255; Z.shiftr c 8] = 0.
Proof.
  intros Hc. unfold crc_fold. cbn [foldl].
  rewrite (crc_bits_shift 8 (Z.lxor c (Z.land c 255))).
  2:{ intros i Hi. change 255 with (Z.ones 8).
      rewrite Z.lxor_spec, Z.land_spec, Z.ones_spec_low by lia.
      by rewrite andb_true_r, xorb_nilpotent. }
  assert (Z.shiftr (Z.lxor c (Z.land c 255)) (Z.of_nat 8) = Z.shiftr c 8) as ->.
  { apply Z.bits_inj_iff'. intros i Hi. change 255 with (Z.ones 8).
    rewrite !Z.shiftr_spec, Z.lxor_spec, Z.land_spec, Z.ones_spec_high by lia.
    by rewrite andb_false_r, xorb_false_r. }
  by rewrite Z.lxor_nilpotent.
Qed.

(** The checksum of [data], as the two bytes the slave appends. *)
Definition crc_trailer (c : Z) : bytes := [Z.land c 0x00ff; Z.shiftr c 8].

Lemma crc_fold_trailer data : bytes_ok data →
  crc_fold 0xFFFF (data ++ crc_trailer (crc_fold 0xFFFF data)) = 0.
Proof.
  intros Hd. rewrite crc_fold_app. apply crc_fold_own.
  apply crc_fold_ok; [unfold crc_ok; lia|done].
Qed.

End residue.

(** ** Bursts *)

Section bursts.

Lemma bits_val_range bs : 0 <= bits_val bs < 2 ^ Z.of_nat (length bs).
Proof.
  induction bs as [|b bs IH]; [done|]. cbn [bits_val length].
  rewrite Nat2Z.inj_succ, Z.pow_succ_r by lia. destruct b; simpl Z.b2z; lia.
Qed.

Lemma crc_in_val c b v : crc_ok c → 0 <= v < 2 ^ 15 →
  crc_in c b = v ↔ c = Z.lxor (Z.b2z b) (2 * v).
Proof.
  intros Hc Hv. split.
  - intros Hin.
    assert (crc_ok (Z.lxor c (Z.b2z b))) as Hx
      by (apply (lxor_ok 16); [lia|done|destruct b; simpl; lia]).
    assert (Z.testbit (Z.lxor c (Z.b2z b)) 0 = false) as Hev.
    { apply not_true_is_false. intros Ht.
      assert (Z.testbit (crc_in c b) 15 = true) as H15.
      { unfold crc_in. rewrite crc_bit_spec, Ht by lia.
        by rewrite (testbit_small 16 (Z.lxor c (Z.b2z b))). }
      rewrite Hin, (testbit_small 15 v) in H15; [done|lia..]. }
    unfold crc_in in Hin. rewrite crc_bit_odd, <-Z.bit0_odd, Hev in Hin.
    rewrite Z.bit0_odd in Hev.
    assert (Z.lxor c (Z.b2z b) = 2 * v) as He.
    { rewrite <-Hin, Z.shiftr_div_pow2 by lia. change (2 ^ 1) with 2.
      pose proof (Z.div2_odd (Z.lxor c (Z.b2z b))) as Hd.
      rewrite Hev, Z.div2_div in Hd. simpl in Hd. lia. }
    by rewrite <-He, (Z.lxor_comm c), <-Z.lxor_assoc, Z.lxor_nilpotent.
  - intros ->. unfold crc_in.
    rewrite (Z.lxor_comm (Z.b2z b)), Z.lxor_assoc, Z.lxor_nilpotent, Z.lxor_0_r.
    apply crc_bit_double. lia.
Qed.

(** A register reaches zero over at most 16 bits only if it holds them. *)
Lemma crc_run_zero bs c : crc_ok c → (length bs ≤ 16)%nat →
  crc_run c bs = 0 ↔ c = bits_val bs.
Proof.
  revert c. induction bs as [|b bs IH]; intros c Hc Hl; [done|].
  cbn [crc_run foldl length bits_val] in *. fold (crc_run (crc_in c b) bs).
  pose proof (bits_val_range bs) as Hr.
  assert (2 ^ Z.of_nat (length bs) <= 2 ^ 15) by (apply Z.pow_le_mono_r; lia).
  rewrite IH by (auto using crc_in_ok || lia). rewrite crc_in_val by (done || lia).
  assert (Z.lxor (Z.b2z b) (2 * bits_val bs) = Z.b2z b + 2 * bits_val bs) as ->; [|done].
  rewrite (lxor_split (Z.b2z b + 2 * bits_val bs)) by (destruct b; simpl; lia).
  rewrite Z.add_comm, Z.testbit_0_r, Z.div2_div, (Z.mul_comm 2), Z.div_add_l by lia.
  rewrite (Z.div_small (Z.b2z b)) by (destruct b; simpl; lia). f_equal. lia.
Qed.

Lemma bits_val_zero bs : bits_val bs = 0 ↔ Forall (λ b, b = false) bs.
Proof.
  induction bs as [|b bs IH]; [done|]. pose proof (bits_val_range bs).
  rewrite Forall_cons_iff, <-IH. cbn [bits_val]. destruct b; simpl; split; [lia|naive_solver lia..].
Qed.

Lemma crc_run_zeros n : crc_run 0 (replicate n false) = 0.
Proof. by induction n. Qed.

Lemma crc_run_zeros_inj n c : crc_ok c → crc_run c (replicate n false) = 0 → c = 0.
Proof.
  revert c. induction n as [|n IH]; intros c Hc; [done|].
  cbn [replicate crc_run foldl]. intros H%IH; [|by apply crc_in_ok].
  apply crc_in_val in H; [|done|lia]. by rewrite H.
Qed.

(** An error pattern whose ones lie within 16 consecutive bits. *)
Definition burst16 (e : list bool) : Prop :=
  ∃ i bs j, e = replicate i false ++ bs ++ replicate j false ∧
            (length bs ≤ 16)%nat ∧ ¬ Forall (λ b, b = false) bs.

Lemma crc_run_burst e : burst16 e → crc_run 0 e ≠ 0.
Proof.
  intros (i & bs & j & -> & Hl & Hn) H.
  rewrite !crc_run_app, crc_run_zeros in H.
  apply crc_run_zeros_inj in H; [|apply crc_run_ok; by unfold crc_ok].
  apply crc_run_zero in H; [|by unfold crc_ok|done]. by apply Hn, bits_val_zero.
Qed.

Lemma low_bits_lxor n a b :
  low_bits n (Z.lxor a b) = zip_with xorb (low_bits n a) (low_bits n b).
Proof.
  unfold low_bits. generalize (seq 0 n). induction l as [|i l IH]; [done|].
  cbn [fmap list_fmap zip_with]. by rewrite Z.lxor_spec, <-IH.
Qed.

Lemma msg_bits_lxor d e : length d = length e →
  msg_bits (zip_with Z.lxor d e) = zip_with xorb (msg_bits d) (msg_bits e).
Proof.
  revert e. induction d as [|x d IH]; intros [|y e] Hl; [done..|].
  unfold msg_bits. cbn [zip_with mbind list_bind]. fold (msg_bits d) (msg_bits e).
  unfold byte_bits. rewrite low_bits_lxor, zip_with_app.
  - f_equal. by apply IH; simpl in Hl; lia.
  - by rewrite !length_low_bits.
Qed.

Lemma length_msg_bits d : length (msg_bits d) = (8 * length d)%nat.
Proof.
  induction d as [|x d IH]; [done|]. unfold msg_bits in *. cbn [mbind list_bind].
  rewrite length_app, IH. unfold byte_bits. rewrite length_low_bits. simpl. lia.
Qed.

End bursts.

(** ** Long division *)

Section division.

Lemma length_xor_prefix p l : length (xor_prefix p l) = length l.
Proof. revert l. induction p as [|x p IH]; intros [|y l]; simpl; auto. Qed.

Lemma xor_prefix_snoc_false p l : xor_prefix (p ++ [false]) l = xor_prefix p l.
Proof.
  revert l. induction p as [|x p IH]; intros [|y l]; simpl; rewrite ?IH; by try destruct y.
Qed.

Lemma xor_prefix_comm p q l :
  xor_prefix p (xor_prefix q l) = xor_prefix q (xor_prefix p l).
Proof.
  revert p q. induction l as [|z l IH]; intros [|x p] [|y q]; simpl; try done.
  rewrite IH. by destruct x, y, z.
Qed.

Lemma xor_prefix_zip p q l : length p = length q →
  xor_prefix (zip_with xorb p q) l = xor_prefix p (xor_prefix q l).
Proof.
  revert q l. induction p as [|x p IH]; intros [|y q] [|z l] Hl; simpl in *; try done.
  rewrite IH by lia. by destruct x, y, z.
Qed.

Lemma xor_prefix_false n l : xor_prefix (replicate n false) l = l.
Proof.
  revert l. induction n as [|n IH]; intros [|y l]; simpl; try done.
  by rewrite IH; destruct y.
Qed.

Lemma xor_prefix_zeros p : xor_prefix p (replicate (length p) false) = p.
Proof. induction p as [|x p IH]; simpl; [done|]. by rewrite IH; destruct x. Qed.

(** What one bit of the message does to the sixteen coefficients. *)
Lemma reg_bits_crc_in c b : crc_ok c →
  reg_bits (crc_in c b) =
  zip_with xorb (tail (reg_bits c) ++ [false])
    (if xorb (Z.testbit c 0) b then crc_poly else replicate 16 false).
Proof.
  intros Hc. unfold reg_bits, low_bits, crc_poly. cbn.
  unfold crc_in. rewrite !crc_bit_spec by lia. rewrite !Z.lxor_spec.
  assert (∀ i, 0 < i → Z.testbit (Z.b2z b) i = false) as Hb
    by (intros i Hi; apply (testbit_small 1); destruct b; simpl; lia).
  rewrite !(Hb (_ + 1)) by lia. rewrite !xorb_false_r.
  rewrite (testbit_small 16 c (Z.of_nat 15 + 1)) by (unfold crc_ok in Hc; lia).
  rewrite Z.b2z_bit0, !Z.bit0_odd. destruct (xorb (Z.odd c) b); reflexivity.
Qed.

Lemma gf2_rem_run bs c : crc_ok c →
  gf2_rem (length bs) crc_poly (xor_prefix (reg_bits c) (bs ++ replicate 16 false))
  = reg_bits (crc_run c bs).
Proof.
  revert c. induction bs as [|b bs IH]; intros c Hc.
  { apply (xor_prefix_zeros (reg_bits c)). }
  change (crc_run c (b :: bs)) with (crc_run (crc_in c b) bs).
  rewrite <-(IH (crc_in c b)), reg_bits_crc_in by auto using crc_in_ok.
  assert (reg_bits c = Z.testbit c 0 :: tail (reg_bits c)) as -> by done.
  cbn [length app gf2_rem xor_prefix tail]. f_equal.
  destruct (xorb (Z.testbit c 0) b); rewrite xor_prefix_zip by done.
  - by rewrite xor_prefix_comm, xor_prefix_snoc_false.
  - by rewrite xor_prefix_false, xor_prefix_snoc_false.
Qed.

End division.

(** ** Properties *)

(** The published check value of CRC-16/MODBUS, for the digits 1 to 9. *)
Example Crc16Get_check_value : Crc16Get (seqZ 0x31 9) 9 = Ok 0x4B37.
Proof. vm_compute. reflexivity. Qed.

(** Residue.  The checksum of any byte string, appended low byte first
    as [QBSlaveProcessFrame] appends it, makes the checksum of the whole
    string zero: this is the test [QBSlaveValidateFrame] applies. *)
Theorem Crc16Get_residue (data : bytes) (H : bytes_ok data) :
  ∃ crc, Crc16Get data (length data) = Ok crc ∧ 0 <= crc < 65536 ∧
    Crc16Get (data ++ crc_trailer crc) (length data + 2) = Ok 0.
Proof.
  exists (crc_fold 0xFFFF data). rewrite Crc16Get_fold, firstn_all by done.
  split_and!; [done|apply crc_fold_ok; [unfold crc_ok; lia|done]..|].
  rewrite Crc16Get_fold, take_ge by (rewrite length_app; simpl; lia).
  by rewrite crc_fold_trailer.
Qed.

Example Crc16Get_residue_witness :
  Crc16Get [1; 16; 0; 0; 10] 5 = Ok 0x079D ∧ (∃ crc, Crc16Get [1; 16; 0; 0; 10] 5 = Ok crc ∧
    0 <= crc < 65536 ∧ Crc16Get ([1; 16; 0; 0; 10] ++ crc_trailer crc) 7 = Ok 0).
Proof.
  split; [vm_compute; reflexivity|].
  apply (Crc16Get_residue [1; 16; 0; 0; 10]).
  repeat constructor; unfold byte_ok; lia.
Defined.

(** C19 (equivalence).  The shift register computes the remainder of the
    message times x^16 by x^16 + x^15 + x^2 + 1 over GF(2), with the seed
    xored into the leading coefficients: its bits are the coefficients of the
    reference long division. *)
Theorem Crc16GetFromSeed_division (seed : Z) (data : bytes)
    (Hs : 0 <= seed < 65536) (H : bytes_ok data) :
  ∃ crc, Crc16GetFromSeed seed data (length data) = Ok crc ∧
    reg_bits crc = gf2_rem (8 * length data) crc_poly (crc_dividend seed data).
Proof.
  exists (crc_fold seed data). rewrite Crc16GetFromSeed_fold, firstn_all by done.
  split; [done|]. rewrite crc_fold_run by done. unfold crc_dividend.
  by rewrite <-length_msg_bits, gf2_rem_run.
Qed.

Example Crc16GetFromSeed_division_witness :
  ∃ crc, Crc16GetFromSeed 0xFFFF [1; 2; 250] 3 = Ok crc ∧
    reg_bits crc = gf2_rem 24 crc_poly (crc_dividend 0xFFFF [1; 2; 250]).
Proof.
  apply (Crc16GetFromSeed_division 0xFFFF [1; 2; 250]); [lia|].
  repeat constructor; unfold byte_ok; lia.
Defined.

(** C18 (burst detection).  An error that flips at least one bit of a byte
    string, all within 16 consecutive bits, changes the checksum; so no
    frame with such an error passes the zero test its original passed. *)
Theorem Crc16Get_detects_burst (data err : bytes)
    (Hd : bytes_ok data) (He : bytes_ok err) (Hl : length data = length err)
    (Hb : burst16 (msg_bits err)) :
  Crc16Get (zip_with Z.lxor data err) (length data) ≠ Crc16Get data (length data).
Proof.
  assert (bytes_ok (zip_with Z.lxor data err)) as Hx.
  { clear Hb. revert err He Hl. induction Hd as [|x data Hx _ IH]; intros [|y err] He Hl;
      try by constructor. inversion He; subst.
    constructor; [apply (lxor_ok 8); unfold byte_ok in *; lia|]. apply IH; [done|simpl in Hl; lia]. }
  rewrite !Crc16Get_fold by (rewrite ?length_zip_with; lia).
  rewrite !take_ge by (rewrite ?length_zip_with; lia).
  rewrite !crc_fold_run, msg_bits_lxor by done.
  rewrite <-(Z.lxor_0_r 0xFFFF) at 1.
  rewrite crc_run_lxor by (rewrite !length_msg_bits; lia).
  intros [= H]. apply (crc_run_burst _ Hb).
  apply (f_equal (Z.lxor (crc_run 0xFFFF (msg_bits data)))) in H.
  by rewrite <-Z.lxor_assoc, Z.lxor_nilpotent, Z.lxor_0_l in H.
Qed.

Example Crc16Get_detects_burst_witness :
  Crc16Get [1; 16 - 1; 8] 3 ≠ Crc16Get [1; 16; 0] 3.
Proof.
  apply (Crc16Get_detects_burst [1; 16; 0] [0; 31; 8]).
  1,2: repeat constructor; unfold byte_ok; lia.
  - done.
  - exists 8%nat, (low_bits 12 (31 + 8 * 256)), 4%nat. split_and!; [done|simpl; lia|].
    intros H. by inversion H.
Defined.
