(* ===== verification/CString.v ===== *)
(** * CString: the fragment of the C library's strings the firmware uses

    A [char] is a byte; the contents of a C string are the bytes before its
    terminating NUL, and a [char] array is a list of bytes of fixed length.
    [strcpy], [strncpy], [sprintf] into an array fault when they write past
    its end.  Decimal and hexadecimal conversions are executable and come
    with the round trips the other files use. *)

From S2P Require Import Prelude.

(** ** Literals and comparison *)

(** The bytes of a string literal, without the terminating NUL. *)
Definition lit (s : string) : bytes := Z.of_nat ∘ Ascii.nat_of_ascii <$> String.list_ascii_of_string s.

(** The contents of the C string stored in an array: the bytes before the
    first NUL, when there is one. *)
Fixpoint cstr (buf : bytes) : option bytes :=
  match buf with
  | [] => None
  | c :: buf => if bool_decide (c = 0) then Some [] else (c ::.) <$> cstr buf
  end.

(** The bytes before the first NUL, or all of them. *)
Fixpoint until_nul (buf : bytes) : bytes :=
  match buf with
  | [] => []
  | c :: buf => if bool_decide (c = 0) then [] else c :: until_nul buf
  end.

Definition no_nul (s : bytes) : Prop := Forall (λ c, c ≠ 0) s.

(** [strcmp(a, b) == 0] and [strncmp(a, b, n) == 0]. *)
Definition strcmp_eq (a b : bytes) : bool := bool_decide (a = b).
Definition strncmp_eq (n : nat) (a b : bytes) : bool := bool_decide (take n a = take n b).

(** ** Arrays *)

Definition memset0 (n : nat) : bytes := replicate n 0.

(** [strcpy(dst, src)] into an array of [length dst] bytes. *)
Definition strcpy (dst src : bytes) : res bytes :=
  if bool_decide (length src < length dst)%nat
  then Ok (src ++ 0 :: drop (S (length src)) dst)
  else Fault OutOfBounds.

(** [strncpy(dst, src, n)] writes exactly [n] bytes, padding with NULs. *)
Definition strncpy (dst src : bytes) (n : nat) : res bytes :=
  if bool_decide (n ≤ length dst)%nat
  then Ok (take n (src ++ replicate n 0) ++ drop n dst)
  else Fault OutOfBounds.

(** [sprintf] into an array of [n] bytes: the text and its NUL must fit. *)
Definition sprintf (n : nat) (text : bytes) : res bytes :=
  if bool_decide (length text < n)%nat then Ok text else Fault OutOfBounds.

(** [snprintf(dst, n, ...)]: what does not fit is dropped. *)
Definition snprintf (n : nat) (text : bytes) : bytes := take (n - 1) text.

(** [buf[i] = v]. *)
Definition store (buf : bytes) (i : Z) (v : Z) : res bytes :=
  if bool_decide (0 <= i < Z.of_nat (length buf)) then Ok (<[Z.to_nat i := v]> buf)
  else Fault OutOfBounds.

(** [buf[i]]. *)
Definition load (buf : bytes) (i : Z) : res Z :=
  if bool_decide (0 <= i < Z.of_nat (length buf))
  then from_option_res OutOfBounds (buf !! Z.to_nat i) else Fault OutOfBounds.

(** ** Printing integers *)

Definition is_digit (c : Z) : bool := bool_decide (48 <= c <= 57).
Definition digit (d : Z) : Z := 48 + d.

(** The decimal digits of [n], the first of them at the head. *)
Fixpoint dec_digits (fuel : nat) (n : Z) (acc : bytes) : bytes :=
  match fuel with
  | O => acc
  | S fuel =>
      let acc := digit (n mod 10) :: acc in
      if bool_decide (n < 10) then acc else dec_digits fuel (n / 10) acc
  end.

Definition fmt_u (n : Z) : bytes := dec_digits (S (Z.to_nat (Z.log2 n))) n [].

(** "%d" *)
Definition fmt_d (v : Z) : bytes :=
  if bool_decide (v < 0) then lit "-" ++ fmt_u (- v) else fmt_u v.

(** "%03d": zeros up to a width of three, the sign counted. *)
Definition zero_pad (w : nat) (s : bytes) : bytes := replicate (w - length s) 48 ++ s.

Definition fmt_03d (v : Z) : bytes :=
  if bool_decide (v < 0) then lit "-" ++ zero_pad 2 (fmt_u (- v)) else zero_pad 3 (fmt_u v).

(** "%02X" of a byte. *)
Definition hex_digit (d : Z) : Z := if bool_decide (d < 10) then 48 + d else 55 + d.
Definition fmt_02X (b : Z) : bytes := [hex_digit (b / 16); hex_digit (b mod 16)].

(** JSON text: a name in quotes, and a member with a string value. *)
Definition quoted (s : bytes) : bytes := [34] ++ s ++ [34].
Definition member (key value : bytes) : bytes := quoted key ++ lit ":" ++ value.
Definition braces (s : bytes) : bytes := lit "{" ++ s ++ lit "}".

(** ** Scanning integers *)

Definition is_space (c : Z) : bool := bool_decide (c = 32 ∨ 9 <= c <= 13).

Fixpoint skip_spaces (s : bytes) : bytes :=
  match s with c :: s' => if is_space c then skip_spaces s' else s | [] => [] end.

Fixpoint scan_digits (acc : Z) (s : bytes) : Z * bytes :=
  match s with
  | c :: s' => if is_digit c then scan_digits (10 * acc + (c - 48)) s' else (acc, s)
  | [] => (acc, [])
  end.

(** Digits, at least one of them. *)
Definition scan_unsigned (s : bytes) : option (Z * bytes) :=
  match s with
  | c :: _ => if is_digit c then Some (scan_digits 0 s) else None
  | [] => None
  end.

(** The conversion "%d" (and the syntax of "%u"): blanks, a sign, digits. *)
Definition scan_int (s : bytes) : option (Z * bytes) :=
  match skip_spaces s with
  | 45 :: s' => '(v, r) ← scan_unsigned s'; Some (- v, r)
  | 43 :: s' => scan_unsigned s'
  | s' => scan_unsigned s'
  end.

(** A literal character of the format. *)
Definition scan_char (c : Z) (s : bytes) : option bytes :=
  match s with d :: s' => if bool_decide (c = d) then Some s' else None | [] => None end.

(** Storing a conversion into an object of range [lo, hi] is defined only
    for the values of the range. *)
Definition fits (lo hi v : Z) : res Z :=
  if bool_decide (lo <= v <= hi) then Ok v else Fault BadConversion.
Definition fits_int : Z → res Z := fits (-2147483648) 2147483647.
Definition fits_u8 : Z → res Z := fits 0 255.

(** [sscanf(s, "%d", &x)]: [x] keeps its value when there is no match. *)
Definition sscanf_d (s : bytes) (x : Z) : res Z :=
  match scan_int s with Some (v, _) => fits_int v | None => Ok x end.

(** [sscanf(s, "%d,%d,%d", &x, &y, &z)] with a range for the objects:
    conversions are stored until the first that does not match. *)
Definition sscanf_3 (fit : Z → res Z) (s : bytes) (xyz : Z * Z * Z) : res (Z * Z * Z) :=
  let '(x, y, z) := xyz in
  match scan_int s with
  | None => Ok (x, y, z)
  | Some (v, s) =>
      x ← fit v;
      match scan_char 44 s ≫= scan_int with
      | None => Ok (x, y, z)
      | Some (v, s) =>
          y ← fit v;
          match scan_char 44 s ≫= scan_int with
          | None => Ok (x, y, z)
          | Some (v, _) => z ← fit v; Ok (x, y, z)
          end
      end
  end.

(** ** Lines *)

(** [fgets(line, n, file)] on the unread bytes of the file: at most [n - 1]
    bytes, up to and including a newline.  [None] at the end of the file. *)
Fixpoint fgets_split (n : nat) (s : bytes) : bytes * bytes :=
  match n, s with
  | S n, c :: s =>
      if bool_decide (c = 10) then ([c], s)
      else let '(l, r) := fgets_split n s in (c :: l, r)
  | _, _ => ([], s)
  end.

Definition fgets (n : nat) (s : bytes) : option (bytes * bytes) :=
  match s with [] => None | _ => Some (fgets_split (n - 1) s) end.

(** [line[strcspn(line, "\r\n")] = 0]: the contents of the line as a C string. *)
Fixpoint cut_eol (line : bytes) : bytes :=
  match line with
  | [] => []
  | c :: line => if bool_decide (c = 0 ∨ c = 10 ∨ c = 13) then [] else c :: cut_eol line
  end.

(** ** Lemmas: arrays *)

Create HintDb cstring.

Lemma length_strcpy dst src buf : strcpy dst src = Ok buf → length buf = length dst.
Proof.
  unfold strcpy. case_bool_decide; [|done]. intros [= <-].
  rewrite length_app. cbn [length]. rewrite length_drop. lia.
Qed.

Lemma length_strncpy dst src n buf : strncpy dst src n = Ok buf → length buf = length dst.
Proof.
  unfold strncpy. case_bool_decide; [|done]. intros [= <-].
  rewrite length_app, length_take, length_app, length_replicate, length_drop. lia.
Qed.

Lemma length_until_nul_app (a b : bytes) : (length (until_nul (a ++ 0%Z :: b)) ≤ length a)%nat.
Proof. induction a as [|x a IH]; simpl; [done|]. case_bool_decide; simpl; lia. Qed.

Lemma length_until_nul (s : bytes) : (length (until_nul s) ≤ length s)%nat.
Proof. induction s as [|c s IH]; simpl; [done|]. case_bool_decide; simpl; lia. Qed.

(** The string in an array after [strcpy] is no longer than its source. *)
Lemma strcpy_text dst src buf : strcpy dst src = Ok buf → (length (until_nul buf) ≤ length src)%nat.
Proof.
  unfold strcpy. case_bool_decide; [|done]. intros [= <-]. apply length_until_nul_app.
Qed.

Lemma cstr_app s buf : no_nul s → cstr (s ++ 0 :: buf) = Some s.
Proof.
  intros Hs. induction Hs as [|c s Hc _ IH]; simpl; [done|].
  rewrite bool_decide_false by done. by rewrite IH.
Qed.

Lemma until_nul_app s buf : no_nul s → until_nul (s ++ 0 :: buf) = s.
Proof.
  intros Hs. induction Hs as [|c s Hc _ IH]; simpl; [done|].
  rewrite bool_decide_false by done. by rewrite IH.
Qed.

Lemma until_nul_id s : no_nul s → until_nul s = s.
Proof.
  intros Hs. induction Hs as [|c s Hc _ IH]; simpl; [done|].
  rewrite bool_decide_false by done. by rewrite IH.
Qed.

Lemma until_nul_no_nul s : no_nul (until_nul s).
Proof.
  unfold no_nul. induction s as [|c s IH]; simpl; [constructor|].
  case_bool_decide; by constructor.
Qed.

Lemma store_Ok buf i v : 0 <= i < Z.of_nat (length buf) →
  store buf i v = Ok (<[Z.to_nat i := v]> buf).
Proof. intros. unfold store. by rewrite bool_decide_true. Qed.

Lemma load_Ok buf i : 0 <= i < Z.of_nat (length buf) →
  ∃ v, load buf i = Ok v ∧ buf !! Z.to_nat i = Some v.
Proof.
  intros. unfold load. rewrite bool_decide_true by done.
  destruct (lookup_lt_is_Some_2 buf (Z.to_nat i)) as [v Hv]; [lia|].
  exists v. by rewrite Hv.
Qed.

Lemma load_lookup buf i v : 0 <= i → buf !! Z.to_nat i = Some v → load buf i = Ok v.
Proof.
  intros Hi Hv. apply lookup_lt_Some in Hv as Hl.
  destruct (load_Ok buf i) as (v' & -> & Hv'); [lia|congruence].
Qed.

(** An array of [n] bytes that holds the string [s]. *)
Definition padded (n : nat) (s : bytes) : bytes := s ++ 0 :: memset0 (n - S (length s)).

Lemma strcpy_zeros n s : (length s < n)%nat →
  strcpy (memset0 n) s = Ok (padded n s).
Proof.
  intros. unfold strcpy, padded, memset0. rewrite length_replicate, bool_decide_true by lia.
  by rewrite drop_replicate.
Qed.

Lemma length_padded n s : (length s < n)%nat → length (padded n s) = n.
Proof. intros. unfold padded, memset0. rewrite length_app. cbn [length]. rewrite length_replicate. lia. Qed.

Lemma drop_padded n s : drop (S (length s)) (padded n s) = memset0 (n - S (length s)).
Proof.
  unfold padded. change (s ++ 0 :: memset0 (n - S (length s))) with (s ++ [0] ++ memset0 (n - S (length s))).
  rewrite app_assoc, drop_app_ge by (rewrite length_app; simpl; lia).
  rewrite length_app. simpl. rewrite Nat.add_1_r, Nat.sub_diag. by rewrite drop_0.
Qed.

Lemma no_nul_check (s : bytes) : forallb (λ c, negb (c =? 0)) s = true → no_nul s.
Proof.
  induction s as [|c s IH]; [constructor|]. cbn [forallb]. intros [Hc Hs]%andb_true_iff.
  apply Forall_cons; [lia|by apply IH].
Qed.

Lemma length_check (s : bytes) n : (length s <? n)%nat = true → (length s < n)%nat.
Proof. apply Nat.ltb_lt. Qed.

Lemma until_nul_padded n s : no_nul s → until_nul (padded n s) = s.
Proof. apply until_nul_app. Qed.

(** ** Lemmas: printing then scanning *)

Definition digits_val (acc : Z) (ds : bytes) : Z := foldl (λ a c, 10 * a + (c - 48)) acc ds.

(** The next character, if any, is not a digit. *)
Definition no_digit_head (s : bytes) : Prop := ∀ c s', s = c :: s' → is_digit c = false.

Definition all_digits (ds : bytes) : Prop := Forall (λ c, is_digit c = true) ds.

Lemma is_digit_digit d : 0 <= d < 10 → is_digit (digit d) = true.
Proof. intros. unfold is_digit, digit. by rewrite bool_decide_true by lia. Qed.

Lemma dec_digits_spec fuel n acc : (0 < fuel)%nat → 0 <= n < 2 ^ Z.of_nat fuel →
  ∃ ds, dec_digits fuel n acc = ds ++ acc ∧ all_digits ds ∧ ds ≠ [] ∧ digits_val 0 ds = n.
Proof.
  revert n acc. induction fuel as [|fuel IH]; intros n acc Hf Hn; [lia|].
  cbn [dec_digits]. pose proof (Z.mod_pos_bound n 10).
  case_bool_decide as Hlt.
  - exists [digit (n mod 10)]. split_and!; [done| |done|].
    + constructor; [apply is_digit_digit; lia|constructor].
    + unfold digits_val, digit. simpl. rewrite Z.mod_small by lia. lia.
  - assert (0 < fuel)%nat.
    { destruct fuel; [|lia]. change (2 ^ Z.of_nat 1) with 2 in Hn. lia. }
    assert (0 <= n / 10 < 2 ^ Z.of_nat fuel).
    { rewrite Nat2Z.inj_succ, Z.pow_succ_r in Hn by lia. Z.div_mod_to_equations; lia. }
    destruct (IH (n / 10) (digit (n mod 10) :: acc)) as (ds & -> & Hds & Hne & Hv); [done..|].
    exists (ds ++ [digit (n mod 10)]). split_and!.
    + by rewrite <-app_assoc.
    + apply Forall_app. split; [done|].
      constructor; [apply is_digit_digit; lia|constructor].
    + by destruct ds.
    + unfold digits_val in *. rewrite foldl_app, Hv. simpl. unfold digit.
      Z.div_mod_to_equations; lia.
Qed.

Lemma fmt_u_spec n : 0 <= n →
  ∃ ds, fmt_u n = ds ∧ all_digits ds ∧ ds ≠ [] ∧ digits_val 0 ds = n.
Proof.
  intros Hn. unfold fmt_u.
  destruct (dec_digits_spec (S (Z.to_nat (Z.log2 n))) n []) as (ds & -> & ?); [lia| |].
  - pose proof (Z.log2_nonneg n). rewrite Nat2Z.inj_succ, Z2Nat.id by lia.
    destruct (decide (n = 0)) as [->|]; [done|]. pose proof (Z.log2_spec n). lia.
  - exists ds. by rewrite app_nil_r.
Qed.

Lemma scan_digits_app ds s a : all_digits ds → no_digit_head s →
  scan_digits a (ds ++ s) = (digits_val a ds, s).
Proof.
  intros Hds Hs. revert a. induction Hds as [|c ds Hc _ IH]; intros a; simpl.
  - destruct s as [|c s]; simpl; [done|]. by rewrite (Hs c s).
  - by rewrite Hc, IH.
Qed.

Lemma digits_val_zeros k ds : digits_val 0 (replicate k 48 ++ ds) = digits_val 0 ds.
Proof. induction k; [done|]. by unfold digits_val in *. Qed.

Lemma all_digits_pad w ds : all_digits ds → all_digits (zero_pad w ds).
Proof.
  intros. apply Forall_app. split; [|done]. by apply Forall_replicate.
Qed.

Lemma digits_no_space ds s : all_digits ds → ds ≠ [] → skip_spaces (ds ++ s) = ds ++ s.
Proof.
  intros Hds. destruct Hds as [|c ds Hc _]; [done|]. intros _. simpl.
  unfold is_digit, is_space in *. apply bool_decide_eq_true in Hc.
  rewrite bool_decide_false; [done|lia].
Qed.

Lemma scan_int_digits ds s : all_digits ds → ds ≠ [] → no_digit_head s →
  scan_int (ds ++ s) = Some (digits_val 0 ds, s).
Proof.
  intros Hds Hne Hs. unfold scan_int. rewrite digits_no_space by done.
  assert (scan_unsigned (ds ++ s) = Some (digits_val 0 ds, s)) as Hu.
  { destruct Hds as [|c ds Hc Hds]; [done|]. unfold scan_unsigned. cbn [app].
    rewrite Hc. f_equal. apply (scan_digits_app (c :: ds)); [by constructor|done]. }
  destruct Hds as [|c ds Hc Hds]; [done|]. cbn [app] in *.
  unfold is_digit in Hc. apply bool_decide_eq_true in Hc.
  assert (c = 48 ∨ c = 49 ∨ c = 50 ∨ c = 51 ∨ c = 52 ∨ c = 53 ∨ c = 54 ∨ c = 55 ∨ c = 56
    ∨ c = 57) by lia. by destruct_or!; subst c.
Qed.

Lemma scan_int_neg ds s : all_digits ds → ds ≠ [] → no_digit_head s →
  scan_int (lit "-" ++ ds ++ s) = Some (- digits_val 0 ds, s).
Proof.
  intros Hds Hne Hs. unfold scan_int. simpl.
  destruct Hds as [|c ds Hc Hds]; [done|]. unfold scan_unsigned. cbn [app]. rewrite Hc.
  pose proof (scan_digits_app (c :: ds) s 0) as H. cbn [app] in H.
  rewrite H; [done|by constructor|done].
Qed.

(** Scanning "%d" reads back what "%d" and "%03d" print. *)
Lemma scan_int_fmt_d v s : no_digit_head s → scan_int (fmt_d v ++ s) = Some (v, s).
Proof.
  intros Hs. unfold fmt_d. case_bool_decide.
  - destruct (fmt_u_spec (- v)) as (ds & -> & ? & ? & Hv); [lia|].
    rewrite <-app_assoc, scan_int_neg, Hv by done. do 2 f_equal. lia.
  - destruct (fmt_u_spec v) as (ds & -> & ? & ? & Hv); [lia|].
    by rewrite scan_int_digits, Hv.
Qed.

Lemma zero_pad_ne w ds : ds ≠ [] → zero_pad w ds ≠ [].
Proof. unfold zero_pad. intros ? [_ ?]%app_eq_nil. done. Qed.

Lemma scan_int_fmt_03d v s : no_digit_head s → scan_int (fmt_03d v ++ s) = Some (v, s).
Proof.
  intros Hs. unfold fmt_03d. case_bool_decide.
  - destruct (fmt_u_spec (- v)) as (ds & -> & ? & ? & Hv); [lia|].
    rewrite <-app_assoc, scan_int_neg by auto using all_digits_pad, zero_pad_ne.
    unfold zero_pad. rewrite digits_val_zeros, Hv. do 2 f_equal. lia.
  - destruct (fmt_u_spec v) as (ds & -> & ? & ? & Hv); [lia|].
    rewrite scan_int_digits by auto using all_digits_pad, zero_pad_ne.
    unfold zero_pad. by rewrite digits_val_zeros, Hv.
Qed.

(** ** Lemmas: the text of a number *)

Lemma length_dec_digits fuel k n acc : (0 < k)%nat → 0 <= n < 10 ^ Z.of_nat k →
  (length (dec_digits fuel n acc) ≤ k + length acc)%nat.
Proof.
  revert k n acc. induction fuel as [|fuel IH]; intros k n acc Hk Hn; cbn [dec_digits]; [lia|].
  case_bool_decide as Hlt; [simpl; lia|].
  destruct k as [|[|k]]; [lia| |].
  { change (10 ^ Z.of_nat 1) with 10 in Hn. lia. }
  rewrite Nat2Z.inj_succ, Z.pow_succ_r in Hn by lia.
  assert (0 <= n / 10 < 10 ^ Z.of_nat (S k)) by (Z.div_mod_to_equations; lia).
  etrans; [apply (IH (S k)); [lia|done]|]. simpl. lia.
Qed.

Lemma length_fmt_u k n : (0 < k)%nat → 0 <= n < 10 ^ Z.of_nat k → (length (fmt_u n) ≤ k)%nat.
Proof. intros. unfold fmt_u. etrans; [by apply (length_dec_digits _ k)|]. simpl. lia. Qed.

(** The values of an [int] take at most eleven characters. *)
Definition int_ok (v : Z) : Prop := -2147483648 <= v <= 2147483647.

Lemma length_fmt_03d v : int_ok v → (length (fmt_03d v) ≤ 11)%nat.
Proof.
  unfold int_ok, fmt_03d, zero_pad. intros. case_bool_decide.
  - assert (length (fmt_u (- v)) ≤ 10)%nat by (apply length_fmt_u; lia).
    rewrite !length_app, length_replicate. simpl. lia.
  - assert (length (fmt_u v) ≤ 10)%nat by (apply length_fmt_u; lia).
    rewrite length_app, length_replicate. lia.
Qed.

(** A character that ends neither a line nor a string. *)
Definition plain (c : Z) : Prop := c ≠ 0 ∧ c ≠ 10 ∧ c ≠ 13.

Lemma digits_plain ds : all_digits ds → Forall plain ds.
Proof.
  apply Forall_impl. intros c Hc. unfold is_digit in Hc. apply bool_decide_eq_true in Hc.
  unfold plain. lia.
Qed.

Lemma fmt_03d_plain v : Forall plain (fmt_03d v).
Proof.
  unfold fmt_03d. case_bool_decide.
  - apply Forall_app. split; [repeat constructor; done|].
    destruct (fmt_u_spec (- v)) as (ds & -> & ? & _); [lia|]. by apply digits_plain, all_digits_pad.
  - destruct (fmt_u_spec v) as (ds & -> & ? & _); [lia|]. by apply digits_plain, all_digits_pad.
Qed.

(** A line without its newline, as [fgets] and the cut at the newline give it. *)
Lemma fgets_line n line rest : (length line < n - 1)%nat → Forall plain line →
  fgets n (line ++ 10 :: rest) = Some (line ++ [10], rest).
Proof.
  intros Hl Hp. unfold fgets. destruct (line ++ 10 :: rest) eqn:E; [by destruct line|].
  rewrite <-E. clear E. f_equal. revert Hl. generalize (n - 1)%nat.
  induction Hp as [|c line Hc _ IH]; intros m Hl; (destruct m as [|m]; [simpl in Hl; lia|]).
  - done.
  - cbn [app fgets_split]. destruct Hc as (_ & Hc & _). rewrite bool_decide_false by done.
    rewrite IH by (simpl in Hl; lia). done.
Qed.

Lemma cut_eol_line line : Forall plain line → cut_eol (line ++ [10]) = line.
Proof.
  induction 1 as [|c line (? & ? & ?) _ IH]; [done|]. cbn [app cut_eol].
  rewrite bool_decide_false by lia. by rewrite IH.
Qed.
