(* ===== verification/World.v ===== *)
(** * World: the state of the firmware and the calls it makes outside

    The program is a set of global objects ([led], [sys], [player], [wifi],
    ...) and of file-scope variables.  Each gets a record here, with the
    source's field names, and [world] joins them with the SD card's files and
    with [hist], the calls the program has made to code outside the
    repository, the latest at the head.

    Code outside the repository (ESP-IDF, ESP-ADF, NimBLE, FreeRTOS) is the
    class [Env]: what such a call answers is an arbitrary function of the
    calls made so far.  cJSON is the class [CJSON]: its pointers are numbers
    (0 is NULL) and its accessors arbitrary functions on them. *)

From S2P Require Import Prelude CString.

(** ** Calls to code outside the repository *)

Inductive call :=
  (* esp_timer, FreeRTOS *)
  | esp_timer_get_time
  | vTaskDelay (ticks : Z)
  | xTaskCreate (name : bytes) (stack priority : Z)
  | vTaskDelete
  (* flash, SD card *)
  | nvs_flash_init
  | nvs_flash_erase
  | esp_periph_set_init
  | audio_board_sdcard_init
  | f_getfree
  (* ESP-ADF: pipeline, elements, codec, events *)
  | audio_board_init
  | audio_hal_ctrl_codec_start
  | audio_hal_set_volume (volume : Z)
  | audio_pipeline_init
  | fatfs_stream_init
  | i2s_stream_init
  | mp3_decoder_init
  | audio_pipeline_register (tag : bytes)
  | audio_pipeline_link (tags : list bytes)
  | audio_event_iface_init
  | audio_pipeline_set_listener
  | audio_event_iface_set_listener
  | audio_pipeline_stop
  | audio_pipeline_wait_for_stop
  | audio_pipeline_terminate
  | audio_element_set_uri (uri : bytes)
  | audio_pipeline_reset_ringbuffer
  | audio_pipeline_reset_elements
  | audio_element_getinfo
  | audio_element_setinfo
  | i2s_stream_set_clk
  | audio_pipeline_run
  | audio_pipeline_pause
  | audio_pipeline_resume
  | audio_element_get_state
  | audio_event_iface_listen
  (* UART *)
  | uart_write_bytes (b : Z)
  | uart_flush_input
  | xQueueReset
  (* NimBLE *)
  | ble_init
  | ble_setValue (value : bytes)
  | ble_notify
  | ble_startAdvertising
  (* WiFi driver *)
  | wifi_driver_init
  | esp_wifi_set_mode_sta
  | esp_wifi_set_config (ssid password : bytes)
  | esp_wifi_start
  | esp_wifi_stop
  | esp_wifi_connect
  | esp_wifi_disconnect
  | xEventGroupWaitBits (bits : Z)
  | xEventGroupSetBits (bits : Z)
  (* HTTP client *)
  | esp_http_client_perform (url body : bytes)
  | esp_http_client_cleanup
  | esp_http_client_close
  (* no call: a local variable is read that was never written *)
  | uninitialised_read.

#[export] Instance call_eq_dec : EqDecision call.
Proof. solve_decision. Defined.

(** ** What those calls answer *)

(** The states of [audio_element_get_state] the code distinguishes. *)
Inductive audio_element_state_t := AEL_STATE_RUNNING | AEL_STATE_PAUSED | AEL_STATE_other.

#[export] Instance audio_element_state_eq_dec : EqDecision audio_element_state_t.
Proof. solve_decision. Defined.

(** The parts of an [audio_event_iface_msg_t] the code tests. *)
Inductive msg_source_t := src_decoder | src_writer | src_other.
Inductive msg_cmd_t := AEL_MSG_CMD_REPORT_MUSIC_INFO | AEL_MSG_CMD_REPORT_STATUS | cmd_other.
Inductive msg_data_t := AEL_STATUS_STATE_STOPPED | AEL_STATUS_STATE_FINISHED | data_other.

#[export] Instance msg_source_eq_dec : EqDecision msg_source_t.
Proof. solve_decision. Defined.
#[export] Instance msg_cmd_eq_dec : EqDecision msg_cmd_t.
Proof. solve_decision. Defined.
#[export] Instance msg_data_eq_dec : EqDecision msg_data_t.
Proof. solve_decision. Defined.

Record audio_msg := {
  msg_is_element : bool;          (* source_type == AUDIO_ELEMENT_TYPE_ELEMENT *)
  msg_source : msg_source_t;
  msg_cmd : msg_cmd_t;
  msg_data : msg_data_t;
}.

(** The events [esp_http_client_perform] hands to an event handler. *)
Inductive http_event :=
  | HTTP_EVENT_ERROR
  | HTTP_EVENT_ON_CONNECTED
  | HTTP_EVENT_HEADER_SENT
  | HTTP_EVENT_ON_HEADER (key value : bytes)
  | HTTP_EVENT_ON_DATA (data : bytes)
  | HTTP_EVENT_ON_FINISH
  | HTTP_EVENT_DISCONNECTED
  | HTTP_EVENT_REDIRECT.

Record http_answer := {
  http_events : list http_event;
  http_ok : bool;                 (* the result is ESP_OK *)
  http_status : Z;
}.

(** A directory entry: its name, and whether it is a directory or a file. *)
Record dirent := { d_name : bytes; d_is_dir : bool; d_is_reg : bool }.

Class Env := {
  env_time : list call → Z;                      (* microseconds *)
  env_el_state : list call → audio_element_state_t;
  env_msg : list call → option audio_msg;        (* None: the listen timed out *)
  env_stack : list call → audio_msg;             (* what an uninitialised message holds *)
  env_bits : list call → Z;
  env_http : list call → http_answer;
  env_disconnects : list call → bool;            (* the cleanup delivers HTTP_EVENT_DISCONNECTED *)
  env_freed_close : list call → bool;            (* closing a freed client returns *)
  env_readdir : list call → bytes → option (list dirent);
  env_err : list call → Z;                       (* an esp_err_t, 0 is ESP_OK *)
  env_getfree : list call → option (Z * Z);      (* free clusters, cluster size *)
  FF_SS_SDCARD : Z;                              (* the bytes of a sector *)
}.

Class CJSON := {
  cJSON_Parse : bytes → Z;
  cJSON_ParseWithLength : bytes → Z;
  cJSON_Duplicate : Z → Z;
  cJSON_GetObjectItem : Z → bytes → Z;
  cJSON_GetObjectItemCaseSensitive : Z → bytes → Z;
  cJSON_GetArraySize : Z → Z;
  cJSON_GetArrayItem : Z → Z → Z;
  cJSON_IsString : Z → bool;
  cJSON_IsNumber : Z → bool;
  cJSON_IsArray : Z → bool;
  cJSON_IsTrue : Z → bool;
  valuestring : Z → option bytes;                (* None: a NULL char pointer *)
  valueint : Z → Z;
}.

(** ** Enumerations *)

(** led_app.h *)
Inductive landing_pad_led_states_et :=
  | ESP_IDLE_MODE | ESP_PLAYING_AUDIO | ESP_DOWNLOADING_AUDIO | ESP_DOWNLOADING_ERR
  | ESP_ERR | BAT_LOW | ESP_LP_LED_DEFINED_BY_RGB | SHUT_ME_DOWN_BY_ESP
  | ESP_BUSY_LAMP_MODE | POWER_OFF_IF_NO_LAMP | IMMEDIATE_POWER_OFF.

(** system.h *)
Inductive system_states_et :=
  | SYS_POST | SYS_INIT | SYS_IDLE | SYS_INIT_WIFI_CHECK | SYS_INIT_USER_ID_CHECK
  | SYS_TOY_DETECTED | SYS_PLAY_TOY | SYS_WAIT_FOR_PLAYER | SYS_PLAYING_COMPLETE
  | SYS_PLAY_NEXT | SYS_PLAY_PREVIOUS | SYS_RESUME_PLAYING | SYS_GET_DIRECTION
  | SYS_ERROR | SYS_READ_AUDIO_HEADER | SYS_PLAY_ACTIVITY | SYS_WAIT_ACTIVITY_RESP
  | SYS_PLAY_QNA | SYS_WAIT_QNA_RESP | SYS_INCORRECT_ANS_TRY1 | SYS_CORRECT_ANS
  | SYS_PLAY_NORMAL_AUDIO | SYS_DOWNLOAD_WIFI_CONN | SYS_DOWNLOAD_TOY
  | SYS_WIFI_CONNECT_ERR | SYS_WIFI_CRED_MISSING_ERR | SYS_SHUT_ME_DOWN | SYS_TURN_OFF.

#[export] Instance landing_pad_led_states_eq_dec : EqDecision landing_pad_led_states_et.
Proof. solve_decision. Defined.
#[export] Instance system_states_eq_dec : EqDecision system_states_et.
Proof. solve_decision. Defined.

(** The value of an enumerator is its position. *)
Definition pad_state_num (s : landing_pad_led_states_et) : Z :=
  match s with
  | ESP_IDLE_MODE => 0 | ESP_PLAYING_AUDIO => 1 | ESP_DOWNLOADING_AUDIO => 2
  | ESP_DOWNLOADING_ERR => 3 | ESP_ERR => 4 | BAT_LOW => 5 | ESP_LP_LED_DEFINED_BY_RGB => 6
  | SHUT_ME_DOWN_BY_ESP => 7 | ESP_BUSY_LAMP_MODE => 8 | POWER_OFF_IF_NO_LAMP => 9
  | IMMEDIATE_POWER_OFF => 10
  end.

Definition sys_states : list system_states_et :=
  [SYS_POST; SYS_INIT; SYS_IDLE; SYS_INIT_WIFI_CHECK; SYS_INIT_USER_ID_CHECK;
   SYS_TOY_DETECTED; SYS_PLAY_TOY; SYS_WAIT_FOR_PLAYER; SYS_PLAYING_COMPLETE;
   SYS_PLAY_NEXT; SYS_PLAY_PREVIOUS; SYS_RESUME_PLAYING; SYS_GET_DIRECTION;
   SYS_ERROR; SYS_READ_AUDIO_HEADER; SYS_PLAY_ACTIVITY; SYS_WAIT_ACTIVITY_RESP;
   SYS_PLAY_QNA; SYS_WAIT_QNA_RESP; SYS_INCORRECT_ANS_TRY1; SYS_CORRECT_ANS;
   SYS_PLAY_NORMAL_AUDIO; SYS_DOWNLOAD_WIFI_CONN; SYS_DOWNLOAD_TOY;
   SYS_WIFI_CONNECT_ERR; SYS_WIFI_CRED_MISSING_ERR; SYS_SHUT_ME_DOWN; SYS_TURN_OFF].

Definition sys_state_num (s : system_states_et) : Z :=
  match list_find (λ x, x = s) sys_states with Some (i, _) => Z.of_nat i | None => -1 end.

(** qbus_s.h *)
Inductive qBSlaveState_et := QBS_INIT | QBS_IDLE | QBS_FRAME_RCV | QBS_SEND_FRAME | QBS_STOP.
Inductive qBRegRetCode_et := QB_REG_SUCCESS | QB_REG_ERR_FUNC_CODE | QB_REG_ERR_ADDR.

#[export] Instance qBSlaveState_eq_dec : EqDecision qBSlaveState_et.
Proof. solve_decision. Defined.
#[export] Instance qBRegRetCode_eq_dec : EqDecision qBRegRetCode_et.
Proof. solve_decision. Defined.

Definition ret_code_num (r : qBRegRetCode_et) : Z :=
  match r with QB_REG_SUCCESS => 0 | QB_REG_ERR_FUNC_CODE => 1 | QB_REG_ERR_ADDR => 2 end.

(** [turn_table_direction_et]; the qbus stores any byte into it. *)
Definition eNORTH : Z := 0.
Definition eEAST : Z := 1.
Definition eWEST : Z := 2.
Definition eSOUTH : Z := 3.
Definition eBLANK : Z := 4.

(** ** State *)

(** The LED object (led_app.h). *)
Record led_st := MkLed {
  padState : landing_pad_led_states_et;
  leftEarColor : bytes;                     (* uint8_t[3] *)
  rightEarColor : bytes;                    (* uint8_t[3] *)
  padColor : bytes;                         (* uint8_t[3] *)
}.

#[export] Instance eta_led_st : Eta led_st := λ r,
  MkLed (padState r) (leftEarColor r) (rightEarColor r) (padColor r).
#[export] Instance upd_padState : Update padState. Proof. derive_update. Defined.
#[export] Instance upd_leftEarColor : Update leftEarColor. Proof. derive_update. Defined.
#[export] Instance upd_rightEarColor : Update rightEarColor. Proof. derive_update. Defined.
#[export] Instance upd_padColor : Update padColor. Proof. derive_update. Defined.

(** Struct Header (player.h). *)
Record header_t := MkHeader {
  hdr_T : Z;
  hdr_A : Z;
  hdr_L : Z * Z * Z;                        (* int[3] *)
  hdr_R : Z * Z * Z;                        (* int[3] *)
  hdr_Z : bytes;                            (* char[20] *)
}.

#[export] Instance eta_header_t : Eta header_t := λ r,
  MkHeader (hdr_T r) (hdr_A r) (hdr_L r) (hdr_R r) (hdr_Z r).
#[export] Instance upd_hdr_T : Update hdr_T. Proof. derive_update. Defined.
#[export] Instance upd_hdr_A : Update hdr_A. Proof. derive_update. Defined.
#[export] Instance upd_hdr_L : Update hdr_L. Proof. derive_update. Defined.
#[export] Instance upd_hdr_R : Update hdr_R. Proof. derive_update. Defined.
#[export] Instance upd_hdr_Z : Update hdr_Z. Proof. derive_update. Defined.

(** The Player object and the file-scope variables of player.cpp. *)
Record plr_st := MkPlr {
  volume : Z;                               (* uint8_t *)
  maxVolume : Z;                            (* uint8_t *)
  brightnessData : bytes;                   (* uint8_t[7] *)
  fileFinishedPlaying : bool;
  isResponseRequiredFlag : bool;
  responseWaitTick : Z;                     (* uint32_t *)
  playerFilename : bytes;                   (* char[50], contents *)
  location : bytes;                         (* char[100], contents *)
  audioIndex : bytes;                       (* char[4], contents *)
  headerData : header_t;
}.

#[export] Instance eta_plr_st : Eta plr_st := λ r,
  MkPlr (volume r) (maxVolume r) (brightnessData r) (fileFinishedPlaying r)
  (isResponseRequiredFlag r) (responseWaitTick r) (playerFilename r) (location r) (audioIndex
  r) (headerData r).
#[export] Instance upd_volume : Update volume. Proof. derive_update. Defined.
#[export] Instance upd_maxVolume : Update maxVolume. Proof. derive_update. Defined.
#[export] Instance upd_brightnessData : Update brightnessData. Proof. derive_update. Defined.
#[export] Instance upd_fileFinishedPlaying : Update fileFinishedPlaying. Proof. derive_update. Defined.
#[export] Instance upd_isResponseRequiredFlag : Update isResponseRequiredFlag. Proof. derive_update. Defined.
#[export] Instance upd_responseWaitTick : Update responseWaitTick. Proof. derive_update. Defined.
#[export] Instance upd_playerFilename : Update playerFilename. Proof. derive_update. Defined.
#[export] Instance upd_location : Update location. Proof. derive_update. Defined.
#[export] Instance upd_audioIndex : Update audioIndex. Proof. derive_update. Defined.
#[export] Instance upd_headerData : Update headerData. Proof. derive_update. Defined.

(** The System object and the file-scope variables of system.cpp. *)
Record sys_st := MkSys {
  state : system_states_et;
  playerGoBackToState : system_states_et;
  toy : bytes;                              (* char[20], contents *)
  previousToy : bytes;                      (* char[20], contents *)
  json : option Z;                          (* cJSON *; None before the first assignment *)
  turnTable : Z;
  previousTurntable : Z;
  macID : bytes;                            (* char[20], contents *)
  uniqueBoxID : bytes;                      (* char[40] *)
  boxName : bytes;                          (* char[100] *)
  sys_user1 : bytes;                        (* char[40] *)
  sys_user2 : bytes;                        (* char[40] *)
  idleSinceTick : Z;                        (* uint32_t *)
  toyRemovalTick : Z;                       (* uint32_t *)
  init_ssid : bytes;                        (* char[32] *)
  init_password : bytes;                    (* char[64] *)
  init_user1 : bytes;                       (* char[50] *)
  init_user2 : bytes;                       (* char[50] *)
  toyPresenseFlag : bool;
  toyPlacedOnce : bool;
  chargingState : Z;                        (* uint8_t *)
  powerState : Z;                           (* uint8_t *)
  batteryLevel : Z;                         (* uint8_t *)
  leftEarButtonState : bool;
  rightEarButtonState : bool;
  init_outputBuff : bytes;                  (* System::outputBuff[1024] *)
  indexx : Z;                               (* uint8_t *)
  qnaAttempt : Z;                           (* uint8_t *)
  themeColor : bytes;                       (* uint8_t[3] *)
}.

#[export] Instance eta_sys_st : Eta sys_st := λ r,
  MkSys (state r) (playerGoBackToState r) (toy r) (previousToy r) (json r) (turnTable r)
  (previousTurntable r) (macID r) (uniqueBoxID r) (boxName r) (sys_user1 r) (sys_user2 r)
  (idleSinceTick r) (toyRemovalTick r) (init_ssid r) (init_password r) (init_user1 r)
  (init_user2 r) (toyPresenseFlag r) (toyPlacedOnce r) (chargingState r) (powerState r)
  (batteryLevel r) (leftEarButtonState r) (rightEarButtonState r) (init_outputBuff r) (indexx
  r) (qnaAttempt r) (themeColor r).
#[export] Instance upd_state : Update state. Proof. derive_update. Defined.
#[export] Instance upd_playerGoBackToState : Update playerGoBackToState. Proof. derive_update. Defined.
#[export] Instance upd_toy : Update toy. Proof. derive_update. Defined.
#[export] Instance upd_previousToy : Update previousToy. Proof. derive_update. Defined.
#[export] Instance upd_json : Update json. Proof. derive_update. Defined.
#[export] Instance upd_turnTable : Update turnTable. Proof. derive_update. Defined.
#[export] Instance upd_previousTurntable : Update previousTurntable. Proof. derive_update. Defined.
#[export] Instance upd_macID : Update macID. Proof. derive_update. Defined.
#[export] Instance upd_uniqueBoxID : Update uniqueBoxID. Proof. derive_update. Defined.
#[export] Instance upd_boxName : Update boxName. Proof. derive_update. Defined.
#[export] Instance upd_sys_user1 : Update sys_user1. Proof. derive_update. Defined.
#[export] Instance upd_sys_user2 : Update sys_user2. Proof. derive_update. Defined.
#[export] Instance upd_idleSinceTick : Update idleSinceTick. Proof. derive_update. Defined.
#[export] Instance upd_toyRemovalTick : Update toyRemovalTick. Proof. derive_update. Defined.
#[export] Instance upd_init_ssid : Update init_ssid. Proof. derive_update. Defined.
#[export] Instance upd_init_password : Update init_password. Proof. derive_update. Defined.
#[export] Instance upd_init_user1 : Update init_user1. Proof. derive_update. Defined.
#[export] Instance upd_init_user2 : Update init_user2. Proof. derive_update. Defined.
#[export] Instance upd_toyPresenseFlag : Update toyPresenseFlag. Proof. derive_update. Defined.
#[export] Instance upd_toyPlacedOnce : Update toyPlacedOnce. Proof. derive_update. Defined.
#[export] Instance upd_chargingState : Update chargingState. Proof. derive_update. Defined.
#[export] Instance upd_powerState : Update powerState. Proof. derive_update. Defined.
#[export] Instance upd_batteryLevel : Update batteryLevel. Proof. derive_update. Defined.
#[export] Instance upd_leftEarButtonState : Update leftEarButtonState. Proof. derive_update. Defined.
#[export] Instance upd_rightEarButtonState : Update rightEarButtonState. Proof. derive_update. Defined.
#[export] Instance upd_init_outputBuff : Update init_outputBuff. Proof. derive_update. Defined.
#[export] Instance upd_indexx : Update indexx. Proof. derive_update. Defined.
#[export] Instance upd_qnaAttempt : Update qnaAttempt. Proof. derive_update. Defined.
#[export] Instance upd_themeColor : Update themeColor. Proof. derive_update. Defined.

(** The WiFi object and the file-scope variables of wifi.cpp. *)
Record wifi_st := MkWifi {
  wifiInitDoneFlag : Z;                     (* uint8_t *)
  count : Z;                                (* int *)
  connected : bool;
  connectFlag : bool;
  ssid : bytes;                             (* char[32] *)
  password : bytes;                         (* char[64] *)
}.

#[export] Instance eta_wifi_st : Eta wifi_st := λ r,
  MkWifi (wifiInitDoneFlag r) (count r) (connected r) (connectFlag r) (ssid r) (password r).
#[export] Instance upd_wifiInitDoneFlag : Update wifiInitDoneFlag. Proof. derive_update. Defined.
#[export] Instance upd_count : Update count. Proof. derive_update. Defined.
#[export] Instance upd_connected : Update connected. Proof. derive_update. Defined.
#[export] Instance upd_connectFlag : Update connectFlag. Proof. derive_update. Defined.
#[export] Instance upd_ssid : Update ssid. Proof. derive_update. Defined.
#[export] Instance upd_password : Update password. Proof. derive_update. Defined.

(** The file-scope variables of qbus_s.cpp and iot_qbus.cpp. *)
Record tag_st := MkTag {
  tagUid_qbus : bytes;                      (* char[20] *)
  previousTagUid : bytes;                   (* char[20] *)
  tagPresentFlag_qbus : Z;                  (* uint8_t *)
  debugCount : Z;                           (* uint8_t *)
  qbusDataBuff : bytes;                     (* uint8_t[20] *)
}.

#[export] Instance eta_tag_st : Eta tag_st := λ r,
  MkTag (tagUid_qbus r) (previousTagUid r) (tagPresentFlag_qbus r) (debugCount r)
  (qbusDataBuff r).
#[export] Instance upd_tagUid_qbus : Update tagUid_qbus. Proof. derive_update. Defined.
#[export] Instance upd_previousTagUid : Update previousTagUid. Proof. derive_update. Defined.
#[export] Instance upd_tagPresentFlag_qbus : Update tagPresentFlag_qbus. Proof. derive_update. Defined.
#[export] Instance upd_debugCount : Update debugCount. Proof. derive_update. Defined.
#[export] Instance upd_qbusDataBuff : Update qbusDataBuff. Proof. derive_update. Defined.

(** Struct qBSlave (qbus_s.h); the function pointers are the class QBusPort of QbusSlave.v. *)
Record qBSlave_st := MkQBSlave {
  qBState : qBSlaveState_et;
  timeOutStartTick : Z;                     (* uint32_t *)
  frameBuffer : bytes;                      (* the array it points to *)
  framBuffLen : Z;                          (* uint16_t *)
  recvByteCount : Z;                        (* uint16_t *)
  sentByteCount : Z;                        (* uint16_t *)
  totalByteToSend : Z;                      (* uint16_t *)
}.

#[export] Instance eta_qBSlave_st : Eta qBSlave_st := λ r,
  MkQBSlave (qBState r) (timeOutStartTick r) (frameBuffer r) (framBuffLen r) (recvByteCount r)
  (sentByteCount r) (totalByteToSend r).
#[export] Instance upd_qBState : Update qBState. Proof. derive_update. Defined.
#[export] Instance upd_timeOutStartTick : Update timeOutStartTick. Proof. derive_update. Defined.
#[export] Instance upd_frameBuffer : Update frameBuffer. Proof. derive_update. Defined.
#[export] Instance upd_framBuffLen : Update framBuffLen. Proof. derive_update. Defined.
#[export] Instance upd_recvByteCount : Update recvByteCount. Proof. derive_update. Defined.
#[export] Instance upd_sentByteCount : Update sentByteCount. Proof. derive_update. Defined.
#[export] Instance upd_totalByteToSend : Update totalByteToSend. Proof. derive_update. Defined.

(** The Downloader object and the file-scope variables of downloader.cpp. *)
Record dl_st := MkDl {
  dl_toy : bytes;                           (* char[20], contents *)
  tokenRequestFlag : Z;                     (* uint8_t *)
  accessToken : bytes;                      (* char[40] *)
  validTokenFlag : Z;                       (* uint8_t *)
  dl_outputBuff : bytes;                    (* uint8_t[2048] *)
  response_buffer : option bytes;           (* char *; None is NULL *)
  response_buffer_size : Z;                 (* int *)
  mj_file : option bytes;                   (* FILE *, as the path it writes *)
  direction_file_names : list (option bytes); (* None: not assigned *)
  direction_file_count : Z;                 (* int *)
  N_server : option (list bytes);           (* None is NULL *)
  N_count : Z;                              (* int *)
  media_json : Z;                           (* cJSON * *)
  baseUrl : bytes;                          (* char[256], contents *)
  output_buffer : bytes;                    (* char[4096] *)
  output_len : Z;                           (* int *)
  mp3_file : option bytes;                  (* FILE *, as the path it writes *)
  download_buffer : bytes;                  (* uint8_t[4096], its first buffer_pos bytes *)
  response_body_size : Z;                   (* int64_t *)
  total_download_time : Z;                  (* int64_t *)
}.

#[export] Instance eta_dl_st : Eta dl_st := λ r,
  MkDl (dl_toy r) (tokenRequestFlag r) (accessToken r) (validTokenFlag r) (dl_outputBuff r)
  (response_buffer r) (response_buffer_size r) (mj_file r) (direction_file_names r)
  (direction_file_count r) (N_server r) (N_count r) (media_json r) (baseUrl r) (output_buffer
  r) (output_len r) (mp3_file r) (download_buffer r) (response_body_size r)
  (total_download_time r).
#[export] Instance upd_dl_toy : Update dl_toy. Proof. derive_update. Defined.
#[export] Instance upd_tokenRequestFlag : Update tokenRequestFlag. Proof. derive_update. Defined.
#[export] Instance upd_accessToken : Update accessToken. Proof. derive_update. Defined.
#[export] Instance upd_validTokenFlag : Update validTokenFlag. Proof. derive_update. Defined.
#[export] Instance upd_dl_outputBuff : Update dl_outputBuff. Proof. derive_update. Defined.
#[export] Instance upd_response_buffer : Update response_buffer. Proof. derive_update. Defined.
#[export] Instance upd_response_buffer_size : Update response_buffer_size. Proof. derive_update. Defined.
#[export] Instance upd_mj_file : Update mj_file. Proof. derive_update. Defined.
#[export] Instance upd_direction_file_names : Update direction_file_names. Proof. derive_update. Defined.
#[export] Instance upd_direction_file_count : Update direction_file_count. Proof. derive_update. Defined.
#[export] Instance upd_N_server : Update N_server. Proof. derive_update. Defined.
#[export] Instance upd_N_count : Update N_count. Proof. derive_update. Defined.
#[export] Instance upd_media_json : Update media_json. Proof. derive_update. Defined.
#[export] Instance upd_baseUrl : Update baseUrl. Proof. derive_update. Defined.
#[export] Instance upd_output_buffer : Update output_buffer. Proof. derive_update. Defined.
#[export] Instance upd_output_len : Update output_len. Proof. derive_update. Defined.
#[export] Instance upd_mp3_file : Update mp3_file. Proof. derive_update. Defined.
#[export] Instance upd_download_buffer : Update download_buffer. Proof. derive_update. Defined.
#[export] Instance upd_response_body_size : Update response_body_size. Proof. derive_update. Defined.
#[export] Instance upd_total_download_time : Update total_download_time. Proof. derive_update. Defined.

(** The SD card: files and directories by path. *)
Record fs_st := MkFs {
  files : gmap bytes bytes;
  dirs : gset bytes;
}.

#[export] Instance eta_fs_st : Eta fs_st := λ r,
  MkFs (files r) (dirs r).
#[export] Instance upd_files : Update files. Proof. derive_update. Defined.
#[export] Instance upd_dirs : Update dirs. Proof. derive_update. Defined.

(** The whole firmware. *)
Record world := MkWorld {
  hist : list call;                         (* the latest call first *)
  fs : fs_st;
  led : led_st;
  plr : plr_st;
  sys : sys_st;
  wifi : wifi_st;
  tag : tag_st;
  qbusSlave : qBSlave_st;
  dl : dl_st;
  notifyCmdCharac : bool;                   (* whether the pointer is non-NULL *)
}.

#[export] Instance eta_world : Eta world := λ r,
  MkWorld (hist r) (fs r) (led r) (plr r) (sys r) (wifi r) (tag r) (qbusSlave r) (dl r)
  (notifyCmdCharac r).
#[export] Instance upd_hist : Update hist. Proof. derive_update. Defined.
#[export] Instance upd_fs : Update fs. Proof. derive_update. Defined.
#[export] Instance upd_led : Update led. Proof. derive_update. Defined.
#[export] Instance upd_plr : Update plr. Proof. derive_update. Defined.
#[export] Instance upd_sys : Update sys. Proof. derive_update. Defined.
#[export] Instance upd_wifi : Update wifi. Proof. derive_update. Defined.
#[export] Instance upd_tag : Update tag. Proof. derive_update. Defined.
#[export] Instance upd_qbusSlave : Update qbusSlave. Proof. derive_update. Defined.
#[export] Instance upd_dl : Update dl. Proof. derive_update. Defined.
#[export] Instance upd_notifyCmdCharac : Update notifyCmdCharac. Proof. derive_update. Defined.


(** ** Reading and writing the state *)

Abbreviation FW := (M world).

#[local] Open Scope M_scope.

Definition emit (c : call) : FW () := modify (update hist (c ::.)).

Definition get_led {A} (p : led_st → A) : FW A := gets (λ w, p (led w)).
Definition get_plr {A} (p : plr_st → A) : FW A := gets (λ w, p (plr w)).
Definition get_sys {A} (p : sys_st → A) : FW A := gets (λ w, p (sys w)).
Definition get_wifi {A} (p : wifi_st → A) : FW A := gets (λ w, p (wifi w)).
Definition get_tag {A} (p : tag_st → A) : FW A := gets (λ w, p (tag w)).
Definition get_q {A} (p : qBSlave_st → A) : FW A := gets (λ w, p (qbusSlave w)).
Definition get_dl {A} (p : dl_st → A) : FW A := gets (λ w, p (dl w)).

Definition put_led {A} (p : led_st → A) `{!Update p} (v : A) : FW () :=
  modify (update led (set p v)).
Definition put_plr {A} (p : plr_st → A) `{!Update p} (v : A) : FW () :=
  modify (update plr (set p v)).
Definition put_sys {A} (p : sys_st → A) `{!Update p} (v : A) : FW () :=
  modify (update sys (set p v)).
Definition put_wifi {A} (p : wifi_st → A) `{!Update p} (v : A) : FW () :=
  modify (update wifi (set p v)).
Definition put_tag {A} (p : tag_st → A) `{!Update p} (v : A) : FW () :=
  modify (update tag (set p v)).
Definition put_q {A} (p : qBSlave_st → A) `{!Update p} (v : A) : FW () :=
  modify (update qbusSlave (set p v)).
Definition put_dl {A} (p : dl_st → A) `{!Update p} (v : A) : FW () :=
  modify (update dl (set p v)).

(** ** Files

    The C library's files over FAT.  A stream that is opened, read or written
    and closed within one function is the one operation on its contents; a
    stream kept in a variable is the path it writes to. *)

(** The directory part of a path, without the slash. *)
Fixpoint drop_component (rev_path : bytes) : bytes :=
  match rev_path with
  | [] => []
  | c :: p => if bool_decide (c = 47) then p else drop_component p
  end.
Definition dirname (path : bytes) : bytes := reverse (drop_component (reverse path)).

Definition strip_slash (path : bytes) : bytes :=
  match reverse path with c :: p => if bool_decide (c = 47) then reverse p else path | [] => path end.

(** [fopen(path, "r")]: the bytes of the stream, [None] for NULL. *)
Definition fopen_r (path : bytes) : FW (option bytes) := gets (λ w, files (fs w) !! path).

(** Whether [fopen(path, "w")] gives a stream: the directory is there. *)
Definition can_create (path : bytes) (f : fs_st) : bool :=
  bool_decide (dirname path ∈ dirs f) && bool_decide (path ∉ dirs f).

(** [fopen(path, "w")]: the file is created or emptied; whether it opened. *)
Definition fopen_w (path : bytes) : FW bool :=
  b ← gets (λ w, can_create path (fs w));
  when b (modify (update fs (update files (<[path := []]>))));;
  ret b.

(** [fwrite] and [fprintf] on a stream that writes [path]. *)
Definition fappend (path data : bytes) : FW () :=
  modify (update fs (update files (alter (λ old, old ++ data) path))).

(** [mkdir(path)]: 0 on success, [errno] = EEXIST or not otherwise. *)
Inductive mkdir_result := mkdir_ok | mkdir_EEXIST | mkdir_error.

Definition mkdir (path : bytes) : FW mkdir_result :=
  f ← gets fs;
  if bool_decide (path ∈ dirs f) || bool_decide (is_Some (files f !! path)) then ret mkdir_EEXIST
  else if bool_decide (dirname path ∈ dirs f)
  then modify (update fs (update dirs ({[path]} ∪.)));; ret mkdir_ok
  else ret mkdir_error.

(** [remove(path)]: a file, or a directory with nothing in it. *)
Definition in_dir (dir path : bytes) : bool := bool_decide (dirname path = dir).

Definition remove (path : bytes) : FW () :=
  f ← gets fs;
  if bool_decide (is_Some (files f !! path)) then modify (update fs (update files (delete path)))
  else when (negb (existsb (in_dir path) (elements (dom (files f)) ++ elements (dirs f))))
    (modify (update fs (update dirs (.∖ {[path]})))).

(** [opendir(path) != NULL]. *)
Definition opendir (path : bytes) : FW bool := gets (λ w, bool_decide (strip_slash path ∈ dirs (fs w))).

(** [rename(from, to) == 0]: on FAT the target must not exist. *)
Definition rename (from to : bytes) : FW bool :=
  f ← gets fs;
  match files f !! from with
  | None => ret false
  | Some data =>
      if bool_decide (is_Some (files f !! to)) || negb (can_create to f) then ret false
      else modify (update fs (update files (λ m, <[to := data]> (delete from m))));; ret true
  end.

(** Calls of the C library and FreeRTOS that have no result the code uses. *)
Definition delay (ticks : Z) : FW () := emit (vTaskDelay ticks).

(** ** Accessors of cJSON items, and HTTP requests *)

(** [item->valuestring], used as a string, and [item->valueint]. *)
Definition str_of `{CJSON} (item : Z) : res bytes :=
  if bool_decide (item = 0) then Fault NullDeref else from_option_res NullDeref (valuestring item).

Definition int_of `{CJSON} (item : Z) : res Z :=
  if bool_decide (item = 0) then Fault NullDeref else Ok (valueint item).

(** [esp_http_client_perform]: the events go to the handler in order. *)
Definition http_perform `{Env} (url body : bytes) (on_event : http_event → FW ()) : FW http_answer :=
  emit (esp_http_client_perform url body);;
  h ← gets hist;
  let answer := env_http h in
  for_each (http_events answer) on_event;;
  ret answer.

(** [esp_http_client_cleanup] closes the connection first, which may hand one
    more event to the handler. *)
Definition http_cleanup `{Env} (on_event : http_event → FW ()) : FW () :=
  emit esp_http_client_cleanup;;
  h ← gets hist;
  when (env_disconnects h) (on_event HTTP_EVENT_DISCONNECTED).

(** [esp_http_client_close(client)] after the cleanup has freed the client. *)
Definition http_close_freed `{Env} : FW () :=
  emit esp_http_client_close;;
  h ← gets hist;
  if env_freed_close h then skip else fail UseAfterFree.

(** What downloads that return rely on: although the client has been freed,
    closing it does. *)
Class FreedClose `{Env} : Prop := { freed_close_returns h : env_freed_close h = true }.

(** The data of the events, and the events that are no end of the response. *)
Definition data_of (events : list http_event) : bytes :=
  events ≫= λ e, match e with HTTP_EVENT_ON_DATA data => data | _ => [] end.

Definition quiet (e : http_event) : Prop := e ≠ HTTP_EVENT_ON_FINISH ∧ e ≠ HTTP_EVENT_DISCONNECTED.

(** The bytes written to the serial line, the first first. *)
Fixpoint uart_out (h : list call) : bytes :=
  match h with
  | [] => []
  | uart_write_bytes b :: h => uart_out h ++ [b]
  | _ :: h => uart_out h
  end.

(** The files the pipeline was told to play, the last one first. *)
Fixpoint played (h : list call) : list bytes :=
  match h with
  | [] => []
  | audio_element_set_uri loc :: h => loc :: played h
  | _ :: h => played h
  end.

(** How often a local variable was read that was never written. *)
Fixpoint uninitialised_reads (h : list call) : nat :=
  match h with
  | [] => 0
  | uninitialised_read :: h => S (uninitialised_reads h)
  | _ :: h => uninitialised_reads h
  end.

(** ** Symbolic execution

    [mrun] unfolds the monad, the accessors and what the database [fw] lists,
    and simplifies; [mcase] then splits on the first test in the way. *)

Create HintDb fw.
#[export] Hint Unfold wp wlp bind ret gets modify when skip lift from_option_res fail
  emit delay get_led get_plr get_sys get_wifi get_tag get_q get_dl
  put_led put_plr put_sys put_wifi put_tag put_q put_dl
  fopen_r fopen_w fappend opendir : fw.

Ltac mrun := repeat (progress autounfold with fw); simpl.

Ltac mcase := repeat (case_match || case_bool_decide); simplify_eq/=.

(** [pres leaf] proves [preserves I m] along the structure of [m]: [leaf] is
    for the updates of the state, the database [pres] lists what is known of
    operations by name, and other operations are unfolded.  A value read from
    the state comes with the state it was read from. *)
Ltac pres leaf :=
  lazymatch goal with
  | |- preserves _ (modify _) => leaf
  | |- preserves _ (put_led _ _) => leaf
  | |- preserves _ (put_plr _ _) => leaf
  | |- preserves _ (put_sys _ _) => leaf
  | |- preserves _ (put_wifi _ _) => leaf
  | |- preserves _ (put_tag _ _) => leaf
  | |- preserves _ (put_q _ _) => leaf
  | |- preserves _ (put_dl _ _) => leaf
  | |- preserves _ (emit _) => leaf
  | |- preserves _ (gets _) => apply preserves_gets
  | |- preserves _ (ret _) => apply preserves_ret
  | |- preserves _ (fail _) => apply preserves_fail
  | |- preserves _ (lift _) => apply preserves_lift
  | |- preserves _ skip => apply preserves_skip
  | |- preserves _ (bind (lift _) _) => apply preserves_lift_bind; intros ? ?; pres leaf
  | |- preserves _ (bind (gets _) _) => pres_then leaf
  | |- preserves _ (bind (get_led _) _) => pres_then leaf
  | |- preserves _ (bind (get_plr _) _) => pres_then leaf
  | |- preserves _ (bind (get_sys _) _) => pres_then leaf
  | |- preserves _ (bind (get_wifi _) _) => pres_then leaf
  | |- preserves _ (bind (get_tag _) _) => pres_then leaf
  | |- preserves _ (bind (get_q _) _) => pres_then leaf
  | |- preserves _ (bind (get_dl _) _) => pres_then leaf
  | |- preserves _ (bind _ _) => apply preserves_bind; [pres leaf|intros ?; pres leaf]
  | |- preserves _ (when ?b _) => destruct b eqn:?; cbn [when]; pres leaf
  | |- preserves _ (for_each _ _) => apply preserves_for_each; intros ?; pres leaf
  | |- preserves _ (map_each _ _) => apply preserves_map_each; intros ?; pres leaf
  | |- preserves _ (match ?x with _ => _ end) => destruct x eqn:?; pres leaf
  | |- preserves _ ?m =>
      first
        [ progress cbv zeta beta; pres leaf
        | assumption
        | solve [auto 1 with pres nocore]
        | let rec head t := lazymatch t with ?g _ => head g | _ => t end in
          let h := head m in unfold h; pres leaf ]
  end
with pres_then leaf := pres_read; pres leaf
with pres_read := apply preserves_gets_bind_at; let w0 := fresh "w0" in let Hw0 := fresh "Hw0" in
  intros w0 Hw0; cbv beta.

(** ** Lemmas: files *)

(** Appending to a file that is there. *)
Lemma append_run path c data w : files (fs w) !! path = Some c →
  fappend path data w = Ok ((), update fs (update files (<[path := c ++ data]>)) w).
Proof.
  intros Hc. unfold fappend, modify. destruct w as [? [fm ds]]. simpl in *.
  assert (alter (λ old, old ++ data) path fm = <[path := c ++ data]> fm) as E;
    [|unfold update, upd_fs, upd_files; simpl; by rewrite E].
  apply map_eq. intros p. rewrite lookup_alter. destruct (decide (p = path)) as [->|Hp].
  - rewrite decide_True by done. by rewrite Hc, lookup_insert_eq.
  - rewrite decide_False by done. by rewrite lookup_insert_ne.
Qed.

(** ** Lemmas: HTTP clients *)

Section http_clients.
Context `{Env}.

Lemma http_close_freed_run `{!FreedClose} w : http_close_freed w = Ok ((), update hist (esp_http_client_close ::.) w).
Proof. unfold http_close_freed. mrun. by rewrite freed_close_returns. Qed.

(** The cleanup, and the event it may deliver. *)
Lemma http_cleanup_run on_event w (w1 := update hist (esp_http_client_cleanup ::.) w) :
  http_cleanup on_event w = Ok ((), w1) ∨ http_cleanup on_event w = on_event HTTP_EVENT_DISCONNECTED w1.
Proof. unfold http_cleanup, emit. mrun. destruct (env_disconnects _); auto. Qed.

End http_clients.

(** ** A concrete instance, for the witnesses and the examples

    Static objects start zeroed; the members a constructor leaves
    indeterminate get arbitrary values here. *)

Module Sample.
Definition led0 : led_st := MkLed ESP_IDLE_MODE [0; 0; 0] [0; 0; 0] [0; 0; 0].
Definition header0 : header_t := MkHeader 0 0 (0, 0, 0) (0, 0, 0) (memset0 20).
Definition plr0 : plr_st :=
  MkPlr 0 0 (memset0 7) false false 0 [] [] [] header0.
Definition sys0 : sys_st :=
  MkSys SYS_POST SYS_POST [] [] None eNORTH eBLANK (lit "00:00:00:00:00:00")
    (memset0 40) (memset0 100) (memset0 40) (memset0 40) 0 0
    (memset0 32) (memset0 64) (memset0 50) (memset0 50) false false 0 0 0 false false
    (memset0 1024) 0 0 [0; 0; 0].
Definition wifi0 : wifi_st := MkWifi 0 0 false false (memset0 32) (memset0 64).
Definition tag0 : tag_st := MkTag (memset0 20) (memset0 20) 0 0 (memset0 20).
Definition qbus0 : qBSlave_st := MkQBSlave QBS_IDLE 0 (memset0 100) 100 0 0 0.
Definition dl0 : dl_st :=
  MkDl [] 0 (memset0 40) 0 (memset0 2048) None 0 None [] 0 None 0 0 []
    (memset0 4096) 0 None [] 0 0.
Definition fs0 : fs_st :=
  MkFs ∅ ({[lit "/sdcard"; lit "/sdcard/data"; lit "/sdcard/media";
            lit "/sdcard/media/audio"; lit "/sdcard/media/toys"]}).
Definition world0 : world := MkWorld [] fs0 led0 plr0 sys0 wifi0 tag0 qbus0 dl0 false.

Definition no_msg : audio_msg :=
  {| msg_is_element := false; msg_source := src_other; msg_cmd := cmd_other;
     msg_data := data_other |}.
Definition no_answer : http_answer :=
  {| http_events := []; http_ok := false; http_status := 0 |}.

(** Every call takes one millisecond; the writer element is in state [el]. *)
Definition env (el : audio_element_state_t) : Env := {|
  env_time h := 1000 * Z.of_nat (length h);
  env_el_state _ := el;
  env_msg _ := Some no_msg;
  env_stack _ := no_msg;
  env_bits _ := 0;
  env_http _ := no_answer;
  env_disconnects _ := true;
  env_freed_close _ := true;
  env_readdir _ _ := None;
  env_err _ := 0;
  env_getfree _ := Some (1000, 64);
  FF_SS_SDCARD := 512;
|}.

(** A cJSON without any document. *)
Definition no_json : CJSON := {|
  cJSON_Parse _ := 0;
  cJSON_ParseWithLength _ := 0;
  cJSON_Duplicate _ := 0;
  cJSON_GetObjectItem _ _ := 0;
  cJSON_GetObjectItemCaseSensitive _ _ := 0;
  cJSON_GetArraySize _ := 0;
  cJSON_GetArrayItem _ _ := 0;
  cJSON_IsString _ := false;
  cJSON_IsNumber _ := false;
  cJSON_IsArray _ := false;
  cJSON_IsTrue _ := false;
  valuestring _ := None;
  valueint _ := 0;
|}.
End Sample.
