(* ===== verification/TimeSpent.v ===== *)
(** * TimeSpent: the millisecond clock (main/src/time_spent.cpp)

    [GetStartTime] and [TimeSpent].  The clock may advance between the two
    readings [TimeSpent] takes.  The theorems say when a timeout is reported,
    for readings before and after the 32-bit counter wraps. *)

From S2P Require Import Prelude CString World.
#[local] Open Scope M_scope.

Section time_spent.
Context `{Env}.

(** ** Definitions *)

Definition FULL_SCALE_VALUE : Z := 0xffffffff.

(** The value of the clock after the calls [h], in milliseconds. *)
Definition clock_ms (h : list call) : Z := env_time h mod 2 ^ 64 / 1000.

Definition GetStartTime : FW Z :=
  emit esp_timer_get_time;;
  h ← gets hist;
  ret (u32 (clock_ms h)).

Definition TimeSpent (startTick totalTimeInMs : Z) : FW bool :=
  t1 ← GetStartTime;
  if bool_decide (startTick <= t1) then
    t2 ← GetStartTime;
    if bool_decide (u32 (t2 - startTick) < totalTimeInMs) then ret false else ret true
  else
    t2 ← GetStartTime;
    if bool_decide (u32 (FULL_SCALE_VALUE - u32 (startTick - t2)) < totalTimeInMs)
    then ret false else ret true.

(** ** Lemmas *)

(** The two readings of one call of [TimeSpent]. *)
Definition first_ms (w : world) : Z := clock_ms (esp_timer_get_time :: hist w).
Definition second_ms (w : world) : Z :=
  clock_ms (esp_timer_get_time :: esp_timer_get_time :: hist w).

Definition ticked (n : nat) (w : world) : world :=
  update hist (λ h, replicate n esp_timer_get_time ++ h) w.

(** What [TimeSpent] computes from its readings. *)
Definition spent (startTick total t1 t2 : Z) : bool :=
  if bool_decide (startTick <= t1)
  then bool_decide (total <= u32 (t2 - startTick))
  else bool_decide (total <= u32 (FULL_SCALE_VALUE - u32 (startTick - t2))).

Lemma GetStartTime_run w : GetStartTime w = Ok (u32 (first_ms w), ticked 1 w).
Proof. done. Qed.

Lemma TimeSpent_run start total w :
  TimeSpent start total w
  = Ok (spent start total (u32 (first_ms w)) (u32 (second_ms w)), ticked 2 w).
Proof.
  unfold TimeSpent, spent. rewrite (bind_run _ _ _ _ _ (GetStartTime_run w)).
  destruct (bool_decide (start <= u32 (first_ms w)));
    rewrite (bind_run _ _ _ _ _ (GetStartTime_run (ticked 1 w)));
    change (first_ms (ticked 1 w)) with (second_ms w);
    repeat case_bool_decide; first [done | lia].
Qed.

Lemma GetStartTime_keeps {B} (f : world → B) :
  (∀ c w, f (update hist c w) = f w) → keeps f GetStartTime.
Proof. intros Hf. by intros w a w' [= <- <-]; apply Hf. Qed.

Lemma TimeSpent_keeps {B} (f : world → B) s t :
  (∀ c w, f (update hist c w) = f w) → keeps f (TimeSpent s t).
Proof. intros Hf w a w'. rewrite TimeSpent_run. intros [= <- <-]. apply Hf. Qed.

Lemma u32_range z : 0 <= u32 z < 4294967296.
Proof. unfold u32. apply Z.mod_pos_bound. lia. Qed.

(** With the true times [T0 <= T1 <= T2] of the start and of the readings,
    less than a full turn of the counter apart. *)
Lemma spent_elapsed T0 T1 T2 total :
  T0 <= T1 <= T2 → T2 - T0 < 4294967296 →
  spent (u32 T0) total (u32 T1) (u32 T2) =
  bool_decide (total + (if bool_decide (u32 T0 <= u32 T1) then 0 else 1) <= T2 - T0).
Proof.
  intros HT Hd. unfold spent.
  assert (u32 (u32 T2 - u32 T0) = T2 - T0) as Hfwd.
  { unfold u32. rewrite Zminus_mod_idemp_l, Zminus_mod_idemp_r. apply Z.mod_small. lia. }
  case_bool_decide as Hle; [rewrite Hfwd, Z.add_0_r; done|].
  assert (T0 < T1) by (destruct (decide (T0 = T1)); subst; lia).
  assert (u32 (u32 T0 - u32 T2) = 4294967296 - (T2 - T0)) as ->.
  { unfold u32. rewrite Zminus_mod_idemp_l, Zminus_mod_idemp_r.
    replace (T0 - T2) with (4294967296 - (T2 - T0) + (-1) * 4294967296) by lia.
    rewrite Z.mod_add by lia. apply Z.mod_small. lia. }
  unfold FULL_SCALE_VALUE, u32. rewrite Z.mod_small by lia.
  apply bool_decide_ext. lia.
Qed.

End time_spent.

#[export] Hint Extern 3 (keeps _ GetStartTime) => apply GetStartTime_keeps; reflexivity : keeps.
#[export] Hint Extern 3 (keeps _ (TimeSpent _ _)) => apply TimeSpent_keeps; reflexivity : keeps.

(** ** Properties *)

(** C38 (timeouts).  Let the timer be started at time [T0], read at [T1] and
    [T2], all in milliseconds since power-on, the clock never going back and
    the last reading less than 2^32 ms after the start.  [TimeSpent] reports
    the timeout exactly when [total] ms have passed, as long as the counter
    has not wrapped between the start and the first reading; after a wrap it
    reports it exactly one millisecond late. *)
Theorem TimeSpent_elapsed `{Env} (T0 total : Z) (w : world)
    (Hmono : T0 <= first_ms w <= second_ms w)
    (Hturn : second_ms w - T0 < 4294967296) :
  ∃ w', TimeSpent (u32 T0) total w
        = Ok (bool_decide (total + (if bool_decide (u32 T0 <= u32 (first_ms w)) then 0 else 1)
                           <= second_ms w - T0), w').
Proof. eexists. rewrite TimeSpent_run. by rewrite spent_elapsed. Qed.

Example TimeSpent_elapsed_witness :
  let env := Sample.env AEL_STATE_other in
  let w := update hist (λ _, replicate 500 esp_timer_get_time) Sample.world0 in
  ∃ w', TimeSpent (u32 100) 400 w = Ok (true, w').
Proof.
  intros env w.
  destruct (TimeSpent_elapsed 100 400 w) as [w' Hw]; [vm_compute; split; congruence..|].
  exists w'. rewrite Hw. do 2 f_equal.
Defined.
