(* ===== verification/Led.v ===== *)
(** * Led: colours and pad state (main/src/led_app.cpp, main/inc/led_app.h)

    The setters take [int]s and store [uint8_t]s; the getters index arrays of
    three.  [LED::handler] has no statement left and is the empty operation. *)

From S2P Require Import Prelude CString World.
#[local] Open Scope M_scope.

(** ** Definitions *)

Definition rgb (rVal gVal bVal : Z) : bytes := [u8 rVal; u8 gVal; u8 bVal].

Definition setPadState (s : landing_pad_led_states_et) : FW () := put_led padState s.

Definition LED_handler : FW () := skip.

Definition getPadState : FW landing_pad_led_states_et := get_led padState.

Definition setLandingPadColor (rVal gVal bVal : Z) : FW () :=
  put_led padState ESP_LP_LED_DEFINED_BY_RGB;;
  put_led padColor (rgb rVal gVal bVal).

Definition getLandingPadColor (val : Z) : FW Z := c ← get_led padColor; lift (load c val).

Definition setLeftEarColor (rVal gVal bVal : Z) : FW () :=
  put_led leftEarColor (rgb rVal gVal bVal).

Definition setRightEarColor (rVal gVal bVal : Z) : FW () :=
  put_led rightEarColor (rgb rVal gVal bVal).

Definition getLeftEarColor (val : Z) : FW Z := c ← get_led leftEarColor; lift (load c val).

Definition getRightEarColor (val : Z) : FW Z := c ← get_led rightEarColor; lift (load c val).

(** The body is [return true]; the rest is commented out. *)
Definition bleWriteLampData (st duration rVal gVal bVal : Z) : FW bool := ret true.

Definition checkRGBValue (value : Z) : bool := bool_decide (0 <= value) && bool_decide (value <= 255).

(** ** Lemmas *)

Lemma length_rgb r g b : length (rgb r g b) = 3%nat.
Proof. done. Qed.

Lemma rgb_ok r g b : bytes_ok (rgb r g b).
Proof. repeat constructor; unfold u8; apply Z.mod_pos_bound; lia. Qed.

Lemma rgb_id r g b :
  checkRGBValue r = true → checkRGBValue g = true → checkRGBValue b = true →
  rgb r g b = [r; g; b].
Proof.
  unfold checkRGBValue, rgb, u8.
  intros [? ?]%andb_true_iff [? ?]%andb_true_iff [? ?]%andb_true_iff.
  rewrite !bool_decide_eq_true in *. by rewrite !Z.mod_small by lia.
Qed.

(** The three colour arrays have three bytes each. *)
Definition led_wf (l : led_st) : Prop :=
  ∀ c, c ∈ [leftEarColor l; rightEarColor l; padColor l] → length c = 3%nat ∧ bytes_ok c.

Lemma load_rgb c i : length c = 3%nat → 0 <= i < 3 → ∃ v, load c i = Ok v ∧ c !! Z.to_nat i = Some v.
Proof. intros Hl Hi. apply load_Ok. lia. Qed.

