(* ===== verification/SystemBase.v ===== *)
(** * SystemBase: the System object without its handler (main/src/system.cpp)

    The constructor, the setters and getters, [setState], [setToy], the two
    user IDs, the box ID and the box name with their files.  The state machine
    is SystemHandler.v; [resetToy], which calls the player, is Player.v. *)

From S2P Require Import Prelude CString World TimeSpent.
#[local] Open Scope M_scope.

(** ** Definitions *)

Definition USER_ID1_SDCARD_LOCATION := lit "/sdcard/data/user1.cubbies".
Definition USER_ID2_SDCARD_LOCATION := lit "/sdcard/data/user2.cubbies".
Definition BOX_ID_SDCARD_LOCATION := lit "/sdcard/data/boxid.cubbies".
Definition BOX_NAME_SDCARD_LOCATION := lit "/sdcard/data/boxname.cubbies".
Definition VOLUME_SDCARD_LOCATION := lit "/sdcard/data/volume.cubbies".
Definition BRIGHTNESS_SDCARD_LOCATION := lit "/sdcard/data/brightness.cubbies".
Definition STARTUP_TONE_SDCARD_LOCATION := lit "/sdcard/media/startup.mp3".
Definition TOY_DETECT_TONE_SDCARD_LOCATION := lit "/sdcard/media/toydetect.mp3".
Definition DOWNLOAD_START_TONE_SDCARD_LOCATION := lit "/sdcard/media/downloading.mp3".
Definition SHUTDOWN_TONE_SDCARD_LOCATION := lit "/sdcard/media/shutdown.mp3".
Definition BAT_LOW_TONE_SDCARD_LOCATION := lit "/sdcard/media/batterylow.mp3".
Definition INVALID_WIFI_CREDS_TONE_SDCARD_LOCATION := lit "/sdcard/media/unabletoconnect.mp3".
Definition PLEASE_ENTER_WIFI_CREDS_TONE_SDCARD_LOCATION := lit "/sdcard/media/plsenterwifi.mp3".

(** [sprintf(macID, "%02X:%02X:%02X:%02X:%02X:%02X", ...)] *)
Fixpoint join (sep : bytes) (l : list bytes) : bytes :=
  match l with
  | [] => []
  | [x] => x
  | x :: l => x ++ sep ++ join sep l
  end.

Definition mac_string (mac : bytes) : bytes := join (lit ":") (fmt_02X <$> mac).

Definition SystemStateToString (s : system_states_et) : string :=
  match s with
  | SYS_POST => "SYS_POST"
  | SYS_INIT => "SYS_INIT"
  | SYS_IDLE => "SYS_IDLE"
  | SYS_WAIT_FOR_PLAYER => "SYS_WAIT_FOR_PLAYER"
  | SYS_PLAY_NEXT => "SYS_PLAY_NEXT"
  | SYS_RESUME_PLAYING => "SYS_RESUME_PLAYING"
  | SYS_TOY_DETECTED => "SYS_TOY_DETECTED"
  | SYS_PLAY_TOY => "SYS_PLAY_TOY"
  | SYS_GET_DIRECTION => "SYS_GET_DIRECTION"
  | SYS_READ_AUDIO_HEADER => "SYS_READ_AUDIO_HEADER"
  | SYS_PLAY_ACTIVITY => "SYS_PLAY_ACTIVITY"
  | SYS_PLAY_QNA => "SYS_PLAY_QNA"
  | SYS_WAIT_QNA_RESP => "SYS_WAIT_QNA_RESP"
  | SYS_PLAY_NORMAL_AUDIO => "SYS_PLAY_NORMAL_AUDIO"
  | SYS_DOWNLOAD_WIFI_CONN => "SYS_DOWNLOAD_WIFI_CONN"
  | SYS_DOWNLOAD_TOY => "SYS_DOWNLOAD_TOY"
  | SYS_WIFI_CONNECT_ERR => "SYS_WIFI_CONNECT_ERR"
  | SYS_WIFI_CRED_MISSING_ERR => "SYS_WIFI_CRED_MISSING_ERR"
  | SYS_SHUT_ME_DOWN => "SYS_SHUT_ME_DOWN"
  | SYS_TURN_OFF => "SYS_TURN_OFF"
  | SYS_ERROR => "SYS_ERROR"
  | _ => "UNKNOWN_STATE"
  end.

(** [fread(buf, 1, n, file)] from the start of a file with [content]. *)
Definition fread_into (buf : bytes) (n : nat) (content : bytes) : res bytes :=
  if bool_decide (n ≤ length buf)%nat
  then Ok (take n content ++ drop (length (take n content)) buf)
  else Fault OutOfBounds.

Section system_base.
Context `{Env}.

(** The constructor: what it does not assign stays indeterminate. *)
Definition System_System (mac : bytes) : FW () :=
  text ← lift (sprintf 20 (mac_string mac));
  put_sys macID text;;
  put_sys state SYS_POST;;
  put_sys powerState 0.

Definition setState (st : system_states_et) : FW () :=
  when (bool_decide (st = SYS_IDLE)) (t ← GetStartTime; put_sys idleSinceTick t);;
  put_sys state st.

Definition System_initialize (ssid password user1 : bytes) : FW () :=
  s ← lift (strcpy (memset0 32) ssid);
  put_sys init_ssid s;;
  p ← lift (strcpy (memset0 64) password);
  put_sys init_password p;;
  u ← lift (strcpy (memset0 50) user1);
  put_sys init_user1 u;;
  setState SYS_INIT_WIFI_CHECK.

Definition verifyUserID (userToCheck : bytes) (userNo : Z) : FW () :=
  (if bool_decide (userNo = 1) then
     u ← lift (strcpy (memset0 50) userToCheck); put_sys init_user1 u
   else if bool_decide (userNo = 2) then
     u ← lift (strcpy (memset0 50) userToCheck); put_sys init_user2 u
   else skip);;
  setState SYS_INIT_USER_ID_CHECK.

Definition setPowerStatus (st : Z) : FW () := put_sys powerState st.
Definition getPowerStatus : FW Z := get_sys powerState.
Definition setChargingStatus (st : Z) : FW () := put_sys chargingState st.
Definition getChargingStatus : FW Z := get_sys chargingState.
Definition setBatteryLevel (level : Z) : FW () := put_sys batteryLevel level.
Definition getBatteryLevel : FW Z := get_sys batteryLevel.
Definition getTurnTable : FW Z := get_sys turnTable.
Definition setTurnTable (direction : Z) : FW () := put_sys turnTable direction.
Definition setRightEarButton (st : bool) : FW () := put_sys rightEarButtonState st.
Definition setLeftEarButton (st : bool) : FW () := put_sys leftEarButtonState st.
Definition getRightEarButton : FW bool := get_sys rightEarButtonState.
Definition getLeftEarButton : FW bool := get_sys leftEarButtonState.
Definition getMacID : FW bytes := get_sys macID.
Definition getUniqueBoxID : FW bytes := b ← get_sys uniqueBoxID; ret (until_nul b).

Definition setToy (toy_ : bytes) : FW () :=
  b ← lift (strcpy (memset0 20) toy_);
  put_sys toy (until_nul b);;
  put_sys toyPresenseFlag true.

(** [NULL] is [None]. *)
Definition getUserID (userIndex : Z) : FW (option bytes) :=
  if bool_decide (userIndex = 1) then b ← get_sys sys_user1; ret (Some (until_nul b))
  else if bool_decide (userIndex = 2) then b ← get_sys sys_user2; ret (Some (until_nul b))
  else ret None.

(** [memset(p, 0, 40); strncpy(p, user, 36)], then the 36 bytes to the file. *)
Definition write_user (p : sys_st → bytes) `{!Update p} (path user : bytes) : FW () :=
  b ← lift (strncpy (memset0 40) user 36);
  put_sys p b;;
  opened ← fopen_w path;
  when opened (fappend path (take 36 b)).

Definition writeUserID (userIndex : Z) (user : bytes) : FW () :=
  if bool_decide (userIndex = 1) then write_user sys_user1 USER_ID1_SDCARD_LOCATION user
  else if bool_decide (userIndex = 2) then write_user sys_user2 USER_ID2_SDCARD_LOCATION user
  else skip.

Definition verifyUser (user : bytes) : FW bool :=
  u1 ← get_sys sys_user1;
  u2 ← get_sys sys_user2;
  ret (strcmp_eq (until_nul u1) user || strcmp_eq (until_nul u2) user).

(** One half of [readUserIDs]: the array keeps its tail on a short file and is
    cleared when there is no file. *)
Definition read_user (p : sys_st → bytes) `{!Update p} (path : bytes) : FW () :=
  f ← fopen_r path;
  match f with
  | Some content => b ← get_sys p; b' ← lift (fread_into b 36 content); put_sys p b'
  | None => put_sys p (memset0 40)
  end.

Definition readUserIDs : FW () :=
  read_user sys_user1 USER_ID1_SDCARD_LOCATION;;
  read_user sys_user2 USER_ID2_SDCARD_LOCATION.

Definition isBoxInitialized : FW bool :=
  u1 ← get_sys sys_user1;
  u2 ← get_sys sys_user2;
  ret (negb (bool_decide (until_nul u1 = []) && bool_decide (until_nul u2 = []))).

Definition ReadBoxUniqueID : FW bool :=
  f ← fopen_r BOX_ID_SDCARD_LOCATION;
  match f with
  | Some content =>
      b ← lift (fread_into (memset0 40) 36 content); put_sys uniqueBoxID b;; ret true
  | None => put_sys uniqueBoxID (memset0 40);; ret false
  end.

Definition ReadBoxName : FW bool :=
  f ← fopen_r BOX_NAME_SDCARD_LOCATION;
  match f with
  | Some content =>
      b ← get_sys boxName; b' ← lift (fread_into b 100 content); put_sys boxName b';; ret true
  | None => put_sys boxName (memset0 100);; ret false
  end.

Definition GetBoxName : FW bytes := b ← get_sys boxName; ret (until_nul b).

Definition WriteBoxName (name : bytes) : FW () :=
  b ← lift (strcpy (memset0 100) name);
  put_sys boxName b;;
  opened ← fopen_w BOX_NAME_SDCARD_LOCATION;
  when opened (fappend BOX_NAME_SDCARD_LOCATION b).

End system_base.

(** ** Lemmas *)

Section system_lemmas.
Context `{Env}.

(** A string of at most [n] bytes, as [strncpy] leaves it in a larger array. *)
Lemma until_nul_strncpy n m s : no_nul s → (length s ≤ n < m)%nat →
  until_nul (take n (s ++ replicate n 0) ++ drop n (memset0 m)) = s.
Proof.
  intros Hs Hn. rewrite take_app_ge by lia. rewrite take_replicate. unfold memset0.
  rewrite drop_replicate, <-app_assoc, <-replicate_add.
  replace (Nat.min (n - length s) n + (m - n))%nat with (S (m - S (length s))) by lia.
  by apply until_nul_app.
Qed.

Definition user_array (u : bytes) : bytes := take 36 (u ++ replicate 36 0) ++ drop 36 (memset0 40).

Lemma length_user_field (u : bytes) : length (take 36 (u ++ replicate 36 0)) = 36%nat.
Proof. rewrite length_take, length_app, length_replicate. lia. Qed.

Lemma write_user_run (p : sys_st → bytes) `{!Update p} path u w : can_create path (fs w) = true →
  ∃ w', write_user p path u w = Ok ((), w') ∧ sys w' = set p (user_array u) (sys w) ∧
    files (fs w') !! path = Some (take 36 (user_array u)) ∧
    (∀ other, other ≠ path → files (fs w') !! other = files (fs w) !! other).
Proof.
  intros Hc. unfold write_user, strncpy. rewrite bool_decide_true by (vm_compute; lia).
  mrun. rewrite Hc. simpl. eexists. split_and!; [done..| |].
  - simpl. by rewrite lookup_alter_eq, lookup_insert_eq.
  - intros other Ho. simpl. by rewrite lookup_alter_ne, lookup_insert_ne.
Qed.

Lemma read_user_run (p : sys_st → bytes) `{!Update p} path w : length (p (sys w)) = 40%nat →
  ∃ b, read_user p path w = Ok ((), update sys (set p b) w) ∧
    (∀ content, files (fs w) !! path = Some content → length content = 36%nat →
      p (sys w) = memset0 40 → b = content ++ memset0 4).
Proof.
  intros Hl. unfold read_user. cbv [bind fopen_r gets]. destruct (files (fs w) !! path) as [content|] eqn:E.
  - unfold get_sys, gets, fread_into. rewrite bool_decide_true by lia. eexists. split; [done|].
    intros c [= <-] Hc Hz. rewrite take_ge, Hc, Hz by lia. done.
  - eexists. split; [done|]. done.
Qed.

End system_lemmas.

(** ** Properties *)

Section system_properties.
Context `{Env}.

(** C37 (user IDs survive a restart).  A user ID of at most 36 bytes that is
    written with [writeUserID] is recognised at once, and again after a
    restart that reads both IDs from the card. *)
Theorem user_id_roundtrip (i : Z) (u : bytes) (w : world)
    (Hi : i = 1 ∨ i = 2) (Hu : no_nul u) (Hl : (length u ≤ 36)%nat)
    (H1 : can_create USER_ID1_SDCARD_LOCATION (fs w) = true)
    (H2 : can_create USER_ID2_SDCARD_LOCATION (fs w) = true) :
  ∃ w1 w2, writeUserID i u w = Ok ((), w1) ∧ verifyUser u w1 = Ok (true, w1) ∧
    readUserIDs (update sys (λ s, set sys_user1 (memset0 40) (set sys_user2 (memset0 40) s)) w1)
      = Ok ((), w2) ∧
    verifyUser u w2 = Ok (true, w2) ∧ getUserID i w2 = Ok (Some u, w2).
Proof.
  assert (until_nul (user_array u) = u) as Hun by (by apply until_nul_strncpy; [|lia]).
  assert (take 36 (user_array u) ++ memset0 4 = user_array u) as Hfile.
  { unfold user_array. rewrite take_app_length' by by rewrite length_user_field. done. }
  assert (length (take 36 (user_array u)) = 36%nat) as H36.
  { unfold user_array. rewrite take_app_length' by by rewrite length_user_field. apply length_user_field. }
  assert (∀ w', (∃ p, (p = sys_user1 ∨ p = sys_user2) ∧ p (sys w') = user_array u) →
    verifyUser u w' = Ok (true, w')) as Hver.
  { intros w' (p & Hp & E). unfold verifyUser, strcmp_eq. mrun. do 2 f_equal.
    destruct Hp as [-> | ->]; rewrite E, Hun, (bool_decide_true (u = u)) by done; [done|].
    apply orb_true_r. }
  unfold writeUserID, readUserIDs.
  destruct Hi as [->| ->]; cbn -[write_user read_user].
  - destruct (write_user_run sys_user1 USER_ID1_SDCARD_LOCATION u w H1) as (w1 & Hw & Es & Hf & _).
    exists w1.
    destruct (read_user_run sys_user1 USER_ID1_SDCARD_LOCATION (update sys (λ s, set sys_user1 (memset0 40)
      (set sys_user2 (memset0 40) s)) w1)) as (b1 & Hr1 & Hb1); [done|].
    destruct (read_user_run sys_user2 USER_ID2_SDCARD_LOCATION (update sys (set sys_user1 b1)
      (update sys (λ s, set sys_user1 (memset0 40) (set sys_user2 (memset0 40) s)) w1)))
      as (b2 & Hr2 & _); [done|].
    eexists. split_and!; [exact Hw|apply Hver; exists sys_user1; rewrite Es; by auto|..].
    + rewrite (bind_run _ _ _ _ _ Hr1). exact Hr2.
    + apply Hver. exists sys_user1. split; [auto|]. simpl. rewrite (Hb1 _ Hf H36) by done. done.
    + assert (∀ w', getUserID 1 w' = Ok (Some (until_nul (sys_user1 (sys w'))), w')) as -> by done.
      match goal with |- context [sys_user1 ?x] => change (sys_user1 x) with b1 end.
      rewrite (Hb1 _ Hf H36) by done. by rewrite Hfile, Hun.
  - destruct (write_user_run sys_user2 USER_ID2_SDCARD_LOCATION u w H2) as (w1 & Hw & Es & Hf & _).
    exists w1.
    destruct (read_user_run sys_user1 USER_ID1_SDCARD_LOCATION (update sys (λ s, set sys_user1 (memset0 40)
      (set sys_user2 (memset0 40) s)) w1)) as (b1 & Hr1 & _); [done|].
    destruct (read_user_run sys_user2 USER_ID2_SDCARD_LOCATION (update sys (set sys_user1 b1)
      (update sys (λ s, set sys_user1 (memset0 40) (set sys_user2 (memset0 40) s)) w1)))
      as (b2 & Hr2 & Hb2); [done|].
    eexists. split_and!; [exact Hw|apply Hver; exists sys_user2; rewrite Es; by auto|..].
    + rewrite (bind_run _ _ _ _ _ Hr1). exact Hr2.
    + apply Hver. exists sys_user2. split; [auto|]. simpl. rewrite (Hb2 _ Hf H36) by done. done.
    + assert (∀ w', getUserID 2 w' = Ok (Some (until_nul (sys_user2 (sys w'))), w')) as -> by done.
      match goal with |- context [sys_user2 ?x] => change (sys_user2 x) with b2 end.
      rewrite (Hb2 _ Hf H36) by done. by rewrite Hfile, Hun.
Qed.

(** C35 (initialisation is memory-safe exactly within its arrays).
    [System::initialize] copies three strings of the phone into arrays of 32,
    64 and 50 bytes without looking at their length: it runs past an array
    exactly when one of them does not fit, and otherwise leaves the three
    strings in place and asks for the WiFi check. *)
Theorem System_initialize_bounds (s p u : bytes) (w : world) (Hs : no_nul s) (Hp : no_nul p) (Hu : no_nul u) :
  if decide ((length s < 32)%nat ∧ (length p < 64)%nat ∧ (length u < 50)%nat) then
    ∃ w', System_initialize s p u w = Ok ((), w') ∧ until_nul (init_ssid (sys w')) = s ∧
      until_nul (init_password (sys w')) = p ∧ until_nul (init_user1 (sys w')) = u ∧
      state (sys w') = SYS_INIT_WIFI_CHECK
  else System_initialize s p u w = Fault OutOfBounds.
Proof.
  destruct (decide _) as [(H1 & H2 & H3)|Hn].
  - unfold System_initialize. rewrite !strcpy_zeros by done.
    eexists. split; [reflexivity|]. simpl. by rewrite !until_nul_padded.
  - unfold System_initialize. cbv [bind lift].
    assert (∀ n (t : bytes), strcpy (memset0 n) t = if bool_decide (length t < n)%nat
      then Ok (padded n t) else Fault OutOfBounds) as Hc.
    { intros n t. case_bool_decide; [by apply strcpy_zeros|]. unfold strcpy, memset0.
      by rewrite length_replicate, bool_decide_false. }
    rewrite !Hc. repeat case_bool_decide; try done. by destruct Hn.
Qed.

(** Recognising users.  A user is accepted exactly when it is the string
    in one of the two slots; in particular the empty user ID is accepted as
    long as one slot is empty, so a box that is not initialised accepts it. *)
Theorem verifyUser_spec (u : bytes) (w : world) :
  verifyUser u w = Ok (bool_decide (u = until_nul (sys_user1 (sys w)) ∨ u = until_nul (sys_user2 (sys w))), w) ∧
  (isBoxInitialized w = Ok (false, w) → verifyUser [] w = Ok (true, w)).
Proof.
  unfold verifyUser, isBoxInitialized, strcmp_eq. mrun. split.
  - do 2 f_equal. rewrite <-bool_decide_or. apply bool_decide_ext. naive_solver.
  - intros [= Hb]. apply negb_false_iff, andb_true_iff in Hb as [Hb1%bool_decide_eq_true _].
    by rewrite Hb1.
Qed.

End system_properties.

(** ** Witnesses *)

Section system_witnesses.
#[local] Instance sample_env : Env := Sample.env AEL_STATE_RUNNING.

Definition sample_user : bytes := lit "3f2c8a10-77aa-4c0e-9d52-0a1b2c3d4e5f".

Example user_id_roundtrip_witness :
  ∃ w1, writeUserID 2 sample_user Sample.world0 = Ok ((), w1) ∧ verifyUser sample_user w1 = Ok (true, w1).
Proof.
  destruct (user_id_roundtrip 2 sample_user Sample.world0) as (w1 & w2 & Hw & Hv & _).
  - right. reflexivity.
  - apply no_nul_check. vm_compute. reflexivity.
  - apply Nat.leb_le. vm_compute. reflexivity.
  - vm_compute. reflexivity.
  - vm_compute. reflexivity.
  - exists w1. split; [exact Hw|exact Hv].
Defined.

Example System_initialize_bounds_witness :
  System_initialize (replicate 40 65) [65] [65] Sample.world0 = Fault OutOfBounds.
Proof.
  pose proof (System_initialize_bounds (replicate 40 65) [65] [65] Sample.world0) as Hb.
  destruct (decide _) as [[Hn _]|_] in Hb.
  - exfalso. vm_compute in Hn. lia.
  - apply Hb; apply no_nul_check; vm_compute; reflexivity.
Defined.

End system_witnesses.
