(* ===== verification/Player.v ===== *)
(** * Player: volume, audio header, pipeline control (main/src/player.cpp)

    The Player object over the ESP-ADF pipeline.  The pipeline is outside the
    repository: its functions are calls of [hist], and the state of the
    writer element is what [Env] answers.  [System::resetToy] is here because
    it calls [Player::ToyRemoved].  The destructor is not modelled: nothing
    deletes the player. *)

From S2P Require Import Prelude CString World TimeSpent Led SystemBase.
#[local] Open Scope M_scope.

(** ** The audio header (Player::readHeader) *)

(** One line of the header, after the newline is cut; [None] stops the loop. *)
Definition header_line (line : bytes) (h : header_t) : res (option header_t) :=
  if strncmp_eq 12 line (lit "HEADER_START") then Ok (Some h)
  else if strncmp_eq 10 line (lit "HEADER_END") then Ok None
  else match line with
  | 84 :: 58 :: r => v ← sscanf_d r (hdr_T h); Ok (Some (set hdr_T v h))
  | 65 :: 58 :: r => v ← sscanf_d r (hdr_A h); Ok (Some (set hdr_A v h))
  | 76 :: 58 :: r => v ← sscanf_3 fits_int r (hdr_L h); Ok (Some (set hdr_L v h))
  | 82 :: 58 :: r => v ← sscanf_3 fits_int r (hdr_R h); Ok (Some (set hdr_R v h))
  | 90 :: 58 :: r => Ok (Some (set hdr_Z (take 19 (r ++ replicate 19 0) ++ [0]) h))
  | _ => Ok (Some h)
  end%stdpp.

(** [while (fgets(line, sizeof(line), file))], with fuel for the bytes left. *)
Fixpoint header_loop (fuel : nat) (rest : bytes) (h : header_t) : res header_t :=
  match fuel, fgets 256 rest with
  | S fuel, Some (line, rest) =>
      match header_line (cut_eol line) h with
      | Ok (Some h) => header_loop fuel rest h
      | Ok None => Ok h
      | Fault f => Fault f
      end
  | _, _ => Ok h
  end.

Definition parse_header (content : bytes) (h : header_t) : res header_t :=
  header_loop (S (length content)) content h.

Section player.
Context `{Env} `{CJSON}.

(** ** Playlist items *)

(** [cJSON_GetObjectItem(json, key)->valuestring], used as a string. *)
Definition item_string (key : bytes) : FW bytes :=
  j ← get_sys json;
  p ← lift (from_option_res Uninitialised j);
  let item := cJSON_GetObjectItem p key in
  if bool_decide (item = 0) then fail NullDeref
  else lift (from_option_res NullDeref (valuestring item)).

Definition audio_path (name suffix : bytes) : bytes :=
  lit "/sdcard/media/audio/" ++ name ++ suffix ++ lit ".mp3".

(** ** Set-up and playing *)

Definition create_fatfs_stream : FW () := emit fatfs_stream_init.
Definition create_i2s_stream : FW () := emit i2s_stream_init.
Definition create_mp3_decoder : FW () := emit mp3_decoder_init.

Definition Player_init : FW () :=
  emit audio_board_init;;
  emit audio_hal_ctrl_codec_start;;
  emit (audio_hal_set_volume 50);;
  emit audio_pipeline_init;;
  create_fatfs_stream;;
  create_i2s_stream;;
  create_mp3_decoder;;
  emit (audio_pipeline_register (lit "file"));;
  emit (audio_pipeline_register (lit "mp3"));;
  emit (audio_pipeline_register (lit "i2s"));;
  emit (audio_pipeline_link [lit "file"; lit "mp3"; lit "i2s"]);;
  emit audio_event_iface_init;;
  emit audio_pipeline_set_listener;;
  emit audio_event_iface_set_listener.

Definition readVolume : FW () :=
  f ← fopen_r VOLUME_SDCARD_LOCATION;
  match f with
  | Some content =>
      data ← lift (fread_into [0; 0] 2 content);
      v ← lift (load data 0);
      put_plr volume v;;
      m ← lift (load data 1);
      put_plr maxVolume m
  | None =>
      put_plr volume 100;;
      put_plr maxVolume 100
  end.

(** [fclose(file)] is outside the test of [file]. *)
Definition writeVolume : FW () :=
  opened ← fopen_w VOLUME_SDCARD_LOCATION;
  when opened
    (v ← get_plr volume;
     m ← get_plr maxVolume;
     fappend VOLUME_SDCARD_LOCATION [v; m]);;
  if opened then skip else fail NullDeref.

Definition play (loc : bytes) : FW () :=
  readVolume;;
  emit audio_pipeline_stop;;
  emit audio_pipeline_wait_for_stop;;
  emit audio_pipeline_terminate;;
  delay 5;;
  emit (audio_element_set_uri loc);;
  emit audio_pipeline_reset_ringbuffer;;
  emit audio_pipeline_reset_elements;;
  emit audio_element_getinfo;;
  emit audio_element_setinfo;;
  emit i2s_stream_set_clk;;
  emit audio_pipeline_run;;
  delay 10;;
  put_plr fileFinishedPlaying false.

Definition readHeader : FW () :=
  i ← get_sys indexx;
  key ← lift (sprintf 4 (fmt_d (i + 1)));
  name ← item_string key;
  path ← lift (sprintf 100 (audio_path name []));
  f ← fopen_r path;
  match f with
  | None => skip
  | Some content =>
      h ← get_plr headerData;
      h' ← lift (parse_header content h);
      put_plr headerData h'
  end.

(** The [char] argument is its code; -1 and NULL stand for an unknown field. *)
Definition getHeaderValue (field : Z) : FW Z :=
  h ← get_plr headerData;
  ret (if bool_decide (field = 84) then hdr_T h
       else if bool_decide (field = 65) then hdr_A h else -1).

Definition getHeaderRGBValue (field : Z) : FW (option (Z * Z * Z)) :=
  h ← get_plr headerData;
  ret (if bool_decide (field = 76) then Some (hdr_L h)
       else if bool_decide (field = 82) then Some (hdr_R h) else None).

Definition getHeaderDateRange : FW bytes := h ← get_plr headerData; ret (until_nul (hdr_Z h)).

(** ** Brightness *)

(** The four bytes of the duration are or-ed with 0xFF, as in the source. *)
Definition brightness_bytes (r g b duration : Z) : bytes :=
  [u8 r; u8 g; u8 b; u8 (Z.lor duration 0xFF); u8 (Z.lor (Z.shiftr duration 8) 0xFF);
   u8 (Z.lor (Z.shiftr duration 16) 0xFF); u8 (Z.lor (Z.shiftr duration 24) 0xFF)].

Definition writeBrightness (r g b duration : Z) : FW () :=
  opened ← fopen_w BRIGHTNESS_SDCARD_LOCATION;
  when opened
    (put_plr brightnessData (brightness_bytes r g b duration);;
     fappend BRIGHTNESS_SDCARD_LOCATION (brightness_bytes r g b duration));;
  if opened then skip else fail NullDeref.

Definition readBrightess : FW () :=
  f ← fopen_r BRIGHTNESS_SDCARD_LOCATION;
  match f with
  | Some content =>
      b ← get_plr brightnessData; b' ← lift (fread_into b 7 content); put_plr brightnessData b'
  | None => fail NullDeref
  end.

(** ** Pipeline control *)

Definition writer_state : FW audio_element_state_t :=
  emit audio_element_get_state;;
  h ← gets hist;
  ret (env_el_state h).

Definition playPauseToggle : FW () :=
  st ← writer_state;
  if bool_decide (st = AEL_STATE_RUNNING) then emit audio_pipeline_pause
  else when (bool_decide (st = AEL_STATE_PAUSED)) (emit audio_pipeline_resume).

Definition resumePlaying : FW () :=
  st ← writer_state;
  if bool_decide (st = AEL_STATE_PAUSED) then
    emit audio_pipeline_resume;;
    put_sys playerGoBackToState SYS_PLAY_NEXT;;
    setState SYS_WAIT_FOR_PLAYER
  else setState SYS_PLAY_NEXT.

Definition SkipCurrentAudio : FW () :=
  st ← writer_state;
  when (bool_decide (st = AEL_STATE_RUNNING) || bool_decide (st = AEL_STATE_PAUSED))
    (emit audio_pipeline_stop;; emit audio_pipeline_wait_for_stop;; delay 20).

Definition PauseCurrentAudio : FW () :=
  st ← writer_state;
  when (bool_decide (st = AEL_STATE_RUNNING)) (emit audio_pipeline_pause).

Definition skipQuestion : FW () :=
  b ← get_plr isResponseRequiredFlag;
  when b SkipCurrentAudio.

Definition DirectionUpdated : FW () := SkipCurrentAudio.
Definition stopPipeline : FW () := emit audio_pipeline_stop.
Definition waitForPipelineStop : FW () := emit audio_pipeline_wait_for_stop.

Definition deinit : FW () := setLeftEarColor 0 0 0;; setRightEarColor 0 0 0.

(** [audio_event_iface_listen(evt, &msg, ...)], whose result is ignored: when it
    times out, [msg] keeps the bytes it finds on the stack, and they are read. *)
Definition listen : FW audio_msg :=
  emit audio_event_iface_listen;;
  h ← gets hist;
  match env_msg h with
  | Some msg => ret msg
  | None => emit uninitialised_read;; ret (env_stack h)
  end.

Definition CheckPlayingCompleted : FW bool :=
  msg ← listen;
  when (msg_is_element msg && bool_decide (msg_source msg = src_decoder)
        && bool_decide (msg_cmd msg = AEL_MSG_CMD_REPORT_MUSIC_INFO))
    (emit audio_element_getinfo;; emit audio_element_setinfo;; emit i2s_stream_set_clk);;
  if msg_is_element msg && bool_decide (msg_source msg = src_writer)
     && bool_decide (msg_cmd msg = AEL_MSG_CMD_REPORT_STATUS)
     && (bool_decide (msg_data msg = AEL_STATUS_STATE_STOPPED)
         || bool_decide (msg_data msg = AEL_STATUS_STATE_FINISHED))
  then
    b ← get_plr isResponseRequiredFlag;
    when b (put_plr isResponseRequiredFlag false);;
    ret (bool_decide (msg_data msg = AEL_STATUS_STATE_FINISHED))
  else ret false.

(** ** Volume *)

Definition getVolume : FW Z := get_plr volume.
Definition getMaxVolume : FW Z := get_plr maxVolume.

(** [if (el_state == RUNNING || el_state == PAUSED) audio_hal_set_volume(...)] *)
Definition apply_volume (v : Z) : FW () :=
  st ← writer_state;
  when (bool_decide (st = AEL_STATE_RUNNING) || bool_decide (st = AEL_STATE_PAUSED))
    (emit (audio_hal_set_volume v)).

Definition incVolume : FW () :=
  v ← get_plr volume;
  put_plr volume (u8 (v + 5));;
  v ← get_plr volume;
  m ← get_plr maxVolume;
  when (bool_decide (m < v)) (put_plr volume m);;
  v ← get_plr volume;
  apply_volume v;;
  writeVolume.

Definition decVolume : FW () :=
  v ← get_plr volume;
  (if bool_decide (5 < v) then put_plr volume (u8 (v - 5)) else put_plr volume 0);;
  v ← get_plr volume;
  apply_volume v;;
  writeVolume.

(** The parameter hides the member: [volume = volume] assigns it to itself. *)
Definition setVolume (vol : Z) : FW () :=
  let vol := if bool_decide (vol < 0) then 0 else if bool_decide (100 < vol) then 100 else vol in
  apply_volume vol;;
  writeVolume.

(** The clamped value is overwritten; the last [if] changes the parameter. *)
Definition setMaxVolume (vol : Z) : FW () :=
  (if bool_decide (vol < 0) then put_plr maxVolume 0
   else when (bool_decide (100 < vol)) (put_plr maxVolume 100));;
  put_plr maxVolume (u8 vol);;
  writeVolume.

(** ** Toys and tracks *)

Definition verify_path (toy_ : bytes) : bytes :=
  lit "/sdcard/media/toys/" ++ toy_ ++ lit "/verify.txt".

Definition checkDownloadStatus (toy_ : bytes) : FW bool :=
  url ← lift (sprintf 100 (verify_path toy_));
  f ← fopen_r url;
  ret (bool_decide (is_Some f)).

Definition ToyRemoved : FW () :=
  PauseCurrentAudio;;
  t ← get_sys toy;
  b ← lift (strcpy (memset0 20) t);
  put_sys previousToy (until_nul b);;
  d ← getTurnTable;
  put_sys previousTurntable d;;
  setState SYS_IDLE.

(** The states between [SYS_PLAY_TOY] and [SYS_PLAYING_COMPLETE]. *)
Definition track_keys_enabled (s : system_states_et) : bool :=
  bool_decide (sys_state_num SYS_PLAY_TOY < sys_state_num s)
  && bool_decide (sys_state_num s < sys_state_num SYS_PLAYING_COMPLETE).

Definition Player_next : FW () :=
  s ← get_sys state;
  when (track_keys_enabled s) (setState SYS_PLAY_NEXT).

Definition Player_previous : FW () :=
  s ← get_sys state;
  when (track_keys_enabled s)
    (i ← get_sys indexx; when (bool_decide (0 < i)) (setState SYS_PLAY_PREVIOUS)).

(** [System::resetToy] (system.cpp) *)
Definition resetToy : FW () :=
  put_sys toyPresenseFlag false;;
  ToyRemoved;;
  put_sys toy [];;
  setState SYS_IDLE.

End player.

#[export] Hint Unfold readVolume writeVolume writer_state apply_volume incVolume decVolume
  setVolume setMaxVolume playPauseToggle PauseCurrentAudio SkipCurrentAudio skipQuestion
  writeBrightness readBrightess CheckPlayingCompleted Player_next Player_previous : fw.

(** ** Lemmas *)

Section player_lemmas.
Context `{Env} `{CJSON}.

Definition vol_wf (p : plr_st) : Prop := 0 <= volume p <= maxVolume p ∧ maxVolume p <= 100.

(** The volume file holds the two bytes of the player. *)
Definition vol_saved (w : world) : Prop :=
  files (fs w) !! VOLUME_SDCARD_LOCATION = Some [volume (plr w); maxVolume (plr w)].

Lemma alter_insert_file (m : gmap bytes bytes) p a f : alter f p (<[p := a]> m) !! p = Some (f a).
Proof. by rewrite lookup_alter_eq, lookup_insert_eq. Qed.

Lemma writeVolume_run w : can_create VOLUME_SDCARD_LOCATION (fs w) = true →
  ∃ w', writeVolume w = Ok ((), w') ∧ plr w' = plr w ∧ sys w' = sys w ∧ hist w' = hist w ∧
        vol_saved w' ∧ dirs (fs w') = dirs (fs w).
Proof.
  intros Hc. mrun. rewrite Hc. simpl. eexists. split_and!; [done..| |done].
  unfold vol_saved. simpl. by rewrite alter_insert_file.
Qed.

Lemma apply_volume_run v w :
  ∃ h, apply_volume v w = Ok ((), update hist (λ _, h) w).
Proof. mrun. mcase; by eexists. Qed.

Lemma put_plr_run {A} (p : plr_st → A) `{!Update p} v w :
  put_plr p v w = Ok ((), update plr (set p v) w).
Proof. done. Qed.

(** The message after a listen, and the calls until then. *)
Definition listened (h : list call) : list call :=
  let h := audio_event_iface_listen :: h in
  match env_msg h with Some _ => h | None => uninitialised_read :: h end.
Definition heard (h : list call) : audio_msg :=
  let h := audio_event_iface_listen :: h in
  match env_msg h with Some msg => msg | None => env_stack h end.

Lemma listen_run w : listen w = Ok (heard (hist w), update hist listened w).
Proof.
  unfold listen, heard. mrun. destruct w as [h]. unfold update, upd_hist, listened. simpl.
  by destruct (env_msg (audio_event_iface_listen :: h)).
Qed.

Lemma set_volume_cap w m v :
  (when (bool_decide (m < v)) (put_plr volume m)) (update plr (set volume v) w)
  = Ok ((), update plr (set volume (Z.min v m)) w).
Proof.
  mrun. case_bool_decide; simpl; [rewrite Z.min_r by lia|rewrite Z.min_l by lia; done].
  by destruct w as [?? ? [] ?????].
Qed.

End player_lemmas.

(** ** Properties *)

Section player_properties.
Context `{Env} `{CJSON}.

(** Volume keys.  With a writable card and a volume within its limits,
    a press of "up" adds five up to the limit and a press of "down" takes five
    off down to zero; the limit is unchanged, the new pair is on the card, and
    the volume is within its limits again. *)
Theorem volume_keys (w : world) (Hv : vol_wf (plr w))
    (Hc : can_create VOLUME_SDCARD_LOCATION (fs w) = true) :
  (∃ w', incVolume w = Ok ((), w') ∧ volume (plr w') = Z.min (volume (plr w) + 5) (maxVolume (plr w))
         ∧ maxVolume (plr w') = maxVolume (plr w) ∧ vol_saved w' ∧ vol_wf (plr w')) ∧
  (∃ w', decVolume w = Ok ((), w') ∧ volume (plr w') = Z.max (volume (plr w) - 5) 0
         ∧ maxVolume (plr w') = maxVolume (plr w) ∧ vol_saved w' ∧ vol_wf (plr w')).
Proof.
  unfold vol_wf in *. split.
  - unfold incVolume.
    assert (u8 (volume (plr w) + 5) = volume (plr w) + 5) as Hu
      by (unfold u8; apply Z.mod_small; lia).
    set (w1 := update plr (set volume (Z.min (volume (plr w) + 5) (maxVolume (plr w)))) w).
    destruct (apply_volume_run (volume (plr w1)) w1) as [h Ha].
    destruct (writeVolume_run (update hist (λ _, h) w1)) as (w' & Hw & Hp & _ & _ & Hs & _); [done|].
    exists w'. split.
    + cbv [bind gets get_plr]. rewrite put_plr_run. simpl. rewrite Hu, set_volume_cap.
      fold w1. rewrite Ha. exact Hw.
    + rewrite Hp. simpl. split_and!; done || lia.
  - unfold decVolume.
    assert ((if bool_decide (5 < volume (plr w)) then put_plr volume (u8 (volume (plr w) - 5))
             else put_plr volume 0) w
            = Ok ((), update plr (set volume (Z.max (volume (plr w) - 5) 0)) w)) as Hd.
    { unfold put_plr, modify. case_bool_decide; do 4 f_equal; unfold u8;
        rewrite ?Z.mod_small by lia; lia. }
    set (w1 := update plr (set volume (Z.max (volume (plr w) - 5) 0)) w) in Hd.
    destruct (apply_volume_run (volume (plr w1)) w1) as [h Ha].
    destruct (writeVolume_run (update hist (λ _, h) w1)) as (w' & Hw & Hp & _ & _ & Hs & _); [done|].
    exists w'. split.
    + cbv [bind gets get_plr]. rewrite Hd, Ha. exact Hw.
    + rewrite Hp. simpl. split_and!; done || lia.
Qed.

(** Volume round trip.  What [writeVolume] stores, [readVolume] reads
    back, whatever the player's volume was in between. *)
Theorem volume_roundtrip (w : world) (v m : Z)
    (Hc : can_create VOLUME_SDCARD_LOCATION (fs w) = true) :
  ∃ w1 w2, writeVolume w = Ok ((), w1) ∧
    readVolume (update plr (λ p, set volume v (set maxVolume m p)) w1) = Ok ((), w2) ∧
    volume (plr w2) = volume (plr w) ∧ maxVolume (plr w2) = maxVolume (plr w).
Proof.
  destruct (writeVolume_run w Hc) as (w1 & Hw & Hp & _ & _ & Hs & _). exists w1.
  unfold vol_saved in Hs. rewrite Hp in Hs.
  eexists. split_and!; [done| |..].
  - unfold readVolume. cbv [bind fopen_r gets]. simpl. rewrite Hs. reflexivity.
  - done.
  - done.
Qed.

(** SetVolume.  [Player::setVolume] never changes the player's volume:
    the parameter hides the member it is assigned to.  Only the codec may get
    the clamped value, and the old volume is written to the card. *)
Theorem setVolume_no_effect (w : world) (vol : Z)
    (Hc : can_create VOLUME_SDCARD_LOCATION (fs w) = true) :
  ∃ w', setVolume vol w = Ok ((), w') ∧ plr w' = plr w ∧ vol_saved w'.
Proof.
  unfold setVolume.
  match goal with |- context [apply_volume ?v] => destruct (apply_volume_run v w) as [h Ha] end.
  destruct (writeVolume_run (update hist (λ _, h) w)) as (w' & Hw & Hp & _ & _ & Hs & _); [exact Hc|].
  exists w'. split_and!; [|by rewrite Hp|done].
  rewrite (bind_run _ _ _ _ _ Ha). exact Hw.
Qed.

(** Lamp duration.  The file [writeBrightness] stores holds the three
    colours and four bytes 255: the duration is lost, because its bytes are
    or-ed with 0xFF where the shifts ask for a mask. *)
Theorem writeBrightness_loses_duration (w : world) (r g b duration : Z)
    (Hd : 0 <= duration < 4294967296)
    (Hc : can_create BRIGHTNESS_SDCARD_LOCATION (fs w) = true) :
  ∃ w', writeBrightness r g b duration w = Ok ((), w') ∧
    files (fs w') !! BRIGHTNESS_SDCARD_LOCATION = Some [u8 r; u8 g; u8 b; 255; 255; 255; 255] ∧
    brightnessData (plr w') = [u8 r; u8 g; u8 b; 255; 255; 255; 255].
Proof.
  assert (∀ x, u8 (Z.lor x 0xFF) = 255) as Hff.
  { intros x. unfold u8. change 256 with (2 ^ 8). change 0xFF with (Z.ones 8).
    rewrite <-Z.land_ones by lia. rewrite Z.land_lor_distr_l, Z.land_diag.
    rewrite Z.lor_comm. apply Z.bits_inj_iff'. intros i Hi.
    rewrite Z.lor_spec, Z.land_spec. by destruct (Z.testbit x i), (Z.testbit (Z.ones 8) i). }
  mrun. rewrite Hc. simpl. eexists. split; [done|]. simpl.
  rewrite alter_insert_file. unfold brightness_bytes. by rewrite !Hff.
Qed.

(** Track keys.  "Next" and "previous" are obeyed in exactly one state,
    while the system waits for the player; "previous" also needs a track to go
    back to.  They change nothing but the state. *)
Theorem track_keys (w : world) :
  Player_next w = Ok ((), if bool_decide (state (sys w) = SYS_WAIT_FOR_PLAYER)
                          then update sys (set state SYS_PLAY_NEXT) w else w) ∧
  Player_previous w = Ok ((), if bool_decide (state (sys w) = SYS_WAIT_FOR_PLAYER ∧ 0 < indexx (sys w))
                              then update sys (set state SYS_PLAY_PREVIOUS) w else w).
Proof.
  assert (∀ s, track_keys_enabled s = bool_decide (s = SYS_WAIT_FOR_PLAYER)) as Hk
    by by intros [].
  mrun. rewrite Hk. split.
  - by case_bool_decide.
  - destruct (decide (state (sys w) = SYS_WAIT_FOR_PLAYER)) as [->|Hn].
    + rewrite bool_decide_true by done. simpl.
      rewrite (bool_decide_ext (_ ∧ _) (0 < indexx (sys w))) by naive_solver.
      by case_bool_decide.
    + rewrite (bool_decide_false _ Hn). by rewrite bool_decide_false by naive_solver.
Qed.

(** End of a track.  [CheckPlayingCompleted] reports completion exactly
    when the message it looks at (after a timeout, the bytes on the stack) is
    the writer's status FINISHED; a status STOPPED or FINISHED of the writer
    also closes the window for answers. *)
Theorem CheckPlayingCompleted_spec (w : world) :
  let msg := heard (hist w) in
  let of_writer := msg_is_element msg && bool_decide (msg_source msg = src_writer)
                   && bool_decide (msg_cmd msg = AEL_MSG_CMD_REPORT_STATUS) in
  ∃ b w', CheckPlayingCompleted w = Ok (b, w') ∧ sys w' = sys w ∧
    (b = true ↔ of_writer = true ∧ msg_data msg = AEL_STATUS_STATE_FINISHED) ∧
    isResponseRequiredFlag (plr w') =
      isResponseRequiredFlag (plr w) && negb (of_writer && negb (bool_decide (msg_data msg = data_other))).
Proof.
  intros msg of_writer. subst msg of_writer. unfold CheckPlayingCompleted. rewrite (bind_run _ _ _ _ _ (listen_run w)).
  mrun. destruct (heard (hist w)) as [el src cmd data]. simpl.
  destruct el, src, cmd, data; simpl; destruct (isResponseRequiredFlag (plr w)) eqn:Hf;
    simpl; rewrite ?Hf; eexists _, _; (split_and!; [done..| |]); simpl; rewrite ?Hf; naive_solver.
Qed.

End player_properties.

(** ** Witnesses *)

Section player_witnesses.

#[local] Instance sample_env : Env := Sample.env AEL_STATE_RUNNING.

Definition sample_volume_world : world :=
  update plr (λ p, set volume 98 (set maxVolume 100 p)) Sample.world0.

Example volume_keys_witness :
  (∃ w', incVolume sample_volume_world = Ok ((), w') ∧ volume (plr w') = 100) ∧
  (∃ w', decVolume sample_volume_world = Ok ((), w') ∧ volume (plr w') = 93).
Proof.
  destruct (volume_keys sample_volume_world) as [(w1 & H1 & H2 & _) (w2 & H3 & H4 & _)].
  - vm_compute. split; [split|]; congruence.
  - vm_compute. reflexivity.
  - split; [exists w1; exact (conj H1 H2)|exists w2; exact (conj H3 H4)].
Defined.

Example volume_roundtrip_witness :
  ∃ w1 w2, writeVolume sample_volume_world = Ok ((), w1) ∧
    readVolume (update plr (λ p, set volume 1 (set maxVolume 2 p)) w1) = Ok ((), w2) ∧
    volume (plr w2) = 98 ∧ maxVolume (plr w2) = 100.
Proof. apply (volume_roundtrip sample_volume_world 1 2). vm_compute. reflexivity. Defined.

Example setVolume_no_effect_witness :
  ∃ w', setVolume 30 sample_volume_world = Ok ((), w') ∧ plr w' = plr sample_volume_world ∧ vol_saved w'.
Proof. apply (setVolume_no_effect sample_volume_world 30). vm_compute. reflexivity. Defined.

Example writeBrightness_loses_duration_witness :
  ∃ w', writeBrightness 255 128 0 300 Sample.world0 = Ok ((), w') ∧
    files (fs w') !! BRIGHTNESS_SDCARD_LOCATION = Some [255; 128; 0; 255; 255; 255; 255] ∧
    brightnessData (plr w') = [255; 128; 0; 255; 255; 255; 255].
Proof.
  apply (writeBrightness_loses_duration Sample.world0 255 128 0 300); [lia|].
  vm_compute. reflexivity.
Defined.

End player_witnesses.
