(* ===== verification/QbusSlave.v ===== *)
(** * QbusSlave: the serial register protocol (main/src/qbus_s.cpp)

    The box is a slave on a serial line: a request frame (function, address,
    length, data, CRC) arrives byte by byte, a silence ends it, and the slave
    answers in the same buffer.  [qbusSlave] is the one [qBSlave_st] object;
    its four function pointers are the class [QBusPort], and [QBusSpec] is
    what the slave relies on: IotQbus.v discharges it. *)

From S2P Require Import Prelude CString Crc16 World TimeSpent SystemBase Player.
#[local] Open Scope M_scope.

(** ** Definitions *)

Definition QB_REG_READ_CMD : Z := 0x01.
Definition QB_REG_WRITE_CMD : Z := 0x02.
Definition QB_FRAME_FUNC_INDEX : Z := 0.
Definition QB_FRAME_ADDR_HB_INDEX : Z := 1.
Definition QB_FRAME_ADDR_LB_INDEX : Z := 2.
Definition QB_FRAME_REG_LEN_HB_INDEX : Z := 3.
Definition QB_FRAME_REG_LEN_LB_INDEX : Z := 4.
Definition QB_FRAME_REG_DATA_INDEX : Z := 5.
Definition QB_FRAME_MIN_LEN : Z := 7.
Definition QB_FRAME_TIMEOUT_MS : Z := 3.
Definition QB_ERR_CODE : Z := 0x80.
Definition QB_DISABLE : Z := 0.
Definition QB_ENABLE : Z := 1.

(** The function pointers of the slave.  A register callback gets the frame
    from the data field on and returns it as it left it. *)
Class QBusPort := {
  TransmitChar : Z → FW ();
  EnableTxRx : Z → Z → FW ();
  ReadRegCb : Z → Z → bytes → FW (qBRegRetCode_et * bytes);
  WriteRegCb : Z → Z → bytes → FW (qBRegRetCode_et * bytes);
}.

Section qbus_slave.
Context `{Env} `{CJSON} `{QBusPort}.

Definition QBSlaveInit (frameBuff : bytes) (buffLen : Z) : FW () :=
  put_q qBState QBS_INIT;;
  t ← GetStartTime;
  put_q timeOutStartTick t;;
  put_q frameBuffer frameBuff;;
  put_q framBuffLen buffLen;;
  put_q recvByteCount 0;;
  put_q sentByteCount 0;;
  put_q totalByteToSend 0;;
  EnableTxRx QB_DISABLE QB_DISABLE.

Definition QBSlaveSetState (st : qBSlaveState_et) : FW () :=
  put_q qBState st;;
  match st with
  | QBS_IDLE =>
      put_q recvByteCount 0;;
      EnableTxRx QB_DISABLE QB_ENABLE;;
      n ← get_tag debugCount;
      put_tag debugCount (u8 (n + 1));;
      n ← get_tag debugCount;
      when (bool_decide (n = 10)) (put_tag debugCount 0)
  | QBS_SEND_FRAME =>
      put_q sentByteCount 0;;
      EnableTxRx QB_ENABLE QB_DISABLE
  | QBS_STOP =>
      EnableTxRx QB_DISABLE QB_DISABLE;;
      put_q sentByteCount 0;;
      put_q recvByteCount 0
  | QBS_FRAME_RCV | QBS_INIT => skip
  end.

Definition QBSlaveValidateFrame : FW bool :=
  n ← get_q recvByteCount;
  if bool_decide (n < QB_FRAME_MIN_LEN) then ret false
  else
    buf ← get_q frameBuffer;
    crc ← lift (Crc16Get buf (Z.to_nat n));
    ret (bool_decide (crc = 0)).

(** The tag reported in the data field of a read request: eight bytes printed
    as hexadecimal digits ([char] is unsigned on this target). *)
Definition tag_text (uid : bytes) : bytes := uid ≫= fmt_02X.

Definition no_tag : bytes := lit "0000000000000000".

Definition process_tag (buf : bytes) : FW () :=
  old ← get_tag tagUid_qbus;
  new ← lift (strcpy old (tag_text (take 8 (drop 5 buf))));
  put_tag tagUid_qbus new;;
  batteryVolts ← lift (load buf (QB_FRAME_REG_DATA_INDEX + 8));
  setBatteryLevel batteryVolts;;
  batterchargingState ← lift (load buf (QB_FRAME_REG_DATA_INDEX + 9));
  setChargingStatus batterchargingState;;
  flag ← get_tag tagPresentFlag_qbus;
  if strcmp_eq (until_nul new) no_tag then
    when (bool_decide (flag = 1)) resetToy;;
    put_tag tagPresentFlag_qbus 0
  else
    prev ← get_tag previousTagUid;
    when (bool_decide (flag = 0) || negb (strncmp_eq 16 (until_nul prev) (until_nul new)))
      (prev' ← lift (strncpy prev (until_nul new) 16);
       put_tag previousTagUid prev';;
       setToy (until_nul new));;
    put_tag tagPresentFlag_qbus 1.

(** [frameBuffer[i] = v], and [frameBuffer[totalByteToSend] = v;
    totalByteToSend++]. *)
Definition poke (i v : Z) : FW () :=
  buf ← get_q frameBuffer;
  buf' ← lift (store buf i v);
  put_q frameBuffer buf'.

Definition push (v : Z) : FW () :=
  n ← get_q totalByteToSend;
  poke n v;;
  put_q totalByteToSend (u16 (n + 1)).

Definition reply_header : Z := QB_FRAME_REG_LEN_LB_INDEX + 1.

(** A two-byte field, the high byte first. *)
Definition field16 (hb lb : Z) : Z := Z.lor (u16 (Z.shiftl hb 8)) lb.

Definition append_checksum : FW () :=
  buf ← get_q frameBuffer;
  n ← get_q totalByteToSend;
  checksum ← lift (Crc16Get buf (Z.to_nat n));
  push (Z.land checksum 0x00ff);;
  push (Z.shiftr checksum 8).

(** [QBSlaveProcessFrame] up to the checksum. *)
Definition dispatch_frame : FW () :=
  buf ← get_q frameBuffer;
  functionCode ← lift (load buf QB_FRAME_FUNC_INDEX);
  ah ← lift (load buf QB_FRAME_ADDR_HB_INDEX);
  al ← lift (load buf QB_FRAME_ADDR_LB_INDEX);
  lh ← lift (load buf QB_FRAME_REG_LEN_HB_INDEX);
  ll ← lift (load buf QB_FRAME_REG_LEN_LB_INDEX);
  let address := field16 ah al in
  let regLen := field16 lh ll in
  if bool_decide (functionCode = QB_REG_READ_CMD) then
     process_tag buf;;
     r ← ReadRegCb address regLen (drop 5 buf);
     put_q frameBuffer (take 5 buf ++ r.2);;
     if bool_decide (r.1 = QB_REG_SUCCESS) then
       put_q totalByteToSend (u16 (reply_header + regLen))
     else
       poke QB_FRAME_FUNC_INDEX (Z.lor QB_ERR_CODE functionCode);;
       put_q totalByteToSend reply_header;;
       push (ret_code_num r.1)
   else if bool_decide (functionCode = QB_REG_WRITE_CMD) then
     r ← WriteRegCb address regLen (drop 5 buf);
     put_q frameBuffer (take 5 buf ++ r.2);;
     when (negb (bool_decide (r.1 = QB_REG_SUCCESS)))
       (poke QB_FRAME_FUNC_INDEX (Z.lor QB_ERR_CODE functionCode));;
     put_q totalByteToSend reply_header;;
     push (ret_code_num r.1)
   else
     poke QB_FRAME_FUNC_INDEX QB_ERR_CODE;;
     put_q totalByteToSend reply_header;;
     push (ret_code_num QB_REG_ERR_FUNC_CODE).

Definition QBSlaveProcessFrame : FW () := dispatch_frame;; append_checksum.

Definition QBSlavePortByteReceived (b : Z) : FW () :=
  n ← get_q recvByteCount;
  len ← get_q framBuffLen;
  (if bool_decide (n < len) then poke n b
   else
     put_q recvByteCount (u16 (len - 1));;
     n ← get_q recvByteCount;
     poke n b);;
  n ← get_q recvByteCount;
  put_q recvByteCount (u16 (n + 1));;
  t ← GetStartTime;
  put_q timeOutStartTick t.

(** [while (q->totalByteToSend > 0)], with the count as fuel. *)
Fixpoint tx_loop (fuel : nat) : FW () :=
  match fuel with
  | O => skip
  | S fuel =>
      n ← get_q totalByteToSend;
      if bool_decide (n <= 0) then skip
      else
        sent ← get_q sentByteCount;
        len ← get_q framBuffLen;
        when (bool_decide (sent < len))
          (buf ← get_q frameBuffer;
           c ← lift (load buf sent);
           put_q sentByteCount (u16 (sent + 1));;
           TransmitChar c);;
        n ← get_q totalByteToSend;
        put_q totalByteToSend (u16 (n - 1));;
        tx_loop fuel
  end.

Definition QBSlavePortTxEmptyIsr : FW () :=
  n ← get_q totalByteToSend;
  if bool_decide (0 < n) then tx_loop (Z.to_nat n) else QBSlaveSetState QBS_IDLE.

Definition QBSlavePoll : FW () :=
  st ← get_q qBState;
  match st with
  | QBS_IDLE =>
      n ← get_q recvByteCount;
      when (bool_decide (1 <= n))
        (buf ← get_q frameBuffer;
         c ← lift (load buf 0);
         if bool_decide (c = 0x01) || bool_decide (c = 0x02)
         then QBSlaveSetState QBS_FRAME_RCV else QBSlaveSetState QBS_IDLE)
  | QBS_FRAME_RCV =>
      start ← get_q timeOutStartTick;
      late ← TimeSpent start QB_FRAME_TIMEOUT_MS;
      when late
        (EnableTxRx QB_DISABLE QB_DISABLE;;
         ok ← QBSlaveValidateFrame;
         if ok then QBSlaveProcessFrame;; QBSlaveSetState QBS_SEND_FRAME
         else QBSlaveSetState QBS_IDLE)
  | QBS_SEND_FRAME => QBSlavePortTxEmptyIsr
  | QBS_INIT | QBS_STOP => skip
  end.

Definition QBSlaveStart : FW () := QBSlaveSetState QBS_IDLE.
Definition QBSlaveStop : FW () := QBSlaveSetState QBS_STOP.

End qbus_slave.

#[export] Hint Unfold poke push : fw.

(** ** What the slave relies on *)

(** The part of the state the callbacks leave alone. *)
Definition port_frame (w w' : world) : Prop :=
  qbusSlave w' = qbusSlave w ∧ tagUid_qbus (tag w') = tagUid_qbus (tag w) ∧
  previousTagUid (tag w') = previousTagUid (tag w) ∧ toy (sys w') = toy (sys w).

(** [ok] is what the callbacks need of the rest of the firmware in order not
    to fault; the slave's own operations cannot disturb it.  A read callback
    that succeeds has filled at most [max_read] bytes. *)
Class QBusSpec `{QBusPort} (max_read : Z) (ok : world → Prop) : Prop := {
  spec_max_read : 0 <= max_read;
  spec_stable w w' : ok w → fs w' = fs w → led w' = led w →
    qbusDataBuff (tag w') = qbusDataBuff (tag w) → ok w';
  spec_transmit b w : ok w → wp (TransmitChar b) (λ _ w', ok w' ∧ port_frame w w' ∧
    uart_out (hist w') = uart_out (hist w) ++ [b]) w;
  spec_enable tx rx w : ok w → wp (EnableTxRx tx rx) (λ _ w', ok w' ∧ port_frame w w' ∧
    uart_out (hist w') = uart_out (hist w)) w;
  spec_read addr len data w : ok w → bytes_ok data → max_read <= Z.of_nat (length data) → 0 <= len →
    wp (ReadRegCb addr len data) (λ r w', ok w' ∧ port_frame w w' ∧
      uart_out (hist w') = uart_out (hist w) ∧ length r.2 = length data ∧ bytes_ok r.2 ∧
      (r.1 = QB_REG_SUCCESS → len <= max_read)) w;
  spec_write addr len data w : ok w → bytes_ok data → 0 < Z.of_nat (length data) → 0 <= len →
    wp (WriteRegCb addr len data) (λ r w', ok w' ∧ port_frame w w' ∧
      uart_out (hist w') = uart_out (hist w) ∧ length r.2 = length data ∧ bytes_ok r.2) w;
}.

Section slave_lemmas.
Context `{Env} `{CJSON} `{P : QBusPort} {max_read : Z} {ok : world → Prop} `{!QBusSpec max_read ok}.

(** ** Invariants *)

Definition q_inv (q : qBSlave_st) : Prop :=
  framBuffLen q = Z.of_nat (length (frameBuffer q)) ∧ bytes_ok (frameBuffer q) ∧
  15 <= framBuffLen q < 65536 ∧ max_read + 7 <= framBuffLen q ∧
  0 <= recvByteCount q <= framBuffLen q ∧
  0 <= sentByteCount q <= framBuffLen q ∧
  0 <= totalByteToSend q <= framBuffLen q.

Ltac qinv :=
  unfold q_inv, reply_header, QB_FRAME_REG_LEN_LB_INDEX, QB_FRAME_FUNC_INDEX in *;
  simpl in *; destruct_and?; split_and?; first [done | lia | idtac].

Definition tag_inv (w : world) : Prop :=
  length (tagUid_qbus (tag w)) = 20%nat ∧ length (previousTagUid (tag w)) = 20%nat ∧
  (length (toy (sys w)) < 20)%nat.

Definition slave_inv (w : world) : Prop := ok w ∧ q_inv (qbusSlave w) ∧ tag_inv w.

Lemma port_frame_inv w w' : port_frame w w' → ok w' →
  q_inv (qbusSlave w) → tag_inv w → slave_inv w'.
Proof.
  intros (Hq & Ht & Hp & Hy) Hok Hi (? & ? & ?). unfold slave_inv, tag_inv.
  by rewrite Hq, Ht, Hp, Hy.
Qed.

Lemma slave_inv_frame w w' : slave_inv w → port_frame w w' → fs w' = fs w → led w' = led w →
  qbusDataBuff (tag w') = qbusDataBuff (tag w) → slave_inv w'.
Proof.
  intros (Hok & Hq & Ht) Hf Hfs Hl Hb. eapply port_frame_inv; eauto. by eapply spec_stable.
Qed.

Lemma slave_inv_q w q' : slave_inv w → q_inv q' → slave_inv (set qbusSlave q' w).
Proof.
  intros (Hok & Hq & Ht) Hq'. split; [by eapply spec_stable|]. by split.
Qed.

Lemma u16_small z : 0 <= z < 65536 → u16 z = z.
Proof. apply Z.mod_small. Qed.

Lemma bytes_ok_insert buf i v : bytes_ok buf → byte_ok v → bytes_ok (<[i := v]> buf).
Proof. apply Forall_insert. Qed.

Lemma poke_run i v w : 0 <= i < Z.of_nat (length (frameBuffer (qbusSlave w))) →
  poke i v w = Ok ((), update qbusSlave (update frameBuffer (<[Z.to_nat i := v]>)) w).
Proof. intros Hi. mrun. by rewrite store_Ok. Qed.

Lemma push_run v w :
  0 <= totalByteToSend (qbusSlave w) < Z.of_nat (length (frameBuffer (qbusSlave w))) →
  push v w = Ok ((), update qbusSlave (λ q,
    set totalByteToSend (u16 (totalByteToSend q + 1))
      (update frameBuffer (<[Z.to_nat (totalByteToSend q) := v]>) q)) w).
Proof. intros Hi. unfold push. cbv [bind get_q gets]. by rewrite poke_run. Qed.

Lemma SetState_spec st w : slave_inv w →
  wp (QBSlaveSetState st) (λ _ w', slave_inv w' ∧ uart_out (hist w') = uart_out (hist w) ∧
    qbusSlave w' = match st with
      | QBS_IDLE => set recvByteCount 0 (set qBState st (qbusSlave w))
      | QBS_SEND_FRAME => set sentByteCount 0 (set qBState st (qbusSlave w))
      | QBS_STOP => set recvByteCount 0 (set sentByteCount 0 (set qBState st (qbusSlave w)))
      | _ => set qBState st (qbusSlave w)
      end) w.
Proof.
  intros (Hok & Hq & Ht).
  assert (∀ f, ok (update qbusSlave f w)) as Hok' by (intros; by eapply spec_stable).
  assert (∀ q', q_inv q' → slave_inv (set qbusSlave q' w)) as Hset.
  { intros q' Hq'. split_and!; [apply Hok'|done|done]. }
  destruct st; cbn [QBSlaveSetState]; apply wp_modify_bind; try apply wp_modify_bind.
  - split; [|done]. apply (Hset (set qBState QBS_INIT (qbusSlave w))). exact Hq.
  - eapply wp_seq; [by apply spec_enable, (spec_stable w)|]. intros _ w1 (Hok1 & Hf & Hu).
    assert (slave_inv w1) as Hi1 by (eapply port_frame_inv; eauto; qinv).
    destruct Hf as (Hf & _). mrun.
    case_bool_decide; (split; [|exact (conj Hu Hf)]);
      (eapply slave_inv_frame; [exact Hi1|by repeat split|done..]).
  - split; [|done]. apply (Hset (set qBState QBS_FRAME_RCV (qbusSlave w))). exact Hq.
  - eapply wp_mono; [by apply spec_enable, (spec_stable w)|]. intros _ w1 (Hok1 & Hf & Hu).
    split; [eapply port_frame_inv; eauto; qinv|split; [done|apply Hf]].
  - eapply wp_seq; [by apply spec_enable, (spec_stable w)|]. intros _ w1 (Hok1 & Hf & Hu).
    assert (slave_inv w1) as Hi1 by (eapply port_frame_inv; eauto).
    destruct Hf as (Hf & _). mrun. split; [|by rewrite Hf].
    apply (slave_inv_q w1 (set recvByteCount 0 (set sentByteCount 0 (qbusSlave w1)))); [done|].
    rewrite Hf. qinv.
Qed.

(** ** Building the reply *)

(** The bytes of the reply so far. *)
Definition reply_of (q : qBSlave_st) : bytes :=
  take (Z.to_nat (totalByteToSend q)) (frameBuffer q).

Lemma take_insert_snoc (l : bytes) n v : (n < length l)%nat →
  take (S n) (<[n := v]> l) = take n l ++ [v].
Proof.
  intros Hn. rewrite (take_S_r _ _ v) by (by apply list_lookup_insert_eq).
  by rewrite take_insert_ge.
Qed.

(** One byte appended, as a change of the slave. *)
Definition pushed (v : Z) (q : qBSlave_st) : qBSlave_st :=
  set totalByteToSend (totalByteToSend q + 1)
    (update frameBuffer (<[Z.to_nat (totalByteToSend q) := v]>) q).

Lemma push_spec v w : q_inv (qbusSlave w) →
  totalByteToSend (qbusSlave w) < framBuffLen (qbusSlave w) → byte_ok v →
  push v w = Ok ((), update qbusSlave (pushed v) w) ∧
  q_inv (pushed v (qbusSlave w)) ∧
  reply_of (pushed v (qbusSlave w)) = reply_of (qbusSlave w) ++ [v].
Proof.
  intros Hq Hlt Hv. rewrite push_run by qinv. split_and!.
  - do 2 f_equal. destruct w as [?????? ? [] ??]. unfold update, upd_qbusSlave, pushed. simpl.
    rewrite u16_small; [done|qinv].
  - assert (bytes_ok (<[Z.to_nat (totalByteToSend (qbusSlave w)) := v]> (frameBuffer (qbusSlave w))))
      by (apply bytes_ok_insert; [qinv|done]).
    unfold q_inv in *. simpl. rewrite length_insert. qinv.
  - unfold reply_of, pushed. simpl. qinv.
    rewrite <-take_insert_snoc by lia. f_equal. lia.
Qed.

Lemma append_checksum_spec w : slave_inv w →
  totalByteToSend (qbusSlave w) + 2 <= framBuffLen (qbusSlave w) →
  wp append_checksum (λ _ w', slave_inv w' ∧ uart_out (hist w') = uart_out (hist w) ∧
    reply_of (qbusSlave w') = reply_of (qbusSlave w)
      ++ crc_trailer (crc_fold 0xFFFF (reply_of (qbusSlave w))) ∧
    totalByteToSend (qbusSlave w') = totalByteToSend (qbusSlave w) + 2) w.
Proof.
  intros (Hok & Hq & Ht) Hlt. unfold append_checksum.
  assert (bytes_ok (reply_of (qbusSlave w))) as Hb by (apply Forall_take; qinv).
  assert (crc_ok (crc_fold 0xFFFF (reply_of (qbusSlave w)))) as Hc
    by (apply crc_fold_ok; [unfold crc_ok; lia|done]).
  do 2 apply wp_gets_bind. eapply wp_lift_bind; [apply Crc16Get_fold; qinv|].
  fold (reply_of (qbusSlave w)).
  set (c := crc_fold 0xFFFF (reply_of (qbusSlave w))) in *.
  assert (byte_ok (Z.land c 0x00ff)) as H1.
  { unfold byte_ok. change 0x00ff with (Z.ones 8). rewrite Z.land_ones by lia.
    apply Z.mod_pos_bound. lia. }
  assert (byte_ok (Z.shiftr c 8)) as H2.
  { unfold byte_ok, crc_ok in *. rewrite Z.shiftr_div_pow2 by lia. change (2 ^ 8) with 256.
    Z.div_mod_to_equations; lia. }
  destruct (push_spec (Z.land c 0x00ff) w) as (E1 & Q1 & R1); [done|lia|done|].
  unfold wp. rewrite (bind_run _ _ _ _ _ E1).
  destruct (push_spec (Z.shiftr c 8) (update qbusSlave (pushed (Z.land c 0x00ff)) w))
    as (E2 & Q2 & R2); [done|simpl; lia|done|].
  rewrite E2. simpl in *. split_and!.
  - apply (slave_inv_q w _ (conj Hok (conj Hq Ht)) Q2).
  - done.
  - unfold crc_trailer. rewrite R2, R1, <-app_assoc. done.
  - lia.
Qed.

(** ** The tag field of a read request *)

Lemma length_tag_text uid : length (tag_text uid) = (2 * length uid)%nat.
Proof. induction uid as [|u uid IH]; [done|]. unfold tag_text in *. cbn [mbind list_bind]. simpl in *. lia. Qed.

Lemma hex_digit_range d : 0 <= d < 16 → 48 <= hex_digit d < 256.
Proof. unfold hex_digit. case_bool_decide; lia. Qed.

Lemma hex_digit_inj d e : 0 <= d < 16 → 0 <= e < 16 → hex_digit d = hex_digit e → d = e.
Proof. unfold hex_digit. do 2 case_bool_decide; lia. Qed.

Lemma tag_text_no_nul uid : bytes_ok uid → no_nul (tag_text uid).
Proof.
  intros Hu. induction Hu as [|u uid Hu _ IH]; [constructor|]. unfold byte_ok in Hu.
  unfold no_nul, tag_text in *. cbn [mbind list_bind fmt_02X].
  pose proof (hex_digit_range (u / 16)). pose proof (hex_digit_range (u mod 16)).
  repeat (constructor; [Z.div_mod_to_equations; lia|]). done.
Qed.

(** A name copied over the front of an array is found there again. *)
Lemma take_until_nul_app (s buf : bytes) : no_nul s → take (length s) (until_nul (s ++ buf)) = s.
Proof. induction 1 as [|c s Hc _ IH]; [done|]. cbn [app until_nul length]. rewrite bool_decide_false by done. cbn. by rewrite IH. Qed.

Lemma take_until_nul_strncpy s dst n buf : no_nul s → length s = n → strncpy dst s n = Ok buf → take n (until_nul buf) = s.
Proof.
  intros Hs <-. unfold strncpy. case_bool_decide; intros [= <-]. rewrite take_app_length. by apply take_until_nul_app.
Qed.

Lemma setToy_run t w : (length t < 20)%nat →
  ∃ t', setToy t w = Ok ((), update sys (λ s, set toyPresenseFlag true (set toy t' s)) w)
        ∧ (length t' < 20)%nat ∧ (no_nul t → t' = t).
Proof.
  intros Ht. unfold setToy, strcpy. rewrite bool_decide_true by (unfold memset0; rewrite length_replicate; lia).
  cbv [bind lift]. mrun. eexists. split; [done|]. split.
  - by eapply Nat.le_lt_trans; [apply length_until_nul_app|].
  - intros. by apply until_nul_app.
Qed.

Lemma resetToy_spec w : (length (toy (sys w)) < 20)%nat →
  wp resetToy (λ _ w', toy (sys w') = [] ∧ fs w' = fs w ∧ led w' = led w ∧ tag w' = tag w ∧
    qbusSlave w' = qbusSlave w ∧ uart_out (hist w') = uart_out (hist w) ∧
    toyPresenseFlag (sys w') = false ∧ state (sys w') = SYS_IDLE ∧
    batteryLevel (sys w') = batteryLevel (sys w) ∧ chargingState (sys w') = chargingState (sys w)) w.
Proof.
  intros Ht. unfold resetToy, ToyRemoved, PauseCurrentAudio, writer_state, setState, getTurnTable.
  mrun. unfold strcpy. simpl.
  case_bool_decide; simpl; rewrite bool_decide_true by lia; done.
Qed.

Lemma process_tag_spec buf w : slave_inv w → (15 ≤ length buf)%nat →
  wp (process_tag buf) (λ _ w', slave_inv w' ∧ uart_out (hist w') = uart_out (hist w) ∧
    qbusSlave w' = qbusSlave w) w.
Proof.
  intros (Hok & Hq & Htag & Hprev & Htoy) Hbuf. unfold process_tag.
  assert (length (tag_text (take 8 (drop 5 buf))) = 16%nat) as Hlen
    by (rewrite length_tag_text, length_take, length_drop; lia).
  apply wp_gets_bind.
  destruct (strcpy (tagUid_qbus (tag w)) (tag_text (take 8 (drop 5 buf)))) as [new|] eqn:Hnew;
    [|by unfold strcpy in Hnew; rewrite bool_decide_true in Hnew by lia].
  eapply wp_lift_bind; [done|]. apply length_strcpy in Hnew as Hl.
  apply strcpy_text in Hnew as Hs.
  apply wp_modify_bind.
  destruct (load_Ok buf (QB_FRAME_REG_DATA_INDEX + 8)) as (bat & Hbat & _);
    [unfold QB_FRAME_REG_DATA_INDEX; lia|].
  eapply wp_lift_bind; [done|]. apply wp_modify_bind.
  destruct (load_Ok buf (QB_FRAME_REG_DATA_INDEX + 9)) as (chg & Hchg & _);
    [unfold QB_FRAME_REG_DATA_INDEX; lia|].
  eapply wp_lift_bind; [done|]. apply wp_modify_bind. apply wp_gets_bind.
  match goal with |- wp _ _ ?x => set (w1 := x) end.
  assert (slave_inv w1) as Hi1.
  { split; [by eapply spec_stable|]. split; [exact Hq|]. split_and!; simpl; [congruence|done..]. }
  assert (uart_out (hist w1) = uart_out (hist w)) as Hu1 by done.
  assert (qbusSlave w1 = qbusSlave w) as Hq1 by done.
  clearbody w1. rewrite <-Hu1, <-Hq1. clear Hok Hq Hprev Htoy Htag Hu1 Hq1.
  destruct Hi1 as (Hok & Hq & Htag & Hprev & Htoy).
  case_match.
  - case_bool_decide; simpl.
    + eapply wp_seq; [by apply resetToy_spec|]. intros _ w2 (Hy & Hf & Hd & Htg & Hqq & Hu & _).
      mrun. rewrite Hqq, Hu. split; [|done]. split; [by apply (spec_stable w1); simpl; rewrite ?Htg|].
      split; [by rewrite <-Hqq in Hq|]. unfold tag_inv. simpl. rewrite Htg, Hy. simpl.
      split_and!; [done..|lia].
    + mrun. split; [|done]. split; [by eapply spec_stable|]. by split_and!.
  - apply wp_gets_bind. eapply wp_seq with (P := λ _ w', slave_inv w' ∧
      uart_out (hist w') = uart_out (hist w1) ∧ qbusSlave w' = qbusSlave w1).
    + match goal with |- wp (when ?b _) _ _ => destruct b end; [|by mrun; split_and!].
      destruct (strncpy (previousTagUid (tag w1)) (until_nul new) 16) as [prev'|] eqn:Hp;
        [|by unfold strncpy in Hp; rewrite bool_decide_true in Hp by lia].
      simpl. eapply wp_lift_bind; [done|]. apply length_strncpy in Hp. apply wp_modify_bind.
      destruct (setToy_run (until_nul new) (update tag (set previousTagUid prev') w1))
        as (t' & Ht & Hl' & _).
      { lia. }
      unfold wp. rewrite Ht. simpl. split; [|done]. split; [by eapply spec_stable|].
      split; [done|]. split_and!; simpl; [done|congruence|done].
    + intros _ w2 (Hi2 & Hu2 & Hq2). mrun. split; [|done].
      destruct Hi2 as (? & ? & ? & ? & ?). split; [by eapply spec_stable|]. by split_and!.
Qed.

(** ** Dispatching a frame *)

(** The first byte of the reply to a request of function [fc]. *)
Definition reply_code (fc v : Z) : Prop :=
  if bool_decide (fc = QB_REG_READ_CMD ∨ fc = QB_REG_WRITE_CMD)
  then v = fc ∨ v = Z.lor QB_ERR_CODE fc else v = QB_ERR_CODE.

(** The reply in [w'] to the request [buf]: its length so far and its head. *)
Definition replied (buf : bytes) (u : bytes) (w' : world) : Prop :=
  slave_inv w' ∧ uart_out (hist w') = u ∧
  5 <= totalByteToSend (qbusSlave w') ∧
  totalByteToSend (qbusSlave w') + 2 <= framBuffLen (qbusSlave w') ∧
  take 4 (drop 1 (frameBuffer (qbusSlave w'))) = take 4 (drop 1 buf) ∧
  ∃ fc v, buf !! 0%nat = Some fc ∧ frameBuffer (qbusSlave w') !! 0%nat = Some v ∧ reply_code fc v.

Lemma field16_range a b : byte_ok a → byte_ok b → 0 <= field16 a b < 65536.
Proof.
  unfold byte_ok, field16. intros Ha Hb.
  assert (0 <= u16 (Z.shiftl a 8) < 65536) by (apply Z.mod_pos_bound; lia).
  split; [apply Z.lor_nonneg; lia|].
  destruct (decide (Z.lor (u16 (Z.shiftl a 8)) b = 0)) as [->|Hne]; [lia|].
  apply (Z.log2_lt_pow2 _ 16); [pose proof (Z.lor_nonneg (u16 (Z.shiftl a 8)) b); lia|].
  rewrite Z.log2_lor by lia.
  apply Z.max_lub_lt; (eapply Z.le_lt_trans; [apply (Z.log2_le_mono _ 65535); lia|done]).
Qed.

Lemma poke_spec v w : slave_inv w → byte_ok v →
  wp (poke QB_FRAME_FUNC_INDEX v) (λ _ w', slave_inv w' ∧ hist w' = hist w ∧
    qbusSlave w' = update frameBuffer (<[0%nat := v]>) (qbusSlave w)) w.
Proof.
  intros Hi Hv. pose proof Hi as (Hok & Hq & Ht). unfold wp. rewrite poke_run by qinv.
  split_and!; [|done..]. apply (slave_inv_q w (update frameBuffer (<[0%nat := v]>) (qbusSlave w))); [done|].
  assert (bytes_ok (<[0%nat := v]> (frameBuffer (qbusSlave w)))) by (apply bytes_ok_insert; [qinv|done]).
  unfold q_inv in *. simpl. rewrite length_insert. qinv.
Qed.

(** [totalByteToSend = 5; frameBuffer[5] = c; totalByteToSend++] *)
Lemma status_reply buf u c w b0 b1 b2 b3 b4 rest v : slave_inv w → byte_ok c →
  uart_out (hist w) = u → take 5 buf = [b0; b1; b2; b3; b4] →
  frameBuffer (qbusSlave w) = v :: b1 :: b2 :: b3 :: b4 :: rest → reply_code b0 v →
  wp (put_q totalByteToSend reply_header;; push c) (λ _, replied buf u) w.
Proof.
  intros Hi Hc Hu Hbuf Hw Hv. apply wp_modify_bind. pose proof Hi as (Hok & Hq & Ht).
  destruct (push_spec c (update qbusSlave (set totalByteToSend reply_header) w))
    as (E & Q & _); [qinv|qinv|done|].
  unfold wp. rewrite E. split_and!.
  - by apply (slave_inv_q w (pushed c (set totalByteToSend reply_header (qbusSlave w)))).
  - done.
  - done.
  - qinv.
  - simpl. rewrite Hw. destruct buf as [|? [|? [|? [|? [|? ?]]]]]; by simplify_eq/=.
  - exists b0, v. simpl. rewrite Hw.
    destruct buf as [|? [|? [|? [|? [|? ?]]]]]; by simplify_eq/=.
Qed.

Lemma error_reply buf u c w b0 b1 b2 b3 b4 rest b0' v : slave_inv w → byte_ok c → byte_ok v →
  uart_out (hist w) = u → take 5 buf = [b0; b1; b2; b3; b4] →
  frameBuffer (qbusSlave w) = b0' :: b1 :: b2 :: b3 :: b4 :: rest → reply_code b0 v →
  wp (poke QB_FRAME_FUNC_INDEX v;; put_q totalByteToSend reply_header;; push c)
    (λ _, replied buf u) w.
Proof.
  intros Hi Hc Hv Hu Hbuf Hw Hr. eapply wp_seq; [by apply poke_spec|].
  intros _ w1 (Hi1 & Hh & Hq). eapply (status_reply buf u c w1 b0 b1 b2 b3 b4 rest v); [done..| |done| |done].
  - by rewrite Hh.
  - rewrite Hq. simpl. by rewrite Hw.
Qed.

Lemma slave_inv_payload w b0 b1 b2 b3 b4 data data' : slave_inv w →
  frameBuffer (qbusSlave w) = b0 :: b1 :: b2 :: b3 :: b4 :: data →
  length data' = length data → bytes_ok data' →
  slave_inv (update qbusSlave (set frameBuffer (b0 :: b1 :: b2 :: b3 :: b4 :: data')) w).
Proof.
  intros Hi Hb Hl Hd. pose proof Hi as (Hok & Hq & Ht).
  apply (slave_inv_q w (set frameBuffer (b0 :: b1 :: b2 :: b3 :: b4 :: data') (qbusSlave w))); [done|].
  unfold q_inv in *. rewrite Hb in *. simpl in *. destruct Hq as (? & Hbs & ?).
  repeat (apply Forall_cons_iff in Hbs as [? Hbs]).
  split_and!; try lia. repeat (apply Forall_cons; [done|]). done.
Qed.

Lemma code_ok c : byte_ok (ret_code_num c).
Proof. destruct c; unfold byte_ok; simpl; lia. Qed.

Lemma dispatch_spec w : slave_inv w →
  wp dispatch_frame (λ _, replied (frameBuffer (qbusSlave w)) (uart_out (hist w))) w.
Proof.
  intros Hi. pose proof Hi as (Hok & Hq & Ht). unfold dispatch_frame. apply wp_gets_bind.
  assert (15 ≤ length (frameBuffer (qbusSlave w)))%nat as Hlen by qinv.
  remember (frameBuffer (qbusSlave w)) as buf eqn:Hbuf.
  assert (bytes_ok buf) as Hbs by (subst buf; qinv).
  destruct buf as [|b0 [|b1 [|b2 [|b3 [|b4 data]]]]]; try (simpl in Hlen; lia).
  repeat (eapply wp_lift_bind; [by apply load_lookup|]).
  set (buf := b0 :: b1 :: b2 :: b3 :: b4 :: data) in *.
  assert (take 5 buf = [b0; b1; b2; b3; b4]) as H5 by done.
  change (drop 5 buf) with data.
  assert (byte_ok b0 ∧ byte_ok b1 ∧ byte_ok b2 ∧ byte_ok b3 ∧ byte_ok b4 ∧ bytes_ok data) as Hbytes.
  { unfold buf in Hbs. by rewrite !Forall_cons_iff in Hbs. }
  destruct Hbytes as (? & ? & ? & ? & ? & Hd).
  assert (0 <= field16 b3 b4 < 65536) as Hrl by by apply field16_range.
  case_bool_decide as Hr; [|case_bool_decide as Hw].
  - eapply wp_seq; [by apply process_tag_spec|]. intros _ w1 (Hi1 & Hu1 & Hq1).
    pose proof Hi1 as (Hok1 & Hqi1 & Ht1).
    eapply wp_seq; [apply spec_read; [done|done| |lia]|].
    { unfold q_inv in Hqi1. rewrite Hq1, <-Hbuf in Hqi1. subst buf. simpl in *. lia. }
    intros [rc data'] w2 (Hok2 & Hf2 & Hu2 & Hl & Hd' & Hs). cbn [fst snd] in *.
    assert (slave_inv w2) as Hi2 by by eapply port_frame_inv.
    assert (frameBuffer (qbusSlave w2) = buf) as Hb2 by (destruct Hf2 as (-> & _); by rewrite Hq1).
    apply wp_modify_bind.
    pose proof (slave_inv_payload w2 b0 b1 b2 b3 b4 data data' Hi2 Hb2 Hl Hd') as Hi3.
    case_bool_decide as Hrc.
    + specialize (Hs Hrc). pose proof Hi3 as (Hok3 & Hq3 & Ht3).
      pose proof spec_max_read as Hmr. unfold wp, put_q, modify, replied. cbn [totalByteToSend].
      assert (u16 (reply_header + field16 b3 b4) = 5 + field16 b3 b4) as ->.
      { unfold reply_header. apply u16_small. qinv. }
      split_and!; [|simpl; congruence|simpl; lia|unfold q_inv in *; simpl in *; lia|done|].
      * apply (slave_inv_q _ (set totalByteToSend (5 + field16 b3 b4)
          (set frameBuffer (b0 :: b1 :: b2 :: b3 :: b4 :: data') (qbusSlave w2))) Hi3).
        qinv.
      * exists b0, b0. split_and!; [done..|]. unfold reply_code.
        rewrite bool_decide_true by auto. by left.
    + eapply error_reply; [done|apply code_ok| |simpl; congruence|done|done|].
      * rewrite Hr. by split.
      * unfold reply_code. rewrite bool_decide_true by auto. by right.
  - eapply wp_seq; [apply spec_write; [done|done|subst buf; simpl in *; lia|lia]|].
    intros [rc data'] w2 (Hok2 & Hf2 & Hu2 & Hl & Hd'). cbn [fst snd] in *.
    assert (slave_inv w2) as Hi2 by by eapply port_frame_inv.
    assert (frameBuffer (qbusSlave w2) = buf) as Hb2 by by destruct Hf2 as (-> & _).
    apply wp_modify_bind.
    pose proof (slave_inv_payload w2 b0 b1 b2 b3 b4 data data' Hi2 Hb2 Hl Hd') as Hi3.
    case_bool_decide as Hrc; cbn [negb when].
    + eapply wp_seq with (P := λ _ w', w' = _); [by apply wp_ret|]. intros _ ? ->.
      eapply status_reply; [done|apply code_ok|simpl; congruence|done|done|].
      unfold reply_code. rewrite bool_decide_true by auto. by left.
    + eapply error_reply; [done|apply code_ok| |simpl; congruence|done|done|].
      * rewrite Hw. by split.
      * unfold reply_code. rewrite bool_decide_true by auto. by right.
  - eapply error_reply; [done|by split|by split|done|done|done|].
    unfold reply_code. by rewrite bool_decide_false by (intros [?|?]; auto).
Qed.

(** [r] is a reply to the request [buf]: it checks out, its first byte is the
    one for the function code, and it echoes address and length. *)
Definition good_reply (buf r : bytes) : Prop :=
  (7 ≤ length r)%nat ∧ Crc16Get r (length r) = Ok 0 ∧ take 4 (drop 1 r) = take 4 (drop 1 buf) ∧
  ∃ fc v, buf !! 0%nat = Some fc ∧ r !! 0%nat = Some v ∧ reply_code fc v.

Definition answered (buf u : bytes) (w' : world) : Prop :=
  slave_inv w' ∧ uart_out (hist w') = u ∧ good_reply buf (reply_of (qbusSlave w')).

Lemma length_reply q : q_inv q → Z.of_nat (length (reply_of q)) = totalByteToSend q.
Proof. intros Hq. unfold reply_of. rewrite length_take. qinv. Qed.

Lemma reply_bytes q : q_inv q → bytes_ok (reply_of q).
Proof. intros Hq. apply Forall_take. qinv. Qed.

(** A prefix of at least [k] bytes of the buffer keeps its first [k]. *)
Lemma reply_prefix q q' l : q_inv q → 5 <= totalByteToSend q →
  reply_of q' = reply_of q ++ l →
  take 5 (reply_of q') = take 5 (frameBuffer q).
Proof.
  intros Hq H5 ->. pose proof (length_reply q Hq).
  rewrite take_app_le by lia. unfold reply_of. rewrite take_take. f_equal. lia.
Qed.

Lemma ProcessFrame_spec w : slave_inv w →
  wp QBSlaveProcessFrame (λ _, answered (frameBuffer (qbusSlave w)) (uart_out (hist w))) w.
Proof.
  intros Hi. unfold QBSlaveProcessFrame.
  eapply wp_seq; [by apply dispatch_spec|].
  intros _ w1 (Hi1 & Hu1 & H5 & Hl1 & He & fc & v & Hfc & Hv & Hc).
  eapply wp_mono; [by apply append_checksum_spec|].
  intros _ w2 (Hi2 & Hu2 & Hr & Ht). pose proof Hi1 as (_ & Hq1 & _). pose proof Hi2 as (_ & Hq2 & _).
  pose proof (reply_prefix _ _ _ Hq1 H5 Hr) as Hp. apply reply_bytes in Hq1.
  assert (∀ l : bytes, take 4 (drop 1 l) = drop 1 (take 5 l)) as Htd.
  { intros l. symmetry. apply (skipn_firstn_comm 1 5 l). }
  apply length_reply in Hq2 as Hl2.
  unfold answered, good_reply. split_and!; [done|congruence|lia| | |].
  - rewrite Crc16Get_fold, firstn_all, Hr by done. by rewrite crc_fold_trailer.
  - rewrite <-He, !Htd. by f_equal.
  - exists fc, v. split_and!; [done| |done].
    rewrite <-(lookup_take_lt _ 5) by lia. rewrite Hp, lookup_take_lt by lia. done.
Qed.

(** ** Transmission *)

(** One turn of the transmit loop, up to the decrement. *)
Lemma tx_send w : slave_inv w →
  let q := qbusSlave w in
  wp (when (bool_decide (sentByteCount q < framBuffLen q))
        (buf ← get_q frameBuffer; c ← lift (load buf (sentByteCount q));
         put_q sentByteCount (u16 (sentByteCount q + 1));; TransmitChar c))
    (λ _ w', slave_inv w' ∧
      uart_out (hist w') = uart_out (hist w) ++ take 1 (drop (Z.to_nat (sentByteCount q)) (frameBuffer q)) ∧
      qbusSlave w' = set sentByteCount (Z.min (sentByteCount q + 1) (framBuffLen q)) q) w.
Proof.
  intros Hi q. pose proof Hi as (Hok & Hq & Ht). fold q in Hq. case_bool_decide as Hs; cbn [when].
  - apply wp_gets_bind. fold q.
    destruct (load_Ok (frameBuffer q) (sentByteCount q)) as (c & Hc & Hl); [qinv|].
    eapply wp_lift_bind; [done|]. apply wp_modify_bind.
    rewrite u16_small by qinv. rewrite Z.min_l by lia.
    assert (slave_inv (update qbusSlave (set sentByteCount (sentByteCount q + 1)) w)) as Hi1.
    { apply (slave_inv_q w (set sentByteCount (sentByteCount q + 1) q) Hi). qinv. }
    pose proof Hi1 as (Hok1 & Hq1 & Ht1).
    eapply wp_mono; [by apply spec_transmit|]. intros _ w1 (Hok2 & Hf & Hu).
    split_and!; [by eapply port_frame_inv| |apply Hf].
    rewrite Hu. simpl. f_equal. by rewrite (drop_S _ c).
  - unfold skip. apply wp_ret. split_and!; [done| |].
    + rewrite drop_ge by qinv. by rewrite app_nil_r.
    + rewrite Z.min_r by qinv. replace (framBuffLen q) with (sentByteCount q) by qinv.
      unfold q. by destruct (qbusSlave w).
Qed.

Lemma take_drop_step (l : bytes) k n : take 1 (drop k l) ++ take n (drop (min (S k) (length l)) l)
  = take (S n) (drop k l).
Proof.
  destruct (decide (k < length l)%nat) as [Hk|Hk].
  - destruct (lookup_lt_is_Some_2 l k Hk) as [x Hx]. rewrite (drop_S l x k Hx).
    by rewrite Nat.min_l by lia.
  - by rewrite !drop_ge, !take_nil by lia.
Qed.

Lemma tx_loop_spec n w : slave_inv w → totalByteToSend (qbusSlave w) = Z.of_nat n →
  let q := qbusSlave w in
  wp (tx_loop n) (λ _ w', slave_inv w' ∧
    uart_out (hist w') = uart_out (hist w) ++ take n (drop (Z.to_nat (sentByteCount q)) (frameBuffer q)) ∧
    qbusSlave w' = set totalByteToSend 0
      (set sentByteCount (Z.min (sentByteCount q + Z.of_nat n) (framBuffLen q)) q)) w.
Proof.
  revert w. induction n as [|n IH]; intros w Hi Hn q; pose proof Hi as (Hok & Hq & Ht); simpl.
  - unfold skip. apply wp_ret. split_and!; [done|by rewrite take_0, app_nil_r|].
    subst q. rewrite Z.add_0_r, Z.min_l by qinv.
    destruct (qbusSlave w); simpl in *; by rewrite Hn.
  - apply wp_gets_bind. rewrite bool_decide_false by lia. do 2 apply wp_gets_bind. fold q in Hq.
    eapply wp_seq; [by apply tx_send|]. intros _ w1 (Hi1 & Hu1 & Hq1). fold q in Hu1, Hq1.
    apply wp_gets_bind, wp_modify_bind.
    assert (u16 (totalByteToSend (qbusSlave w1) - 1) = Z.of_nat n) as ->.
    { rewrite Hq1. simpl. fold q in Hn. rewrite Hn. rewrite u16_small by qinv. lia. }
    set (w2 := update qbusSlave (set totalByteToSend (Z.of_nat n)) w1).
    assert (qbusSlave w2 = set totalByteToSend (Z.of_nat n) (qbusSlave w1)) as Hq2 by done.
    rewrite Hq1 in Hq2.
    assert (slave_inv w2) as Hi2.
    { apply (slave_inv_q w1 (set totalByteToSend (Z.of_nat n) (qbusSlave w1)) Hi1).
      fold q in Hn. rewrite Hq1. qinv. }
    eapply wp_mono; [apply (IH w2 Hi2); by rewrite Hq2|]. intros _ w3 (Hi3 & Hu3 & Hq3).
    rewrite Hq2 in Hu3, Hq3. simpl in Hu3. change (hist w2) with (hist w1) in Hu3.
    split_and!; [done| |].
    + rewrite Hu3, Hu1, <-app_assoc, <-(take_drop_step _ _ n).
      replace (Z.to_nat (Z.min (sentByteCount q + 1) (framBuffLen q)))
        with (min (S (Z.to_nat (sentByteCount q))) (length (frameBuffer q)))
        by (unfold q_inv in Hq; lia).
      done.
    + rewrite Hq3. unfold set, update, upd_totalByteToSend, upd_sentByteCount. simpl. f_equal. lia.
Qed.

(** ** Reception *)

(** The frame received so far.  In a full buffer the last byte is written over. *)
Definition received (q : qBSlave_st) : bytes := take (Z.to_nat (recvByteCount q)) (frameBuffer q).

Definition one_more (q : qBSlave_st) (g : bytes) (b : Z) : bytes := take (Z.to_nat (framBuffLen q - 1)) g ++ [b].

Lemma received_insert q b (i := Z.min (recvByteCount q) (framBuffLen q - 1)) : q_inv q →
  take (Z.to_nat (i + 1)) (<[Z.to_nat i := b]> (frameBuffer q)) = one_more q (received q) b.
Proof.
  intros Hq. unfold one_more, received. rewrite take_take. replace (Z.to_nat (i + 1)) with (S (Z.to_nat i)) by (subst i; qinv).
  rewrite take_insert_snoc by (subst i; qinv). do 2 f_equal. subst i. lia.
Qed.

Lemma ByteReceived_spec b w : slave_inv w → byte_ok b →
  let q := qbusSlave w in
  wp (QBSlavePortByteReceived b) (λ _ w', slave_inv w' ∧
    uart_out (hist w') = uart_out (hist w) ∧
    received (qbusSlave w') = one_more q (received q) b ∧
    framBuffLen (qbusSlave w') = framBuffLen q ∧ qBState (qbusSlave w') = qBState q) w.
Proof.
  intros Hi Hb q. pose proof Hi as (Hok & Hq & Ht). fold q in Hq.
  set (i := Z.min (recvByteCount q) (framBuffLen q - 1)).
  set (q1 := update frameBuffer (<[Z.to_nat i := b]>) (set recvByteCount i q)).
  assert (q_inv q1) as Hq1.
  { assert (bytes_ok (<[Z.to_nat i := b]> (frameBuffer q))) by (apply bytes_ok_insert; qinv).
    unfold q_inv in *. simpl. rewrite length_insert. qinv. }
  unfold QBSlavePortByteReceived. do 2 apply wp_gets_bind. fold q.
  eapply wp_seq with (P := λ _ w', w' = update qbusSlave (λ _, q1) w).
  { unfold wp. case_bool_decide.
    - rewrite poke_run by (fold q; qinv). subst q1 i. rewrite Z.min_l by qinv.
      unfold q. by destruct w as [?????? ? [] ??].
    - rewrite u16_small by qinv. cbv [put_q modify bind get_q gets]. rewrite poke_run.
      + simpl. subst q1 i. rewrite Z.min_r by qinv. unfold q. by destruct w as [?????? ? [] ??].
      + simpl. fold q. qinv. }
  intros _ ? ->. apply wp_gets_bind, wp_modify_bind. unfold wp.
  rewrite (bind_run _ _ _ _ _ (GetStartTime_run _)). simpl. split_and!; [|done| |done|done].
  - split; [by eapply (spec_stable w)|]. split; [|exact Ht].
    subst q1. simpl. rewrite u16_small by (subst i; qinv). unfold q_inv in *. simpl in *.
    subst i. qinv.
  - rewrite <-(received_insert q b Hq). unfold received. simpl. by rewrite u16_small by (subst i; qinv).
Qed.

(** ** Polling *)

(** Whether the frame received so far is worth an answer. *)
Definition frame_valid (q : qBSlave_st) : Prop :=
  QB_FRAME_MIN_LEN <= recvByteCount q ∧ Crc16Get (received q) (length (received q)) = Ok 0.

(** The line has been silent long enough. *)
Definition silent (w : world) : Prop :=
  spent (timeOutStartTick (qbusSlave w)) QB_FRAME_TIMEOUT_MS (u32 (first_ms w)) (u32 (second_ms w)) = true.

Lemma ValidateFrame_run w : slave_inv w →
  ∃ b, QBSlaveValidateFrame w = Ok (b, w) ∧ (b = true ↔ frame_valid (qbusSlave w)).
Proof.
  intros (_ & Hq & _). unfold QBSlaveValidateFrame, frame_valid. cbv [bind get_q gets].
  case_bool_decide as Hn; [exists false; split; [done|]; split; [done|lia]|].
  assert (Z.to_nat (recvByteCount (qbusSlave w)) ≤ length (frameBuffer (qbusSlave w)))%nat by qinv.
  rewrite !Crc16Get_fold by (unfold received; rewrite ?length_take; lia). rewrite firstn_all.
  eexists. split; [done|]. rewrite bool_decide_eq_true. fold (received (qbusSlave w)).
  split; [intros ->; split; [lia|done]|by intros [_ [= ->]]].
Qed.

Lemma slave_inv_ticked n w : slave_inv w → slave_inv (ticked n w).
Proof. intros (? & ? & ?). split; [by eapply spec_stable|done]. Qed.

Lemma uart_out_ticked n w : uart_out (hist (ticked n w)) = uart_out (hist w).
Proof. unfold ticked. simpl. by induction n. Qed.

(** The state after a poll in [QBS_IDLE]. *)
Lemma poll_idle w : slave_inv w → qBState (qbusSlave w) = QBS_IDLE →
  wp QBSlavePoll (λ _ w', slave_inv w' ∧ uart_out (hist w') = uart_out (hist w) ∧
    (qBState (qbusSlave w') = QBS_FRAME_RCV ↔
      ∃ c rest, received (qbusSlave w) = c :: rest ∧ (c = QB_REG_READ_CMD ∨ c = QB_REG_WRITE_CMD)) ∧
    (qBState (qbusSlave w') = QBS_IDLE ∧ recvByteCount (qbusSlave w') = 0 ∨
     qBState (qbusSlave w') = QBS_FRAME_RCV ∧ received (qbusSlave w') = received (qbusSlave w))) w.
Proof.
  intros Hi Hst. pose proof Hi as (Hok & Hq & Ht). unfold QBSlavePoll.
  apply wp_gets_bind. rewrite Hst. apply wp_gets_bind. unfold received.
  case_bool_decide as Hn; cbn [when].
  - apply wp_gets_bind.
    destruct (load_Ok (frameBuffer (qbusSlave w)) 0) as (c & Hc & Hl); [qinv|].
    eapply wp_lift_bind; [done|].
    assert (take (Z.to_nat (recvByteCount (qbusSlave w))) (frameBuffer (qbusSlave w))
      = c :: take (Z.to_nat (recvByteCount (qbusSlave w)) - 1) (drop 1 (frameBuffer (qbusSlave w)))) as Hhd.
    { destruct (frameBuffer (qbusSlave w)) as [|c0 l]; [done|]. simplify_eq/=.
      destruct (Z.to_nat (recvByteCount (qbusSlave w))) eqn:E; [lia|].
      simpl. by rewrite Nat.sub_0_r. }
    rewrite Hhd. unfold QB_REG_READ_CMD, QB_REG_WRITE_CMD. rewrite <-bool_decide_or.
    case_bool_decide as Hcc.
    + eapply wp_mono; [by apply SetState_spec|]. intros _ w1 (Hi1 & Hu1 & Hq1).
      rewrite Hq1. split_and!; [done..| |right; simpl; by rewrite Hhd].
      split; [|done]. intros _. by eexists _, _.
    + eapply wp_mono; [by apply SetState_spec|]. intros _ w1 (Hi1 & Hu1 & Hq1).
      rewrite Hq1. split_and!; [done..| |by left].
      split; [done|]. intros (c' & rest & [= <- _] & ?). done.
  - unfold skip. apply wp_ret. rewrite Hst. replace (recvByteCount (qbusSlave w)) with 0 by qinv.
    split_and!; [done..| |by left]. split; [done|]. intros (? & ? & ? & _). done.
Qed.

(** A frame that is not answered yet. *)
Lemma poll_waiting w : qBState (qbusSlave w) = QBS_FRAME_RCV → ¬ silent w →
  QBSlavePoll w = Ok ((), ticked 2 w).
Proof.
  intros Hst Hs. unfold QBSlavePoll, silent in *. cbv [bind get_q gets]. rewrite Hst, TimeSpent_run.
  by apply not_true_is_false in Hs as ->.
Qed.

(** The end of a frame. *)
Lemma poll_frame w : slave_inv w → qBState (qbusSlave w) = QBS_FRAME_RCV → silent w →
  wp QBSlavePoll (λ _ w', slave_inv w' ∧ uart_out (hist w') = uart_out (hist w) ∧
    ((frame_valid (qbusSlave w) ∧ qBState (qbusSlave w') = QBS_SEND_FRAME ∧
      sentByteCount (qbusSlave w') = 0 ∧
      answered (frameBuffer (qbusSlave w)) (uart_out (hist w)) w') ∨
     (¬ frame_valid (qbusSlave w) ∧ qBState (qbusSlave w') = QBS_IDLE ∧
      recvByteCount (qbusSlave w') = 0))) w.
Proof.
  intros Hi Hst Hs. unfold QBSlavePoll. apply wp_gets_bind. rewrite Hst. apply wp_gets_bind.
  eapply wp_run_bind; [apply TimeSpent_run|]. unfold silent in Hs. rewrite Hs. cbn [when]. pose proof (slave_inv_ticked 2 w Hi) as Hi1.
  pose proof Hi1 as (Hok1 & Hq1 & Ht1). rewrite <-(uart_out_ticked 2 w).
  change (qbusSlave w) with (qbusSlave (ticked 2 w)). generalize dependent (ticked 2 w).
  clear Hi Hst Hs w. intros w Hi Hok Hq Ht.
  eapply wp_seq; [by apply spec_enable|]. intros _ w1 (Hok1 & Hf1 & Hu1).
  assert (slave_inv w1) as Hi1 by by eapply port_frame_inv.
  destruct Hf1 as (Hq1 & _). rewrite <-Hq1, <-Hu1.
  destruct (ValidateFrame_run w1 Hi1) as (b & Hb & Hv).
  eapply wp_run_bind; [exact Hb|]. destruct b.
  - eapply wp_seq; [by apply ProcessFrame_spec|]. intros [] w2 Ha.
    eapply wp_mono; [apply SetState_spec, Ha|]. intros _ w3 (Hi3 & Hu3 & Hq3).
    destruct Ha as (Hi2 & Hu2 & Ha).
    split_and!; [done|congruence|]. left. unfold answered. rewrite Hq3.
    split_and!; [by apply Hv|done..|congruence|exact Ha].
  - eapply wp_mono; [by apply SetState_spec|]. intros _ w3 (Hi3 & Hu3 & Hq3).
    split_and!; [done..|]. right. rewrite Hq3. split_and!; [|done..].
    intros Hc%Hv. done.
Qed.

Lemma poll_send w : slave_inv w → qBState (qbusSlave w) = QBS_SEND_FRAME →
  0 < totalByteToSend (qbusSlave w) → sentByteCount (qbusSlave w) = 0 →
  wp QBSlavePoll (λ _ w', slave_inv w' ∧
    uart_out (hist w') = uart_out (hist w) ++ reply_of (qbusSlave w) ∧
    qBState (qbusSlave w') = QBS_SEND_FRAME ∧ totalByteToSend (qbusSlave w') = 0) w.
Proof.
  intros Hi Hst Hn Hz. unfold QBSlavePoll, QBSlavePortTxEmptyIsr. apply wp_gets_bind. rewrite Hst.
  apply wp_gets_bind. rewrite bool_decide_true by done.
  eapply wp_mono; [apply tx_loop_spec; [done|lia]|]. intros _ w' (Hi' & Hu & Hq').
  rewrite Hu, Hz, Hq', drop_0. done.
Qed.

Lemma poll_sent w : slave_inv w → qBState (qbusSlave w) = QBS_SEND_FRAME →
  totalByteToSend (qbusSlave w) = 0 →
  wp QBSlavePoll (λ _ w', slave_inv w' ∧ uart_out (hist w') = uart_out (hist w) ∧
    qBState (qbusSlave w') = QBS_IDLE ∧ recvByteCount (qbusSlave w') = 0) w.
Proof.
  intros Hi Hst Hz. unfold QBSlavePoll, QBSlavePortTxEmptyIsr. apply wp_gets_bind. rewrite Hst.
  apply wp_gets_bind. rewrite Hz. cbn. eapply wp_mono; [by apply SetState_spec|].
  intros _ w' (Hi' & Hu & Hq'). by rewrite Hq'.
Qed.

(** ** The slave among the other tasks

    Bytes, polls and the steps of the other tasks in any order.  With [half]
    the line is used in one direction at a time: no byte arrives while a reply
    waits to be sent. *)

Inductive bus_step (half : bool) (w w' : world) : Prop :=
  | step_byte b : byte_ok b → (half = true → qBState (qbusSlave w) ≠ QBS_SEND_FRAME) →
      QBSlavePortByteReceived b w = Ok ((), w') → bus_step half w w'
  | step_poll : QBSlavePoll w = Ok ((), w') → bus_step half w w'
  | step_start : QBSlaveStart w = Ok ((), w') → bus_step half w w'
  | step_stop : QBSlaveStop w = Ok ((), w') → bus_step half w w'
  | step_other : qbusSlave w' = qbusSlave w → tag_inv w' → (ok w → ok w') →
      uart_out (hist w') = uart_out (hist w) → bus_step half w w'.

Lemma good_reply_nonempty buf q : q_inv q → good_reply buf (reply_of q) → 0 < totalByteToSend q.
Proof. intros Hq%length_reply [? _]. lia. Qed.

(** One poll keeps the invariant, and only sends in [QBS_SEND_FRAME]. *)
Lemma poll_step w : slave_inv w →
  wp QBSlavePoll (λ _ w', slave_inv w' ∧
    (qBState (qbusSlave w) ≠ QBS_SEND_FRAME → uart_out (hist w') = uart_out (hist w))) w.
Proof.
  intros Hi. pose proof Hi as (_ & Hq & _). destruct (qBState (qbusSlave w)) eqn:Hst.
  - unfold QBSlavePoll. apply wp_gets_bind. rewrite Hst. by apply wp_ret.
  - eapply wp_mono; [by apply poll_idle|]. intros [] w' (Hi' & Hu & _). done.
  - destruct (decide (silent w)) as [Hs|Hs].
    + eapply wp_mono; [by apply poll_frame|]. intros [] w' (Hi' & Hu & _). done.
    + unfold wp. rewrite poll_waiting by done. split; [by apply slave_inv_ticked|]. intros _. by rewrite uart_out_ticked.
  - destruct (decide (0 < totalByteToSend (qbusSlave w))) as [Hn|Hn].
    + unfold QBSlavePoll, QBSlavePortTxEmptyIsr. apply wp_gets_bind. rewrite Hst.
      apply wp_gets_bind. rewrite bool_decide_true by done.
      eapply wp_mono; [apply tx_loop_spec; [done|lia]|]. by intros [] w' (Hi' & _).
    + eapply wp_mono; [apply poll_sent; [done..|unfold q_inv in *; lia]|]. by intros [] w' (Hi' & _).
  - unfold QBSlavePoll. apply wp_gets_bind. rewrite Hst. by apply wp_ret.
Qed.

Lemma bus_step_inv half w w' : bus_step half w w' → slave_inv w → slave_inv w'.
Proof.
  intros Hs Hi. destruct Hs as [b Hb _ Hr|Hr|Hr|Hr|Hq Ht Hok _].
  - exact (proj1 (wp_Ok _ _ _ _ _ Hr (ByteReceived_spec b w Hi Hb))).
  - exact (proj1 (wp_Ok _ _ _ _ _ Hr (poll_step w Hi))).
  - exact (proj1 (wp_Ok _ _ _ _ _ Hr (SetState_spec QBS_IDLE w Hi))).
  - exact (proj1 (wp_Ok _ _ _ _ _ Hr (SetState_spec QBS_STOP w Hi))).
  - destruct Hi as (? & ? & _). split; [auto|]. by rewrite Hq.
Qed.

Lemma bus_steps_inv half w w' : rtc (bus_step half) w w' → slave_inv w → slave_inv w'.
Proof. induction 1; eauto using bus_step_inv. Qed.

(** ** What was asked on the line

    A run of the line, used in one direction at a time, with the bytes it
    brought: [g] are those since the buffer was last emptied (in a full buffer
    the last one is written over, [one_more]), [due] is the
    request whose reply waits to be sent, and [reqs] are the requests before. *)

Definition request_frame (g : bytes) : Prop := (7 ≤ length g)%nat ∧ Crc16Get g (length g) = Ok 0.

(** A poll takes [g] for a request when the line falls silent after it. *)
Definition asks (g : bytes) (w : world) : Prop :=
  qBState (qbusSlave w) = QBS_FRAME_RCV ∧ silent w ∧ request_frame g.

Inductive line_run (w0 : world) : list bytes → option bytes → bytes → world → Prop :=
  | run_start : line_run w0 [] None (received (qbusSlave w0)) w0
  | run_byte reqs due g w w' b : line_run w0 reqs due g w → byte_ok b → qBState (qbusSlave w) ≠ QBS_SEND_FRAME →
      QBSlavePortByteReceived b w = Ok ((), w') → line_run w0 reqs due (one_more (qbusSlave w) g b) w'
  | run_request reqs g w w' : line_run w0 reqs None g w → asks g w →
      QBSlavePoll w = Ok ((), w') → line_run w0 reqs (Some g) g w'
  | run_reply reqs g req w w' : line_run w0 reqs (Some req) g w →
      QBSlavePoll w = Ok ((), w') → line_run w0 (reqs ++ [req]) None g w'
  | run_poll reqs g w w' : line_run w0 reqs None g w → ¬ asks g w → QBSlavePoll w = Ok ((), w') →
      line_run w0 reqs None (if decide (recvByteCount (qbusSlave w') = 0) then [] else g) w'
  | run_restart reqs due g w w' : line_run w0 reqs due g w → QBSlaveStart w = Ok ((), w') ∨ QBSlaveStop w = Ok ((), w') →
      line_run w0 reqs None [] w'
  | run_other reqs due g w w' : line_run w0 reqs due g w → qbusSlave w' = qbusSlave w → tag_inv w' → (ok w → ok w') →
      uart_out (hist w') = uart_out (hist w) → line_run w0 reqs due g w'.

(** Every run is such a run. *)
Lemma asks_decidable g w : asks g w ∨ ¬ asks g w.
Proof.
  unfold asks, request_frame, silent. destruct (decide (qBState (qbusSlave w) = QBS_FRAME_RCV)); [|by right; intros [? _]].
  destruct (spent _ _ _ _); [|by right; intros (_ & [=] & _)]. destruct (decide (7 ≤ length g)%nat); [|by right; intros (_ & _ & ? & _)].
  destruct (Crc16Get g (length g)) as [c|]; [|by right; intros (_ & _ & _ & [=])].
  destruct (decide (c = 0)) as [->|]; [by left|right]. intros (_ & _ & _ & [=]). done.
Qed.

Lemma line_run_step w0 reqs due g w w' : line_run w0 reqs due g w → bus_step true w w' →
  ∃ reqs' due' g', line_run w0 reqs' due' g' w'.
Proof.
  intros Hr [b Hb Hh Hs|Hs|Hs|Hs|Hq Ht Hok Hu].
  - eexists _, _, _. eapply run_byte; eauto.
  - destruct due as [req|]; [eexists _, _, _; by eapply run_reply|].
    destruct (asks_decidable g w); [eexists _, _, _; by eapply run_request|eexists _, _, _; by eapply run_poll].
  - eexists _, _, _. eapply run_restart; eauto.
  - eexists _, _, _. eapply run_restart; eauto.
  - eexists _, _, _. eapply run_other; eauto.
Qed.

Lemma line_run_steps w0 w : rtc (bus_step true) w0 w → ∃ reqs due g, line_run w0 reqs due g w.
Proof.
  revert w. apply rtc_ind_r; [eexists _, _, _; apply run_start|].
  intros w w' _ Hstep (reqs & due & g & Hr). by eapply line_run_step.
Qed.

(** Bytes that arrive one after the other. *)
Lemma line_run_bytes w0 reqs due g bs w w' : line_run w0 reqs due g w → slave_inv w → bytes_ok bs →
  qBState (qbusSlave w) ≠ QBS_SEND_FRAME → for_each bs QBSlavePortByteReceived w = Ok ((), w') →
  line_run w0 reqs due (foldl (one_more (qbusSlave w)) g bs) w'.
Proof.
  intros Hr Hi Hb. revert g w Hr Hi. induction Hb as [|b bs Hb _ IH]; intros g w Hr Hi Hst; cbn [for_each foldl].
  { by intros [= <-]. }
  intros ([] & w1 & H1 & H2)%bind_Ok.
  destruct (wp_Ok _ _ _ _ _ H1 (ByteReceived_spec b w Hi Hb)) as (Hi1 & _ & _ & Hlen & Hst1).
  assert (∀ l, one_more (qbusSlave w) l = one_more (qbusSlave w1) l) as E by (intros l; unfold one_more; by rewrite Hlen).
  assert (foldl (one_more (qbusSlave w)) (one_more (qbusSlave w) g b) bs
    = foldl (one_more (qbusSlave w1)) (one_more (qbusSlave w) g b) bs) as ->.
  { generalize (one_more (qbusSlave w) g b). clear -E. induction bs as [|c bs IH]; intros l; [done|]. cbn [foldl]. by rewrite E, IH. }
  apply IH; [by eapply run_byte|done|congruence|done].
Qed.

(** The state of the slave tells what the line brought and what is due. *)
Definition line_state (due : option bytes) (g : bytes) (w : world) : Prop :=
  if decide (qBState (qbusSlave w) = QBS_SEND_FRAME) then
    match due with
    | Some req => request_frame req ∧ sentByteCount (qbusSlave w) = 0 ∧ good_reply req (reply_of (qbusSlave w))
    | None => totalByteToSend (qbusSlave w) = 0
    end
  else received (qbusSlave w) = g ∧ due = None.

(** All requests before are answered. *)
Definition line_sent (w0 : world) (reqs : list bytes) (w : world) : Prop :=
  Forall request_frame reqs ∧
  ∃ replies, Forall2 good_reply reqs replies ∧ uart_out (hist w) = uart_out (hist w0) ++ concat replies.

Definition line_inv (w0 : world) (reqs : list bytes) (due : option bytes) (g : bytes) (w : world) : Prop :=
  slave_inv w ∧ line_state due g w ∧ line_sent w0 reqs w.

Lemma line_sent_same w0 reqs w w' : uart_out (hist w') = uart_out (hist w) → line_sent w0 reqs w → line_sent w0 reqs w'.
Proof. unfold line_sent. by intros ->. Qed.

Lemma line_listening due g w : line_state due g w → qBState (qbusSlave w) ≠ QBS_SEND_FRAME →
  received (qbusSlave w) = g ∧ due = None.
Proof. unfold line_state. by case_decide. Qed.

Lemma line_state_listening g w : qBState (qbusSlave w) ≠ QBS_SEND_FRAME → received (qbusSlave w) = g → line_state None g w.
Proof. unfold line_state. by case_decide. Qed.

Lemma line_state_empty w : qBState (qbusSlave w) ≠ QBS_SEND_FRAME → recvByteCount (qbusSlave w) = 0 → line_state None [] w.
Proof. intros Hs Hn. apply line_state_listening; [done|]. unfold received. by rewrite Hn. Qed.

Lemma frame_valid_request q : q_inv q → frame_valid q ↔ request_frame (received q).
Proof.
  intros Hq. assert (Z.of_nat (length (received q)) = recvByteCount q) as Hl.
  { unfold received. rewrite length_take. qinv. }
  unfold frame_valid, request_frame, QB_FRAME_MIN_LEN. rewrite <-Hl. split; intros [? ?]; split; done || lia.
Qed.

(** A reply looks at the first five bytes of its request. *)
Lemma good_reply_received q r : (7 ≤ length (received q))%nat → good_reply (frameBuffer q) r → good_reply (received q) r.
Proof.
  unfold received. rewrite length_take. intros Hn (Hl & Hc & He & fc & v & Hf & Hv & Hcode).
  split_and!; [done..| |].
  - rewrite He. apply list_eq. intros i. destruct (decide (i < 4)%nat).
    + by rewrite !lookup_take_lt, !lookup_drop, lookup_take_lt by lia.
    + by rewrite !lookup_take_ge by lia.
  - exists fc, v. by rewrite lookup_take_lt by lia.
Qed.

Lemma line_poll_other w0 reqs g w : line_inv w0 reqs None g w → ¬ asks g w →
  wp QBSlavePoll (λ _ w', line_inv w0 reqs None (if decide (recvByteCount (qbusSlave w') = 0) then [] else g) w') w.
Proof.
  intros (Hi & Hl & Hs) Hna. pose proof Hi as (_ & Hq & _).
  assert (∀ w', received (qbusSlave w) = g → qBState (qbusSlave w') ≠ QBS_SEND_FRAME →
    received (qbusSlave w') = received (qbusSlave w) →
    line_state None (if decide (recvByteCount (qbusSlave w') = 0) then [] else g) w') as Hsame.
  { intros w' Hg Hst Hr. case_decide; [by apply line_state_empty|]. apply line_state_listening; [done|congruence]. }
  assert (∀ w', qBState (qbusSlave w') = QBS_IDLE → recvByteCount (qbusSlave w') = 0 →
    line_state None (if decide (recvByteCount (qbusSlave w') = 0) then [] else g) w') as Hidle.
  { intros w' Hst Hn. rewrite decide_True by done. apply line_state_empty; [by rewrite Hst|done]. }
  destruct (decide (qBState (qbusSlave w) = QBS_SEND_FRAME)) as [Hst|Hst].
  { assert (totalByteToSend (qbusSlave w) = 0) as Hz by (revert Hl; unfold line_state; by rewrite decide_True by done).
    eapply wp_mono; [by apply poll_sent|]. intros [] w' (Hi' & Hu & Hst' & Hn).
    split; [done|]. split; [by apply Hidle|by eapply line_sent_same]. }
  destruct (line_listening _ _ _ Hl Hst) as [Hg _]. destruct (qBState (qbusSlave w)) eqn:E; [| | |done|].
  - unfold QBSlavePoll. apply wp_gets_bind. rewrite E. apply wp_ret. split; [done|]. split; [apply Hsame; [done|by rewrite E|done]|done].
  - eapply wp_mono; [by apply poll_idle|]. intros [] w' (Hi' & Hu & _ & Hs').
    split; [done|]. split; [|by eapply line_sent_same].
    destruct Hs' as [[Hst' Hn]|[Hst' Hr]]; [by apply Hidle|apply Hsame; [done|by rewrite Hst'|done]].
  - destruct (decide (silent w)) as [Hsil|Hsil].
    + eapply wp_mono; [by apply poll_frame|]. intros [] w' (Hi' & Hu & Hc).
      destruct Hc as [(Hv & _)|(_ & Hst' & Hn)].
      * exfalso. apply Hna. split; [done|]. split; [done|]. rewrite <-Hg. by apply frame_valid_request.
      * split; [done|]. split; [by apply Hidle|by eapply line_sent_same].
    + unfold wp. rewrite poll_waiting by done. split; [by apply slave_inv_ticked|].
      split; [apply Hsame; [done| |done]; change (qbusSlave (ticked 2 w)) with (qbusSlave w); by rewrite E|].
      eapply line_sent_same; [apply uart_out_ticked|done].
  - unfold QBSlavePoll. apply wp_gets_bind. rewrite E. apply wp_ret. split; [done|]. split; [apply Hsame; [done|by rewrite E|done]|done].
Qed.

Lemma line_poll_request w0 reqs g w : line_inv w0 reqs None g w → asks g w →
  wp QBSlavePoll (λ _ w', line_inv w0 reqs (Some g) g w') w.
Proof.
  intros (Hi & Hl & Hs) (Hst & Hsil & Hreq). pose proof Hi as (_ & Hq & _).
  destruct (line_listening _ _ _ Hl) as [Hg _]; [by rewrite Hst|].
  eapply wp_mono; [by apply poll_frame|]. intros [] w' (Hi' & Hu & Hc).
  destruct Hc as [(_ & Hst' & Hz & _ & _ & Hr)|(Hnv & _)].
  - split; [done|]. split; [|by eapply line_sent_same]. unfold line_state. rewrite decide_True by done.
    split_and!; [done..|]. rewrite <-Hg. apply good_reply_received; [rewrite Hg; apply Hreq|done].
  - exfalso. apply Hnv, frame_valid_request; [done|]. by rewrite Hg.
Qed.

Lemma line_poll_reply w0 reqs req g w : line_inv w0 reqs (Some req) g w →
  wp QBSlavePoll (λ _ w', line_inv w0 (reqs ++ [req]) None g w') w.
Proof.
  intros (Hi & Hl & Hreqs & replies & Hr & Hu). pose proof Hi as (_ & Hq & _). unfold line_state in Hl. case_decide as Hst; [|by destruct Hl].
  destruct Hl as (Hreq & Hz & Hg). eapply wp_mono; [apply poll_send; [done..|by eapply good_reply_nonempty|done]|].
  intros [] w' (Hi' & Hu' & Hst' & Hn). split; [done|]. split; [unfold line_state; by rewrite decide_True|].
  split; [apply Forall_app; by split; [|constructor]|]. exists (replies ++ [reply_of (qbusSlave w)]). split.
  - apply Forall2_app; [done|]. by constructor.
  - rewrite Hu', Hu, concat_app, <-app_assoc. cbn [concat]. by rewrite app_nil_r.
Qed.

Lemma line_run_inv w0 reqs due g w : slave_inv w0 → qBState (qbusSlave w0) = QBS_IDLE →
  line_run w0 reqs due g w → line_inv w0 reqs due g w.
Proof.
  intros Hi0 Hst0. induction 1 as [|reqs due g w w' b _ IH Hb Hst Hr|reqs g w w' _ IH Ha Hr|reqs g req w w' _ IH Hr
    |reqs g w w' _ IH Ha Hr|reqs due g w w' _ IH Hr|reqs due g w w' _ IH Hq Ht Hok Hu].
  - split; [done|]. split; [apply line_state_listening; [by rewrite Hst0|done]|].
    split; [constructor|]. exists []. split; [constructor|]. by rewrite app_nil_r.
  - destruct IH as (Hi & Hl & Hs). destruct (line_listening _ _ _ Hl Hst) as [<- ->].
    destruct (wp_Ok _ _ _ _ _ Hr (ByteReceived_spec b w Hi Hb)) as (Hi' & Hu & Hg & _ & Hst').
    split; [done|]. split; [apply line_state_listening; [congruence|done]|by eapply line_sent_same].
  - exact (wp_Ok _ _ _ _ _ Hr (line_poll_request _ _ _ _ IH Ha)).
  - exact (wp_Ok _ _ _ _ _ Hr (line_poll_reply _ _ _ _ _ IH)).
  - exact (wp_Ok _ _ _ _ _ Hr (line_poll_other _ _ _ _ IH Ha)).
  - destruct IH as (Hi & _ & Hs). destruct Hr as [Hr|Hr].
    + destruct (wp_Ok _ _ _ _ _ Hr (SetState_spec QBS_IDLE w Hi)) as (Hi' & Hu & Hq).
      split; [done|]. split; [by apply line_state_empty; rewrite Hq|by eapply line_sent_same].
    + destruct (wp_Ok _ _ _ _ _ Hr (SetState_spec QBS_STOP w Hi)) as (Hi' & Hu & Hq).
      split; [done|]. split; [by apply line_state_empty; rewrite Hq|by eapply line_sent_same].
  - destruct IH as ((Hok0 & Hq0 & _) & Hl & Hs). split; [|split; [|by eapply line_sent_same]].
    + split; [auto|]. by rewrite Hq.
    + unfold line_state in *. by rewrite Hq.
Qed.

End slave_lemmas.

(** ** Properties *)

Section slave_properties.
Context `{Env} `{CJSON} `{P : QBusPort} {max_read : Z} {ok : world → Prop} `{!QBusSpec max_read ok}.

(** C12 (safety of the serial slave).  From any state that satisfies the
    invariant, after any interleaving of received bytes (whatever their
    values), polls, starts, stops and steps of other tasks, the invariant
    holds again (in particular the counters stay within the frame buffer and
    the tag strings within their arrays), and receiving one more byte or
    polling once more neither faults nor fails to return. *)
Theorem slave_never_faults (half : bool) (w0 w : world)
    (Hi : slave_inv (max_read := max_read) (ok := ok) w0) (Hs : rtc (bus_step (ok := ok) half) w0 w) :
  slave_inv (max_read := max_read) (ok := ok) w ∧
  (∀ b, byte_ok b → ∃ w', QBSlavePortByteReceived b w = Ok ((), w')) ∧
  (∃ w', QBSlavePoll w = Ok ((), w')) ∧
  (qBState (qbusSlave w) ≠ QBS_SEND_FRAME →
    ∀ w', QBSlavePoll w = Ok ((), w') → uart_out (hist w') = uart_out (hist w)).
Proof.
  apply bus_steps_inv in Hs as Hi'; [|done]. split_and!; [done|..].
  - intros b Hb. destruct (wp_elim _ _ _ (ByteReceived_spec b w Hi' Hb)) as ([] & w' & Hr & _). by exists w'.
  - destruct (wp_elim _ _ _ (poll_step w Hi')) as ([] & w' & Hr & _). by exists w'.
  - intros Hst w' Hr. destruct (wp_Ok _ _ _ _ _ Hr (poll_step w Hi')) as (_ & Hu). auto.
Qed.

(** C13 (every request is answered, and nothing else is sent).  With the line
    used in one direction at a time, after any run from an idle state (every
    run can be followed in this way, [line_run_steps]): the
    bytes the slave has sent are one complete reply per request, in the order
    of the requests, but for the one that is due.  A request is the sequence
    of bytes that the line brought since the buffer was last emptied, of seven
    bytes or more and with its CRC right, after which the line fell silent; its
    reply has its CRC right, repeats the request's address and length, and
    begins with the request's function, marked or not as an error, or with the
    error mark alone when there is no such function.  (A reply that is due is
    lost when the slave is stopped or started again.) *)
Theorem slave_sends_replies (w0 w : world) (reqs : list bytes) (due : option bytes) (g : bytes)
    (Hi : slave_inv (max_read := max_read) (ok := ok) w0) (Hst : qBState (qbusSlave w0) = QBS_IDLE)
    (Hr : line_run (ok := ok) w0 reqs due g w) :
  Forall request_frame reqs ∧
  ∃ replies, Forall2 good_reply reqs replies ∧ uart_out (hist w) = uart_out (hist w0) ++ concat replies.
Proof. by apply (line_run_inv w0 reqs due g w Hi Hst) in Hr as (_ & _ & Hs). Qed.

(** C24 (tag events).  A read request reports the tag on the pad.  The toy is
    set exactly when a tag appears or changes, and reset exactly when the tag
    has gone; a request that reports the same tag again changes neither the
    toy nor the state of the system.  The tag that was reported last is
    remembered, also while none is there.  Battery level and charging state are
    recorded every time. *)
Theorem tag_events (buf : bytes) (w : world)
    (Hi : slave_inv (max_read := max_read) (ok := ok) w) (Hlen : (15 ≤ length buf)%nat) (Hb : bytes_ok buf)
    (Hflag : tagPresentFlag_qbus (tag w) = 0 ∨ tagPresentFlag_qbus (tag w) = 1) :
  let uid := tag_text (take 8 (drop 5 buf)) in
  let placed := tagPresentFlag_qbus (tag w) in
  ∃ w', process_tag buf w = Ok ((), w') ∧
    buf !! 13%nat = Some (batteryLevel (sys w')) ∧ buf !! 14%nat = Some (chargingState (sys w')) ∧
    if decide (uid = no_tag) then
      tagPresentFlag_qbus (tag w') = 0 ∧ previousTagUid (tag w') = previousTagUid (tag w) ∧
      (placed = 1 → toy (sys w') = [] ∧ toyPresenseFlag (sys w') = false ∧ state (sys w') = SYS_IDLE) ∧
      (placed = 0 → toy (sys w') = toy (sys w) ∧ toyPresenseFlag (sys w') = toyPresenseFlag (sys w) ∧
                    state (sys w') = state (sys w))
    else
      tagPresentFlag_qbus (tag w') = 1 ∧ take 16 (until_nul (previousTagUid (tag w'))) = uid ∧
      state (sys w') = state (sys w) ∧
      (placed = 0 ∨ take 16 (until_nul (previousTagUid (tag w))) ≠ uid →
        toy (sys w') = uid ∧ toyPresenseFlag (sys w') = true) ∧
      (placed = 1 ∧ take 16 (until_nul (previousTagUid (tag w))) = uid →
        toy (sys w') = toy (sys w) ∧ toyPresenseFlag (sys w') = toyPresenseFlag (sys w)).
Proof.
  intros uid placed. destruct Hi as (_ & _ & Htag & Hprev & Htoy).
  assert (length uid = 16%nat) as Hl
    by (unfold uid; rewrite length_tag_text, length_take, length_drop; lia).
  assert (no_nul uid) as Hnn by (apply tag_text_no_nul; by apply Forall_take, Forall_drop).
  destruct (lookup_lt_is_Some_2 buf 13) as [bat Hbat]; [lia|].
  destruct (lookup_lt_is_Some_2 buf 14) as [chg Hchg]; [lia|].
  unfold process_tag. fold uid. cbv [bind get_tag gets lift].
  unfold strcpy at 1. rewrite bool_decide_true by lia.
  rewrite (load_lookup buf _ bat), (load_lookup buf _ chg) by done.
  cbv [put_tag setBatteryLevel setChargingStatus put_sys modify]. rewrite until_nul_app by done.
  cbn -[strcmp_eq strncmp_eq until_nul strncpy setToy resetToy take no_tag].
  fold placed. unfold strcmp_eq. destruct (decide (uid = no_tag)) as [Hno|Hno].
  - rewrite bool_decide_true by done. case_bool_decide as Hp; cbn [when].
    + match goal with |- context [resetToy ?x] => destruct (wp_elim _ _ _ (resetToy_spec x Htoy))
        as ([] & w2 & Hrun & Hy & _ & _ & Htg & _ & _ & Hpr & Hst & Hbl & Hcs) end.
      unfold bind. rewrite Hrun. eexists. split; [done|]. simpl in *. rewrite Hbl, Hcs, Htg.
      split_and!; [done..|]. intros Hp0; congruence.
    + eexists. split; [done|]. simpl. split_and!; [done..|]. done.
  - rewrite bool_decide_false by done.
    match goal with |- context [strncmp_eq 16 (until_nul ?p) uid] =>
      change p with (previousTagUid (tag w)) end.
    assert (strncmp_eq 16 (until_nul (previousTagUid (tag w))) uid
      = bool_decide (take 16 (until_nul (previousTagUid (tag w))) = uid)) as ->
      by (unfold strncmp_eq; by rewrite (take_ge uid) by lia).
    destruct (bool_decide (placed = 0)
      || negb (bool_decide (take 16 (until_nul (previousTagUid (tag w))) = uid))) eqn:Hnew; cbn [when].
    + destruct (strncpy (previousTagUid (tag w)) uid 16) as [prev|] eqn:Hs;
        [|unfold strncpy in Hs; by rewrite bool_decide_true in Hs by lia].
      pose proof (take_until_nul_strncpy _ _ _ _ Hnn Hl Hs) as Hprev'. cbv [bind lift put_tag modify].
      match goal with |- context [setToy uid ?x] => destruct (setToy_run uid x)
        as (t' & Hrun & _ & Ht') end; [lia|].
      rewrite Hrun. rewrite (Ht' Hnn). eexists. split; [done|]. simpl.
      split_and!; [done..|]. intros [Hp1 Hp2]. exfalso.
      apply orb_true_iff in Hnew as [Hn%bool_decide_eq_true|Hn%negb_true_iff%bool_decide_eq_false];
        congruence.
    + eexists. split; [done|]. simpl. apply orb_false_iff in Hnew as [Hp0 Hsame].
      apply bool_decide_eq_false in Hp0. apply negb_false_iff, bool_decide_eq_true in Hsame.
      split_and!; try done. by intros [?|?].
Qed.

(** C14 (a transaction).  When a valid frame of at least seven bytes is in the
    buffer and the line has been silent for the timeout, three polls answer
    it: the first processes it and sends nothing, the second sends exactly one
    reply (CRC right, address and length echoed), the third sends nothing and
    leaves the slave idle and its buffer empty. *)
Theorem QBSlave_transaction (w : world)
    (Hi : slave_inv (max_read := max_read) (ok := ok) w) (Hst : qBState (qbusSlave w) = QBS_FRAME_RCV)
    (Hs : silent w) (Hv : frame_valid (qbusSlave w)) :
  ∃ w1 w2 w3 reply, QBSlavePoll w = Ok ((), w1) ∧ QBSlavePoll w1 = Ok ((), w2) ∧
    QBSlavePoll w2 = Ok ((), w3) ∧
    uart_out (hist w1) = uart_out (hist w) ∧
    uart_out (hist w2) = uart_out (hist w) ++ reply ∧
    uart_out (hist w3) = uart_out (hist w2) ∧
    good_reply (frameBuffer (qbusSlave w)) reply ∧
    qBState (qbusSlave w3) = QBS_IDLE ∧ recvByteCount (qbusSlave w3) = 0.
Proof.
  destruct (wp_elim _ _ _ (poll_frame w Hi Hst Hs)) as ([] & w1 & H1 & Hi1 & Hu1 & Hc).
  destruct Hc as [(_ & Hst1 & Hz1 & _ & _ & Hg)|(Hn & _)]; [|done].
  assert (0 < totalByteToSend (qbusSlave w1)) as Hn1
    by (eapply good_reply_nonempty, Hg; by destruct Hi1 as (_ & ? & _)).
  destruct (wp_elim _ _ _ (poll_send w1 Hi1 Hst1 Hn1 Hz1)) as ([] & w2 & H2 & Hi2 & Hu2 & Hst2 & Hn2).
  destruct (wp_elim _ _ _ (poll_sent w2 Hi2 Hst2 Hn2)) as ([] & w3 & H3 & _ & Hu3 & Hst3 & Hr3).
  exists w1, w2, w3, (reply_of (qbusSlave w1)). split_and!; congruence || done.
Qed.

End slave_properties.
