(* ===== verification/IotQbus.v ===== *)
(** * IotQbus: the registers behind the serial slave
    (main/src/iot_qbus.cpp, main/src/iot_qbus_port.cpp)

    The callbacks the firmware gives to the slave of QbusSlave.v, the task
    that polls it and the task that feeds it the bytes of the UART.
    [iot_qbus_spec] discharges what the slave relies on. *)

From S2P Require Import Prelude CString Crc16 World TimeSpent Led SystemBase Player QbusSlave.
#[local] Open Scope M_scope.

(** ** The register map (main/inc/iot_qbus.h) *)

Definition READ_DATA_REG_START : Z := 0x1000.
Definition READ_DATA_NUM_REGS : Z := 11.
Definition WRITE_VOLUME_CONTROL_REG_START : Z := 0x3000.
Definition WRITE_PLAY_PAUSE_REG_START : Z := 0x4000.
Definition WRITE_NEXT_PREV_REG_START : Z := 0x5000.
Definition WRITE_ANSWER_OPTION_REG_START : Z := 0x7000.
Definition WRITE_CHARGING_STATUS_REG_START : Z := 0x8000.
Definition WRITE_BATTERY_PERCENT_REG_START : Z := 0x9000.
Definition WRITE_TURN_TABLE_POSITION_REG_START : Z := 0xA000.

(** Every [WRITE_..._NUM_REGS_MAX]. *)
Definition WRITE_NUM_REGS_MAX : Z := 1.

(** [(address >= start) && ((address + len) <= (start + num))], in [int]. *)
Definition in_regs (start num address len : Z) : bool :=
  bool_decide (start <= address) && bool_decide (address + len <= start + num).

(** [qbus_data_buff_bits_et] *)
Definition QBUS_DATA_ESP_STATE_CMD_BIT : Z := 0.
Definition QBUS_DATA_LEFT_EAR_LED_R_VAL_BIT : Z := 1.
Definition QBUS_DATA_LEFT_EAR_LED_G_VAL_BIT : Z := 2.
Definition QBUS_DATA_LEFT_EAR_LED_B_VAL_BIT : Z := 3.
Definition QBUS_DATA_RIGHT_EAR_LED_R_VAL_BIT : Z := 4.
Definition QBUS_DATA_RIGHT_EAR_LED_G_VAL_BIT : Z := 5.
Definition QBUS_DATA_RIGHT_EAR_LED_B_VAL_BIT : Z := 6.
Definition QBUS_DATA_LP_LED_R_VAL_BIT : Z := 7.
Definition QBUS_DATA_LP_LED_G_VAL_BIT : Z := 8.
Definition QBUS_DATA_LP_LED_B_VAL_BIT : Z := 9.
Definition QBUS_DATA_ESP_POWER_OFF_BIT : Z := 10.

Section iot_qbus.
Context `{Env} `{CJSON}.

(** ** The port (iot_qbus_port.cpp) *)

Definition IotQbusSendByte (sendDataQbus : Z) : FW () := emit (uart_write_bytes sendDataQbus).

Definition IotQbusInterruptEnable (xTxEnable xRxEnable : Z) : FW () := skip.

(** ** Reading registers *)

(** [dataPacket[i] = v] *)
Definition put_reg (i v : Z) : FW () :=
  buf ← get_tag qbusDataBuff;
  buf' ← lift (store buf i (u8 v));
  put_tag qbusDataBuff buf'.

Definition UpdateDataBuffer : FW () :=
  s ← getPadState;
  put_reg QBUS_DATA_ESP_STATE_CMD_BIT (pad_state_num s);;
  v ← getLeftEarColor 0;
  put_reg QBUS_DATA_LEFT_EAR_LED_R_VAL_BIT v;;
  v ← getLeftEarColor 1;
  put_reg QBUS_DATA_LEFT_EAR_LED_G_VAL_BIT v;;
  v ← getLeftEarColor 2;
  put_reg QBUS_DATA_LEFT_EAR_LED_B_VAL_BIT v;;
  v ← getRightEarColor 0;
  put_reg QBUS_DATA_RIGHT_EAR_LED_R_VAL_BIT v;;
  v ← getRightEarColor 1;
  put_reg QBUS_DATA_RIGHT_EAR_LED_G_VAL_BIT v;;
  v ← getRightEarColor 2;
  put_reg QBUS_DATA_RIGHT_EAR_LED_B_VAL_BIT v;;
  v ← getLandingPadColor 0;
  put_reg QBUS_DATA_LP_LED_R_VAL_BIT v;;
  v ← getLandingPadColor 1;
  put_reg QBUS_DATA_LP_LED_G_VAL_BIT v;;
  v ← getLandingPadColor 2;
  put_reg QBUS_DATA_LP_LED_B_VAL_BIT v;;
  v ← getPowerStatus;
  put_reg QBUS_DATA_ESP_POWER_OFF_BIT v.

(** [while (len > 0) { *regData++ = qbusDataBuff[index]; index++; len--; }] *)
Fixpoint copy_regs (len : nat) (src : bytes) (index : Z) (regData : bytes) (at_ : Z) : res bytes :=
  match len with
  | O => Ok regData
  | S len =>
      match load src index with
      | Ok v =>
          match store regData at_ v with
          | Ok regData => copy_regs len src (u16 (index + 1)) regData (at_ + 1)
          | Fault f => Fault f
          end
      | Fault f => Fault f
      end
  end.

Definition QbusRegReadCb (address len : Z) (regData : bytes) : FW (qBRegRetCode_et * bytes) :=
  if in_regs READ_DATA_REG_START READ_DATA_NUM_REGS address len then
    let index := u16 (address - READ_DATA_REG_START) in
    UpdateDataBuffer;;
    src ← get_tag qbusDataBuff;
    regData' ← lift (copy_regs (Z.to_nat len) src index regData 0);
    ret (QB_REG_SUCCESS, regData')
  else ret (QB_REG_ERR_ADDR, regData).

(** ** Writing registers *)

(** [500 / portTICK_PERIOD_MS] with a tick of ten milliseconds. *)
Definition key_delay : Z := 50.

Definition QbusRegWriteCb (address len : Z) (regData : bytes) : FW (qBRegRetCode_et * bytes) :=
  let window start := in_regs start WRITE_NUM_REGS_MAX address len in
  let success := ret (QB_REG_SUCCESS, regData) in
  if window WRITE_VOLUME_CONTROL_REG_START then
    c ← lift (load regData 0);
    (if bool_decide (c = 2) then decVolume
     else when (bool_decide (c = 1)) incVolume);;
    success
  else if window WRITE_PLAY_PAUSE_REG_START then
    flag ← get_tag tagPresentFlag_qbus;
    when (negb (bool_decide (flag = 0))) playPauseToggle;;
    success
  else if window WRITE_NEXT_PREV_REG_START then
    c ← lift (load regData 0);
    (if bool_decide (c = 2) then Player_previous;; delay key_delay
     else when (bool_decide (c = 1)) (Player_next;; delay key_delay));;
    success
  else if window WRITE_ANSWER_OPTION_REG_START then
    c ← lift (load regData 0);
    (if bool_decide (c = 1) then setLeftEarButton true;; skipQuestion
     else when (bool_decide (c = 2)) (setRightEarButton true;; skipQuestion));;
    success
  else if window WRITE_CHARGING_STATUS_REG_START then
    c ← lift (load regData 0);
    (if bool_decide (c = 0) then setChargingStatus 0 else setChargingStatus 1);;
    success
  else if window WRITE_BATTERY_PERCENT_REG_START then
    c ← lift (load regData 0);
    setBatteryLevel c;;
    success
  else if window WRITE_TURN_TABLE_POSITION_REG_START then
    c ← lift (load regData 0);
    setTurnTable c;;
    success
  else ret (QB_REG_ERR_ADDR, regData).

#[export] Instance iot_qbus_port : QBusPort := {|
  TransmitChar := IotQbusSendByte;
  EnableTxRx := IotQbusInterruptEnable;
  ReadRegCb := QbusRegReadCb;
  WriteRegCb := QbusRegWriteCb;
|}.

(** ** The tasks *)

Definition byteReceived (recvChar : Z) : FW () := QBSlavePortByteReceived recvChar.

(** The UART driver's set-up has no state here. *)
Definition QbusInit : FW () :=
  QBSlaveInit (memset0 100) 100;;
  QBSlaveStart.

Definition QbusHandler : FW () := QBSlavePoll.

(** One turn of [QbusTask]. *)
Definition QbusTask_turn : FW () := QbusHandler;; delay 1.

Inductive uart_event :=
  | UART_DATA (data : bytes)
  | UART_FIFO_OVF
  | UART_BUFFER_FULL
  | UART_PARITY_ERR
  | UART_FRAME_ERR
  | UART_other.

(** One event of [uart_event_task]. *)
Definition uart_event_turn (event : uart_event) : FW () :=
  match event with
  | UART_DATA data => for_each data byteReceived
  | UART_FIFO_OVF | UART_BUFFER_FULL => emit uart_flush_input;; emit xQueueReset
  | UART_PARITY_ERR | UART_FRAME_ERR | UART_other => skip
  end.

End iot_qbus.

#[export] Hint Unfold put_reg : fw.

(** ** Lemmas *)

Section iot_qbus_lemmas.
Context `{Env} `{CJSON}.

(** The eleven registers a read can see. *)
Definition reg_image (w : world) : bytes :=
  pad_state_num (padState (led w)) :: leftEarColor (led w) ++ rightEarColor (led w)
    ++ padColor (led w) ++ [u8 (powerState (sys w))].

Lemma length_reg_image w : led_wf (led w) → length (reg_image w) = 11%nat.
Proof.
  intros Hl. unfold reg_image. cbn [length]. rewrite !length_app. cbn [length].
  destruct (Hl (leftEarColor (led w))) as [-> _]; [set_solver|].
  destruct (Hl (rightEarColor (led w))) as [-> _]; [set_solver|].
  destruct (Hl (padColor (led w))) as [-> _]; [set_solver|]. done.
Qed.

Lemma u8_id v : byte_ok v → u8 v = v.
Proof. apply Z.mod_small. Qed.

Lemma pad_state_ok s : byte_ok (pad_state_num s).
Proof. destruct s; unfold byte_ok; simpl; lia. Qed.

Lemma reg_image_ok w : led_wf (led w) → bytes_ok (reg_image w).
Proof.
  intros Hl. constructor; [apply pad_state_ok|].
  repeat (apply Forall_app; split); [apply Hl; set_solver..|].
  constructor; [|constructor]. unfold byte_ok, u8. apply Z.mod_pos_bound. lia.
Qed.

(** A list of three bytes. *)
Lemma three_bytes (c : bytes) : length c = 3%nat → bytes_ok c →
  ∃ a b d, c = [a; b; d] ∧ byte_ok a ∧ byte_ok b ∧ byte_ok d.
Proof.
  intros Hl Hc. destruct c as [|a [|b [|d [|]]]]; try done.
  rewrite !Forall_cons_iff in Hc. naive_solver.
Qed.

(** The first [k] bytes of the packet replaced by those of [img]. *)
Definition filled (k : nat) (img : bytes) (w : world) : world :=
  update tag (update qbusDataBuff (λ old, take k img ++ drop k old)) w.

Lemma filled_0 img w : filled 0 img w = w.
Proof. by destruct w as [?????? [] ???]. Qed.

Lemma put_reg_next k img v w : length (qbusDataBuff (tag w)) = 20%nat → (k < 20)%nat →
  img !! k = Some (u8 v) →
  put_reg (Z.of_nat k) v (filled k img w) = Ok ((), filled (S k) img w).
Proof.
  intros Hl Hk Hv. unfold put_reg. cbv [bind get_tag gets]. apply lookup_lt_Some in Hv as Hi.
  assert (length (qbusDataBuff (tag (filled k img w))) = 20%nat) as Hl'.
  { simpl. rewrite length_app, length_take, length_drop. lia. }
  rewrite store_Ok by lia. cbn [lift]. unfold put_tag, modify. do 2 f_equal.
  destruct w as [?????? [tu pt tp dc qb] ???]. simpl in *.
  unfold filled, update, upd_tag, set, update, upd_qbusDataBuff. simpl. do 2 f_equal.
  rewrite Nat2Z.id.
  rewrite insert_app_r_alt by (rewrite length_take; lia).
  rewrite length_take, Nat.min_l, Nat.sub_diag by lia. rewrite (take_S_r _ _ _ Hv), <-app_assoc.
  f_equal. destruct (lookup_lt_is_Some_2 qb k) as [x Hx]; [lia|].
  by rewrite (drop_S qb x k Hx).
Qed.

(** One register of the packet: read a value [x] and store [f x]. *)
Lemma reg_step {A B} (f : B → Z) (g : FW B) (x : B) k img w (K : FW A) :
  length (qbusDataBuff (tag w)) = 20%nat → (k < 20)%nat →
  g (filled k img w) = Ok (x, filled k img w) → img !! k = Some (u8 (f x)) →
  (x ← g; put_reg (Z.of_nat k) (f x);; K) (filled k img w) = K (filled (S k) img w).
Proof.
  intros Hl Hk Hg Hv. rewrite (bind_run _ _ _ _ _ Hg).
  by rewrite (bind_run _ _ _ _ _ (put_reg_next k img (f x) w Hl Hk Hv)).
Qed.

Lemma UpdateDataBuffer_run w : led_wf (led w) → length (qbusDataBuff (tag w)) = 20%nat →
  UpdateDataBuffer w = Ok ((), filled 11 (reg_image w) w).
Proof.
  intros Hl Hb.
  destruct (three_bytes (leftEarColor (led w))) as (l0 & l1 & l2 & Hlc & ? & ? & ?); [apply Hl; set_solver..|].
  destruct (three_bytes (rightEarColor (led w))) as (r0 & r1 & r2 & Hrc & ? & ? & ?); [apply Hl; set_solver..|].
  destruct (three_bytes (padColor (led w))) as (p0 & p1 & p2 & Hpc & ? & ? & ?); [apply Hl; set_solver..|].
  pose proof (pad_state_ok (padState (led w))) as Hp.
  assert (reg_image w = [pad_state_num (padState (led w)); l0; l1; l2; r0; r1; r2; p0; p1; p2;
    u8 (powerState (sys w))]) as -> by (unfold reg_image; by rewrite Hlc, Hrc, Hpc).
  set (img := [_; _; _; _; _; _; _; _; _; _; _]).
  rewrite <-(filled_0 img w) at 1. unfold UpdateDataBuffer.
  assert (∀ A (p : led_st → bytes) c i v k (K : FW A), p (led w) = c → c !! i = Some v →
    byte_ok v → (k < 20)%nat → img !! k = Some v →
    (x ← (c ← get_led p; lift (load c (Z.of_nat i))); put_reg (Z.of_nat k) x;; K) (filled k img w)
    = K (filled (S k) img w)) as Hcol.
  { intros A p c i v k K Hpc' Hi Hv Hk Himg. apply (reg_step (λ x, x) _ v); [done..| |by rewrite u8_id].
    cbv [bind get_led gets]. simpl. rewrite Hpc'. unfold lift.
    by rewrite (load_lookup _ _ v) by (rewrite ?Nat2Z.id; done || lia). }
  etransitivity; [apply (reg_step pad_state_num getPadState (padState (led w)) 0 img w); [done|lia|done|by rewrite u8_id]|].
  etransitivity; [apply (Hcol _ leftEarColor _ 0%nat l0 1%nat _ Hlc); first [done|lia]|].
  etransitivity; [apply (Hcol _ leftEarColor _ 1%nat l1 2%nat _ Hlc); first [done|lia]|].
  etransitivity; [apply (Hcol _ leftEarColor _ 2%nat l2 3%nat _ Hlc); first [done|lia]|].
  etransitivity; [apply (Hcol _ rightEarColor _ 0%nat r0 4%nat _ Hrc); first [done|lia]|].
  etransitivity; [apply (Hcol _ rightEarColor _ 1%nat r1 5%nat _ Hrc); first [done|lia]|].
  etransitivity; [apply (Hcol _ rightEarColor _ 2%nat r2 6%nat _ Hrc); first [done|lia]|].
  etransitivity; [apply (Hcol _ padColor _ 0%nat p0 7%nat _ Hpc); first [done|lia]|].
  etransitivity; [apply (Hcol _ padColor _ 1%nat p1 8%nat _ Hpc); first [done|lia]|].
  etransitivity; [apply (Hcol _ padColor _ 2%nat p2 9%nat _ Hpc); first [done|lia]|].
  apply (put_reg_next 10); [done|lia|done].
Qed.

Lemma copy_regs_spec len src index regData k :
  0 <= index → index + Z.of_nat len <= Z.of_nat (length src) → Z.of_nat (length src) < 65536 →
  (k + len ≤ length regData)%nat →
  copy_regs len src index regData (Z.of_nat k)
  = Ok (take k regData ++ take len (drop (Z.to_nat index) src) ++ drop (k + len) regData).
Proof.
  revert index regData k. induction len as [|len IH]; intros index regData k Hi Hs Hb Hk.
  - cbn [copy_regs]. rewrite take_0, Nat.add_0_r. cbn [app]. by rewrite take_drop.
  - cbn [copy_regs]. destruct (load_Ok src index) as (v & -> & Hv); [lia|].
    rewrite store_Ok by lia. rewrite Nat2Z.id.
    assert (u16 (index + 1) = index + 1) as -> by (apply Z.mod_small; lia).
    replace (Z.of_nat k + 1) with (Z.of_nat (S k)) by lia.
    rewrite IH by (rewrite ?length_insert; lia). f_equal.
    rewrite take_insert_snoc by lia. rewrite <-app_assoc. f_equal.
    rewrite drop_insert_lt by lia.
    replace (Z.to_nat (index + 1)) with (S (Z.to_nat index)) by lia.
    rewrite (drop_S src v (Z.to_nat index) Hv). simpl. do 2 f_equal. f_equal. lia.
Qed.

(** ** The port keeps its promises *)

Definition iot_ok (w : world) : Prop :=
  can_create VOLUME_SDCARD_LOCATION (fs w) = true ∧ led_wf (led w) ∧
  length (qbusDataBuff (tag w)) = 20%nat.

(** What no register callback changes. *)
Definition untouched (w : world) :=
  (qbusSlave w, tagUid_qbus (tag w), previousTagUid (tag w), toy (sys w), led w, dirs (fs w),
   uart_out (hist w), qbusDataBuff (tag w)).

Lemma reg_written_keeps address len regData : keeps untouched (QbusRegWriteCb address len regData).
Proof. unfold QbusRegWriteCb. keeps. Qed.

Lemma in_regs_spec start num address len :
  in_regs start num address len = true ↔ start <= address ∧ address + len <= start + num.
Proof. unfold in_regs. by rewrite andb_true_iff, !bool_decide_eq_true. Qed.

Lemma volume_key_runs w : can_create VOLUME_SDCARD_LOCATION (fs w) = true →
  wp incVolume (λ _ _, True) w ∧ wp decVolume (λ _ _, True) w.
Proof.
  intros Hc.
  assert (∀ v w, can_create VOLUME_SDCARD_LOCATION (fs w) = true →
    wp (apply_volume v;; writeVolume) (λ _ _, True) w) as Hend.
  { intros v w1 Hc1. destruct (apply_volume_run v w1) as [h Ha]. eapply wp_run_bind; [exact Ha|].
    destruct (writeVolume_run (update hist (λ _, h) w1)) as (w' & Hw & _); [exact Hc1|].
    by eapply wp_of_Ok. }
  split.
  - unfold incVolume. apply wp_gets_bind, wp_modify_bind. do 2 apply wp_gets_bind.
    eapply wp_seq with (P := λ _ w', can_create VOLUME_SDCARD_LOCATION (fs w') = true).
    + case_bool_decide; exact Hc.
    + intros _ w1 Hc1. apply wp_gets_bind. by apply Hend.
  - unfold decVolume. apply wp_gets_bind.
    eapply wp_seq with (P := λ _ w', can_create VOLUME_SDCARD_LOCATION (fs w') = true).
    + case_bool_decide; exact Hc.
    + intros _ w1 Hc1. apply wp_gets_bind. by apply Hend.
Qed.

Lemma wp_True_seq {A B} (m : FW A) (r : B) Q w : wp m (λ _ _, True) w → (∀ w', Q r w') →
  wp (m;; ret r) Q w.
Proof. intros Hm HQ. eapply wp_seq; [exact Hm|]. intros a w' _. apply HQ. Qed.

Lemma write_runs address len regData w : can_create VOLUME_SDCARD_LOCATION (fs w) = true →
  (0 < length regData)%nat →
  wp (QbusRegWriteCb address len regData) (λ r _, r.2 = regData) w.
Proof.
  intros Hc Hl. unfold QbusRegWriteCb.
  destruct (load_Ok regData 0) as (c & Hld & _); [lia|].
  repeat case_match; try (eapply wp_lift_bind; [exact Hld|]).
  - apply wp_True_seq; [|done]. repeat case_bool_decide; [apply volume_key_runs, Hc..|done].
  - apply wp_gets_bind, wp_True_seq; [|done]. mrun. by mcase.
  - apply wp_True_seq; [|done]. unfold setState. mrun. by mcase.
  - apply wp_True_seq; [|done]. mrun. by mcase.
  - apply wp_True_seq; [|done]. by case_bool_decide.
  - by apply wp_True_seq.
  - by apply wp_True_seq.
  - done.
Qed.

Lemma length_filled w : led_wf (led w) → length (qbusDataBuff (tag w)) = 20%nat →
  length (qbusDataBuff (tag (filled 11 (reg_image w) w))) = 20%nat.
Proof.
  intros Hl%length_reg_image Hb.
  change (qbusDataBuff (tag (filled 11 (reg_image w) w)))
    with (take 11 (reg_image w) ++ drop 11 (qbusDataBuff (tag w))).
  rewrite length_app, length_take, length_drop. lia.
Qed.

Lemma read_runs address len regData w : iot_ok w → 0 <= len →
  (Z.to_nat READ_DATA_NUM_REGS ≤ length regData)%nat →
  in_regs READ_DATA_REG_START READ_DATA_NUM_REGS address len = true →
  QbusRegReadCb address len regData w
  = Ok ((QB_REG_SUCCESS, take (Z.to_nat len) (drop (Z.to_nat (address - READ_DATA_REG_START)) (reg_image w))
           ++ drop (Z.to_nat len) regData), filled 11 (reg_image w) w).
Proof.
  intros (_ & Hled & Hb) Hlen Hdata Hin. unfold QbusRegReadCb. rewrite Hin.
  apply in_regs_spec in Hin. unfold READ_DATA_REG_START, READ_DATA_NUM_REGS in *.
  rewrite (bind_run _ _ _ _ _ (UpdateDataBuffer_run w Hled Hb)). cbv [bind get_tag gets].
  pose proof (length_reg_image w Hled) as Hl11.
  assert (u16 (address - 4096) = address - 4096) as -> by (apply Z.mod_small; lia).
  assert (qbusDataBuff (tag (filled 11 (reg_image w) w))
    = reg_image w ++ drop 11 (qbusDataBuff (tag w))) as ->.
  { change (qbusDataBuff (tag (filled 11 (reg_image w) w)))
      with (take 11 (reg_image w) ++ drop 11 (qbusDataBuff (tag w))).
    by rewrite take_ge by lia. }
  rewrite (copy_regs_spec _ _ _ _ 0); [|lia|rewrite length_app, length_drop; lia
    |rewrite length_app, length_drop; lia|lia].
  cbn [lift ret]. unfold ret. do 3 f_equal. cbn [take app]. rewrite take_0. cbn [app]. f_equal.
  rewrite drop_app_le by lia. rewrite take_app_le; [done|]. rewrite length_drop. lia.
Qed.

(** The register writes the firmware understands. *)
Definition write_starts : list Z :=
  [WRITE_VOLUME_CONTROL_REG_START; WRITE_PLAY_PAUSE_REG_START; WRITE_NEXT_PREV_REG_START;
   WRITE_ANSWER_OPTION_REG_START; WRITE_CHARGING_STATUS_REG_START;
   WRITE_BATTERY_PERCENT_REG_START; WRITE_TURN_TABLE_POSITION_REG_START].

Lemma write_code address len regData code rd w w' :
  QbusRegWriteCb address len regData w = Ok (code, rd, w') →
  if existsb (λ start, in_regs start WRITE_NUM_REGS_MAX address len) write_starts
  then code = QB_REG_SUCCESS else code = QB_REG_ERR_ADDR ∧ w' = w.
Proof.
  assert (∀ (m : FW ()) w2, (m;; ret (QB_REG_SUCCESS, regData)) w2 = Ok (code, rd, w') →
    code = QB_REG_SUCCESS) as Hs by (intros m w2 (? & ? & ? & Hret)%bind_Ok; by injection Hret).
  assert (∀ A (g : FW A) (m : A → FW ()) w2,
    (x ← g; m x;; ret (QB_REG_SUCCESS, regData)) w2 = Ok (code, rd, w') →
    code = QB_REG_SUCCESS) as Hs2 by (intros A g m w2 Hb; apply bind_Ok in Hb as (x & w1 & _ & Hret); eauto).
  unfold QbusRegWriteCb. cbn [existsb write_starts].
  intros Hr. repeat (case_match; cbn [orb]; [exact (Hs2 _ _ _ _ Hr)|]).
  unfold ret in Hr. by simplify_eq.
Qed.

End iot_qbus_lemmas.

(** The port does what the slave relies on. *)
#[export] Instance iot_qbus_spec `{Env} `{CJSON} : QBusSpec READ_DATA_NUM_REGS iot_ok.
Proof.
  split.
  - done.
  - intros w w' (? & ? & ?) Hf Hl Hb. unfold iot_ok. by rewrite Hf, Hl, Hb.
  - intros b w Hw. cbn [TransmitChar iot_qbus_port]. by repeat split; apply Hw.
  - intros tx rx w Hw. by repeat split; apply Hw.
  - intros address len data w Hw Hd Hl Hlen. cbn [ReadRegCb iot_qbus_port].
    destruct (in_regs READ_DATA_REG_START READ_DATA_NUM_REGS address len) eqn:Hin.
    + unfold READ_DATA_NUM_REGS in Hl. eapply wp_of_Ok; [apply read_runs; done || (unfold READ_DATA_NUM_REGS; lia)|].
      destruct Hw as (Hc & Hled & Hb). pose proof (length_reg_image w Hled) as Hl11.
      pose proof (reg_image_ok w Hled) as Himg. apply in_regs_spec in Hin. cbn [fst snd].
      unfold READ_DATA_REG_START, READ_DATA_NUM_REGS in *. split_and!; [| |done| | |lia].
      * split_and!; [done..|]. by apply length_filled.
      * done.
      * rewrite length_app, length_take, !length_drop. lia.
      * apply Forall_app. split; [by apply Forall_take, Forall_drop|by apply Forall_drop].
    + eapply wp_of_Ok; [unfold QbusRegReadCb; rewrite Hin; done|].
      cbn [fst snd]. by split_and!.
  - intros address len data w Hw Hd Hl Hlen. cbn [WriteRegCb iot_qbus_port].
    assert (wp (QbusRegWriteCb address len data) (λ r _, r.2 = data) w) as Hr
      by (apply write_runs; [apply Hw|lia]).
    destruct (wp_elim _ _ _ Hr) as (r & w' & Hrun & Heq). eapply wp_of_Ok; [exact Hrun|].
    apply reg_written_keeps in Hrun. injection Hrun as Hq' Ht' Hp' Hy' Hl' Hd' Hu' Hb'.
    unfold port_frame, iot_ok, can_create in *. rewrite Hl', Hd', Hb', Heq.
    destruct Hw as (? & ? & ?). by split_and!.
Qed.

Section iot_qbus_init.
Context `{Env} `{CJSON}.

(** The task's first action establishes the invariant of the slave. *)
Lemma QbusInit_spec w : iot_ok w → tag_inv w →
  wp QbusInit (λ _ w', slave_inv (max_read := READ_DATA_NUM_REGS) (ok := iot_ok) w' ∧
    qBState (qbusSlave w') = QBS_IDLE ∧ uart_out (hist w') = uart_out (hist w)) w.
Proof.
  intros Hok Ht. unfold QbusInit.
  eapply wp_seq with (P := λ _ w', slave_inv (max_read := READ_DATA_NUM_REGS) (ok := iot_ok) w' ∧
    uart_out (hist w') = uart_out (hist w)).
  - unfold QBSlaveInit. apply wp_modify_bind.
    eapply wp_run_bind; [apply GetStartTime_run|]. do 6 apply wp_modify_bind.
    cbn [EnableTxRx iot_qbus_port]. unfold IotQbusInterruptEnable, skip. apply wp_ret.
    split; [|done]. split; [by eapply spec_stable|]. split; [|exact Ht].
    split_and!; simpl; try lia; try done. repeat (constructor; [unfold byte_ok; lia|]). constructor.
  - intros [] w1 (Hi & Hu). eapply wp_mono; [by apply (SetState_spec QBS_IDLE)|].
    intros [] w2 (Hi2 & Hu2 & Hq2). rewrite Hq2. split_and!; [done..|congruence].
Qed.

End iot_qbus_init.

(** ** Properties *)

Section iot_qbus_properties.
Context `{Env} `{CJSON}.

(** C29 (reading registers).  A read of [len] registers from [address] inside
    the eleven of the map returns exactly that part of the current image (pad
    state, ear and pad colours, power flag) and leaves the rest of the frame
    alone; a read that leaves the map is refused and changes nothing. *)
Theorem QbusRegReadCb_spec (address len : Z) (regData : bytes) (w : world)
    (Hok : iot_ok w) (Hlen : 0 <= len) (Hdata : (11 ≤ length regData)%nat) :
  if decide (0x1000 <= address ∧ address + len <= 0x1000 + 11) then
    ∃ w', QbusRegReadCb address len regData w
          = Ok ((QB_REG_SUCCESS, take (Z.to_nat len) (drop (Z.to_nat (address - 0x1000)) (reg_image w))
                   ++ drop (Z.to_nat len) regData), w')
          ∧ sys w' = sys w ∧ plr w' = plr w ∧ led w' = led w ∧ fs w' = fs w ∧ hist w' = hist w
  else QbusRegReadCb address len regData w = Ok ((QB_REG_ERR_ADDR, regData), w).
Proof.
  destruct (decide _) as [Hin|Hin].
  - eexists. split; [apply read_runs; [done..|]; by apply in_regs_spec|done].
  - unfold QbusRegReadCb.
    destruct (in_regs READ_DATA_REG_START READ_DATA_NUM_REGS address len) eqn:E; [|done].
    by apply in_regs_spec in E.
Qed.

(** C30 (writing registers).  A write is accepted exactly when it addresses one
    of the seven write registers with at most one byte, or lies just behind
    one with no byte at all; any other write is refused and changes nothing.
    No write changes the slave, the LEDs, the tag strings or the data field. *)
Theorem QbusRegWriteCb_accepts (address len : Z) (regData : bytes) (w : world)
    (Hc : can_create VOLUME_SDCARD_LOCATION (fs w) = true) (Hlen : 0 <= len)
    (Hdata : (0 < length regData)%nat) :
  ∃ code w', QbusRegWriteCb address len regData w = Ok ((code, regData), w') ∧
    (code = QB_REG_SUCCESS ↔
      ∃ start, start ∈ write_starts ∧ (address = start ∧ len <= 1 ∨ address = start + 1 ∧ len = 0)) ∧
    (code ≠ QB_REG_SUCCESS → code = QB_REG_ERR_ADDR ∧ w' = w) ∧
    qbusSlave w' = qbusSlave w ∧ led w' = led w ∧ tagUid_qbus (tag w') = tagUid_qbus (tag w).
Proof.
  destruct (wp_elim _ _ _ (write_runs address len regData w Hc Hdata)) as ([code ?] & w' & Hr & Heq).
  simpl in Heq. subst. exists code, w'. split; [done|].
  apply reg_written_keeps in Hr as Hk. injection Hk as Hq Ht _ _ Hl _ _ _.
  assert (existsb (λ start, in_regs start WRITE_NUM_REGS_MAX address len) write_starts = true ↔
    ∃ start, start ∈ write_starts ∧ (address = start ∧ len <= 1 ∨ address = start + 1 ∧ len = 0)) as Hw.
  { rewrite existsb_exists. setoid_rewrite in_regs_spec. setoid_rewrite list_elem_of_In.
    unfold WRITE_NUM_REGS_MAX. split; intros (st & ? & ?); exists st; split; first [done|lia]. }
  apply write_code in Hr. rewrite <-Hw. split_and!; [..|done|done|done].
  - by case_match; destruct_and?; subst.
  - by case_match; destruct_and?; subst.
Qed.

End iot_qbus_properties.

(** ** A request on the real port, for the witnesses *)

Section iot_qbus_witnesses.
#[local] Instance sample_env : Env := Sample.env AEL_STATE_RUNNING.
#[local] Instance sample_json : CJSON := Sample.no_json.

(** A read of the eleven registers that reports a tag, and its checksum. *)
Definition sample_body : bytes :=
  [0x01; 0x10; 0x00; 0; 11; 0x04; 0xA1; 0xB2; 0xC3; 0xD4; 0xE5; 0xF6; 0x80; 77; 1].
Definition sample_frame : bytes := sample_body ++ crc_trailer (crc_fold 0xFFFF sample_body).

Definition run_or {A} (m : FW A) (w : world) : world :=
  match m w with Ok (_, w') => w' | Fault _ => w end.

(** The world when the frame has arrived and the line has been silent. *)
Definition sample_started : world := run_or QbusInit Sample.world0.
Definition sample_received : world :=
  run_or (uart_event_turn (UART_DATA sample_frame);; QbusTask_turn;; delay 1;; delay 1) sample_started.

Lemma sample_led_wf : led_wf Sample.led0.
Proof.
  intros c Hc. repeat (apply elem_of_cons in Hc as [->|Hc];
    [split; [done|repeat (constructor; [unfold byte_ok; lia|]); constructor]|]).
  by apply not_elem_of_nil in Hc.
Qed.

Lemma sample_iot_ok w : fs w = Sample.fs0 → led w = Sample.led0 →
  length (qbusDataBuff (tag w)) = 20%nat → iot_ok w.
Proof.
  intros Hf Hl Hb. unfold iot_ok. rewrite Hf, Hl. split_and!; [|apply sample_led_wf|done].
  vm_compute. reflexivity.
Qed.

Lemma bytes_ok_check (l : bytes) : forallb (λ b, (0 <=? b) && (b <? 256)) l = true → bytes_ok l.
Proof.
  induction l as [|b l IH]; [constructor|]. cbn [forallb]. intros [Hb Hl]%andb_true_iff.
  constructor; [unfold byte_ok; lia|auto].
Qed.

Lemma sample_slave_inv w : fs w = Sample.fs0 → led w = Sample.led0 →
  length (qbusDataBuff (tag w)) = 20%nat → length (tagUid_qbus (tag w)) = 20%nat →
  length (previousTagUid (tag w)) = 20%nat → (length (toy (sys w)) <? 20)%nat = true →
  length (frameBuffer (qbusSlave w)) = 100%nat → framBuffLen (qbusSlave w) = 100 →
  forallb (λ b, (0 <=? b) && (b <? 256)) (frameBuffer (qbusSlave w)) = true →
  forallb (λ n, (0 <=? n) && (n <=? 100))
    [recvByteCount (qbusSlave w); sentByteCount (qbusSlave w); totalByteToSend (qbusSlave w)] = true →
  slave_inv (max_read := READ_DATA_NUM_REGS) (ok := iot_ok) w.
Proof.
  intros Hf Hl Hb Ht Hp Hy Hfl Hbl Hok Hn. split; [by apply sample_iot_ok|]. split.
  - apply bytes_ok_check in Hok. rewrite forallb_forall in Hn.
    assert (∀ n, In n [recvByteCount (qbusSlave w); sentByteCount (qbusSlave w);
      totalByteToSend (qbusSlave w)] → 0 <= n <= 100) as Hn' by (intros n Hi; specialize (Hn n Hi); lia).
    simpl in Hn'. unfold q_inv. rewrite Hbl. unfold READ_DATA_NUM_REGS.
    split_and!; try lia; try done; (apply Hn'; auto).
  - unfold tag_inv. split_and!; [done..|]. by apply Nat.ltb_lt.
Qed.

Lemma sample_started_inv : slave_inv (max_read := READ_DATA_NUM_REGS) (ok := iot_ok) sample_started.
Proof. apply sample_slave_inv; vm_compute; reflexivity. Qed.

Lemma sample_received_inv : slave_inv (max_read := READ_DATA_NUM_REGS) (ok := iot_ok) sample_received.
Proof. apply sample_slave_inv; vm_compute; reflexivity. Qed.

Lemma sample_polled half :
  rtc (bus_step (ok := iot_ok) half) sample_started (run_or QBSlavePoll sample_started).
Proof. apply rtc_once, step_poll. vm_compute. reflexivity. Qed.

Example slave_never_faults_witness :
  ∃ w', QBSlavePoll (run_or QBSlavePoll sample_started) = Ok ((), w').
Proof.
  destruct (slave_never_faults (max_read := READ_DATA_NUM_REGS) (ok := iot_ok) false sample_started
    (run_or QBSlavePoll sample_started)) as (_ & _ & Hp & _).
  - exact sample_started_inv.
  - apply sample_polled.
  - exact Hp.
Defined.

(** The frame arrives, the line falls silent, and three polls take the request,
    process it and send the reply. *)
Definition sample_brought : world := run_or (for_each sample_frame QBSlavePortByteReceived) sample_started.
Definition sample_taken : world := run_or QBSlavePoll sample_brought.
Definition sample_silent : world := update hist (vTaskDelay 1 ::.) (update hist (vTaskDelay 1 ::.) sample_taken).
Definition sample_processed : world := run_or QBSlavePoll sample_silent.
Definition sample_answered : world := run_or QBSlavePoll sample_processed.

Lemma sample_line_taken : line_run (ok := iot_ok) sample_started [] None sample_frame sample_taken.
Proof.
  assert (line_run (ok := iot_ok) sample_started [] None sample_frame sample_brought) as Hb.
  { assert (foldl (one_more (qbusSlave sample_started)) (received (qbusSlave sample_started)) sample_frame = sample_frame) as <-
      by (vm_compute; reflexivity).
    apply (line_run_bytes (max_read := READ_DATA_NUM_REGS)).
    - apply run_start.
    - exact sample_started_inv.
    - apply bytes_ok_check. vm_compute. reflexivity.
    - vm_compute. discriminate.
    - vm_compute. reflexivity. }
  assert ((if decide (recvByteCount (qbusSlave sample_taken) = 0) then [] else sample_frame) = sample_frame) as <-
    by (vm_compute; reflexivity).
  apply (run_poll _ _ _ sample_brought); [exact Hb| |vm_compute; reflexivity].
  intros [Hst _]. vm_compute in Hst. discriminate Hst.
Qed.

Lemma sample_line_delay w0 reqs due g w : tag_inv w →
  line_run (ok := iot_ok) w0 reqs due g w → line_run (ok := iot_ok) w0 reqs due g (update hist (vTaskDelay 1 ::.) w).
Proof. intros Ht Hr. by apply (run_other _ _ _ _ w). Qed.

Lemma sample_line_answered : line_run (ok := iot_ok) sample_started [sample_frame] None sample_frame sample_answered.
Proof.
  assert (tag_inv sample_taken) as Ht.
  { split; [vm_compute; reflexivity|]. split; [vm_compute; reflexivity|]. apply Nat.ltb_lt. vm_compute. reflexivity. }
  apply (run_reply _ [] _ _ sample_processed); [|vm_compute; reflexivity].
  apply (run_request _ _ _ sample_silent); [| |vm_compute; reflexivity].
  - apply sample_line_delay; [exact Ht|]. apply sample_line_delay; [exact Ht|]. exact sample_line_taken.
  - split; [vm_compute; reflexivity|]. split; [vm_compute; reflexivity|]. split; [vm_compute; lia|vm_compute; reflexivity].
Qed.

Example slave_sends_replies_witness :
  ∃ reply, uart_out (hist sample_answered) = reply ∧ good_reply sample_frame reply ∧ (7 ≤ length reply)%nat.
Proof.
  destruct (slave_sends_replies (max_read := READ_DATA_NUM_REGS) (ok := iot_ok) sample_started sample_answered
    [sample_frame] None sample_frame) as (_ & replies & Hr & Hu).
  - exact sample_started_inv.
  - vm_compute. reflexivity.
  - exact sample_line_answered.
  - apply Forall2_cons_inv_l in Hr as (reply & rest & Hg & Hrest & ->). apply Forall2_nil_inv_l in Hrest as ->.
    exists reply. assert (uart_out (hist sample_started) = []) as E by (vm_compute; reflexivity).
    rewrite E in Hu. cbn [app concat] in Hu. rewrite app_nil_r in Hu. split; [exact Hu|]. split; [exact Hg|apply Hg].
Defined.

Example QBSlave_transaction_witness :
  ∃ w1 w2 w3 reply, QBSlavePoll sample_received = Ok ((), w1) ∧ QBSlavePoll w1 = Ok ((), w2) ∧
    QBSlavePoll w2 = Ok ((), w3) ∧ good_reply (frameBuffer (qbusSlave sample_received)) reply ∧
    uart_out (hist w3) = reply.
Proof.
  destruct (QBSlave_transaction (max_read := READ_DATA_NUM_REGS) (ok := iot_ok) sample_received)
    as (w1 & w2 & w3 & reply & H1 & H2 & H3 & _ & Hu2 & Hu3 & Hg & _).
  - exact sample_received_inv.
  - vm_compute. reflexivity.
  - vm_compute. reflexivity.
  - split; [vm_compute; congruence|vm_compute; reflexivity].
  - exists w1, w2, w3, reply. split; [exact H1|]. split; [exact H2|]. split; [exact H3|].
    split; [exact Hg|]. rewrite Hu3, Hu2.
    assert (uart_out (hist sample_received) = []) as -> by (vm_compute; reflexivity). reflexivity.
Defined.

Example tag_events_witness :
  ∃ w', process_tag (frameBuffer (qbusSlave sample_received)) sample_received = Ok ((), w') ∧
    toy (sys w') = lit "04A1B2C3D4E5F680" ∧ toyPresenseFlag (sys w') = true.
Proof.
  destruct (tag_events (max_read := READ_DATA_NUM_REGS) (ok := iot_ok)
    (frameBuffer (qbusSlave sample_received)) sample_received) as (w' & Hr & _ & _ & Hc).
  - exact sample_received_inv.
  - vm_compute. lia.
  - apply bytes_ok_check. vm_compute. reflexivity.
  - left. vm_compute. reflexivity.
  - exists w'. split; [exact Hr|].
    assert (tag_text (take 8 (drop 5 (frameBuffer (qbusSlave sample_received))))
      = lit "04A1B2C3D4E5F680") as Hu by (vm_compute; reflexivity).
    assert (bool_decide (lit "04A1B2C3D4E5F680" = no_tag) = false) as Hne by (vm_compute; reflexivity).
    apply bool_decide_eq_false in Hne. cbv zeta in Hc. rewrite Hu in Hc.
    generalize dependent (lit "04A1B2C3D4E5F680"). intros uid Hc _ Hne.
    destruct (decide (uid = no_tag)) as [He|_]; [exfalso; exact (Hne He)|].
    destruct Hc as (_ & _ & _ & Hc & _). apply Hc. left. vm_compute. reflexivity.
Defined.

Example QbusRegReadCb_spec_witness :
  ∃ w', QbusRegReadCb 0x1000 2 (memset0 11) Sample.world0
        = Ok ((QB_REG_SUCCESS, memset0 11), w').
Proof.
  assert (iot_ok Sample.world0) as Hok by (apply sample_iot_ok; reflexivity).
  pose proof (QbusRegReadCb_spec 0x1000 2 (memset0 11) Sample.world0 Hok ltac:(lia)
    ltac:(vm_compute; lia)) as Hr.
  destruct (decide _) as [_|Hn]; [|exfalso; apply Hn; lia].
  destruct Hr as (w' & Hr & _). exists w'. exact Hr.
Defined.

Example QbusRegWriteCb_accepts_witness :
  ∃ code w', QbusRegWriteCb 0x3000 1 [1] Sample.world0 = Ok ((code, [1]), w') ∧ code = QB_REG_SUCCESS.
Proof.
  destruct (QbusRegWriteCb_accepts 0x3000 1 [1] Sample.world0) as (code & w' & Hr & Hc & _).
  - vm_compute. reflexivity.
  - lia.
  - simpl. lia.
  - exists code, w'. split; [exact Hr|]. apply Hc. exists 0x3000. split; [by left|]. left. lia.
Defined.

End iot_qbus_witnesses.
