(* ===== verification/SdCard.v ===== *)
(** * SdCard: the card's directories (main/src/sdcard.cpp)

    [SdCard::read] and [SdCard::write] are [fread] and [fwrite]; they appear
    in the other files as [fread_into] and [fappend].  The card is mounted by
    the board of ESP-ADF that the configuration selects.  Nothing calls
    [deleteEntireFolder]. *)

From S2P Require Import Prelude CString World.
#[local] Open Scope M_scope.

(** ** Definitions *)

Definition MAX_FILES : nat := 100.

Section sdcard.
Context `{Env}.

Definition setupFiles : FW () :=
  mkdir (lit "/sdcard/media");;
  mkdir (lit "/sdcard/data");;
  mkdir (lit "/sdcard/media/audio");;
  mkdir (lit "/sdcard/media/toys");;
  delay 100.

(** [audio_board_sdcard_init] returns when the card is mounted. *)
Definition SdCard_open : FW () :=
  emit esp_periph_set_init;;
  emit audio_board_sdcard_init;;
  setupFiles.

Definition SdCard_close : FW () := skip.

Definition SdCard_exist (toy_ : bytes) : FW bool :=
  path ← lift (sprintf 50 (lit "/sdcard/media/toys/" ++ toy_));
  opendir path.

(** The sectors are counted in a DWORD. *)
Definition getFreeMemory : FW Z :=
  emit f_getfree;;
  h ← gets hist;
  match env_getfree h with
  | None => ret 0
  | Some (freeCluster, csize) =>
      let freeSector := u32 (freeCluster * csize) in
      ret (u64 (freeSector * FF_SS_SDCARD))
  end.

(** The depth of the directories is the fuel: a path that is 300 bytes or
    longer does not fit in the buffer. *)
Fixpoint deleteEntireFolder (fuel : nat) (folderName : bytes) : FW () :=
  match fuel with
  | O => fail OutOfBounds
  | S fuel =>
      h ← gets hist;
      match env_readdir h folderName with
      | None => skip
      | Some entries =>
          for_each entries (λ next_file,
            filepath ← lift (sprintf 300 (folderName ++ lit "/" ++ d_name next_file));
            if d_is_dir next_file then deleteEntireFolder fuel filepath else remove filepath);;
          remove folderName
      end
  end.

(** The regular files of a directory, at most [MAX_FILES] of them; NULL is
    [None]. *)
Definition list_files (path : bytes) : FW (option (list bytes)) :=
  h ← gets hist;
  match env_readdir h path with
  | None => ret None
  | Some entries => ret (Some (take MAX_FILES (d_name <$> filter (λ e, Is_true (d_is_reg e)) entries)))
  end.

End sdcard.

(** ** Lemmas *)

(** [mkdir] creates a directory whose parent is there and whose name is free. *)
Lemma mkdir_dirs path w :
  ∃ r w', mkdir path w = Ok (r, w') ∧ files (fs w') = files (fs w) ∧
    dirs (fs w) ⊆ dirs (fs w') ∧
    (dirname path ∈ dirs (fs w) → files (fs w) !! path = None → path ∈ dirs (fs w')).
Proof.
  unfold mkdir. cbv [bind gets].
  destruct (decide (path ∈ dirs (fs w))) as [Hd|Hd];
    [rewrite bool_decide_true by done; eexists _, _; split_and!; done|].
  rewrite (bool_decide_false _ Hd). cbn [orb].
  case_bool_decide as Hf; [|case_bool_decide as Hp].
  - eexists _, _. split_and!; [done..|]. intros _ E. rewrite E in Hf. by destruct Hf.
  - eexists _, _. split; [done|]. simpl. split_and!; [done|set_solver..].
  - eexists _, _. split_and!; done.
Qed.

(** The directories of the firmware. *)
Definition firmware_dirs : gset bytes :=
  {[lit "/sdcard/media"; lit "/sdcard/data"; lit "/sdcard/media/audio"; lit "/sdcard/media/toys"]}.

Lemma getFreeMemory_run `{Env} w : ∃ n, getFreeMemory w = Ok (n, update hist (f_getfree ::.) w).
Proof.
  unfold getFreeMemory. mrun. destruct (env_getfree _) as [[c s]|]; by eexists.
Qed.

(** Two loops whose bodies agree on the elements agree. *)
Lemma for_each_ext {W A} (l : list A) (f g : A → M W ()) w :
  (∀ x w', x ∈ l → f x w' = g x w') → for_each l f w = for_each l g w.
Proof.
  revert w. induction l as [|x l IH]; intros w Hfg; [done|]. cbn [for_each]. unfold bind.
  rewrite Hfg by set_solver. destruct (g x w) as [[[] w1]|]; [|done].
  apply IH. set_solver.
Qed.

(** ** Lemmas: deleting a folder *)

Section deleting.
Context `{Env}.

Definition path_below (folder : bytes) (e : dirent) : bytes := folder ++ lit "/" ++ d_name e.

Lemma path_below_longer folder e : (length folder < length (path_below folder e))%nat.
Proof. unfold path_below. rewrite !length_app. change (length (lit "/")) with 1%nat. lia. Qed.

(** Below the folder, as the calls so far let it be read, is a path of 300
    bytes or more. *)
Inductive too_long (h : list call) (folder : bytes) : Prop :=
  | too_long_here entries e : env_readdir h folder = Some entries → e ∈ entries →
      (300 ≤ length (path_below folder e))%nat → too_long h folder
  | too_long_below entries e : env_readdir h folder = Some entries → e ∈ entries →
      d_is_dir e = true → too_long h (path_below folder e) → too_long h folder.

(** How a deletion ends. *)
Definition ends (h : list call) (bad : Prop) (r : res (() * world)) : Prop :=
  match r with Ok (_, w') => hist w' = h ∧ ¬ bad | Fault f => f = OutOfBounds ∧ bad end.

Lemma remove_hist path w : ∃ w', remove path w = Ok ((), w') ∧ hist w' = hist w.
Proof. unfold remove. mrun. mcase; by eexists. Qed.

Lemma for_each_ends {A} h (bad : A → Prop) (f : A → FW ()) l w : hist w = h →
  (∀ e w', e ∈ l → hist w' = h → ends h (bad e) (f e w')) → ends h (∃ e, e ∈ l ∧ bad e) (for_each l f w).
Proof.
  revert w. induction l as [|e l IH]; intros w Hh Hf; [split; [done|by intros (? & ?%elem_of_nil & _)]|].
  cbn [for_each]. pose proof (Hf e w ltac:(left) Hh) as He. unfold bind.
  destruct (f e w) as [[[] w1]|g]; cbn [ends] in He; [|destruct He as [-> Hb]; split; [done|]; exists e; split; [left|done]].
  destruct He as [Hh1 Hne]. pose proof (IH w1 Hh1 ltac:(intros; apply Hf; [by right|done])) as Hl.
  destruct (for_each l f w1) as [[[] w2]|g]; cbn [ends] in *.
  - destruct Hl as [Hh2 Hnl]. split; [done|]. intros (x & [->|Hx]%elem_of_cons & Hb); [done|]. apply Hnl. by exists x.
  - destruct Hl as [-> (x & Hx & Hb)]. split; [done|]. exists x. split; [by right|done].
Qed.

Lemma ends_iff h (P Q : Prop) r : (P ↔ Q) → ends h P r → ends h Q r.
Proof. unfold ends. destruct r as [[[] w]|f]; tauto. Qed.

(** One entry of the folder, given how the folders below are deleted. *)
Definition bad_entry (h : list call) (folder : bytes) (e : dirent) : Prop :=
  (300 ≤ length (path_below folder e))%nat ∨ d_is_dir e = true ∧ too_long h (path_below folder e).

Lemma entry_ends n h folder e w : hist w = h →
  ((length (path_below folder e) < 300)%nat → ends h (too_long h (path_below folder e)) (deleteEntireFolder n (path_below folder e) w)) →
  ends h (bad_entry h folder e)
    ((filepath ← lift (sprintf 300 (folder ++ lit "/" ++ d_name e));
      if d_is_dir e then deleteEntireFolder n filepath else remove filepath) w).
Proof.
  intros Hh Hd. fold (path_below folder e). unfold bind, lift, sprintf, bad_entry. case_bool_decide as Hfit; [|split; [done|left; lia]].
  destruct (d_is_dir e).
  - eapply ends_iff; [|by apply Hd]. split; [by right|]. intros [?|[_ ?]]; [lia|done].
  - destruct (remove_hist (path_below folder e) w) as (w2 & -> & Hh2). split; [congruence|]. intros [?|[? _]]; [lia|done].
Qed.

Lemma delete_ends n folder w : (length folder < 300)%nat → (300 - length folder ≤ n)%nat →
  ends (hist w) (too_long (hist w) folder) (deleteEntireFolder n folder w).
Proof.
  revert folder w. induction n as [|n IH]; intros folder w Hl Hn; [lia|]. cbn [deleteEntireFolder].
  unfold bind at 1, gets. destruct (env_readdir (hist w) folder) as [entries|] eqn:Hd.
  2: { split; [done|]. intros [entries e E|entries e E]; congruence. }
  eapply ends_iff.
  { instantiate (1 := ∃ e, e ∈ entries ∧ bad_entry (hist w) folder e). split.
    - intros (e & He & [Hlong|[Hdir Hb]]); [by eapply too_long_here|by eapply too_long_below].
    - intros [entries' e E He Hlong|entries' e E He Hdir Hb]; rewrite Hd in E; injection E as <-; exists e; (split; [done|]);
        [by left|by right]. }
  match goal with |- ends _ _ ((for_each _ ?f;; _) w) =>
    pose proof (for_each_ends (hist w) (bad_entry (hist w) folder) f entries w eq_refl) as Hall end.
  assert (∀ e w', e ∈ entries → hist w' = hist w → ends (hist w) (bad_entry (hist w) folder e)
    ((filepath ← lift (sprintf 300 (folder ++ lit "/" ++ d_name e));
      if d_is_dir e then deleteEntireFolder n filepath else remove filepath) w')) as Hone.
  { intros e w' _ Hh. apply entry_ends; [done|]. intros Hfit. rewrite <-Hh. apply IH; [done|].
    pose proof (path_below_longer folder e). lia. }
  specialize (Hall Hone). unfold bind at 1. destruct (for_each _ _ w) as [[[] w1]|g]; [|exact Hall].
  destruct Hall as [Hh Hno]. destruct (remove_hist folder w1) as (w2 & -> & Hh2). split; [congruence|done].
Qed.

Lemma delete_fuel n m folder w : (length folder < 300)%nat → (300 - length folder ≤ n)%nat → (n ≤ m)%nat →
  deleteEntireFolder m folder w = deleteEntireFolder n folder w.
Proof.
  revert m folder w. induction n as [|n IH]; intros [|m] folder w Hl Hn Hm; try lia.
  cbn [deleteEntireFolder]. unfold bind, gets.
  destruct (env_readdir (hist w) folder) as [entries|]; [|done].
  match goal with |- context [for_each _ ?f w] =>
    lazymatch goal with |- _ = match for_each _ ?g w with _ => _ end =>
      rewrite (for_each_ext entries f g w); [done|] end end.
  intros e w' _. cbv beta. fold (path_below folder e). unfold bind, lift, sprintf. pose proof (path_below_longer folder e).
  case_bool_decide; [|done]. destruct (d_is_dir e); [|done]. apply IH; lia.
Qed.

End deleting.

(** ** Properties *)

Section sdcard_properties.
Context `{Env}.

(** C40 (deleting a folder ends).  [deleteEntireFolder] descends at most 300
    levels below the path it starts with: with that much fuel it returns when
    every path below it is shorter than the buffer of 300 bytes, and overruns
    the buffer when one is not, however deep and wide the directories are;
    and more fuel never changes what it does. *)
Theorem deleteEntireFolder_terminates (n : nat) (folderName : bytes) (w : world)
    (Hl : (length folderName < 300)%nat) (Hn : (300 - length folderName ≤ n)%nat) :
  match deleteEntireFolder n folderName w with
  | Ok (_, w') => hist w' = hist w ∧ ¬ too_long (hist w) folderName
  | Fault f => f = OutOfBounds ∧ too_long (hist w) folderName
  end ∧
  ∀ m, (n ≤ m)%nat → deleteEntireFolder m folderName w = deleteEntireFolder n folderName w.
Proof. split; [by apply delete_ends|]. intros m Hm. by apply delete_fuel. Qed.

(** The free memory is exact for a card of less than 2^32
    sectors; a larger one wraps. *)
Lemma getFreeMemory_spec (w : world) (clusters size : Z)
    (Ha : env_getfree (f_getfree :: hist w) = Some (clusters, size))
    (Hr : 0 <= clusters * size) (Hs : 0 < FF_SS_SDCARD <= 4096) :
  getFreeMemory w = Ok ((clusters * size) mod 2 ^ 32 * FF_SS_SDCARD, update hist (f_getfree ::.) w).
Proof.
  unfold getFreeMemory. mrun. rewrite Ha. unfold u64, u32. rewrite (Z.mod_small (_ * _)); [done|].
  assert (0 <= (clusters * size) mod 4294967296 < 4294967296) by (apply Z.mod_pos_bound; lia). nia.
Qed.
End sdcard_properties.

(** ** Witnesses *)

Section sdcard_witnesses.
(** Folders in folders, as deep as paths can be, and each with a file. *)
Definition deep_env (deepest : nat) : Env := {|
  env_time _ := 0;
  env_el_state _ := AEL_STATE_other;
  env_msg _ := Some Sample.no_msg;
  env_stack _ := Sample.no_msg;
  env_bits _ := 0;
  env_http _ := Sample.no_answer;
  env_disconnects _ := true;
  env_freed_close _ := true;
  env_readdir _ path := if bool_decide (length path < deepest)%nat then
      Some [{| d_name := lit "d"; d_is_dir := true; d_is_reg := false |}; {| d_name := lit "f"; d_is_dir := false; d_is_reg := true |}]
    else Some [];
  env_err _ := 0;
  env_getfree _ := None;
  FF_SS_SDCARD := 512;
|}.

(** Paths of at most 50 bytes can be deleted, paths of 300 cannot. *)
Example deleteEntireFolder_terminates_witness :
  (∃ w', @deleteEntireFolder (deep_env 50) 300 (lit "/sdcard/x") Sample.world0 = Ok ((), w')) ∧
  @deleteEntireFolder (deep_env 300) 1000 (lit "/sdcard/x") Sample.world0 = Fault OutOfBounds.
Proof.
  split.
  - destruct (@deleteEntireFolder_terminates (deep_env 50) 300 (lit "/sdcard/x") Sample.world0) as [Hr _]; [vm_compute; lia|lia|].
    destruct (@deleteEntireFolder (deep_env 50) 300 (lit "/sdcard/x") Sample.world0) as [[[] w']|f] eqn:E; [by exists w'|].
    exfalso. revert E. vm_compute. discriminate.
  - destruct (@deleteEntireFolder_terminates (deep_env 300) 300 (lit "/sdcard/x") Sample.world0) as [_ Hm]; [vm_compute; lia|lia|].
    rewrite (Hm 1000%nat) by lia. vm_compute. reflexivity.
Defined.

End sdcard_witnesses.
