(* ===== verification/Wifi.v ===== *)
(** * Wifi: credentials and connection counting (main/src/wifi.cpp)

    The WiFi object over the ESP-IDF driver, whose event bits are what [Env]
    answers.  [BLE::notify] of ble_app.cpp is here because the WiFi object
    calls it. *)

From S2P Require Import Prelude CString World SystemBase.
#[local] Open Scope M_scope.

(** ** Definitions *)

Definition CREDENTIALS_SDCARD_LOCATION : bytes := lit "/sdcard/data/credentials.cubbies".

Definition WIFI_CONNECTED_BIT : Z := 1.
Definition WIFI_DISCONNECTED_BIT : Z := 2.
Definition WIFI_FAILED_BIT : Z := 4.

Section wifi.
Context `{Env}.

(** [BLE::notify] *)
Definition notify (notification : bytes) : FW () :=
  p ← gets notifyCmdCharac;
  when p (emit (ble_setValue notification);; emit ble_notify).

Definition WiFi_init : FW Z :=
  done ← get_wifi wifiInitDoneFlag;
  if bool_decide (done = 1) then ret 0
  else
    emit wifi_driver_init;;
    put_wifi wifiInitDoneFlag 1;;
    ret 0.

(** The strings at [credentials.ssid] and [credentials.password]; the first
    may run on into the second array of the struct. *)
Definition cred_ssid : FW bytes :=
  s ← get_wifi ssid;
  p ← get_wifi password;
  lift (from_option_res OutOfBounds (cstr (s ++ p))).

Definition cred_password : FW bytes :=
  p ← get_wifi password;
  lift (from_option_res OutOfBounds (cstr p)).

(** 0 is success, 1 is an error. *)
Definition readCredentials : FW Z :=
  put_wifi ssid (memset0 32);;
  put_wifi password (memset0 64);;
  f ← fopen_r CREDENTIALS_SDCARD_LOCATION;
  match f with
  | Some content =>
      c ← lift (fread_into (memset0 96) 96 content);
      put_wifi ssid (take 32 c);;
      put_wifi password (drop 32 c);;
      ret 0
  | None =>
      put_wifi ssid (memset0 32);;
      put_wifi password (memset0 64);;
      ret 1
  end.

(** A [wifi_config_t] with the two strings, and the calls that follow it. *)
Definition start_sta (s p : bytes) : FW () :=
  s' ← lift (strcpy (memset0 32) s);
  p' ← lift (strcpy (memset0 64) p);
  emit esp_wifi_set_mode_sta;;
  emit (esp_wifi_set_config s' p');;
  emit esp_wifi_start.

Definition ConfigSdCardCredentials : FW Z :=
  err ← readCredentials;
  if negb (bool_decide (err = 0)) then ret 1
  else
    s ← cred_ssid;
    p ← cred_password;
    start_sta s p;;
    ret 0.

(** The driver's events; the other ones are ignored. *)
Inductive wifi_event := WIFI_EVENT_STA_DISCONNECTED | IP_EVENT_STA_GOT_IP | wifi_event_other.

Definition eventHandler (e : wifi_event) : FW () :=
  match e with
  | WIFI_EVENT_STA_DISCONNECTED =>
      f ← get_wifi connectFlag;
      if (f : bool) then emit esp_wifi_connect else emit (xEventGroupSetBits WIFI_DISCONNECTED_BIT)
  | IP_EVENT_STA_GOT_IP => emit (xEventGroupSetBits WIFI_CONNECTED_BIT)
  | wifi_event_other => skip
  end.

(** [bits & b] for one bit. *)
Definition has_bit (bits b : Z) : bool := negb (bool_decide (Z.land bits b = 0)).

Definition wait_bits (b : Z) : FW Z :=
  emit (xEventGroupWaitBits b);;
  h ← gets hist;
  ret (env_bits h).

(** [__connect]; both failing branches return 1. *)
Definition do_connect : FW Z :=
  put_wifi connectFlag true;;
  emit esp_wifi_connect;;
  bits ← wait_bits (Z.lor WIFI_CONNECTED_BIT WIFI_FAILED_BIT);
  if has_bit bits WIFI_CONNECTED_BIT then
    put_wifi connected true;;
    delay 100;;
    ret 0
  else ret 1.

Definition WiFi_connect : FW Z :=
  s ← cred_ssid;
  if bool_decide (s = []) then ret 1
  else
    n ← get_wifi count;
    put_wifi count (i32 (n + 1));;
    c ← get_wifi connected;
    if (c : bool) then ret 0 else do_connect.

(** [__disconnect] *)
Definition do_disconnect : FW bool :=
  put_wifi connectFlag false;;
  emit esp_wifi_disconnect;;
  bits ← wait_bits (Z.lor WIFI_DISCONNECTED_BIT WIFI_FAILED_BIT);
  if has_bit bits WIFI_DISCONNECTED_BIT then put_wifi connected false;; ret true
  else ret false.

Definition WiFi_disconnect : FW bool :=
  s ← cred_ssid;
  if bool_decide (s = []) then ret false
  else
    n ← get_wifi count;
    put_wifi count (i32 (n - 1));;
    n ← get_wifi count;
    if bool_decide (n = 0) then do_disconnect else ret false.

Definition isConnected : FW bool := get_wifi connected.

Definition writeCredentials (s p : bytes) : FW () :=
  s' ← lift (strcpy (memset0 32) s);
  p' ← lift (strcpy (memset0 64) p);
  put_wifi ssid s';;
  put_wifi password p';;
  opened ← fopen_w CREDENTIALS_SDCARD_LOCATION;
  when opened (fappend CREDENTIALS_SDCARD_LOCATION (s' ++ p')).

Definition bleWriteCredentials (newSsid newPassword : bytes) : FW bool :=
  c ← isConnected;
  when c (do_disconnect;; emit esp_wifi_stop);;
  start_sta newSsid newPassword;;
  r ← do_connect;
  if bool_decide (r = 0) then
    n ← get_wifi count;
    when (bool_decide (n = 0)) (do_disconnect;; skip);;
    writeCredentials newSsid newPassword;;
    notify (lit "11");;
    ret true
  else
    notify (lit "12");;
    n ← get_wifi count;
    when (negb (bool_decide (n = 0)))
      (s ← cred_ssid;
       p ← cred_password;
       start_sta s p;;
       do_connect;;
       skip);;
    ret false.

End wifi.

#[export] Hint Unfold wait_bits do_connect do_disconnect notify isConnected : fw.

(** ** Lemmas *)

Section wifi_lemmas.
Context `{Env}.

(** The arrays of the credentials hold the strings [s] and [p]. *)
Definition holds_creds (s p : bytes) (c : wifi_st) : Prop :=
  no_nul s ∧ no_nul p ∧ (length s < 32)%nat ∧ (length p < 64)%nat ∧
  ssid c = s ++ 0 :: drop (S (length s)) (ssid c) ∧ length (ssid c) = 32%nat ∧
  password c = p ++ 0 :: drop (S (length p)) (password c) ∧ length (password c) = 64%nat.

Lemma cred_ssid_run s p w : holds_creds s p (wifi w) → cred_ssid w = Ok (s, w).
Proof.
  intros (Hs & _ & _ & _ & E & _). unfold cred_ssid. cbv [bind get_wifi gets].
  rewrite E, <-app_assoc. cbn [app]. by rewrite cstr_app.
Qed.

Lemma cred_password_run s p w : holds_creds s p (wifi w) → cred_password w = Ok (p, w).
Proof.
  intros (_ & Hp & _ & _ & _ & _ & E & _). unfold cred_password. cbv [bind get_wifi gets].
  rewrite E. by rewrite cstr_app.
Qed.

Lemma holds_padded s p c : no_nul s → no_nul p → (length s < 32)%nat → (length p < 64)%nat →
  ssid c = padded 32 s → password c = padded 64 p → holds_creds s p c.
Proof.
  intros Hs Hp Hls Hlp Es Ep. unfold holds_creds. rewrite Es, Ep, !drop_padded, !length_padded by done.
  done.
Qed.

(** What the driver is asked for, and the state it leaves. *)
Lemma start_sta_run s p w : (length s < 32)%nat → (length p < 64)%nat →
  start_sta s p w = Ok ((), update hist (λ h, esp_wifi_start ::
    esp_wifi_set_config (padded 32 s) (padded 64 p) :: esp_wifi_set_mode_sta :: h) w).
Proof. intros. unfold start_sta. rewrite !strcpy_zeros by done. done. Qed.

Lemma do_connect_run w :
  ∃ r w', do_connect w = Ok (r, w') ∧ (r = 0 ∨ r = 1) ∧
    connected (wifi w') = (if bool_decide (r = 0) then true else connected (wifi w)) ∧
    ssid (wifi w') = ssid (wifi w) ∧ password (wifi w') = password (wifi w) ∧
    count (wifi w') = count (wifi w) ∧ fs w' = fs w.
Proof. mrun. case_match; (eexists _, _; split_and!; auto). Qed.

Lemma do_disconnect_run w :
  ∃ r w', do_disconnect w = Ok (r, w') ∧
    connected (wifi w') = (if r then false else connected (wifi w)) ∧
    ssid (wifi w') = ssid (wifi w) ∧ password (wifi w') = password (wifi w) ∧
    count (wifi w') = count (wifi w) ∧ fs w' = fs w.
Proof. mrun. case_match; (eexists _, _; split_and!; auto). Qed.

(** The answer of the driver decides. *)
Lemma do_connect_answer w r w' : do_connect w = Ok (r, w') →
  bool_decide (r = 0) = has_bit (env_bits (xEventGroupWaitBits (Z.lor WIFI_CONNECTED_BIT WIFI_FAILED_BIT)
    :: esp_wifi_connect :: hist w)) WIFI_CONNECTED_BIT.
Proof. mrun. by destruct (has_bit _ _); intros [= <- _]. Qed.

Lemma do_disconnect_hist w r w' : do_disconnect w = Ok (r, w') →
  hist w' = xEventGroupWaitBits (Z.lor WIFI_DISCONNECTED_BIT WIFI_FAILED_BIT) :: esp_wifi_disconnect :: hist w.
Proof. mrun. by destruct (has_bit _ _); intros [= _ <-]. Qed.

(** The calls when the driver is asked to connect with [s] and [p], after the
    present connection has been given up. *)
Definition asking_driver (s p : bytes) (w : world) : list call :=
  xEventGroupWaitBits (Z.lor WIFI_CONNECTED_BIT WIFI_FAILED_BIT) :: esp_wifi_connect :: esp_wifi_start ::
  esp_wifi_set_config (padded 32 s) (padded 64 p) :: esp_wifi_set_mode_sta ::
  (if connected (wifi w)
   then esp_wifi_stop :: xEventGroupWaitBits (Z.lor WIFI_DISCONNECTED_BIT WIFI_FAILED_BIT) :: esp_wifi_disconnect :: hist w
   else hist w).

(** The file holds the credentials [s] and [p]. *)
Definition creds_saved (s p : bytes) (w : world) : Prop :=
  files (fs w) !! CREDENTIALS_SDCARD_LOCATION = Some (padded 32 s ++ padded 64 p).

Lemma writeCredentials_run s p w : no_nul s → no_nul p → (length s < 32)%nat → (length p < 64)%nat →
  can_create CREDENTIALS_SDCARD_LOCATION (fs w) = true →
  ∃ w', writeCredentials s p w = Ok ((), w') ∧ holds_creds s p (wifi w') ∧ creds_saved s p w' ∧
    count (wifi w') = count (wifi w) ∧ connected (wifi w') = connected (wifi w).
Proof.
  intros Hs Hp Hls Hlp Hc. unfold writeCredentials. rewrite !strcpy_zeros by done. mrun.
  rewrite Hc. simpl. eexists. split; [done|]. split_and!; [by apply holds_padded| |done..].
  unfold creds_saved. simpl. by rewrite lookup_alter_eq, lookup_insert_eq.
Qed.

Lemma readCredentials_run content w : length content = 96%nat →
  files (fs w) !! CREDENTIALS_SDCARD_LOCATION = Some content →
  ∃ w', readCredentials w = Ok (0, w') ∧ ssid (wifi w') = take 32 content ∧
    password (wifi w') = drop 32 content.
Proof.
  intros Hl Hf. unfold readCredentials. cbv [bind put_wifi modify fopen_r gets].
  match goal with |- context [files (fs ?x)] => change (files (fs x)) with (files (fs w)) end.
  rewrite Hf. unfold fread_into. rewrite bool_decide_true by (vm_compute; lia).
  rewrite take_ge, Hl by lia. cbn [lift]. eexists. split; [done|].
  split; [change (take 32 (content ++ drop 96 (memset0 96)) = take 32 content)
         |change (drop 32 (content ++ drop 96 (memset0 96)) = drop 32 content)];
    by rewrite app_nil_r.
Qed.

End wifi_lemmas.

(** ** Properties *)

Section wifi_properties.
Context `{Env}.

(** C34 (credentials round trip).  Credentials that fit are stored on the card
    so that a later start reads back the same two strings, whatever the
    object holds then. *)
Theorem credentials_roundtrip (s p : bytes) (w : world) (other : wifi_st)
    (Hs : no_nul s) (Hp : no_nul p) (Hls : (length s < 32)%nat) (Hlp : (length p < 64)%nat)
    (Hc : can_create CREDENTIALS_SDCARD_LOCATION (fs w) = true) :
  ∃ w1 w2, writeCredentials s p w = Ok ((), w1) ∧
    readCredentials (set wifi other w1) = Ok (0, w2) ∧
    cred_ssid w2 = Ok (s, w2) ∧ cred_password w2 = Ok (p, w2).
Proof.
  destruct (writeCredentials_run s p w) as (w1 & Hw & _ & Hf & _); [done..|].
  unfold creds_saved in Hf.
  assert (length (padded 32 s ++ padded 64 p) = 96%nat) as Hl96
    by by rewrite length_app, !length_padded by done.
  destruct (readCredentials_run _ (set wifi other w1) Hl96) as (w2 & Hr & Es & Ep); [exact Hf|].
  rewrite take_app_length' in Es by by rewrite length_padded.
  rewrite drop_app_length' in Ep by by rewrite length_padded.
  exists w1, w2. assert (holds_creds s p (wifi w2)) by by apply holds_padded.
  split_and!; [done..|by eapply cred_ssid_run|by eapply cred_password_run].
Qed.

(** C33 (changing the credentials).  When new credentials arrive over BLE, the
    operation ends without fault; it reports success exactly when the driver,
    configured with them, answers with its "connected" bit, and then they are
    in memory and on the card; otherwise the credentials in memory and the
    card are untouched. *)
Theorem bleWriteCredentials_spec (s p s0 p0 : bytes) (w : world)
    (Hs : no_nul s) (Hp : no_nul p) (Hls : (length s < 32)%nat) (Hlp : (length p < 64)%nat)
    (H0 : holds_creds s0 p0 (wifi w))
    (Hc : can_create CREDENTIALS_SDCARD_LOCATION (fs w) = true) :
  ∃ r w', bleWriteCredentials s p w = Ok (r, w') ∧ count (wifi w') = count (wifi w) ∧
    r = has_bit (env_bits (asking_driver s p w)) WIFI_CONNECTED_BIT ∧
    if (r : bool) then holds_creds s p (wifi w') ∧ creds_saved s p w'
    else holds_creds s0 p0 (wifi w') ∧ fs w' = fs w.
Proof.
  unfold bleWriteCredentials.
  assert (∃ w1, (c ← isConnected; when c (do_disconnect;; emit esp_wifi_stop)) w = Ok ((), w1) ∧
    count (wifi w1) = count (wifi w) ∧ fs w1 = fs w ∧ holds_creds s0 p0 (wifi w1) ∧
    asking_driver s p w = xEventGroupWaitBits (Z.lor WIFI_CONNECTED_BIT WIFI_FAILED_BIT) :: esp_wifi_connect :: esp_wifi_start ::
      esp_wifi_set_config (padded 32 s) (padded 64 p) :: esp_wifi_set_mode_sta :: hist w1)
    as (w1 & H1 & Hn1 & Hf1 & Hc1 & ->).
  { destruct (do_disconnect_run w) as (r & w1 & H1 & _ & Es & Ep & Hn & Hf).
    cbv [isConnected get_wifi bind gets]. unfold asking_driver. destruct (connected (wifi w)); cbn [when].
    - rewrite H1. eexists. split; [done|]. split_and!; [done..| |by simpl; rewrite (do_disconnect_hist _ _ _ H1)].
      unfold holds_creds. simpl. by rewrite Es, Ep.
    - by exists w. }
  change (when (connected (wifi w)) (do_disconnect;; emit esp_wifi_stop) w = Ok ((), w1)) in H1.
  unfold isConnected, get_wifi. rewrite (bind_run _ _ w (connected (wifi w)) w eq_refl).
  rewrite (bind_run _ _ _ _ _ H1).
  rewrite (bind_run _ _ _ _ _ (start_sta_run s p w1 Hls Hlp)).
  match goal with |- context [bind do_connect _ ?x] =>
    destruct (do_connect_run x) as (r & w2 & H2 & Hr & _ & Es & Ep & Hn & Hf) end.
  rewrite (bind_run _ _ _ _ _ H2). apply do_connect_answer in H2 as Hbit. simpl in Es, Ep, Hn, Hf, Hbit.
  rewrite <-Hbit. clear Hbit. assert (holds_creds s0 p0 (wifi w2)) as Hc2 by (unfold holds_creds; by rewrite Es, Ep).
  case_bool_decide as Hr0.
  - destruct (do_disconnect_run w2) as (r3 & w3 & H3 & _ & _ & _ & Hn3 & Hf3).
    assert (∃ w4, (n ← get_wifi count; when (bool_decide (n = 0)) (do_disconnect;; skip)) w2 = Ok ((), w4)
      ∧ count (wifi w4) = count (wifi w) ∧ fs w4 = fs w) as (w4 & H4 & Hn4 & Hf4).
    { cbv [bind get_wifi gets when]. case_bool_decide.
      - rewrite H3. eexists. split; [done|]. split; [congruence|]. etransitivity; [exact Hf3|congruence].
      - exists w2. split; [done|]. split; congruence. }
    change (when (bool_decide (count (wifi w2) = 0)) (do_disconnect;; skip) w2 = Ok ((), w4)) in H4.
    rewrite (bind_run _ _ w2 (count (wifi w2)) w2 eq_refl), (bind_run _ _ _ _ _ H4).
    destruct (writeCredentials_run s p w4) as (w5 & H5 & Hc5 & Hs5 & Hn5 & _); [done..|by rewrite Hf4|].
    rewrite (bind_run _ _ _ _ _ H5). exists true.
    mrun. destruct (notifyCmdCharac w5); simpl; eexists; (split; [done|]); simpl; split_and!; congruence || done.
  - assert (∃ w3, notify (lit "12") w2 = Ok ((), w3) ∧ wifi w3 = wifi w2 ∧ fs w3 = fs w2)
      as (w3 & H3 & E3 & F3) by (mrun; destruct (notifyCmdCharac w2); by eexists).
    rewrite (bind_run _ _ _ _ _ H3). cbv [get_wifi gets]. rewrite (bind_run _ _ w3 _ w3 eq_refl).
    assert (holds_creds s0 p0 (wifi w3)) as Hc3 by by rewrite E3.
    exists false. case_bool_decide; cbn [negb when].
    + exists w3. split; [done|]. rewrite E3, F3. split_and!; congruence || done.
    + pose proof Hc3 as Hc3'. pose proof Hc3' as (_ & _ & Hl0 & Hl0' & _).
      unfold bind at 1. rewrite (bind_run _ _ _ _ _ (cred_ssid_run _ _ _ Hc3')).
      rewrite (bind_run _ _ _ _ _ (cred_password_run _ _ _ Hc3')).
      rewrite (bind_run _ _ _ _ _ (start_sta_run s0 p0 w3 Hl0 Hl0')).
      match goal with |- context [bind do_connect _ ?x] =>
        destruct (do_connect_run x) as (r4 & w4 & Hd4 & _ & _ & Es4 & Ep4 & Hn4 & Hf4) end.
      rewrite (bind_run _ _ _ _ _ Hd4). simpl in Es4, Ep4, Hn4, Hf4.
      exists w4. split; [done|]. unfold holds_creds. rewrite Es4, Ep4, E3.
      split_and!; congruence || apply Hc2.
Qed.

(** Counting connections.  With credentials present, every call of
    [connect] counts, failed ones included; it returns 0 exactly when the box
    is connected afterwards, and it does not call the driver when it was
    connected before.  A [disconnect] that is not the last leaves the
    connection and the driver alone. *)
Theorem WiFi_connect_counts (s p : bytes) (w : world)
    (Hcr : holds_creds s p (wifi w)) (Hne : s ≠ []) (Hcount : 0 <= count (wifi w) < 2147483647) :
  ∃ r w', WiFi_connect w = Ok (r, w') ∧ count (wifi w') = count (wifi w) + 1 ∧
    (r = 0 ↔ connected (wifi w') = true) ∧ (connected (wifi w) = true → hist w' = hist w) ∧
    (count (wifi w) ≠ 0 → ∃ w2, WiFi_disconnect w' = Ok (false, w2) ∧
       count (wifi w2) = count (wifi w) ∧ connected (wifi w2) = connected (wifi w') ∧ hist w2 = hist w').
Proof.
  assert (∃ r w', WiFi_connect w = Ok (r, w') ∧ count (wifi w') = count (wifi w) + 1 ∧
    (r = 0 ↔ connected (wifi w') = true) ∧ (connected (wifi w) = true → hist w' = hist w) ∧
    ssid (wifi w') = ssid (wifi w) ∧ password (wifi w') = password (wifi w))
    as (r & w' & H1 & Hn & Hr & Hh & Es & Ep).
  { unfold WiFi_connect. rewrite (bind_run _ _ _ _ _ (cred_ssid_run _ _ _ Hcr)).
    rewrite bool_decide_false by done. cbv [bind get_wifi gets put_wifi modify].
    rewrite i32_small by lia. destruct (do_connect_run (update wifi (set count (count (wifi w) + 1)) w))
      as (r & w2 & H2 & Hr & Hcon & Es & Ep & Hn & _).
    change (connected (wifi (update wifi (set count (count (wifi w) + 1)) w))) with (connected (wifi w)).
    destruct (connected (wifi w)) eqn:Hw; [by eexists _, _|].
    rewrite H2. simpl in Hcon, Es, Ep, Hn. exists r, w2. rewrite Hcon, Hw. split_and!; [done..| |done|done|done].
    case_bool_decide; naive_solver. }
  exists r, w'. split_and!; [done..|]. intros Hnz. unfold WiFi_disconnect.
  assert (holds_creds s p (wifi w')) as Hcr' by (unfold holds_creds; by rewrite Es, Ep).
  rewrite (bind_run _ _ _ _ _ (cred_ssid_run _ _ _ Hcr')). rewrite bool_decide_false by done.
  cbv [bind get_wifi gets put_wifi modify].
  match goal with |- context [bool_decide (count ?x = 0)] => change (count x) with (i32 (count (wifi w') - 1)) end.
  rewrite i32_small, bool_decide_false by lia. eexists. split; [done|]. simpl. split_and!; [lia|done..].
Qed.

End wifi_properties.

(** ** Witnesses *)

Section wifi_witnesses.
#[local] Instance sample_env : Env := Sample.env AEL_STATE_RUNNING.

Definition home_ssid : bytes := lit "home".
Definition home_password : bytes := lit "secret12".

Lemma home_ssid_ok : no_nul home_ssid ∧ (length home_ssid < 32)%nat.
Proof. split; [apply no_nul_check|apply length_check]; vm_compute; reflexivity. Qed.

Lemma home_password_ok : no_nul home_password ∧ (length home_password < 64)%nat.
Proof. split; [apply no_nul_check|apply length_check]; vm_compute; reflexivity. Qed.

Definition home_wifi : wifi_st :=
  set password (padded 64 home_password) (set ssid (padded 32 home_ssid) Sample.wifi0).

Lemma home_holds : holds_creds home_ssid home_password home_wifi.
Proof. apply holds_padded; first [apply home_ssid_ok|apply home_password_ok|reflexivity]. Qed.

Example credentials_roundtrip_witness :
  ∃ w1 w2, writeCredentials home_ssid home_password Sample.world0 = Ok ((), w1) ∧
    readCredentials (set wifi Sample.wifi0 w1) = Ok (0, w2) ∧
    cred_ssid w2 = Ok (home_ssid, w2) ∧ cred_password w2 = Ok (home_password, w2).
Proof.
  apply (credentials_roundtrip home_ssid home_password Sample.world0 Sample.wifi0);
    first [apply home_ssid_ok|apply home_password_ok|vm_compute; reflexivity].
Defined.

(** A driver that connects. *)
Definition connecting_env : Env := {|
  env_time h := 1000 * Z.of_nat (length h);
  env_el_state _ := AEL_STATE_RUNNING;
  env_msg _ := Some Sample.no_msg;
  env_stack _ := Sample.no_msg;
  env_bits _ := WIFI_CONNECTED_BIT;
  env_http _ := Sample.no_answer;
  env_disconnects _ := true;
  env_freed_close _ := true;
  env_readdir _ _ := None;
  env_err _ := 0;
  env_getfree _ := None;
  FF_SS_SDCARD := 512;
|}.

Example bleWriteCredentials_spec_witness :
  ∃ w', @bleWriteCredentials connecting_env home_ssid home_password (set wifi home_wifi Sample.world0) = Ok (true, w') ∧
    creds_saved home_ssid home_password w'.
Proof.
  destruct (@bleWriteCredentials_spec connecting_env home_ssid home_password home_ssid home_password
    (set wifi home_wifi Sample.world0)) as (r & w' & Hr & _ & Hbit & Hc).
  - apply home_ssid_ok.
  - apply home_password_ok.
  - apply home_ssid_ok.
  - apply home_password_ok.
  - exact home_holds.
  - vm_compute. reflexivity.
  - assert (r = true) as -> by (rewrite Hbit; vm_compute; reflexivity). exists w'. split; [exact Hr|apply Hc].
Defined.

Example WiFi_connect_counts_witness :
  ∃ r w', WiFi_connect (set wifi home_wifi Sample.world0) = Ok (r, w') ∧ count (wifi w') = 1.
Proof.
  destruct (WiFi_connect_counts home_ssid home_password (set wifi home_wifi Sample.world0))
    as (r & w' & Hr & Hc & _).
  - exact home_holds.
  - vm_compute. congruence.
  - vm_compute. split; congruence.
  - exists r, w'. split; [exact Hr|exact Hc].
Defined.

End wifi_witnesses.
