(* ===== verification/Ble.v ===== *)
(** * Ble: the characteristics the phone reads and writes (main/src/ble_app.cpp)

    The callbacks of the NimBLE characteristics; a characteristic is its
    UUID.  [float_text n] is the text "%f" prints for [n / 1024.0 / 1024.0]:
    floating-point numbers are left to the C library. *)

From S2P Require Import Prelude CString World SystemBase Player SdCard Wifi.
#[local] Open Scope M_scope.

(** ** Definitions *)

Definition WRITE_COMMAND_UUID : Z := 0xE683.
Definition WRITE_INITIALIZE_UUID : Z := 0xEAF9.
Definition READ_MAC_ID_UUID : Z := 0x9DBD.
Definition READ_BATTERY_UUID : Z := 0x506D.
Definition READ_STORAGEINFO_UUID : Z := 0x506E.
Definition READ_WIFISTAT_UUID : Z := 0x506F.
Definition READ_VOLUME_UUID : Z := 0x5070.
Definition READ_LAMPINFO_UUID : Z := 0x5071.
Definition READ_USER1 : Z := 0x5072.
Definition READ_USER2 : Z := 0x5073.
Definition READ_BOX_ID : Z := 0x5074.

(** [ble_message_types_et] *)
Definition eBLE_WRITE_CREDENTIALS : Z := 1.
Definition eBLE_WRITE_MAX_VOLUME : Z := 2.
Definition eBLE_WRITE_LAMP_DATA : Z := 3.
Definition eBLE_WRITE_BOX_NAME : Z := 4.
Definition eBLE_WRITE_FOTA_URL : Z := 5.
Definition eBLE_WRITE_ADD_USER : Z := 6.

Section ble.
Context `{Env} `{CJSON} (float_text : Z → bytes).

Definition BLE_init : FW () :=
  emit ble_init;;
  modify (set notifyCmdCharac true).

Definition BLE_deinit : FW () := modify (set notifyCmdCharac false).

Definition onDisconnect : FW () := emit ble_startAdvertising.

(** The text of a read, [None] for an unknown characteristic. *)
Definition read_text (uuid : Z) : FW (option bytes) :=
  let text key value := ret (Some (braces (member (lit key) value))) in
  if bool_decide (uuid = READ_MAC_ID_UUID) then
    m ← getMacID; text "macID"%string (quoted m)
  else if bool_decide (uuid = READ_BATTERY_UUID) then
    v ← getBatteryLevel; text "battery"%string (fmt_d v)
  else if bool_decide (uuid = READ_STORAGEINFO_UUID) then
    free ← getFreeMemory; text "freeBytes"%string (quoted (float_text free))
  else if bool_decide (uuid = READ_WIFISTAT_UUID) then
    c ← isConnected;
    text "wifi"%string (quoted (if (c : bool) then lit "connected" else lit "notConnected"))
  else if bool_decide (uuid = READ_VOLUME_UUID) then
    v ← getVolume;
    m ← getMaxVolume;
    ret (Some (braces (member (lit "V") (fmt_d v) ++ lit ", " ++ member (lit "maxV") (fmt_d m))))
  else if bool_decide (uuid = READ_USER1) then
    u ← getUserID 1;
    u ← lift (from_option_res NullDeref u);
    text "user1"%string (quoted u)
  else if bool_decide (uuid = READ_USER2) then
    u ← getUserID 2;
    u ← lift (from_option_res NullDeref u);
    text "user2"%string (quoted u)
  else if bool_decide (uuid = READ_BOX_ID) then
    ReadBoxUniqueID;;
    u ← getUniqueBoxID;
    text "boxid"%string (quoted u)
  else if bool_decide (uuid = READ_LAMPINFO_UUID) then
    ret (Some (braces (member (lit "state") (lit "1") ++ lit "," ++ member (lit "duration") (lit "300")
                ++ lit "," ++ member (lit "color") (lit "[255,128,0]"))))
  else ret None.

Definition onRead (uuid : Z) : FW () :=
  t ← read_text uuid;
  match t with
  | None => skip
  | Some text =>
      responseBuff ← lift (sprintf 80 text);
      emit (ble_setValue responseBuff)
  end.

(** [cJSON_GetObjectItem(json, key)->valuestring], handed to a function that
    reads it, and [->valueint]. *)
Definition str_field (j : Z) (key : bytes) : res bytes := str_of (cJSON_GetObjectItem j key).

Definition int_field (j : Z) (key : bytes) : res Z := int_of (cJSON_GetObjectItem j key).

(** The commands of a user that is known. *)
Definition run_command (j msgType : Z) : FW () :=
  if bool_decide (msgType = eBLE_WRITE_ADD_USER) then
    u ← lift (str_field j (lit "newUser"));
    n ← lift (int_field j (lit "updateUserNo"));
    verifyUserID u (u8 n)
  else if bool_decide (msgType = eBLE_WRITE_CREDENTIALS) then
    s ← lift (str_field j (lit "ssid"));
    p ← lift (str_field j (lit "password"));
    bleWriteCredentials s p;;
    skip
  else if bool_decide (msgType = eBLE_WRITE_MAX_VOLUME) then
    v ← lift (int_field j (lit "volume"));
    if bool_decide (0 <= v <= 100) then notify (lit "MaxVolumeSet")
    else notify (lit "MaxVolumeValueError")
  else if bool_decide (msgType = eBLE_WRITE_LAMP_DATA) then
    lift (int_field j (lit "state"));;
    lift (int_field j (lit "duration"));;
    lift (int_of (cJSON_GetArrayItem (cJSON_GetObjectItem j (lit "color")) 0));;
    lift (int_of (cJSON_GetArrayItem (cJSON_GetObjectItem j (lit "color")) 1));;
    lift (int_of (cJSON_GetArrayItem (cJSON_GetObjectItem j (lit "color")) 2));;
    skip
  else if bool_decide (msgType = eBLE_WRITE_BOX_NAME) then
    s ← lift (str_field j (lit "boxName"));
    WriteBoxName s;;
    notify (lit "BoxNameSet")
  else if bool_decide (msgType = eBLE_WRITE_FOTA_URL) then
    lift (if bool_decide (cJSON_GetObjectItem j (lit "url") = 0) then Fault NullDeref else Ok ())
  else skip.

Definition onWrite (uuid : Z) (value : bytes) : FW () :=
  if bool_decide (200 ≤ length value)%nat then skip
  else
    let data := until_nul (take 199 value) in
    let j := cJSON_Parse data in
    if bool_decide (j = 0) then notify (lit "JsonParseFailed")
    else if bool_decide (uuid = WRITE_INITIALIZE_UUID) then
      s ← lift (str_field j (lit "ssid"));
      p ← lift (str_field j (lit "password"));
      u ← lift (str_field j (lit "newUser"));
      System_initialize s p u
    else if bool_decide (uuid = WRITE_COMMAND_UUID) then
      let msgTypeJson := cJSON_GetObjectItem j (lit "msgTyp") in
      if bool_decide (msgTypeJson = 0) || negb (cJSON_IsNumber msgTypeJson) then skip
      else
        let msgType := valueint msgTypeJson in
        let userIDJson := cJSON_GetObjectItem j (lit "userID") in
        if bool_decide (userIDJson = 0) || negb (cJSON_IsString userIDJson) then skip
        else
          userID ← lift (from_option_res NullDeref (valuestring userIDJson));
          ok ← verifyUser userID;
          if (ok : bool) then run_command j msgType else notify (lit "InvalidUserID")
    else skip.

End ble.

(** ** Lemmas *)

Section ble_lemmas.
Context `{Env} `{CJSON} (float_text : Z → bytes).

(** Everything but the calls to the outside. *)
Definition memory (w : world) :=
  (fs w, led w, plr w, sys w, wifi w, tag w, qbusSlave w, dl w, notifyCmdCharac w).

Lemma notify_run text w : ∃ h, notify text w = Ok ((), update hist (λ _, h) w).
Proof. mrun. destruct w as [? ? ? ? ? ? ? ? ? [|]]; by eexists. Qed.

(** Nothing but, at most, a notification with [text]. *)
Definition only_notifies (text : bytes) (w w' : world) : Prop :=
  memory w' = memory w ∧ (hist w' = hist w ∨ hist w' = ble_notify :: ble_setValue text :: hist w).

Lemma notify_only text w : ∃ w', notify text w = Ok ((), w') ∧ only_notifies text w w'.
Proof. unfold only_notifies. mrun. destruct w as [? ? ? ? ? ? ? ? ? [|]]; eexists; (split; [done|]); auto. Qed.

(** The user ID of a command, when it has one. *)
Definition command_user (value : bytes) : option bytes :=
  let j := cJSON_Parse (until_nul (take 199 value)) in
  valuestring (cJSON_GetObjectItem j (lit "userID")).

(** The texts that a read prints fit in its buffer. *)
Definition texts_fit (w : world) : Prop :=
  (length (macID (sys w)) < 20)%nat ∧ length (sys_user1 (sys w)) = 40%nat ∧
  length (sys_user2 (sys w)) = 40%nat ∧ byte_ok (volume (plr w)) ∧ byte_ok (maxVolume (plr w)) ∧
  byte_ok (batteryLevel (sys w)) ∧ (∀ free, length (float_text free) < 60)%nat.

Lemma length_fmt_byte v : byte_ok v → (length (fmt_d v) ≤ 3)%nat.
Proof.
  unfold byte_ok. intros Hv. unfold fmt_d. rewrite bool_decide_false by lia.
  apply length_fmt_u; [lia|]. change (10 ^ Z.of_nat 3) with 1000. lia.
Qed.

(** The memory of a read: only the box ID may differ. *)
Definition memory_but_box_id (w : world) := memory (update sys (set uniqueBoxID []) w).

Lemma length_braces s : length (braces s) = (2 + length s)%nat.
Proof. unfold braces. rewrite !length_app. simpl. lia. Qed.

Lemma length_member key value : length (member key value) = (3 + length key + length value)%nat.
Proof. unfold member, quoted. rewrite !length_app. simpl. lia. Qed.

Lemma length_quoted s : length (quoted s) = (2 + length s)%nat.
Proof. unfold quoted. rewrite !length_app. simpl. lia. Qed.

Lemma ReadBoxUniqueID_run w : ∃ r b, length b = 40%nat ∧
  ReadBoxUniqueID w = Ok (r, update sys (set uniqueBoxID b) w).
Proof.
  unfold ReadBoxUniqueID. cbv [bind fopen_r gets].
  destruct (files (fs w) !! BOX_ID_SDCARD_LOCATION) as [content|]; [|by eexists _, (memset0 40)].
  unfold fread_into. rewrite bool_decide_true by (vm_compute; lia). eexists _, _. split; [|done].
  rewrite length_app, length_drop, length_take. unfold memset0. rewrite length_replicate. lia.
Qed.

Ltac lit_lengths :=
  repeat match goal with
  | |- context [length (lit ?s)] =>
      let n := eval vm_compute in (length (lit s)) in change (length (lit s)) with n
  end.

Lemma read_text_spec uuid w : texts_fit w →
  wp (read_text float_text uuid) (λ t w', memory_but_box_id w' = memory_but_box_id w ∧
    ∀ x, t = Some x → (length x < 80)%nat) w.
Proof.
  intros (Hmac & Hu1 & Hu2 & Hv & Hm & Hb & Hst).
  pose proof (length_fmt_byte _ Hv). pose proof (length_fmt_byte _ Hm).
  pose proof (length_fmt_byte _ Hb).
  pose proof (length_until_nul (sys_user1 (sys w))). pose proof (length_until_nul (sys_user2 (sys w))).
  unfold read_text, getMacID, getBatteryLevel, getVolume, getMaxVolume, isConnected, getUniqueBoxID.
  change (getUserID 1) with (b ← get_sys sys_user1; ret (Some (until_nul b))).
  change (getUserID 2) with (b ← get_sys sys_user2; ret (Some (until_nul b))).
  repeat case_bool_decide; [..|by split].
  all: try lazymatch goal with |- wp (bind ReadBoxUniqueID _) _ _ =>
    destruct (ReadBoxUniqueID_run w) as (r & b & Hlb & Hr); eapply wp_run_bind; [exact Hr|];
    pose proof (length_until_nul b)
  | |- wp (bind getFreeMemory _) _ _ =>
    destruct (getFreeMemory_run w) as [n Hr]; eapply wp_run_bind; [exact Hr|];
    specialize (Hst n) end.
  all: cbv [bind get_sys get_plr get_wifi gets ret lift from_option_res]; unfold wp;
    cbn -[braces member quoted lit fmt_d until_nul memory_but_box_id].
  all: split; [done|]; intros x Hx; apply Some_inj in Hx; rewrite <-Hx, ?length_braces, ?length_app, ?length_member, ?length_quoted.
  all: try (destruct (connected (wifi w))); lit_lengths; lia.
Qed.

End ble_lemmas.

(** ** Properties *)

Section ble_properties.
Context `{Env} `{CJSON} (float_text : Z → bytes).

(** C35 (commands need a known user).  A write to the command characteristic
    that does not carry the ID of one of the two users changes no memory of
    the firmware and no file, whatever the message asks for; the one call it
    may make is the notification that the message could not be parsed, or that
    the user is not valid. *)
Theorem onWrite_needs_user (value : bytes) (w : world)
    (Hcj : ∀ i, cJSON_IsString i = true → is_Some (valuestring i))
    (Hu : ∀ u, command_user value = Some u →
       u ≠ until_nul (sys_user1 (sys w)) ∧ u ≠ until_nul (sys_user2 (sys w))) :
  ∃ w', onWrite WRITE_COMMAND_UUID value w = Ok ((), w') ∧
    (only_notifies (lit "JsonParseFailed") w w' ∨ only_notifies (lit "InvalidUserID") w w').
Proof.
  assert (∀ text, only_notifies text w w) as Hid by (intros text; split; [done|by left]).
  unfold onWrite. case_bool_decide; [exists w; by auto|].
  case_bool_decide; [destruct (notify_only (lit "JsonParseFailed") w) as (w' & ? & ?); exists w'; by auto|]. rewrite bool_decide_false by done.
  rewrite bool_decide_true by done.
  destruct (_ || negb (cJSON_IsNumber _)); [exists w; by auto|].
  destruct (_ || negb (cJSON_IsString _)) eqn:Hus; [exists w; by auto|].
  apply orb_false_iff in Hus as [_ Hs%negb_false_iff].
  destruct (Hcj _ Hs) as [u Hv]. rewrite Hv. unfold command_user in Hu. rewrite Hv in Hu.
  destruct (Hu u eq_refl) as [Hne1 Hne2].
  cbv [from_option_res]. unfold bind at 1, lift. unfold verifyUser, strcmp_eq.
  cbv [bind get_sys gets ret]. rewrite !bool_decide_false by done.
  destruct (notify_only (lit "InvalidUserID") w) as (w' & ? & ?). exists w'. by auto.
Qed.

(** C36 (reads).  A read of a characteristic changes no file and no memory but
    the box ID it reads from the card, and it never overruns the 80 bytes of
    its buffer as long as the object's own strings are within their arrays. *)
Theorem onRead_safe (uuid : Z) (w : world) (Hfit : texts_fit float_text w) :
  ∃ w', onRead float_text uuid w = Ok ((), w') ∧
    memory_but_box_id w' = memory_but_box_id w.
Proof.
  destruct (wp_elim _ _ _ (read_text_spec float_text uuid w Hfit)) as (t & w1 & H1 & Hm & Hx).
  unfold onRead. rewrite (bind_run _ _ _ _ _ H1). destruct t as [x|]; [|by exists w1].
  unfold sprintf. rewrite bool_decide_true by by apply Hx. by eexists.
Qed.

End ble_properties.

(** ** Witnesses *)

Section ble_witnesses.
#[local] Instance sample_env : Env := Sample.env AEL_STATE_RUNNING.

(** A parser that sees every message as a command with user ID "x": the
    document is 1, its members are 2 (a number) and 3 (a string). *)
#[local] Instance command_json : CJSON := {|
  cJSON_Parse _ := 1;
  cJSON_ParseWithLength _ := 1;
  cJSON_Duplicate j := j;
  cJSON_GetObjectItem _ key := if bool_decide (key = lit "userID") then 3 else 2;
  cJSON_GetObjectItemCaseSensitive _ _ := 0;
  cJSON_GetArraySize _ := 0;
  cJSON_GetArrayItem _ _ := 0;
  cJSON_IsString i := bool_decide (i = 3);
  cJSON_IsNumber i := bool_decide (i = 2);
  cJSON_IsArray _ := false;
  cJSON_IsTrue _ := false;
  valuestring i := if bool_decide (i = 3) then Some (lit "x") else None;
  valueint _ := 6;
|}.

Example onWrite_needs_user_witness :
  ∃ w', onWrite WRITE_COMMAND_UUID (lit "{}") Sample.world0 = Ok ((), w') ∧
    (only_notifies (lit "JsonParseFailed") Sample.world0 w' ∨ only_notifies (lit "InvalidUserID") Sample.world0 w').
Proof.
  apply (onWrite_needs_user (lit "{}") Sample.world0).
  - intros i. cbn. intros Hi. rewrite Hi. by eexists.
  - intros u Hu. vm_compute in Hu. injection Hu as <-. split; vm_compute; congruence.
Defined.

Example onRead_safe_witness :
  ∃ w', onRead (λ _, lit "12.5") READ_VOLUME_UUID Sample.world0 = Ok ((), w') ∧
    memory_but_box_id w' = memory_but_box_id Sample.world0.
Proof.
  apply (onRead_safe (λ _, lit "12.5") READ_VOLUME_UUID Sample.world0).
  unfold texts_fit. split_and!; try done; first [by vm_compute|intros; vm_compute; lia|vm_compute; lia].
Defined.

End ble_witnesses.
