(* ===== verification/SystemHandler.v ===== *)
(** * SystemHandler: the state machine of the box (System::handler in
    main/src/system.cpp)

    One definition per case of the switch, [handler] dispatches on the state
    as the switch does.  The two locals the handler reads first, battery level
    and charging status, are the arguments [bat] and [chg].  The downloader is
    used through [DownloaderOps]. *)

From S2P Require Import Prelude CString World TimeSpent Led SystemBase Player SdCard Wifi Ble.
#[local] Open Scope M_scope.

(** ** Definitions *)

Definition HTTPS_VERIFY_USERID_URL : bytes := lit "https://uat.littlecubbie.in/box/v1/verify".

(** [Downloader::downloadToken] and [Downloader::begin]. *)
Class DownloaderOps := {
  downloadToken : FW ();
  download_begin : bytes → FW bool;
}.

Section handler.
Context `{Env} `{CJSON} `{DownloaderOps}.

(** ** Verifying the users with the server *)

Definition InitializerCallback (evt : http_event) : FW () :=
  match evt with
  | HTTP_EVENT_ON_DATA data =>
      buf ← get_sys init_outputBuff;
      if bool_decide (length data ≤ length buf)%nat
      then put_sys init_outputBuff (data ++ drop (length data) buf)
      else fail OutOfBounds
  | _ => skip
  end.

(** [{"macAddress": "...","user1Id": "...","user2Id": "..."}] *)
Definition verify_body (mac u1 u2 : bytes) : bytes :=
  braces (quoted (lit "macAddress") ++ lit ": " ++ quoted mac ++ lit ","
          ++ quoted (lit "user1Id") ++ lit ": " ++ quoted u1 ++ lit ","
          ++ quoted (lit "user2Id") ++ lit ": " ++ quoted u2).

(** The user's answer: stored and confirmed, or refused. *)
Definition user_verdict (j : Z) (key : bytes) (i : Z) (user : bytes) : FW () :=
  if cJSON_IsTrue (cJSON_GetObjectItemCaseSensitive j key) then
    writeUserID i user;;
    notify (lit "9")
  else notify (lit "10").

Definition verifyUserIdWithServer : FW bool :=
  valid ← get_dl validTokenFlag;
  when (bool_decide (valid = 0)) downloadToken;;
  r ← WiFi_connect;
  if bool_decide (r = 0) then
    b1 ← get_sys init_user1;
    b2 ← get_sys init_user2;
    let u1 := until_nul b1 in
    let u2 := until_nul b2 in
    mac ← getMacID;
    postData ← lift (sprintf 500 (verify_body mac u1 u2));
    answer ← http_perform HTTPS_VERIFY_USERID_URL postData InitializerCallback;
    if negb (http_ok answer) then WiFi_disconnect;; ret false
    else
      emit esp_http_client_cleanup;;
      buf ← get_sys init_outputBuff;
      text ← lift (from_option_res OutOfBounds (cstr buf));
      let j := cJSON_Parse text in
      if bool_decide (j = 0) then ret false
      else
        (if negb (bool_decide (u1 = [])) then user_verdict j (lit "user1") 1 u1
         else when (negb (bool_decide (u2 = []))) (user_verdict j (lit "user2") 2 u2));;
        WiFi_disconnect;;
        ret true
  else WiFi_disconnect;; ret true.

(** ** Tones and the battery *)

(** A tone that is on the card is played before going on to [st]. *)
Definition play_tone (tone : bytes) (st : system_states_et) : FW () :=
  f ← fopen_r tone;
  match f with
  | Some _ =>
      play tone;;
      put_sys playerGoBackToState st;;
      setState SYS_WAIT_FOR_PLAYER
  | None => setState st
  end.

Definition battery_low_tone : FW () := play_tone BAT_LOW_TONE_SDCARD_LOCATION SYS_SHUT_ME_DOWN.

(** The battery check before a track. *)
Definition battery_gate (bat chg : Z) : FW () :=
  if bool_decide (28 <= bat) && bool_decide (bat < 35) then
    if bool_decide (0 < chg) then setState SYS_READ_AUDIO_HEADER else battery_low_tone
  else if bool_decide (bat < 28) then setState SYS_SHUT_ME_DOWN
  else setState SYS_READ_AUDIO_HEADER.

(** ** Start-up *)

Definition case_POST (bat chg : Z) : FW () :=
  if bool_decide (35 <= bat) then setState SYS_INIT
  else if bool_decide (28 <= bat) then
    if bool_decide (0 < chg) then setState SYS_INIT else battery_low_tone
  else setState SYS_SHUT_ME_DOWN.

Definition case_INIT : FW () :=
  setLeftEarColor 80 80 80;;
  setRightEarColor 80 80 80;;
  Player_init;;
  BLE_init;;
  delay 100;;
  play_tone STARTUP_TONE_SDCARD_LOCATION SYS_IDLE.

(** ** Idle *)

Definition idle_battery (bat chg : Z) : FW () :=
  if bool_decide (28 <= bat) && bool_decide (bat < 35) then
    if bool_decide (0 < chg) then setState SYS_INIT else battery_low_tone
  else when (bool_decide (bat < 28)) (setState SYS_SHUT_ME_DOWN).

Definition idle_toy : FW () :=
  present ← get_sys toyPresenseFlag;
  when present
    (put_sys toyPlacedOnce true;;
     t ← get_sys toy;
     p ← get_sys previousToy;
     if negb (strcmp_eq t p) then play_tone TOY_DETECT_TONE_SDCARD_LOCATION SYS_TOY_DETECTED
     else setState SYS_TOY_DETECTED).

Definition idle_removal : FW () :=
  present ← get_sys toyPresenseFlag;
  once ← get_sys toyPlacedOnce;
  tick ← get_sys toyRemovalTick;
  when (negb present && once && bool_decide (tick = 0))
    (t ← GetStartTime; put_sys toyRemovalTick t);;
  when (negb present && once)
    (tick ← get_sys toyRemovalTick;
     late ← TimeSpent tick 10000;
     when late (stopPipeline;; waitForPipelineStop)).

Definition case_IDLE (bat chg : Z) : FW () :=
  since ← get_sys idleSinceTick;
  late ← TimeSpent since 300000;
  if (late : bool) then setState SYS_SHUT_ME_DOWN
  else
    idle_battery bat chg;;
    idle_toy;;
    idle_removal.

Definition case_INIT_WIFI_CHECK : FW () :=
  s ← get_sys init_ssid;
  p ← get_sys init_password;
  ok ← bleWriteCredentials (until_nul s) (until_nul p);
  if (ok : bool) then setState SYS_INIT_USER_ID_CHECK else setState SYS_IDLE.

Definition case_INIT_USER_ID_CHECK : FW () :=
  ok ← verifyUserIdWithServer;
  when ok (setState SYS_IDLE).

(** ** Waiting for the player *)

(** An ear is pressed; the right one is asked only when the left is not. *)
Definition ear_pressed : FW bool :=
  l ← getLeftEarButton;
  if (l : bool) then ret true else getRightEarButton.

Definition wait_completed : FW () :=
  fin ← CheckPlayingCompleted;
  when fin
    (t ← GetStartTime;
     put_plr responseWaitTick t;;
     back ← get_sys playerGoBackToState;
     setState back).

Definition case_WAIT_FOR_PLAYER : FW () :=
  back ← get_sys playerGoBackToState;
  if bool_decide (back = SYS_WAIT_QNA_RESP) then
    e ← ear_pressed;
    if (e : bool) then playPauseToggle;; setState SYS_WAIT_QNA_RESP else wait_completed
  else if bool_decide (back = SYS_WAIT_ACTIVITY_RESP) then
    e ← ear_pressed;
    if (e : bool) then playPauseToggle;; setState SYS_PLAY_NEXT else wait_completed
  else wait_completed.

(** ** A toy on the pad *)

(** What to do with content that is there and verified. *)
Definition content_or_download (go : FW ()) : FW () :=
  t ← get_sys toy;
  e ← SdCard_exist t;
  if (e : bool) then
    v ← checkDownloadStatus t;
    if (v : bool) then go else setState SYS_DOWNLOAD_WIFI_CONN
  else setState SYS_DOWNLOAD_WIFI_CONN.

Definition same_toy_again : FW () :=
  pt ← get_sys previousTurntable;
  d ← getTurnTable;
  if bool_decide (pt = d) then
    tick ← get_sys toyRemovalTick;
    late ← TimeSpent tick 10000;
    if (late : bool) then setState SYS_PLAY_TOY else setState SYS_RESUME_PLAYING
  else setState SYS_PLAY_TOY.

Definition case_TOY_DETECTED : FW () :=
  t ← get_sys toy;
  p ← get_sys previousToy;
  if strcmp_eq t p then
    content_or_download same_toy_again;;
    put_sys toyRemovalTick 0
  else content_or_download (setState SYS_PLAY_TOY).

(** The case has no [break]; the one it falls into is empty. *)
Definition case_PLAY_TOY : FW () := setState SYS_GET_DIRECTION.

Definition direction_name (d : Z) : option bytes :=
  if bool_decide (d = eNORTH) then Some (lit "north")
  else if bool_decide (d = eSOUTH) then Some (lit "south")
  else if bool_decide (d = eEAST) then Some (lit "east")
  else if bool_decide (d = eWEST) then Some (lit "west")
  else None.

Definition toy_file (t name : bytes) : bytes :=
  lit "/sdcard/media/toys/" ++ t ++ lit "/" ++ name ++ lit ".cubbies".

(** The colours of the toy: [fgets] into 16 bytes, then "%hhu,%hhu,%hhu". *)
Definition read_theme : FW () :=
  t ← get_sys toy;
  location ← lift (sprintf 100 (toy_file t (lit "colourTheme")));
  f ← fopen_r location;
  match f ≫= fgets 16 with
  | None => skip
  | Some (line, _) =>
      c ← get_sys themeColor;
      match c with
      | [r; g; b] =>
          '(r, g, b) ← lift (sscanf_3 fits_u8 (until_nul line) (r, g, b));
          put_sys themeColor [r; g; b];;
          setLandingPadColor r g b;;
          setLeftEarColor r g b;;
          setRightEarColor r g b
      | _ => fail OutOfBounds
      end
  end.

Definition case_GET_DIRECTION (bat chg : Z) : FW () :=
  d ← getTurnTable;
  put_sys turnTable d;;
  match direction_name d with
  | None => setState SYS_ERROR
  | Some direction =>
      t ← get_sys toy;
      location ← lift (sprintf 100 (toy_file t direction));
      f ← fopen_r location;
      match f with
      | Some content =>
          put_sys json (Some (cJSON_Parse (until_nul (take 1023 content))));;
          put_sys indexx 0;;
          battery_gate bat chg
      | None => setState SYS_DOWNLOAD_WIFI_CONN
      end;;
      read_theme
  end.

(** ** Tracks *)

Definition case_READ_AUDIO_HEADER : FW () :=
  readHeader;;
  h ← get_plr headerData;
  if bool_decide (hdr_T h = 2) then setState SYS_PLAY_ACTIVITY
  else if bool_decide (hdr_T h = 1) then setState SYS_PLAY_QNA
  else setState SYS_PLAY_NORMAL_AUDIO.

(** The playlist; using it before it is assigned is a fault. *)
Definition playlist : FW Z :=
  j ← get_sys json;
  lift (from_option_res Uninitialised j).

Definition case_PLAY_NEXT (bat chg : Z) : FW () :=
  SkipCurrentAudio;;
  i ← get_sys indexx;
  put_sys indexx (u8 (i + 1));;
  i ← get_sys indexx;
  j ← playlist;
  if bool_decide (cJSON_GetArraySize j <= i) then setState SYS_PLAYING_COMPLETE
  else battery_gate bat chg.

Definition case_PLAY_PREVIOUS : FW () :=
  SkipCurrentAudio;;
  i ← get_sys indexx;
  when (bool_decide (0 < i)) (put_sys indexx (i - 1));;
  setState SYS_READ_AUDIO_HEADER.

(** [audioIndex], [location] and [playerFilename] for the current track. *)
Definition select_track : FW bytes :=
  i ← get_sys indexx;
  key ← lift (sprintf 4 (fmt_d (i + 1)));
  put_plr audioIndex key;;
  name ← item_string key;
  loc ← lift (sprintf 100 (audio_path name []));
  put_plr location loc;;
  filename ← lift (sprintf 50 name);
  put_plr playerFilename filename;;
  ret loc.

(** Play and come back to [st]. *)
Definition play_then (loc : bytes) (st : system_states_et) : FW () :=
  play loc;;
  put_sys playerGoBackToState st;;
  setState SYS_WAIT_FOR_PLAYER.

Definition case_PLAY_NORMAL_AUDIO : FW () :=
  loc ← select_track;
  play_then loc SYS_PLAY_NEXT.

(** Open the window for an answer. *)
Definition expect_response : FW () :=
  put_plr isResponseRequiredFlag true;;
  setLeftEarButton false;;
  setRightEarButton false;;
  t ← GetStartTime;
  put_plr responseWaitTick t.

Definition ear_colors (c : Z * Z * Z) (setColor : Z → Z → Z → FW ()) : FW () :=
  let '(r, g, b) := c in setColor r g b.

Definition case_PLAY_QNA : FW () :=
  put_sys qnaAttempt 1;;
  h ← get_plr headerData;
  ear_colors (hdr_L h) setLeftEarColor;;
  ear_colors (hdr_R h) setRightEarColor;;
  expect_response;;
  loc ← select_track;
  play_then loc SYS_WAIT_QNA_RESP.

(** No response is 5. *)
Definition qna_response : FW Z :=
  l ← getLeftEarButton;
  if (l : bool) then ret 0
  else
    r ← getRightEarButton;
    ret (if (r : bool) then 1 else 5).

(** A wrong answer or none. *)
Definition qna_failed : FW () :=
  n ← get_sys qnaAttempt;
  if bool_decide (n = 1) then setState SYS_INCORRECT_ANS_TRY1
  else when (bool_decide (n = 2)) (setState SYS_CORRECT_ANS).

Definition case_WAIT_QNA_RESP : FW () :=
  resp ← qna_response;
  if negb (bool_decide (resp = 5)) then
    h ← get_plr headerData;
    if bool_decide (resp = hdr_A h) then setState SYS_CORRECT_ANS else qna_failed
  else
    t ← get_plr responseWaitTick;
    late ← TimeSpent t 10000;
    when late qna_failed.

(** The track with a suffix for the answer. *)
Definition answer_location (suffix : bytes) : FW bytes :=
  key ← get_plr audioIndex;
  name ← item_string key;
  loc ← lift (sprintf 100 (audio_path name suffix));
  put_plr location loc;;
  ret loc.

Definition case_INCORRECT_ANS_TRY1 : FW () :=
  expect_response;;
  loc ← answer_location (lit "W");
  play loc;;
  put_sys qnaAttempt 2;;
  put_sys playerGoBackToState SYS_WAIT_QNA_RESP;;
  setState SYS_WAIT_FOR_PLAYER.

Definition case_CORRECT_ANS : FW () :=
  loc ← answer_location (lit "C");
  play loc;;
  put_sys qnaAttempt 0;;
  put_sys playerGoBackToState SYS_PLAY_NEXT;;
  setState SYS_WAIT_FOR_PLAYER.

Definition case_PLAY_ACTIVITY : FW () :=
  setLeftEarColor 0 255 0;;
  setRightEarColor 0 255 0;;
  expect_response;;
  loc ← select_track;
  play_then loc SYS_WAIT_ACTIVITY_RESP.

(** The left ear is asked twice, the right one never. *)
Definition case_WAIT_ACTIVITY_RESP : FW () :=
  t ← get_plr responseWaitTick;
  late ← TimeSpent t 10000;
  l1 ← getLeftEarButton;
  l2 ← getLeftEarButton;
  when (late || l1 || l2) (setState SYS_PLAY_NEXT).

Definition case_PLAYING_COMPLETE : FW () := setState SYS_PLAY_TOY.

(** ** Downloading *)

Definition case_DOWNLOAD_WIFI_CONN : FW () :=
  r ← WiFi_init;
  when (bool_decide (r = 0))
    (e ← ConfigSdCardCredentials;
     if bool_decide (e = 0) then
       c ← WiFi_connect;
       if bool_decide (c = 0) then play_tone DOWNLOAD_START_TONE_SDCARD_LOCATION SYS_DOWNLOAD_TOY
       else setState SYS_WIFI_CONNECT_ERR
     else setState SYS_WIFI_CRED_MISSING_ERR).

Definition case_DOWNLOAD_TOY : FW () :=
  setLandingPadColor 254 13 0;;
  ReadBoxUniqueID;;
  t ← get_sys toy;
  download_begin t;;
  setState SYS_IDLE.

Definition case_WIFI_CONNECT_ERR : FW () :=
  play_tone INVALID_WIFI_CREDS_TONE_SDCARD_LOCATION SYS_IDLE.

Definition case_WIFI_CRED_MISSING_ERR : FW () :=
  play_tone PLEASE_ENTER_WIFI_CREDS_TONE_SDCARD_LOCATION SYS_IDLE.

(** ** Shutting down *)

Definition case_SHUT_ME_DOWN : FW () :=
  setLandingPadColor 255 0 0;;
  setLeftEarColor 255 0 0;;
  setRightEarColor 255 0 0;;
  play_tone SHUTDOWN_TONE_SDCARD_LOCATION SYS_TURN_OFF.

Definition case_TURN_OFF : FW () := setPowerStatus 1.

(** ** The handler *)

Definition handler : FW () :=
  bat ← getBatteryLevel;
  chg ← getChargingStatus;
  st ← get_sys state;
  match st with
  | SYS_POST => case_POST bat chg
  | SYS_INIT => case_INIT
  | SYS_IDLE => case_IDLE bat chg
  | SYS_INIT_WIFI_CHECK => case_INIT_WIFI_CHECK
  | SYS_INIT_USER_ID_CHECK => case_INIT_USER_ID_CHECK
  | SYS_TOY_DETECTED => case_TOY_DETECTED
  | SYS_PLAY_TOY => case_PLAY_TOY
  | SYS_WAIT_FOR_PLAYER => case_WAIT_FOR_PLAYER
  | SYS_PLAYING_COMPLETE => case_PLAYING_COMPLETE
  | SYS_PLAY_NEXT => case_PLAY_NEXT bat chg
  | SYS_PLAY_PREVIOUS => case_PLAY_PREVIOUS
  | SYS_RESUME_PLAYING => resumePlaying
  | SYS_GET_DIRECTION => case_GET_DIRECTION bat chg
  | SYS_ERROR => skip
  | SYS_READ_AUDIO_HEADER => case_READ_AUDIO_HEADER
  | SYS_PLAY_ACTIVITY => case_PLAY_ACTIVITY
  | SYS_WAIT_ACTIVITY_RESP => case_WAIT_ACTIVITY_RESP
  | SYS_PLAY_QNA => case_PLAY_QNA
  | SYS_WAIT_QNA_RESP => case_WAIT_QNA_RESP
  | SYS_INCORRECT_ANS_TRY1 => case_INCORRECT_ANS_TRY1
  | SYS_CORRECT_ANS => case_CORRECT_ANS
  | SYS_PLAY_NORMAL_AUDIO => case_PLAY_NORMAL_AUDIO
  | SYS_DOWNLOAD_WIFI_CONN => case_DOWNLOAD_WIFI_CONN
  | SYS_DOWNLOAD_TOY => case_DOWNLOAD_TOY
  | SYS_WIFI_CONNECT_ERR => case_WIFI_CONNECT_ERR
  | SYS_WIFI_CRED_MISSING_ERR => case_WIFI_CRED_MISSING_ERR
  | SYS_SHUT_ME_DOWN => case_SHUT_ME_DOWN
  | SYS_TURN_OFF => case_TURN_OFF
  end.

(** One turn of [SystemTask]: 200 ms are 20 ticks. *)
Definition SystemTask_turn : FW () := handler;; delay 20.

End handler.
