(* ===== verification/SystemControl.v ===== *)
(** * SystemControl: where the state machine can go

    [handler_leads] bounds the effect of one turn of [System::handler] on the
    state and on the state the machine returns to after a sound; it is the
    abstract control graph of the box, [successors].  [DownloaderSpec] is what
    the machine asks of the downloader. *)

From S2P Require Import Prelude CString World TimeSpent Led SystemBase Player SdCard Wifi Ble SystemHandler.
#[local] Open Scope M_scope.

(** ** What the machine relies on *)

(** The state and the state to come back to after a sound. *)
Definition control (w : world) : system_states_et * system_states_et :=
  (state (sys w), playerGoBackToState (sys w)).

(** Downloading does not touch the System object. *)
Class DownloaderSpec `{DownloaderOps} : Prop := {
  spec_token : keeps sys downloadToken;
  spec_begin t : keeps sys (download_begin t);
}.

(** ** Where a step can lead *)

(** [To s]: the machine is in [s].  [Sound s]: it plays a sound and goes to
    [s] when the sound is over. *)
Inductive target := To (s : system_states_et) | Sound (s : system_states_et).

Definition at_target (t : target) (c : system_states_et * system_states_et) : Prop :=
  match t with
  | To s => c.1 = s ∧ s ≠ SYS_WAIT_FOR_PLAYER
  | Sound s => c = (SYS_WAIT_FOR_PLAYER, s)
  end.

(** The operation leaves the control alone or leads to one of [L]. *)
Definition leads (L : list target) {A} (m : FW A) : Prop :=
  ∀ w a w', m w = Ok (a, w') → control w' = control w ∨ ∃ t, t ∈ L ∧ at_target t (control w').

Section leads.
Context `{Env} `{CJSON} (L : list target).

Lemma leads_keeps {A} (m : FW A) : keeps control m → leads L m.
Proof. intros Hm w a w' Hr. left. by eapply Hm. Qed.

Lemma leads_bind {A B} (m : FW A) (k : A → FW B) :
  leads L m → (∀ a, leads L (k a)) → leads L (bind m k).
Proof.
  intros Hm Hk w b w2 (a & w1 & H1 & H2)%bind_Ok.
  destruct (Hk _ _ _ _ H2) as [->|?]; [by eapply Hm|by right].
Qed.

Lemma leads_if {A} (b : bool) (m1 m2 : FW A) : leads L m1 → leads L m2 → leads L (if b then m1 else m2).
Proof. by destruct b. Qed.

Lemma leads_when b (m : FW ()) : leads L m → leads L (when b m).
Proof. intros. apply leads_if; [done|]. apply leads_keeps, keeps_skip. Qed.

Lemma setState_run s w : ∃ w', setState s w = Ok ((), w') ∧ control w' = (s, playerGoBackToState (sys w)).
Proof.
  unfold setState. destruct (decide (s = SYS_IDLE)) as [->|Hs].
  - eexists. split; reflexivity.
  - rewrite bool_decide_false by done. eexists. split; reflexivity.
Qed.

Lemma leads_setState s : To s ∈ L → s ≠ SYS_WAIT_FOR_PLAYER → leads L (setState s).
Proof.
  intros Hin Hs w a w' Hr. destruct (setState_run s w) as (w2 & Hr2 & Hc).
  rewrite Hr in Hr2. injection Hr2 as _ ->. right. exists (To s). by rewrite Hc.
Qed.

Lemma leads_sound s : Sound s ∈ L →
  leads L (put_sys playerGoBackToState s;; setState SYS_WAIT_FOR_PLAYER).
Proof.
  intros Hin w a w' Hr. right. exists (Sound s). split; [done|].
  destruct (setState_run SYS_WAIT_FOR_PLAYER (update sys (set playerGoBackToState s) w)) as (w2 & Hr2 & Hc).
  unfold bind, put_sys, modify in Hr. rewrite Hr2 in Hr. injection Hr as _ <-. exact Hc.
Qed.
End leads.

(** The sound of a file: whether it is on the card or not, [st] is next. *)
Ltac leads_solve :=
  lazymatch goal with
  | |- leads _ (bind (put_sys playerGoBackToState _) (λ _, setState SYS_WAIT_FOR_PLAYER)) =>
      apply leads_sound; set_solver
  | |- leads _ (setState _) => apply leads_setState; [set_solver|done]
  | |- leads _ (bind _ _) => apply leads_bind; [leads_solve|intros ?; leads_solve]
  | |- leads _ (when _ _) => apply leads_when; leads_solve
  | |- leads _ (match ?x with _ => _ end) => destruct x; leads_solve
  | |- leads _ (let _ := _ in _) => cbv zeta; leads_solve
  | |- leads _ ?m =>
      first
        [ apply leads_keeps; solve [keeps]
        | let rec head t := lazymatch t with ?g _ => head g | _ => t end in
          let h := head m in unfold h; leads_solve ]
  end.

Section handler_leads.
Context `{Env} `{CJSON} `{!DownloaderOps} `{!DownloaderSpec}.

Lemma play_keeps loc : keeps control (play loc).
Proof. keeps. Qed.
Lemma ble_keeps s p : keeps control (bleWriteCredentials s p).
Proof. keeps. Qed.
Lemma writeUserID_keeps i u : keeps control (writeUserID i u).
Proof. keeps. Qed.
Lemma select_track_keeps : keeps control select_track.
Proof. keeps. Qed.
Lemma answer_location_keeps suffix : keeps control (answer_location suffix).
Proof. keeps. Qed.
Lemma http_perform_keeps url body on_event : (∀ e, keeps control (on_event e)) →
  keeps control (http_perform url body on_event).
Proof. intros. unfold http_perform. keeps. Qed.

Lemma leads_play_tone L tone st : Sound st ∈ L → To st ∈ L → st ≠ SYS_WAIT_FOR_PLAYER →
  leads L (play_tone tone st).
Proof. intros Hs Ht Hne. unfold play_tone. leads_solve. Qed.

Lemma downloadToken_control : keeps control downloadToken.
Proof. apply (keeps_comp sys (λ s, (state s, playerGoBackToState s))), spec_token. Qed.

Lemma download_begin_control t : keeps control (download_begin t).
Proof. apply (keeps_comp sys (λ s, (state s, playerGoBackToState s))), spec_begin. Qed.

(** The successors of a state, for the state the last sound leads back to. *)
Definition successors (s back : system_states_et) : list target :=
  match s with
  | SYS_POST => [To SYS_INIT; To SYS_SHUT_ME_DOWN; Sound SYS_SHUT_ME_DOWN]
  | SYS_INIT => [Sound SYS_IDLE; To SYS_IDLE]
  | SYS_IDLE => [To SYS_SHUT_ME_DOWN; Sound SYS_SHUT_ME_DOWN; To SYS_INIT;
                 Sound SYS_TOY_DETECTED; To SYS_TOY_DETECTED]
  | SYS_INIT_WIFI_CHECK => [To SYS_INIT_USER_ID_CHECK; To SYS_IDLE]
  | SYS_INIT_USER_ID_CHECK => [To SYS_IDLE]
  | SYS_TOY_DETECTED => [To SYS_PLAY_TOY; To SYS_RESUME_PLAYING; To SYS_DOWNLOAD_WIFI_CONN]
  | SYS_PLAY_TOY => [To SYS_GET_DIRECTION]
  | SYS_WAIT_FOR_PLAYER => [To back; To SYS_PLAY_NEXT]
  | SYS_PLAYING_COMPLETE => [To SYS_PLAY_TOY]
  | SYS_PLAY_NEXT => [To SYS_PLAYING_COMPLETE; To SYS_READ_AUDIO_HEADER;
                      To SYS_SHUT_ME_DOWN; Sound SYS_SHUT_ME_DOWN]
  | SYS_PLAY_PREVIOUS => [To SYS_READ_AUDIO_HEADER]
  | SYS_RESUME_PLAYING => [Sound SYS_PLAY_NEXT; To SYS_PLAY_NEXT]
  | SYS_GET_DIRECTION => [To SYS_ERROR; To SYS_READ_AUDIO_HEADER; To SYS_SHUT_ME_DOWN;
                          Sound SYS_SHUT_ME_DOWN; To SYS_DOWNLOAD_WIFI_CONN]
  | SYS_READ_AUDIO_HEADER => [To SYS_PLAY_ACTIVITY; To SYS_PLAY_QNA; To SYS_PLAY_NORMAL_AUDIO]
  | SYS_PLAY_ACTIVITY => [Sound SYS_WAIT_ACTIVITY_RESP]
  | SYS_WAIT_ACTIVITY_RESP => [To SYS_PLAY_NEXT]
  | SYS_PLAY_QNA => [Sound SYS_WAIT_QNA_RESP]
  | SYS_WAIT_QNA_RESP => [To SYS_CORRECT_ANS; To SYS_INCORRECT_ANS_TRY1]
  | SYS_INCORRECT_ANS_TRY1 => [Sound SYS_WAIT_QNA_RESP]
  | SYS_CORRECT_ANS => [Sound SYS_PLAY_NEXT]
  | SYS_PLAY_NORMAL_AUDIO => [Sound SYS_PLAY_NEXT]
  | SYS_DOWNLOAD_WIFI_CONN => [Sound SYS_DOWNLOAD_TOY; To SYS_DOWNLOAD_TOY;
                               To SYS_WIFI_CONNECT_ERR; To SYS_WIFI_CRED_MISSING_ERR]
  | SYS_DOWNLOAD_TOY => [To SYS_IDLE]
  | SYS_WIFI_CONNECT_ERR => [Sound SYS_IDLE; To SYS_IDLE]
  | SYS_WIFI_CRED_MISSING_ERR => [Sound SYS_IDLE; To SYS_IDLE]
  | SYS_SHUT_ME_DOWN => [Sound SYS_TURN_OFF; To SYS_TURN_OFF]
  | SYS_ERROR | SYS_TURN_OFF => []
  end.

Hint Resolve play_keeps ble_keeps writeUserID_keeps select_track_keeps answer_location_keeps
  http_perform_keeps downloadToken_control download_begin_control : keeps.

Lemma verify_keeps : keeps control verifyUserIdWithServer.
Proof. keeps. Qed.
Hint Resolve verify_keeps : keeps.

Lemma case_POST_leads bat chg back : leads (successors SYS_POST back) (case_POST bat chg).
Proof. leads_solve. Qed.
Lemma case_INIT_leads back : leads (successors SYS_INIT back) case_INIT.
Proof. leads_solve. Qed.
Lemma case_IDLE_leads bat chg back : leads (successors SYS_IDLE back) (case_IDLE bat chg).
Proof. leads_solve. Qed.
Lemma case_INIT_WIFI_CHECK_leads back : leads (successors SYS_INIT_WIFI_CHECK back) case_INIT_WIFI_CHECK.
Proof. leads_solve. Qed.
Lemma case_INIT_USER_ID_CHECK_leads back : leads (successors SYS_INIT_USER_ID_CHECK back) case_INIT_USER_ID_CHECK.
Proof. leads_solve. Qed.
Lemma case_TOY_DETECTED_leads back : leads (successors SYS_TOY_DETECTED back) case_TOY_DETECTED.
Proof. leads_solve. Qed.
Lemma case_PLAY_TOY_leads back : leads (successors SYS_PLAY_TOY back) case_PLAY_TOY.
Proof. leads_solve. Qed.
Lemma case_PLAYING_COMPLETE_leads back : leads (successors SYS_PLAYING_COMPLETE back) case_PLAYING_COMPLETE.
Proof. leads_solve. Qed.
Lemma case_PLAY_NEXT_leads bat chg back : leads (successors SYS_PLAY_NEXT back) (case_PLAY_NEXT bat chg).
Proof. leads_solve. Qed.
Lemma case_PLAY_PREVIOUS_leads back : leads (successors SYS_PLAY_PREVIOUS back) case_PLAY_PREVIOUS.
Proof. leads_solve. Qed.
Lemma case_GET_DIRECTION_leads bat chg back : leads (successors SYS_GET_DIRECTION back) (case_GET_DIRECTION bat chg).
Proof. leads_solve. Qed.
Lemma case_READ_AUDIO_HEADER_leads back : leads (successors SYS_READ_AUDIO_HEADER back) case_READ_AUDIO_HEADER.
Proof. leads_solve. Qed.
Lemma case_PLAY_ACTIVITY_leads back : leads (successors SYS_PLAY_ACTIVITY back) case_PLAY_ACTIVITY.
Proof. leads_solve. Qed.
Lemma case_WAIT_ACTIVITY_RESP_leads back : leads (successors SYS_WAIT_ACTIVITY_RESP back) case_WAIT_ACTIVITY_RESP.
Proof. leads_solve. Qed.
Lemma case_PLAY_QNA_leads back : leads (successors SYS_PLAY_QNA back) case_PLAY_QNA.
Proof. leads_solve. Qed.
Lemma case_WAIT_QNA_RESP_leads back : leads (successors SYS_WAIT_QNA_RESP back) case_WAIT_QNA_RESP.
Proof. leads_solve. Qed.
Lemma case_INCORRECT_ANS_TRY1_leads back : leads (successors SYS_INCORRECT_ANS_TRY1 back) case_INCORRECT_ANS_TRY1.
Proof. leads_solve. Qed.
Lemma case_CORRECT_ANS_leads back : leads (successors SYS_CORRECT_ANS back) case_CORRECT_ANS.
Proof. leads_solve. Qed.
Lemma case_PLAY_NORMAL_AUDIO_leads back : leads (successors SYS_PLAY_NORMAL_AUDIO back) case_PLAY_NORMAL_AUDIO.
Proof. leads_solve. Qed.
Lemma case_DOWNLOAD_WIFI_CONN_leads back : leads (successors SYS_DOWNLOAD_WIFI_CONN back) case_DOWNLOAD_WIFI_CONN.
Proof. leads_solve. Qed.
Lemma case_DOWNLOAD_TOY_leads back : leads (successors SYS_DOWNLOAD_TOY back) case_DOWNLOAD_TOY.
Proof. leads_solve. Qed.
Lemma case_WIFI_CONNECT_ERR_leads back : leads (successors SYS_WIFI_CONNECT_ERR back) case_WIFI_CONNECT_ERR.
Proof. leads_solve. Qed.
Lemma case_WIFI_CRED_MISSING_ERR_leads back : leads (successors SYS_WIFI_CRED_MISSING_ERR back) case_WIFI_CRED_MISSING_ERR.
Proof. leads_solve. Qed.
Lemma case_SHUT_ME_DOWN_leads back : leads (successors SYS_SHUT_ME_DOWN back) case_SHUT_ME_DOWN.
Proof. leads_solve. Qed.

Lemma case_RESUME_PLAYING_leads back : leads (successors SYS_RESUME_PLAYING back) resumePlaying.
Proof. leads_solve. Qed.

Lemma keeps_skip_leads L : leads L (skip : FW ()).
Proof. apply leads_keeps, keeps_skip. Qed.

Lemma case_TURN_OFF_leads L : leads L case_TURN_OFF.
Proof. apply leads_keeps. keeps. Qed.

Lemma keeps_run {A B} (f : world → B) (m : FW A) w a w' : keeps f m → m w = Ok (a, w') → f w' = f w.
Proof. intros Hm Hr. by eapply Hm. Qed.

Lemma CheckPlayingCompleted_keeps : keeps control CheckPlayingCompleted.
Proof. keeps. Qed.

(** The wait ends in the state the sound was to come back to. *)
Lemma wait_completed_leads w a w' : state (sys w) = SYS_WAIT_FOR_PLAYER → wait_completed w = Ok (a, w') →
  control w' = control w ∨ at_target (To (playerGoBackToState (sys w))) (control w').
Proof.
  unfold wait_completed. intros Hst (fin & w1 & Hr1 & Hr2)%bind_Ok.
  apply (keeps_run control _ _ _ _ CheckPlayingCompleted_keeps) in Hr1 as Hc1.
  destruct fin; [|left; by injection Hr2 as _ <-]. cbn [when] in Hr2.
  rewrite (bind_run _ _ _ _ _ (GetStartTime_run w1)) in Hr2.
  cbv [bind put_plr modify get_sys gets] in Hr2.
  match type of Hr2 with setState ?s ?x = _ => destruct (setState_run s x) as (w2 & Hr & Hc) end.
  rewrite Hr in Hr2. injection Hr2 as _ <-. rewrite Hc. simpl.
  unfold control in *. injection Hc1 as Hs Hb. rewrite Hb, Hst.
  destruct (decide (playerGoBackToState (sys w) = SYS_WAIT_FOR_PLAYER)) as [E|E];
    [left; by rewrite E|by right].
Qed.

Lemma ear_pressed_run w : ∃ e, ear_pressed w = Ok (e, w).
Proof. unfold ear_pressed, getLeftEarButton, getRightEarButton. mrun. case_match; by eexists. Qed.

Lemma case_WAIT_FOR_PLAYER_leads w a w' : state (sys w) = SYS_WAIT_FOR_PLAYER →
  case_WAIT_FOR_PLAYER w = Ok (a, w') → control w' = control w ∨
  ∃ t, t ∈ successors SYS_WAIT_FOR_PLAYER (playerGoBackToState (sys w)) ∧ at_target t (control w').
Proof.
  intros Hst. destruct (ear_pressed_run w) as [e He].
  assert (wait_completed w = Ok (a, w') → control w' = control w ∨
    ∃ t, t ∈ successors SYS_WAIT_FOR_PLAYER (playerGoBackToState (sys w)) ∧ at_target t (control w')) as Hwait.
  { intros [?|?]%wait_completed_leads; [by left|right|done]. eexists. split; [by left|done]. }
  unfold case_WAIT_FOR_PLAYER, get_sys. rewrite (bind_run _ _ w (playerGoBackToState (sys w)) w eq_refl).
  case_bool_decide as Hb1; [|case_bool_decide as Hb2; [|done]];
    rewrite (bind_run _ _ _ _ _ He); (destruct e; [intros Hr|done]).
  - rewrite Hb1. eapply (leads_bind _ playPauseToggle (λ _, setState SYS_WAIT_QNA_RESP)); [leads_solve|intros ?; leads_solve|exact Hr].
  - eapply (leads_bind _ playPauseToggle (λ _, setState SYS_PLAY_NEXT)); [leads_solve|intros ?; leads_solve|exact Hr].
Qed.

(** One turn of the handler follows the control graph. *)
Lemma handler_leads w a w' : handler w = Ok (a, w') → control w' = control w ∨
  ∃ t, t ∈ successors (state (sys w)) (playerGoBackToState (sys w)) ∧ at_target t (control w').
Proof.
  unfold handler, getBatteryLevel, getChargingStatus. cbv [bind get_sys gets].
  destruct (state (sys w)) eqn:Hst; intros Hr;
    first [ by apply case_WAIT_FOR_PLAYER_leads in Hr
          | eapply case_POST_leads, Hr | eapply case_INIT_leads, Hr | eapply case_IDLE_leads, Hr
          | eapply case_INIT_WIFI_CHECK_leads, Hr | eapply case_INIT_USER_ID_CHECK_leads, Hr
          | eapply case_TOY_DETECTED_leads, Hr | eapply case_PLAY_TOY_leads, Hr
          | eapply case_PLAYING_COMPLETE_leads, Hr | eapply case_PLAY_NEXT_leads, Hr
          | eapply case_PLAY_PREVIOUS_leads, Hr | eapply case_RESUME_PLAYING_leads, Hr
          | eapply case_GET_DIRECTION_leads, Hr | eapply case_READ_AUDIO_HEADER_leads, Hr
          | eapply case_PLAY_ACTIVITY_leads, Hr | eapply case_WAIT_ACTIVITY_RESP_leads, Hr
          | eapply case_PLAY_QNA_leads, Hr | eapply case_WAIT_QNA_RESP_leads, Hr
          | eapply case_INCORRECT_ANS_TRY1_leads, Hr | eapply case_CORRECT_ANS_leads, Hr
          | eapply case_PLAY_NORMAL_AUDIO_leads, Hr | eapply case_DOWNLOAD_WIFI_CONN_leads, Hr
          | eapply case_DOWNLOAD_TOY_leads, Hr | eapply case_WIFI_CONNECT_ERR_leads, Hr
          | eapply case_WIFI_CRED_MISSING_ERR_leads, Hr | eapply case_SHUT_ME_DOWN_leads, Hr
          | eapply case_TURN_OFF_leads, Hr | eapply keeps_skip_leads, Hr ].
Qed.

End handler_leads.
