(* ===== verification/SystemSpec.v ===== *)
(** * SystemSpec: what the state machine of the box guarantees

    The properties of [System::handler]: the control graph, power-off, the
    battery checks, idling, the playlist, the quiz and the resumption of a
    toy. *)

From S2P Require Import Prelude CString World TimeSpent Led SystemBase Player SdCard Wifi Ble SystemHandler SystemControl.
#[local] Open Scope M_scope.

(** ** Lemmas *)

Section system_spec.
Context `{Env} `{CJSON} `{!DownloaderOps}.

(** [TimeSpent start total] in [w]. *)
Definition elapsed (start total : Z) (w : world) : bool :=
  spent start total (u32 (first_ms w)) (u32 (second_ms w)).

Lemma TimeSpent_elapsed_run start total w : TimeSpent start total w = Ok (elapsed start total w, ticked 2 w).
Proof. apply TimeSpent_run. Qed.

(** The System object but for the state, the state to come back to and the
    start of idling. *)
Definition rest (w : world) : sys_st :=
  set state SYS_POST (set playerGoBackToState SYS_POST (set idleSinceTick 0 (sys w))).

Lemma setState_spec s w : ∃ w', setState s w = Ok ((), w') ∧
  control w' = (s, playerGoBackToState (sys w)) ∧ rest w' = rest w ∧ fs w' = fs w ∧ plr w' = plr w.
Proof.
  unfold setState. destruct (decide (s = SYS_IDLE)) as [->|Hs].
  - eexists. by split.
  - rewrite bool_decide_false by done. eexists. by split.
Qed.

Lemma play_run loc w : ∃ w', play loc w = Ok ((), w') ∧ sys w' = sys w ∧ fs w' = fs w ∧ led w' = led w.
Proof.
  unfold play. 
  assert (∃ w1, readVolume w = Ok ((), w1) ∧ sys w1 = sys w ∧ fs w1 = fs w ∧ led w1 = led w)
    as (w1 & Hr1 & Hs & Hf & Hl).
  { unfold readVolume. cbv [bind fopen_r gets].
    destruct (files (fs w) !! VOLUME_SDCARD_LOCATION) as [[|a [|b c]]|]; by eexists. }
  rewrite (bind_run _ _ _ _ _ Hr1). mrun. eexists. split; [done|]. simpl. done.
Qed.

(** A tone, whether it is on the card or not. *)
Lemma play_tone_run tone st w : ∃ w', play_tone tone st w = Ok ((), w') ∧ rest w' = rest w ∧ fs w' = fs w ∧
  control w' = match files (fs w) !! tone with
               | Some _ => (SYS_WAIT_FOR_PLAYER, st)
               | None => (st, playerGoBackToState (sys w)) end.
Proof.
  unfold play_tone. cbv [fopen_r]. rewrite (bind_run _ _ w (files (fs w) !! tone) w eq_refl).
  destruct (files (fs w) !! tone).
  - destruct (play_run tone w) as (w1 & Hr & Hs & Hf & _). rewrite (bind_run _ _ _ _ _ Hr).
    eexists. split; [reflexivity|]. unfold rest, control. simpl. by rewrite Hs, Hf.
  - destruct (setState_spec st w) as (w1 & Hr & Hc & Hre & Hf & _). by exists w1.
Qed.

Lemma play_uri loc w w' : play loc w = Ok ((), w') → played (hist w') = loc :: played (hist w).
Proof.
  unfold play. intros ([] & w1 & Hr1 & Hr)%bind_Ok.
  assert (keeps (λ w, played (hist w)) readVolume) as Hk by keeps. rewrite <-(Hk _ _ _ Hr1).
  revert Hr. cbv [emit delay put_plr bind modify]. intros [= <-]. reflexivity.
Qed.

(** The tone is played when it is on the card; the lamps do not change. *)
Lemma play_tone_sound tone st w w' : play_tone tone st w = Ok ((), w') → led w' = led w ∧
  played (hist w') = match files (fs w) !! tone with Some _ => [tone] | None => [] end ++ played (hist w).
Proof.
  intros Hr. split; [revert Hr; apply keeps_run; keeps|]. revert Hr. unfold play_tone. cbv [fopen_r].
  rewrite (bind_run _ _ w (files (fs w) !! tone) w eq_refl). destruct (files (fs w) !! tone).
  - intros ([] & w1 & Hp & Hr)%bind_Ok. simpl. rewrite <-(play_uri _ _ _ Hp).
    revert Hr. apply (keeps_run (λ w, played (hist w))). keeps.
  - simpl. apply (keeps_run (λ w, played (hist w))). keeps.
Qed.

(** The three outcomes of the battery check before a track. *)
Definition gate_control (bat chg : Z) (tone : bool) (back : system_states_et) : system_states_et * system_states_et :=
  if bool_decide (bat < 28) then (SYS_SHUT_ME_DOWN, back)
  else if bool_decide (35 <= bat) || bool_decide (0 < chg) then (SYS_READ_AUDIO_HEADER, back)
  else if tone then (SYS_WAIT_FOR_PLAYER, SYS_SHUT_ME_DOWN) else (SYS_SHUT_ME_DOWN, back).

Definition has_file (path : bytes) (w : world) : bool := bool_decide (is_Some (files (fs w) !! path)).

Lemma battery_gate_run bat chg w : ∃ w', battery_gate bat chg w = Ok ((), w') ∧ rest w' = rest w ∧ fs w' = fs w ∧
  control w' = gate_control bat chg (has_file BAT_LOW_TONE_SDCARD_LOCATION w) (playerGoBackToState (sys w)).
Proof.
  unfold battery_gate, gate_control.
  destruct (setState_spec SYS_SHUT_ME_DOWN w) as (w1 & Hr1 & Hc1 & Hre1 & Hf1 & _).
  destruct (setState_spec SYS_READ_AUDIO_HEADER w) as (w2 & Hr2 & Hc2 & Hre2 & Hf2 & _).
  destruct (play_tone_run BAT_LOW_TONE_SDCARD_LOCATION SYS_SHUT_ME_DOWN w) as (w3 & Hr3 & Hre3 & Hf3 & Hc3).
  unfold has_file, battery_low_tone.
  destruct (decide (bat < 28)).
  { rewrite (bool_decide_false (28 <= bat)), !(bool_decide_true (bat < 28)) by lia. by exists w1. }
  rewrite (bool_decide_true (28 <= bat)), !(bool_decide_false (bat < 28)) by lia.
  destruct (decide (35 <= bat)).
  { rewrite (bool_decide_false (bat < 35)), (bool_decide_true (35 <= bat)) by lia. by exists w2. }
  rewrite (bool_decide_true (bat < 35)), (bool_decide_false (35 <= bat)) by lia. simpl.
  case_bool_decide; [by exists w2|].
  exists w3. split_and!; [done..|]. rewrite Hc3. by destruct (files (fs w) !! BAT_LOW_TONE_SDCARD_LOCATION).
Qed.

Lemma SkipCurrentAudio_run w : ∃ h, SkipCurrentAudio w = Ok ((), update hist (λ _, h) w).
Proof. mrun. mcase; by eexists. Qed.

Lemma idle_battery_run bat chg w :
  ∃ w', idle_battery bat chg w = Ok ((), w') ∧ rest w' = rest w ∧ fs w' = fs w ∧
    (35 <= bat → w' = w).
Proof.
  unfold idle_battery.
  destruct (setState_spec SYS_INIT w) as (w1 & Hr1 & _ & Hre1 & Hf1 & _).
  destruct (setState_spec SYS_SHUT_ME_DOWN w) as (w2 & Hr2 & _ & Hre2 & Hf2 & _).
  destruct (play_tone_run BAT_LOW_TONE_SDCARD_LOCATION SYS_SHUT_ME_DOWN w) as (w3 & Hr3 & Hre3 & Hf3 & _).
  destruct (decide (28 <= bat)), (decide (bat < 35)).
  - rewrite (bool_decide_true (28 <= bat)), (bool_decide_true (bat < 35)) by lia. cbn [andb].
    case_bool_decide; [exists w1|exists w3]; split_and!; try done; lia.
  - rewrite (bool_decide_true (28 <= bat)), (bool_decide_false (bat < 35)) by lia. cbn [andb].
    rewrite bool_decide_false by lia. by exists w.
  - rewrite (bool_decide_false (28 <= bat)), (bool_decide_true (bat < 28)) by lia. cbn [andb when].
    exists w2. split_and!; try done; lia.
  - lia.
Qed.

(** The timer of the removed toy. *)
Lemma idle_removal_run w : ∃ h, idle_removal w = Ok ((), update hist (λ _, h)
  (if negb (toyPresenseFlag (sys w)) && toyPlacedOnce (sys w) && bool_decide (toyRemovalTick (sys w) = 0)
   then update sys (set toyRemovalTick (u32 (first_ms w))) w else w)).
Proof.
  unfold idle_removal, stopPipeline, waitForPipelineStop. cbv [bind get_sys gets].
  destruct (negb (toyPresenseFlag (sys w)) && toyPlacedOnce (sys w)).
  - cbn [andb when].
    case_bool_decide; cbn [when]; rewrite ?GetStartTime_run; cbv [put_sys modify skip ret].
    all: rewrite TimeSpent_elapsed_run; unfold when; case_match; by eexists.
  - cbn [andb when]. exists (hist w). by destruct w.
Qed.

End system_spec.

(** The case of a known state. *)
Ltac handler_at Hst :=
  unfold handler, getBatteryLevel, getChargingStatus; cbv [bind get_sys gets]; rewrite Hst.

(** ** Properties *)

Section system_theorems.
Context `{Env} `{CJSON} `{!DownloaderOps}.

(** C1 (the control graph).  One turn of the handler leaves the machine where
    it is or takes it along an edge of [successors], directly or by way of a
    sound; [SYS_ERROR] and [SYS_TURN_OFF] are never left by the handler. *)
Theorem handler_follows_graph (w w' : world) (Hs : DownloaderSpec) (Hr : handler w = Ok ((), w')) :
  (control w' = control w ∨
   ∃ t, t ∈ successors (state (sys w)) (playerGoBackToState (sys w)) ∧ at_target t (control w')) ∧
  (state (sys w) = SYS_ERROR ∨ state (sys w) = SYS_TURN_OFF → control w' = control w).
Proof.
  apply handler_leads in Hr. split; [done|].
  intros [E|E]; rewrite E in Hr; destruct Hr as [|(t & Ht & _)]; set_solver.
Qed.

(** Five minutes of idling.  In [SYS_IDLE] the timeout comes first: when
    the box has been idle for 300 s it goes to shut down and the turn does
    nothing else, whatever lies on the pad. *)
Theorem idle_timeout (w : world) (Hst : state (sys w) = SYS_IDLE)
    (Hlate : elapsed (idleSinceTick (sys w)) 300000 w = true) :
  handler w = Ok ((), update sys (set state SYS_SHUT_ME_DOWN) (ticked 2 w)).
Proof.
  unfold handler, getBatteryLevel, getChargingStatus. cbv [bind get_sys gets]. rewrite Hst.
  unfold case_IDLE. cbv [get_sys gets]. unfold bind at 1.
  rewrite (bind_run _ _ _ _ _ (TimeSpent_elapsed_run _ _ _)), Hlate. done.
Qed.

(** The battery check before a track.  Before every track the machine
    stops when the battery is below 28, goes on when it is at least 35 or the
    box is charging, and otherwise plays the "battery low" tone (when it is
    on the card) and then shuts down. *)
Theorem battery_before_track (w : world) (j i : Z)
    (Hst : state (sys w) = SYS_PLAY_NEXT) (Hj : json (sys w) = Some j)
    (Hi : i = u8 (indexx (sys w) + 1)) (Hn : i < cJSON_GetArraySize j) :
  ∃ w', handler w = Ok ((), w') ∧ indexx (sys w') = i ∧
    control w' = gate_control (batteryLevel (sys w)) (chargingState (sys w))
      (has_file BAT_LOW_TONE_SDCARD_LOCATION w) (playerGoBackToState (sys w)).
Proof.
  unfold handler, getBatteryLevel, getChargingStatus. cbv [bind get_sys gets]. rewrite Hst.
  unfold case_PLAY_NEXT. destruct (SkipCurrentAudio_run w) as [h Hk].
  rewrite (bind_run _ _ _ _ _ Hk). unfold playlist. cbv [bind get_sys gets put_sys modify].
  match goal with |- context [lift _ ?x] => set (w1 := x) end.
  change (json (sys w1)) with (json (sys w)). rewrite Hj. cbn [from_option_res lift].
  change (indexx (sys w1)) with (u8 (indexx (sys w) + 1)). rewrite <-Hi, bool_decide_false by lia.
  destruct (battery_gate_run (batteryLevel (sys w)) (chargingState (sys w)) w1) as (w' & Hr & Hre & _ & Hc).
  exists w'. split; [exact Hr|]. split; [|exact Hc].
  unfold rest in Hre. apply (f_equal indexx) in Hre. simpl in Hre. rewrite Hre. by subst i.
Qed.

(** C31 (the end of the playlist).  "Next" counts in one byte: the playlist is
    complete exactly when its size is not above the new index.  With at most
    255 tracks that is after the last track; a playlist of 256 tracks or more
    is never complete, but starts over. *)
Theorem playlist_end (w : world) (j n : Z) (En : cJSON_GetArraySize j = n)
    (Hst : state (sys w) = SYS_PLAY_NEXT) (Hj : json (sys w) = Some j) (Hx : byte_ok (indexx (sys w))) :
  ∃ w', handler w = Ok ((), w') ∧
    indexx (sys w') = (if bool_decide (indexx (sys w) = 255) then 0 else indexx (sys w) + 1) ∧
    (state (sys w') = SYS_PLAYING_COMPLETE ↔ n <= indexx (sys w')) ∧
    (n <= 255 → indexx (sys w) = n - 1 → state (sys w') = SYS_PLAYING_COMPLETE) ∧
    (256 <= n → state (sys w') ≠ SYS_PLAYING_COMPLETE).
Proof.
  assert (u8 (indexx (sys w) + 1) = if bool_decide (indexx (sys w) = 255) then 0 else indexx (sys w) + 1) as Hu.
  { unfold byte_ok in Hx. case_bool_decide as E; [by rewrite E|]. unfold u8. apply Z.mod_small. lia. }
  unfold handler, getBatteryLevel, getChargingStatus. cbv [bind get_sys gets]. rewrite Hst.
  unfold case_PLAY_NEXT. destruct (SkipCurrentAudio_run w) as [h Hk].
  rewrite (bind_run _ _ _ _ _ Hk). unfold playlist. cbv [bind get_sys gets put_sys modify].
  match goal with |- context [lift _ ?x] => set (w1 := x) end.
  change (json (sys w1)) with (json (sys w)). rewrite Hj. cbn [from_option_res lift]. rewrite En.
  change (indexx (sys w1)) with (u8 (indexx (sys w) + 1)).
  assert (∃ w', (if bool_decide (n <= u8 (indexx (sys w) + 1)) then setState SYS_PLAYING_COMPLETE
      else battery_gate (batteryLevel (sys w)) (chargingState (sys w))) w1 = Ok ((), w') ∧
    indexx (sys w') = u8 (indexx (sys w) + 1) ∧
    (state (sys w') = SYS_PLAYING_COMPLETE ↔ n <= u8 (indexx (sys w) + 1))) as (w' & Hr & Hi & Hc).
  { destruct (decide (n <= u8 (indexx (sys w) + 1))) as [Hle|Hle];
      [rewrite bool_decide_true by done|rewrite bool_decide_false by done].
    - destruct (setState_spec SYS_PLAYING_COMPLETE w1) as (w' & Hr & Hc & Hre & _).
      exists w'. split; [exact Hr|]. unfold control in Hc. injection Hc as Hc _.
      unfold rest in Hre. apply (f_equal indexx) in Hre. simpl in Hre. by rewrite Hre, Hc.
    - destruct (battery_gate_run (batteryLevel (sys w)) (chargingState (sys w)) w1) as (w' & Hr & Hre & _ & Hc).
      exists w'. split; [exact Hr|]. unfold control in Hc. apply (f_equal fst) in Hc. simpl in Hc.
      unfold rest in Hre. apply (f_equal indexx) in Hre. simpl in Hre. rewrite Hre. split; [done|].
      rewrite Hc. unfold gate_control. split; [|done]. by repeat case_match. }
  exists w'. split; [exact Hr|]. rewrite Hi, Hu in *. unfold byte_ok in Hx.
  split; [done|]. split; [done|]. rewrite Hc. split; case_bool_decide; lia.
Qed.

(** A toy wakes the box, even on a critical battery.  In [SYS_IDLE],
    before the timeout, a toy on the pad always has the last word: the machine
    goes to the toy, after the "toy detected" tone when the toy is a new one
    and the tone is on the card.  The battery is checked before but its
    decision to shut down is overwritten, for every level. *)
Theorem idle_toy_overrides_battery (w : world) (Hst : state (sys w) = SYS_IDLE)
    (Hearly : elapsed (idleSinceTick (sys w)) 300000 w = false) (Htoy : toyPresenseFlag (sys w) = true) :
  ∃ w', handler w = Ok ((), w') ∧ toyPlacedOnce (sys w') = true ∧
    if negb (bool_decide (toy (sys w) = previousToy (sys w))) && has_file TOY_DETECT_TONE_SDCARD_LOCATION w
    then control w' = (SYS_WAIT_FOR_PLAYER, SYS_TOY_DETECTED) else state (sys w') = SYS_TOY_DETECTED.
Proof.
  handler_at Hst. unfold case_IDLE. cbv [get_sys gets]. unfold bind at 1.
  rewrite (bind_run _ _ _ _ _ (TimeSpent_elapsed_run _ _ _)), Hearly.
  destruct (idle_battery_run (batteryLevel (sys w)) (chargingState (sys w)) (ticked 2 w))
    as (w1 & Hr1 & Hre1 & Hf1 & _).
  rewrite (bind_run _ _ _ _ _ Hr1).
  assert (toyPresenseFlag (sys w1) = true ∧ toy (sys w1) = toy (sys w) ∧
    previousToy (sys w1) = previousToy (sys w)) as (Hp & Ht & Hpt).
  { unfold rest in Hre1. split_and!; [rewrite <-Htoy; apply (f_equal toyPresenseFlag) in Hre1
      |apply (f_equal toy) in Hre1|apply (f_equal previousToy) in Hre1]; exact Hre1. }
  set (w2 := update sys (set toyPlacedOnce true) w1).
  assert (∃ w3, idle_toy w1 = Ok ((), w3) ∧ rest w3 = rest w2 ∧
    (if negb (bool_decide (toy (sys w) = previousToy (sys w))) && has_file TOY_DETECT_TONE_SDCARD_LOCATION w
     then control w3 = (SYS_WAIT_FOR_PLAYER, SYS_TOY_DETECTED) else state (sys w3) = SYS_TOY_DETECTED))
    as (w3 & Hr3 & Hre3 & Hc3).
  { unfold idle_toy. cbv [bind get_sys gets put_sys modify]. rewrite Hp. cbn [when].
    change (toy (sys (update sys (set toyPlacedOnce true) w1))) with (toy (sys w1)).
    change (previousToy (sys (update sys (set toyPlacedOnce true) w1))) with (previousToy (sys w1)).
    rewrite Ht, Hpt. unfold strcmp_eq. fold w2.
    destruct (bool_decide (toy (sys w) = previousToy (sys w))); cbn [negb andb].
    - destruct (setState_spec SYS_TOY_DETECTED w2) as (w3 & Hr & Hc & Hre & _).
      exists w3. unfold control in Hc. apply (f_equal fst) in Hc. by split_and!.
    - destruct (play_tone_run TOY_DETECT_TONE_SDCARD_LOCATION SYS_TOY_DETECTED w2) as (w3 & Hr & Hre & _ & Hc).
      exists w3. split_and!; [done..|]. unfold has_file.
      change (fs w2) with (fs w1) in Hc. rewrite Hf1 in Hc. change (fs (ticked 2 w)) with (fs w) in Hc.
      destruct (files (fs w) !! TOY_DETECT_TONE_SDCARD_LOCATION) as [c|].
      + rewrite bool_decide_true by by eexists. done.
      + rewrite bool_decide_false by by intros [? ?]. by apply (f_equal fst) in Hc. }
  rewrite (bind_run _ _ _ _ _ Hr3).
  destruct (idle_removal_run w3) as [h Hr4]. rewrite Hr4.
  assert (toyPresenseFlag (sys w3) = true ∧ toyPlacedOnce (sys w3) = true) as [Hp3 Ho3].
  { unfold rest in Hre3. split; [rewrite <-Hp; apply (f_equal toyPresenseFlag) in Hre3
      |apply (f_equal toyPlacedOnce) in Hre3]; exact Hre3. }
  rewrite Hp3. cbn [negb andb]. eexists. split; [done|]. split; [exact Ho3|exact Hc3].
Qed.

(** The toy's directory and the mark of a complete download are on the card. *)
Definition toy_ready (w : world) : bool :=
  bool_decide (strip_slash (lit "/sdcard/media/toys/" ++ toy (sys w)) ∈ dirs (fs w))
  && has_file (verify_path (toy (sys w))) w.

(** Content that is there and verified is played, everything else downloaded. *)
Lemma content_or_download_run go w : (length (toy (sys w)) < 20)%nat →
  content_or_download go w = (if toy_ready w then go else setState SYS_DOWNLOAD_WIFI_CONN) w.
Proof.
  intros Ht. unfold content_or_download, SdCard_exist, checkDownloadStatus, opendir, toy_ready, has_file.
  cbv [bind get_sys gets lift fopen_r ret].
  assert (sprintf 50 (lit "/sdcard/media/toys/" ++ toy (sys w)) = Ok (lit "/sdcard/media/toys/" ++ toy (sys w))) as ->.
  { unfold sprintf. rewrite bool_decide_true; [done|]. rewrite length_app.
    change (length (lit "/sdcard/media/toys/")) with 19%nat. lia. }
  assert (sprintf 100 (verify_path (toy (sys w))) = Ok (verify_path (toy (sys w)))) as ->.
  { unfold sprintf, verify_path. rewrite bool_decide_true; [done|]. rewrite !length_app.
    change (length (lit "/sdcard/media/toys/")) with 19%nat.
    change (length (lit "/verify.txt")) with 11%nat. lia. }
  case_bool_decide; cbn [andb]; [|done]. case_bool_decide; done.
Qed.

(** C20 (a toy on the pad).  Content that is missing or incomplete is
    downloaded.  A new toy starts from the beginning; the toy that was on the
    pad last is resumed exactly when it faces the same way as before and less
    than ten seconds have passed since [toyRemovalTick], and starts over
    otherwise.  The turn clears the tick for the toy that was on the pad last
    and leaves it alone for another one.  (The tick need not be the time of
    this toy's removal, see [removal_timer_stale].) *)
Theorem toy_detected (w : world) (Hst : state (sys w) = SYS_TOY_DETECTED) (Ht : (length (toy (sys w)) < 20)%nat) :
  ∃ w', handler w = Ok ((), w') ∧
    state (sys w') =
      (if negb (toy_ready w) then SYS_DOWNLOAD_WIFI_CONN
       else if bool_decide (toy (sys w) = previousToy (sys w) ∧ previousTurntable (sys w) = turnTable (sys w))
               && negb (elapsed (toyRemovalTick (sys w)) 10000 w)
       then SYS_RESUME_PLAYING else SYS_PLAY_TOY) ∧
    toyRemovalTick (sys w') =
      if bool_decide (toy (sys w) = previousToy (sys w)) then 0 else toyRemovalTick (sys w).
Proof.
  assert (∀ go, content_or_download go w = (if toy_ready w then go else setState SYS_DOWNLOAD_WIFI_CONN) w) as Hgo
    by (intros; by apply content_or_download_run).
  assert (∀ s w1, rest w1 = rest w → ∃ w', setState s w1 = Ok ((), w') ∧ state (sys w') = s ∧
    toyRemovalTick (sys w') = toyRemovalTick (sys w)) as Hset.
  { intros s w1 Hre1. destruct (setState_spec s w1) as (w' & Hr & Hc & Hre & _). exists w'. split; [done|].
    split; [by apply (f_equal fst) in Hc|]. rewrite Hre1 in Hre. unfold rest in Hre.
    apply (f_equal toyRemovalTick) in Hre. exact Hre. }
  assert (∃ w1, same_toy_again w = Ok ((), w1) ∧
    state (sys w1) = (if bool_decide (previousTurntable (sys w) = turnTable (sys w))
      && negb (elapsed (toyRemovalTick (sys w)) 10000 w) then SYS_RESUME_PLAYING else SYS_PLAY_TOY))
    as (ws & Hsr & Hss).
  { unfold same_toy_again, getTurnTable. cbv [bind get_sys gets]. case_bool_decide; cbn [andb].
    - rewrite TimeSpent_elapsed_run. destruct (elapsed _ _ _); cbn [negb].
      + destruct (Hset SYS_PLAY_TOY (ticked 2 w)) as (w1 & ? & ? & _); [done|]. by exists w1.
      + destruct (Hset SYS_RESUME_PLAYING (ticked 2 w)) as (w1 & ? & ? & _); [done|]. by exists w1.
    - destruct (Hset SYS_PLAY_TOY w) as (w1 & ? & ? & _); [done|]. by exists w1. }
  destruct (Hset SYS_DOWNLOAD_WIFI_CONN w eq_refl) as (wd & Hdr & Hds & Hdt).
  destruct (Hset SYS_PLAY_TOY w eq_refl) as (wp' & Hpr & Hps & Hpt).
  handler_at Hst. unfold case_TOY_DETECTED, strcmp_eq. cbv [get_sys gets]. do 2 unfold bind at 1.
  destruct (decide (toy (sys w) = previousToy (sys w))) as [E|E].
  - rewrite !(bool_decide_true (toy (sys w) = previousToy (sys w))) by done.
    rewrite (bool_decide_ext (_ ∧ _) (previousTurntable (sys w) = turnTable (sys w))) by naive_solver.
    unfold bind. rewrite Hgo. destruct (toy_ready w); cbn [negb].
    + rewrite Hsr. eexists. split; [done|]. split; [exact Hss|done].
    + rewrite Hdr. eexists. split; [done|]. split; [exact Hds|done].
  - rewrite !(bool_decide_false (toy (sys w) = previousToy (sys w))) by done.
    rewrite (bool_decide_false (_ ∧ _)) by naive_solver. cbn [andb].
    rewrite Hgo. destruct (toy_ready w); cbn [negb]; eexists; by split_and!.
Qed.

(** A stale removal timer.  When another toy is placed, the timer of the
    earlier removal keeps running: the next removal does not restart it, so
    the "ten seconds" of [toy_detected] are counted from the first removal. *)
Theorem removal_timer_stale (w : world) (Hst : state (sys w) = SYS_IDLE)
    (Hearly : elapsed (idleSinceTick (sys w)) 300000 w = false)
    (Hgone : toyPresenseFlag (sys w) = false) (Honce : toyPlacedOnce (sys w) = true)
    (Hbat : 35 <= batteryLevel (sys w)) :
  ∃ w', handler w = Ok ((), w') ∧ control w' = control w ∧
    toyRemovalTick (sys w') = (if bool_decide (toyRemovalTick (sys w) = 0)
                               then u32 (first_ms (ticked 2 w)) else toyRemovalTick (sys w)).
Proof.
  handler_at Hst. unfold case_IDLE. cbv [get_sys gets]. unfold bind at 1.
  rewrite (bind_run _ _ _ _ _ (TimeSpent_elapsed_run _ _ _)), Hearly.
  destruct (idle_battery_run (batteryLevel (sys w)) (chargingState (sys w)) (ticked 2 w))
    as (w1 & Hr1 & _ & _ & Hsame). rewrite Hsame in Hr1 by done. rewrite (bind_run _ _ _ _ _ Hr1).
  assert (idle_toy (ticked 2 w) = Ok ((), ticked 2 w)) as Hr2.
  { unfold idle_toy. cbv [bind get_sys gets]. change (sys (ticked 2 w)) with (sys w). by rewrite Hgone. }
  rewrite (bind_run _ _ _ _ _ Hr2). destruct (idle_removal_run (ticked 2 w)) as [h ->].
  change (sys (ticked 2 w)) with (sys w). rewrite Hgone, Honce. cbn [negb andb].
  eexists. split; [done|]. by case_bool_decide.
Qed.

(** The answer of the child: the left ear is 0, the right ear is 1. *)
Definition answer (w : world) : option Z :=
  if leftEarButtonState (sys w) then Some 0
  else if rightEarButtonState (sys w) then Some 1 else None.

(** Where the quiz goes after a wrong answer or none. *)
Definition after_failure (attempt : Z) : system_states_et :=
  if bool_decide (attempt = 1) then SYS_INCORRECT_ANS_TRY1 else SYS_CORRECT_ANS.

Lemma qna_failed_run w : qnaAttempt (sys w) = 1 ∨ qnaAttempt (sys w) = 2 →
  ∃ w', qna_failed w = Ok ((), w') ∧ state (sys w') = after_failure (qnaAttempt (sys w)) ∧ rest w' = rest w.
Proof.
  intros Ha. unfold qna_failed, after_failure. cbv [bind get_sys gets].
  destruct (setState_spec SYS_INCORRECT_ANS_TRY1 w) as (w1 & Hr1 & Hc1 & Hre1 & _).
  destruct (setState_spec SYS_CORRECT_ANS w) as (w2 & Hr2 & Hc2 & Hre2 & _).
  apply (f_equal fst) in Hc1, Hc2.
  destruct Ha as [-> | ->]; [exists w1|exists w2]; by split_and!.
Qed.

(** C23 (the quiz).  While it waits for the answer to a question the machine
    goes on exactly when an ear is pressed or ten seconds have passed: to the
    praise for the right answer, otherwise to the second try after the first
    failure and to the solution after the second.  The attempt counter does
    not change here, so a question takes at most two attempts. *)
Theorem quiz_response (w : world) (Hst : state (sys w) = SYS_WAIT_QNA_RESP)
    (Ha : qnaAttempt (sys w) = 1 ∨ qnaAttempt (sys w) = 2) :
  ∃ w', handler w = Ok ((), w') ∧ rest w' = rest w ∧
    state (sys w') =
      match answer w with
      | Some a => if bool_decide (a = hdr_A (headerData (plr w))) then SYS_CORRECT_ANS
                  else after_failure (qnaAttempt (sys w))
      | None => if elapsed (responseWaitTick (plr w)) 10000 w
                then after_failure (qnaAttempt (sys w)) else SYS_WAIT_QNA_RESP
      end.
Proof.
  assert (qna_response w = Ok (default 5 (answer w), w)) as Hresp.
  { unfold qna_response, getLeftEarButton, getRightEarButton, answer. cbv [bind get_sys gets ret].
    destruct (leftEarButtonState (sys w)); [done|]. by destruct (rightEarButtonState (sys w)). }
  destruct (setState_spec SYS_CORRECT_ANS w) as (wc & Hcr & Hcc & Hcre & _). apply (f_equal fst) in Hcc.
  destruct (qna_failed_run w Ha) as (wf & Hfr & Hfs & Hfre).
  handler_at Hst. unfold case_WAIT_QNA_RESP. rewrite (bind_run _ _ _ _ _ Hresp).
  destruct (answer w) as [a|] eqn:Hans; [change (default 5 (Some a)) with a|change (default 5 None) with 5].
  - assert (a ≠ 5) as Ha5 by (unfold answer in Hans; repeat case_match; simplify_eq; lia).
    rewrite (bool_decide_false (a = 5)) by done. cbn [negb]. cbv [bind get_plr gets].
    case_bool_decide; [exists wc|exists wf]; by split_and!.
  - rewrite (bool_decide_true (5 = 5)) by done. cbn [negb]. cbv [bind get_plr gets].
    rewrite TimeSpent_elapsed_run. destruct (elapsed _ _ _); cbn [when].
    + destruct (qna_failed_run (ticked 2 w) Ha) as (wf2 & Hfr2 & Hfs2 & Hfre2). exists wf2; by split_and!.
    + by exists (ticked 2 w).
Qed.

(** The second try.  After a first failure the machine announces it,
    forgets the presses so far, opens the window for an answer again, notes
    that the next attempt is the second and comes back to wait for it. *)
Theorem quiz_second_try (w : world) (j item : Z) (name : bytes)
    (Hst : state (sys w) = SYS_INCORRECT_ANS_TRY1) (Hj : json (sys w) = Some j)
    (Hi : cJSON_GetObjectItem j (audioIndex (plr w)) = item) (Hi0 : item ≠ 0)
    (Hn : valuestring item = Some name) (Hl : (length name < 70)%nat) :
  ∃ w', handler w = Ok ((), w') ∧ control w' = (SYS_WAIT_FOR_PLAYER, SYS_WAIT_QNA_RESP) ∧
    qnaAttempt (sys w') = 2 ∧ answer w' = None ∧ isResponseRequiredFlag (plr w') = true ∧
    location (plr w') = audio_path name (lit "W").
Proof.
  handler_at Hst. unfold case_INCORRECT_ANS_TRY1.
  assert (expect_response w = Ok ((), update plr (set responseWaitTick (u32 (first_ms w)))
    (ticked 1 (update sys (set rightEarButtonState false) (update sys (set leftEarButtonState false)
      (update plr (set isResponseRequiredFlag true) w)))))) as He by done.
  rewrite (bind_run _ _ _ _ _ He). match goal with |- context [bind (answer_location _) _ ?x] => set (w1 := x) end.
  assert (answer_location (lit "W") w1 = Ok (audio_path name (lit "W"),
    update plr (set location (audio_path name (lit "W"))) w1)) as Hloc.
  { unfold answer_location, item_string. cbv [bind get_plr get_sys gets].
    change (json (sys w1)) with (json (sys w)). change (audioIndex (plr w1)) with (audioIndex (plr w)).
    rewrite Hj. cbn [from_option_res lift]. rewrite Hi, bool_decide_false, Hn by done. cbn [from_option_res lift].
    unfold sprintf. rewrite bool_decide_true; [done|]. unfold audio_path. rewrite !length_app.
    change (length (lit "/sdcard/media/audio/")) with 20%nat. change (length (lit "W")) with 1%nat.
    change (length (lit ".mp3")) with 4%nat. lia. }
  rewrite (bind_run _ _ _ _ _ Hloc). match goal with |- context [bind (play _) _ ?x] => set (w2 := x) end.
  destruct (play_run (audio_path name (lit "W")) w2) as (w3 & Hr & Hs & _ & _).
  rewrite (bind_run _ _ _ _ _ Hr). cbv [bind put_sys modify].
  assert (isResponseRequiredFlag (plr w3) = isResponseRequiredFlag (plr w2) ∧
    location (plr w3) = location (plr w2)) as [Hf Hlo].
  { assert (keeps (λ w, (isResponseRequiredFlag (plr w), location (plr w))) (play (audio_path name (lit "W")))) as Hk
      by keeps. apply Hk in Hr. by injection Hr. }
  eexists. split; [reflexivity|]. unfold control, answer. simpl. rewrite Hs, Hf, Hlo. done.
Qed.

(** Activities listen to the left ear only.  While an activity waits for
    a response and its ten seconds have not passed, the machine goes on
    exactly when the left ear is pressed, whatever the right one says. *)
Theorem activity_ignores_right_ear (w : world) (Hst : state (sys w) = SYS_WAIT_ACTIVITY_RESP)
    (Hearly : elapsed (responseWaitTick (plr w)) 10000 w = false) :
  ∃ w', handler w = Ok ((), w') ∧
    state (sys w') = if leftEarButtonState (sys w) then SYS_PLAY_NEXT else SYS_WAIT_ACTIVITY_RESP.
Proof.
  handler_at Hst. unfold case_WAIT_ACTIVITY_RESP, getLeftEarButton. cbv [bind get_plr get_sys gets].
  rewrite TimeSpent_elapsed_run, Hearly. cbn [orb].
  change (leftEarButtonState (sys (ticked 2 w))) with (leftEarButtonState (sys w)).
  destruct (leftEarButtonState (sys w)); cbn [orb when]; eexists; by split.
Qed.

(** A key during the start-up tone.  After power-on there is no playlist
    yet.  When the start-up tone is on the card, a press of "next" while it
    plays makes the next turn use the indeterminate playlist pointer. *)
Theorem next_during_startup_faults (w : world) (Hst : state (sys w) = SYS_INIT) (Hj : json (sys w) = None)
    (Htone : has_file STARTUP_TONE_SDCARD_LOCATION w = true) :
  ∃ w1 w2, handler w = Ok ((), w1) ∧ Player_next w1 = Ok ((), w2) ∧ handler w2 = Fault Uninitialised.
Proof.
  assert (∃ w1, handler w = Ok ((), w1) ∧ control w1 = (SYS_WAIT_FOR_PLAYER, SYS_IDLE) ∧ json (sys w1) = None)
    as (w1 & Hr & Hc & Hj1).
  { handler_at Hst.
    assert (∃ w0, case_INIT w = play_tone STARTUP_TONE_SDCARD_LOCATION SYS_IDLE w0 ∧ sys w0 = sys w ∧ fs w0 = fs w)
      as (w0 & -> & Hs0 & Hf0) by (eexists; split; [reflexivity|done]).
    destruct (play_tone_run STARTUP_TONE_SDCARD_LOCATION SYS_IDLE w0) as (w1 & Hr1 & Hre & _ & Hc).
    exists w1. split; [exact Hr1|]. unfold has_file in Htone. rewrite Hf0 in Hc.
      destruct (files (fs w) !! STARTUP_TONE_SDCARD_LOCATION); [|by rewrite bool_decide_false in Htone by by intros [? ?]].
      split; [done|]. unfold rest in Hre. apply (f_equal json) in Hre.
      change (json (sys w1) = json (sys w0)) in Hre. by rewrite Hre, Hs0. }
  exists w1. unfold control in Hc. injection Hc as Hst1 _.
  exists (update sys (set state SYS_PLAY_NEXT) w1). split; [done|]. split.
  - unfold Player_next. cbv [bind get_sys gets]. rewrite Hst1. done.
  - assert (state (sys (update sys (set state SYS_PLAY_NEXT) w1)) = SYS_PLAY_NEXT) as Hst2 by done.
    handler_at Hst2. unfold case_PLAY_NEXT.
    destruct (SkipCurrentAudio_run (update sys (set state SYS_PLAY_NEXT) w1)) as [h Hk].
    rewrite (bind_run _ _ _ _ _ Hk). unfold playlist. cbv [bind get_sys gets put_sys modify].
    match goal with |- context [lift _ ?x] => change (json (sys x)) with (json (sys w1)) end.
    by rewrite Hj1.
Qed.


End system_theorems.

(** ** Witnesses *)

Section system_spec_witnesses.
#[local] Instance sample_env : Env := Sample.env AEL_STATE_RUNNING.

(** Every playlist has two tracks, and every item is the string "a1". *)
#[local] Instance sample_json : CJSON := {|
  cJSON_Parse _ := 1;
  cJSON_ParseWithLength _ := 1;
  cJSON_Duplicate j := j;
  cJSON_GetObjectItem _ _ := 2;
  cJSON_GetObjectItemCaseSensitive _ _ := 0;
  cJSON_GetArraySize _ := 2;
  cJSON_GetArrayItem _ _ := 2;
  cJSON_IsString _ := true;
  cJSON_IsNumber _ := false;
  cJSON_IsArray _ := false;
  cJSON_IsTrue _ := false;
  valuestring _ := Some (lit "a1");
  valueint _ := 0;
|}.

#[local] Instance no_download : DownloaderOps :=
  {| downloadToken := skip; download_begin _ := ret false |}.

#[local] Instance no_download_spec : DownloaderSpec.
Proof. split; keeps. Qed.

Definition in_state (s : system_states_et) : world := update sys (set state s) Sample.world0.
Definition with_file (path : bytes) (w : world) : world :=
  update fs (update files (<[path := [0]]>)) w.

Example handler_follows_graph_witness :
  ∃ w', handler (in_state SYS_PLAY_TOY) = Ok ((), w') ∧
    (control w' = control (in_state SYS_PLAY_TOY) ∨
     ∃ t, t ∈ successors SYS_PLAY_TOY SYS_POST ∧ at_target t (control w')).
Proof.
  eexists. split; [reflexivity|].
  apply (handler_follows_graph (in_state SYS_PLAY_TOY) _ no_download_spec). reflexivity.
Defined.

(** The clock shows 400 s. *)
Definition late_env : Env := {|
  env_time _ := 400000000;
  env_el_state _ := AEL_STATE_other;
  env_msg _ := Some Sample.no_msg;
  env_stack _ := Sample.no_msg;
  env_bits _ := 0;
  env_http _ := Sample.no_answer;
  env_disconnects _ := true;
  env_freed_close _ := true;
  env_readdir _ _ := None;
  env_err _ := 0;
  env_getfree _ := None;
  FF_SS_SDCARD := 512;
|}.

Example idle_timeout_witness :
  ∃ w', @handler late_env sample_json no_download (in_state SYS_IDLE) = Ok ((), w') ∧
    state (sys w') = SYS_SHUT_ME_DOWN.
Proof.
  eexists. split; [apply (@idle_timeout late_env sample_json no_download (in_state SYS_IDLE));
    vm_compute; reflexivity|]. reflexivity.
Defined.

Definition next_world : world := update sys (λ s, set json (Some 1) (set state SYS_PLAY_NEXT s)) Sample.world0.

Example battery_before_track_witness :
  ∃ w', handler next_world = Ok ((), w') ∧ control w' = (SYS_SHUT_ME_DOWN, SYS_POST).
Proof.
  destruct (battery_before_track next_world 1 1) as (w' & Hr & _ & Hc);
    [vm_compute; reflexivity..|].
  exists w'. split; [exact Hr|]. rewrite Hc. vm_compute. reflexivity.
Defined.

Example playlist_end_witness :
  ∃ w', handler (update sys (set indexx 1) next_world) = Ok ((), w') ∧ state (sys w') = SYS_PLAYING_COMPLETE.
Proof.
  destruct (playlist_end (update sys (set indexx 1) next_world) 1 2) as (w' & Hr & _ & _ & Hc & _).
  - vm_compute. reflexivity.
  - vm_compute. reflexivity.
  - vm_compute. reflexivity.
  - vm_compute. split; congruence.
  - exists w'. split; [exact Hr|]. apply Hc; [vm_compute; congruence|vm_compute; reflexivity].
Defined.

Example idle_toy_overrides_battery_witness :
  ∃ w', handler (update sys (λ s, set toyPresenseFlag true (set toy (lit "A1") s)) (in_state SYS_IDLE)) = Ok ((), w')
    ∧ state (sys w') = SYS_TOY_DETECTED.
Proof.
  destruct (idle_toy_overrides_battery
    (update sys (λ s, set toyPresenseFlag true (set toy (lit "A1") s)) (in_state SYS_IDLE))) as (w' & Hr & _ & Hc).
  - vm_compute. reflexivity.
  - vm_compute. reflexivity.
  - vm_compute. reflexivity.
  - exists w'. split; [exact Hr|]. vm_compute in Hc. exact Hc.
Defined.

Example toy_detected_witness :
  ∃ w', handler (in_state SYS_TOY_DETECTED) = Ok ((), w').
Proof.
  destruct (toy_detected (in_state SYS_TOY_DETECTED)) as (w' & Hr & _).
  - vm_compute. reflexivity.
  - vm_compute. lia.
  - exists w'. exact Hr.
Defined.

Definition removed_world : world :=
  update sys (λ s, set toyPlacedOnce true (set toyRemovalTick 5 (set batteryLevel 80 s))) (in_state SYS_IDLE).

Example removal_timer_stale_witness :
  ∃ w', handler removed_world = Ok ((), w') ∧ toyRemovalTick (sys w') = 5.
Proof.
  destruct (removal_timer_stale removed_world) as (w' & Hr & _ & Hc).
  - vm_compute. reflexivity.
  - vm_compute. reflexivity.
  - vm_compute. reflexivity.
  - vm_compute. reflexivity.
  - vm_compute. congruence.
  - exists w'. split; [exact Hr|]. rewrite Hc. vm_compute. reflexivity.
Defined.

Definition quiz_world : world :=
  update sys (λ s, set qnaAttempt 1 (set rightEarButtonState true s)) (in_state SYS_WAIT_QNA_RESP).

Example quiz_response_witness :
  ∃ w', handler quiz_world = Ok ((), w') ∧ state (sys w') = SYS_INCORRECT_ANS_TRY1.
Proof.
  destruct (quiz_response quiz_world) as (w' & Hr & _ & Hs).
  - vm_compute. reflexivity.
  - left. vm_compute. reflexivity.
  - exists w'. split; [exact Hr|]. rewrite Hs. vm_compute. reflexivity.
Defined.

Definition second_try_world : world := update sys (set json (Some 1)) (in_state SYS_INCORRECT_ANS_TRY1).

Example quiz_second_try_witness :
  ∃ w', handler second_try_world = Ok ((), w') ∧ qnaAttempt (sys w') = 2.
Proof.
  destruct (quiz_second_try second_try_world 1 2 (lit "a1")) as (w' & Hr & _ & Hq & _);
    [vm_compute; reflexivity|vm_compute; reflexivity|vm_compute; reflexivity|lia
    |vm_compute; reflexivity|vm_compute; lia|].
  exists w'. split; [exact Hr|exact Hq].
Defined.

Example activity_ignores_right_ear_witness :
  ∃ w', handler (update sys (set rightEarButtonState true) (in_state SYS_WAIT_ACTIVITY_RESP)) = Ok ((), w') ∧
    state (sys w') = SYS_WAIT_ACTIVITY_RESP.
Proof.
  destruct (activity_ignores_right_ear
    (update sys (set rightEarButtonState true) (in_state SYS_WAIT_ACTIVITY_RESP))) as (w' & Hr & Hs);
    [vm_compute; reflexivity..|].
  exists w'. split; [exact Hr|exact Hs].
Defined.

Example next_during_startup_faults_witness :
  let w := with_file STARTUP_TONE_SDCARD_LOCATION (in_state SYS_INIT) in
  ∃ w1 w2, handler w = Ok ((), w1) ∧ Player_next w1 = Ok ((), w2) ∧ handler w2 = Fault Uninitialised.
Proof.
  intros w. apply (next_during_startup_faults w); vm_compute; reflexivity.
Defined.


End system_spec_witnesses.
