(* ===== verification/Initializer.v ===== *)
(** * Initializer: the earlier home of the box's initialisation
    (main/src/initializer.cpp, main/inc/initializer.h)

    The class Initializer runs the checks of new credentials and users in a
    task of its own.  main/CMakeLists.txt no longer builds it: its methods were
    moved into the class System.  The two versions are compared here. *)

From S2P Require Import Prelude CString World SystemBase Player SdCard Wifi Ble SystemHandler SystemControl SystemSpec.
#[local] Open Scope M_scope.

(** ** Definitions *)

Inductive init_states_et := eINIT_IDLE | eINIT_WIFI_CHECK | eINIT_USER_ID_CHECK.

#[export] Instance init_states_eq_dec : EqDecision init_states_et.
Proof. solve_decision. Defined.

(** The members; [tasks] counts the tasks that run [InitializeTask]. *)
Record init_st := MkInit {
  initState : init_states_et;
  i_ssid : bytes;                             (* char[32] *)
  i_password : bytes;                         (* char[64] *)
  i_user1 : bytes;                            (* char[50] *)
  i_user2 : bytes;                            (* char[50] *)
  i_outputBuff : bytes;                       (* static uint8_t[8*1024] *)
  tasks : nat;
}.

#[export] Instance eta_init : Eta init_st := λ r,
  MkInit (initState r) (i_ssid r) (i_password r) (i_user1 r) (i_user2 r) (i_outputBuff r) (tasks r).
#[export] Instance upd_initState : Update initState. Proof. derive_update. Defined.
#[export] Instance upd_i_ssid : Update i_ssid. Proof. derive_update. Defined.
#[export] Instance upd_i_password : Update i_password. Proof. derive_update. Defined.
#[export] Instance upd_i_user1 : Update i_user1. Proof. derive_update. Defined.
#[export] Instance upd_i_user2 : Update i_user2. Proof. derive_update. Defined.
#[export] Instance upd_i_outputBuff : Update i_outputBuff. Proof. derive_update. Defined.
#[export] Instance upd_tasks : Update tasks. Proof. derive_update. Defined.

(** The firmware together with the Initializer object. *)
Definition IM (A : Type) : Type := M (world * init_st) A.

Definition inW {A} (m : FW A) : IM A := λ wi,
  match m wi.1 with Ok (a, w') => Ok (a, (w', wi.2)) | Fault f => Fault f end.
Definition get_i {A} (p : init_st → A) : IM A := gets (λ wi, p wi.2).
Definition put_i {A} (p : init_st → A) `{!Update p} (v : A) : IM () := modify (λ wi, (wi.1, set p v wi.2)).

Section initializer.
Context `{Env} `{CJSON} `{DownloaderOps}.

Definition create_task : IM () :=
  inW (emit (xTaskCreate (lit "initialize") 6000 21));;
  n ← get_i tasks;
  put_i tasks (S n).

Definition delete_task : IM () :=
  inW (emit vTaskDelete);;
  n ← get_i tasks;
  put_i tasks (pred n).

(** [char*] arguments are copied with [strcpy] into arrays filled with 0. *)
Definition Initializer_initialize (ssid password user1 : bytes) : IM () :=
  put_i i_user2 (memset0 50);;
  s ← lift (strcpy (memset0 32) ssid);
  put_i i_ssid s;;
  p ← lift (strcpy (memset0 64) password);
  put_i i_password p;;
  u ← lift (strcpy (memset0 50) user1);
  put_i i_user1 u;;
  create_task;;
  put_i initState eINIT_WIFI_CHECK.

Definition Initializer_verifyUserID (userToCheck : bytes) (userNo : Z) : IM () :=
  (if bool_decide (userNo = 1) then
     u ← lift (strcpy (memset0 50) userToCheck); put_i i_user1 u
   else if bool_decide (userNo = 2) then
     u ← lift (strcpy (memset0 50) userToCheck); put_i i_user2 u
   else skip);;
  create_task;;
  put_i initState eINIT_USER_ID_CHECK.

Definition Initializer_InitializerCallback (evt : http_event) : IM () :=
  match evt with
  | HTTP_EVENT_ON_DATA data =>
      buf ← get_i i_outputBuff;
      if bool_decide (length data ≤ length buf)%nat
      then put_i i_outputBuff (data ++ drop (length data) buf)
      else fail OutOfBounds
  | _ => skip
  end.

(** [esp_http_client_perform] with a handler that has the object. *)
Definition perform_i (url body : bytes) (on_event : http_event → IM ()) : IM http_answer :=
  inW (emit (esp_http_client_perform url body));;
  h ← inW (gets hist);
  let answer := env_http h in
  for_each (http_events answer) on_event;;
  ret answer.

Definition Initializer_verifyUserIdWithServer : IM bool :=
  valid ← inW (get_dl validTokenFlag);
  when (bool_decide (valid = 0)) (inW downloadToken);;
  r ← inW WiFi_connect;
  if bool_decide (r = 0) then
    b1 ← get_i i_user1;
    b2 ← get_i i_user2;
    let u1 := until_nul b1 in
    let u2 := until_nul b2 in
    mac ← inW getMacID;
    postData ← lift (sprintf 150 (verify_body mac u1 u2));
    answer ← perform_i HTTPS_VERIFY_USERID_URL postData Initializer_InitializerCallback;
    if negb (http_ok answer) then inW WiFi_disconnect;; ret false
    else
      inW (emit esp_http_client_cleanup);;
      buf ← get_i i_outputBuff;
      text ← lift (from_option_res OutOfBounds (cstr buf));
      let j := cJSON_Parse text in
      if bool_decide (j = 0) then ret false
      else
        (if negb (bool_decide (u1 = [])) then inW (user_verdict j (lit "user1") 1 u1)
         else when (negb (bool_decide (u2 = []))) (inW (user_verdict j (lit "user2") 2 u2)));;
        inW WiFi_disconnect;;
        ret true
  else inW WiFi_disconnect;; ret true.

(** One turn of the [while (1)] of [InitializeTask]. *)
Definition Initializer_handler : IM () :=
  st ← get_i initState;
  match st with
  | eINIT_IDLE => skip
  | eINIT_WIFI_CHECK =>
      s ← get_i i_ssid;
      p ← get_i i_password;
      ok ← inW (bleWriteCredentials (until_nul s) (until_nul p));
      put_i initState (if (ok : bool) then eINIT_USER_ID_CHECK else eINIT_IDLE)
  | eINIT_USER_ID_CHECK =>
      Initializer_verifyUserIdWithServer;;
      put_i initState eINIT_IDLE;;
      delete_task
  end.

End initializer.

(** ** Lemmas *)

Section initializer_lemmas.
Context `{Env} `{CJSON} `{!DownloaderOps} `{!DownloaderSpec}.

Lemma inW_bind {A B} (m : FW A) (k : A → IM B) w i a w1 : m w = Ok (a, w1) → bind (inW m) k (w, i) = k a (w1, i).
Proof. intros Hr. unfold bind, inW. simpl. by rewrite Hr. Qed.

Lemma lift_bind {A B} (r : res A) (a : A) (k : A → IM B) wi : r = Ok a → bind (lift r) k wi = k a wi.
Proof. by intros ->. Qed.

(** The world with another response buffer in the System object. *)
Definition with_buffer (b : bytes) (w : world) : world := update sys (set init_outputBuff b) w.

(** An operation that neither reads nor writes that buffer. *)
Definition apart_from_buffer {A} (m : FW A) : Prop := ∀ b w a w',
  m w = Ok (a, w') → m (with_buffer b w) = Ok (a, with_buffer b w').

Lemma apart_gets {A} (f : world → A) : (∀ b w, f (with_buffer b w) = f w) → apart_from_buffer (gets f).
Proof. intros Hf b w a w' [= <- <-]. unfold gets. by rewrite Hf. Qed.
Lemma apart_modify g : (∀ b w, g (with_buffer b w) = with_buffer b (g w)) → apart_from_buffer (modify g).
Proof. intros Hg b w a w' [= <- <-]. unfold modify. by rewrite Hg. Qed.
Lemma apart_ret {A} (a : A) : apart_from_buffer (ret a).
Proof. by intros b w a' w' [= <- <-]. Qed.
Lemma apart_lift {A} (r : res A) : apart_from_buffer (lift r).
Proof. intros b w a w'. unfold lift. by destruct r; intros [= <- <-]. Qed.
Lemma apart_bind {A B} (m : FW A) (k : A → FW B) :
  apart_from_buffer m → (∀ a, apart_from_buffer (k a)) → apart_from_buffer (bind m k).
Proof.
  intros Hm Hk b w c w2 (a & w1 & Hr1 & Hr2)%bind_Ok. rewrite (bind_run _ _ _ _ _ (Hm b _ _ _ Hr1)). by apply Hk.
Qed.

Ltac apart :=
  lazymatch goal with
  | |- apart_from_buffer (ret _) => apply apart_ret
  | |- apart_from_buffer skip => apply apart_ret
  | |- apart_from_buffer (gets _) => apply apart_gets; intros; reflexivity
  | |- apart_from_buffer (modify _) => apply apart_modify; intros; reflexivity
  | |- apart_from_buffer (lift _) => apply apart_lift
  | |- apart_from_buffer (bind _ _) => apply apart_bind; [apart|intros ?; apart]
  | |- apart_from_buffer (match ?x with _ => _ end) => destruct x; apart
  | |- apart_from_buffer ?m =>
      first
        [ progress cbv zeta beta; apart
        | let rec head t := lazymatch t with ?g _ => head g | _ => t end in
          let h := head m in unfold h; apart ]
  end.

Lemma apart_disconnect : apart_from_buffer WiFi_disconnect.
Proof. apart. Qed.
Lemma apart_verdict j key n user : apart_from_buffer (user_verdict j key n user).
Proof. apart. Qed.
Lemma apart_cleanup : apart_from_buffer (emit esp_http_client_cleanup).
Proof. apart. Qed.

(** What the events of a response leave in the two buffers. *)
Lemma callbacks_agree events w w1 x i : for_each events InitializerCallback w = Ok ((), w1) →
  init_outputBuff (sys w) = take 1024 (i_outputBuff i) → (1024 ≤ length (i_outputBuff i))%nat →
  ∃ buf, for_each events Initializer_InitializerCallback (x, i) = Ok ((), (x, set i_outputBuff buf i)) ∧
    w1 = with_buffer (take 1024 buf) w ∧ (1024 ≤ length buf)%nat.
Proof.
  revert w i. induction events as [|e events IH]; intros w i Hr Hb Hl; cbn [for_each] in *.
  { injection Hr as <-. exists (i_outputBuff i). split; [by destruct i|]. split; [|done].
    rewrite <-Hb. by destruct w as [? ? ? ? [] ? ? ? ? ?]. }
  apply bind_Ok in Hr as ([] & w0 & Hr0 & Hr).
  assert (∃ buf, Initializer_InitializerCallback e (x, i) = Ok ((), (x, set i_outputBuff buf i)) ∧
    w0 = with_buffer (take 1024 buf) w ∧ (1024 ≤ length buf)%nat) as (buf & Hi & -> & Hlb).
  { assert (skip w = Ok ((), w0) → ∃ buf, skip (x, i) = Ok ((), (x, set i_outputBuff buf i)) ∧
      w0 = with_buffer (take 1024 buf) w ∧ (1024 ≤ length buf)%nat) as Hskip.
    { intros [= <-]. exists (i_outputBuff i). split; [by destruct i|]. split; [|done].
      rewrite <-Hb. by destruct w as [? ? ? ? [] ? ? ? ? ?]. }
    destruct e as [| | |? ?|data| | |]; try (by apply Hskip). clear Hskip.
    cbn [InitializerCallback Initializer_InitializerCallback] in *. cbv [bind get_sys get_i gets] in *.
    rewrite Hb, length_take in Hr0. case_bool_decide as Hd; [|done]. injection Hr0 as <-.
    rewrite bool_decide_true by (simpl; lia). eexists. split; [reflexivity|]. split.
    - unfold with_buffer. do 3 f_equal. rewrite take_app_ge by lia. f_equal.
      by rewrite take_drop_commute, Nat.add_comm, Nat.sub_add by lia.
    - rewrite length_app, length_drop. simpl. lia. }
  rewrite (bind_run _ _ _ _ _ Hi).
  destruct (IH (with_buffer (take 1024 buf) w) (set i_outputBuff buf i)) as (buf' & Hr' & -> & Hl'); [done..|].
  exists buf'. split; [exact Hr'|]. by destruct w as [? ? ? ? [] ? ? ? ? ?].
Qed.

Lemma cstr_take n buf s : cstr (take n buf) = Some s → cstr buf = Some s.
Proof.
  revert n s. induction buf as [|c buf IH]; intros [|n] s; cbn [take cstr]; try done.
  case_bool_decide; [done|]. destruct (cstr (take n buf)) as [s'|] eqn:E; [|done].
  rewrite (IH _ _ E). done.
Qed.

End initializer_lemmas.

(** ** Properties *)

Section initializer_properties.
Context `{Env} `{CJSON} `{!DownloaderOps} `{!DownloaderSpec}.

(** The request with the members of the object. *)
Definition request_of (w : world) (i : init_st) : bytes :=
  verify_body (macID (sys w)) (until_nul (i_user1 i)) (until_nul (i_user2 i)).

Lemma WiFi_connect_sys : keeps sys WiFi_connect.
Proof. keeps. Qed.

Lemma token_sys c (w w1 : world) : when c downloadToken w = Ok ((), w1) → sys w1 = sys w.
Proof. destruct c; [apply spec_token|by intros [= <-]]. Qed.

(** The verdict, the end of the connection and the result, with either buffer. *)
Lemma verdict_agrees j u1 u2 b w w' i :
  ((if negb (bool_decide (u1 = [])) then user_verdict j (lit "user1") 1 u1
    else when (negb (bool_decide (u2 = []))) (user_verdict j (lit "user2") 2 u2));;
   WiFi_disconnect;; ret true) w = Ok (b, w') → ∀ buf,
  ((if negb (bool_decide (u1 = [])) then inW (user_verdict j (lit "user1") 1 u1)
    else when (negb (bool_decide (u2 = []))) (inW (user_verdict j (lit "user2") 2 u2)));;
   inW WiFi_disconnect;; ret true) (with_buffer buf w, i) = Ok (b, (with_buffer buf w', i)).
Proof.
  intros (a & w1 & Hr1 & (d & w2 & Hr2 & Hr3)%bind_Ok)%bind_Ok buf. injection Hr3 as <- <-.
  pose proof (apart_disconnect buf _ _ _ Hr2) as Hr2'.
  assert ((if negb (bool_decide (u1 = [])) then inW (user_verdict j (lit "user1") 1 u1)
    else when (negb (bool_decide (u2 = []))) (inW (user_verdict j (lit "user2") 2 u2))) (with_buffer buf w, i)
    = Ok (a, (with_buffer buf w1, i))) as Hv.
  { destruct (negb (bool_decide (u1 = []))); [|destruct (negb (bool_decide (u2 = [])))]; cbn [when] in *.
    - unfold inW. cbn [fst snd]. by rewrite (apart_verdict _ _ _ _ buf _ _ _ Hr1).
    - unfold inW. cbn [fst snd]. by rewrite (apart_verdict _ _ _ _ buf _ _ _ Hr1).
    - by injection Hr1 as <- <-. }
  rewrite (bind_run _ _ _ _ _ Hv). by rewrite (inW_bind _ _ _ _ _ _ Hr2').
Qed.

(** The request, the answer and the verdict. *)
Definition exchange (u1 u2 body : bytes) : FW bool :=
  answer ← http_perform HTTPS_VERIFY_USERID_URL body InitializerCallback;
  if negb (http_ok answer) then WiFi_disconnect;; ret false
  else
    emit esp_http_client_cleanup;;
    buf ← get_sys init_outputBuff;
    text ← lift (from_option_res OutOfBounds (cstr buf));
    if bool_decide (cJSON_Parse text = 0) then ret false
    else
      (if negb (bool_decide (u1 = [])) then user_verdict (cJSON_Parse text) (lit "user1") 1 u1
       else when (negb (bool_decide (u2 = []))) (user_verdict (cJSON_Parse text) (lit "user2") 2 u2));;
      WiFi_disconnect;;
      ret true.

Definition exchange_i (u1 u2 body : bytes) : IM bool :=
  answer ← perform_i HTTPS_VERIFY_USERID_URL body Initializer_InitializerCallback;
  if negb (http_ok answer) then inW WiFi_disconnect;; ret false
  else
    inW (emit esp_http_client_cleanup);;
    buf ← get_i i_outputBuff;
    text ← lift (from_option_res OutOfBounds (cstr buf));
    if bool_decide (cJSON_Parse text = 0) then ret false
    else
      (if negb (bool_decide (u1 = [])) then inW (user_verdict (cJSON_Parse text) (lit "user1") 1 u1)
       else when (negb (bool_decide (u2 = []))) (inW (user_verdict (cJSON_Parse text) (lit "user2") 2 u2)));;
      inW WiFi_disconnect;;
      ret true.

Definition response_buffer_of (w : world) : bytes := init_outputBuff (sys w).

Lemma verdict_buffer j u1 u2 : keeps response_buffer_of
  ((if negb (bool_decide (u1 = [])) then user_verdict j (lit "user1") 1 u1
    else when (negb (bool_decide (u2 = []))) (user_verdict j (lit "user2") 2 u2));; WiFi_disconnect;; ret true).
Proof. keeps. Qed.

Lemma exchange_agrees u1 u2 body w i b w' : exchange u1 u2 body w = Ok (b, w') →
  init_outputBuff (sys w) = take 1024 (i_outputBuff i) → (1024 ≤ length (i_outputBuff i))%nat →
  ∃ buf, exchange_i u1 u2 body (w, i) = Ok (b, (with_buffer (init_outputBuff (sys w)) w', set i_outputBuff buf i)) ∧
    init_outputBuff (sys w') = take 1024 buf.
Proof.
  intros Hr Hb Hl. set (w3 := update hist (esp_http_client_perform HTTPS_VERIFY_USERID_URL body ::.) w).
  set (answer := env_http (hist w3)). apply bind_Ok in Hr as (a & w4 & Hp & Hr).
  assert (a = answer ∧ for_each (http_events answer) InitializerCallback w3 = Ok ((), w4)) as [-> He].
  { unfold http_perform in Hp. apply bind_Ok in Hp as (? & ? & [= <- <-] & Hp). apply bind_Ok in Hp as (? & ? & [= <- <-] & Hp).
    apply bind_Ok in Hp as ([] & ? & He & [= <- <-]). by split. }
  destruct (callbacks_agree _ _ _ w3 i He) as (buf & Hi & E4 & Hlb); [done..|]. exists buf.
  set (i' := set i_outputBuff buf i) in *. set (b0 := init_outputBuff (sys w)).
  assert (init_outputBuff (sys w4) = take 1024 buf) as Eb4 by by rewrite E4.
  assert (with_buffer b0 w4 = w3) as E3.
  { rewrite E4. unfold with_buffer, b0, w3. by destruct w as [? ? ? ? [] ? ? ? ? ?]. }
  unfold exchange_i. rewrite (bind_run _ _ (w, i) answer (w3, i')).
  2: { unfold perform_i. rewrite (inW_bind _ _ _ _ _ _ eq_refl), (inW_bind _ _ _ _ _ _ eq_refl). fold w3 answer.
       by rewrite (bind_run _ _ _ _ _ Hi). }
  rewrite <-E3. destruct (negb (http_ok answer)).
  - apply bind_Ok in Hr as (d & w5 & Hd & [= <- <-]). rewrite (inW_bind _ _ _ _ _ _ (apart_disconnect b0 _ _ _ Hd)).
    split; [done|]. assert (keeps response_buffer_of WiFi_disconnect) as Hk by keeps.
    rewrite <-Eb4. by apply (Hk _ _ _ Hd).
  - apply bind_Ok in Hr as (? & w5 & [= <- <-] & Hr). apply bind_Ok in Hr as (? & ? & [= <- <-] & Hr).
    apply bind_Ok in Hr as (text & ? & Htext & Hr). unfold lift in Htext.
    match goal with _ : context [cstr (init_outputBuff (sys ?x))] |- _ =>
      change (init_outputBuff (sys x)) with (init_outputBuff (sys w4)) in Htext end.
    rewrite Eb4 in Htext. destruct (cstr (take 1024 buf)) as [s|] eqn:Es; [|done]. injection Htext as -> <-.
    rewrite (inW_bind _ _ _ _ _ _ (apart_cleanup b0 _ _ _ eq_refl)), (bind_run _ _ _ _ _ eq_refl).
    change (i_outputBuff (_, i').2) with buf.
    rewrite (lift_bind _ text) by by rewrite (cstr_take _ _ _ Es).
    case_bool_decide as Hj.
    + injection Hr as <- <-. by split.
    + split; [by apply verdict_agrees|]. pose proof (verdict_buffer _ _ _ _ _ _ Hr) as Eb.
      unfold response_buffer_of in Eb. by rewrite Eb.
Qed.

(** C39 (the move of the initialisation).  Whenever the check of the users in
    the class System returns, so does the earlier one in the class Initializer
    for the same users, provided that the request fits in its 150 bytes: with
    the same result, the same calls, the same files and the same state but
    for the buffer of the response, whose first 1024 bytes agree. *)
Theorem Initializer_verify_agrees (w w' : world) (i : init_st) (b : bool)
    (Hu1 : init_user1 (sys w) = i_user1 i) (Hu2 : init_user2 (sys w) = i_user2 i)
    (Hb : init_outputBuff (sys w) = take 1024 (i_outputBuff i)) (Hl : Z.of_nat (length (i_outputBuff i)) = 8192)
    (Hr : verifyUserIdWithServer w = Ok (b, w')) (Hlen : (length (request_of w i) < 150)%nat) :
  ∃ buf, Initializer_verifyUserIdWithServer (w, i)
           = Ok (b, (with_buffer (init_outputBuff (sys w)) w', set i_outputBuff buf i)) ∧
    init_outputBuff (sys w') = take 1024 buf.
Proof.
  unfold verifyUserIdWithServer in Hr. unfold Initializer_verifyUserIdWithServer.
  rewrite (inW_bind _ _ _ _ _ _ eq_refl).
  apply bind_Ok in Hr as (v & ? & [= <- <-] & Hr). apply bind_Ok in Hr as ([] & w1 & Ht & Hr).
  assert (sys w1 = sys w) as Es1 by (by eapply token_sys).
  rewrite (bind_run _ _ (w, i) () (w1, i)).
  2: { revert Ht. case_bool_decide; cbn [when]; [|by intros [= <-]]. intros Ht. unfold inW. simpl. by rewrite Ht. }
  apply bind_Ok in Hr as (r & w2 & Hc & Hr). rewrite (inW_bind _ _ _ _ _ _ Hc).
  pose proof (WiFi_connect_sys _ _ _ Hc) as Es2. rewrite Es1 in Es2.
  assert (∀ x, with_buffer (init_outputBuff (sys x)) x = x) as Hself by (by intros [? ? ? ? [] ? ? ? ? ?]).
  assert (∀ x y bb, WiFi_disconnect x = Ok (bb, y) → sys y = sys x) as Hdis.
  { assert (keeps sys WiFi_disconnect) as Hk by keeps. intros x y bb Hd. by eapply Hk. }
  case_bool_decide as Hr0.
  2: { apply bind_Ok in Hr as (d & w3 & Hd & Hr). injection Hr as <- <-. exists (i_outputBuff i).
       rewrite (inW_bind _ _ _ _ _ _ Hd), (Hdis _ _ _ Hd), Es2. split; [|done]. unfold ret. do 3 f_equal.
       - rewrite <-(Hself w3) at 1. by rewrite (Hdis _ _ _ Hd), Es2.
       - by destruct i. }
  apply bind_Ok in Hr as (b1 & ? & [= <- <-] & Hr). apply bind_Ok in Hr as (b2 & ? & [= <- <-] & Hr).
  apply bind_Ok in Hr as (mac & ? & [= <- <-] & Hr). rewrite Es2, Hu1, Hu2 in Hr.
  rewrite (bind_run _ _ _ _ _ eq_refl), (bind_run _ _ _ _ _ eq_refl). cbn [snd]. cbv zeta in *.
  rewrite (inW_bind _ _ _ _ _ _ eq_refl), Es2. fold (request_of w i) in *.
  rewrite (lift_bind _ (request_of w i)) by (unfold sprintf; by rewrite bool_decide_true).
  assert (sprintf 500 (request_of w i) = Ok (request_of w i)) as E500 by (unfold sprintf; rewrite bool_decide_true; [done|lia]).
  rewrite E500 in Hr. assert (init_outputBuff (sys w) = init_outputBuff (sys w2)) as -> by by rewrite Es2. apply (exchange_agrees _ _ _ w2 i b w' Hr); [by rewrite Es2|lia].
Qed.
(** The 150 bytes.  A request that does not fit overruns them, where the later
    version has 500 bytes. *)
Lemma Initializer_verify_overflow (w w1 w2 : world) (i : init_st) :
  when (bool_decide (validTokenFlag (dl w) = 0)) downloadToken w = Ok ((), w1) → WiFi_connect w1 = Ok (0, w2) →
  (150 ≤ length (request_of w i))%nat → Initializer_verifyUserIdWithServer (w, i) = Fault OutOfBounds.
Proof.
  intros Ht Hc Hlen. unfold Initializer_verifyUserIdWithServer. rewrite (inW_bind _ _ _ _ _ _ eq_refl).
  assert (macID (sys w2) = macID (sys w)) as Em.
  { pose proof (WiFi_connect_sys _ _ _ Hc) as ->. by rewrite (token_sys _ _ _ Ht). }
  rewrite (bind_run _ _ (w, i) () (w1, i)).
  2: { revert Ht. case_bool_decide; cbn [when]; [|by intros [= <-]]. intros Ht. unfold inW. simpl. by rewrite Ht. }
  rewrite (inW_bind _ _ _ _ _ _ Hc), bool_decide_true by done.
  rewrite (bind_run _ _ _ _ _ eq_refl), (bind_run _ _ _ _ _ eq_refl). cbn [snd]. cbv zeta.
  rewrite (inW_bind _ _ _ _ _ _ eq_refl), Em. fold (request_of w i).
  unfold bind at 1, lift, sprintf. by rewrite bool_decide_false by lia.
Qed.

(** The task ends with the check of the users; when the credentials fail it
    stays in [eINIT_IDLE] and turns without a delay for ever. *)
Lemma Initializer_task (w : world) (i : init_st) :
  match initState i with
  | eINIT_IDLE => Initializer_handler (w, i) = Ok ((), (w, i))
  | eINIT_WIFI_CHECK => ∀ w' i', Initializer_handler (w, i) = Ok ((), (w', i')) →
      initState i' ≠ eINIT_WIFI_CHECK ∧ tasks i' = tasks i
  | eINIT_USER_ID_CHECK => ∀ w' i', Initializer_handler (w, i) = Ok ((), (w', i')) →
      initState i' = eINIT_IDLE ∧ tasks i' = pred (tasks i)
  end.
Proof.
  unfold Initializer_handler. cbv [bind get_i gets]. cbn [snd]. destruct (initState i) eqn:E; [done|..]; intros w' i'.
  - unfold inW at 1. cbn [fst snd]. destruct (bleWriteCredentials _ _ w) as [[ok w1]|]; [|done].
    intros [= <- <-]. by destruct ok.
  - destruct (Initializer_verifyUserIdWithServer (w, i)) as [[b [w1 i1]]|] eqn:Hv; [|done].
    assert (tasks i1 = tasks i) as <-; [|cbv [put_i delete_task inW emit get_i modify gets bind]; by intros [= <- <-]].
    assert (keeps (λ wi : world * init_st, tasks wi.2) Initializer_verifyUserIdWithServer) as Hk; [|by apply (Hk _ _ _ Hv)].
    assert (∀ A (m : FW A), keeps (λ wi : world * init_st, tasks wi.2) (inW m)) as HW.
    { intros A m [x y] a [x' y']. unfold inW. cbn [fst snd]. destruct (m x) as [[? ?]|]; [|done]. by intros [= <- <- <-]. }
    unfold Initializer_verifyUserIdWithServer, perform_i. 
    repeat first [apply HW | apply keeps_ret | apply keeps_gets | apply keeps_lift | apply keeps_skip
      | apply keeps_for_each; intros [] | apply keeps_when | apply keeps_if | apply keeps_bind; [|intros ?]
      | apply keeps_modify; intros []; reflexivity | apply keeps_fail | progress cbv zeta beta | case_match
      | progress unfold Initializer_InitializerCallback, get_i, put_i].
Qed.

(** The second user.  While the object holds a first user, a check never
    stores the second one: adding a second user after the initialisation of
    the box repeats the check of the first. *)
Lemma second_user_ignored (w w' : world) (b : bool) : until_nul (init_user1 (sys w)) ≠ [] →
  verifyUserIdWithServer w = Ok (b, w') → sys_user2 (sys w') = sys_user2 (sys w).
Proof.
  intros Hu Hr. set (user2 := λ w, sys_user2 (sys w)). change (user2 w' = user2 w).
  unfold verifyUserIdWithServer in Hr. apply bind_Ok in Hr as (v & ? & [= <- <-] & Hr).
  apply bind_Ok in Hr as ([] & w1 & Ht & Hr). apply token_sys in Ht.
  apply bind_Ok in Hr as (r & w2 & Hc & Hr). apply WiFi_connect_sys in Hc.
  assert (user2 w2 = user2 w) as <- by (unfold user2; by rewrite Hc, Ht).
  assert (keeps user2 WiFi_disconnect) as Hd by keeps.
  case_bool_decide as Hr0; [|by apply bind_Ok in Hr as (? & ? & ?%Hd & [= _ <-])].
  apply bind_Ok in Hr as (b1 & ? & [= <- <-] & Hr). apply bind_Ok in Hr as (b2 & ? & [= <- <-] & Hr).
  apply bind_Ok in Hr as (mac & ? & [= <- <-] & Hr). cbv zeta in Hr. apply bind_Ok in Hr as (body & w3 & Hl & Hr).
  assert (w3 = w2) as -> by (unfold lift in Hl; destruct (sprintf 500 _); [by injection Hl|done]).
  rewrite Hc, Ht in Hr. eapply (keeps_run user2); [|exact Hr]. rewrite (bool_decide_false (until_nul (init_user1 (sys w)) = [])) by done.
  cbn [negb].
  assert (∀ j u, keeps user2 (user_verdict j (lit "user1") 1 u)) as Hv.
  { intros j u. unfold user_verdict, writeUserID. rewrite bool_decide_true by done. keeps. }
  unfold http_perform. keeps.
Qed.

End initializer_properties.

(** ** Witnesses *)

Section initializer_witnesses.

(** A server that accepts everybody. *)
#[local] Instance accept_env : Env := {|
  env_time h := 1000 * Z.of_nat (length h);
  env_el_state _ := AEL_STATE_RUNNING;
  env_msg _ := Some Sample.no_msg;
  env_stack _ := Sample.no_msg;
  env_bits _ := 0;
  env_http _ := {| http_events := [HTTP_EVENT_ON_CONNECTED; HTTP_EVENT_ON_DATA (lit "yes"); HTTP_EVENT_ON_FINISH];
                   http_ok := true; http_status := 200 |};
  env_disconnects _ := true;
  env_freed_close _ := true;
  env_readdir _ _ := None;
  env_err _ := 0;
  env_getfree _ := None;
  FF_SS_SDCARD := 512;
|}.

#[local] Instance accept_json : CJSON := {|
  cJSON_Parse text := if bool_decide (text = lit "yes") then 1 else 0;
  cJSON_ParseWithLength _ := 0;
  cJSON_Duplicate _ := 0;
  cJSON_GetObjectItem _ _ := 0;
  cJSON_GetObjectItemCaseSensitive _ _ := 2;
  cJSON_GetArraySize _ := 0;
  cJSON_GetArrayItem _ _ := 0;
  cJSON_IsString _ := false;
  cJSON_IsNumber _ := false;
  cJSON_IsArray _ := false;
  cJSON_IsTrue j := bool_decide (j = 2);
  valuestring _ := None;
  valueint _ := 0;
|}.

#[local] Instance no_downloads : DownloaderOps := {| downloadToken := skip; download_begin _ := ret true |}.
#[local] Instance no_downloads_spec : DownloaderSpec.
Proof. split; [apply keeps_skip|intros t; apply keeps_ret]. Qed.

Definition applicant : bytes := lit "mum" ++ memset0 47.
Definition asking : world :=
  update sys (set init_user1 applicant) (set wifi (set connected true home_wifi) Sample.world0).
Definition asking_init : init_st :=
  MkInit eINIT_USER_ID_CHECK (memset0 32) (memset0 64) applicant (memset0 50) (memset0 (Z.to_nat 8192)) 1.

Example Initializer_verify_agrees_witness :
  ∃ w' i', verifyUserIdWithServer asking = Ok (true, w') ∧
    Initializer_verifyUserIdWithServer (asking, asking_init) = Ok (true, (with_buffer (memset0 1024) w', i')) ∧
    until_nul (sys_user1 (sys w')) = lit "mum".
Proof.
  destruct (verifyUserIdWithServer asking) as [[b w']|] eqn:E; [|vm_compute in E; discriminate E].
  destruct (Initializer_verify_agrees asking w' asking_init b) as (buf & Hr & _).
  - reflexivity.
  - reflexivity.
  - apply (bool_decide_unpack _). vm_compute. exact I.
  - apply (bool_decide_unpack _). vm_compute. exact I.
  - exact E.
  - apply Nat.ltb_lt. vm_compute. reflexivity.
  - assert (match verifyUserIdWithServer asking with
      | Ok (b, w) => (b, until_nul (sys_user1 (sys w))) | Fault _ => (false, []) end = (true, lit "mum")) as Ew
      by (vm_compute; reflexivity).
    rewrite E in Ew. injection Ew as -> Eu. exists w', (set i_outputBuff buf asking_init).
    split; [reflexivity|]. split; [exact Hr|exact Eu].
Defined.

End initializer_witnesses.
