(* ===== verification/Metadata.v ===== *)
(** * Metadata: the box token, the master JSON of a toy and its playlists
    (the first part of main/src/downloader.cpp)

    The static variables of the file are fields of [dl_st]; the response of
    the server reaches the callbacks as a list of events.  A playlist is a
    "direction file": one JSON per side of the turntable. *)

From S2P Require Import Prelude CString World SystemBase SdCard Wifi.
#[local] Open Scope M_scope.

(** ** The token *)

Definition HTTPS_BOX_LOGIN_URL : bytes := lit "https://uat.littlecubbie.in/auth/v1/box/login".
Definition HTTPS_GET_USER_TOY_MEDIA_URL : bytes :=
  lit "https://uat.littlecubbie.in/box/v1/download/masterJson".

Definition toy_dir (t : bytes) : bytes := lit "/sdcard/media/toys/" ++ t.

(** [{"macAddress": "...", "boxUniqueId": "..."}] *)
Definition token_body (mac box : bytes) : bytes :=
  braces (quoted (lit "macAddress") ++ lit ": " ++ quoted mac ++ lit ", "
          ++ quoted (lit "boxUniqueId") ++ lit ": " ++ quoted box).

(** [memcmp(key, "x-cubbies-box-token", 19) == 0]: a shorter key differs at
    its NUL. *)
Definition is_token_key (key : bytes) : bool := strncmp_eq 19 key (lit "x-cubbies-box-token").

Section metadata.
Context `{Env} `{CJSON}.

Definition createFolders : FW () :=
  t ← get_dl dl_toy;
  folderName ← lift (sprintf 150 (toy_dir t));
  mkdir folderName;;
  skip.

Definition TokenCallback (evt : http_event) : FW () :=
  match evt with
  | HTTP_EVENT_ON_HEADER key value =>
      asked ← get_dl tokenRequestFlag;
      valid ← get_dl validTokenFlag;
      when (negb (bool_decide (asked = 0)) && bool_decide (valid = 0) && is_token_key key
            && bool_decide (length value ≤ 40)%nat)
        (old ← get_dl accessToken;
         new ← lift (strncpy old value 39);
         new ← lift (store new 39 0);
         put_dl accessToken new;;
         put_dl validTokenFlag 1)
  | HTTP_EVENT_ON_DATA data =>
      buf ← get_dl dl_outputBuff;
      when (bool_decide (length data ≤ length buf - 1)%nat)
        (buf' ← lift (store (data ++ drop (length data) buf) (Z.of_nat (length data)) 0);
         put_dl dl_outputBuff buf')
  | _ => skip
  end.

(** [sdcard->write((uint8_t * )&err, sizeof(int), file)] with [uint8_t err]:
    [n] bytes are read from the object. *)
Definition write_object (path obj : bytes) (n : nat) : FW () :=
  if bool_decide (n ≤ length obj)%nat then fappend path (take n obj) else fail OutOfBounds.

Definition downloadToken : FW () :=
  valid ← get_dl validTokenFlag;
  if negb (bool_decide (valid = 0)) then skip
  else
    r ← WiFi_connect;
    when (bool_decide (r = 0))
      (put_dl tokenRequestFlag 1;;
       mac ← getMacID;
       box ← getUniqueBoxID;
       postData ← lift (sprintf 100 (token_body mac box));
       answer ← http_perform HTTPS_BOX_LOGIN_URL postData TokenCallback;
       let httpResponseCode := if http_ok answer then http_status answer else 0 in
       emit esp_http_client_close;;
       emit esp_http_client_cleanup;;
       delay 20;;
       when (bool_decide (httpResponseCode < 200) || bool_decide (299 < httpResponseCode))
         (t ← get_dl dl_toy;
          errUrl ← lift (sprintf 200 (toy_dir t ++ lit "/err.cubbies"));
          opened ← fopen_w errUrl;
          put_dl mp3_file (if (opened : bool) then Some errUrl else None);;
          when opened (write_object errUrl [1] 4));;
       put_dl tokenRequestFlag 0).

(** ** Directories *)

(** The loop over the path: [seen] is the part before [p], kept reversed; a
    directory is made at every slash. *)
Fixpoint mkdir_parents (seen rest : bytes) : FW bool :=
  match rest with
  | [] => ret true
  | c :: rest =>
      if bool_decide (c = 47) then
        r ← mkdir (reverse seen);
        match r with
        | mkdir_error => ret false
        | _ => mkdir_parents (c :: seen) rest
        end
      else mkdir_parents (c :: seen) rest
  end.

(** Whether the result is [ESP_OK].  A path that is empty, or "/" alone, runs
    outside the text. *)
Definition create_directory (path : bytes) : FW bool :=
  let temp_path := snprintf 256 path in
  if bool_decide (temp_path = []) then fail OutOfBounds
  else
    let temp_path := strip_slash temp_path in
    match temp_path with
    | [] => fail Uninitialised
    | c :: rest =>
        ok ← mkdir_parents [c] rest;
        if (ok : bool) then
          r ← mkdir temp_path;
          ret (match r with mkdir_error => false | _ => true end)
        else ret false
    end.

(** ** The names of the tracks *)

Definition free_N_server : FW () :=
  l ← get_dl N_server;
  match l with
  | Some _ => put_dl N_server None;; put_dl N_count 0
  | None => skip
  end.

(** [malloc(0)] is NULL, and then nothing changes. *)
Definition update_N_server (sd_files : list bytes) : FW () :=
  n ← get_dl N_count;
  if bool_decide (n = 0) then skip
  else
    l ← get_dl N_server;
    l ← lift (from_option_res NullDeref l);
    let new_N_server := filter (λ x, x ∉ sd_files) (take (Z.to_nat n) l) in
    free_N_server;;
    put_dl N_server (Some new_N_server);;
    put_dl N_count (Z.of_nat (length new_N_server)).

(** NULL is [None]; a pointer that was never assigned cannot be used. *)
Definition get_direction_file_name (index : Z) : FW (option bytes) :=
  n ← get_dl direction_file_count;
  if bool_decide (0 <= index < n) then
    l ← get_dl direction_file_names;
    p ← lift (from_option_res OutOfBounds (l !! Z.to_nat index));
    name ← lift (from_option_res Uninitialised p);
    ret (Some name)
  else ret None.

Definition get_N_value (index : Z) : FW (option bytes) :=
  n ← get_dl N_count;
  if bool_decide (0 <= index < n) then
    l ← get_dl N_server;
    l ← lift (from_option_res NullDeref l);
    name ← lift (from_option_res OutOfBounds (l !! Z.to_nat index));
    ret (Some name)
  else ret None.

(** ** Storing the metadata of a toy *)

(** Whether the result is [ESP_OK]. *)
Definition create_file (path content : bytes) : FW bool :=
  opened ← fopen_w path;
  when opened (fappend path content);;
  ret opened.

Definition write_array_to_file (file_path : bytes) (array : list Z) : FW bool :=
  create_file file_path (join (lit ",") (fmt_d <$> array)).

Definition store_base_url (j : Z) : FW () :=
  let item := cJSON_GetObjectItem j (lit "baseUrl") in
  when (negb (bool_decide (item = 0)) && cJSON_IsString item)
    (s ← lift (str_of item);
     put_dl baseUrl (take 255 s)).

(** The items of a JSON array, in order. *)
Definition array_items (j : Z) : list Z :=
  (λ i, cJSON_GetArrayItem j (Z.of_nat i)) <$> seq 0 (Z.to_nat (cJSON_GetArraySize j)).

(** An item that is not a string leaves its pointer unassigned. *)
Definition direction_entry (item : Z) : res (option bytes) :=
  (if cJSON_IsString item then s ← str_of item; Ok (Some s) else Ok None)%stdpp.

(** A list of results, or the first fault. *)
Fixpoint all_res {A} (l : list (res A)) : res (list A) :=
  match l with
  | [] => Ok []
  | Ok x :: l => match all_res l with Ok xs => Ok (x :: xs) | Fault f => Fault f end
  | Fault f :: _ => Fault f
  end.

Definition store_direction_files (j : Z) : FW () :=
  let files_json := cJSON_GetObjectItem j (lit "directionFiles") in
  when (negb (bool_decide (files_json = 0)) && cJSON_IsArray files_json)
    (put_dl direction_file_count (cJSON_GetArraySize files_json);;
     names ← lift (all_res (direction_entry <$> array_items files_json));
     put_dl direction_file_names names).

(** The names one media item contributes: N, and NC and NW for a question. *)
Definition media_names (item : Z) : res (list bytes) :=
  let N_value := cJSON_GetObjectItem item (lit "N") in
  let T_value := cJSON_GetObjectItem item (lit "T") in
  (if cJSON_IsString N_value && cJSON_IsNumber T_value then
     n ← str_of N_value;
     t ← int_of T_value;
     Ok (if bool_decide (t = 1) then [n; n ++ lit "C"; n ++ lit "W"] else [n])
   else Ok [])%stdpp.

(** The media array of this response, or else the one kept from before.
    [malloc(0)] is NULL, here and below. *)
Definition store_media (j : Z) : FW () :=
  let media := cJSON_GetObjectItem j (lit "media") in
  when (negb (bool_decide (media = 0)) && cJSON_IsArray media)
    (put_dl media_json (cJSON_Duplicate media));;
  m ← get_dl media_json;
  when (negb (bool_decide (m = 0)) && cJSON_IsArray m)
    (names ← lift (all_res (media_names <$> array_items m));
     put_dl N_server (if bool_decide (array_items m = []) then None else Some (concat names));;
     put_dl N_count (Z.of_nat (length (concat names)))).

Definition meta_path (base_path name : bytes) : bytes :=
  snprintf 512 (base_path ++ lit "/" ++ name ++ lit ".cubbies").

Definition store_number (j : Z) (base_path name : bytes) : FW () :=
  let item := cJSON_GetObjectItem j name in
  when (negb (bool_decide (item = 0)) && cJSON_IsNumber item)
    (create_file (meta_path base_path name) (snprintf 16 (fmt_d (valueint item)));; skip).

Definition store_string (j : Z) (base_path name : bytes) : FW () :=
  let item := cJSON_GetObjectItem j name in
  when (negb (bool_decide (item = 0)) && cJSON_IsString item)
    (s ← lift (str_of item);
     create_file (meta_path base_path name) s;; skip).

Definition store_colours (j : Z) (base_path : bytes) : FW () :=
  let item := cJSON_GetObjectItem j (lit "colourTheme") in
  when (negb (bool_decide (item = 0)) && cJSON_IsArray item)
    (values ← lift (all_res (int_of <$> array_items item));
     when (negb (bool_decide (values = [])))
       (write_array_to_file (meta_path base_path (lit "colourTheme")) values;; skip)).

Definition parse_and_store_metadata (response : bytes) : FW () :=
  let j := cJSON_ParseWithLength response in
  if bool_decide (j = 0) then skip
  else
    store_base_url j;;
    store_direction_files j;;
    store_media j;;
    tagUid ← get_tag tagUid_qbus;
    let base_path := snprintf 256 (toy_dir (until_nul tagUid)) in
    store_number j base_path (lit "version");;
    store_string j base_path (lit "productCode");;
    store_number j base_path (lit "recordable");;
    store_colours j base_path.

(** ** The master JSON *)

(** The file the response is copied to is opened at its first data. *)
Definition open_metadata_file : FW bool :=
  f ← get_dl mj_file;
  if bool_decide (is_Some f) then ret true
  else
    tagUid ← get_tag tagUid_qbus;
    dir ← lift (sprintf 256 (toy_dir (until_nul tagUid) ++ lit "/"));
    ok ← create_directory dir;
    if (ok : bool) then
      let file_path := dir ++ lit "metadata.cubbies" in
      opened ← fopen_w file_path;
      put_dl mj_file (if (opened : bool) then Some file_path else None);;
      ret opened
    else ret false.

Definition free_response : FW () := put_dl response_buffer None;; put_dl response_buffer_size 0.

Definition MasterjsonCallback (evt : http_event) : FW () :=
  match evt with
  | HTTP_EVENT_ON_DATA data =>
      if bool_decide (data = []) then skip
      else
        old ← get_dl response_buffer;
        size ← get_dl response_buffer_size;
        put_dl response_buffer (Some (take (Z.to_nat size) (default [] old) ++ data));;
        put_dl response_buffer_size (size + Z.of_nat (length data));;
        ok ← open_metadata_file;
        when ok
          (f ← get_dl mj_file;
           path ← lift (from_option_res NullDeref f);
           fappend path data)
  | HTTP_EVENT_ON_FINISH =>
      f ← get_dl mj_file;
      when (bool_decide (is_Some f))
        (put_dl mj_file None;;
         b ← get_dl response_buffer;
         parse_and_store_metadata (default [] b));;
      free_response
  | HTTP_EVENT_DISCONNECTED =>
      b ← get_dl response_buffer;
      when (bool_decide (is_Some b)) free_response
  | _ => skip
  end.

(** [{"rfid":"...","userIds":["..."],"macAddress":"..."}] *)
Definition master_body (t box mac : bytes) : bytes :=
  braces (member (lit "rfid") (quoted t) ++ lit ","
          ++ member (lit "userIds") (lit "[" ++ quoted box ++ lit "]") ++ lit ","
          ++ member (lit "macAddress") (quoted mac)).

(** The client is closed after the cleanup has freed it. *)
Definition download_master_json : FW () :=
  t ← get_dl dl_toy;
  box ← getUniqueBoxID;
  mac ← getMacID;
  request_body ← lift (sprintf 500 (master_body t box mac));
  http_perform HTTPS_GET_USER_TOY_MEDIA_URL request_body MasterjsonCallback;;
  http_cleanup MasterjsonCallback;;
  http_close_freed.

(** ** Playlists *)

(** [memcpy(buf + at, data, ...)] inside the array. *)
Definition splice (buf : bytes) (at_ : nat) (data : bytes) : bytes :=
  take at_ buf ++ data ++ drop (at_ + length data) buf.

Definition DirectionCallback (evt : http_event) : FW () :=
  match evt with
  | HTTP_EVENT_ON_DATA data =>
      n ← get_dl output_len;
      buf ← get_dl output_buffer;
      when (bool_decide (n + Z.of_nat (length data) < Z.of_nat (length buf)))
        (let n' := n + Z.of_nat (length data) in
         put_dl output_len n';;
         buf' ← lift (store (splice buf (Z.to_nat n) data) n' 0);
         put_dl output_buffer buf')
  | HTTP_EVENT_ON_FINISH | HTTP_EVENT_DISCONNECTED => put_dl output_len 0
  | _ => skip
  end.

Definition save_file_to_sd (direction_name data : bytes) : FW () :=
  t ← get_dl dl_toy;
  let file_path := snprintf 256 (toy_dir t ++ lit "/" ++ direction_name ++ lit ".cubbies") in
  create_file file_path data;;
  skip.

(** The part of a string before the first [c], and after the last [c]
    ([None] without one). *)
Fixpoint before_first (c : Z) (s : bytes) : bytes :=
  match s with
  | [] => []
  | d :: s => if bool_decide (d = c) then [] else d :: before_first c s
  end.

Definition after_last (c : Z) (s : bytes) : option bytes :=
  if bool_decide (c ∈ s) then Some (reverse (before_first c (reverse s))) else None.

(** "…_south.json" names the direction "south". *)
Definition direction_of (dir_file_name : bytes) : option bytes :=
  before_first 46 <$> after_last 95 (snprintf 256 dir_file_name).

Definition download_file (dir_file_name : bytes) : FW () :=
  put_dl output_buffer (memset0 4096);;
  put_dl output_len 0;;
  base ← get_dl baseUrl;
  let direction_url := snprintf 256 (base ++ dir_file_name) in
  answer ← http_perform direction_url [] DirectionCallback;
  when (http_ok answer)
    (match direction_of dir_file_name with
     | Some direction_part =>
         buf ← get_dl output_buffer;
         text ← lift (from_option_res OutOfBounds (cstr buf));
         save_file_to_sd direction_part text
     | None => skip
     end);;
  http_cleanup DirectionCallback;;
  http_close_freed.

Definition process_direction_files : FW () :=
  n ← get_dl direction_file_count;
  for_each (Z.of_nat <$> seq 0 (Z.to_nat n))
    (λ i, name ← get_direction_file_name i;
          match name with
          | Some dir_file_name => download_file dir_file_name
          | None => skip
          end).

End metadata.
