(* ===== verification/MetadataSpec.v ===== *)
(** * MetadataSpec: what the first part of the downloader guarantees

    The box token, the copy of the master JSON on the card, and the playlists
    of the four directions. *)

From S2P Require Import Prelude CString World SystemBase SdCard Wifi Metadata.
#[local] Open Scope M_scope.

(** ** Lemmas: the token *)

Section token.
Context `{Env} `{CJSON}.

(** The value of the first header that is accepted. *)
Fixpoint first_token (events : list http_event) : option bytes :=
  match events with
  | [] => None
  | HTTP_EVENT_ON_HEADER key value :: events =>
      if is_token_key key && bool_decide (length value ≤ 40)%nat then Some value else first_token events
  | _ :: events => first_token events
  end.

(** The arrays of the two callbacks. *)
Definition token_arrays (w : world) : Prop :=
  length (accessToken (dl w)) = 40%nat ∧ length (dl_outputBuff (dl w)) = 2048%nat.

(** An event that brings no acceptable token. *)
Lemma TokenCallback_other e w : token_arrays w →
  first_token [e] = None ∨ validTokenFlag (dl w) ≠ 0 →
  ∃ w', TokenCallback e w = Ok ((), w') ∧ token_arrays w' ∧ accessToken (dl w') = accessToken (dl w) ∧
    validTokenFlag (dl w') = validTokenFlag (dl w) ∧ tokenRequestFlag (dl w') = tokenRequestFlag (dl w).
Proof.
  intros [Ht Hb] Hno. destruct e as [| | |key value|data| | |]; try by (eexists; split; [done|]).
  - cbn [TokenCallback]. cbv [bind get_dl gets].
    assert (bool_decide (validTokenFlag (dl w) = 0) && is_token_key key
      && bool_decide (length value ≤ 40)%nat = false) as E.
    { destruct Hno as [Hno|Hno]; [|by rewrite bool_decide_false].
      cbn [first_token] in Hno. destruct (is_token_key key && _) eqn:Hk; [done|].
      rewrite <-andb_assoc, Hk. by rewrite andb_false_r. }
    rewrite <-!andb_assoc in *. rewrite E, andb_false_r. by eexists.
  - cbn [TokenCallback]. cbv [bind get_dl gets]. rewrite Hb. case_bool_decide as Hd; [|by eexists].
    unfold when. cbv [lift bind]. rewrite store_Ok; [|rewrite length_app, length_drop; lia].
    eexists. split; [done|]. split; [|done]. split; [done|]. simpl.
    rewrite length_insert, length_app, length_drop. lia.
Qed.

(** The text in the token's array after [strncpy] and the NUL at its end. *)
Lemma token_text old value : length old = 40%nat → no_nul value →
  until_nul (<[39%nat := 0]> (take 39 (value ++ replicate 39 0) ++ drop 39 old)) = take 39 value.
Proof.
  intros Hl Hv. assert (no_nul (take 39 value)) as Ht by (by apply Forall_take).
  assert (take 39 (value ++ replicate 39 0) = take 39 value ++ replicate (39 - length value) 0) as ->.
  { rewrite take_app. f_equal. rewrite take_replicate. f_equal. lia. }
  destruct (drop 39 old) as [|x [|]] eqn:Ed; try (apply (f_equal length) in Ed; rewrite length_drop in Ed; simpl in Ed; lia).
  rewrite insert_app_r_alt by (rewrite length_app, length_take, length_replicate; lia).
  rewrite length_app, length_take, length_replicate.
  replace (39 - (Nat.min 39 (length value) + (39 - length value)))%nat with 0%nat by lia.
  cbn [insert list_insert]. destruct (39 - length value)%nat as [|n].
  - rewrite app_nil_r. by apply until_nul_app.
  - rewrite <-app_assoc. by apply until_nul_app.
Qed.

Lemma TokenCallback_token key value w : token_arrays w → no_nul value →
  tokenRequestFlag (dl w) ≠ 0 → validTokenFlag (dl w) = 0 →
  is_token_key key && bool_decide (length value ≤ 40)%nat = true →
  ∃ w', TokenCallback (HTTP_EVENT_ON_HEADER key value) w = Ok ((), w') ∧ token_arrays w' ∧
    until_nul (accessToken (dl w')) = take 39 value ∧ validTokenFlag (dl w') = 1.
Proof.
  intros [Ht Hb] Hv Hask Hval Hk. cbn [TokenCallback]. cbv [bind get_dl gets].
  rewrite (bool_decide_false _ Hask), (bool_decide_true _ Hval). cbn [negb andb]. rewrite Hk.
  unfold when. unfold strncpy. rewrite Ht. cbv [lift bind]. rewrite bool_decide_true by lia.
  assert (length (take 39 (value ++ replicate 39 0) ++ drop 39 (accessToken (dl w))) = 40%nat) as Hlen.
  { rewrite length_app, length_take, length_app, length_replicate, length_drop. lia. }
  rewrite store_Ok by lia. eexists. split; [done|]. split; [|split; [by apply token_text|done]].
  split; [|done]. simpl. by rewrite length_insert.
Qed.

(** Once there is a token, no event changes it. *)
Lemma TokenCallback_rest events w : token_arrays w → validTokenFlag (dl w) ≠ 0 →
  ∃ w', for_each events TokenCallback w = Ok ((), w') ∧ accessToken (dl w') = accessToken (dl w) ∧
    validTokenFlag (dl w') = validTokenFlag (dl w).
Proof.
  revert w. induction events as [|e events IH]; intros w Ha Hv; [by eexists|]. cbn [for_each].
  destruct (TokenCallback_other e w Ha) as (w1 & Hr & Ha1 & E1 & E2 & _); [by right|].
  rewrite (bind_run _ _ _ _ _ Hr). destruct (IH w1) as (w2 & Hr2 & E3 & E4); [done|by rewrite E2|].
  exists w2. split; [exact Hr2|]. by rewrite E3, E4.
Qed.

End token.

(** ** Lemmas: directories *)

Section directories.
Context `{Env} `{CJSON}.

Lemma mkdir_exists path w : path ∈ dirs (fs w) → mkdir path w = Ok (mkdir_EEXIST, w).
Proof. intros Hd. unfold mkdir. cbv [bind gets]. by rewrite bool_decide_true. Qed.

(** A component without a slash is passed over; at a slash the part before it
    is a directory already. *)
Lemma mkdir_parents_last seen s w : 47 ∉ s → mkdir_parents seen s w = Ok (true, w).
Proof.
  revert seen. induction s as [|c s IH]; intros seen Hs; [done|]. cbn [mkdir_parents].
  apply not_elem_of_cons in Hs as [Hc Hs]. rewrite bool_decide_false by done. by apply IH.
Qed.

Lemma mkdir_parents_step seen s rest w : 47 ∉ s → reverse seen ++ s ∈ dirs (fs w) →
  mkdir_parents seen (s ++ 47 :: rest) w = mkdir_parents (47 :: reverse s ++ seen) rest w.
Proof.
  revert seen. induction s as [|c s IH]; intros seen Hs Hd; cbn [app mkdir_parents].
  - rewrite app_nil_r in Hd. rewrite bool_decide_true by done.
    rewrite (bind_run _ _ _ _ _ (mkdir_exists _ _ Hd)). done.
  - apply not_elem_of_cons in Hs as [Hc Hs]. rewrite bool_decide_false by done.
    rewrite IH; [|done|by rewrite reverse_cons, <-app_assoc].
    by rewrite reverse_cons, <-app_assoc.
Qed.

(** The folders above a toy's. *)
Definition toys_there (w : world) : Prop :=
  lit "/sdcard" ∈ dirs (fs w) ∧ lit "/sdcard/media" ∈ dirs (fs w) ∧ lit "/sdcard/media/toys" ∈ dirs (fs w).

(** A name that can be a component of a path. *)
Definition name_ok (t : bytes) : Prop := t ≠ [] ∧ (length t ≤ 200)%nat ∧ 47 ∉ t.

Lemma create_directory_toy t w : toys_there w → name_ok t → toy_dir t ∈ dirs (fs w) →
  create_directory (toy_dir t ++ lit "/") w = Ok (true, w).
Proof.
  intros (H1 & H2 & H3) (Hne & Hl & Hs) Hd. unfold create_directory.
  assert (snprintf 256 (toy_dir t ++ lit "/") = toy_dir t ++ lit "/") as ->.
  { unfold snprintf, toy_dir. apply take_ge. rewrite !length_app. simpl. lia. }
  rewrite bool_decide_false by done.
  assert (strip_slash (toy_dir t ++ lit "/") = toy_dir t) as ->.
  { unfold strip_slash. rewrite reverse_app. simpl. by rewrite reverse_involutive. }
  change (toy_dir t) with (47 :: lit "sdcard" ++ 47 :: lit "media" ++ 47 :: lit "toys" ++ 47 :: t) at 1.
  cbv iota.
  rewrite (bind_run _ _ w true w).
  - rewrite (bind_run _ _ _ _ _ (mkdir_exists _ _ Hd)). done.
  - rewrite mkdir_parents_step; [|by apply (bool_decide_unpack _)|done].
    rewrite mkdir_parents_step; [|by apply (bool_decide_unpack _)|done].
    rewrite mkdir_parents_step; [|by apply (bool_decide_unpack _)|done].
    by apply mkdir_parents_last.
Qed.

End directories.

(** ** Lemmas: the master JSON *)

Section master_json.
Context `{Env} `{CJSON}.

Definition metadata_path (t : bytes) : bytes := toy_dir t ++ lit "/metadata.cubbies".

(** The copy on the card and the copy in memory, while the response arrives. *)
Definition copying (path c s : bytes) (w : world) : Prop :=
  mj_file (dl w) = Some path ∧ files (fs w) !! path = Some c ∧
  default [] (response_buffer (dl w)) = s ∧ response_buffer_size (dl w) = Z.of_nat (length s).

Lemma open_again path w : mj_file (dl w) = Some path → open_metadata_file w = Ok (true, w).
Proof.
  intros Hf. unfold open_metadata_file. rewrite (bind_run _ _ w (Some path) w).
  - by rewrite bool_decide_true.
  - unfold get_dl, gets. by rewrite Hf.
Qed.

(** Data that arrives while the file is open. *)
Lemma master_data path c s data w : copying path c s w →
  ∃ w', MasterjsonCallback (HTTP_EVENT_ON_DATA data) w = Ok ((), w') ∧
    copying path (c ++ data) (s ++ data) w' ∧
    dirs (fs w') = dirs (fs w) ∧ delete path (files (fs w')) = delete path (files (fs w)) ∧ tag w' = tag w.
Proof.
  intros (Hf & Hc & Hb & Hs). cbn [MasterjsonCallback]. case_bool_decide as Hd.
  { subst data. exists w. rewrite !app_nil_r. done. }
  cbv [bind get_dl gets put_dl modify].
  match goal with |- context [open_metadata_file ?x] => set (w1 := x) end.
  rewrite (open_again path w1 Hf). unfold when. change (mj_file (dl w1)) with (mj_file (dl w)).
  rewrite Hf. cbn [lift from_option_res].
  exists (update fs (update files (<[path := c ++ data]>)) w1).
  split; [by apply append_run|]. split.
  - split_and!; [done|apply lookup_insert_eq| |].
    + simpl. by rewrite Hb, Hs, Nat2Z.id, take_ge.
    + simpl. rewrite Hs, length_app. lia.
  - simpl. by rewrite delete_insert_eq.
Qed.

Lemma master_chunks path c s chunks w : copying path c s w →
  ∃ w', for_each (HTTP_EVENT_ON_DATA <$> chunks) MasterjsonCallback w = Ok ((), w') ∧
    copying path (c ++ concat chunks) (s ++ concat chunks) w' ∧
    dirs (fs w') = dirs (fs w) ∧ delete path (files (fs w')) = delete path (files (fs w)) ∧ tag w' = tag w.
Proof.
  revert c s w. induction chunks as [|data chunks IH]; intros c s w Hw.
  { exists w. by rewrite !app_nil_r. }
  cbn [fmap list_fmap for_each concat].
  destruct (master_data path c s data w Hw) as (w1 & Hr & Hw1 & E1 & E2 & E3).
  rewrite (bind_run _ _ _ _ _ Hr). destruct (IH _ _ _ Hw1) as (w2 & Hr2 & Hw2 & E4 & E5 & E6).
  exists w2. rewrite !(app_assoc _ data). split; [exact Hr2|]. split; [exact Hw2|].
  by rewrite E4, E5, E6.
Qed.

(** The folder and the file of a tag can be opened. *)
Definition can_store (t : bytes) (w : world) : Prop :=
  name_ok t ∧ toys_there w ∧ toy_dir t ∈ dirs (fs w) ∧ metadata_path t ∉ dirs (fs w).

Lemma can_create_metadata t w : can_store t w → can_create (metadata_path t) (fs w) = true.
Proof.
  intros (_ & _ & Hd & Hn). unfold can_create.
  assert (dirname (metadata_path t) = toy_dir t) as ->.
  { unfold dirname, metadata_path. rewrite reverse_app. simpl. by rewrite reverse_involutive. }
  by rewrite !bool_decide_true.
Qed.

Lemma open_first t w : t = until_nul (tagUid_qbus (tag w)) → can_store t w → mj_file (dl w) = None →
  open_metadata_file w = Ok (true, update dl (set mj_file (Some (metadata_path t)))
                                     (update fs (update files (<[metadata_path t := []]>)) w)).
Proof.
  intros Et Hst Hf. pose proof Hst as (Hn & Ht & Hd & _). unfold open_metadata_file.
  rewrite (bind_run _ _ w None w); [|unfold get_dl, gets; by rewrite Hf].
  rewrite bool_decide_false by (by intros [? ?]).
  rewrite (bind_run _ _ w (tagUid_qbus (tag w)) w); [|done]. rewrite <-Et.
  rewrite (bind_run _ _ w (toy_dir t ++ lit "/") w).
  2: { unfold sprintf. rewrite bool_decide_true; [done|]. destruct Hn as (_ & ? & _).
       unfold toy_dir. rewrite !length_app. simpl. lia. }
  rewrite (bind_run _ _ _ _ _ (create_directory_toy t w Ht Hn Hd)).
  replace ((toy_dir t ++ lit "/") ++ lit "metadata.cubbies") with (metadata_path t)
    by (unfold metadata_path; by rewrite <-app_assoc).
  rewrite (bind_run _ _ w true (update fs (update files (<[metadata_path t := []]>)) w)); [done|].
  unfold fopen_w. cbv [bind gets]. by rewrite can_create_metadata.
Qed.

(** The first data opens the file. *)
Lemma master_first data t w : data ≠ [] → t = until_nul (tagUid_qbus (tag w)) → can_store t w →
  mj_file (dl w) = None → response_buffer (dl w) = None → response_buffer_size (dl w) = 0 →
  ∃ w', MasterjsonCallback (HTTP_EVENT_ON_DATA data) w = Ok ((), w') ∧ copying (metadata_path t) data data w' ∧
    dirs (fs w') = dirs (fs w) ∧
    delete (metadata_path t) (files (fs w')) = delete (metadata_path t) (files (fs w)) ∧ tag w' = tag w.
Proof.
  intros Hd Et Hst Hf Hb Hs. cbn [MasterjsonCallback]. rewrite bool_decide_false by done.
  cbv [bind get_dl gets put_dl modify].
  match goal with |- context [open_metadata_file ?x] => set (w1 := x) end.
  rewrite (open_first t w1) by done.
  match goal with |- context [when true _ ?x] => set (w2 := x) end.
  unfold when. change (mj_file (dl w2)) with (Some (metadata_path t)). cbn [lift from_option_res].
  exists (update fs (update files (<[metadata_path t := [] ++ data]>)) w2).
  split; [apply append_run; apply lookup_insert_eq|]. split.
  - split_and!; [done|apply lookup_insert_eq| |].
    + simpl. by rewrite Hb, Hs.
    + simpl. by rewrite Hs.
  - simpl. by rewrite !delete_insert_eq.
Qed.

End master_json.

(** ** Lemmas: playlists *)

Section playlists.
Context `{Env} `{CJSON}.

(** The text received so far, at the start of the buffer and terminated. *)
Definition text_in (s : bytes) (w : world) : Prop :=
  output_len (dl w) = Z.of_nat (length s) ∧ (length s < 4096)%nat ∧
  length (output_buffer (dl w)) = 4096%nat ∧ ∃ rest, output_buffer (dl w) = s ++ 0 :: rest.

(** Everything but the buffer. *)
Definition but_text (w : world) := set dl (set output_buffer [] (set output_len 0 (dl w))) w.

Lemma direction_data data s w : text_in s w → (length (s ++ data) < 4096)%nat →
  ∃ w', DirectionCallback (HTTP_EVENT_ON_DATA data) w = Ok ((), w') ∧ text_in (s ++ data) w' ∧
    but_text w' = but_text w.
Proof.
  intros (Hn & Hs & Hl & rest & Hb) Hlen. cbn [DirectionCallback]. cbv [bind get_dl gets].
  rewrite Hl, Hn. rewrite length_app in Hlen. rewrite bool_decide_true by lia. unfold when.
  cbv [put_dl modify bind lift]. rewrite Nat2Z.id, Hb.
  assert (length rest = 4095 - length s)%nat as Hr.
  { apply (f_equal length) in Hb. rewrite length_app in Hb. simpl in Hb. lia. }
  assert (splice (s ++ 0 :: rest) (length s) data = s ++ data ++ drop (length data) (0 :: rest)) as ->.
  { unfold splice. rewrite take_app_length. do 2 f_equal.
    rewrite <-drop_drop, drop_app_length. done. }
  rewrite store_Ok by (rewrite !length_app, length_drop; simpl; lia).
  eexists. split; [done|]. split; [|done]. split_and!.
  - simpl. rewrite length_app. lia.
  - rewrite length_app. lia.
  - simpl. rewrite length_insert, !length_app, length_drop. simpl. lia.
  - simpl. exists (drop (S (length data)) (0 :: rest)).
    replace (Z.to_nat (Z.of_nat (length s) + Z.of_nat (length data))) with (length (s ++ data))
      by (rewrite length_app; lia).
    rewrite app_assoc, insert_app_r_alt, Nat.sub_diag by lia.
    destruct (drop (length data) (0 :: rest)) as [|c l] eqn:E.
    + apply (f_equal length) in E. rewrite length_drop in E. simpl in E. lia.
    + replace (S (length data)) with (length data + 1)%nat by lia. by rewrite <-drop_drop, E.
Qed.

Lemma direction_events events s w : Forall quiet events → text_in s w →
  (length (s ++ data_of events) < 4096)%nat →
  ∃ w', for_each events DirectionCallback w = Ok ((), w') ∧ text_in (s ++ data_of events) w' ∧
    but_text w' = but_text w.
Proof.
  intros Hq. revert s w. induction Hq as [|e events [Hf Hd] _ IH]; intros s w Hw Hl.
  { exists w. by rewrite app_nil_r. }
  change (data_of (e :: events)) with (match e with HTTP_EVENT_ON_DATA d => d | _ => [] end ++ data_of events) in *.
  cbn [for_each]. destruct e as [| | |k v|data| | |]; try done;
    try (by rewrite (bind_run _ _ w () w); [apply IH|]).
  rewrite app_assoc in Hl |- *. destruct (direction_data data s w Hw) as (w1 & Hr & Hw1 & E1).
  { rewrite length_app in Hl. lia. }
  rewrite (bind_run _ _ _ _ _ Hr). destruct (IH _ _ Hw1 Hl) as (w2 & Hr2 & Hw2 & E2).
  exists w2. split; [done|]. split; [done|congruence].
Qed.

(** The events that end a response leave the text in the buffer. *)
Definition ending (e : http_event) : Prop := e = HTTP_EVENT_ON_FINISH ∨ e = HTTP_EVENT_DISCONNECTED.

Lemma direction_end events w : Forall ending events →
  ∃ w', for_each events DirectionCallback w = Ok ((), w') ∧ but_text w' = but_text w ∧
    output_buffer (dl w') = output_buffer (dl w).
Proof.
  intros He. revert w. induction He as [|e events He _ IH]; intros w; [by exists w|]. cbn [for_each].
  rewrite (bind_run _ _ w () (update dl (set output_len 0) w)); [|by destruct He as [-> | ->]].
  destruct (IH (update dl (set output_len 0) w)) as (w' & Hr & E1 & E2). by exists w'.
Qed.

(** The name of a direction file: anything, an underscore, the direction, a dot
    and the extension. *)
Lemma before_first_app c s rest : c ∉ s → before_first c (s ++ c :: rest) = s.
Proof.
  intros Hs. induction s as [|d s IH]; cbn [app before_first]; [by rewrite bool_decide_true|].
  apply not_elem_of_cons in Hs as [Hd Hs]. rewrite bool_decide_false by done. by rewrite IH.
Qed.

Lemma direction_of_name (pre dir ext : bytes) : 95 ∉ dir ++ 46 :: ext → 46 ∉ dir →
  (length (pre ++ 95%Z :: dir ++ 46%Z :: ext) < 256)%nat →
  direction_of (pre ++ 95 :: dir ++ 46 :: ext) = Some dir.
Proof.
  intros H1 H2 Hl. unfold direction_of, snprintf. rewrite take_ge by lia. unfold after_last.
  rewrite bool_decide_true by set_solver. cbn [fmap option_fmap option_map]. f_equal.
  rewrite reverse_app, reverse_cons, <-app_assoc. cbn [app].
  rewrite before_first_app; [|by rewrite elem_of_reverse].
  rewrite reverse_involutive. by apply before_first_app.
Qed.

Lemma create_file_run path text w : can_create path (fs w) = true →
  create_file path text w = Ok (true, update fs (update files (<[path := text]>)) w).
Proof.
  intros Hc. unfold create_file.
  rewrite (bind_run _ _ w true (update fs (update files (<[path := []]>)) w)).
  2: { unfold fopen_w. cbv [bind gets]. by rewrite Hc. }
  unfold when. rewrite (bind_run _ _ _ _ _ (append_run path [] text
    (update fs (update files (<[path := []]>)) w) (lookup_insert_eq (files (fs w)) path []))).
  unfold ret. do 2 f_equal. unfold update, upd_fs, upd_files. simpl. by rewrite insert_insert_eq.
Qed.

(** The request for a direction file leaves its text in the buffer. *)
Lemma direction_request url pre post s w : text_in [] w → Forall quiet pre → Forall ending post →
  (length (data_of pre) < 4096)%nat → no_nul (data_of pre) →
  env_http (esp_http_client_perform url [] :: hist w)
    = {| http_events := pre ++ post; http_ok := true; http_status := s |} →
  ∃ w', http_perform url [] DirectionCallback w
      = Ok ({| http_events := pre ++ post; http_ok := true; http_status := s |}, w') ∧
    cstr (output_buffer (dl w')) = Some (data_of pre) ∧ fs w' = fs w ∧ dl_toy (dl w') = dl_toy (dl w).
Proof.
  intros Hw Hq He Hl Hz Ha.
  destruct (direction_events pre [] (update hist (esp_http_client_perform url [] ::.) w))
    as (w2 & Hr2 & (_ & _ & _ & tail & Hbuf) & E2); [done..|].
  destruct (direction_end post w2 He) as (w3 & Hr3 & E3 & Eb). exists w3. split_and!.
  - unfold http_perform, emit.
    rewrite (bind_run _ _ w () (update hist (esp_http_client_perform url [] ::.) w)) by done.
    rewrite (bind_run _ _ _ (esp_http_client_perform url [] :: hist w)
      (update hist (esp_http_client_perform url [] ::.) w)) by done.
    rewrite Ha. cbn [http_events]. rewrite (bind_run _ _ _ () w3); [done|]. rewrite for_each_app.
    by rewrite (bind_run _ _ _ _ _ Hr2).
  - rewrite Eb, Hbuf. by apply cstr_app.
  - rewrite E2 in E3. by apply (f_equal fs) in E3.
  - rewrite E2 in E3. by apply (f_equal (λ w, dl_toy (dl w))) in E3.
Qed.

(** Where the playlist of a direction is kept. *)
Definition playlist_path (t dir : bytes) : bytes := toy_dir t ++ lit "/" ++ dir ++ lit ".cubbies".

(** The cleanup of its client changes no file. *)
Lemma direction_cleanup w : ∃ w', http_cleanup DirectionCallback w = Ok ((), w') ∧ fs w' = fs w.
Proof. destruct (http_cleanup_run DirectionCallback w) as [-> | ->]; by eexists. Qed.

Lemma download_file_run `{!FreedClose} name dir t pre_events post_events s w (path := playlist_path t dir) :
  direction_of name = Some dir → (length path < 256)%nat → dl_toy (dl w) = t → can_create path (fs w) = true →
  env_http (esp_http_client_perform (snprintf 256 (baseUrl (dl w) ++ name)) [] :: hist w)
    = {| http_events := pre_events ++ post_events; http_ok := true; http_status := s |} →
  Forall quiet pre_events → Forall ending post_events →
  (length (data_of pre_events) < 4096)%nat → no_nul (data_of pre_events) →
  ∃ w', download_file name w = Ok ((), w') ∧ files (fs w') = <[path := data_of pre_events]> (files (fs w)).
Proof.
  intros Hn Hl2 Et Hc Ha Hq He Hlen Hz.
  unfold download_file.
  rewrite (bind_run _ _ w () (update dl (set output_buffer (memset0 4096)) w)) by done.
  rewrite (bind_run _ _ _ () (update dl (set output_len 0) (update dl (set output_buffer (memset0 4096)) w))) by done.
  set (w1 := update dl (set output_len 0) _).
  rewrite (bind_run _ _ w1 (baseUrl (dl w)) w1) by done.
  destruct (direction_request (snprintf 256 (baseUrl (dl w) ++ name)) pre_events post_events s w1)
    as (w2 & Hr2 & Hbuf & Hfs & Htoy); [|done..|].
  { split_and!; [done|simpl; lia|done|]. by exists (memset0 4095). }
  rewrite (bind_run _ _ _ _ _ Hr2). cbn [http_ok]. rewrite Hn. unfold when.
  set (w3 := update fs (update files (<[path := data_of pre_events]>)) w2).
  rewrite (bind_run _ _ w2 () w3).
  { destruct (direction_cleanup w3) as (w4 & Hr4 & Hf4). rewrite (bind_run _ _ _ _ _ Hr4), http_close_freed_run.
    eexists. split; [done|]. simpl. rewrite Hf4. simpl. by rewrite Hfs. }
  rewrite (bind_run _ _ w2 (output_buffer (dl w2)) w2), Hbuf by done.
  rewrite (bind_run _ _ w2 (data_of pre_events) w2) by done.
  unfold save_file_to_sd. rewrite (bind_run _ _ w2 t w2) by (unfold get_dl, gets; by rewrite Htoy, <-Et).
  unfold snprintf. rewrite (take_ge (toy_dir t ++ _)) by (unfold path, playlist_path in Hl2; lia). fold (playlist_path t dir). fold path.
  rewrite (bind_run _ _ _ _ _ (create_file_run path (data_of pre_events) w2 ltac:(by rewrite Hfs))).
  done.
Qed.

End playlists.

(** ** Properties *)

Section metadata_properties.
Context `{Env} `{CJSON}.

(** The token.  While a token is asked for and there is none, a response
    of any events is handled without a fault; the token is then the value of
    the first header of the right name that is at most 40 characters long, cut
    to the 39 characters its array holds, and without such a header there is
    still none. *)
Theorem token_response (events : list http_event) (w : world)
    (Harr : token_arrays w) (Hask : tokenRequestFlag (dl w) ≠ 0) (Hval : validTokenFlag (dl w) = 0)
    (Hn : ∀ key value, HTTP_EVENT_ON_HEADER key value ∈ events → no_nul value) :
  ∃ w', for_each events TokenCallback w = Ok ((), w') ∧
    match first_token events with
    | Some value => until_nul (accessToken (dl w')) = take 39 value ∧ validTokenFlag (dl w') = 1
    | None => accessToken (dl w') = accessToken (dl w) ∧ validTokenFlag (dl w') = 0
    end.
Proof.
  revert w Harr Hask Hval. induction events as [|e events IH]; intros w Harr Hask Hval; [by exists w|].
  cbn [for_each]. destruct (first_token [e]) as [value|] eqn:He.
  - destruct e as [| | |key v|data| | |]; try done. cbn [first_token] in He |- *.
    destruct (is_token_key key && _) eqn:Hk; [|done]. injection He as ->.
    destruct (TokenCallback_token key value w) as (w1 & Hr & Ha1 & Ht & Hv); [done|eapply Hn; left|done..|].
    rewrite (bind_run _ _ _ _ _ Hr).
    destruct (TokenCallback_rest events w1) as (w2 & Hr2 & E1 & E2); [done|by rewrite Hv|].
    exists w2. by rewrite E1, E2.
  - destruct (TokenCallback_other e w Harr) as (w1 & Hr & Ha1 & E1 & E2 & E3); [by left|].
    rewrite (bind_run _ _ _ _ _ Hr).
    destruct (IH) with (w := w1) as (w2 & Hr2 & Hres); [intros; eapply Hn; by right|done|congruence..|].
    exists w2. split; [exact Hr2|].
    assert (first_token (e :: events) = first_token events) as ->.
    { destruct e as [| | |key v|data| | |]; try done. cbn [first_token] in He |- *.
      by destruct (is_token_key key && bool_decide (length v ≤ 40)%nat). }
    by rewrite <-E1.
Qed.

(** C27 (the master JSON).  A response that arrives in pieces is copied, in
    order and complete, to the metadata file of the tag on the pad, and the
    end of the response hands the same text to the parser and frees it. *)
Theorem master_json_stored (first : bytes) (rest : list bytes) (t : bytes) (w : world)
    (Hne : first ≠ []) (Et : t = until_nul (tagUid_qbus (tag w))) (Hst : can_store t w)
    (Hf : mj_file (dl w) = None) (Hb : response_buffer (dl w) = None) (Hs : response_buffer_size (dl w) = 0) :
  ∃ w', for_each (HTTP_EVENT_ON_DATA <$> first :: rest) MasterjsonCallback w = Ok ((), w') ∧
    files (fs w') = <[metadata_path t := first ++ concat rest]> (files (fs w)) ∧
    MasterjsonCallback HTTP_EVENT_ON_FINISH w'
      = bind (put_dl mj_file None)
          (λ _, bind (parse_and_store_metadata (first ++ concat rest)) (λ _, free_response)) w'.
Proof.
  destruct (master_first first t w) as (w1 & Hr1 & Hw1 & Hd1 & Hf1 & Hg1); [done..|].
  destruct (master_chunks _ _ _ rest w1 Hw1) as (w2 & Hr2 & (Hm & Hc & Hbuf & Hsz) & Hd2 & Hf2 & Hg2).
  exists w2. cbn [fmap list_fmap for_each]. rewrite (bind_run _ _ _ _ _ Hr1). split; [exact Hr2|]. split.
  - rewrite <-(insert_delete_id _ _ _ Hc), Hf2, Hf1. by rewrite insert_delete_eq.
  - cbn [MasterjsonCallback]. cbv [bind get_dl gets put_dl modify]. rewrite Hm, bool_decide_true by (by eexists).
    unfold when. rewrite <-Hbuf. reflexivity.
Qed.

(** A metadata file that stays open.  When a response breaks off, its
    metadata file is not closed.  The next response, for whatever tag, is
    appended to that file: the metadata of the second toy end up in the folder
    of the first, and nothing is stored for the second. *)
Theorem master_json_stale_file (first : bytes) (rest second : list bytes) (t : bytes) (tg : tag_st) (w : world)
    (Hne : first ≠ []) (Et : t = until_nul (tagUid_qbus (tag w))) (Hst : can_store t w)
    (Hf : mj_file (dl w) = None) (Hb : response_buffer (dl w) = None) (Hs : response_buffer_size (dl w) = 0) :
  ∃ w1 w2, for_each ((HTTP_EVENT_ON_DATA <$> first :: rest) ++ [HTTP_EVENT_DISCONNECTED]) MasterjsonCallback w
             = Ok ((), w1) ∧
    for_each (HTTP_EVENT_ON_DATA <$> second) MasterjsonCallback (set tag tg w1) = Ok ((), w2) ∧
    files (fs w2) = <[metadata_path t := (first ++ concat rest) ++ concat second]> (files (fs w)).
Proof.
  destruct (master_first first t w) as (w1 & Hr1 & Hw1 & Hd1 & Hf1 & Hg1); [done..|].
  destruct (master_chunks _ _ _ rest w1 Hw1) as (w2 & Hr2 & (Hm & Hc & Hbuf & Hsz) & Hd2 & Hf2 & Hg2).
  set (w3 := update dl (λ s, set response_buffer_size 0 (set response_buffer None s)) w2).
  assert (MasterjsonCallback HTTP_EVENT_DISCONNECTED w2 = Ok ((), w3)) as Hr3.
  { cbn [MasterjsonCallback]. cbv [bind get_dl gets]. destruct (response_buffer (dl w2)) eqn:E; [done|].
    exfalso. simpl in Hbuf. by destruct first. }
  destruct (master_chunks (metadata_path t) (first ++ concat rest) [] second (set tag tg w3))
    as (w4 & Hr4 & (_ & Hc4 & _) & _ & Hf4 & _); [by split_and!|].
  exists w3, w4. split; [|split; [exact Hr4|]].
  - rewrite for_each_app. cbn [fmap list_fmap for_each]. rewrite (bind_run _ _ w () w2).
    + by rewrite (bind_run _ _ _ _ _ Hr3).
    + by rewrite (bind_run _ _ _ _ _ Hr1).
  - rewrite <-(insert_delete_id _ _ _ Hc4), Hf4.
    change (files (fs (set tag tg w3))) with (files (fs w2)). rewrite Hf2, Hf1. by rewrite insert_delete_eq.
Qed.

(** C28 (playlists).  A direction file whose text is shorter than the buffer is
    stored, complete, under the name of its direction: what stands between the
    last underscore and the dot of its name.  It takes that closing the client
    returns, although the cleanup has freed it. *)
Theorem playlist_saved `{!FreedClose} (pre dir ext t : bytes) (pre_events post_events : list http_event) (s : Z) (w : world)
    (name := pre ++ 95 :: dir ++ 46 :: ext) (path := toy_dir t ++ lit "/" ++ dir ++ lit ".cubbies")
    (Hn1 : 95 ∉ dir ++ 46 :: ext) (Hn2 : 46 ∉ dir) (Hl1 : (length name < 256)%nat) (Hl2 : (length path < 256)%nat)
    (Et : dl_toy (dl w) = t) (Hc : can_create path (fs w) = true)
    (Ha : env_http (esp_http_client_perform (snprintf 256 (baseUrl (dl w) ++ name)) [] :: hist w)
          = {| http_events := pre_events ++ post_events; http_ok := true; http_status := s |})
    (Hq : Forall quiet pre_events) (He : Forall ending post_events)
    (Hlen : (length (data_of pre_events) < 4096)%nat) (Hz : no_nul (data_of pre_events)) :
  ∃ w', download_file name w = Ok ((), w') ∧ files (fs w') = <[path := data_of pre_events]> (files (fs w)).
Proof.
  apply (download_file_run name dir t pre_events post_events s); [|done..]. by apply direction_of_name.
Qed.

End metadata_properties.

(** ** The properties at concrete inputs *)

Section metadata_witnesses.

(** Every request is answered with one piece of text. *)
#[local] Instance sample_env : Env := {|
  env_time h := 1000 * Z.of_nat (length h);
  env_el_state _ := AEL_STATE_RUNNING;
  env_msg _ := Some Sample.no_msg;
  env_stack _ := Sample.no_msg;
  env_bits _ := 0;
  env_http h := {| http_events := [HTTP_EVENT_ON_DATA (lit "{}")] ++ [HTTP_EVENT_ON_FINISH; HTTP_EVENT_DISCONNECTED];
                   http_ok := true; http_status := 200 |};
  env_disconnects _ := true;
  env_freed_close _ := true;
  env_readdir _ _ := None;
  env_err _ := 0;
  env_getfree _ := None;
  FF_SS_SDCARD := 512;
|}.
#[local] Instance sample_close : FreedClose.
Proof. by split. Qed.
#[local] Instance sample_json : CJSON := Sample.no_json.

Definition asking : world := update dl (set tokenRequestFlag 1) Sample.world0.
Definition token_event (value : string) : http_event :=
  HTTP_EVENT_ON_HEADER (lit "x-cubbies-box-token") (lit value).

Example token_response_witness :
  ∃ w', for_each [HTTP_EVENT_ON_CONNECTED; token_event "abc"; token_event "def"] TokenCallback asking = Ok ((), w') ∧
    until_nul (accessToken (dl w')) = lit "abc".
Proof.
  destruct (token_response [HTTP_EVENT_ON_CONNECTED; token_event "abc"; token_event "def"] asking) as (w' & Hr & Ht & _).
  - split; vm_compute; reflexivity.
  - vm_compute. discriminate.
  - vm_compute. reflexivity.
  - intros key value Hin. apply elem_of_cons in Hin as [E|Hin]; [discriminate E|].
    apply elem_of_cons in Hin as [E|Hin]; [injection E as _ ->; by repeat constructor|].
    apply elem_of_cons in Hin as [E|Hin]; [injection E as _ ->; by repeat constructor|].
    by apply elem_of_nil in Hin.
  - exists w'. split; [exact Hr|]. rewrite Ht. vm_compute. reflexivity.
Defined.

(** The tag A0 is on the pad and its folder is on the card. *)
Definition toy_A0 : bytes := lit "A0".
Definition tagged : world :=
  update fs (update dirs ({[toy_dir toy_A0]} ∪.))
    (update tag (set tagUid_qbus (toy_A0 ++ memset0 18)) Sample.world0).

Lemma tagged_can_store : can_store toy_A0 tagged.
Proof.
  split_and!; try done.
  split_and!; [done|by apply Nat.leb_le; vm_compute|by apply (bool_decide_unpack _); vm_compute].
Qed.

Example master_json_stored_witness :
  ∃ w', for_each (HTTP_EVENT_ON_DATA <$> [lit "{"; lit "}"]) MasterjsonCallback tagged = Ok ((), w') ∧
    files (fs w') !! metadata_path toy_A0 = Some (lit "{}").
Proof.
  destruct (master_json_stored (lit "{") [lit "}"] toy_A0 tagged) as (w' & Hr & Hf & _).
  - discriminate.
  - vm_compute. reflexivity.
  - exact tagged_can_store.
  - reflexivity.
  - reflexivity.
  - reflexivity.
  - exists w'. split; [exact Hr|]. rewrite Hf, lookup_insert_eq. reflexivity.
Defined.

Example master_json_stale_file_witness :
  ∃ w', files (fs w') !! metadata_path toy_A0 = Some (lit "{{}").
Proof.
  destruct (master_json_stale_file (lit "{") [] [lit "{}"] toy_A0 Sample.tag0 tagged) as (w1 & w2 & _ & _ & Hf).
  - discriminate.
  - vm_compute. reflexivity.
  - exact tagged_can_store.
  - reflexivity.
  - reflexivity.
  - reflexivity.
  - exists w2. rewrite Hf, lookup_insert_eq. reflexivity.
Defined.

Example playlist_saved_witness :
  ∃ w', download_file (lit "Kit_south.json") (update dl (set dl_toy toy_A0) tagged) = Ok ((), w') ∧
    files (fs w') !! lit "/sdcard/media/toys/A0/south.cubbies" = Some (lit "{}").
Proof.
  destruct (playlist_saved (lit "Kit") (lit "south") (lit "json") toy_A0 [HTTP_EVENT_ON_DATA (lit "{}")]
    [HTTP_EVENT_ON_FINISH; HTTP_EVENT_DISCONNECTED] 200 (update dl (set dl_toy toy_A0) tagged)) as (w' & Hr & Hf).
  - by apply (bool_decide_unpack _); vm_compute.
  - by apply (bool_decide_unpack _); vm_compute.
  - by apply Nat.ltb_lt; vm_compute.
  - by apply Nat.ltb_lt; vm_compute.
  - reflexivity.
  - vm_compute. reflexivity.
  - reflexivity.
  - by repeat constructor.
  - constructor; [by left|]. constructor; [by right|]. constructor.
  - by apply Nat.ltb_lt; vm_compute.
  - by repeat constructor.
  - exists w'. split; [exact Hr|]. rewrite Hf. reflexivity.
Defined.

End metadata_witnesses.
