(* ===== verification/Tracks.v ===== *)
(** * Tracks: downloading the audio files of a toy
    (the second part of main/src/downloader.cpp)

    A track is written to a temporary file, its header first and then the
    body in blocks of 4096 bytes, and renamed when the request succeeded.
    [dl_st]'s [mp3_file] is [Downloader::file]; [download_buffer] holds the
    bytes of the block that are not written yet, [buffer_pos] of them. *)

From S2P Require Import Prelude CString World SystemBase Player SdCard Wifi Metadata.
#[local] Open Scope M_scope.

(** ** The header of a track *)

Definition BUFFER_SIZE : nat := 4096.
Definition MAX_RETRY_COUNT : nat := 3.

(** "%03d,%03d,%03d" *)
Definition fmt_3 (v : Z * Z * Z) : bytes :=
  let '(x, y, z) := v in join (lit ",") (fmt_03d <$> [x; y; z]).

Definition nl : bytes := [10].

Definition header_text (t a : Z) (l r : Z * Z * Z) (z : Z * Z) : bytes :=
  lit "HEADER_START" ++ nl ++
  lit "T:" ++ fmt_03d t ++ nl ++
  lit "A:" ++ fmt_03d a ++ nl ++
  lit "L:" ++ fmt_3 l ++ nl ++
  lit "R:" ++ fmt_3 r ++ nl ++
  lit "Z:" ++ fmt_03d z.1 ++ lit "," ++ fmt_03d z.2 ++ nl ++
  lit "HEADER_END" ++ nl.

Section tracks.
Context `{Env} `{CJSON}.

(** The number of a member, 0 when there is none. *)
Definition number_field (metadata : Z) (key : bytes) : Z :=
  let v := cJSON_GetObjectItem metadata key in
  if negb (bool_decide (v = 0)) && cJSON_IsNumber v then valueint v else 0.

(** The numbers of an array of exactly [n] items. *)
Definition array_field (metadata : Z) (key : bytes) (n : nat) : res (list Z) :=
  let v := cJSON_GetObjectItem metadata key in
  if negb (bool_decide (v = 0)) && cJSON_IsArray v && bool_decide (cJSON_GetArraySize v = Z.of_nat n)
  then all_res (int_of <$> array_items v)
  else Ok (replicate n 0).

Definition triple (l : list Z) : Z * Z * Z :=
  match l with [x; y; z] => (x, y, z) | _ => (0, 0, 0) end.
Definition pair_of (l : list Z) : Z * Z :=
  match l with [x; y] => (x, y) | _ => (0, 0) end.

(** The text of [write_metadata_to_file]: A, L and R only for a question. *)
Definition metadata_text (metadata : Z) : res bytes :=
  (let t_value := number_field metadata (lit "T") in
   let question := bool_decide (t_value = 1) in
   let a_value := if question then number_field metadata (lit "A") else 0 in
   l ← if question then array_field metadata (lit "L") 3 else Ok [0; 0; 0];
   r ← if question then array_field metadata (lit "R") 3 else Ok [0; 0; 0];
   z ← array_field metadata (lit "Z") 2;
   Ok (header_text t_value a_value (triple l) (triple r) (pair_of z)))%stdpp.

Definition write_metadata_to_file (path : bytes) (metadata : Z) : FW () :=
  if bool_decide (metadata = 0) then skip
  else text ← lift (metadata_text metadata); fappend path text.

(** The first item of that name among [items], 0 for none. *)
Fixpoint find_item (items : list Z) (name : bytes) : res Z :=
  match items with
  | [] => Ok 0
  | item :: items =>
      let n_value := cJSON_GetObjectItem item (lit "N") in
      if negb (bool_decide (n_value = 0)) && cJSON_IsString n_value then
        match str_of n_value with
        | Ok s => if strcmp_eq s name then Ok item else find_item items name
        | Fault f => Fault f
        end
      else find_item items name
  end.

Definition find_metadata_for_file (mp3_file_name : bytes) : FW Z :=
  m ← get_dl media_json;
  if bool_decide (m = 0) then ret 0
  else lift (find_item (array_items m) mp3_file_name).

(** ** The body of a track *)

Definition flush_buffer : FW () :=
  b ← get_dl download_buffer;
  f ← get_dl mp3_file;
  match f with
  | Some path =>
      when (negb (bool_decide (b = [])))
        (fappend path b;; put_dl download_buffer [])
  | None => skip
  end.

(** [while (remaining > 0)]: a step copies at least one byte, so the length of
    the data is enough fuel; a full buffer that is not flushed would make the
    loop spin, and a position behind the buffer overrun it. *)
Fixpoint copy_loop (fuel : nat) (data : bytes) : FW () :=
  match fuel with
  | O => skip
  | S fuel =>
      if bool_decide (data = []) then skip
      else
        b ← get_dl download_buffer;
        let to_copy := Nat.min (length data) (BUFFER_SIZE - length b) in
        put_dl download_buffer (b ++ take to_copy data);;
        b ← get_dl download_buffer;
        when (bool_decide (length b = BUFFER_SIZE)) flush_buffer;;
        copy_loop fuel (drop to_copy data)
  end.

Definition Downloadmp3Callback (evt : http_event) : FW () :=
  match evt with
  | HTTP_EVENT_ON_DATA data =>
      f ← get_dl mp3_file;
      when (bool_decide (is_Some f))
        (copy_loop (length data) data;;
         n ← get_dl response_body_size;
         put_dl response_body_size (n + Z.of_nat (length data)))
  | HTTP_EVENT_ON_FINISH =>
      f ← get_dl mp3_file;
      when (bool_decide (is_Some f)) (flush_buffer;; put_dl mp3_file None)
  | HTTP_EVENT_DISCONNECTED =>
      f ← get_dl mp3_file;
      when (bool_decide (is_Some f)) (put_dl mp3_file None)
  | _ => skip
  end.

(** ** One track *)

Definition mp3_url (base name : bytes) : bytes := snprintf 260 (base ++ name ++ lit ".mp3").
Definition temp_path (name : bytes) : bytes :=
  snprintf 256 (lit "/sdcard/media/audio/" ++ name ++ lit "temp.mp3").
Definition final_path (name : bytes) : bytes :=
  snprintf 256 (lit "/sdcard/media/audio/" ++ name ++ lit ".mp3").

(** The header, or two lines of zeros for a track without metadata. *)
Definition write_track_header (path name : bytes) : FW () :=
  m ← find_metadata_for_file name;
  if negb (bool_decide (m = 0)) then write_metadata_to_file path m
  else fappend path (lit "0" ++ nl ++ lit "0,0" ++ nl).

(** The request, tried again while it fails and attempts are left. *)
Fixpoint perform_retry (attempts : nat) (url : bytes) : FW bool :=
  match attempts with
  | O => ret false
  | S attempts =>
      answer ← http_perform url [] Downloadmp3Callback;
      if http_ok answer then ret true
      else delay 100;; perform_retry attempts url
  end.

Definition timer_get_time : FW Z :=
  emit esp_timer_get_time;;
  h ← gets hist;
  ret (env_time h).

(** Open the temporary file and write the header. *)
Definition open_track (temp name : bytes) : FW bool :=
  opened ← fopen_w temp;
  put_dl mp3_file (if (opened : bool) then Some temp else None);;
  if (opened : bool) then
    write_track_header temp name;;
    put_dl response_body_size 0;;
    ret true
  else ret false.

(** Rename after a success; [fclose(file)] after a failure, which leaves the
    closed stream in [file], where the callback finds it when the cleanup
    delivers its event. *)
Definition finish_track (ok : bool) (temp final : bytes) : FW bool :=
  if ok then
    renamed ← rename temp final;
    http_cleanup Downloadmp3Callback;;
    ret renamed
  else
    f ← get_dl mp3_file;
    if bool_decide (is_Some f) then
      emit esp_http_client_cleanup;;
      h ← gets hist;
      if env_disconnects h then fail UseAfterFree else ret false
    else fail NullDeref.

Definition download_mp3_file (mp3_file_name : bytes) : FW bool :=
  base ← get_dl baseUrl;
  let temp := temp_path mp3_file_name in
  opened ← open_track temp mp3_file_name;
  if negb opened then ret false
  else
    start_time ← timer_get_time;
    ok ← perform_retry MAX_RETRY_COUNT (mp3_url base mp3_file_name);
    now ← timer_get_time;
    total ← get_dl total_download_time;
    put_dl total_download_time (total + (now - start_time));;
    finish_track ok temp (final_path mp3_file_name).

(** ** All tracks of a toy *)

Definition compare_and_update_N_server (path : bytes) : FW () :=
  l ← list_files path;
  match l with
  | Some file_names => update_N_server file_names
  | None => skip
  end.

(** [name.substr(0, name.find_last_of('.'))] *)
Definition stem (name : bytes) : bytes :=
  match after_last 46 name with
  | Some ext => take (length name - S (length ext)) name
  | None => name
  end.

Definition is_duplicate (sd_files : list bytes) (name : bytes) : bool :=
  existsb (λ sd, bool_decide (stem name = stem sd)) sd_files.

(** [get_N_value] of the indices below [N_count]; a NULL among them would be
    made a string. *)
Definition N_values : FW (list bytes) :=
  n ← get_dl N_count;
  map_each (Z.of_nat <$> seq 0 (Z.to_nat n))
    (λ i, v ← get_N_value i; lift (from_option_res NullDeref v)).

(** Download until the first failure. *)
Fixpoint download_all (names : list bytes) : FW bool :=
  match names with
  | [] => ret true
  | name :: names =>
      ok ← download_mp3_file name;
      if (ok : bool) then delay 200;; download_all names else ret false
  end.

Definition verify_text (seconds : Z) : bytes :=
  lit "All files downloaded successfully at: " ++ fmt_d seconds ++ nl.

Definition create_verified_file : FW () :=
  tagUid ← get_tag tagUid_qbus;
  file_path ← lift (sprintf 256 (verify_path (until_nul tagUid)));
  opened ← fopen_w file_path;
  when opened
    (now ← timer_get_time;
     fappend file_path (verify_text (now `quot` 1000000))).

Definition process_audio_files (sd_card_path : bytes) : FW bool :=
  l ← list_files sd_card_path;
  match l with
  | None => ret false
  | Some sd_files =>
      names ← N_values;
      let files_to_download := filter (λ n, negb (is_duplicate sd_files n)) names in
      ok ← download_all files_to_download;
      when (ok && negb (bool_decide (files_to_download = []))) create_verified_file;;
      free_N_server;;
      ret ok
  end.

End tracks.

(** ** Lemmas: the header *)

(** One turn of [readHeader]'s loop on a complete line. *)
Lemma header_step fuel line rest h : (length line < 255)%nat → Forall plain line →
  header_loop (S fuel) (line ++ 10 :: rest) h =
    match header_line line h with
    | Ok (Some h) => header_loop fuel rest h
    | Ok None => Ok h
    | Fault f => Fault f
    end.
Proof.
  intros Hl Hp. cbn [header_loop]. rewrite fgets_line by done.
  by rewrite cut_eol_line.
Qed.

Lemma no_digit_nil : no_digit_head [].
Proof. done. Qed.
Lemma no_digit_comma s : no_digit_head (44 :: s).
Proof. by intros c s' [= <- <-]. Qed.
#[local] Hint Resolve no_digit_nil no_digit_comma : core.

Lemma fits_int_Ok v : int_ok v → fits_int v = Ok v.
Proof. unfold int_ok, fits_int, fits. intros. by rewrite bool_decide_true. Qed.

Lemma sscanf_d_fmt v x : int_ok v → sscanf_d (fmt_03d v) x = Ok v.
Proof.
  intros. unfold sscanf_d. rewrite <-(app_nil_r (fmt_03d v)), scan_int_fmt_03d by auto.
  by apply fits_int_Ok.
Qed.

Definition ints_ok (v : Z * Z * Z) : Prop := let '(x, y, z) := v in int_ok x ∧ int_ok y ∧ int_ok z.

Lemma fmt_3_eq x y z : fmt_3 (x, y, z) = fmt_03d x ++ 44 :: fmt_03d y ++ 44 :: fmt_03d z.
Proof. unfold fmt_3. simpl. by rewrite <-?app_assoc. Qed.

Lemma sscanf_3_fmt v old : ints_ok v → sscanf_3 fits_int (fmt_3 v) old = Ok v.
Proof.
  destruct v as [[x y] z], old as [[x0 y0] z0]. intros (? & ? & ?).
  rewrite fmt_3_eq. unfold sscanf_3. rewrite scan_int_fmt_03d by auto. simpl.
  rewrite fits_int_Ok by done. simpl. rewrite scan_int_fmt_03d by auto. simpl.
  rewrite fits_int_Ok by done. simpl.
  rewrite <-(app_nil_r (fmt_03d z)), scan_int_fmt_03d by auto. simpl.
  by rewrite fits_int_Ok by done.
Qed.

Lemma plain_comma : plain 44.
Proof. done. Qed.

Lemma fmt_3_plain v : Forall plain (fmt_3 v).
Proof.
  destruct v as [[x y] z]. rewrite fmt_3_eq.
  by repeat first [apply fmt_03d_plain | apply plain_comma | apply Forall_cons_2 | apply Forall_app_2].
Qed.

Lemma length_fmt_3 v : ints_ok v → (length (fmt_3 v) ≤ 35)%nat.
Proof.
  destruct v as [[x y] z]. intros (Hx & Hy & Hz). rewrite fmt_3_eq.
  rewrite !length_app. cbn [length]. rewrite !length_app. cbn [length].
  pose proof (length_fmt_03d x Hx). pose proof (length_fmt_03d y Hy). pose proof (length_fmt_03d z Hz).
  lia.
Qed.

(** The date range as [readHeader] keeps it: 19 characters and a NUL. *)
Definition range_text (z : Z * Z) : bytes := fmt_03d z.1 ++ lit "," ++ fmt_03d z.2.
Definition range_field (z : Z * Z) : bytes := take 19 (range_text z ++ replicate 19 0) ++ [0].

Lemma header_lines t a l r z body : header_text t a l r z ++ body =
  lit "HEADER_START" ++ 10 :: (84 :: 58 :: fmt_03d t) ++ 10 :: (65 :: 58 :: fmt_03d a) ++ 10 ::
  (76 :: 58 :: fmt_3 l) ++ 10 :: (82 :: 58 :: fmt_3 r) ++ 10 :: (90 :: 58 :: range_text z) ++ 10 ::
  lit "HEADER_END" ++ 10 :: body.
Proof. unfold header_text, range_text, nl. cbn [app]. repeat (simpl; rewrite <-?app_assoc). reflexivity. Qed.

(** The line of one field. *)
Lemma header_field fuel c text rest h f : (length text < 250)%nat → Forall plain text → plain c →
  header_line (c :: 58 :: text) h = Ok (Some f) →
  header_loop (S fuel) ((c :: 58 :: text) ++ 10 :: rest) h = header_loop fuel rest f.
Proof.
  intros Hl Ht Hc Hf. rewrite header_step; [by rewrite Hf|simpl; lia|].
  apply Forall_cons_2; [done|]. by apply Forall_cons_2.
Qed.

Lemma range_text_plain z : Forall plain (range_text z).
Proof.
  unfold range_text. apply Forall_app_2; [apply fmt_03d_plain|].
  apply Forall_cons_2; [apply plain_comma|apply fmt_03d_plain].
Qed.

Lemma length_range_text z : int_ok z.1 → int_ok z.2 → (length (range_text z) ≤ 23)%nat.
Proof.
  intros H1 H2. unfold range_text. rewrite !length_app. cbn [length].
  pose proof (length_fmt_03d _ H1). pose proof (length_fmt_03d _ H2). simpl. lia.
Qed.

(** The fields that [readHeader] reads from a header. *)
Lemma parse_header_text t a l r z body h : int_ok t → int_ok a → ints_ok l → ints_ok r →
  int_ok z.1 → int_ok z.2 →
  parse_header (header_text t a l r z ++ body) h = Ok (MkHeader t a l r (range_field z)).
Proof.
  intros Ht Ha Hl Hr Hz1 Hz2. unfold parse_header.
  assert (∃ fuel, S (length (header_text t a l r z ++ body)) = S (S (S (S (S (S (S fuel))))))) as [fuel ->].
  { rewrite header_lines. simpl. eexists. reflexivity. }
  rewrite header_lines.
  rewrite header_step; [|simpl; lia|by repeat constructor].
  change (header_line (lit "HEADER_START") h) with (Ok (Some h)). cbv beta iota.
  pose proof (length_fmt_03d t Ht). pose proof (length_fmt_03d a Ha).
  pose proof (length_fmt_3 l Hl). pose proof (length_fmt_3 r Hr).
  pose proof (length_range_text z Hz1 Hz2).
  rewrite (header_field _ 84 (fmt_03d t) _ h (set hdr_T t h));
    [|lia|apply fmt_03d_plain|done|unfold header_line; simpl; by rewrite sscanf_d_fmt].
  rewrite (header_field _ 65 (fmt_03d a) _ _ (set hdr_A a (set hdr_T t h)));
    [|lia|apply fmt_03d_plain|done|unfold header_line; simpl; by rewrite sscanf_d_fmt].
  rewrite (header_field _ 76 (fmt_3 l) _ _ (set hdr_L l (set hdr_A a (set hdr_T t h))));
    [|lia|apply fmt_3_plain|done|unfold header_line; simpl; by rewrite sscanf_3_fmt].
  rewrite (header_field _ 82 (fmt_3 r) _ _ (set hdr_R r (set hdr_L l (set hdr_A a (set hdr_T t h)))));
    [|lia|apply fmt_3_plain|done|unfold header_line; simpl; by rewrite sscanf_3_fmt].
  rewrite (header_field _ 90 (range_text z) _ _ (MkHeader t a l r (range_field z)));
    [|lia|apply range_text_plain|done|done].
  rewrite header_step; [done|simpl; lia|by repeat constructor].
Qed.

(** ** Lemmas: the stream of a track *)

Section stream.
Context `{Env} `{CJSON}.

(** The open track: its file, the bytes written, the bytes in the buffer. *)
Definition track_state (path c b : bytes) (w : world) : Prop :=
  mp3_file (dl w) = Some path ∧ files (fs w) !! path = Some c ∧ download_buffer (dl w) = b.

(** Everything the stream of the file at [path] leaves alone. *)
Definition beside (path : bytes) (w : world) :=
  (hist w, dirs (fs w), delete path (files (fs w)), (led w, plr w, sys w, wifi w, tag w, qbusSlave w),
   set download_buffer [] (set response_body_size 0 (set mp3_file None (dl w))), notifyCmdCharac w).

Definition stream_spec (path c b data : bytes) (w0 w : world) : Prop :=
  ∃ c' b', track_state path c' b' w ∧ c' ++ b' = c ++ b ++ data ∧ (length b' < BUFFER_SIZE)%nat ∧
    beside path w = beside path w0.

Lemma flush_spec path c b w : track_state path c b w →
  wp flush_buffer (λ _ w', track_state path (c ++ b) [] w' ∧ beside path w' = beside path w) w.
Proof.
  intros (Hf & Hc & Hb). unfold flush_buffer. apply wp_gets_bind, wp_gets_bind. rewrite Hf, Hb.
  destruct (decide (b = [])) as [->|Hne].
  - rewrite bool_decide_true by done. split; [|done]. by rewrite app_nil_r.
  - rewrite bool_decide_false by done. unfold when. cbn [negb].
    eapply wp_run_bind; [by apply append_run|]. split.
    + split_and!; simpl; [done|apply lookup_insert_eq|done].
    + unfold beside. simpl. by rewrite delete_insert_eq.
Qed.

Lemma copy_loop_spec fuel data path c b w : (length data ≤ fuel)%nat → (length b < BUFFER_SIZE)%nat →
  track_state path c b w → wp (copy_loop fuel data) (λ _, stream_spec path c b data w) w.
Proof.
  revert data c b w. induction fuel as [|fuel IH]; intros data c b w Hl Hb Ht; cbn [copy_loop].
  { destruct data; [|simpl in Hl; lia]. exists c, b. by rewrite app_nil_r. }
  destruct (decide (data = [])) as [->|Hne].
  { rewrite bool_decide_true by done. exists c, b. by rewrite app_nil_r. }
  rewrite bool_decide_false by done. apply wp_gets_bind. destruct Ht as (Hf & Hc & ->).
  set (n := Nat.min (length data) (BUFFER_SIZE - length b)).
  assert (0 < n)%nat as Hn by (subst n; destruct data; [done|cbn [length]; lia]).
  apply wp_modify_bind, wp_gets_bind. set (w1 := update dl _ w).
  assert (track_state path c (b ++ take n data) w1) as Ht1 by done.
  assert (beside path w1 = beside path w) as Hbe by done.
  change (download_buffer (dl w1)) with (b ++ take n data).
  assert (length (b ++ take n data) = length b + n)%nat as Hlen.
  { rewrite length_app, length_take. lia. }
  assert (∀ c' b' w', (length b' < BUFFER_SIZE)%nat → track_state path c' b' w' →
    c' ++ b' = c ++ b ++ take n data → beside path w' = beside path w →
    wp (copy_loop fuel (drop n data)) (λ _, stream_spec path c b data w) w') as Hgo.
  { intros c' b' w' Hb' Ht' Heq Hbe'. eapply wp_mono.
    - apply (IH (drop n data) c' b'); [rewrite length_drop; lia|done..].
    - intros _ w2 (c2 & b2 & ? & Heq2 & ? & Hbe2). exists c2, b2. split_and!; [done| |done|congruence].
      rewrite Heq2, app_assoc, Heq, <-!app_assoc. by rewrite take_drop. }
  rewrite Hlen. case_bool_decide as Hfull.
  - eapply wp_seq; [by apply flush_spec|]. intros _ w2 (Ht2 & Hbe2).
    apply (Hgo (c ++ b ++ take n data) []); [unfold BUFFER_SIZE; simpl; lia|done| |congruence].
    by rewrite app_nil_r.
  - apply (Hgo c (b ++ take n data)); [lia|done..].
Qed.

Lemma stream_trans path c b d1 d2 w0 w1 w2 c1 b1 :
  track_state path c1 b1 w1 → c1 ++ b1 = c ++ b ++ d1 → beside path w1 = beside path w0 →
  stream_spec path c1 b1 d2 w1 w2 → stream_spec path c b (d1 ++ d2) w0 w2.
Proof.
  intros _ E Hb (c2 & b2 & ? & E2 & ? & ?). exists c2, b2. split_and!; [done| |done|congruence].
  by rewrite E2, app_assoc, E, <-!app_assoc.
Qed.

Lemma events_spec events path c b w : Forall quiet events → (length b < BUFFER_SIZE)%nat →
  track_state path c b w →
  wp (for_each events Downloadmp3Callback) (λ _, stream_spec path c b (data_of events) w) w.
Proof.
  intros Hq. revert c b w. induction Hq as [|e events [Hf Hd] _ IH]; intros c b w Hb Ht.
  { exists c, b. by rewrite app_nil_r. }
  change (data_of (e :: events)) with (match e with HTTP_EVENT_ON_DATA d => d | _ => [] end ++ data_of events).
  cbn [for_each]. destruct e as [| | | |data| | |]; try done; try by apply IH.
  eapply (wp_seq _ _ (λ _, stream_spec path c b data w)).
  - unfold Downloadmp3Callback. destruct Ht as (Hfile & Hc & Hbuf). apply wp_gets_bind.
    rewrite bool_decide_true by (rewrite Hfile; by eexists). unfold when.
    eapply wp_seq; [by apply (copy_loop_spec _ data path c b)|].
    intros _ w1 (c1 & b1 & Ht1 & E1 & Hb1 & Hbe1). exists c1, b1. done.
  - intros _ w1 (c1 & b1 & Ht1 & E1 & Hb1 & Hbe1). eapply wp_mono; [by apply IH|].
    intros ? w2 Hs. by eapply stream_trans.
Qed.

(** Once the file is closed the callback does nothing any more. *)
Lemma closed_events events w : mp3_file (dl w) = None →
  for_each events Downloadmp3Callback w = Ok ((), w).
Proof.
  intros Hf. induction events as [|e events IH]; [done|]. cbn [for_each].
  rewrite (bind_run _ _ _ () w); [done|].
  destruct e; cbn [Downloadmp3Callback]; try done; cbv [bind get_dl gets]; by rewrite Hf.
Qed.

(** A response that is finished, and one that breaks off. *)
Lemma finished_spec pre post path c b w : Forall quiet pre → (length b < BUFFER_SIZE)%nat →
  track_state path c b w →
  wp (for_each (pre ++ HTTP_EVENT_ON_FINISH :: post) Downloadmp3Callback) (λ _ w',
    mp3_file (dl w') = None ∧ files (fs w') !! path = Some (c ++ b ++ data_of pre) ∧
    download_buffer (dl w') = [] ∧ beside path w' = beside path w) w.
Proof.
  intros Hq Hb Ht. unfold wp. rewrite for_each_app. eapply wp_seq; [by apply events_spec|].
  intros _ w1 (c1 & b1 & Ht1 & E1 & _ & Hbe1). cbn [for_each].
  eapply (wp_seq _ _ (λ _ w2, mp3_file (dl w2) = None ∧ files (fs w2) !! path = Some (c1 ++ b1) ∧
    download_buffer (dl w2) = [] ∧ beside path w2 = beside path w)).
  - unfold Downloadmp3Callback. apply wp_gets_bind. rewrite bool_decide_true by (rewrite (proj1 Ht1); by eexists).
    eapply wp_seq; [by apply flush_spec|]. intros _ w2 ((Hf2 & Hc2 & Hb2) & Hbe2).
    split_and!; [done..|]. etrans; [|exact Hbe1]. by rewrite <-Hbe2.
  - intros _ w2 (Hf & Hc & Hb2 & Hbe). eapply wp_of_Ok; [by apply closed_events|].
    by rewrite Hc, E1.
Qed.

Lemma broken_spec pre post path c b w : Forall quiet pre → (length b < BUFFER_SIZE)%nat →
  track_state path c b w →
  wp (for_each (pre ++ HTTP_EVENT_DISCONNECTED :: post) Downloadmp3Callback) (λ _ w',
    ∃ kept lost, kept ++ lost = c ++ b ++ data_of pre ∧ (length lost < BUFFER_SIZE)%nat ∧
      mp3_file (dl w') = None ∧ files (fs w') !! path = Some kept ∧ download_buffer (dl w') = lost ∧
      beside path w' = beside path w) w.
Proof.
  intros Hq Hb Ht. unfold wp. rewrite for_each_app. eapply wp_seq; [by apply events_spec|].
  intros _ w1 (c1 & b1 & (Hf1 & Hc1 & Hb1) & E1 & Hl1 & Hbe1). cbn [for_each].
  eapply wp_run_bind.
  { unfold Downloadmp3Callback. cbv [bind get_dl gets]. rewrite Hf1. reflexivity. }
  eapply wp_of_Ok; [by apply closed_events|]. by exists c1, b1.
Qed.

(** ** Lemmas: one track *)

Definition track_header (m : Z) (name : bytes) : res bytes :=
  (item ← if bool_decide (m = 0) then Ok 0 else find_item (array_items m) name;
   if bool_decide (item = 0) then Ok (lit "0" ++ nl ++ lit "0,0" ++ nl) else metadata_text item)%stdpp.

Lemma write_track_header_run path name c text w : files (fs w) !! path = Some c →
  track_header (media_json (dl w)) name = Ok text →
  write_track_header path name w = Ok ((), update fs (update files (<[path := c ++ text]>)) w).
Proof.
  intros Hc. unfold track_header, write_track_header, find_metadata_for_file, write_metadata_to_file.
  unfold bind at 1 2, get_dl, gets.
  destruct (bool_decide (media_json (dl w) = 0)) eqn:Hm.
  - intros [= <-]. by apply append_run.
  - destruct (find_item _ name) as [item|]; [|done]. cbn [lift mbind res_bind].
    destruct (bool_decide (item = 0)) eqn:Hi; cbn [negb].
    + intros [= <-]. by apply append_run.
    + intros Ht. unfold bind, lift. rewrite Ht. by apply append_run.
Qed.

(** The card but for the file at [path]. *)
Definition card_but (path : bytes) (w : world) := (dirs (fs w), delete path (files (fs w))).

Lemma beside_card path w w' : beside path w' = beside path w → card_but path w' = card_but path w.
Proof. unfold beside, card_but. by intros [= _ -> -> _ _ _ _ _ _ _ _]. Qed.

Lemma open_track_spec temp name text w : can_create temp (fs w) = true →
  track_header (media_json (dl w)) name = Ok text →
  wp (open_track temp name) (λ r w', r = true ∧ track_state temp text (download_buffer (dl w)) w' ∧
    hist w' = hist w ∧ card_but temp w' = card_but temp w) w.
Proof.
  intros Hc Ht. unfold open_track.
  eapply wp_run_bind; [unfold fopen_w; cbv [bind gets]; rewrite Hc; reflexivity|].
  apply wp_modify_bind. cbv beta iota.
  eapply wp_run_bind; [apply (write_track_header_run temp name [] text); [|exact Ht]|].
  { simpl. apply lookup_insert_eq. }
  apply wp_modify_bind. split; [done|]. split_and!; try done.
  - split; [done|]. split; [apply lookup_insert_eq|done].
  - unfold card_but. simpl. by rewrite !delete_insert_eq.
Qed.

(** The event of the cleanup closes a file that is still open, and no more. *)
Lemma mp3_cleanup w : ∃ w', http_cleanup Downloadmp3Callback w = Ok ((), w') ∧ fs w' = fs w ∧
  download_buffer (dl w') = download_buffer (dl w).
Proof.
  destruct (http_cleanup_run Downloadmp3Callback w) as [-> | ->]; [by eexists|]. cbn [Downloadmp3Callback].
  cbv [bind get_dl gets]. case_bool_decide; by eexists.
Qed.

Lemma finish_track_spec temp final c w : files (fs w) !! temp = Some c → temp ≠ final →
  files (fs w) !! final = None → can_create final (fs w) = true →
  wp (finish_track true temp final) (λ r w', r = true ∧ download_buffer (dl w') = download_buffer (dl w) ∧
    files (fs w') = <[final := c]> (delete temp (files (fs w)))) w.
Proof.
  intros Hc Hne Hf Hcc. unfold finish_track, rename.
  eapply wp_run_bind.
  { cbv [bind gets]. rewrite Hc, Hf, bool_decide_false by (by intros [? ?]). rewrite Hcc. reflexivity. }
  match goal with |- wp _ _ ?x => destruct (mp3_cleanup x) as (w' & Hr & Hfs & Hb) end.
  eapply wp_run_bind; [exact Hr|]. apply wp_ret. by rewrite Hfs, Hb.
Qed.

Lemma names_differ (name : bytes) : (length name ≤ 200)%nat → temp_path name ≠ final_path name.
Proof.
  intros Hl. unfold temp_path, final_path, snprintf.
  rewrite !take_ge by (rewrite !length_app; simpl; lia).
  intros E. do 2 apply app_inv_head in E. done.
Qed.

(** A request as a step: the events change the world, the answer tells. *)
Lemma http_perform_spec url body on_event answer Q w :
  env_http (esp_http_client_perform url body :: hist w) = answer →
  wp (for_each (http_events answer) on_event) (λ _, Q answer) (update hist (esp_http_client_perform url body ::.) w) →
  wp (http_perform url body on_event) Q w.
Proof.
  intros Ha Hw. unfold http_perform, emit. apply wp_modify_bind, wp_gets_bind.
  change (hist (update hist (esp_http_client_perform url body ::.) w))
    with (esp_http_client_perform url body :: hist w). rewrite Ha.
  eapply wp_seq; [exact Hw|]. by intros ? w' HQ.
Qed.

Lemma timer_run w : timer_get_time w =
  Ok (env_time (esp_timer_get_time :: hist w), update hist (esp_timer_get_time ::.) w).
Proof. done. Qed.

Lemma card_but_lookup path w w' p : card_but path w' = card_but path w → p ≠ path →
  files (fs w') !! p = files (fs w) !! p.
Proof.
  intros [= _ E] Hne. by rewrite <-(lookup_delete_ne (files (fs w')) path p), E, lookup_delete_ne by done.
Qed.

(** The frame of a download: from opening to renaming. *)
Lemma download_frame name text (kept : bytes → bytes → Prop) w : (length name ≤ 200)%nat →
  can_create (temp_path name) (fs w) = true → can_create (final_path name) (fs w) = true →
  files (fs w) !! final_path name = None → track_header (media_json (dl w)) name = Ok text →
  (∀ w1, track_state (temp_path name) text (download_buffer (dl w)) w1 → hist w1 = esp_timer_get_time :: hist w →
    wp (perform_retry MAX_RETRY_COUNT (mp3_url (baseUrl (dl w)) name)) (λ r w2, r = true ∧
      card_but (temp_path name) w2 = card_but (temp_path name) w1 ∧
      ∃ c, files (fs w2) !! temp_path name = Some c ∧ kept c (download_buffer (dl w2))) w1) →
  ∃ w' c, download_mp3_file name w = Ok (true, w') ∧ kept c (download_buffer (dl w')) ∧
    files (fs w') = <[final_path name := c]> (delete (temp_path name) (files (fs w))).
Proof.
  intros Hl Hc1 Hc2 Hnew Hh Hgo.
  cut (wp (download_mp3_file name) (λ r w', r = true ∧ ∃ c, kept c (download_buffer (dl w')) ∧
    files (fs w') = <[final_path name := c]> (delete (temp_path name) (files (fs w)))) w).
  { intros (r & w' & Hr & -> & c & Hk & Hf)%wp_elim. by exists w', c. }
  unfold download_mp3_file. apply wp_gets_bind.
  eapply wp_seq; [by apply open_track_spec|]. intros _ w1 (-> & Ht1 & Hh1 & Hcard1). cbn [negb].
  eapply wp_run_bind; [apply timer_run|]. set (w2 := update hist _ w1).
  eapply wp_seq; [apply (Hgo w2); [exact Ht1|unfold w2; simpl; by rewrite Hh1]|].
  intros _ w3 (-> & Hcard3 & c & Hc & Hk). eapply wp_run_bind; [apply timer_run|].
  apply wp_gets_bind, wp_modify_bind.
  assert (card_but (temp_path name) w3 = card_but (temp_path name) w) as Hcard by (by rewrite Hcard3, <-Hcard1).
  match goal with |- wp _ _ ?x => set (w4 := x) end.
  assert (files (fs w4) = files (fs w3) ∧ dirs (fs w4) = dirs (fs w3) ∧
          download_buffer (dl w4) = download_buffer (dl w3)) as (Hf4 & Hd4 & Hb4) by done.
  eapply wp_mono.
  - apply (finish_track_spec _ _ c); [by rewrite Hf4|by apply names_differ| |].
    + rewrite Hf4. rewrite (card_but_lookup _ _ _ _ Hcard); [done|]. intros E. by apply (names_differ name).
    + unfold can_create in *. rewrite Hd4. by injection Hcard as ->.
  - intros r w' (-> & Hdl & Hfiles). split; [done|]. exists c. split; [by rewrite Hdl, Hb4|].
    rewrite Hfiles, Hf4. injection Hcard as _ E. by rewrite E.
Qed.

End stream.

(** ** Lemmas: the files a download leaves alone *)

(** The paths in the directory of the tracks. *)
Definition in_audio (p : bytes) : Prop := take 20 p = lit "/sdcard/media/audio/".

Lemma temp_in_audio name : in_audio (temp_path name).
Proof. done. Qed.
Lemma final_in_audio name : in_audio (final_path name).
Proof. done. Qed.

Section frame.
Context `{Env} `{CJSON} (p : bytes) (x : option bytes) (d : gset bytes) (tg : tag_st) (Hp : ¬ in_audio p).

(** A file that is no track, the directories, and the tag. *)
Definition card_inv (w : world) : Prop :=
  (files (fs w) !! p = x ∧ dirs (fs w) = d ∧ tag w = tg) ∧ ∀ q, mp3_file (dl w) = Some q → in_audio q.

Lemma audio_ne q : in_audio q → q ≠ p.
Proof. by intros Hq ->. Qed.

Lemma emit_card c : preserves card_inv (emit c).
Proof. by apply preserves_modify. Qed.

Lemma fappend_card q data : in_audio q → preserves card_inv (fappend q data).
Proof.
  intros Hq. apply preserves_modify. intros w ((Hx & Hd & Hg) & Hm). split_and!; [|done..].
  simpl. rewrite lookup_alter_ne by (by apply audio_ne). done.
Qed.

Lemma fopen_w_card q : in_audio q → preserves card_inv (fopen_w q).
Proof.
  intros Hq. unfold fopen_w. apply preserves_bind; [preserves|]. intros b.
  apply preserves_bind; [|preserves]. apply preserves_when, preserves_modify.
  intros w ((Hx & Hd & Hg) & Hm). split_and!; [|done..]. simpl. rewrite lookup_insert_ne by (by apply audio_ne). done.
Qed.

Lemma rename_card q r : in_audio q → in_audio r → preserves card_inv (rename q r).
Proof.
  intros Hq Hr. unfold rename. apply preserves_bind; [preserves|]. intros f.
  destruct (files f !! q) as [data|]; [|preserves]. apply preserves_if; [preserves|].
  apply preserves_bind; [|preserves]. apply preserves_modify. intros w ((Hx & Hd & Hg) & Hm).
  split_and!; [|done..]. simpl. rewrite lookup_insert_ne, lookup_delete_ne by (by apply audio_ne). done.
Qed.

(** A field of the downloader other than the open track. *)
Lemma put_dl_card {A} (f : dl_st → A) `{!Update f} v :
  (∀ s, mp3_file (set f v s) = mp3_file s) → preserves card_inv (put_dl f v).
Proof.
  intros Hf. apply preserves_modify. intros w ((Hx & Hd & Hg) & Hm). split_and!; [done..|].
  intros q. change (dl (update dl (set f v) w)) with (set f v (dl w)). rewrite Hf. apply Hm.
Qed.

Lemma put_mp3_card o : (∀ q, o = Some q → in_audio q) → preserves card_inv (put_dl mp3_file o).
Proof. intros Ho. apply preserves_modify. intros w ((Hx & Hd & Hg) & Hm). by split_and!. Qed.

#[local] Hint Resolve emit_card fappend_card fopen_w_card rename_card temp_in_audio final_in_audio : preserves.
#[local] Hint Extern 3 (preserves _ (put_dl _ _)) => apply put_dl_card; reflexivity : preserves.
#[local] Hint Extern 3 (preserves _ (get_dl _)) => apply preserves_gets : preserves.

Lemma flush_card : preserves card_inv flush_buffer.
Proof.
  unfold flush_buffer. apply preserves_bind; [preserves|]. intros b.
  apply (preserves_gets_bind _ (λ o, ∀ q, o = Some q → in_audio q)); [by intros w (_ & Hm)|].
  intros [q|] Hq; [|preserves]. apply preserves_when, preserves_bind; [by apply fappend_card, Hq|preserves].
Qed.
#[local] Hint Resolve flush_card : preserves.

Lemma copy_loop_card fuel data : preserves card_inv (copy_loop fuel data).
Proof. revert data. induction fuel; intros; cbn [copy_loop]; preserves. Qed.
#[local] Hint Resolve copy_loop_card : preserves.

Lemma close_card : preserves card_inv (put_dl mp3_file None).
Proof. by apply put_mp3_card. Qed.
#[local] Hint Resolve close_card : preserves.

Lemma Downloadmp3Callback_card e : preserves card_inv (Downloadmp3Callback e).
Proof. destruct e; cbn [Downloadmp3Callback]; preserves. Qed.
#[local] Hint Resolve Downloadmp3Callback_card : preserves.

Lemma perform_retry_card n url : preserves card_inv (perform_retry n url).
Proof. induction n; cbn [perform_retry]; unfold http_perform, delay; preserves. Qed.
#[local] Hint Resolve perform_retry_card : preserves.

Lemma open_track_card name : preserves card_inv (open_track (temp_path name) name).
Proof.
  unfold open_track, write_track_header, find_metadata_for_file, write_metadata_to_file.
  apply preserves_bind; [preserves|]. intros [].
  - apply preserves_bind; [apply put_mp3_card; by intros q [= <-]|]. preserves.
  - preserves.
Qed.
#[local] Hint Resolve open_track_card : preserves.

Lemma download_mp3_card name : preserves card_inv (download_mp3_file name).
Proof. unfold download_mp3_file, timer_get_time, finish_track. preserves. Qed.
#[local] Hint Resolve download_mp3_card : preserves.

Lemma download_all_card names : preserves card_inv (download_all names).
Proof. induction names; cbn [download_all]; unfold delay; preserves. Qed.

Lemma download_all_files names w ok w' : card_inv w → download_all names w = Ok (ok, w') →
  files (fs w') !! p = x ∧ dirs (fs w') = d ∧ tag w' = tg.
Proof. intros Hw Hr. by destruct (preserves_elim _ _ _ _ _ (download_all_card names) Hw Hr). Qed.

End frame.

Lemma map_each_run {A B} (l : list A) (f : A → FW B) (g : A → B) w :
  (∀ a, a ∈ l → f a w = Ok (g a, w)) → map_each l f w = Ok (g <$> l, w).
Proof.
  induction l as [|a l IH]; intros Hf; [done|]. cbn [map_each].
  rewrite (bind_run _ _ _ _ _ (Hf a ltac:(left))). rewrite (bind_run _ _ w (g <$> l) w); [done|].
  apply IH. intros b Hb. apply Hf. by right.
Qed.

Lemma N_values_run l w : N_server (dl w) = Some l → N_count (dl w) = Z.of_nat (length l) →
  N_values w = Ok (l, w).
Proof.
  intros Hs Hn. unfold N_values. unfold bind at 1, get_dl at 1, gets. rewrite Hn, Nat2Z.id.
  rewrite (map_each_run _ _ (λ i, default [] (l !! Z.to_nat i)) w).
  - do 2 f_equal. rewrite <-list_fmap_compose.
    apply list_eq. intros i. rewrite list_lookup_fmap.
    destruct (decide (i < length l)%nat) as [Hi|Hi].
    + rewrite lookup_seq_lt by done. simpl. rewrite Nat2Z.id.
      by destruct (lookup_lt_is_Some_2 l i Hi) as [v ->].
    + rewrite lookup_seq_ge, lookup_ge_None_2 by lia. done.
  - intros a (i & -> & Hi)%list_elem_of_fmap. apply elem_of_seq in Hi. unfold get_N_value.
    cbv [bind get_dl gets]. rewrite Hn, bool_decide_true by lia. rewrite Hs, Nat2Z.id. cbn [lift from_option_res].
    by destruct (lookup_lt_is_Some_2 l i) as [v ->]; [lia|].
Qed.

(** ** Lemmas: the values of a header *)

Section header_values.
Context `{CJSON} (Hint : ∀ i, int_ok (valueint i)).

Lemma int_ok_0 : int_ok 0.
Proof. by unfold int_ok. Qed.

Lemma number_field_ok item key : int_ok (number_field item key).
Proof. unfold number_field. case_match; [apply Hint|apply int_ok_0]. Qed.

Lemma all_ints_ok items l : all_res (int_of <$> items) = Ok l → Forall int_ok l.
Proof.
  revert l. induction items as [|i items IH]; intros l; [intros [= <-]; constructor|].
  cbn [fmap list_fmap all_res]. unfold int_of at 1. case_bool_decide; [done|].
  destruct (all_res _) as [xs|]; [|done]. intros [= <-]. apply Forall_cons_2; [apply Hint|by apply IH].
Qed.

Lemma array_field_ok item key n l : array_field item key n = Ok l → Forall int_ok l.
Proof.
  unfold array_field. case_match; [apply all_ints_ok|]. intros [= <-].
  apply Forall_replicate. apply int_ok_0.
Qed.

Lemma triple_ok l : Forall int_ok l → ints_ok (triple l).
Proof.
  intros Hl. destruct l as [|x [|y [|z [|]]]]; try (by split_and!; apply int_ok_0).
  by decompose_Forall_hyps.
Qed.

Lemma pair_ok l : Forall int_ok l → int_ok (pair_of l).1 ∧ int_ok (pair_of l).2.
Proof.
  intros Hl. destruct l as [|x [|y [|]]]; try (by split; apply int_ok_0).
  by decompose_Forall_hyps.
Qed.
End header_values.
