(* ===== verification/TracksSpec.v ===== *)
(** * TracksSpec: what the download of tracks guarantees

    A complete track, an interrupted one, the round trip of the header between
    [Tracks.write_metadata_to_file] and [Player.readHeader], and when a toy is
    marked as complete. *)

From S2P Require Import Prelude CString World SystemBase Player SdCard Wifi Metadata Tracks.
#[local] Open Scope M_scope.

(** ** Lemmas: one track *)

Section one_track.
Context `{Env} `{CJSON}.

(** A request that is answered at once: the frame of the download around the
    stream of a finished response. *)
Lemma track_run (name text : bytes) (pre post : list http_event) (s : Z) (w : world)
    (Hl : (length name ≤ 200)%nat)
    (Hc1 : can_create (temp_path name) (fs w) = true) (Hc2 : can_create (final_path name) (fs w) = true)
    (Hnew : files (fs w) !! final_path name = None) (Hb : (length (download_buffer (dl w)) < BUFFER_SIZE)%nat)
    (Hh : track_header (media_json (dl w)) name = Ok text) (Hq : Forall quiet pre)
    (Ha : env_http (esp_http_client_perform (mp3_url (baseUrl (dl w)) name) [] :: esp_timer_get_time :: hist w)
          = {| http_events := pre ++ HTTP_EVENT_ON_FINISH :: post; http_ok := true; http_status := s |}) :
  ∃ w', download_mp3_file name w = Ok (true, w') ∧ download_buffer (dl w') = [] ∧
    files (fs w') = <[final_path name := text ++ download_buffer (dl w) ++ data_of pre]>
                      (delete (temp_path name) (files (fs w))).
Proof.
  edestruct (download_frame name text (λ c b, b = [] ∧ c = text ++ download_buffer (dl w) ++ data_of pre) w)
    as (w' & c & Hr & [Hbuf ->] & Hf); [done..| |by exists w'].
  intros w1 Ht1 Hh1. unfold MAX_RETRY_COUNT. cbn [perform_retry].
  eapply (wp_seq _ _ (λ a w2, http_ok a = true ∧ card_but (temp_path name) w2 = card_but (temp_path name) w1 ∧
    files (fs w2) !! temp_path name = Some (text ++ download_buffer (dl w) ++ data_of pre) ∧
    download_buffer (dl w2) = [])).
  - eapply http_perform_spec; [rewrite Hh1; exact Ha|]. eapply wp_mono.
    { by apply (finished_spec pre post (temp_path name) text (download_buffer (dl w))). }
    intros _ w2 (_ & Hc & Hb2 & Hbe). split; [done|]. split; [|done]. by apply beside_card in Hbe.
  - intros a w2 (-> & Hcard & Hc & Hb2). split; [done|]. split; [done|]. by eexists.
Qed.

(** The player's reading of a header that the downloader wrote. *)
Lemma metadata_header_reads (item : Z) (text body : bytes) (h : header_t) :
  (∀ i, int_ok (valueint i)) → metadata_text item = Ok text →
  ∃ h', parse_header (text ++ body) h = Ok h' ∧ hdr_T h' = number_field item (lit "T") ∧
    (hdr_T h' = 1 → hdr_A h' = number_field item (lit "A") ∧
       (∃ l, array_field item (lit "L") 3 = Ok l ∧ hdr_L h' = triple l) ∧
       (∃ r, array_field item (lit "R") 3 = Ok r ∧ hdr_R h' = triple r)) ∧
    (hdr_T h' ≠ 1 → hdr_A h' = 0 ∧ hdr_L h' = (0, 0, 0) ∧ hdr_R h' = (0, 0, 0)).
Proof.
  intros Hint Ht. unfold metadata_text in Ht. set (T := number_field item (lit "T")) in *.
  assert (int_ok T) as HT by (by apply number_field_ok).
  assert (int_ok (if bool_decide (T = 1) then number_field item (lit "A") else 0)) as HA.
  { case_bool_decide; [by apply number_field_ok|apply int_ok_0]. }
  assert (∀ k l, (if bool_decide (T = 1) then array_field item k 3 else Ok [0; 0; 0]) = Ok l →
    ints_ok (triple l)) as Hcol.
  { intros k l. case_bool_decide; intros E; apply triple_ok; [by apply (array_field_ok Hint _ _ _ _ E)|].
    injection E as <-. repeat constructor; apply int_ok_0. }
  destruct (if bool_decide (T = 1) then array_field item (lit "L") 3 else _) as [l|] eqn:EL; [|done].
  destruct (if bool_decide (T = 1) then array_field item (lit "R") 3 else _) as [r|] eqn:ER; [|done].
  unfold mbind, res_bind in Ht. destruct (array_field item (lit "Z") 2) as [z|] eqn:EZ; [|done]. injection Ht as <-.
  destruct (pair_ok z) as [Hz1 Hz2]; [by apply (array_field_ok Hint _ _ _ _ EZ)|].
  eexists. split; [apply parse_header_text; eauto|]. cbn [hdr_T hdr_A hdr_L hdr_R]. split; [done|].
  split; intros HT1.
  - rewrite bool_decide_true in EL, ER by done. rewrite bool_decide_true by done.
    split; [done|]. split; [by exists l|by exists r].
  - rewrite bool_decide_false in EL, ER by done. rewrite bool_decide_false by done.
    by injection EL as <-; injection ER as <-.
Qed.

End one_track.

(** ** Properties *)

Section tracks_properties.
Context `{Env} `{CJSON}.

(** C15 (a track is complete).  When the server answers the first request and
    finishes the response, the new track is on the card under its final name
    and the temporary file is gone; the track is the header, then whatever
    bytes an earlier track left in the buffer, then the data of all events in
    order, with nothing lost in the blocks of 4096; and the buffer is empty. *)
Theorem track_downloaded (name text : bytes) (pre post : list http_event) (s : Z) (w : world)
    (Hl : (length name ≤ 200)%nat)
    (Hc1 : can_create (temp_path name) (fs w) = true) (Hc2 : can_create (final_path name) (fs w) = true)
    (Hnew : files (fs w) !! final_path name = None) (Hb : (length (download_buffer (dl w)) < BUFFER_SIZE)%nat)
    (Hh : track_header (media_json (dl w)) name = Ok text) (Hq : Forall quiet pre)
    (Ha : env_http (esp_http_client_perform (mp3_url (baseUrl (dl w)) name) [] :: esp_timer_get_time :: hist w)
          = {| http_events := pre ++ HTTP_EVENT_ON_FINISH :: post; http_ok := true; http_status := s |}) :
  ∃ w', download_mp3_file name w = Ok (true, w') ∧ download_buffer (dl w') = [] ∧
    files (fs w') = <[final_path name := text ++ download_buffer (dl w) ++ data_of pre]>
                      (delete (temp_path name) (files (fs w))).
Proof. by eapply track_run. Qed.

(** C26 (an interrupted track).  When the first request breaks off and a later
    one succeeds, the download reports success although nothing of the second
    response is stored: the file was closed with the connection.  The track
    renamed as complete holds whole blocks of the first attempt only; up to
    4095 bytes are lost to it and stay in the buffer, from where they go in
    front of the next track. *)
Theorem track_interrupted (name text : bytes) (pre post : list http_event) (s : Z) (w : world)
    (Hl : (length name ≤ 200)%nat)
    (Hc1 : can_create (temp_path name) (fs w) = true) (Hc2 : can_create (final_path name) (fs w) = true)
    (Hnew : files (fs w) !! final_path name = None) (Hb : (length (download_buffer (dl w)) < BUFFER_SIZE)%nat)
    (Hh : track_header (media_json (dl w)) name = Ok text) (Hq : Forall quiet pre)
    (request := esp_http_client_perform (mp3_url (baseUrl (dl w)) name) [])
    (Ha1 : env_http (request :: esp_timer_get_time :: hist w)
           = {| http_events := pre ++ HTTP_EVENT_DISCONNECTED :: post; http_ok := false; http_status := s |})
    (Ha2 : http_ok (env_http (request :: vTaskDelay 100 :: request :: esp_timer_get_time :: hist w)) = true) :
  ∃ w' kept lost, download_mp3_file name w = Ok (true, w') ∧
    kept ++ lost = text ++ download_buffer (dl w) ++ data_of pre ∧ (length lost < BUFFER_SIZE)%nat ∧
    files (fs w') = <[final_path name := kept]> (delete (temp_path name) (files (fs w))) ∧
    download_buffer (dl w') = lost.
Proof.
  edestruct (download_frame name text
    (λ c b, c ++ b = text ++ download_buffer (dl w) ++ data_of pre ∧ (length b < BUFFER_SIZE)%nat) w)
    as (w' & c & Hr & [Heq Hlen] & Hf); [done..| |by exists w', c, (download_buffer (dl w'))].
  intros w1 Ht1 Hh1. unfold MAX_RETRY_COUNT. cbn [perform_retry]. fold request.
  eapply (wp_seq _ _ (λ a w2, http_ok a = false ∧ card_but (temp_path name) w2 = card_but (temp_path name) w1 ∧
    mp3_file (dl w2) = None ∧ hist w2 = request :: esp_timer_get_time :: hist w ∧
    ∃ kept lost, kept ++ lost = text ++ download_buffer (dl w) ++ data_of pre ∧ (length lost < BUFFER_SIZE)%nat ∧
      files (fs w2) !! temp_path name = Some kept ∧ download_buffer (dl w2) = lost)).
  - eapply http_perform_spec; [rewrite Hh1; exact Ha1|]. eapply wp_mono.
    { by apply (broken_spec pre post (temp_path name) text (download_buffer (dl w))). }
    intros _ w2 (kept & lost & Heq & Hlen & Hf & Hc & Hb2 & Hbe). split; [done|].
    split; [by apply beside_card in Hbe|]. split; [done|]. split; [|by exists kept, lost].
    injection Hbe as Hhist _. rewrite Hhist. simpl. by rewrite Hh1.
  - intros a w2 (-> & Hcard & Hnone & Hh2 & kept & lost & Heq & Hlen & Hc & Hb2).
    apply wp_modify_bind. set (w3 := update hist _ w2). eapply (wp_seq _ _ (λ a w4, http_ok a = true ∧
      fs w4 = fs w2 ∧ dl w4 = dl w2)).
    + eapply http_perform_spec; [reflexivity|]. eapply wp_of_Ok; [by apply closed_events|].
      split; [|done]. unfold w3. simpl. rewrite Hh2. exact Ha2.
    + intros a4 w4 (-> & Hfs & Hdl). split; [done|]. unfold card_but in *. rewrite Hfs, Hdl, Hb2.
      split; [done|]. by exists kept.
Qed.

(** C17 (header round trip).  The player reads from a track exactly the values
    the downloader wrote in front of it: the type of the track, and for a
    question the answer and the colours of the two ears; the player's earlier
    values do not matter. *)
Theorem header_roundtrip (item : Z) (text body : bytes) (h : header_t)
    (Hint : ∀ i, int_ok (valueint i)) (Ht : metadata_text item = Ok text) :
  ∃ h', parse_header (text ++ body) h = Ok h' ∧ hdr_T h' = number_field item (lit "T") ∧
    (hdr_T h' = 1 → hdr_A h' = number_field item (lit "A") ∧
       (∃ l, array_field item (lit "L") 3 = Ok l ∧ hdr_L h' = triple l) ∧
       (∃ r, array_field item (lit "R") 3 = Ok r ∧ hdr_R h' = triple r)) ∧
    (hdr_T h' ≠ 1 → hdr_A h' = 0 ∧ hdr_L h' = (0, 0, 0) ∧ hdr_R h' = (0, 0, 0)).
Proof. by apply metadata_header_reads. Qed.

(** C25 (verify.txt).  Processing the tracks of a toy marks the toy as complete
    (in the folder of the tag on the pad) exactly when there was at least one
    track to download and all of them succeeded.  When every track is on the
    card already the operation succeeds, downloads nothing and does not mark
    the toy, so a toy that shares its tracks is never complete. *)
Theorem verify_file (path : bytes) (entries : list dirent) (l sd fresh : list bytes) (w : world)
    (Hd : env_readdir (hist w) path = Some entries)
    (Esd : sd = take MAX_FILES (d_name <$> filter (λ e, Is_true (d_is_reg e)) entries))
    (Hs : N_server (dl w) = Some l) (Hn : N_count (dl w) = Z.of_nat (length l))
    (Ef : fresh = filter (λ n, negb (is_duplicate sd n)) l)
    (Hm : ∀ q, mp3_file (dl w) = Some q → in_audio q) :
  (fresh = [] → ∃ w', process_audio_files path w = Ok (true, w') ∧ fs w' = fs w) ∧
  (∀ ok w', process_audio_files path w = Ok (ok, w') →
     let p := verify_path (until_nul (tagUid_qbus (tag w))) in
     is_Some (files (fs w') !! p) ↔
       is_Some (files (fs w) !! p) ∨ ok = true ∧ fresh ≠ [] ∧ can_create p (fs w) = true).
Proof.
  assert (process_audio_files path w =
    bind (download_all fresh) (λ ok, bind (when (ok && negb (bool_decide (fresh = []))) create_verified_file)
      (λ _, bind free_N_server (λ _, ret ok))) w) as ->.
  { unfold process_audio_files, list_files. cbv [bind gets ret]. rewrite Hd.
    pose proof (N_values_run l w Hs Hn) as HN. unfold bind in HN. rewrite HN. by rewrite <-Esd, <-Ef. }
  split.
  - intros ->. cbn [download_all]. cbv [bind ret]. rewrite bool_decide_true by done. simpl.
    unfold free_N_server. cbv [bind get_dl gets]. rewrite Hs. by eexists.
  - intros ok w' (ok1 & w1 & Hr1 & (u & w2 & Hr2 & (u3 & w3 & Hr3 & [= -> ->])%bind_Ok)%bind_Ok)%bind_Ok p.
    destruct (download_all_files p (files (fs w) !! p) (dirs (fs w)) (tag w) ltac:(done) fresh w ok w1) as (Hf & Hdir & Htag);
      [by split|done|].
    assert (fs w' = fs w2) as ->.
    { unfold free_N_server in Hr3. cbv [bind get_dl gets] in Hr3. case_match; by injection Hr3 as _ <-. }
    destruct (ok && negb (bool_decide (fresh = []))) eqn:Hb.
    + apply andb_true_iff in Hb as [-> Hne]. apply negb_true_iff, bool_decide_eq_false in Hne.
      unfold when, create_verified_file in Hr2. cbv [bind get_tag gets] in Hr2. rewrite Htag in Hr2.
      fold p in Hr2. unfold sprintf in Hr2. case_bool_decide; [|done]. cbn [lift] in Hr2.
      unfold fopen_w in Hr2. cbv [bind gets] in Hr2.
      assert (can_create p (fs w1) = can_create p (fs w)) as Hcc by (unfold can_create; by rewrite Hdir).
      rewrite Hcc in Hr2. destruct (can_create p (fs w)) eqn:Hc.
      * injection Hr2 as _ <-. simpl. rewrite lookup_alter, lookup_insert_eq, decide_True by done.
        split; [by right|by eexists].
      * injection Hr2 as _ <-. rewrite Hf. split; [by left|]. by intros [?|(_ & _ & ?)].
    + injection Hr2 as _ <-. rewrite Hf. split; [by left|]. intros [?|(-> & Hne & _)]; [done|].
      by rewrite bool_decide_false in Hb.
Qed.

End tracks_properties.

(** ** The properties at concrete inputs *)

Section tracks_witnesses.

(** The first answer breaks off or not; the later ones are complete. *)
#[local] Instance sample_env (broken : bool) : Env := {|
  env_time h := 1000 * Z.of_nat (length h);
  env_el_state _ := AEL_STATE_RUNNING;
  env_msg _ := Some Sample.no_msg;
  env_stack _ := Sample.no_msg;
  env_bits _ := 0;
  env_http h :=
    if broken && bool_decide (length h = 2%nat)
    then {| http_events := [HTTP_EVENT_ON_DATA (lit "MP3")] ++ HTTP_EVENT_DISCONNECTED :: []; http_ok := false; http_status := 0 |}
    else {| http_events := [HTTP_EVENT_ON_DATA (lit "MP"); HTTP_EVENT_ON_DATA (lit "3")] ++ HTTP_EVENT_ON_FINISH :: [];
            http_ok := true; http_status := 200 |};
  env_disconnects _ := true;
  env_freed_close _ := true;
  env_readdir _ _ := Some [{| d_name := lit "A.mp3"; d_is_dir := false; d_is_reg := true |}];
  env_err _ := 0;
  env_getfree _ := None;
  FF_SS_SDCARD := 512;
|}.

(** Item 1 is a question whose answer is the right ear. *)
#[local] Instance question_json : CJSON := {|
  cJSON_Parse _ := 0;
  cJSON_ParseWithLength _ := 0;
  cJSON_Duplicate j := j;
  cJSON_GetObjectItem j key := if bool_decide (key = lit "T") then 2 else if bool_decide (key = lit "A") then 3 else 0;
  cJSON_GetObjectItemCaseSensitive _ _ := 0;
  cJSON_GetArraySize _ := 0;
  cJSON_GetArrayItem _ _ := 0;
  cJSON_IsString _ := false;
  cJSON_IsNumber _ := true;
  cJSON_IsArray _ := false;
  cJSON_IsTrue _ := false;
  valuestring _ := None;
  valueint _ := 1;
|}.

Definition track_A : bytes := lit "A".

Example track_downloaded_witness :
  ∃ w', @download_mp3_file (sample_env false) _ track_A Sample.world0 = Ok (true, w') ∧
    files (fs w') !! final_path track_A = Some (lit "0" ++ nl ++ lit "0,0" ++ nl ++ lit "MP3").
Proof.
  destruct (track_downloaded (H := sample_env false) track_A (lit "0" ++ nl ++ lit "0,0" ++ nl)
    [HTTP_EVENT_ON_DATA (lit "MP"); HTTP_EVENT_ON_DATA (lit "3")] [] 200 Sample.world0) as (w' & Hr & _ & Hf).
  - apply Nat.leb_le. vm_compute. reflexivity.
  - vm_compute. reflexivity.
  - vm_compute. reflexivity.
  - vm_compute. reflexivity.
  - apply Nat.ltb_lt. vm_compute. reflexivity.
  - vm_compute. reflexivity.
  - by repeat constructor.
  - reflexivity.
  - exists w'. split; [exact Hr|]. rewrite Hf, lookup_insert_eq. reflexivity.
Defined.

Example track_interrupted_witness :
  ∃ w', @download_mp3_file (sample_env true) _ track_A Sample.world0 = Ok (true, w') ∧
    download_buffer (dl w') ≠ [].
Proof.
  destruct (track_interrupted (H := sample_env true) track_A (lit "0" ++ nl ++ lit "0,0" ++ nl)
    [HTTP_EVENT_ON_DATA (lit "MP3")] [] 0 Sample.world0) as (w' & kept & lost & Hr & Heq & Hl & Hf & Hb).
  - apply Nat.leb_le. vm_compute. reflexivity.
  - vm_compute. reflexivity.
  - vm_compute. reflexivity.
  - vm_compute. reflexivity.
  - apply Nat.ltb_lt. vm_compute. reflexivity.
  - vm_compute. reflexivity.
  - by repeat constructor.
  - reflexivity.
  - reflexivity.
  - exists w'. split; [exact Hr|]. vm_compute in Hr. injection Hr as E. rewrite <-E. discriminate.
Defined.

Example header_roundtrip_witness :
  ∃ h', parse_header (header_text 1 1 (0, 0, 0) (0, 0, 0) (0, 0) ++ lit "ID3") Sample.header0 = Ok h' ∧
    hdr_T h' = 1 ∧ hdr_A h' = 1.
Proof.
  destruct (header_roundtrip 1 (header_text 1 1 (0, 0, 0) (0, 0, 0) (0, 0)) (lit "ID3") Sample.header0)
    as (h' & Hr & Ht & Hq & _).
  - intros i. unfold int_ok. simpl. lia.
  - vm_compute. reflexivity.
  - exists h'. split; [exact Hr|]. split; [exact Ht|]. apply Hq. exact Ht.
Defined.

Example verify_file_witness :
  ∃ w', @process_audio_files (sample_env false) _ (lit "/sdcard/media/audio/")
          (update dl (λ s, set N_server (Some [track_A]) (set N_count 1 s)) Sample.world0) = Ok (true, w') ∧
        fs w' = fs Sample.world0.
Proof.
  destruct (verify_file (H := sample_env false) (lit "/sdcard/media/audio/")
    [{| d_name := lit "A.mp3"; d_is_dir := false; d_is_reg := true |}] [track_A] [lit "A.mp3"] []
    (update dl (λ s, set N_server (Some [track_A]) (set N_count 1 s)) Sample.world0)) as [Hv _].
  - reflexivity.
  - vm_compute. reflexivity.
  - reflexivity.
  - reflexivity.
  - vm_compute. reflexivity.
  - intros q Hq. vm_compute in Hq. discriminate Hq.
  - destruct (Hv eq_refl) as (w' & Hr & Hf). exists w'. split; [exact Hr|exact Hf].
Defined.

End tracks_witnesses.
