(* ===== verification/Downloader.v ===== *)
(** * Downloader: the whole download of a toy (Downloader::begin in
    main/src/downloader.cpp), and the interface it gives the state machine

    [downloader_ops] and [downloader_spec] discharge what SystemHandler.v and
    SystemControl.v ask of a downloader. *)

From S2P Require Import Prelude CString World SystemBase Player SdCard Wifi Metadata Tracks SystemHandler SystemControl.
#[local] Open Scope M_scope.

(** ** Definitions *)

Section downloader.
Context `{Env} `{CJSON}.

(** [strcpy(this->toy, toy)] into 20 bytes that were cleared. *)
Definition set_toy (t : bytes) : FW () :=
  t' ← lift (strcpy (memset0 20) t);
  put_dl dl_toy (until_nul t').

Definition begin (t : bytes) : FW bool :=
  set_toy t;;
  r ← WiFi_connect;
  if bool_decide (r = 0) then
    createFolders;;
    Metadata.downloadToken;;
    download_master_json;;
    process_direction_files;;
    success ← process_audio_files (lit "/sdcard/media/audio/");
    put_dl dl_toy [];;
    ret success
  else ret false.

(** [new Downloader()]: the toy of a new object is empty. *)
Definition Downloader_Downloader : FW () := put_dl dl_toy [].

(** The state machine makes an object for each call. *)
#[export] Instance downloader_ops : DownloaderOps := {|
  downloadToken := Downloader_Downloader;; Metadata.downloadToken;
  download_begin t := Downloader_Downloader;; begin t;
|}.

End downloader.

(** ** The state machine's view of the downloader *)

Section downloader_spec.
Context `{Env} `{CJSON}.

(** What a download does not touch. *)
Definition beside_download (w : world) := (sys w, (tag w, qbusSlave w, uart_out (hist w)), (plr w, played (hist w))).

Lemma mkdir_parents_keeps seen rest : keeps beside_download (mkdir_parents seen rest).
Proof. revert seen. induction rest; intros; cbn [mkdir_parents]; keeps. Qed.

Lemma copy_loop_keeps fuel data : keeps beside_download (copy_loop fuel data).
Proof. revert data. induction fuel; intros; cbn [copy_loop]; keeps. Qed.

Lemma http_sys_keeps url body on_event : (∀ e, keeps beside_download (on_event e)) →
  keeps beside_download (http_perform url body on_event).
Proof. intros. unfold http_perform. keeps. Qed.

#[local] Hint Resolve mkdir_parents_keeps copy_loop_keeps http_sys_keeps : keeps.

Lemma TokenCallback_keeps e : keeps beside_download (TokenCallback e).
Proof. destruct e; cbn [TokenCallback]; keeps. Qed.
Lemma parse_keeps r : keeps beside_download (parse_and_store_metadata r).
Proof. unfold parse_and_store_metadata. keeps. Qed.
#[local] Hint Resolve TokenCallback_keeps parse_keeps : keeps.
Lemma MasterjsonCallback_keeps e : keeps beside_download (MasterjsonCallback e).
Proof. destruct e; cbn [MasterjsonCallback]; keeps. Qed.
Lemma DirectionCallback_keeps e : keeps beside_download (DirectionCallback e).
Proof. destruct e; cbn [DirectionCallback]; keeps. Qed.
Lemma Downloadmp3Callback_keeps e : keeps beside_download (Downloadmp3Callback e).
Proof. destruct e; cbn [Downloadmp3Callback]; keeps. Qed.
#[local] Hint Resolve MasterjsonCallback_keeps DirectionCallback_keeps Downloadmp3Callback_keeps : keeps.

Lemma downloadToken_keeps : keeps beside_download Metadata.downloadToken.
Proof. unfold Metadata.downloadToken. keeps. Qed.

Lemma perform_retry_keeps n url : keeps beside_download (perform_retry n url).
Proof. induction n; cbn [perform_retry]; keeps. Qed.
#[local] Hint Resolve downloadToken_keeps perform_retry_keeps : keeps.

Lemma download_mp3_file_keeps name : keeps beside_download (download_mp3_file name).
Proof. unfold download_mp3_file. keeps. Qed.
#[local] Hint Resolve download_mp3_file_keeps : keeps.

Lemma download_all_keeps names : keeps beside_download (download_all names).
Proof. induction names; cbn [download_all]; keeps. Qed.
#[local] Hint Resolve download_all_keeps : keeps.

Lemma begin_keeps t : keeps beside_download (begin t).
Proof. unfold begin. keeps. Qed.

Lemma token_turn_keeps : keeps beside_download SystemHandler.downloadToken.
Proof. apply keeps_bind; [keeps|]. intros. apply downloadToken_keeps. Qed.
Lemma begin_turn_keeps t : keeps beside_download (download_begin t).
Proof. apply keeps_bind; [keeps|]. intros. apply begin_keeps. Qed.

#[export] Instance downloader_spec : DownloaderSpec.
Proof.
  split; [|intros t]; apply (keeps_comp beside_download (λ x, x.1.1));
    [apply token_turn_keeps|apply begin_turn_keeps].
Qed.

End downloader_spec.
