(* ===== verification/Firmware.v ===== *)
(** * Firmware: the tasks together (main/src/main.cpp, app_main)

    [app_main] is the start-up; afterwards the firmware runs the turns of its
    tasks in any order: the state machine, the poll of the serial slave, the
    UART events, the callbacks of the BLE stack, the events of the WiFi driver
    and the rest of [app_main].  A turn is one step here, so preemption inside a turn is outside
    this model.  The properties follow the power flag, which the base reads to
    cut the power, through every interleaving. *)

From S2P Require Import Prelude CString World TimeSpent Led SystemBase Player QbusSlave IotQbus SdCard Wifi Ble.
From S2P Require Import SystemHandler SystemControl SystemSpec Metadata Tracks Downloader.
#[local] Open Scope M_scope.

(** ** Definitions *)

Section start.
Context `{Env} `{CJSON}.
Context (ESP_ERR_NVS_NO_FREE_PAGES ESP_ERR_NVS_NEW_VERSION_FOUND : Z).

(** A call that answers an [esp_err_t]. *)
Definition esp_call (c : call) : FW Z :=
  emit c;;
  h ← gets hist;
  ret (env_err h).

Definition ESP_ERROR_CHECK (err : Z) : FW () := if bool_decide (err = 0) then skip else fail Aborted.

Definition nvs_start : FW () :=
  r ← esp_call nvs_flash_init;
  r ← (if bool_decide (r = ESP_ERR_NVS_NO_FREE_PAGES) || bool_decide (r = ESP_ERR_NVS_NEW_VERSION_FOUND)
       then e ← esp_call nvs_flash_erase; ESP_ERROR_CHECK e;; esp_call nvs_flash_init
       else ret r);
  ESP_ERROR_CHECK r.

(** What [app_main] does after it has created the tasks, while they run.  The
    result of [connect] is only logged; ten seconds are 1000 ticks. *)
Definition main_rest : FW () :=
  SdCard_open;;
  readUserIDs;;
  r ← WiFi_init;
  when (bool_decide (r = 0))
    (e ← ConfigSdCardCredentials;
     when (bool_decide (e = 0)) (WiFi_connect;; skip));;
  delay 1000.

(** The results of [xTaskCreate] are only logged. *)
Definition app_main : FW () :=
  nvs_start;;
  emit (xTaskCreate (lit "system") 8192 20);;
  emit (xTaskCreate (lit "qbus") 8192 20);;
  main_rest.

End start.

Section firmware.
Context `{Env} `{CJSON} (float_text : Z → bytes).

(** The driver delivers bytes. *)
Definition uart_bytes (e : uart_event) : Prop :=
  match e with UART_DATA data => bytes_ok data | _ => True end.

(** The turns of the other tasks and of the callbacks. *)
Inductive event_turn : FW () → Prop :=
  | qbus_turn : event_turn QbusTask_turn
  | uart_turn e (He : uart_bytes e) : event_turn (uart_event_turn e)
  | ble_read_turn uuid : event_turn (onRead float_text uuid)
  | ble_write_turn uuid value : event_turn (onWrite uuid value)
  | ble_disconnect_turn : event_turn onDisconnect
  | wifi_turn e : event_turn (eventHandler e)
  | main_turn : event_turn main_rest.

Inductive step (w w' : world) : Prop :=
  | step_system (Hr : SystemTask_turn w = Ok ((), w'))
  | step_event m (Hm : event_turn m) (Hr : m w = Ok ((), w')).

End firmware.

(** ** Lemmas: the other tasks *)

Section events.
Context `{Env} `{CJSON} (float_text : Z → bytes).

(** Where the other tasks can take the state machine. *)
Definition event_targets : list target :=
  [To SYS_IDLE; To SYS_PLAY_NEXT; To SYS_PLAY_PREVIOUS; To SYS_INIT_WIFI_CHECK; To SYS_INIT_USER_ID_CHECK].

Definition power (w : world) : Z := powerState (sys w).

(** An operation that leaves the power flag alone and takes the machine to
    one of [event_targets]. *)
Definition event_like {A} (m : FW A) : Prop := keeps power m ∧ leads event_targets m.

Definition machine (w : world) := (power w, control w).

Lemma machine_event_like {A} (m : FW A) : keeps machine m → event_like m.
Proof.
  intros Hm. split; [exact (keeps_comp machine fst _ Hm)|].
  exact (leads_keeps _ _ (keeps_comp machine snd _ Hm)).
Qed.

Lemma event_like_bind {A B} (m : FW A) (k : A → FW B) :
  event_like m → (∀ a, event_like (k a)) → event_like (bind m k).
Proof.
  intros [Hp Hl] Hk. split; [apply keeps_bind|apply leads_bind]; try done; intros a; apply (Hk a).
Qed.

Lemma event_like_if {A} (b : bool) (m1 m2 : FW A) :
  event_like m1 → event_like m2 → event_like (if b then m1 else m2).
Proof. by destruct b. Qed.

Lemma event_like_when b (m : FW ()) : event_like m → event_like (when b m).
Proof. intros. apply event_like_if; [done|]. apply machine_event_like, keeps_skip. Qed.

Lemma event_like_setState s : To s ∈ event_targets → event_like (setState s).
Proof.
  intros Hs. split; [keeps|]. apply leads_setState; [done|].
  intros ->. unfold event_targets in Hs. set_solver.
Qed.

Lemma EnableTxRx_machine tx rx : keeps machine (EnableTxRx tx rx).
Proof. apply keeps_skip. Qed.
Lemma TransmitChar_machine b : keeps machine (TransmitChar b).
Proof. change (keeps machine (IotQbusSendByte b)). keeps. Qed.
#[local] Hint Resolve EnableTxRx_machine TransmitChar_machine : keeps.

Lemma tx_loop_machine n : keeps machine (tx_loop n).
Proof. induction n; cbn [tx_loop]; keeps. Qed.
Lemma ReadRegCb_machine a l d : keeps machine (ReadRegCb a l d).
Proof. change (keeps machine (QbusRegReadCb a l d)). keeps. Qed.
#[local] Hint Resolve tx_loop_machine ReadRegCb_machine : keeps.
Lemma QBSlaveSetState_machine s : keeps machine (QBSlaveSetState s).
Proof. destruct s; keeps. Qed.
Lemma append_checksum_machine : keeps machine append_checksum.
Proof. keeps. Qed.
Lemma notify_machine text : keeps machine (notify text).
Proof. keeps. Qed.
#[local] Hint Resolve QBSlaveSetState_machine append_checksum_machine notify_machine : keeps.
Lemma QBSlavePortTxEmptyIsr_machine : keeps machine QBSlavePortTxEmptyIsr.
Proof. keeps. Qed.
Lemma QBSlaveValidateFrame_machine : keeps machine QBSlaveValidateFrame.
Proof. keeps. Qed.

Create HintDb event discriminated.

(** Structure first, then what does not touch the machine. *)
Ltac event_like :=
  lazymatch goal with
  | |- event_like (setState _) => apply event_like_setState; unfold event_targets; set_solver
  | |- event_like (bind _ _) => apply event_like_bind; [event_like|intros ?; event_like]
  | |- event_like (when _ _) => apply event_like_when; event_like
  | |- event_like (match ?x with _ => _ end) => destruct x; event_like
  | |- event_like ?m =>
      first
        [ progress cbv zeta; event_like
        | solve [auto 1 with event nocore]
        | apply machine_event_like; solve [keeps]
        | let rec head t := lazymatch t with ?g _ => head g | _ => t end in
          let h := head m in unfold h; event_like ]
  end.

Lemma QbusRegWriteCb_event a l d : event_like (QbusRegWriteCb a l d).
Proof. unfold QbusRegWriteCb. event_like. Qed.

Lemma WriteRegCb_event a l d : event_like (WriteRegCb a l d).
Proof. apply (QbusRegWriteCb_event a l d). Qed.

Lemma process_tag_event buf : event_like (process_tag buf).
Proof. unfold process_tag. event_like. Qed.

#[local] Hint Resolve WriteRegCb_event process_tag_event : event.

Lemma QBSlaveProcessFrame_event : event_like QBSlaveProcessFrame.
Proof. unfold QBSlaveProcessFrame, dispatch_frame. event_like. Qed.
#[local] Hint Resolve QBSlaveProcessFrame_event : event.

Lemma QbusTask_event : event_like QbusTask_turn.
Proof. unfold QbusTask_turn, QbusHandler, QBSlavePoll. event_like. Qed.

Lemma uart_event_event e : event_like (uart_event_turn e).
Proof. apply machine_event_like. destruct e; keeps. Qed.

Lemma onRead_event uuid : event_like (onRead float_text uuid).
Proof. apply machine_event_like. keeps. Qed.

Lemma onWrite_event uuid value : event_like (onWrite uuid value).
Proof. unfold onWrite, run_command. event_like. Qed.

Lemma wifi_event_event e : event_like (eventHandler e).
Proof. apply machine_event_like. destruct e; keeps. Qed.

Lemma event_turn_event m : event_turn float_text m → event_like m.
Proof.
  intros []; [apply QbusTask_event|apply uart_event_event|apply onRead_event|apply onWrite_event| | |].
  - apply machine_event_like. keeps.
  - apply wifi_event_event.
  - apply machine_event_like. keeps.
Qed.

End events.

(** ** Lemmas: the state machine *)

Section system_power.
Context `{Env} `{CJSON} `{!DownloaderOps} `{!DownloaderSpec}.

Lemma http_perform_power url body on_event : (∀ e, keeps power (on_event e)) →
  keeps power (http_perform url body on_event).
Proof. intros. unfold http_perform. keeps. Qed.
Lemma downloadToken_power : keeps power SystemHandler.downloadToken.
Proof. apply (keeps_comp sys powerState), spec_token. Qed.
Lemma download_begin_power t : keeps power (download_begin t).
Proof. apply (keeps_comp sys powerState), spec_begin. Qed.
#[local] Hint Resolve http_perform_power downloadToken_power download_begin_power : keeps.

(** The flag is raised in [SYS_TURN_OFF] only. *)
Lemma handler_power w a w' : state (sys w) ≠ SYS_TURN_OFF → handler w = Ok (a, w') → power w' = power w.
Proof.
  intros Hst. unfold handler, getBatteryLevel, getChargingStatus. cbv [bind get_sys gets].
  destruct (state (sys w)); try done; intros Hr; (eapply keeps_run; [|exact Hr]); clear Hr; keeps.
Qed.

(** Not on the way to power-off. *)
Definition on_state (s : system_states_et) : Prop := s ≠ SYS_SHUT_ME_DOWN ∧ s ≠ SYS_TURN_OFF.
Definition on_target (t : target) : Prop := match t with To s | Sound s => on_state s end.
Definition calm (w : world) : Prop :=
  on_state (state (sys w)) ∧ (state (sys w) = SYS_WAIT_FOR_PLAYER → on_state (playerGoBackToState (sys w))).

Lemma calm_leads L w w' : Forall on_target L → calm w →
  control w' = control w ∨ (∃ t, t ∈ L ∧ at_target t (control w')) → calm w'.
Proof.
  intros HL Hc [E|(t & Ht & Hat)].
  - unfold control in E. injection E as E1 E2. unfold calm. by rewrite E1, E2.
  - apply list_elem_of_split in Ht as (l1 & l2 & ->). apply Forall_app, proj2, Forall_inv in HL. unfold control in Hat.
    destruct t as [s|s]; simpl in *.
    + destruct Hat as [E Hs]. unfold calm. rewrite E. by split; [|intros ->].
    + injection Hat as E1 E2. unfold calm. rewrite E1, E2. split; [by split|by intros _].
Qed.

Lemma battery_gate_charged bat chg : 35 <= bat → battery_gate bat chg = setState SYS_READ_AUDIO_HEADER.
Proof.
  intros. unfold battery_gate.
  by rewrite (bool_decide_false (bat < 35)), (bool_decide_false (bat < 28)), andb_false_r by lia.
Qed.

Lemma idle_battery_charged bat chg : 35 <= bat → idle_battery bat chg = skip.
Proof.
  intros. unfold idle_battery.
  by rewrite (bool_decide_false (bat < 35)), (bool_decide_false (bat < 28)), andb_false_r by lia.
Qed.

Lemma case_POST_charged bat chg : 35 <= bat → leads [To SYS_INIT] (case_POST bat chg).
Proof. intros. unfold case_POST. rewrite bool_decide_true by done. leads_solve. Qed.

Lemma case_PLAY_NEXT_charged bat chg : 35 <= bat →
  leads [To SYS_PLAYING_COMPLETE; To SYS_READ_AUDIO_HEADER] (case_PLAY_NEXT bat chg).
Proof. intros. unfold case_PLAY_NEXT. rewrite battery_gate_charged by done. leads_solve. Qed.

Lemma case_GET_DIRECTION_charged bat chg : 35 <= bat →
  leads [To SYS_ERROR; To SYS_READ_AUDIO_HEADER; To SYS_DOWNLOAD_WIFI_CONN] (case_GET_DIRECTION bat chg).
Proof. intros. unfold case_GET_DIRECTION. rewrite battery_gate_charged by done. leads_solve. Qed.

Lemma idle_rest_leads : leads [To SYS_TOY_DETECTED; Sound SYS_TOY_DETECTED] (idle_toy;; idle_removal).
Proof. pose proof play_keeps. leads_solve. Qed.

Lemma case_IDLE_charged bat chg w a w' : 35 <= bat → elapsed (idleSinceTick (sys w)) 300000 w = false →
  case_IDLE bat chg w = Ok (a, w') →
  control w' = control w ∨ ∃ t, t ∈ [To SYS_TOY_DETECTED; Sound SYS_TOY_DETECTED] ∧ at_target t (control w').
Proof.
  intros Hb He. unfold case_IDLE. rewrite idle_battery_charged by done.
  cbv [get_sys gets]. unfold bind at 1.
  rewrite (bind_run _ _ _ _ _ (TimeSpent_elapsed_run _ _ _)), He.
  intros Hr. apply (idle_rest_leads (ticked 2 w)) in Hr. exact Hr.
Qed.

(** A turn of the machine on a charged box. *)
Lemma handler_calm w a w' : 35 <= batteryLevel (sys w) →
  (state (sys w) = SYS_IDLE → elapsed (idleSinceTick (sys w)) 300000 w = false) →
  handler w = Ok (a, w') → calm w → calm w'.
Proof.
  intros Hb He Hr Hc. pose proof (handler_leads _ _ _ Hr) as Hl.
  revert Hr. unfold handler, getBatteryLevel, getChargingStatus. cbv [bind get_sys gets].
  assert (∀ L, Forall on_target L → control w' = control w ∨
    (∃ t, t ∈ L ∧ at_target t (control w')) → calm w') as Hcalm by (intros; by eapply calm_leads).
  destruct (state (sys w)) eqn:Hst; intros Hr;
    try (eapply Hcalm, Hl; unfold successors; repeat constructor; done).
  - eapply (Hcalm [_]); [|by eapply case_POST_charged]. by repeat constructor.
  - eapply (Hcalm [_; _]); [|by eapply case_IDLE_charged; [..|exact Hr]; auto]. by repeat constructor.
  - apply (Hcalm [To (playerGoBackToState (sys w)); To SYS_PLAY_NEXT]); [|exact Hl].
    apply Forall_cons_2; [by apply Hc|by repeat constructor].
  - eapply (Hcalm [_; _]); [|by eapply case_PLAY_NEXT_charged]. by repeat constructor.
  - eapply (Hcalm [_; _; _]); [|by eapply case_GET_DIRECTION_charged]. by repeat constructor.
  - by destruct Hc as [[? _] _].
Qed.

End system_power.

(** ** Properties *)

Section firmware_properties.
Context `{Env} `{CJSON} (float_text : Z → bytes).

Abbreviation step := (step float_text).

Lemma turn_run m w w' : (m;; delay 20) w = Ok ((), w') → ∃ w1, m w = Ok ((), w1) ∧ sys w' = sys w1.
Proof. intros ([] & w1 & H1 & H2)%bind_Ok. exists w1. split; [done|]. by injection H2 as <-. Qed.

Lemma step_power w w' : step w w' → state (sys w) ≠ SYS_TURN_OFF → power w' = power w.
Proof.
  intros [Hr|m Hm Hr] Hst.
  - apply turn_run in Hr as (w1 & Hr & E). unfold power. rewrite E. by eapply (handler_power w () w1).
  - by eapply (event_turn_event float_text m Hm).
Qed.

(** The machine is off, or plays the sound after which it is. *)
Definition turning_off (w : world) : Prop :=
  state (sys w) = SYS_TURN_OFF ∨
  (state (sys w) = SYS_WAIT_FOR_PLAYER ∧ playerGoBackToState (sys w) = SYS_TURN_OFF).

#[export] Instance turning_off_dec w : Decision (turning_off w).
Proof. unfold turning_off. apply _. Defined.

Lemma not_turning_off_leads (L : list target) w w' : To SYS_TURN_OFF ∉ L → Sound SYS_TURN_OFF ∉ L → ¬ turning_off w →
  control w' = control w ∨ (∃ t, t ∈ L ∧ at_target t (control w')) → ¬ turning_off w'.
Proof.
  unfold turning_off, control. intros H1 H2 Hn [E|(t & Ht & Hat)].
  - injection E as E1 E2. by rewrite E1, E2.
  - destruct t as [s|s]; simpl in Hat.
    + destruct Hat as [E Hs]. rewrite E. intros [->|[-> _]]; done.
    + injection Hat as E1 E2. rewrite E1, E2. intros [?|[_ ->]]; done.
Qed.

Lemma successors_turn_off s back : s ≠ SYS_SHUT_ME_DOWN → (s = SYS_WAIT_FOR_PLAYER → back ≠ SYS_TURN_OFF) →
  (To SYS_TURN_OFF ∉ successors s back) ∧ (Sound SYS_TURN_OFF ∉ successors s back).
Proof. intros H1 H2. destruct s; unfold successors; try done; split; set_solver. Qed.

Lemma step_not_turning_off w w' : step w w' → state (sys w) ≠ SYS_SHUT_ME_DOWN →
  ¬ turning_off w → ¬ turning_off w'.
Proof.
  intros [Hr|m Hm Hr] Hst Hn.
  - apply turn_run in Hr as (w1 & Hr & E). apply handler_leads in Hr.
    enough (¬ turning_off w1) by (unfold turning_off; by rewrite E).
    destruct (successors_turn_off (state (sys w)) (playerGoBackToState (sys w))); [done| |].
    + intros E1 E2. apply Hn. right. by split.
    + by eapply not_turning_off_leads.
  - destruct (event_turn_event float_text m Hm) as [_ Hl].
    apply Hl in Hr. eapply not_turning_off_leads; [..|exact Hr]; unfold event_targets; set_solver.
Qed.

(** C3 (power-off goes through the shutdown).  Through every interleaving of
    the tasks, the callbacks and the WiFi events: as long as the machine has
    not been in [SYS_SHUT_ME_DOWN], where the lamps are turned red and the
    shutdown tone is started, the power flag stays as it was. *)
Theorem power_off_after_shutdown (w w' : world) (Hn : ¬ turning_off w)
    (Hr : rtc (λ a b, step a b ∧ state (sys a) ≠ SYS_SHUT_ME_DOWN) w w') :
  power w' = power w ∧ ¬ turning_off w'.
Proof.
  induction Hr as [w|w w1 w2 [Hs Hst] _ IH]; [done|].
  destruct IH as [E Hn2]; [by eapply step_not_turning_off|].
  split; [|done]. rewrite E. eapply step_power; [done|]. intros E2. apply Hn. by left.
Qed.

(** C2 (a charged box in use stays on).  Through every interleaving: while
    each turn finds the battery at 35 or more, and [SYS_IDLE] less than five
    minutes old, the power flag is never raised and the shutdown is never
    entered, whatever the player, the phone, the base or the network do. *)
Theorem charged_box_stays_on (w w' : world) (Hc : calm w) (Hp : power w = 0)
    (Hr : rtc (λ a b, step a b ∧ 35 <= batteryLevel (sys a) ∧
                (state (sys a) = SYS_IDLE → elapsed (idleSinceTick (sys a)) 300000 a = false)) w w') :
  power w' = 0 ∧ calm w'.
Proof.
  induction Hr as [w|w w1 w2 (Hs & Hb & He) _ IH]; [done|]. apply IH.
  - destruct Hs as [Hr|m Hm Hr].
    + apply turn_run in Hr as (w3 & Hr & E).
      assert (calm w3) by by eapply handler_calm. unfold calm. by rewrite E.
    + destruct (event_turn_event float_text m Hm) as [_ Hl]. apply Hl in Hr.
      eapply calm_leads; [|done|exact Hr]. by repeat constructor.
  - rewrite <-Hp. eapply step_power; [done|]. intros E. by destruct Hc as [[_ Hc] _].
Qed.

End firmware_properties.

(** ** Witnesses *)

Section firmware_witnesses.
#[local] Instance sample_env : Env := Sample.env AEL_STATE_RUNNING.
#[local] Instance sample_json : CJSON := Sample.no_json.

Definition charged : world := update sys (set batteryLevel 40) Sample.world0.

Definition is_ok {A} (r : res A) : bool := match r with Ok _ => true | Fault _ => false end.
Definition turn (w : world) : world := match SystemTask_turn w with Ok (_, w') => w' | Fault _ => w end.

Lemma step_turn w : is_ok (SystemTask_turn w) = true → step fmt_d w (turn w).
Proof. intros Hok. apply step_system. unfold turn. by destruct (SystemTask_turn w) as [[[] w']|]. Qed.

(** An empty battery: the first turn goes to the shutdown. *)
Example power_off_after_shutdown_witness :
  let w' := turn Sample.world0 in
  step fmt_d Sample.world0 w' ∧ state (sys w') = SYS_SHUT_ME_DOWN ∧ power w' = 0.
Proof.
  intros w'. assert (step fmt_d Sample.world0 w') as Hs by (apply step_turn; vm_compute; reflexivity).
  split; [exact Hs|]. split; [vm_compute; reflexivity|].
  apply (power_off_after_shutdown fmt_d Sample.world0 w'); [by intros [?|[? ?]]|].
  apply rtc_once. split; [exact Hs|done].
Defined.

(** From power-on to idling. *)
Example charged_box_stays_on_witness :
  let w' := turn (turn charged) in
  rtc (step fmt_d) charged w' ∧ state (sys w') = SYS_IDLE ∧ power w' = 0.
Proof.
  intros w'. assert (step fmt_d charged (turn charged)) as H1 by (apply step_turn; vm_compute; reflexivity).
  assert (step fmt_d (turn charged) w') as H2 by (apply step_turn; vm_compute; reflexivity).
  split; [eapply rtc_l; [exact H1|by apply rtc_once]|]. split; [vm_compute; reflexivity|].
  apply (charged_box_stays_on fmt_d charged w'); [by split|done|].
  apply (rtc_l _ _ (turn charged)); [split; [exact H1|split; [vm_compute; congruence|vm_compute; congruence]]|].
  apply rtc_once. split; [exact H2|split; [vm_compute; congruence|vm_compute; congruence]].
Defined.

End firmware_witnesses.
