(* ===== verification/Layout.v ===== *)
(** * Layout: the arrays and machine integers of the global objects

    Every array of the firmware keeps its declared size, every text kept as
    the contents of a [char] array stays shorter than the array, and the
    counters stay within their width.  [layout] is that invariant, one
    record per object, and every turn of every task preserves it. *)

From S2P Require Import Prelude CString World TimeSpent Led SystemBase Player QbusSlave IotQbus SdCard Wifi Ble.
From S2P Require Import SystemHandler SystemControl SystemSpec Metadata Tracks Downloader Firmware.
#[local] Open Scope M_scope.

(** ** The invariant *)

Definition u8_ok (v : Z) : Prop := 0 <= v < 256.
Definition u16_ok (v : Z) : Prop := 0 <= v < 65536.

(** led_app.h *)
Record led_layout (l : led_st) : Prop := {
  lay_leftEar : length (leftEarColor l) = 3%nat;
  lay_rightEar : length (rightEarColor l) = 3%nat;
  lay_pad : length (padColor l) = 3%nat;
}.

(** player.h, player.cpp *)
Record plr_layout (p : plr_st) : Prop := {
  lay_brightness : length (brightnessData p) = 7%nat;
  lay_filename : (length (playerFilename p) < 50)%nat;
  lay_location : (length (location p) < 100)%nat;
  lay_audioIndex : (length (audioIndex p) < 4)%nat;
  lay_hdr_Z : length (hdr_Z (headerData p)) = 20%nat;
}.

(** system.h, system.cpp *)
Record sys_layout (s : sys_st) : Prop := {
  lay_toy : (length (toy s) < 20)%nat;
  lay_previousToy : (length (previousToy s) < 20)%nat;
  lay_mac : (length (macID s) < 20)%nat;
  lay_boxID : length (uniqueBoxID s) = 40%nat;
  lay_boxName : length (boxName s) = 100%nat;
  lay_user1 : length (sys_user1 s) = 40%nat;
  lay_user2 : length (sys_user2 s) = 40%nat;
  lay_init_ssid : length (init_ssid s) = 32%nat;
  lay_init_password : length (init_password s) = 64%nat;
  lay_init_user1 : length (init_user1 s) = 50%nat;
  lay_init_user2 : length (init_user2 s) = 50%nat;
  lay_init_buff : length (init_outputBuff s) = 1024%nat;
  lay_theme : length (themeColor s) = 3%nat;
  lay_indexx : u8_ok (indexx s);
  lay_attempt : u8_ok (qnaAttempt s);
  lay_power : u8_ok (powerState s);
}.

(** wifi.h *)
Record wifi_layout (w : wifi_st) : Prop := {
  lay_ssid : length (ssid w) = 32%nat;
  lay_password : length (password w) = 64%nat;
}.

(** qbus_s.cpp, iot_qbus.cpp *)
Record tag_layout (t : tag_st) : Prop := {
  lay_tagUid : length (tagUid_qbus t) = 20%nat;
  lay_previousTag : length (previousTagUid t) = 20%nat;
  lay_dataBuff : length (qbusDataBuff t) = 20%nat;
  lay_debug : u8_ok (debugCount t);
}.

(** qbus_s.h *)
Record qbus_layout (q : qBSlave_st) : Prop := {
  lay_frame : length (frameBuffer q) = 100%nat;
  lay_recv : u16_ok (recvByteCount q);
  lay_sent : u16_ok (sentByteCount q);
  lay_total : u16_ok (totalByteToSend q);
}.

(** downloader.h, downloader.cpp *)
Record dl_layout (d : dl_st) : Prop := {
  lay_dl_toy : (length (dl_toy d) < 20)%nat;
  lay_token : length (accessToken d) = 40%nat;
  lay_dl_buff : length (dl_outputBuff d) = 2048%nat;
  lay_baseUrl : (length (baseUrl d) < 256)%nat;
  lay_output : length (output_buffer d) = 4096%nat;
  lay_output_len : 0 <= output_len d;
  lay_download : (length (download_buffer d) ≤ 4096)%nat;
}.

Definition layout (w : world) : Prop :=
  led_layout (led w) ∧ plr_layout (plr w) ∧ sys_layout (sys w) ∧ wifi_layout (wifi w) ∧
  tag_layout (tag w) ∧ qbus_layout (qbusSlave w) ∧ dl_layout (dl w).

(** ** Lengths *)

Lemma u8_range v : u8_ok (u8 v).
Proof. unfold u8_ok, u8. apply Z.mod_pos_bound. lia. Qed.
Lemma u16_range v : u16_ok (u16 v).
Proof. unfold u16_ok, u16. apply Z.mod_pos_bound. lia. Qed.

Lemma length_store buf i v buf' : store buf i v = Ok buf' → length buf' = length buf.
Proof. unfold store. case_bool_decide; intros [= <-]. apply length_insert. Qed.

Lemma length_fread_into buf n content buf' : fread_into buf n content = Ok buf' → length buf' = length buf.
Proof.
  unfold fread_into. case_bool_decide; intros [= <-].
  rewrite length_app, length_drop, length_take. lia.
Qed.

Lemma length_sprintf n text s : sprintf n text = Ok s → (length s < n)%nat.
Proof. unfold sprintf. case_bool_decide; by intros [= <-]. Qed.

Lemma length_memset0 n : length (memset0 n) = n.
Proof. apply length_replicate. Qed.

Lemma strcpy_contents n src buf : strcpy (memset0 n) src = Ok buf → (length (until_nul buf) < n)%nat.
Proof.
  intros Hb. apply strcpy_text in Hb as Hl. revert Hb. unfold strcpy.
  case_bool_decide as Hn; [|done]. rewrite length_memset0 in Hn. lia.
Qed.

Lemma length_range_field (s : bytes) : length (take 19 (s ++ replicate 19 0) ++ [0]) = 20%nat.
Proof. rewrite length_app, length_take, length_app, length_replicate. cbn [length]. lia. Qed.

Lemma header_line_Z line h h' : length (hdr_Z h) = 20%nat → header_line line h = Ok (Some h') →
  length (hdr_Z h') = 20%nat.
Proof.
  intros Hz. unfold header_line. cbv [mbind res_bind].
  repeat case_match; intros [= <-]; first [exact Hz|apply length_range_field].
Qed.

Lemma header_loop_Z fuel rest h h' : length (hdr_Z h) = 20%nat → header_loop fuel rest h = Ok h' →
  length (hdr_Z h') = 20%nat.
Proof.
  revert rest h. induction fuel as [|fuel IH]; intros rest h Hz; cbn [header_loop]; [by intros [= <-]|].
  destruct (fgets 256 rest) as [[line rest']|]; [|by intros [= <-]].
  destruct (header_line _ _) as [[h1|]|] eqn:E; [|by intros [= <-]|done].
  apply IH. by eapply header_line_Z.
Qed.

Lemma parse_header_Z content h h' : length (hdr_Z h) = 20%nat → parse_header content h = Ok h' →
  length (hdr_Z h') = 20%nat.
Proof. apply header_loop_Z. Qed.

Lemma copy_regs_length n src i d at_ d' : copy_regs n src i d at_ = Ok d' → length d' = length d.
Proof.
  revert i d at_. induction n as [|n IH]; intros i d at_; cbn [copy_regs]; [by intros [= <-]|].
  destruct (load src i) as [v|]; [|done]. destruct (store d at_ v) as [d1|] eqn:E; [|done].
  intros Hr. apply IH in Hr. apply length_store in E. lia.
Qed.

(** ** Automation *)

(** Lengths that the operations on arrays give. *)
Ltac lay_lengths :=
  repeat match goal with
  | H : strcpy (memset0 _) _ = Ok ?b |- context [until_nul ?b] => apply strcpy_contents in H
  | H : strcpy _ _ = Ok _ |- _ => apply length_strcpy in H
  | H : strncpy _ _ _ = Ok _ |- _ => apply length_strncpy in H
  | H : store _ _ _ = Ok _ |- _ => apply length_store in H
  | H : fread_into _ _ _ = Ok _ |- _ => apply length_fread_into in H
  | H : sprintf _ _ = Ok _ |- _ => apply length_sprintf in H
  end;
  rewrite ?length_memset0, ?length_app, ?length_take, ?length_drop in *.

Ltac lay_open :=
  repeat match goal with
  | H : layout _ |- _ => destruct H as ([] & [] & [] & [] & [] & [] & [])
  | H : bool_decide _ = true |- _ => apply bool_decide_eq_true in H
  end.

(** A field that changed. *)
Ltac lay_field :=
  first
    [ assumption
    | apply u8_range | apply u16_range
    | reflexivity
    | unfold u8_ok, u16_ok in *; lia
    | lay_open; lia
    | solve [split; by vm_compute]
    | lay_open; eapply parse_header_Z; [|eassumption]; eassumption
    | lay_open; unfold splice in *; lay_lengths; unfold u8_ok, u16_ok, BUFFER_SIZE in *; first [lia | simpl in *; lia] ].

Ltac lay_object :=
  match goal with
  | H : led_layout _ |- led_layout _ => destruct H
  | H : plr_layout _ |- plr_layout _ => destruct H
  | H : sys_layout _ |- sys_layout _ => destruct H
  | H : wifi_layout _ |- wifi_layout _ => destruct H
  | H : tag_layout _ |- tag_layout _ => destruct H
  | H : qbus_layout _ |- qbus_layout _ => destruct H
  | H : dl_layout _ |- dl_layout _ => destruct H
  end;
  constructor; simpl; lay_field.

Ltac lay_modify :=
  apply preserves_modify; let w := fresh "w" in intros w (? & ? & ? & ? & ? & ? & ?);
  unfold layout; split_and!; first [assumption | lay_object].

Ltac layout := pres lay_modify.

(** ** Operations *)

Section layout_operations.
Context `{Env} `{CJSON}.

Lemma System_initialize_layout s p u : preserves layout (System_initialize s p u).
Proof. layout. Qed.
Lemma verifyUserID_layout u i : preserves layout (verifyUserID u i).
Proof. layout. Qed.
Lemma setToy_layout t : preserves layout (setToy t).
Proof. layout. Qed.
Lemma writeUserID_layout i u : preserves layout (writeUserID i u).
Proof. layout. Qed.
Lemma readUserIDs_layout : preserves layout readUserIDs.
Proof. layout. Qed.
Lemma ReadBoxUniqueID_layout : preserves layout ReadBoxUniqueID.
Proof. layout. Qed.
Lemma WriteBoxName_layout n : preserves layout (WriteBoxName n).
Proof. layout. Qed.
Lemma writeBrightness_layout r g b d : preserves layout (writeBrightness r g b d).
Proof. layout. Qed.
Lemma readHeader_layout : preserves layout readHeader.
Proof. layout. Qed.
Lemma ToyRemoved_layout : preserves layout ToyRemoved.
Proof. layout. Qed.
Lemma resetToy_layout : preserves layout resetToy.
Proof. layout. Qed.
Lemma verify_layout `{!DownloaderOps} : preserves layout SystemHandler.downloadToken →
  preserves layout verifyUserIdWithServer.
Proof. intros Ht. unfold verifyUserIdWithServer. layout. Qed.

(** The registers. *)
Lemma UpdateDataBuffer_layout : preserves layout UpdateDataBuffer.
Proof. layout. Qed.
#[local] Hint Resolve System_initialize_layout verifyUserID_layout setToy_layout writeUserID_layout
  resetToy_layout UpdateDataBuffer_layout : pres.

Lemma QbusRegReadCb_layout a l d : preserves layout (QbusRegReadCb a l d).
Proof. layout. Qed.
Lemma QbusRegWriteCb_layout a l d : preserves layout (QbusRegWriteCb a l d).
Proof. unfold QbusRegWriteCb. layout. Qed.
Lemma process_tag_layout buf : preserves layout (process_tag buf).
Proof. layout. Qed.
#[local] Hint Resolve QbusRegReadCb_layout QbusRegWriteCb_layout process_tag_layout : pres.

(** The slave: the callbacks return as many bytes as they were given. *)
Lemma EnableTxRx_layout tx rx : preserves layout (EnableTxRx tx rx).
Proof. apply preserves_skip. Qed.
Lemma TransmitChar_layout b : preserves layout (TransmitChar b).
Proof. change (preserves layout (IotQbusSendByte b)). layout. Qed.
Lemma ReadRegCb_layout a l d : preserves layout (ReadRegCb a l d).
Proof. apply QbusRegReadCb_layout. Qed.
Lemma WriteRegCb_layout a l d : preserves layout (WriteRegCb a l d).
Proof. apply QbusRegWriteCb_layout. Qed.
#[local] Hint Resolve EnableTxRx_layout TransmitChar_layout ReadRegCb_layout WriteRegCb_layout : pres.

(** Whatever value the operation gives satisfies [P]. *)
Definition gives {A} (P : A → Prop) (m : FW A) : Prop := ∀ w a w', m w = Ok (a, w') → P a.

Lemma gives_bind {A B} (P : B → Prop) (m : FW A) (k : A → FW B) : (∀ a, gives P (k a)) → gives P (bind m k).
Proof. intros Hk w b w' (a & w1 & _ & Hr)%bind_Ok. by eapply Hk. Qed.
Lemma gives_lift_bind {A B} (P : B → Prop) (r : res A) (k : A → FW B) :
  (∀ a, r = Ok a → gives P (k a)) → gives P (bind (lift r) k).
Proof.
  intros Hk w b w' (a & w1 & Hl & Hr)%bind_Ok. unfold lift in Hl.
  destruct r as [a'|]; [|done]. injection Hl as -> ->. by eapply Hk.
Qed.
Lemma gives_if {A} (P : A → Prop) (b : bool) (m1 m2 : FW A) : gives P m1 → gives P m2 → gives P (if b then m1 else m2).
Proof. by destruct b. Qed.
Lemma gives_ret {A} (P : A → Prop) a : P a → gives P (ret a).
Proof. by intros Ha w b w' [= <- _]. Qed.

Lemma ReadRegCb_length a l d : gives (λ r, length r.2 = length d) (ReadRegCb a l d).
Proof.
  change (gives (λ r : qBRegRetCode_et * bytes, length r.2 = length d) (QbusRegReadCb a l d)).
  unfold QbusRegReadCb. apply gives_if; [|by apply gives_ret]. cbv zeta.
  apply gives_bind; intros _. apply gives_bind; intros src. apply gives_lift_bind; intros d' Hd.
  apply gives_ret. by eapply copy_regs_length.
Qed.

Lemma WriteRegCb_length a l d : gives (λ r, length r.2 = length d) (WriteRegCb a l d).
Proof.
  change (gives (λ r : qBRegRetCode_et * bytes, length r.2 = length d) (QbusRegWriteCb a l d)).
  unfold QbusRegWriteCb. cbv zeta.
  repeat apply gives_if; repeat (apply gives_bind; intros ?); by apply gives_ret.
Qed.

Lemma poke_layout i v : preserves layout (poke i v).
Proof. layout. Qed.
Lemma push_layout v : preserves layout (push v).
Proof. layout. Qed.
#[local] Hint Resolve poke_layout push_layout : pres.

Lemma tx_loop_layout n : preserves layout (tx_loop n).
Proof. induction n as [|n IH]; cbn [tx_loop]; layout. Qed.
#[local] Hint Resolve tx_loop_layout : pres.

Lemma QBSlavePortByteReceived_layout b : preserves layout (QBSlavePortByteReceived b).
Proof. layout. Qed.

Lemma dispatch_frame_layout : preserves layout dispatch_frame.
Proof.
  unfold dispatch_frame. pres_read. do 5 (apply preserves_lift_bind; intros ? ?). cbv zeta.
  apply preserves_if; [|apply preserves_if].
  - apply preserves_bind; [layout|intros _].
    eapply preserves_value_bind; [apply ReadRegCb_length|layout|intros r Hr]; cbv beta in Hr; layout.
  - eapply preserves_value_bind; [apply WriteRegCb_length|layout|intros r Hr]; cbv beta in Hr; layout.
  - layout.
Qed.
#[local] Hint Resolve dispatch_frame_layout : pres.

Lemma QbusTask_layout : preserves layout QbusTask_turn.
Proof. layout. Qed.

Lemma uart_event_layout e : preserves layout (uart_event_turn e).
Proof. destruct e; layout. Qed.
Lemma wifi_event_layout e : preserves layout (eventHandler e).
Proof. destruct e; layout. Qed.
Lemma bleWriteCredentials_layout s p : preserves layout (bleWriteCredentials s p).
Proof. layout. Qed.
#[local] Hint Resolve bleWriteCredentials_layout ReadBoxUniqueID_layout WriteBoxName_layout
  writeBrightness_layout readUserIDs_layout : pres.
Lemma onRead_layout float_text uuid : preserves layout (onRead float_text uuid).
Proof. unfold onRead. apply preserves_bind; [unfold read_text; layout|]. intros ?. layout. Qed.
Lemma onWrite_layout uuid value : preserves layout (onWrite uuid value).
Proof. layout. Qed.

End layout_operations.

(** ** The downloader *)

Section layout_downloader.
Context `{Env} `{CJSON}.

Lemma mkdir_parents_layout seen rest : preserves layout (mkdir_parents seen rest).
Proof. revert seen. induction rest as [|c rest IH]; intros seen; cbn [mkdir_parents]; layout. Qed.
#[local] Hint Resolve mkdir_parents_layout : pres.

Lemma TokenCallback_layout e : preserves layout (TokenCallback e).
Proof. destruct e; layout. Qed.
Lemma parse_and_store_metadata_layout r : preserves layout (parse_and_store_metadata r).
Proof. layout. Qed.
#[local] Hint Resolve TokenCallback_layout parse_and_store_metadata_layout : pres.

Lemma MasterjsonCallback_layout e : preserves layout (MasterjsonCallback e).
Proof. destruct e; layout. Qed.
Lemma DirectionCallback_layout e : preserves layout (DirectionCallback e).
Proof. destruct e; layout. Qed.
#[local] Hint Resolve MasterjsonCallback_layout DirectionCallback_layout : pres.

Lemma copy_loop_layout fuel data : preserves layout (copy_loop fuel data).
Proof. revert data. induction fuel as [|fuel IH]; intros data; cbn [copy_loop]; layout. Qed.
#[local] Hint Resolve copy_loop_layout : pres.

Lemma Downloadmp3Callback_layout e : preserves layout (Downloadmp3Callback e).
Proof. destruct e; layout. Qed.
#[local] Hint Resolve Downloadmp3Callback_layout : pres.

Lemma perform_retry_layout n url : preserves layout (perform_retry n url).
Proof. induction n as [|n IH]; cbn [perform_retry]; layout. Qed.
#[local] Hint Resolve perform_retry_layout : pres.

Lemma download_all_layout names : preserves layout (download_all names).
Proof. induction names as [|name names IH]; cbn [download_all]; layout. Qed.
#[local] Hint Resolve download_all_layout : pres.

Lemma downloadToken_layout : preserves layout Metadata.downloadToken.
Proof. layout. Qed.
#[local] Hint Resolve downloadToken_layout : pres.
Lemma begin_layout t : preserves layout (begin t).
Proof. layout. Qed.
End layout_downloader.

(** ** The state machine *)

Section layout_handler.
Context `{Env} `{CJSON}.

Lemma download_token_layout : preserves layout SystemHandler.downloadToken.
Proof. change (preserves layout (Downloader_Downloader;; Metadata.downloadToken)). pose proof downloadToken_layout. layout. Qed.
Lemma download_begin_layout t : preserves layout (download_begin t).
Proof. change (preserves layout (Downloader_Downloader;; begin t)). pose proof (begin_layout t). layout. Qed.
Lemma verifyUserIdWithServer_layout : preserves layout verifyUserIdWithServer.
Proof. apply verify_layout, download_token_layout. Qed.
Lemma play_layout loc : preserves layout (play loc).
Proof. layout. Qed.
Lemma play_tone_layout tone st : preserves layout (play_tone tone st).
Proof. layout. Qed.
#[local] Hint Resolve download_begin_layout verifyUserIdWithServer_layout play_layout play_tone_layout : pres.
Lemma battery_gate_layout bat chg : preserves layout (battery_gate bat chg).
Proof. layout. Qed.
Lemma select_track_layout : preserves layout select_track.
Proof. layout. Qed.
Lemma answer_location_layout s : preserves layout (answer_location s).
Proof. layout. Qed.
#[local] Hint Resolve battery_gate_layout select_track_layout answer_location_layout
  bleWriteCredentials_layout readHeader_layout : pres.

Lemma handler_layout : preserves layout handler.
Proof. unfold handler. layout. Qed.
End layout_handler.

(** ** Properties *)

Section layout_properties.
Context `{Env} `{CJSON} (float_text : Z → bytes).

Lemma event_turn_layout m : event_turn float_text m → preserves layout m.
Proof.
  intros []; [apply QbusTask_layout|apply uart_event_layout|apply onRead_layout|apply onWrite_layout| | |].
  - layout.
  - apply wifi_event_layout.
  - unfold main_rest. layout.
Qed.

Lemma layout_steps w w' : layout w → rtc (step float_text) w w' → layout w'.
Proof.
  intros Hw Hr. induction Hr as [w|w w1 w2 [Hr|m Hm Hr] _ IH]; [done|..]; apply IH.
  - eapply (preserves_elim layout SystemTask_turn); [|exact Hw|exact Hr].
    unfold SystemTask_turn. apply preserves_bind; [apply handler_layout|]. intros []. layout.
  - eapply (preserves_elim layout m); [|exact Hw|exact Hr]. by apply event_turn_layout.
Qed.

(** C9 (arrays and widths).  The global objects are well-formed in every state
    the tasks can reach, in any order of their turns: every array keeps its
    declared size, every text is shorter than the array that holds it, the
    byte and half-word counters stay in their range. *)
Theorem layout_forever (w w' : world) (Hw : layout w) (Hr : rtc (step float_text) w w') : layout w'.
Proof. by eapply layout_steps. Qed.
End layout_properties.

(** ** Witnesses *)

Section layout_witnesses.
#[local] Instance sample_env : Env := Sample.env AEL_STATE_RUNNING.
#[local] Instance sample_json : CJSON := Sample.no_json.

Lemma layout_start : layout Sample.world0.
Proof. unfold layout. split_and!; constructor; first [reflexivity | vm_compute; lia | split; vm_compute; congruence]. Qed.

Example layout_forever_witness : layout (turn Sample.world0).
Proof.
  apply (layout_forever fmt_d Sample.world0); [exact layout_start|].
  apply rtc_once, step_turn. vm_compute. reflexivity.
Defined.
End layout_witnesses.
