(* ===== verification/Serial.v ===== *)
(** * Serial: the serial line in the whole firmware

    QbusSlave.v shows that the serial slave never faults while the rest of
    the firmware leaves its state alone and keeps what its callbacks need.
    Here that is shown of the rest of the firmware: the state machine, the
    downloads, the callbacks of the BLE stack and the WiFi events. *)

From S2P Require Import Prelude CString World TimeSpent Led SystemBase Player QbusSlave IotQbus SdCard Wifi Ble.
From S2P Require Import SystemHandler SystemControl SystemSpec Metadata Tracks Downloader Firmware.
#[local] Open Scope M_scope.

(** ** What the callbacks need *)

(** The colours are bytes, and the volume can be stored. *)
Definition port_ok (w : world) : Prop :=
  led_wf (led w) ∧ can_create VOLUME_SDCARD_LOCATION (fs w) = true.

Ltac port_modify := apply preserves_modify; let w := fresh "w" in let Hw := fresh "Hw" in intros w Hw; exact Hw.
Ltac port := pres port_modify.

Section port.
Context `{Env} `{CJSON}.

Lemma rgb_colour r g b : length (rgb r g b) = 3%nat ∧ bytes_ok (rgb r g b).
Proof. split; [done|apply rgb_ok]. Qed.

Lemma led_wf_alt l : led_wf l ↔ Forall (λ c, length c = 3%nat ∧ bytes_ok c)
  [leftEarColor l; rightEarColor l; padColor l].
Proof.
  split; [intros Hl; repeat constructor; apply Hl; set_solver|].
  rewrite !Forall_cons_iff. intros (? & ? & ? & _) c Hc. set_unfold in Hc. by destruct Hc as [-> | [-> | [-> | []]]].
Qed.

Lemma setLandingPadColor_port r g b : preserves port_ok (setLandingPadColor r g b).
Proof.
  apply preserves_bind; [port|intros _]. apply preserves_modify.
  intros w (Hl & Hc). split; [|exact Hc]. pose proof (rgb_colour r g b).
  rewrite led_wf_alt in *. rewrite !Forall_cons_iff in *. simpl. tauto.
Qed.
Lemma setLeftEarColor_port r g b : preserves port_ok (setLeftEarColor r g b).
Proof.
  apply preserves_modify. intros w (Hl & Hc). split; [|exact Hc].
  pose proof (rgb_colour r g b).
  rewrite led_wf_alt in *. rewrite !Forall_cons_iff in *. simpl. tauto.
Qed.
Lemma setRightEarColor_port r g b : preserves port_ok (setRightEarColor r g b).
Proof.
  apply preserves_modify. intros w (Hl & Hc). split; [|exact Hc].
  pose proof (rgb_colour r g b).
  rewrite led_wf_alt in *. rewrite !Forall_cons_iff in *. simpl. tauto.
Qed.

(** A directory that is not where the volume goes. *)
Lemma mkdir_port path : path ≠ VOLUME_SDCARD_LOCATION → preserves port_ok (mkdir path).
Proof.
  intros Hp. unfold mkdir. apply preserves_gets_bind_at. intros w0 _. cbv beta.
  apply preserves_if; [port|]. apply preserves_if; [|port].
  apply preserves_bind; [|intros _; port]. apply preserves_modify.
  intros w (Hl & Hc). split; [exact Hl|]. unfold can_create in *. simpl.
  apply andb_true_iff in Hc as [H1%bool_decide_eq_true H2%bool_decide_eq_true].
  apply andb_true_iff. split; apply bool_decide_eq_true; set_solver.
Qed.

(** No directory on the way to a toy's is. *)
Definition toy_path (path : bytes) : Prop := ∃ t, path `prefix_of` toy_dir t ++ lit "/".

Lemma toy_path_volume path : toy_path path → path ≠ VOLUME_SDCARD_LOCATION.
Proof. intros [t [s E]] ->. vm_compute in E. discriminate E. Qed.

Lemma toy_path_prefix p q : p `prefix_of` q → toy_path q → toy_path p.
Proof. intros Hp [t Hq]. exists t. by trans q. Qed.

Lemma mkdir_parents_port seen rest : toy_path (reverse seen ++ rest) → preserves port_ok (mkdir_parents seen rest).
Proof.
  revert seen. induction rest as [|c rest IH]; intros seen Hp; cbn [mkdir_parents]; [port|].
  assert (preserves port_ok (mkdir_parents (c :: seen) rest)) as Hrec.
  { apply IH. by rewrite reverse_cons, <-app_assoc. }
  apply preserves_if; [|done]. apply preserves_bind; [|intros []; done || port].
  apply mkdir_port, toy_path_volume. eapply toy_path_prefix; [|done]. by eexists.
Qed.

Lemma strip_slash_prefix p : strip_slash p `prefix_of` p.
Proof.
  unfold strip_slash. destruct (reverse p) as [|c q] eqn:E; [done|]. case_bool_decide; [|done].
  exists [c]. rewrite <-(reverse_involutive p), E, reverse_cons. done.
Qed.

Lemma create_directory_port path : toy_path path → preserves port_ok (create_directory path).
Proof.
  intros Hp. unfold create_directory. cbv zeta. case_bool_decide; [port|].
  assert (toy_path (strip_slash (snprintf 256 path))) as Hs.
  { eapply toy_path_prefix; [|exact Hp]. trans (snprintf 256 path); [apply strip_slash_prefix|].
    apply prefix_take. }
  destruct (strip_slash (snprintf 256 path)) as [|c rest]; [port|].
  apply preserves_bind; [by apply mkdir_parents_port|]. intros []; [|port].
  apply preserves_bind; [by apply mkdir_port, toy_path_volume|]. intros ?. port.
Qed.
#[local] Hint Resolve setLandingPadColor_port setLeftEarColor_port setRightEarColor_port
  create_directory_port : pres.

Lemma toy_dir_path t : toy_path (toy_dir t).
Proof. exists t. by eexists. Qed.

Lemma toy_path_slash t : toy_path (toy_dir t ++ lit "/").
Proof. exists t. reflexivity. Qed.

Lemma createFolders_port : preserves port_ok createFolders.
Proof.
  unfold createFolders. pres_read. apply preserves_lift_bind. intros folderName Hf.
  apply preserves_bind; [|intros ?; port]. apply mkdir_port, toy_path_volume.
  unfold sprintf in Hf. case_bool_decide; [|done]. injection Hf as <-. apply toy_dir_path.
Qed.

Lemma open_metadata_file_port : preserves port_ok open_metadata_file.
Proof.
  unfold open_metadata_file. pres_read. apply preserves_if; [port|]. pres_read.
  apply preserves_lift_bind. intros dir Hd. apply preserves_bind.
  - apply create_directory_port. unfold sprintf in Hd. case_bool_decide; [|done]. injection Hd as <-.
    exact (toy_path_slash (until_nul (tagUid_qbus (tag w1)))).
  - intros ok. port.
Qed.
#[local] Hint Resolve createFolders_port open_metadata_file_port : pres.

Lemma parse_port r : preserves port_ok (parse_and_store_metadata r).
Proof. port. Qed.
#[local] Hint Resolve parse_port : pres.
Lemma MasterjsonCallback_port e : preserves port_ok (MasterjsonCallback e).
Proof. destruct e; port. Qed.
Lemma copy_loop_port fuel data : preserves port_ok (copy_loop fuel data).
Proof. revert data. induction fuel as [|fuel IH]; intros data; cbn [copy_loop]; port. Qed.
#[local] Hint Resolve MasterjsonCallback_port copy_loop_port : pres.
Lemma perform_retry_port n url : preserves port_ok (perform_retry n url).
Proof. induction n as [|n IH]; cbn [perform_retry]; port. Qed.
#[local] Hint Resolve perform_retry_port : pres.
Lemma download_all_port names : preserves port_ok (download_all names).
Proof. induction names as [|name names IH]; cbn [download_all]; port. Qed.
#[local] Hint Resolve download_all_port : pres.
Lemma downloadToken_port : preserves port_ok Metadata.downloadToken.
Proof. port. Qed.
#[local] Hint Resolve downloadToken_port : pres.
Lemma begin_port t : preserves port_ok (begin t).
Proof. port. Qed.
Lemma token_turn_port : preserves port_ok SystemHandler.downloadToken.
Proof. change (preserves port_ok (Downloader_Downloader;; Metadata.downloadToken)). port. Qed.
Lemma begin_turn_port t : preserves port_ok (download_begin t).
Proof. change (preserves port_ok (Downloader_Downloader;; begin t)). pose proof (begin_port t). port. Qed.
#[local] Hint Resolve token_turn_port begin_turn_port : pres.

Lemma play_tone_port tone st : preserves port_ok (play_tone tone st).
Proof. port. Qed.
Lemma bleWriteCredentials_port s p : preserves port_ok (bleWriteCredentials s p).
Proof. port. Qed.
Lemma verify_port : preserves port_ok verifyUserIdWithServer.
Proof. port. Qed.
#[local] Hint Resolve play_tone_port bleWriteCredentials_port verify_port : pres.
Lemma handler_port : preserves port_ok handler.
Proof. unfold handler. port. Qed.
Lemma onRead_port float_text uuid : preserves port_ok (onRead float_text uuid).
Proof. port. Qed.
Lemma onWrite_port uuid value : preserves port_ok (onWrite uuid value).
Proof. port. Qed.
Lemma wifi_event_port e : preserves port_ok (eventHandler e).
Proof. destruct e; port. Qed.

Lemma setupFiles_port : preserves port_ok setupFiles.
Proof.
  unfold setupFiles. repeat (apply preserves_bind; [apply mkdir_port; by vm_compute|intros _]). port.
Qed.
#[local] Hint Resolve setupFiles_port : pres.
Lemma main_rest_port : preserves port_ok main_rest.
Proof. port. Qed.
End port.

(** ** What only the serial line changes *)

Section apart.
Context `{Env} `{CJSON}.

Definition apart (w : world) := (qbusSlave w, tag w, toy (sys w), uart_out (hist w)).

Lemma download_apart {A} (m : FW A) : keeps beside_download m → keeps apart m.
Proof. intros Hm w a w' Hr. apply Hm in Hr. unfold beside_download in Hr. injection Hr as E1 E2 E3 E4 _ _. unfold apart. by rewrite E1, E2, E3, E4. Qed.

Lemma token_turn_apart : keeps apart SystemHandler.downloadToken.
Proof. apply download_apart, token_turn_keeps. Qed.
Lemma begin_turn_apart t : keeps apart (download_begin t).
Proof. apply download_apart, begin_turn_keeps. Qed.
Lemma http_perform_apart url body on_event : (∀ e, keeps apart (on_event e)) →
  keeps apart (http_perform url body on_event).
Proof. intros. unfold http_perform. keeps. Qed.
#[local] Hint Resolve token_turn_apart begin_turn_apart http_perform_apart : keeps.

Lemma handler_apart : keeps apart handler.
Proof.
  intros w a w'. unfold handler, getBatteryLevel, getChargingStatus. cbv [bind get_sys gets].
  destruct (state (sys w)); intros Hr; (eapply keeps_run; [|exact Hr]); clear Hr; keeps.
Qed.

Lemma onRead_apart float_text uuid : keeps apart (onRead float_text uuid).
Proof. keeps. Qed.
Lemma onWrite_apart uuid value : keeps apart (onWrite uuid value).
Proof. keeps. Qed.
Lemma wifi_event_apart e : keeps apart (eventHandler e).
Proof. destruct e; keeps. Qed.
End apart.

(** ** The firmware as a serial slave *)

Section serial.
Context `{Env} `{CJSON} (float_text : Z → bytes).

Abbreviation serial_inv := (slave_inv (max_read := READ_DATA_NUM_REGS) (ok := iot_ok)).
Abbreviation line_step := (bus_step (ok := iot_ok) false).

Lemma other_step {A} (m : FW A) w a w' : keeps apart m → preserves port_ok m → serial_inv w →
  m w = Ok (a, w') → line_step w w'.
Proof.
  intros Hk Hp ((Hc & Hl & Hb) & _ & Ht) Hr.
  pose proof (preserves_elim _ _ _ _ _ Hp (conj Hl Hc) Hr) as [Hl' Hc'].
  apply Hk in Hr. unfold apart in Hr. injection Hr as E1 E2 E3 E4.
  apply step_other; [done| |intros _; unfold iot_ok; by rewrite E2|done].
  unfold tag_inv. by rewrite E2, E3.
Qed.

Lemma line_step_inv w w' : line_step w w' → serial_inv w → serial_inv w'.
Proof. apply bus_step_inv. Qed.

Lemma bytes_received data w w' : serial_inv w → bytes_ok data → for_each data byteReceived w = Ok ((), w') →
  rtc line_step w w'.
Proof.
  intros Hi Hd. revert w Hi. induction Hd as [|b data Hb _ IH]; intros w Hi; cbn [for_each].
  { intros [= <-]. done. }
  intros ([] & w1 & H1 & H2)%bind_Ok.
  assert (line_step w w1) as Hs by by apply (step_byte _ _ _ b).
  eapply rtc_l; [exact Hs|]. apply IH; [by eapply line_step_inv|done].
Qed.

Lemma event_line m w w' : event_turn float_text m → serial_inv w → m w = Ok ((), w') → rtc line_step w w'.
Proof.
  intros [|e He|uuid|uuid value| |e|] Hi Hr.
  - apply bind_Ok in Hr as ([] & w1 & H1 & H2). 
    assert (line_step w w1) as Hs by by apply step_poll.
    eapply rtc_l; [exact Hs|]. apply rtc_once.
    eapply (other_step (delay 1)); [keeps|port| |exact H2]. by eapply line_step_inv.
  - destruct e; [by eapply bytes_received|..]; apply rtc_once;
      (eapply (other_step _ w () w'); [| |done|exact Hr]; [keeps|port]).
  - apply rtc_once. by eapply (other_step (onRead float_text uuid)); [apply onRead_apart|apply onRead_port|done|exact Hr].
  - apply rtc_once. by eapply (other_step (onWrite uuid value)); [apply onWrite_apart|apply onWrite_port|done|exact Hr].
  - apply rtc_once. eapply (other_step onDisconnect); [keeps|port|done|exact Hr].
  - apply rtc_once. by eapply (other_step (eventHandler e)); [apply wifi_event_apart|apply wifi_event_port|done|exact Hr].
  - apply rtc_once. eapply (other_step main_rest); [keeps|apply main_rest_port|done|exact Hr].
Qed.

Lemma firmware_line w w' : step float_text w w' → serial_inv w → rtc line_step w w'.
Proof.
  intros [Hr|m Hm Hr] Hi; [|by eapply event_line].
  apply rtc_once. eapply (other_step SystemTask_turn); [| |done|exact Hr].
  - apply keeps_bind; [apply handler_apart|]. intros []. keeps.
  - apply preserves_bind; [apply handler_port|]. intros []. port.
Qed.

Lemma bytes_received_run data w : serial_inv w → bytes_ok data →
  ∃ w', for_each data byteReceived w = Ok ((), w').
Proof.
  intros Hi Hd. revert w Hi. induction Hd as [|b data Hb _ IH]; intros w Hi; cbn [for_each]; [by eexists|].
  destruct (wp_elim _ _ _ (ByteReceived_spec b w Hi Hb)) as ([] & w1 & Hr & Hi1 & _).
  unfold byteReceived. rewrite (bind_run _ _ _ _ _ Hr). by apply IH.
Qed.

(** C11 (the serial line in the whole firmware).  Whatever the state machine,
    the downloads, the phone and the WiFi driver do, in any order, they are
    steps of the environment of QbusSlave.v: the firmware refines the serial
    slave, so its invariant holds in every reachable state, where neither the
    task that polls the slave nor the bytes of the UART run into a fault. *)
Theorem firmware_refines_slave (w w' : world) (Hi : serial_inv w) (Hr : rtc (step float_text) w w') :
  rtc line_step w w' ∧ serial_inv w' ∧
  (∃ w2, QbusTask_turn w' = Ok ((), w2)) ∧
  (∀ data, bytes_ok data → ∃ w2, uart_event_turn (UART_DATA data) w' = Ok ((), w2)).
Proof.
  assert (rtc line_step w w' ∧ serial_inv w') as [Hl Hi'].
  { induction Hr as [w|w w1 w2 Hs _ IH]; [done|].
    pose proof (firmware_line _ _ Hs Hi) as Hl. destruct IH as [Hl2 Hi2]; [by eapply bus_steps_inv|].
    split; [by trans w1|done]. }
  split_and!; [done..| |].
  - destruct (wp_elim _ _ _ (poll_step w' Hi')) as ([] & w2 & Hp & _).
    eexists. unfold QbusTask_turn, QbusHandler. by rewrite (bind_run _ _ _ _ _ Hp).
  - intros data Hd. by apply bytes_received_run.
Qed.
End serial.

(** ** Witnesses *)

Section serial_witnesses.
#[local] Instance sample_env : Env := Sample.env AEL_STATE_RUNNING.
#[local] Instance sample_json : CJSON := Sample.no_json.

Lemma sample_serial_inv : slave_inv (max_read := READ_DATA_NUM_REGS) (ok := iot_ok) Sample.world0.
Proof.
  split; [|split].
  - split_and!; [vm_compute; reflexivity|apply sample_led_wf|done].
  - unfold q_inv.
    split_and!; first [reflexivity | apply Forall_replicate; by split | by vm_compute].
  - unfold tag_inv. split_and!; vm_compute; lia.
Qed.

Example firmware_refines_slave_witness :
  ∃ w2, QbusTask_turn (turn Sample.world0) = Ok ((), w2).
Proof.
  apply (firmware_refines_slave fmt_d Sample.world0 (turn Sample.world0)); [exact sample_serial_inv|].
  apply rtc_once, step_turn. vm_compute. reflexivity.
Defined.
End serial_witnesses.
