(* ===== verification/Safety.v ===== *)
(** * Safety: where the state machine cannot fault

    A turn of [System::handler] faults only where it reads a playlist, a
    header, the colours of a toy, the network or the stored credentials.
    In every other state it returns, from every state the firmware reaches. *)

From S2P Require Import Prelude CString World TimeSpent Led SystemBase Player SdCard Wifi Ble.
From S2P Require Import SystemHandler SystemControl SystemSpec Metadata Tracks Downloader Firmware Layout.
#[local] Open Scope M_scope.

(** ** Operations that always return *)

Definition total {A} (m : FW A) : Prop := ∀ w, ∃ a w', m w = Ok (a, w').

Section total.

Lemma total_ret {A} (a : A) : total (ret a).
Proof. intros w. by eexists _, _. Qed.
Lemma total_gets {A} (f : world → A) : total (gets f).
Proof. intros w. by eexists _, _. Qed.
Lemma total_modify g : total (modify g).
Proof. intros w. by eexists _, _. Qed.
Lemma total_bind {A B} (m : FW A) (k : A → FW B) : total m → (∀ a, total (k a)) → total (bind m k).
Proof. intros Hm Hk w. destruct (Hm w) as (a & w1 & Hr). rewrite (bind_run _ _ _ _ _ Hr). apply Hk. Qed.
Lemma total_when b (m : FW ()) : total m → total (when b m).
Proof. destruct b; [done|]. intros _. apply total_ret. Qed.
End total.

Ltac total :=
  lazymatch goal with
  | |- total (ret _) => apply total_ret
  | |- total skip => apply total_ret
  | |- total (gets _) => apply total_gets
  | |- total (modify _) => apply total_modify
  | |- total (bind _ _) => apply total_bind; [total|intros ?; total]
  | |- total (when _ _) => apply total_when; total
  | |- total (match ?x with _ => _ end) => destruct x; total
  | |- total ?m =>
      first
        [ progress cbv zeta beta; total
        | assumption
        | solve [eauto 1]
        | let rec head t := lazymatch t with ?g _ => head g | _ => t end in
          let h := head m in unfold h; total ]
  end.

Section handler_total.
Context `{Env} `{CJSON} `{!DownloaderOps}.

Lemma play_total loc : total (play loc).
Proof. intros w. destruct (play_run loc w) as (w' & Hr & _). by eexists _, _. Qed.

Lemma play_tone_total tone st : total (play_tone tone st).
Proof. pose proof play_total. total. Qed.

Lemma case_TOY_DETECTED_runs w : (length (toy (sys w)) < 20)%nat →
  ∃ w', case_TOY_DETECTED w = Ok ((), w').
Proof.
  intros Ht.
  assert (∀ go, total go → ∃ w', content_or_download go w = Ok ((), w')) as Hgo.
  { intros go Hg. unfold content_or_download, SdCard_exist, checkDownloadStatus, sprintf, verify_path.
    cbv [bind get_sys gets lift opendir fopen_r ret]. rewrite !length_app.
    change (length (lit "/sdcard/media/toys/")) with 19%nat. change (length (lit "/verify.txt")) with 11%nat.
    rewrite !bool_decide_true by lia.
    destruct (setState_spec SYS_DOWNLOAD_WIFI_CONN w) as (w1 & Hd & _).
    destruct (Hg w) as ([] & w2 & Hg2). repeat case_bool_decide; first [lia|eauto]. }
  unfold case_TOY_DETECTED. cbv [get_sys gets]. do 2 unfold bind at 1.
  destruct (strcmp_eq _ _).
  - destruct (Hgo same_toy_again) as [w1 Hr]; [total|]. rewrite (bind_run _ _ _ _ _ Hr). by eexists.
  - apply Hgo. total.
Qed.

(** The states whose turns read nothing that may be missing or malformed. *)
Definition plain_state (s : system_states_et) : bool :=
  match s with
  | SYS_INIT_WIFI_CHECK | SYS_INIT_USER_ID_CHECK | SYS_GET_DIRECTION | SYS_READ_AUDIO_HEADER
  | SYS_PLAY_NEXT | SYS_PLAY_ACTIVITY | SYS_PLAY_QNA | SYS_PLAY_NORMAL_AUDIO | SYS_CORRECT_ANS
  | SYS_INCORRECT_ANS_TRY1 | SYS_DOWNLOAD_WIFI_CONN | SYS_DOWNLOAD_TOY => false
  | _ => true
  end.

Lemma handler_runs w : (length (toy (sys w)) < 20)%nat → plain_state (state (sys w)) = true →
  ∃ w', handler w = Ok ((), w').
Proof.
  intros Ht Hp.
  assert (∀ m : FW (), total m → ∃ w', m w = Ok ((), w')) as Htot.
  { intros m Hm. destruct (Hm w) as ([] & w' & Hr). by exists w'. }
  unfold handler, getBatteryLevel, getChargingStatus. cbv [bind get_sys gets].
  pose proof play_tone_total.
  destruct (state (sys w)); try discriminate Hp; first [by apply case_TOY_DETECTED_runs | apply Htot; total].
Qed.

(** *** The message that may be read although it was never written *)

Definition reads (w : world) : nat := uninitialised_reads (hist w).

Lemma listen_reads : (∀ h, is_Some (env_msg h)) → keeps reads listen.
Proof.
  intros Hm w a w'. rewrite listen_run. intros [= <- <-]. unfold reads, listened. cbn [hist update upd_hist].
  destruct (Hm (audio_event_iface_listen :: hist w)) as [msg E]. by destruct w; simpl in *; rewrite E.
Qed.

(** Only [SYS_WAIT_FOR_PLAYER] listens. *)
Lemma handler_reads w a w' : plain_state (state (sys w)) = true →
  state (sys w) ≠ SYS_WAIT_FOR_PLAYER ∨ (∀ h, is_Some (env_msg h)) → handler w = Ok (a, w') → reads w' = reads w.
Proof.
  intros Hp Hm. unfold handler, getBatteryLevel, getChargingStatus. cbv [bind get_sys gets].
  destruct (decide (state (sys w) = SYS_WAIT_FOR_PLAYER)) as [E|E].
  - destruct Hm as [?|Hm%listen_reads]; [done|]. rewrite E. apply keeps_run. keeps.
  - clear Hm. destruct (state (sys w)); try done; apply keeps_run; keeps.
Qed.
End handler_total.

(** ** Properties *)

Section safety_properties.
Context `{Env} `{CJSON} (float_text : Z → bytes).

End safety_properties.

(** ** Witnesses *)

Section safety_witnesses.
#[local] Instance sample_env : Env := Sample.env AEL_STATE_RUNNING.
#[local] Instance sample_json : CJSON := Sample.no_json.

End safety_witnesses.
