(* ===== verification/Playback.v ===== *)
(** * Playback: the states in which a playlist is read and its tracks are played

    Safety.v covers the states that read nothing that may be missing.  The
    other states of the state machine read the playlist of the toy, the headers
    of its tracks and its colours.  With well-formed content on the card none
    of them can fault, through every interleaving of the firmware. *)

From S2P Require Import Prelude CString World TimeSpent Led SystemBase Player QbusSlave IotQbus SdCard Wifi Ble.
From S2P Require Import SystemHandler SystemControl SystemSpec Metadata Tracks Downloader Firmware Layout Safety.
#[local] Open Scope M_scope.

(** ** Well-formed content *)

Section content.
Context `{CJSON}.

(** The track of a key of the playlist [j]: "1", "2", ... *)
Definition track_name (j : Z) (key : bytes) : option bytes :=
  let item := cJSON_GetObjectItem j key in
  if bool_decide (item = 0) then None else valuestring item.

Definition valid_key (j : Z) (key : bytes) : Prop :=
  ∃ name, track_name j key = Some name ∧ (length name < 50)%nat.

(** A playlist has tracks, named by strings that fit, under all its keys. *)
Definition good_playlist (j : Z) : Prop :=
  0 < cJSON_GetArraySize j ∧
  ∀ i, 0 <= i < cJSON_GetArraySize j → valid_key j (fmt_d (i + 1)).

(** The playlist, the colours and the headers of the card can be read. *)
Definition good_list_file (content : bytes) : Prop :=
  good_playlist (cJSON_Parse (until_nul (take 1023 content))).
Definition good_theme (content : bytes) : Prop :=
  ∀ line rest rgb, fgets 16 content = Some (line, rest) →
    ∃ rgb', sscanf_3 fits_u8 (until_nul line) rgb = Ok rgb'.
Definition good_header (content : bytes) : Prop := ∀ h, ∃ h', parse_header content h = Ok h'.

(** What stands at a path of the card: [None] for a path playback never reads. *)
Definition good_file (path content : bytes) : Prop :=
  (∀ t d dir, direction_name d = Some dir → path = toy_file t dir → good_list_file content) ∧
  (∀ t, path = toy_file t (lit "colourTheme") → good_theme content) ∧
  (∀ name, path = audio_path name [] → good_header content).

Definition good_card (w : world) : Prop :=
  ∀ path content, files (fs w) !! path = Some content → good_file path content.

End content.

(** ** The invariant of playback *)

Section invariant.
Context `{CJSON}.

Definition in_track (s : system_states_et) : bool :=
  match s with
  | SYS_READ_AUDIO_HEADER | SYS_PLAY_ACTIVITY | SYS_PLAY_QNA | SYS_PLAY_NORMAL_AUDIO => true
  | _ => false
  end.

(** A question is asked; [SYS_WAIT_FOR_PLAYER] asks one when it leads back there. *)
Definition answering (c : system_states_et * system_states_et) : bool :=
  match c with
  | (SYS_WAIT_QNA_RESP, _) | (SYS_INCORRECT_ANS_TRY1, _) | (SYS_CORRECT_ANS, _)
  | (SYS_WAIT_FOR_PLAYER, SYS_WAIT_QNA_RESP) => true
  | _ => false
  end.

(** What a sound can lead back to. *)
Definition sound_state (s : system_states_et) : bool :=
  match s with
  | SYS_IDLE | SYS_TOY_DETECTED | SYS_PLAY_NEXT | SYS_WAIT_QNA_RESP | SYS_WAIT_ACTIVITY_RESP
  | SYS_DOWNLOAD_TOY | SYS_SHUT_ME_DOWN | SYS_TURN_OFF => true
  | _ => false
  end.

(** The index, the key of the question and the control fit the playlist. *)
Record list_ok (j i : Z) (key : bytes) (c : system_states_et * system_states_et) : Prop := {
  ok_index : in_track c.1 = true → i < cJSON_GetArraySize j;
  ok_previous : c.1 = SYS_PLAY_PREVIOUS → i <= cJSON_GetArraySize j;
  ok_key : answering c = true → valid_key j key;
  ok_back : c.1 = SYS_WAIT_FOR_PLAYER → sound_state c.2 = true;
}.

Definition playing (w : world) : Prop :=
  ∃ j, json (sys w) = Some j ∧ good_playlist j ∧ list_ok j (indexx (sys w)) (audioIndex (plr w)) (control w).

Definition target_ok (j i : Z) (key : bytes) (t : target) : Prop :=
  match t with
  | To s => (in_track s = true → i < cJSON_GetArraySize j) ∧ (s = SYS_PLAY_PREVIOUS → i <= cJSON_GetArraySize j) ∧
            (answering (s, SYS_POST) = true → valid_key j key)
  | Sound s => sound_state s = true ∧ (s = SYS_WAIT_QNA_RESP → valid_key j key)
  end.

Lemma list_ok_target j i key L c c' : list_ok j i key c → Forall (target_ok j i key) L →
  c' = c ∨ (∃ t, t ∈ L ∧ at_target t c') → list_ok j i key c'.
Proof.
  intros Hc HL [->|(t & Ht & Hat)]; [done|].
  rewrite list.Forall_forall in HL. specialize (HL t Ht). destruct c' as [s b], t as [s'|s']; simpl in *.
  - destruct Hat as [-> Hs], HL as (H1 & H2 & H3). split; [done..| |done]. intros Ha. apply H3. by destruct s'.
  - injection Hat as -> ->. destruct HL as [H1 H2]. split; [done..| |done]. simpl. destruct s'; try done. by intros _; apply H2.
Qed.

End invariant.

(** ** The turns of the state machine *)

(** The states that use the network, where this account stops. *)
Definition networking (s : system_states_et) : bool :=
  match s with
  | SYS_DOWNLOAD_WIFI_CONN | SYS_DOWNLOAD_TOY | SYS_INIT_WIFI_CHECK | SYS_INIT_USER_ID_CHECK => true
  | _ => false
  end.

Section turns.
Context `{Env} `{CJSON} `{!DownloaderOps} `{!DownloaderSpec}.

Definition list_ctx (w : world) := (files (fs w), json (sys w), indexx (sys w), audioIndex (plr w)).

Lemma play_ctx loc : keeps list_ctx (play loc).
Proof. keeps. Qed.
#[local] Hint Resolve play_ctx : keeps.

(** The states that leave the playlist alone. *)
Lemma plain_ctx w a w' : plain_state (state (sys w)) = true → state (sys w) ≠ SYS_PLAY_PREVIOUS →
  handler w = Ok (a, w') → list_ctx w' = list_ctx w.
Proof.
  intros Hp Hs. unfold handler, getBatteryLevel, getChargingStatus. cbv [bind get_sys gets].
  destruct (state (sys w)); try done; intros Hr; (eapply keeps_run; [|exact Hr]); clear Hr; keeps.
Qed.

Lemma length_key i : 0 <= i < 256 → (length (fmt_d (i + 1)) ≤ 3)%nat.
Proof.
  intros Hi. unfold fmt_d. rewrite bool_decide_false by lia.
  apply length_fmt_u; [lia|]. change (10 ^ Z.of_nat 3) with 1000. lia.
Qed.

Lemma item_string_run key j name w : json (sys w) = Some j → track_name j key = Some name →
  item_string key w = Ok (name, w).
Proof.
  unfold item_string, track_name. intros Hj Hn. unfold bind at 1, get_sys, gets. rewrite Hj.
  unfold bind at 1. cbn [lift from_option_res]. case_bool_decide; [done|]. by rewrite Hn.
Qed.

Lemma sprintf_short n text : (length text < n)%nat → sprintf n text = Ok text.
Proof. intros. unfold sprintf. by rewrite bool_decide_true. Qed.

Lemma length_audio_path name suffix : length (audio_path name suffix) = (24 + length name + length suffix)%nat.
Proof. unfold audio_path. rewrite !length_app. cbn. lia. Qed.

(** The track of the index has a name. *)
Lemma current_key j i : good_playlist j → u8_ok i → i < cJSON_GetArraySize j → valid_key j (fmt_d (i + 1)).
Proof. intros [_ Hg] Hi Hlt. apply Hg. unfold u8_ok in Hi. lia. Qed.

Lemma select_track_run j w : json (sys w) = Some j → u8_ok (indexx (sys w)) →
  valid_key j (fmt_d (indexx (sys w) + 1)) →
  ∃ name w', track_name j (fmt_d (indexx (sys w) + 1)) = Some name ∧
    select_track w = Ok (audio_path name [], w') ∧ sys w' = sys w ∧ fs w' = fs w ∧ led w' = led w ∧
    headerData (plr w') = headerData (plr w) ∧ audioIndex (plr w') = fmt_d (indexx (sys w) + 1) ∧ hist w' = hist w.
Proof.
  intros Hj Hi (name & Hn & Hl). pose proof (length_key _ Hi) as Hk. exists name.
  set (w1 := update plr (set audioIndex (fmt_d (indexx (sys w) + 1))) w).
  eexists. split; [done|]. unfold select_track. rewrite (bind_run _ _ w (indexx (sys w)) w eq_refl).
  rewrite sprintf_short by lia. rewrite (bind_run _ _ w (fmt_d (indexx (sys w) + 1)) w eq_refl).
  rewrite (bind_run (put_plr audioIndex _) _ w () w1 eq_refl).
  rewrite (bind_run _ _ _ _ _ (item_string_run _ j name w1 Hj Hn)).
  rewrite !sprintf_short by (rewrite ?length_audio_path; simpl; lia). by split.
Qed.

(** *** Each state that reads the content *)

Lemma expect_total : total expect_response.
Proof. total. Qed.

Lemma READ_AUDIO_HEADER_runs j w : json (sys w) = Some j → good_playlist j → u8_ok (indexx (sys w)) →
  indexx (sys w) < cJSON_GetArraySize j → good_card w → ∃ w', case_READ_AUDIO_HEADER w = Ok ((), w').
Proof.
  intros Hj Hg Hi Hlt Hcard. destruct (current_key j (indexx (sys w))) as (name & Hn & Hl); [done..|].
  pose proof (length_key _ Hi) as Hk.
  assert (∃ w1, readHeader w = Ok ((), w1)) as [w1 Hr].
  { unfold readHeader. rewrite (bind_run _ _ w (indexx (sys w)) w eq_refl).
    rewrite sprintf_short by lia. rewrite (bind_run _ _ w (fmt_d (indexx (sys w) + 1)) w eq_refl).
    rewrite (bind_run _ _ _ _ _ (item_string_run _ j name w Hj Hn)).
    rewrite sprintf_short by (rewrite length_audio_path; simpl; lia).
    rewrite (bind_run _ _ w (audio_path name []) w eq_refl). unfold fopen_r, bind, gets.
    destruct (files (fs w) !! audio_path name []) as [c|] eqn:Hf; [|by eexists].
    destruct (Hcard _ _ Hf) as (_ & _ & Hh). destruct (Hh name eq_refl (headerData (plr w))) as [h' Hp'].
    cbv [get_plr gets]. rewrite Hp'. by eexists. }
  unfold case_READ_AUDIO_HEADER. rewrite (bind_run _ _ _ _ _ Hr). cbv [bind get_plr gets].
  repeat case_bool_decide; unfold setState; simpl; by eexists.
Qed.

(** An index beyond the playlist is a fault. *)
Lemma missing_track_faults j w : json (sys w) = Some j → u8_ok (indexx (sys w)) →
  cJSON_GetObjectItem j (fmt_d (indexx (sys w) + 1)) = 0 → case_READ_AUDIO_HEADER w = Fault NullDeref.
Proof.
  intros Hj Hi Hn. pose proof (length_key _ Hi) as Hk.
  assert (readHeader w = Fault NullDeref) as Hr.
  { unfold readHeader. rewrite (bind_run _ _ w (indexx (sys w)) w eq_refl).
    rewrite sprintf_short by lia. rewrite (bind_run _ _ w (fmt_d (indexx (sys w) + 1)) w eq_refl).
    unfold item_string, bind, get_sys, gets. rewrite Hj. cbn [lift from_option_res].
    by rewrite Hn, bool_decide_true. }
  unfold case_READ_AUDIO_HEADER, bind at 1. by rewrite Hr.
Qed.

(** The key of the question that is asked. *)
Lemma answer_runs suffix j w : json (sys w) = Some j → valid_key j (audioIndex (plr w)) → (length suffix ≤ 1)%nat →
  ∃ loc w', answer_location suffix w = Ok (loc, w').
Proof.
  intros Hj (name & Hn & Hl) Hs. unfold answer_location.
  rewrite (bind_run _ _ w (audioIndex (plr w)) w eq_refl).
  rewrite (bind_run _ _ _ _ _ (item_string_run _ j name w Hj Hn)).
  rewrite sprintf_short by (rewrite length_audio_path; lia). by eexists _, _.
Qed.

Lemma CORRECT_ANS_runs j w : json (sys w) = Some j → valid_key j (audioIndex (plr w)) →
  ∃ w', case_CORRECT_ANS w = Ok ((), w').
Proof.
  intros Hj Hk. destruct (answer_runs (lit "C") j w) as (loc & w1 & Hr); [done|done|by vm_compute; lia|].
  unfold case_CORRECT_ANS. rewrite (bind_run _ _ _ _ _ Hr).
  match goal with |- ∃ w', ?m w1 = _ => assert (total m) as Ht by (pose proof play_total; total) end.
  destruct (Ht w1) as ([] & w2 & Hr2). by exists w2.
Qed.

Lemma INCORRECT_ANS_runs j w : json (sys w) = Some j → valid_key j (audioIndex (plr w)) →
  ∃ w', case_INCORRECT_ANS_TRY1 w = Ok ((), w').
Proof.
  intros Hj Hk. unfold case_INCORRECT_ANS_TRY1. destruct (expect_total w) as ([] & w0 & Hr0).
  rewrite (bind_run _ _ _ _ _ Hr0).
  assert (keeps list_ctx expect_response) as Hctx by keeps. specialize (Hctx _ _ _ Hr0). injection Hctx as _ Ej _ Ek.
  destruct (answer_runs (lit "W") j w0) as (loc & w1 & Hr); [congruence|congruence|by vm_compute; lia|].
  rewrite (bind_run _ _ _ _ _ Hr).
  match goal with |- ∃ w', ?m w1 = _ => assert (total m) as Ht by (pose proof play_total; total) end.
  destruct (Ht w1) as ([] & w2 & Hr2). by exists w2.
Qed.

(** A step that returns, leaves the playlist alone and plays nothing. *)
Lemma step_start {A} (m : FW A) (k : A → FW ()) (Q : world → Prop) w : total m →
  keeps (λ w, (list_ctx w, played (hist w))) m →
  (∀ a w1, list_ctx w1 = list_ctx w → played (hist w1) = played (hist w) → ∃ w', k a w1 = Ok ((), w') ∧ Q w') →
  ∃ w', (a ← m; k a) w = Ok ((), w') ∧ Q w'.
Proof.
  intros Ht Hk Hgo. destruct (Ht w) as (a & w1 & Hr). rewrite (bind_run _ _ _ _ _ Hr).
  specialize (Hk _ _ _ Hr). apply Hgo; [apply (f_equal fst Hk)|apply (f_equal snd Hk)].
Qed.

(** The three kinds of tracks, from the selection on. *)
Definition track_started (j : Z) (st : system_states_et) (w w' : world) : Prop :=
  files (fs w') = files (fs w) ∧ json (sys w') = json (sys w) ∧ indexx (sys w') = indexx (sys w) ∧
  audioIndex (plr w') = fmt_d (indexx (sys w) + 1) ∧ control w' = (SYS_WAIT_FOR_PLAYER, st) ∧
  ∃ name, track_name j (fmt_d (indexx (sys w) + 1)) = Some name ∧ played (hist w') = audio_path name [] :: played (hist w).

Lemma track_runs j st w w0 : list_ctx w0 = list_ctx w → played (hist w0) = played (hist w) →
  json (sys w) = Some j → u8_ok (indexx (sys w)) → valid_key j (fmt_d (indexx (sys w) + 1)) →
  ∃ w', (loc ← select_track; play_then loc st) w0 = Ok ((), w') ∧ track_started j st w w'.
Proof.
  intros [= Ef Ej Ei _] Ep Hj Hi Hv.
  destruct (select_track_run j w0) as (name & w1 & Hn & Hr1 & Es1 & Ef1 & _ & _ & Ek1 & Eh1); [congruence..|].
  rewrite (bind_run _ _ _ _ _ Hr1). destruct (play_run (audio_path name []) w1) as (w2 & Hr2 & Es2 & Ef2 & _).
  pose proof (play_ctx _ _ _ _ Hr2) as Hctx2. injection Hctx2 as _ Ej2 Ei2 Ek2.
  unfold play_then. rewrite (bind_run _ _ _ _ _ Hr2). eexists. split; [reflexivity|].
  unfold track_started. simpl. rewrite Ef2, Ef1, Ej2, Ei2, Ek2, Ek1, Es1, <-Ei. split_and!; [done..|].
  exists name. split; [done|]. by rewrite (play_uri _ _ _ Hr2), Eh1, Ep.
Qed.

Lemma track_case_runs j w : json (sys w) = Some j → u8_ok (indexx (sys w)) →
  valid_key j (fmt_d (indexx (sys w) + 1)) →
  (∃ w', case_PLAY_NORMAL_AUDIO w = Ok ((), w') ∧ track_started j SYS_PLAY_NEXT w w') ∧
  (∃ w', case_PLAY_QNA w = Ok ((), w') ∧ track_started j SYS_WAIT_QNA_RESP w w') ∧
  (∃ w', case_PLAY_ACTIVITY w = Ok ((), w') ∧ track_started j SYS_WAIT_ACTIVITY_RESP w w').
Proof.
  intros Hj Hi Hv. split_and!.
  - by apply (track_runs j).
  - unfold case_PLAY_QNA. repeat (apply step_start; [total|keeps|intros ? ? ? ?]). apply (track_runs j); [congruence..|done|done|done].
  - unfold case_PLAY_ACTIVITY. repeat (apply step_start; [total|keeps|intros ? ? ? ?]). apply (track_runs j); [congruence..|done|done|done].
Qed.

(** What a state that moves in the playlist, or loads it, leaves behind. *)
Definition moved (w w' : world) : Prop :=
  files (fs w') = files (fs w) ∧ playing w'.

Lemma moved_intro j w w1 w' : good_playlist j → json (sys w1) = Some j → files (fs w1) = files (fs w) →
  rest w' = rest w1 → fs w' = fs w1 → (∀ key, list_ok j (indexx (sys w1)) key (control w')) → moved w w'.
Proof.
  intros Hg Hj Hf Hre Hf' Hok. split; [by rewrite Hf'|]. exists j.
  assert (json (sys w') = json (sys w1)) as -> by (by apply (f_equal json) in Hre).
  assert (indexx (sys w') = indexx (sys w1)) as -> by (by apply (f_equal indexx) in Hre).
  by split_and!.
Qed.

Lemma gate_ok j i key bat chg tone back : i < cJSON_GetArraySize j → list_ok j i key (gate_control bat chg tone back).
Proof. intros. unfold gate_control. repeat case_bool_decide; simpl; try case_match; by split; intros. Qed.

Lemma PLAY_NEXT_runs bat chg j w : json (sys w) = Some j → good_playlist j →
  ∃ w', case_PLAY_NEXT bat chg w = Ok ((), w') ∧ moved w w'.
Proof.
  intros Hj Hg. unfold case_PLAY_NEXT. destruct (SkipCurrentAudio_run w) as [h Hr].
  rewrite (bind_run _ _ _ _ _ Hr). set (w0 := update hist (λ _, h) w).
  set (w1 := update sys (set indexx (u8 (indexx (sys w) + 1))) w0).
  rewrite (bind_run (get_sys indexx) _ w0 (indexx (sys w)) w0 eq_refl), (bind_run (put_sys indexx _) _ w0 () w1 eq_refl).
  rewrite (bind_run (get_sys indexx) _ w1 (u8 (indexx (sys w) + 1)) w1 eq_refl).
  rewrite (bind_run playlist _ w1 j w1) by (unfold playlist; cbv [bind get_sys gets]; simpl; by rewrite Hj).
  case_bool_decide as Hend.
  - destruct (setState_spec SYS_PLAYING_COMPLETE w1) as (w2 & Hr2 & Hc & Hre & Hf & Hp).
    exists w2. split; [exact Hr2|]. apply (moved_intro j w w1); try done. intros key. rewrite Hc. by split.
  - destruct (battery_gate_run bat chg w1) as (w2 & Hr2 & Hre & Hf & Hc).
    exists w2. split; [exact Hr2|]. apply (moved_intro j w w1); try done. intros key. rewrite Hc.
    apply gate_ok. simpl. lia.
Qed.

Lemma PLAY_PREVIOUS_runs j w : json (sys w) = Some j → good_playlist j → 
  indexx (sys w) <= cJSON_GetArraySize j → ∃ w', case_PLAY_PREVIOUS w = Ok ((), w') ∧ moved w w'.
Proof.
  intros Hj Hg Hle. unfold case_PLAY_PREVIOUS. destruct (SkipCurrentAudio_run w) as [h Hr].
  rewrite (bind_run _ _ _ _ _ Hr). set (w0 := update hist (λ _, h) w).
  rewrite (bind_run (get_sys indexx) _ w0 (indexx (sys w)) w0 eq_refl).
  set (i := if bool_decide (0 < indexx (sys w)) then indexx (sys w) - 1 else indexx (sys w)).
  set (w1 := update sys (set indexx i) w0).
  rewrite (bind_run _ _ w0 () w1).
  2: { unfold w1, i. case_bool_decide; [done|]. by destruct w as [? ? ? ? [] ? ? ? ? ?]. }
  destruct (setState_spec SYS_READ_AUDIO_HEADER w1) as (w2 & Hr2 & Hc & Hre & Hf & _).
  exists w2. split; [exact Hr2|]. apply (moved_intro j w w1); try done. intros key. rewrite Hc.
  destruct Hg as [Hpos _]. split; simpl; try done. intros _. subst i. case_bool_decide; lia.
Qed.

(** *** The direction of the toy *)

Definition list_control (w : world) := (list_ctx w, control w).

Lemma length_toy_file t name : length (toy_file t name) = (28 + length t + length name)%nat.
Proof. unfold toy_file. rewrite !length_app. cbn. lia. Qed.

Lemma lift_run {A B} (r : res A) (a : A) (k : A → FW B) w : r = Ok a → (x ← lift r; k x) w = k a w.
Proof. by intros ->. Qed.

(** Colours that can be read, or none, are read. *)
Lemma read_theme_total w :
  (∀ c, files (fs w) !! toy_file (toy (sys w)) (lit "colourTheme") = Some c → good_theme c) →
  (length (toy (sys w)) < 20)%nat → length (themeColor (sys w)) = 3%nat → ∃ w', read_theme w = Ok ((), w').
Proof.
  intros Hth Ht Hc. unfold read_theme. rewrite (bind_run _ _ w (toy (sys w)) w eq_refl).
  rewrite (lift_run _ (toy_file (toy (sys w)) (lit "colourTheme"))) by (apply sprintf_short; rewrite length_toy_file; cbn; lia).
  unfold bind at 1, fopen_r, gets. destruct (files (fs w) !! _) as [c|] eqn:Hf; [|by eexists].
  change (Some c ≫= fgets 16) with (fgets 16 c).
  destruct (fgets 16 c) as [[line rest']|] eqn:Hl; [|by eexists].
  unfold bind at 1, get_sys, gets. destruct (themeColor (sys w)) as [|r [|g [|b [|]]]]; try done.
  destruct (Hth _ eq_refl line rest' (r, g, b) Hl) as [[[r' g'] b'] Hs]. rewrite (lift_run _ _ _ _ Hs). by eexists.
Qed.

Lemma read_theme_runs w : good_card w → (length (toy (sys w)) < 20)%nat → length (themeColor (sys w)) = 3%nat →
  ∃ w', read_theme w = Ok ((), w') ∧ list_control w' = list_control w.
Proof.
  intros Hcard Ht Hc. assert (keeps list_control read_theme) as Hk by keeps.
  destruct (read_theme_total w) as [w' Hr]; [|done..|exists w'; split; [done|by eapply Hk]].
  intros c Hf. by destruct (Hcard _ _ Hf) as (_ & Hth & _); eapply Hth.
Qed.

Lemma moved_trans w w1 w2 : moved w w1 → list_control w2 = list_control w1 → moved w w2.
Proof.
  intros [Hf (j & Hj & Hg & Hok)] [= Ef Ej Ei Ek Es Eb]. split; [congruence|]. exists j.
  unfold control in *. by rewrite Ej, Ei, Ek, Es, Eb.
Qed.

Lemma length_direction d name : direction_name d = Some name → (length name ≤ 5)%nat.
Proof. unfold direction_name. repeat case_bool_decide; intros [= <-]; vm_compute; lia. Qed.

(** The playlist of the side the toy faces is on the card. *)
Definition list_on_card (w : world) : Prop :=
  ∃ dir content, direction_name (turnTable (sys w)) = Some dir ∧ files (fs w) !! toy_file (toy (sys w)) dir = Some content.

Lemma GET_DIRECTION_runs bat chg w : good_card w → playing w ∨ list_on_card w →
  (length (toy (sys w)) < 20)%nat → length (themeColor (sys w)) = 3%nat → state (sys w) = SYS_GET_DIRECTION →
  ∃ w', case_GET_DIRECTION bat chg w = Ok ((), w') ∧ moved w w'.
Proof.
  intros Hcard Hp Ht Hth Hst. unfold case_GET_DIRECTION.
  rewrite (bind_run _ _ w (turnTable (sys w)) w eq_refl).
  set (w1 := update sys (set turnTable (turnTable (sys w))) w). rewrite (bind_run (put_sys turnTable _) _ w () w1 eq_refl).
  destruct (direction_name (turnTable (sys w))) as [direction|] eqn:Hd.
  2: { destruct Hp as [(j & Hj & Hg & Hok)|(? & ? & ? & ?)]; [|congruence].
       destruct (setState_spec SYS_ERROR w1) as (w2 & Hr2 & Hc & Hre & Hf & _). exists w2. split; [exact Hr2|].
       apply (moved_intro j w w1); try done. intros key. rewrite Hc. by split. }
  rewrite (bind_run _ _ w1 (toy (sys w)) w1 eq_refl).
  pose proof (length_direction _ _ Hd). rewrite (lift_run _ (toy_file (toy (sys w)) direction)) by (apply sprintf_short; rewrite length_toy_file; lia).
  rewrite (bind_run _ _ w1 (files (fs w) !! toy_file (toy (sys w)) direction) w1 eq_refl).
  assert (∃ w2, (match files (fs w) !! toy_file (toy (sys w)) direction with
     | Some content =>
         put_sys json (Some (cJSON_Parse (until_nul (take 1023 content))));; put_sys indexx 0;; battery_gate bat chg
     | None => setState SYS_DOWNLOAD_WIFI_CONN
     end) w1 = Ok ((), w2) ∧ moved w w2 ∧ fs w2 = fs w ∧ toy (sys w2) = toy (sys w) ∧ themeColor (sys w2) = themeColor (sys w))
    as (w2 & Hr2 & Hm & Hf2 & Ety & Eth).
  { destruct (files (fs w) !! toy_file (toy (sys w)) direction) as [c|] eqn:Hf.
    - destruct (Hcard _ _ Hf) as (Hgl & _ & _). specialize (Hgl _ _ _ Hd eq_refl). unfold good_list_file in Hgl.
      set (j' := cJSON_Parse _) in *. set (w3 := update sys (set indexx 0) (update sys (set json (Some j')) w1)).
      destruct (battery_gate_run bat chg w3) as (w2 & Hr2 & Hre & Hf2 & Hc).
      exists w2. split; [exact Hr2|]. split; [|split; [by rewrite Hf2|]].
      + apply (moved_intro j' w w3); try done. intros key. rewrite Hc. apply gate_ok, Hgl.
      + split; [by apply (f_equal toy) in Hre|by apply (f_equal themeColor) in Hre].
    - destruct Hp as [(j & Hj & Hg & Hok)|(? & ? & ? & ?)]; [|congruence].
      destruct (setState_spec SYS_DOWNLOAD_WIFI_CONN w1) as (w2 & Hr2 & Hc & Hre & Hf2 & _).
      exists w2. split; [exact Hr2|]. split; [|split; [by rewrite Hf2|]].
      + apply (moved_intro j w w1); try done. intros key. rewrite Hc. by split.
      + split; [by apply (f_equal toy) in Hre|by apply (f_equal themeColor) in Hre]. }
  rewrite (bind_run _ _ _ _ _ Hr2).
  destruct (read_theme_runs w2) as (w4 & Hr4 & Hlc); [|by rewrite Ety|by rewrite Eth|].
  - intros p c. rewrite Hf2. apply Hcard.
  - exists w4. split; [exact Hr4|]. by eapply moved_trans.
Qed.

(** *** One turn *)

(** A case that starts a track, and one that only goes on in the control. *)
Lemma track_moved j st w w' : sound_state st = true → json (sys w) = Some j → good_playlist j → u8_ok (indexx (sys w)) →
  indexx (sys w) < cJSON_GetArraySize j → track_started j st w w' → moved w w'.
Proof.
  intros Hst Hj Hg Hi Hlt (Hf & Ej & _ & Hk & Hc & _). split; [done|]. exists j. rewrite Ej, Hc. split_and!; [done..|].
  split; try done. intros _. rewrite Hk. by apply current_key.
Qed.

Lemma graph_moved j w w' : json (sys w) = Some j → good_playlist j →
  list_ok j (indexx (sys w)) (audioIndex (plr w)) (control w) → list_ctx w' = list_ctx w →
  Forall (target_ok j (indexx (sys w)) (audioIndex (plr w))) (successors (state (sys w)) (playerGoBackToState (sys w))) →
  handler w = Ok ((), w') → moved w w'.
Proof.
  intros Hj Hg Hok [= Ef Ej Ei Ek] HF Hr. split; [done|]. exists j. rewrite Ej, Ei, Ek. split_and!; [done..|].
  eapply list_ok_target; [exact Hok|exact HF|]. by eapply handler_leads.
Qed.

Lemma playing_turn w : layout w → good_card w → playing w → networking (state (sys w)) = false →
  ∃ w', handler w = Ok ((), w') ∧ moved w w'.
Proof.
  intros Hlay Hcard Hp Hn. pose proof Hp as (j & Hj & Hg & Hok).
  destruct Hlay as (_ & _ & Hs & _). destruct Hs as [Hty _ _ _ _ _ _ _ _ _ _ _ Hth Hi _ _].
  destruct (plain_state (state (sys w))) eqn:Hplain; [destruct (decide (state (sys w) = SYS_PLAY_PREVIOUS)) as [Hst|Hst]|].
  - handler_at Hst. apply (PLAY_PREVIOUS_runs j); try done. by apply Hok.
  - destruct (handler_runs w Hty Hplain) as [w' Hr]. exists w'. split; [done|].
    apply (graph_moved j); try done; [by eapply plain_ctx|].
    destruct Hok as [Hi1 Hi2 Hk Hb]. unfold control in *. simpl in *.
    destruct (state (sys w)) eqn:E; try done; unfold successors;
      repeat first [apply list.Forall_nil | apply Forall_cons_2]; simpl; split_and?; try done; try (by intros _; apply Hk).
    all: specialize (Hb eq_refl); destruct (playerGoBackToState (sys w)); done || (by intros _; apply Hk).
  - assert (∀ st, state (sys w) = st → in_track st = true → indexx (sys w) < cJSON_GetArraySize j) as Htrack.
    { intros st E Hin. apply (ok_index _ _ _ _ Hok). unfold control. by rewrite E. }
    assert (∀ st, state (sys w) = st → answering (st, playerGoBackToState (sys w)) = true → valid_key j (audioIndex (plr w))) as Hkey.
    { intros st E Ha. apply (ok_key _ _ _ _ Hok). unfold control. by rewrite E. }
    assert (∀ m, (∃ w', m w = Ok ((), w')) → handler w = m w → keeps list_ctx m → Forall (target_ok j (indexx (sys w))
      (audioIndex (plr w))) (successors (state (sys w)) (playerGoBackToState (sys w))) → ∃ w', handler w = Ok ((), w') ∧ moved w w')
      as Hgraph.
    { intros m [w' Hr] E Hk HF. exists w'. rewrite E. split; [done|]. apply (graph_moved j); try done; [by eapply Hk|by rewrite E]. }
    destruct (state (sys w)) eqn:Hst; try done.
    + handler_at Hst. by apply (PLAY_NEXT_runs _ _ j).
    + handler_at Hst. apply GET_DIRECTION_runs; try done. by left.
    + apply (Hgraph case_READ_AUDIO_HEADER); [apply (READ_AUDIO_HEADER_runs j); try done; exact (Htrack _ eq_refl eq_refl)|by handler_at Hst|keeps|].
      specialize (Htrack _ eq_refl eq_refl). by repeat constructor.
    + handler_at Hst. destruct (track_case_runs j w) as (_ & _ & (w' & Hr & Hs)); [done|done|by apply current_key, (Htrack _ eq_refl)|]. exists w'. split; [done|]. by refine (track_moved j _ _ _ _ Hj Hg Hi (Htrack _ eq_refl eq_refl) Hs).
    + handler_at Hst. destruct (track_case_runs j w) as (_ & (w' & Hr & Hs) & _); [done|done|by apply current_key, (Htrack _ eq_refl)|]. exists w'. split; [done|]. by refine (track_moved j _ _ _ _ Hj Hg Hi (Htrack _ eq_refl eq_refl) Hs).
    + apply (Hgraph case_INCORRECT_ANS_TRY1); [apply (INCORRECT_ANS_runs j); [done|exact (Hkey _ eq_refl eq_refl)]|by handler_at Hst|keeps|].
      specialize (Hkey _ eq_refl eq_refl). by repeat constructor.
    + apply (Hgraph case_CORRECT_ANS); [apply (CORRECT_ANS_runs j); [done|exact (Hkey _ eq_refl eq_refl)]|by handler_at Hst|keeps|].
      by repeat constructor.
    + handler_at Hst. destruct (track_case_runs j w) as ((w' & Hr & Hs) & _); [done|done|by apply current_key, (Htrack _ eq_refl)|]. exists w'. split; [done|]. by refine (track_moved j _ _ _ _ Hj Hg Hi (Htrack _ eq_refl eq_refl) Hs).
Qed.

End turns.


(** ** The other tasks and the callbacks *)

Section events_playback.
Context `{Env} `{CJSON} (float_text : Z → bytes).

(** Only files under /sdcard/data/ are written: none that playback reads. *)
Definition in_data (path : bytes) : bool := bool_decide (take 13 path = lit "/sdcard/data/").

Lemma good_file_data path content : in_data path = true → good_file path content.
Proof.
  intros Hd%bool_decide_eq_true. apply (f_equal (.!! 8%nat)) in Hd. rewrite lookup_take_lt in Hd by lia.
  by split_and!; [intros t d dir _ ->|intros t ->|intros name ->].
Qed.

Lemma fopen_w_good path : in_data path = true → preserves good_card (fopen_w path).
Proof.
  intros Hd. unfold fopen_w. pres_read. apply preserves_bind; [|intros ?; apply preserves_ret].
  apply preserves_when, preserves_modify. intros w Hw p c. simpl. intros [[<- _]|[_ Hc]]%lookup_insert_Some.
  - by apply good_file_data.
  - by apply Hw.
Qed.

Lemma fappend_good path data : in_data path = true → preserves good_card (fappend path data).
Proof.
  intros Hd. apply preserves_modify. intros w Hw p c. simpl. intros [(<- & _ & _)|[_ Hc]]%lookup_alter_Some.
  - by apply good_file_data.
  - by apply Hw.
Qed.
#[local] Hint Extern 0 (preserves good_card (fopen_w _)) => apply fopen_w_good; reflexivity : pres.
#[local] Hint Extern 0 (preserves good_card (fappend _ _)) => apply fappend_good; reflexivity : pres.

(** What playback remembers between its turns. *)
Definition list_obs (w : world) := (json (sys w), indexx (sys w), audioIndex (plr w), played (hist w)).

Ltac card_leaf := apply preserves_modify; let w := fresh "w" in intros w Hw; exact Hw.
Ltac card := pres card_leaf.

(** The serial line. *)
Lemma EnableTxRx_list tx rx : keeps list_obs (EnableTxRx tx rx).
Proof. apply keeps_skip. Qed.
Lemma TransmitChar_list b : keeps list_obs (TransmitChar b).
Proof. change (keeps list_obs (IotQbusSendByte b)). keeps. Qed.
Lemma ReadRegCb_list a l d : keeps list_obs (ReadRegCb a l d).
Proof. change (keeps list_obs (QbusRegReadCb a l d)). keeps. Qed.
Lemma WriteRegCb_list a l d : keeps list_obs (WriteRegCb a l d).
Proof. change (keeps list_obs (QbusRegWriteCb a l d)). unfold QbusRegWriteCb. keeps. Qed.
#[local] Hint Resolve EnableTxRx_list TransmitChar_list ReadRegCb_list WriteRegCb_list : keeps.
Lemma tx_loop_list n : keeps list_obs (tx_loop n).
Proof. induction n; cbn [tx_loop]; keeps. Qed.
Lemma QBSlaveSetState_list s : keeps list_obs (QBSlaveSetState s).
Proof. destruct s; keeps. Qed.
Lemma append_checksum_list : keeps list_obs append_checksum.
Proof. keeps. Qed.
Lemma notify_list text : keeps list_obs (notify text).
Proof. keeps. Qed.
#[local] Hint Resolve tx_loop_list QBSlaveSetState_list append_checksum_list notify_list : keeps.
Lemma QBSlavePortTxEmptyIsr_list : keeps list_obs QBSlavePortTxEmptyIsr.
Proof. keeps. Qed.
Lemma QBSlaveValidateFrame_list : keeps list_obs QBSlaveValidateFrame.
Proof. keeps. Qed.
Lemma process_tag_list buf : keeps list_obs (process_tag buf).
Proof. unfold process_tag. keeps. Qed.
#[local] Hint Resolve QBSlavePortTxEmptyIsr_list QBSlaveValidateFrame_list process_tag_list : keeps.
Lemma QBSlaveProcessFrame_list : keeps list_obs QBSlaveProcessFrame.
Proof. unfold QBSlaveProcessFrame, dispatch_frame. keeps. Qed.
#[local] Hint Resolve QBSlaveProcessFrame_list : keeps.

Lemma EnableTxRx_card tx rx : preserves good_card (EnableTxRx tx rx).
Proof. apply preserves_skip. Qed.
Lemma TransmitChar_card b : preserves good_card (TransmitChar b).
Proof. change (preserves good_card (IotQbusSendByte b)). card. Qed.
Lemma ReadRegCb_card a l d : preserves good_card (ReadRegCb a l d).
Proof. change (preserves good_card (QbusRegReadCb a l d)). card. Qed.
Lemma WriteRegCb_card a l d : preserves good_card (WriteRegCb a l d).
Proof. change (preserves good_card (QbusRegWriteCb a l d)). unfold QbusRegWriteCb. card. Qed.
#[local] Hint Resolve EnableTxRx_card TransmitChar_card ReadRegCb_card WriteRegCb_card : pres.
Lemma tx_loop_card n : preserves good_card (tx_loop n).
Proof. induction n; cbn [tx_loop]; card. Qed.
#[local] Hint Resolve tx_loop_card : pres.

Lemma event_turn_list m : event_turn float_text m → keeps list_obs m.
Proof.
  intros []; [| | | | |by destruct e; keeps|].
  - unfold QbusTask_turn, QbusHandler, QBSlavePoll. keeps.
  - destruct e; keeps.
  - keeps.
  - unfold onWrite. keeps.
  - keeps.
  - unfold main_rest. keeps.
Qed.

Lemma event_turn_card m : event_turn float_text m → preserves good_card m.
Proof.
  intros []; [| | | | |by destruct e; card|].
  - card.
  - destruct e; card.
  - unfold onRead, read_text. card.
  - card.
  - card.
  - unfold main_rest. card.
Qed.

End events_playback.

(** ** Properties *)

Section playback_properties.
Context `{Env} `{CJSON} (float_text : Z → bytes).

(** The key "previous" is taken only where the index is not beyond the
    playlist, and the network is not used. *)
Definition play_step (a b : world) : Prop :=
  step float_text a b ∧ networking (state (sys a)) = false ∧
  (state (sys b) = SYS_PLAY_PREVIOUS → ∃ j, json (sys a) = Some j ∧ indexx (sys a) <= cJSON_GetArraySize j).

Definition ready_to_play (w : world) : Prop := layout w ∧ good_card w ∧ playing w.

Lemma ready_step a b : ready_to_play a → play_step a b → ready_to_play b.
Proof.
  intros (Hl & Hc & Hp) (Hs & Hn & Hprev). split; [by eapply layout_steps, rtc_once|]. destruct Hs as [Hr|m Hm Hr].
  - destruct (playing_turn a) as (w1 & Hr1 & Hf & Hp1); [done..|].
    unfold SystemTask_turn in Hr. rewrite (bind_run _ _ _ _ _ Hr1) in Hr. injection Hr as <-. split; [|exact Hp1].
    intros p c. simpl. rewrite Hf. apply Hc.
  - split; [by eapply (preserves_elim good_card m); [apply (event_turn_card float_text)|..]|].
    destruct Hp as (j & Hj & Hg & Hok). destruct (event_turn_event float_text m Hm) as [_ Hlead].
    pose proof (event_turn_list float_text m Hm _ _ _ Hr) as [= Ej Ei Ek _]. exists j. rewrite Ej, Ei, Ek. split_and!; [done..|].
    destruct (decide (state (sys b) = SYS_PLAY_PREVIOUS)) as [Hb|Hb].
    + destruct (Hprev Hb) as (j' & Hj' & Hi). assert (j' = j) as -> by congruence.
      split; unfold control; simpl; rewrite Hb; done.
    + eapply (list_ok_target _ _ _ [To SYS_IDLE; To SYS_PLAY_NEXT; To SYS_INIT_WIFI_CHECK; To SYS_INIT_USER_ID_CHECK]);
        [exact Hok|by repeat constructor|].
      destruct (Hlead _ _ _ Hr) as [E|(t & Ht & Hat)]; [by left|right]. exists t. split; [|done].
      unfold event_targets in Ht. rewrite !elem_of_cons in *. destruct Ht as [->|[->|[->|Ht]]]; [tauto..|by destruct Hat|tauto].
Qed.

Lemma ready_steps a b : ready_to_play a → rtc play_step a b → ready_to_play b.
Proof. intros Ha Hr. induction Hr as [|? ? ? Hs _ IH]; [done|]. apply IH. by eapply ready_step. Qed.

Lemma ready_turn w : ready_to_play w → networking (state (sys w)) = false → ∃ w', SystemTask_turn w = Ok ((), w').
Proof.
  intros (Hl & Hc & Hp) Hn. destruct (playing_turn w) as (w1 & Hr & _); [done..|].
  unfold SystemTask_turn. rewrite (bind_run _ _ _ _ _ Hr). by eexists.
Qed.

(** C5 (playing never faults).  On a card whose playlists name their tracks and
    whose headers and colours can be read, the turn that opens the playlist
    of the side the toy faces returns, and from then on so does every turn of
    the state machine outside the network, in any order of the turns of the
    tasks and the callbacks: playing, skipping, asking questions, battery,
    shutdown, toys that come and go.  (Where the player's listen times out,
    the message is read all the same, whatever it holds.)  The one thing asked of the
    user is not to press "previous" beyond the end of the playlist. *)
Theorem playback_never_faults (w0 : world) (Hl : layout w0) (Hc : good_card w0)
    (Hst : state (sys w0) = SYS_GET_DIRECTION) (Hlist : list_on_card w0) :
  ∃ w1, SystemTask_turn w0 = Ok ((), w1) ∧
    ∀ w, rtc play_step w1 w → networking (state (sys w)) = false → ∃ w', SystemTask_turn w = Ok ((), w').
Proof.
  destruct (GET_DIRECTION_runs (batteryLevel (sys w0)) (chargingState (sys w0)) w0) as (w1 & Hr & Hf & Hp);
    [done|by right|apply Hl..|done|].
  assert (handler w0 = Ok ((), w1)) as Hr' by (handler_at Hst; exact Hr).
  assert (SystemTask_turn w0 = Ok ((), update hist (vTaskDelay 20 ::.) w1)) as Ht by (unfold SystemTask_turn; by rewrite (bind_run _ _ _ _ _ Hr')).
  exists (update hist (vTaskDelay 20 ::.) w1). split; [exact Ht|]. intros w Hs.
  assert (ready_to_play (update hist (vTaskDelay 20 ::.) w1)) as Hready.
  { split; [|split]; [|intros p c; simpl; rewrite Hf; apply Hc|exact Hp].
    eapply layout_steps; [exact Hl|]. by apply (rtc_once (R := step float_text)), step_system. }
  apply ready_turn. by eapply ready_steps.
Qed.

End playback_properties.

(** ** Witnesses *)

Section playback_witnesses.
#[local] Instance sample_env : Env := Sample.env AEL_STATE_RUNNING.

(** Every file parses to a playlist with the one track "A". *)
#[local] Instance one_track : CJSON := {|
  cJSON_Parse _ := 1;
  cJSON_ParseWithLength _ := 1;
  cJSON_Duplicate j := j;
  cJSON_GetObjectItem j key := if bool_decide (j = 1 ∧ key = lit "1") then 2 else 0;
  cJSON_GetObjectItemCaseSensitive _ _ := 0;
  cJSON_GetArraySize j := if bool_decide (j = 1) then 1 else 0;
  cJSON_GetArrayItem _ _ := 0;
  cJSON_IsString j := bool_decide (j = 2);
  cJSON_IsNumber _ := false;
  cJSON_IsArray _ := false;
  cJSON_IsTrue _ := false;
  valuestring j := if bool_decide (j = 2) then Some (lit "A") else None;
  valueint _ := 0;
|}.

(** The toy A0 with a playlist, colours and a track that asks a question. *)
Definition question : bytes := lit "HEADER_START" ++ [10] ++ lit "T:1" ++ [10] ++ lit "A:0" ++ [10] ++ lit "HEADER_END" ++ [10].
Definition deck_files : gmap bytes bytes :=
  <[audio_path (lit "A") [] := question]>
    (<[toy_file (lit "A0") (lit "colourTheme") := lit "1,2,3"]> {[toy_file (lit "A0") (lit "south") := lit "{}"]}).
Definition deck : world :=
  update sys (λ s, set state SYS_GET_DIRECTION (set toy (lit "A0") (set turnTable eSOUTH (set batteryLevel 40 s))))
    (update fs (update files (λ _, deck_files)) Sample.world0).

Definition play_turn (w : world) : world := match SystemTask_turn w with Ok (_, w') => w' | Fault _ => w end.

Lemma play_step_turn w : is_ok (SystemTask_turn w) = true → networking (state (sys w)) = false →
  bool_decide (state (sys (play_turn w)) = SYS_PLAY_PREVIOUS) = false → play_step fmt_d w (play_turn w).
Proof.
  intros Hok Hn Hp%bool_decide_eq_false. split; [|by split; [|intros ?]].
  apply step_system. unfold play_turn. by destruct (SystemTask_turn w) as [[[] w']|].
Qed.

Lemma deck_card : good_card deck.
Proof.
  assert (good_playlist 1) as Hlist.
  { split; [by vm_compute|]. intros i Hi. assert (i = 0) as -> by (change (cJSON_GetArraySize 1) with 1 in Hi; lia).
    exists (lit "A"). split; [reflexivity|vm_compute; lia]. }
  intros p c Hc. change (deck_files !! p = Some c) in Hc. unfold deck_files in Hc.
  apply lookup_insert_Some in Hc as [[<- <-]|[_ Hc]].
  - split_and!; [intros t d dir _ E|intros t E|intros name _ h; by eexists];
      apply (f_equal (.!! 14%nat)) in E; discriminate E.
  - assert (c = lit "1,2,3" ∨ c = lit "{}") as Hcs.
    { apply lookup_insert_Some in Hc as [[_ <-]|[_ [_ <-]%lookup_singleton_Some]]; auto. }
    split_and!; [intros; exact Hlist| |]; destruct Hcs as [->| ->].
    + intros t _ line rest [[r g] b] [= <- <-]. by eexists.
    + intros t _ line rest [[r g] b] [= <- <-]. by eexists.
    + intros name _ h. by eexists.
    + intros name _ h. by eexists.
Qed.

(** The playlist is opened, the header read, the question asked. *)
Example playback_never_faults_witness :
  let w := play_turn (play_turn (play_turn deck)) in
  state (sys w) = SYS_WAIT_FOR_PLAYER ∧ playerGoBackToState (sys w) = SYS_WAIT_QNA_RESP ∧
  ∃ w', SystemTask_turn w = Ok ((), w').
Proof.
  intros w. split; [vm_compute; reflexivity|]. split; [vm_compute; reflexivity|].
  destruct (playback_never_faults fmt_d deck) as (w1 & Hr & Hgo).
  - destruct layout_start as (? & ? & ? & ? & ? & ? & ?). split_and!; try assumption.
    constructor; first [reflexivity | vm_compute; lia | split; vm_compute; congruence].
  - exact deck_card.
  - reflexivity.
  - exists (lit "south"), (lit "{}"). split; [reflexivity|vm_compute; reflexivity].
  - assert (w1 = play_turn deck) as -> by (unfold play_turn; by rewrite Hr).
    apply Hgo; [|vm_compute; reflexivity].
    eapply rtc_l; [apply play_step_turn; vm_compute; reflexivity|].
    apply rtc_once, play_step_turn; vm_compute; reflexivity.
Defined.
End playback_witnesses.
