(* ===== verification/Tape.v ===== *)
(** * Tape: whatever happens, the box is a tape player

    An abstract machine with a playlist, a position in it and the track whose
    answers may be told, and the theorem that the whole firmware refines it,
    through every interleaving and whatever the card, the servers, the phone
    and the base do: nothing is played but the tones of the box, the tracks of
    the playlist of the side the toy faced, and their answers. *)

From S2P Require Import Prelude CString World TimeSpent Led SystemBase Player QbusSlave IotQbus SdCard Wifi Ble.
From S2P Require Import SystemHandler SystemControl SystemSpec Metadata Tracks Downloader Firmware Layout Safety Playback.
#[local] Open Scope M_scope.

(** ** The abstract machine *)

(** What lies on the pad: the card, the toy and the side it faces. *)
Record pad_st := Pad { pad_card : gmap bytes bytes; pad_toy : bytes; pad_side : Z }.

(** The playlist, if one was opened, the index of the current track, and the
    key of the last track that was started. *)
Record tape_st := TapeSt { on_pad : pad_st; program : option Z; pos : Z; started : bytes }.

Definition tones : list bytes :=
  [STARTUP_TONE_SDCARD_LOCATION; TOY_DETECT_TONE_SDCARD_LOCATION; DOWNLOAD_START_TONE_SDCARD_LOCATION;
   SHUTDOWN_TONE_SDCARD_LOCATION; BAT_LOW_TONE_SDCARD_LOCATION; INVALID_WIFI_CREDS_TONE_SDCARD_LOCATION;
   PLEASE_ENTER_WIFI_CREDS_TONE_SDCARD_LOCATION].
Definition is_tone (file : bytes) : Prop := file ∈ tones.

Section machine.
Context `{CJSON}.

(** A step, and the files it plays, the last one first. *)
Inductive tape_step : tape_st → list bytes → tape_st → Prop :=
  | tape_pad p p' l i k :                                        (* the world around the tape *)
      tape_step (TapeSt p l i k) [] (TapeSt p' l i k)
  | tape_tones p l i k files : Forall is_tone files →            (* tones *)
      tape_step (TapeSt p l i k) files (TapeSt p l i k)
  | tape_open p dir content l i k files :                        (* a playlist, from its start *)
      direction_name (pad_side p) = Some dir → pad_card p !! toy_file (pad_toy p) dir = Some content →
      Forall is_tone files →
      tape_step (TapeSt p l i k) files (TapeSt p (Some (cJSON_Parse (until_nul (take 1023 content)))) 0 k)
  | tape_next p j i k files : Forall is_tone files →             (* one track forward, *)
      tape_step (TapeSt p (Some j) i k) files (TapeSt p (Some j) (u8 (i + 1)) k)
  | tape_previous p l i k :                                      (* one track back *)
      tape_step (TapeSt p l i k) [] (TapeSt p l (if decide (0 < i) then i - 1 else i) k)
  | tape_track p j i k name : track_name j (fmt_d (i + 1)) = Some name →      (* the current track *)
      tape_step (TapeSt p (Some j) i k) [audio_path name []] (TapeSt p (Some j) i (fmt_d (i + 1)))
  | tape_answer p j i k name verdict : verdict ∈ [lit "C"; lit "W"] →         (* its answers *)
      track_name j k = Some name →
      tape_step (TapeSt p (Some j) i k) [audio_path name verdict] (TapeSt p (Some j) i k).

Inductive tape_run : tape_st → list bytes → tape_st → Prop :=
  | tape_here s : tape_run s [] s
  | tape_more s files s1 rest s2 : tape_step s files s1 → tape_run s1 rest s2 → tape_run s (rest ++ files) s2.

End machine.

(** What the firmware's state is for the machine. *)
Definition tape_of (w : world) : tape_st :=
  TapeSt (Pad (files (fs w)) (toy (sys w)) (turnTable (sys w))) (json (sys w)) (indexx (sys w)) (audioIndex (plr w)).

(** ** Lemmas: what an operation plays *)

Definition tape_out (w : world) := (tape_of w, played (hist w)).

(** The operation plays tones only. *)
Definition hums {A} (m : FW A) : Prop :=
  ∀ w a w', m w = Ok (a, w') → ∃ files, played (hist w') = files ++ played (hist w) ∧ Forall is_tone files.

Section hums.

Lemma hums_silent {A} (m : FW A) : keeps (λ w, played (hist w)) m → hums m.
Proof. intros Hm w a w' Hr. exists []. split; [by apply Hm in Hr|done]. Qed.
Lemma hums_bind {A B} (m : FW A) (k : A → FW B) : hums m → (∀ a, hums (k a)) → hums (bind m k).
Proof.
  intros Hm Hk w b w2 (a & w1 & H1 & H2)%bind_Ok. destruct (Hm _ _ _ H1) as (l1 & E1 & F1).
  destruct (Hk _ _ _ _ H2) as (l2 & E2 & F2). exists (l2 ++ l1). split; [by rewrite E2, E1, app_assoc|by apply Forall_app].
Qed.
Lemma hums_when b (m : FW ()) : hums m → hums (when b m).
Proof. destruct b; [done|]. intros _. apply hums_silent, keeps_skip. Qed.
Lemma hums_play tone : is_tone tone → hums (play tone).
Proof. intros Ht w [] w' Hr. exists [tone]. split; [by apply play_uri|by apply Forall_singleton]. Qed.
End hums.

Lemma play_tone_hums `{Env} `{CJSON} tone st : is_tone tone → hums (play_tone tone st).
Proof.
  intros Ht. unfold play_tone. apply hums_bind; [apply hums_silent; keeps|]. intros [content|]; [|apply hums_silent; keeps].
  apply hums_bind; [by apply hums_play|]. intros _. apply hums_silent. keeps.
Qed.

Ltac hums :=
  lazymatch goal with
  | |- hums (play_tone _ _) => apply play_tone_hums; apply (bool_decide_unpack _); vm_compute; exact I
  | |- hums (case_POST _ _) => unfold case_POST; hums
  | |- hums (case_IDLE _ _) => unfold case_IDLE; hums
  | |- hums case_INIT => unfold case_INIT; hums
  | |- hums case_SHUT_ME_DOWN => unfold case_SHUT_ME_DOWN; hums
  | |- hums case_WIFI_CONNECT_ERR => unfold case_WIFI_CONNECT_ERR; hums
  | |- hums case_WIFI_CRED_MISSING_ERR => unfold case_WIFI_CRED_MISSING_ERR; hums
  | |- hums battery_low_tone => unfold battery_low_tone; hums
  | |- hums (battery_gate _ _) => unfold battery_gate; hums
  | |- hums (idle_battery _ _) => unfold idle_battery; hums
  | |- hums idle_toy => unfold idle_toy; hums
  | |- hums (bind _ _) => apply hums_bind; [hums|intros ?; hums]
  | |- hums (when _ _) => apply hums_when; hums
  | |- hums (match ?x with _ => _ end) => destruct x; hums
  | |- hums ?m =>
      first
        [ progress cbv zeta; hums
        | apply hums_silent; solve [keeps]
        | let rec head t := lazymatch t with ?g _ => head g | _ => t end in let h := head m in unfold h; hums ]
  end.

Section turns.
Context `{Env} `{CJSON}.

Lemma play_tape loc : keeps tape_of (play loc).
Proof. keeps. Qed.
#[local] Hint Resolve play_tape : keeps.

Lemma tape_quiet {A} (m : FW A) w a w' : keeps tape_of m → hums m → m w = Ok (a, w') →
  ∃ files, tape_step (tape_of w) files (tape_of w') ∧ played (hist w') = files ++ played (hist w).
Proof.
  intros Hk Hh Hr. destruct (Hh _ _ _ Hr) as (files & E & HF). exists files. split; [|done].
  rewrite (Hk _ _ _ Hr). unfold tape_of. by apply tape_tones.
Qed.

Lemma plain_tape w a w' : plain_state (state (sys w)) = true → state (sys w) ≠ SYS_PLAY_PREVIOUS →
  handler w = Ok (a, w') →
  ∃ files, tape_step (tape_of w) files (tape_of w') ∧ played (hist w') = files ++ played (hist w).
Proof.
  intros Hp Hs. unfold handler, getBatteryLevel, getChargingStatus. cbv [bind get_sys gets].
  destruct (state (sys w)); try done; (apply tape_quiet; [keeps|hums]).
Qed.

(** ** Lemmas: the states that use the playlist *)

(** What one turn from [w] to [w'] is for the machine. *)
Definition tape_turn (w w' : world) : Prop :=
  ∃ files, tape_step (tape_of w) files (tape_of w') ∧ played (hist w') = files ++ played (hist w).

(** What comes before and after changes nothing of it. *)
Lemma tape_turn_out w0 w w' w1 : tape_out w0 = tape_out w → tape_out w1 = tape_out w' → tape_turn w w' → tape_turn w0 w1.
Proof.
  intros Ha Hb (files & Hs & Hp). pose proof (f_equal fst Ha) as E0. pose proof (f_equal snd Ha) as P0.
  pose proof (f_equal fst Hb) as E1. pose proof (f_equal snd Hb) as P1. cbv [tape_out fst snd] in *.
  exists files. by rewrite E0, E1, P0, P1.
Qed.

(** The operation is a step of the machine. *)
Definition tapes (m : FW ()) : Prop := ∀ w w', m w = Ok ((), w') → tape_turn w w'.

Lemma tapes_after {A} (m : FW A) k : keeps tape_out m → (∀ a, tapes (k a)) → tapes (bind m k).
Proof.
  intros Hm Hk w w' (a & w1 & Hr1 & Hr)%bind_Ok.
  apply (tape_turn_out w w1 w' w'); [symmetry; by eapply Hm|done|by eapply Hk].
Qed.

Lemma tapes_before m k : tapes m → keeps tape_out k → tapes (m;; k).
Proof.
  intros Hm Hk w w' ([] & w1 & Hr1 & Hr)%bind_Ok.
  apply (tape_turn_out w w w1 w'); [done|by eapply Hk|by eapply Hm].
Qed.

Lemma item_string_read key w name w' : item_string key w = Ok (name, w') →
  w' = w ∧ ∃ j, json (sys w) = Some j ∧ track_name j key = Some name.
Proof.
  unfold item_string, track_name. cbv [bind get_sys gets lift fail]. destruct (json (sys w)) as [j|]; [|done]. cbn [from_option_res].
  case_bool_decide; [done|]. destruct (valuestring _) as [s|] eqn:E; [|done]. intros [= <- <-].
  split; [done|]. exists j. split; [done|]. by rewrite bool_decide_false.
Qed.

Lemma sprintf_text n text s : sprintf n text = Ok s → s = text.
Proof. unfold sprintf. case_bool_decide; by intros [= <-]. Qed.

Lemma playlist_read w j w' : playlist w = Ok (j, w') → w' = w ∧ json (sys w) = Some j.
Proof. unfold playlist. cbv [bind get_sys gets lift]. by destruct (json (sys w)); intros [= <- <-]. Qed.

Lemma PLAY_NEXT_tape bat chg : tapes (case_PLAY_NEXT bat chg).
Proof.
  apply tapes_after; [keeps|]. intros _ w1 w'.
  set (w2 := update sys (set indexx (u8 (indexx (sys w1) + 1))) w1).
  rewrite (bind_run (get_sys indexx) _ w1 (indexx (sys w1)) w1 eq_refl), (bind_run (put_sys indexx _) _ w1 () w2 eq_refl).
  rewrite (bind_run (get_sys indexx) _ w2 (u8 (indexx (sys w1) + 1)) w2 eq_refl).
  intros (j & w3 & [-> Hj]%playlist_read & Hr)%bind_Ok.
  match type of Hr with ?m w2 = _ => assert (keeps tape_of m ∧ hums m) as [Hk Hh] by (case_bool_decide; split; (keeps || hums)) end.
  destruct (Hh _ _ _ Hr) as (files & Hp & HF). exists files. split; [|exact Hp]. rewrite (Hk _ _ _ Hr).
  unfold tape_of. change (json (sys w2)) with (json (sys w1)) in *. rewrite Hj. by apply tape_next.
Qed.

Lemma PLAY_PREVIOUS_tape : tapes case_PLAY_PREVIOUS.
Proof.
  apply tapes_after; [keeps|]. intros _ w1 w'.
  rewrite (bind_run (get_sys indexx) _ w1 (indexx (sys w1)) w1 eq_refl).
  pose proof (tape_previous (on_pad (tape_of w1)) (json (sys w1)) (indexx (sys w1)) (audioIndex (plr w1))) as Hstep.
  case_bool_decide; [rewrite decide_True in Hstep by done|rewrite decide_False in Hstep by done];
    intros ([] & w2 & [= <-] & Hr)%bind_Ok;
    (assert (keeps tape_out (setState SYS_READ_AUDIO_HEADER)) as Hk by keeps);
    (eapply tape_turn_out; [reflexivity|exact (Hk _ _ _ Hr)|]); exists []; by split.
Qed.

Lemma tapes_around (m : FW ()) : keeps list_obs m → tapes m.
Proof.
  intros Hk w w' Hr. pose proof (Hk _ _ _ Hr) as [= Ej Ei Ek Ep]. exists []. split; [|done].
  unfold tape_of. rewrite Ej, Ei, Ek. apply tape_pad.
Qed.

Lemma select_track_tape w loc w' : select_track w = Ok (loc, w') →
  ∃ j name, json (sys w) = Some j ∧ track_name j (fmt_d (indexx (sys w) + 1)) = Some name ∧ loc = audio_path name [] ∧
    tape_out w' = (TapeSt (on_pad (tape_of w)) (Some j) (indexx (sys w)) (fmt_d (indexx (sys w) + 1)), played (hist w)).
Proof.
  unfold select_track. rewrite (bind_run (get_sys indexx) _ w (indexx (sys w)) w eq_refl).
  intros (key & w1 & Hk & Hr)%bind_Ok. unfold lift in Hk. destruct (sprintf 4 _) as [s|] eqn:Hs; [|done].
  apply sprintf_text in Hs as ->. injection Hk as <- <-. apply bind_Ok in Hr as ([] & w1 & [= <-] & Hr).
  apply bind_Ok in Hr as (name & w1 & [-> (j & Hj & Hn)]%item_string_read & Hr).
  apply bind_Ok in Hr as (loc1 & w1 & Hl & Hr). unfold lift in Hl. destruct (sprintf 100 _) as [s|] eqn:Hs; [|done].
  apply sprintf_text in Hs as ->. injection Hl as <- <-. apply bind_Ok in Hr as ([] & w1 & [= <-] & Hr).
  apply bind_Ok in Hr as (f & w1 & Hf & Hr). unfold lift in Hf. destruct (sprintf 50 _) as [s|] eqn:Hs; [|done].
  injection Hf as <- <-. apply bind_Ok in Hr as ([] & w1 & [= <-] & [= <- <-]).
  exists j, name. split_and!; [exact Hj|exact Hn|done|]. unfold tape_out, tape_of. simpl in *. by rewrite Hj.
Qed.

Lemma play_then_tape loc st w w' : play_then loc st w = Ok ((), w') → tape_out w' = (tape_of w, loc :: played (hist w)).
Proof.
  unfold play_then. intros ([] & w1 & Hp & Hr)%bind_Ok.
  match type of Hr with ?m w1 = _ => assert (keeps tape_out m) as Hk by keeps end.
  rewrite (Hk _ _ _ Hr). unfold tape_out. by rewrite (play_tape _ _ _ _ Hp), (play_uri _ _ _ Hp).
Qed.

Lemma track_tape st : tapes (loc ← select_track; play_then loc st).
Proof.
  intros w w' (loc & w1 & (j & name & Hj & Hn & -> & E1)%select_track_tape & Hr)%bind_Ok.
  pose proof (play_then_tape _ _ _ _ Hr) as E. pose proof (f_equal fst E1) as Et. pose proof (f_equal snd E1) as Ep.
  cbv [tape_out fst snd] in Et, Ep. rewrite Et, Ep in E. exists [audio_path name []].
  pose proof (f_equal fst E) as E2. pose proof (f_equal snd E) as P2. cbv [tape_out fst snd] in E2, P2.
  rewrite E2, P2. split; [|done]. unfold tape_of at 1. rewrite Hj. by apply tape_track.
Qed.

Lemma tracks_tape : tapes case_PLAY_NORMAL_AUDIO ∧ tapes case_PLAY_QNA ∧ tapes case_PLAY_ACTIVITY.
Proof.
  split_and!; [apply track_tape|unfold case_PLAY_QNA|unfold case_PLAY_ACTIVITY];
    repeat (apply tapes_after; [keeps|intros ?]); apply track_tape.
Qed.

(** The answers: [rest] is what follows the sound. *)
Lemma answer_tape verdict rest : verdict ∈ [lit "C"; lit "W"] → keeps tape_out rest →
  tapes (loc ← answer_location verdict; play loc;; rest).
Proof.
  intros Hv Hrest w w' (loc & w1 & Hr1 & Hr)%bind_Ok. apply bind_Ok in Hr as ([] & w2 & Hp & Hr).
  revert Hr1. unfold answer_location. rewrite (bind_run (get_plr audioIndex) _ w (audioIndex (plr w)) w eq_refl).
  intros (name & w0 & [-> (j & Hj & Hn)]%item_string_read & Hr1)%bind_Ok.
  apply bind_Ok in Hr1 as (loc1 & w0 & Hl & Hr1). unfold lift in Hl. destruct (sprintf 100 _) as [s|] eqn:Hs; [|done].
  apply sprintf_text in Hs as ->. injection Hl as <- <-. apply bind_Ok in Hr1 as ([] & w0 & [= <-] & [= <- <-]).
  eapply (tape_turn_out w w w2 w'); [done|by eapply Hrest|]. exists [audio_path name verdict].
  rewrite (play_tape _ _ _ _ Hp), (play_uri _ _ _ Hp). split; [|done].
  unfold tape_of. simpl. rewrite Hj. by apply tape_answer.
Qed.

Lemma answers_tape : tapes case_CORRECT_ANS ∧ tapes case_INCORRECT_ANS_TRY1.
Proof.
  split; [|unfold case_INCORRECT_ANS_TRY1; apply tapes_after; [keeps|intros _]]; apply answer_tape;
    first [set_solver|keeps].
Qed.

(** The playlist of the side is opened, or nothing of the tape changes. *)
Lemma GET_DIRECTION_tape bat chg : tapes (case_GET_DIRECTION bat chg).
Proof.
  intros w w'. unfold case_GET_DIRECTION. rewrite (bind_run _ _ w (turnTable (sys w)) w eq_refl).
  set (w1 := update sys (set turnTable (turnTable (sys w))) w). rewrite (bind_run (put_sys turnTable _) _ w () w1 eq_refl).
  intros Hr. apply (tape_turn_out w w1 w' w'); [done|done|].
  destruct (direction_name (turnTable (sys w))) as [dir|] eqn:Hd; [|eapply tapes_around; [|exact Hr]; keeps].
  rewrite (bind_run _ _ w1 (toy (sys w)) w1 eq_refl) in Hr. apply bind_Ok in Hr as (location & w0 & Hl & Hr).
  unfold lift in Hl. destruct (sprintf 100 _) as [l|] eqn:Hs; [|done]. apply sprintf_text in Hs as ->. injection Hl as <- <-.
  rewrite (bind_run _ _ w1 (files (fs w) !! toy_file (toy (sys w)) dir) w1 eq_refl) in Hr.
  apply bind_Ok in Hr as ([] & w2 & Hr & Htheme). assert (keeps tape_out read_theme) as Hk by keeps.
  eapply (tape_turn_out w1 w1 w2 w'); [done|exact (Hk _ _ _ Htheme)|]. clear Htheme Hk.
  destruct (files (fs w) !! _) as [content|] eqn:Hf; [|eapply tapes_around; [|exact Hr]; keeps].
  set (j := cJSON_Parse _) in Hr. set (w3 := update sys (set indexx 0) (update sys (set json (Some j)) w1)).
  change (battery_gate bat chg w3 = Ok ((), w2)) in Hr.
  assert (keeps tape_of (battery_gate bat chg) ∧ hums (battery_gate bat chg)) as [Hk Hh] by (split; [keeps|hums]).
  destruct (Hh _ _ _ Hr) as (files' & Hp & HF). exists files'. split; [|exact Hp]. rewrite (Hk _ _ _ Hr).
  by apply (tape_open _ dir content).
Qed.

Lemma begin_turn_list t : keeps list_obs (download_begin t).
Proof. apply (keeps_comp beside_download (λ x, (json x.1.1, indexx x.1.1, audioIndex x.2.1, x.2.2))), begin_turn_keeps. Qed.
Lemma token_turn_list : keeps list_obs SystemHandler.downloadToken.
Proof. apply (keeps_comp beside_download (λ x, (json x.1.1, indexx x.1.1, audioIndex x.2.1, x.2.2))), token_turn_keeps. Qed.
#[local] Hint Resolve begin_turn_list token_turn_list : keeps.

Lemma networking_tape : tapes case_INIT_WIFI_CHECK ∧ tapes case_INIT_USER_ID_CHECK ∧ tapes case_DOWNLOAD_TOY ∧
  tapes case_DOWNLOAD_WIFI_CONN.
Proof.
  split_and!; [apply tapes_around; keeps..|]. intros w w' Hr.
  assert (keeps tape_of case_DOWNLOAD_WIFI_CONN ∧ hums case_DOWNLOAD_WIFI_CONN) as [Hk Hh] by (split; [keeps|hums]).
  by eapply tape_quiet.
Qed.

Lemma handler_tape : tapes handler.
Proof.
  intros w w' Hr.
  assert (∀ m, tapes m → handler w = m w → tape_turn w w') as Hcase by (intros m Hm E; apply Hm; congruence).
  destruct tracks_tape as (Hn & Hq & Ha), answers_tape as (Hc & Hi), networking_tape as (Hwc & Huc & Hdt & Hdw).
  destruct (plain_state (state (sys w))) eqn:Hp; [destruct (decide (state (sys w) = SYS_PLAY_PREVIOUS)) as [Hst|Hst]|].
  - apply (Hcase _ PLAY_PREVIOUS_tape). by handler_at Hst.
  - by eapply plain_tape.
  - destruct (state (sys w)) eqn:Hst; try done.
    all: first
      [ apply (Hcase _ Hn); by handler_at Hst | apply (Hcase _ Hq); by handler_at Hst
      | apply (Hcase _ Ha); by handler_at Hst | apply (Hcase _ Hc); by handler_at Hst
      | apply (Hcase _ Hi); by handler_at Hst | apply (Hcase _ Hwc); by handler_at Hst
      | apply (Hcase _ Huc); by handler_at Hst | apply (Hcase _ Hdt); by handler_at Hst
      | apply (Hcase _ Hdw); by handler_at Hst
      | eapply Hcase; [apply PLAY_NEXT_tape|by handler_at Hst]
      | eapply Hcase; [apply GET_DIRECTION_tape|by handler_at Hst]
      | apply (Hcase case_READ_AUDIO_HEADER); [apply tapes_around; keeps|by handler_at Hst] ].
Qed.
End turns.

(** ** Properties *)

Section tape_properties.
Context `{Env} `{CJSON} (float_text : Z → bytes).

Lemma step_tape a b : step float_text a b → tape_turn a b.
Proof.
  intros [Hr|m Hm Hr].
  - revert Hr. apply tapes_before; [apply handler_tape|keeps].
  - revert Hr. by apply tapes_around, (event_turn_list float_text).
Qed.

(** C7 (the box is a tape player).  Through every interleaving of the firmware,
    and whatever the card, the servers, the phone and the base do, what the
    box plays is a run of an abstract tape player: a playlist is opened only
    from the file of the side the toy faces, and from its start; the position
    moves one track at a time; each file that is played is a tone of the box,
    the track of the current position, or the "correct" or "wrong" answer of
    the track that was started last. *)
Theorem firmware_refines_tape (a b : world) (Hr : rtc (step float_text) a b) :
  ∃ files, tape_run (tape_of a) files (tape_of b) ∧ played (hist b) = files ++ played (hist a).
Proof.
  induction Hr as [w|a w b (files & Hs & Hp)%step_tape _ (rest & Hrun & Hq)]; [exists []; split; [constructor|done]|].
  exists (rest ++ files). split; [by eapply tape_more|]. by rewrite Hq, Hp, app_assoc.
Qed.

End tape_properties.

(** ** Witnesses *)

Section tape_witnesses.
#[local] Existing Instance Playback.sample_env.
#[local] Existing Instance one_track.

(** The playlist is opened, the header read, the question asked: one file is played. *)
Example firmware_refines_tape_witness :
  let w := play_turn (play_turn (play_turn deck)) in
  played (hist w) = [audio_path (lit "A") []] ∧
  ∃ files, tape_run (tape_of deck) files (tape_of w) ∧ played (hist w) = files ++ played (hist deck).
Proof.
  intros w. split; [vm_compute; reflexivity|]. apply (firmware_refines_tape fmt_d).
  do 3 (eapply rtc_l; [apply play_step_turn; vm_compute; reflexivity|]). apply rtc_refl.
Defined.
End tape_witnesses.
