(* ===== verification/DownloadSpec.v ===== *)
(** * DownloadSpec: what a whole download of a toy leaves on the card

    The operations of Metadata.v and Tracks.v composed, with a server that
    answers: every missing track, then the metadata and the playlists, so that
    the toy is ready for the state machine. *)

From S2P Require Import Prelude CString World SystemBase Player SdCard Wifi Metadata MetadataSpec Tracks TracksSpec.
From S2P Require Import SystemHandler SystemControl SystemSpec Downloader Layout.
#[local] Open Scope M_scope.

(** ** Lemmas: all tracks *)

Section all_tracks.
Context `{Env} `{CJSON}.

(** What the downloads of the tracks of one toy have in common. *)
Definition track_ctx (w : world) :=
  (dirs (fs w), tag w, (baseUrl (dl w), media_json (dl w), N_server (dl w))).

Lemma copy_loop_ctx fuel data : keeps track_ctx (copy_loop fuel data).
Proof. revert data. induction fuel; intros; cbn [copy_loop]; keeps. Qed.
#[local] Hint Resolve copy_loop_ctx : keeps.

Lemma Downloadmp3Callback_ctx e : keeps track_ctx (Downloadmp3Callback e).
Proof. destruct e; cbn [Downloadmp3Callback]; keeps. Qed.
#[local] Hint Resolve Downloadmp3Callback_ctx : keeps.

Lemma perform_retry_ctx n url : keeps track_ctx (perform_retry n url).
Proof. induction n; cbn [perform_retry]; unfold http_perform; keeps. Qed.
#[local] Hint Resolve perform_retry_ctx : keeps.

Lemma download_mp3_ctx name : keeps track_ctx (download_mp3_file name).
Proof. unfold download_mp3_file. keeps. Qed.

(** Whenever the track is asked for, its bytes arrive and the response ends. *)
Definition serves_track (base name data : bytes) : Prop := ∀ h, ∃ pre post s,
  env_http (esp_http_client_perform (mp3_url base name) [] :: h)
    = {| http_events := pre ++ HTTP_EVENT_ON_FINISH :: post; http_ok := true; http_status := s |} ∧
  Forall quiet pre ∧ data_of pre = data.

(** A track that can be downloaded: its header, its bytes, its place. *)
Definition can_download (name text data : bytes) (w : world) : Prop :=
  (length name ≤ 200)%nat ∧ can_create (temp_path name) (fs w) = true ∧
  can_create (final_path name) (fs w) = true ∧ files (fs w) !! final_path name = None ∧
  track_header (media_json (dl w)) name = Ok text ∧ serves_track (baseUrl (dl w)) name data.

Lemma one_more_track name text data w : can_download name text data w → download_buffer (dl w) = [] →
  ∃ w', (∀ names, download_all (name :: names) w = download_all names w') ∧
    download_buffer (dl w') = [] ∧ track_ctx w' = track_ctx w ∧
    files (fs w') = <[final_path name := text ++ data]> (delete (temp_path name) (files (fs w))).
Proof.
  intros (Hl & Hc1 & Hc2 & Hnew & Hh & Hs) Hb.
  destruct (Hs (esp_timer_get_time :: hist w)) as (pre & post & s & Ha & Hq & <-).
  destruct (track_run name text pre post s w) as (w1 & Hr & Hb1 & Hf1); try done.
  { rewrite Hb. apply Nat.ltb_lt. reflexivity. }
  pose proof (download_mp3_ctx name _ _ _ Hr) as Hctx. rewrite Hb in Hf1.
  exists (update hist (vTaskDelay 200 ::.) w1). split; [|by split_and!].
  intros names. cbn [download_all]. by rewrite (bind_run _ _ _ _ _ Hr).
Qed.

(** The card after the tracks [names], one after the other. *)
Definition with_tracks (content : bytes → bytes) (names : list bytes) (m : gmap bytes bytes) : gmap bytes bytes :=
  foldl (λ m name, <[final_path name := content name]> (delete (temp_path name) m)) m names.

(** No track is written over another one's temporary file: a name is not
    another name with "temp" behind it. *)
Definition apart (names : list bytes) : Prop :=
  NoDup (final_path <$> names) ∧ ∀ a b, a ∈ names → b ∈ names → final_path a ≠ temp_path b.

Lemma download_all_run names (header data : bytes → bytes) w : apart names →
  (∀ n, n ∈ names → can_download n (header n) (data n) w) → download_buffer (dl w) = [] →
  ∃ w', download_all names w = Ok (true, w') ∧ track_ctx w' = track_ctx w ∧ download_buffer (dl w') = [] ∧
    files (fs w') = with_tracks (λ n, header n ++ data n) names (files (fs w)).
Proof.
  revert w. induction names as [|n names IH]; intros w [Hnd Hap] Hcan Hb; [by exists w|].
  cbn [fmap list_fmap] in Hnd. apply list.NoDup_cons in Hnd as [Hn Hnd].
  destruct (one_more_track n (header n) (data n) w) as (w1 & Hr & Hb1 & Hctx & Hf); [apply Hcan; left|done|].
  destruct (IH w1) as (w2 & Hr2 & Hctx2 & Hb2 & Hf2).
  - split; [done|]. intros a b Ha Hbn. apply Hap; by right.
  - intros a Ha. destruct (Hcan a ltac:(by right)) as (? & ? & ? & Hnew & ? & ?).
    unfold can_download, can_create in *. injection Hctx as Ed _ Eb Em _. rewrite Ed, Eb, Em, Hf.
    split_and!; try done. rewrite lookup_insert_ne, lookup_delete_ne; [done| |].
    + intros E. apply (Hap a n); [by right|left|done].
    + intros E. apply Hn. rewrite E. by apply list_elem_of_fmap_2.
  - done.
  - exists w2. rewrite Hr. split_and!; [done|congruence|done|by rewrite Hf2, Hf].
Qed.

Lemma with_tracks_cons content n names m : with_tracks content (n :: names) m =
  with_tracks content names (<[final_path n := content n]> (delete (temp_path n) m)).
Proof. done. Qed.

Lemma with_tracks_other content names m p : p ∉ final_path <$> names → p ∉ temp_path <$> names →
  with_tracks content names m !! p = m !! p.
Proof.
  revert m. induction names as [|n names IH]; intros m Hf Ht; [done|].
  cbn [fmap list_fmap] in *. apply not_elem_of_cons in Hf as [Hf Hf'], Ht as [Ht Ht']. rewrite with_tracks_cons, IH by done. by rewrite lookup_insert_ne, lookup_delete_ne.
Qed.

Lemma with_tracks_final content names m n : apart names → n ∈ names →
  with_tracks content names m !! final_path n = Some (content n).
Proof.
  revert m. induction names as [|a names IH]; intros m [Hnd Hap] Hn; [by apply elem_of_nil in Hn|].
  cbn [fmap list_fmap] in Hnd. apply list.NoDup_cons in Hnd as [Ha Hnd]. rewrite with_tracks_cons.
  apply elem_of_cons in Hn as [->|Hn].
  - rewrite with_tracks_other; [apply lookup_insert_eq|done|].
    intros (b & E & Hb)%list_elem_of_fmap. apply (Hap a b); [left|by right|done].
  - apply IH; [|done]. split; [done|]. intros x y Hx Hy. apply Hap; by right.
Qed.

Lemma with_tracks_absent content names m p : p ∉ final_path <$> names → m !! p = None →
  with_tracks content names m !! p = None.
Proof.
  revert m. induction names as [|n names IH]; intros m Hf Hm; [done|].
  cbn [fmap list_fmap] in Hf. apply not_elem_of_cons in Hf as [Hf Hf']. rewrite with_tracks_cons. apply IH; [done|].
  rewrite lookup_insert_ne by done. rewrite lookup_delete. by case_decide.
Qed.

Lemma with_tracks_temp content names m n : apart names → n ∈ names →
  with_tracks content names m !! temp_path n = None.
Proof.
  intros [_ Hap] Hn. assert (temp_path n ∉ final_path <$> names) as Hnf.
  { intros (b & E & Hb)%list_elem_of_fmap. by apply (Hap b n). }
  clear Hap. revert m. induction names as [|a names IH]; intros m; [by apply elem_of_nil in Hn|].
  cbn [fmap list_fmap] in Hnf. apply not_elem_of_cons in Hnf as [Hne Hnf]. rewrite with_tracks_cons.
  apply elem_of_cons in Hn as [->|Hn]; [|by apply IH].
  apply with_tracks_absent; [done|]. by rewrite lookup_insert_ne, lookup_delete_eq.
Qed.

(** The mark of completeness, which is only written after a download. *)
Definition marked (fresh : list bytes) (p : bytes) (seconds : Z) (m : gmap bytes bytes) : gmap bytes bytes :=
  if bool_decide (fresh = []) then m else <[p := verify_text seconds]> m.

Lemma marked_mark fresh p s m : is_Some (marked fresh p s m !! p) ↔ fresh ≠ [] ∨ is_Some (m !! p).
Proof.
  unfold marked. case_bool_decide as E; [naive_solver|]. rewrite lookup_insert_eq. split; [by left|by eexists].
Qed.
Lemma marked_other fresh p s m q : q ≠ p → marked fresh p s m !! q = m !! q.
Proof. intros Hq. unfold marked. case_bool_decide; [done|]. by rewrite lookup_insert_ne. Qed.

(** The listing, the names, the downloads and the mark, in one step. *)
Lemma process_audio_run path entries l fresh (header data : bytes → bytes) w
    (p := verify_path (until_nul (tagUid_qbus (tag w)))) :
  env_readdir (hist w) path = Some entries →
  N_server (dl w) = Some l → N_count (dl w) = Z.of_nat (length l) →
  fresh = filter (λ n, negb (is_duplicate (take MAX_FILES (d_name <$> filter (λ e, Is_true (d_is_reg e)) entries)) n)) l →
  apart fresh → (∀ n, n ∈ fresh → can_download n (header n) (data n) w) →
  download_buffer (dl w) = [] → (length p < 256)%nat → can_create p (fs w) = true →
  ∃ w' seconds, process_audio_files path w = Ok (true, w') ∧ download_buffer (dl w') = [] ∧
    dirs (fs w') = dirs (fs w) ∧ tag w' = tag w ∧
    files (fs w') = marked fresh p seconds (with_tracks (λ n, header n ++ data n) fresh (files (fs w))).
Proof.
  intros Hd Hs Hn Ef Hap Hcan Hb Hp Hc.
  destruct (download_all_run fresh header data w Hap Hcan Hb) as (w1 & Hr & Hctx & Hb1 & Hf1).
  injection Hctx as Ed Et _ _ Es.
  unfold process_audio_files, list_files. cbv [bind gets ret]. rewrite Hd.
  pose proof (N_values_run l w Hs Hn) as HN. unfold bind in HN. rewrite HN, <-Ef, Hr.
  unfold marked. destruct (decide (fresh = [])) as [E|Hne].
  { rewrite !(bool_decide_true (fresh = [])) by done. cbn [negb andb when]. unfold skip, free_N_server. cbv [bind ret get_dl gets].
    rewrite Es, Hs. exists (update dl (λ s, set N_count 0 (set N_server None s)) w1), 0. by split_and!. }
  rewrite !(bool_decide_false (fresh = [])) by done. cbn [negb andb]. unfold when, create_verified_file.
  cbv [bind get_tag gets]. rewrite Et. fold p. unfold sprintf. rewrite bool_decide_true by lia.
  assert (can_create p (fs w1) = true) as Hc1 by (unfold can_create in *; by rewrite Ed).
  unfold fopen_w. cbv [lift bind gets]. rewrite Hc1. cbv [when modify ret timer_get_time emit bind gets fappend].
  unfold free_N_server. cbv [bind get_dl gets].
  match goal with |- context [N_server (dl ?x)] => change (N_server (dl x)) with (N_server (dl w1)) end.
  rewrite Es, Hs. eexists _, _. split; [reflexivity|]. split_and!; [exact Hb1|exact Ed|exact Et|].
  simpl. rewrite alter_insert_eq, Hf1. reflexivity.
Qed.

End all_tracks.

(** ** Lemmas: the master JSON of a toy *)

(** What cJSON documents of its predicates: a string has its text, an array
    has the items below its size. *)
Class CJSONLaws `{CJSON} : Prop := {
  string_text v : cJSON_IsString v = true → v ≠ 0 ∧ is_Some (valuestring v);
  number_there v : cJSON_IsNumber v = true → v ≠ 0;
  array_item v i : cJSON_IsArray v = true → 0 <= i < cJSON_GetArraySize v → cJSON_GetArrayItem v i ≠ 0;
}.

(** The document names a base address, the playlists and the tracks. *)
Record toy_json `{CJSON} (j : Z) (base : bytes) (directions names : list bytes) (media : Z) : Prop := {
  json_there : j ≠ 0;
  json_base : cJSON_IsString (cJSON_GetObjectItem j (lit "baseUrl")) = true ∧
    valuestring (cJSON_GetObjectItem j (lit "baseUrl")) = Some base ∧ (length base < 256)%nat;
  json_directions : let d := cJSON_GetObjectItem j (lit "directionFiles") in
    d ≠ 0 ∧ cJSON_IsArray d = true ∧ cJSON_GetArraySize d = Z.of_nat (length directions) ∧
    all_res (direction_entry <$> array_items d) = Ok (Some <$> directions);
  json_media : let m := cJSON_GetObjectItem j (lit "media") in
    m ≠ 0 ∧ cJSON_IsArray m = true ∧ media = cJSON_Duplicate m ∧ media ≠ 0 ∧ cJSON_IsArray media = true ∧
    array_items media ≠ [] ∧ ∃ ns, all_res (media_names <$> array_items media) = Ok ns ∧ concat ns = names;
}.

Section master.
Context `{Env} `{CJSON} `{!CJSONLaws}.

Lemma str_of_string v : cJSON_IsString v = true → ∃ s, valuestring v = Some s ∧ str_of v = Ok s.
Proof.
  intros [Hv [s Hs]]%string_text. exists s. split; [done|]. unfold str_of.
  by rewrite bool_decide_false, Hs.
Qed.

Lemma ints_of_array v : cJSON_IsArray v = true → ∃ l, all_res (int_of <$> array_items v) = Ok l.
Proof.
  intros Hv. assert (Forall (λ i, i ≠ 0) (array_items v)) as Hi.
  { apply Forall_fmap, list.Forall_forall. intros i Hi%elem_of_seq. apply array_item; [done|lia]. }
  induction Hi as [|i l Hi _ [l0 IH]]; [by exists []|]. exists (valueint i :: l0).
  cbn [fmap list_fmap all_res]. unfold int_of at 1. by rewrite bool_decide_false, IH.
Qed.

(** The files that the metadata of a toy leave alone: the tracks and the marks
    of completeness. *)
Definition spared (p : bytes) : Prop := in_audio p ∨ ∃ t, p = verify_path t.

Lemma not_spared (p : bytes) : p !! 14%nat = Some 116 → list.last p = Some 115 → ¬ spared p.
Proof.
  intros Hp Hl [E|[t ->]].
  - apply (f_equal (.!! 14%nat)) in E. rewrite lookup_take_lt, Hp in E by lia. discriminate E.
  - unfold verify_path in Hl. rewrite app_assoc, list.last_app in Hl. discriminate Hl.
Qed.

(** An operation that writes the small files of a toy and nothing else. *)
Definition toy_files_only (w w' : world) : Prop :=
  dl w' = dl w ∧ dirs (fs w') = dirs (fs w) ∧
  ∀ p, spared p → files (fs w') !! p = files (fs w) !! p.

Definition writes_toy_files (m : FW ()) : Prop := ∀ w, ∃ w', m w = Ok ((), w') ∧ toy_files_only w w'.

Lemma writes_skip : writes_toy_files skip.
Proof. intros w. by exists w. Qed.
Lemma writes_when b m : writes_toy_files m → writes_toy_files (when b m).
Proof. destruct b; [done|]. intros _. apply writes_skip. Qed.
Lemma writes_seq m1 m2 : writes_toy_files m1 → writes_toy_files m2 → writes_toy_files (m1;; m2).
Proof.
  intros Hm1 Hm2 w. destruct (Hm1 w) as (w1 & Hr1 & E1 & D1 & F1). destruct (Hm2 w1) as (w2 & Hr2 & E2 & D2 & F2).
  exists w2. rewrite (bind_run _ _ _ _ _ Hr1). split; [done|]. split_and!; [congruence..|].
  intros p Hp. by rewrite F2, F1.
Qed.

Lemma meta_not_spared t name : (length name < 200)%nat → ¬ spared (meta_path (snprintf 256 (toy_dir t)) name).
Proof.
  intros Hn. apply not_spared; [reflexivity|]. unfold meta_path. unfold snprintf at 1. rewrite take_ge.
  - by rewrite !app_assoc, list.last_app.
  - unfold snprintf. rewrite !length_app, length_take. change (length (lit ".cubbies")) with 8%nat.
    change (length (lit "/")) with 1%nat. lia.
Qed.

Lemma writes_file t name text : (length name < 200)%nat →
  writes_toy_files (create_file (meta_path (snprintf 256 (toy_dir t)) name) text;; skip).
Proof.
  intros Hn w. pose proof (meta_not_spared t name Hn) as Hp. set (path := meta_path _ _) in *.
  destruct (can_create path (fs w)) eqn:Hc.
  - rewrite (bind_run _ _ _ _ _ (create_file_run path text w Hc)). eexists. split; [done|]. split_and!; [done..|].
    intros q Hq. simpl. by rewrite lookup_insert_ne by (intros ->; done).
  - exists w. split; [|done]. unfold create_file, fopen_w. cbv [bind gets]. by rewrite Hc.
Qed.

Lemma writes_number j t name : (length name < 200)%nat →
  writes_toy_files (store_number j (snprintf 256 (toy_dir t)) name).
Proof. intros. by apply writes_when, writes_file. Qed.

Lemma writes_string j t name : (length name < 200)%nat →
  writes_toy_files (store_string j (snprintf 256 (toy_dir t)) name).
Proof.
  intros Hn. unfold store_string. destruct (cJSON_IsString (cJSON_GetObjectItem j name)) eqn:Hs.
  - apply writes_when. destruct (str_of_string _ Hs) as (s & _ & ->). by apply writes_file.
  - rewrite andb_false_r. apply writes_skip.
Qed.

Lemma writes_colours j t : writes_toy_files (store_colours j (snprintf 256 (toy_dir t))).
Proof.
  unfold store_colours. destruct (cJSON_IsArray (cJSON_GetObjectItem j (lit "colourTheme"))) eqn:Ha.
  - apply writes_when. destruct (ints_of_array _ Ha) as (l & ->). cbn [lift].
    apply (writes_when _ (write_array_to_file _ _;; skip)), writes_file. by apply length_check.
  - rewrite andb_false_r. apply writes_skip.
Qed.

(** What the parser keeps of the document. *)
Definition parsed (base : bytes) (directions names : list bytes) (media : Z) (w : world) : Prop :=
  baseUrl (dl w) = base ∧ direction_file_names (dl w) = Some <$> directions ∧
  direction_file_count (dl w) = Z.of_nat (length directions) ∧
  N_server (dl w) = Some names ∧ N_count (dl w) = Z.of_nat (length names) ∧ media_json (dl w) = media.

Lemma parse_run response base directions names media w :
  toy_json (cJSON_ParseWithLength response) base directions names media →
  ∃ w', parse_and_store_metadata response w = Ok ((), w') ∧ parsed base directions names media w' ∧
    response_buffer (dl w') = response_buffer (dl w) ∧ dirs (fs w') = dirs (fs w) ∧
    ∀ p, spared p → files (fs w') !! p = files (fs w) !! p.
Proof.
  intros [Hj (Hb & Hbs & Hbl) (Hd & Hda & Hdn & Hdl) (Hm & Hma & -> & Hm2 & Hma2 & Hne & ns & Hns & <-)].
  unfold parse_and_store_metadata. set (j := cJSON_ParseWithLength response) in *.
  rewrite bool_decide_false by done. destruct (string_text _ Hb) as [Hb0 _].
  rewrite (bind_run _ _ w () (update dl (set baseUrl base) w)).
  2: { unfold store_base_url. rewrite Hb, bool_decide_false by done. cbn [negb andb when].
       rewrite (bind_run _ _ w base w); [by rewrite take_ge by lia|].
       unfold str_of. by rewrite bool_decide_false, Hbs. }
  match goal with |- context [bind _ _ ?x] => set (w1 := x) end.
  rewrite (bind_run _ _ w1 () (update dl (λ s, set direction_file_names (Some <$> directions)
    (set direction_file_count (Z.of_nat (length directions)) s)) w1)).
  2: { unfold store_direction_files. rewrite Hda, bool_decide_false by done. cbn [negb andb when].
       unfold bind at 1, put_dl at 1, modify. by rewrite Hdl, Hdn. }
  match goal with |- context [bind _ _ ?x] => set (w2 := x) end.
  rewrite (bind_run _ _ w2 () (update dl (λ s, set N_count (Z.of_nat (length (concat ns)))
    (set N_server (Some (concat ns)) (set media_json
      (cJSON_Duplicate (cJSON_GetObjectItem j (lit "media"))) s))) w2)).
  2: { unfold store_media. rewrite Hma, bool_decide_false by done. cbn [negb andb when].
       unfold bind at 1, put_dl at 1, modify at 1. unfold bind at 1, get_dl, gets.
       match goal with |- context [media_json (dl ?x)] =>
         change (media_json (dl x)) with (cJSON_Duplicate (cJSON_GetObjectItem j (lit "media"))) end.
       rewrite Hma2, bool_decide_false by done. cbn [negb andb]. rewrite Hns. unfold when.
       by rewrite (bool_decide_false (array_items _ = [])) by done. }
  match goal with |- context [bind _ _ ?x] => set (w3 := x) end.
  set (t := until_nul (tagUid_qbus (tag w3))).
  destruct (writes_seq _ _ (writes_number j t (lit "version") (length_check (lit "version") 200 eq_refl))
    (writes_seq _ _ (writes_string j t (lit "productCode") (length_check (lit "productCode") 200 eq_refl))
    (writes_seq _ _ (writes_number j t (lit "recordable") (length_check (lit "recordable") 200 eq_refl)) (writes_colours j t))) w3) as (w4 & Hr4 & E4 & D4 & F4).
  exists w4. split; [exact Hr4|]. unfold parsed. rewrite E4. by split_and!.
Qed.

(** What the downloads of the metadata leave alone. *)
Definition dl_ctx (w : world) := (sys w, tag w, (dl_toy (dl w), download_buffer (dl w))).

Lemma mkdir_parents_ctx seen rest : keeps dl_ctx (mkdir_parents seen rest).
Proof. revert seen. induction rest; intros; cbn [mkdir_parents]; keeps. Qed.
#[local] Hint Resolve mkdir_parents_ctx : keeps.
Lemma parse_ctx r : keeps dl_ctx (parse_and_store_metadata r).
Proof. unfold parse_and_store_metadata. keeps. Qed.
#[local] Hint Resolve parse_ctx : keeps.
Lemma MasterjsonCallback_ctx e : keeps dl_ctx (MasterjsonCallback e).
Proof. destruct e; cbn [MasterjsonCallback]; keeps. Qed.
#[local] Hint Resolve MasterjsonCallback_ctx : keeps.
Lemma download_master_ctx : keeps dl_ctx download_master_json.
Proof. unfold download_master_json, http_perform. keeps. Qed.

(** Whenever the master JSON is asked for, it arrives in pieces. *)
Definition serves_master (body response : bytes) : Prop := ∀ h, ∃ first rest s,
  env_http (esp_http_client_perform HTTPS_GET_USER_TOY_MEDIA_URL body :: h)
    = {| http_events := (HTTP_EVENT_ON_DATA <$> first :: rest) ++ [HTTP_EVENT_ON_FINISH; HTTP_EVENT_DISCONNECTED];
         http_ok := true; http_status := s |} ∧ first ≠ [] ∧ first ++ concat rest = response.

(** No response is half received. *)
Definition idle_response (w : world) : Prop :=
  mj_file (dl w) = None ∧ response_buffer (dl w) = None ∧ response_buffer_size (dl w) = 0.

Lemma metadata_not_spared t : ¬ spared (metadata_path t).
Proof. apply not_spared; [reflexivity|]. unfold metadata_path. by rewrite list.last_app. Qed.

Lemma master_response response base directions names media first rest t w : first ≠ [] →
  first ++ concat rest = response → t = until_nul (tagUid_qbus (tag w)) → can_store t w → idle_response w →
  toy_json (cJSON_ParseWithLength response) base directions names media →
  ∃ w', for_each ((HTTP_EVENT_ON_DATA <$> first :: rest) ++ [HTTP_EVENT_ON_FINISH; HTTP_EVENT_DISCONNECTED])
      MasterjsonCallback w = Ok ((), w') ∧ parsed base directions names media w' ∧
    dirs (fs w') = dirs (fs w) ∧ ∀ p, spared p → files (fs w') !! p = files (fs w) !! p.
Proof.
  intros Hne <- Et Hst (Hf & Hb & Hs) Hj.
  destruct (master_first first t w) as (w1 & Hr1 & Hw1 & Hd1 & Hf1 & _); [done..|].
  destruct (master_chunks _ _ _ rest w1 Hw1) as (w2 & Hr2 & (Hm & _ & Hbuf & _) & Hd2 & Hf2 & _).
  destruct (parse_run _ base directions names media (update dl (set mj_file None) w2) Hj)
    as (w3 & Hr3 & Hp & Hb3 & Hd3 & Hf3).
  exists (update dl (λ s, set response_buffer_size 0 (set response_buffer None s)) w3). split.
  - rewrite for_each_app. cbn [fmap list_fmap for_each]. rewrite (bind_run _ _ w () w2).
    2: { by rewrite (bind_run _ _ _ _ _ Hr1). }
    rewrite (bind_run _ _ w2 () (update dl (λ s, set response_buffer_size 0 (set response_buffer None s)) w3)); [done|].
    cbn [MasterjsonCallback]. cbv [bind get_dl gets put_dl modify]. rewrite Hm, bool_decide_true by (by eexists).
    unfold when. change (response_buffer (dl (update dl (set mj_file None) w2))) with (response_buffer (dl w2)).
    by rewrite Hbuf, Hr3.
  - split; [exact Hp|]. split; [simpl; by rewrite Hd3, <-Hd1, <-Hd2|]. intros p Hpa. simpl.
    rewrite Hf3 by done. simpl. assert (p ≠ metadata_path t) as Hpm by (intros ->; by apply (metadata_not_spared t)).
    rewrite <-(lookup_delete_ne _ (metadata_path t) p), Hf2, Hf1 by done. by apply lookup_delete_ne.
Qed.

(** The request for the master JSON of toy [t]. *)
Definition master_request (t : bytes) (w : world) : bytes :=
  master_body t (until_nul (uniqueBoxID (sys w))) (macID (sys w)).

(** The cleanup of the client only frees the response once more. *)
Lemma master_cleanup base directions names media w : parsed base directions names media w →
  ∃ w', http_cleanup MasterjsonCallback w = Ok ((), w') ∧ parsed base directions names media w' ∧ fs w' = fs w.
Proof.
  intros Hp. destruct (http_cleanup_run MasterjsonCallback w) as [->| ->]; [by eexists|].
  cbn [MasterjsonCallback]. cbv [bind get_dl gets when free_response put_dl modify skip ret].
  case_bool_decide; by eexists.
Qed.

Lemma master_run `{!FreedClose} response base directions names media t w : dl_toy (dl w) = t →
  t = until_nul (tagUid_qbus (tag w)) → can_store t w → idle_response w →
  (length (master_request t w) < 500)%nat → serves_master (master_request t w) response →
  toy_json (cJSON_ParseWithLength response) base directions names media →
  ∃ w', download_master_json w = Ok ((), w') ∧ parsed base directions names media w' ∧
    dirs (fs w') = dirs (fs w) ∧ ∀ p, spared p → files (fs w') !! p = files (fs w) !! p.
Proof.
  intros Et Htag Hst Hidle Hlen Hsrv Hj. destruct (Hsrv (hist w)) as (first & rest & s & Ha & Hne & Hresp).
  destruct (master_response response base directions names media first rest t
    (update hist (esp_http_client_perform HTTPS_GET_USER_TOY_MEDIA_URL (master_request t w) ::.) w))
    as (w1 & Hr & Hp & Hd & Hf); [done..|].
  destruct (master_cleanup _ _ _ _ w1 Hp) as (w2 & Hr2 & Hp2 & Hf2).
  exists (update hist (esp_http_client_close ::.) w2). split; [|simpl; rewrite Hf2; by split_and!].
  unfold download_master_json, getUniqueBoxID, getMacID. cbv [bind get_dl get_sys gets ret]. rewrite Et.
  fold (master_request t w). unfold sprintf. rewrite bool_decide_true by done.
  cbv [lift http_perform emit modify bind gets ret]. 
  match goal with |- context [env_http ?h] => change h with
    (esp_http_client_perform HTTPS_GET_USER_TOY_MEDIA_URL (master_request t w) :: hist w) end.
  rewrite Ha. cbn [http_events]. rewrite Hr, Hr2. apply http_close_freed_run.
Qed.

End master.

(** ** Lemmas: the playlists *)

Section all_playlists.
Context `{Env} `{CJSON} `{!FreedClose}.

(** A playlist: the name of its file on the server, its direction, its text. *)
Record playlist := { pl_name : bytes; pl_dir : bytes; pl_text : bytes }.

(** Whenever the playlist is asked for, its text arrives in one response. *)
Definition serves_playlist (base : bytes) (d : playlist) : Prop := ∀ h, ∃ pre post s,
  env_http (esp_http_client_perform (snprintf 256 (base ++ pl_name d)) [] :: h)
    = {| http_events := pre ++ post; http_ok := true; http_status := s |} ∧
  Forall quiet pre ∧ Forall ending post ∧ data_of pre = pl_text d.

Definition playlist_ok (t : bytes) (d : playlist) : Prop :=
  direction_of (pl_name d) = Some (pl_dir d) ∧ (length (playlist_path t (pl_dir d)) < 256)%nat ∧
  (length (pl_text d) < 4096)%nat ∧ no_nul (pl_text d).

(** What the downloads of the playlists leave alone. *)
Definition playlist_ctx (w : world) :=
  (dl_ctx w, dirs (fs w), (baseUrl (dl w), media_json (dl w), N_server (dl w), N_count (dl w)),
   (direction_file_names (dl w), direction_file_count (dl w))).

Lemma DirectionCallback_ctx e : keeps playlist_ctx (DirectionCallback e).
Proof. destruct e; cbn [DirectionCallback]; keeps. Qed.
#[local] Hint Resolve DirectionCallback_ctx : keeps.
Lemma download_file_ctx name : keeps playlist_ctx (download_file name).
Proof. unfold download_file, http_perform. keeps. Qed.

Definition with_playlists (t : bytes) (ds : list playlist) (m : gmap bytes bytes) : gmap bytes bytes :=
  foldl (λ m d, <[playlist_path t (pl_dir d) := pl_text d]> m) m ds.

Lemma with_playlists_other t ds m p : (∀ d, d ∈ ds → p ≠ playlist_path t (pl_dir d)) →
  with_playlists t ds m !! p = m !! p.
Proof.
  revert m. induction ds as [|d ds IH]; intros m Hp; [done|]. unfold with_playlists in *. cbn [foldl].
  rewrite IH by (intros; apply Hp; by right). rewrite lookup_insert_ne; [done|]. intros E. by apply (Hp d); [left|].
Qed.

Lemma with_playlists_in t ds m d : NoDup (playlist_path t ∘ pl_dir <$> ds) → d ∈ ds →
  with_playlists t ds m !! playlist_path t (pl_dir d) = Some (pl_text d).
Proof.
  revert m. induction ds as [|d0 ds IH]; intros m Hnd Hd; [by apply elem_of_nil in Hd|].
  cbn [fmap list_fmap] in Hnd. apply list.NoDup_cons in Hnd as [Hn Hnd].
  apply elem_of_cons in Hd as [->|Hd]; [|by apply (IH (<[playlist_path t (pl_dir d0) := pl_text d0]> m))].
  change (with_playlists t (d0 :: ds) m) with (with_playlists t ds (<[playlist_path t (pl_dir d0) := pl_text d0]> m)).
  rewrite with_playlists_other; [apply lookup_insert_eq|]. intros d Hd E. apply Hn.
  change (playlist_path t (pl_dir d0)) with ((playlist_path t ∘ pl_dir) d0) in E. simpl. simpl in E. rewrite E.
  by apply (list_elem_of_fmap_2 (playlist_path t ∘ pl_dir)).
Qed.

Lemma one_playlist t d w : dl_toy (dl w) = t → playlist_ok t d → serves_playlist (baseUrl (dl w)) d →
  can_create (playlist_path t (pl_dir d)) (fs w) = true →
  ∃ w', download_file (pl_name d) w = Ok ((), w') ∧ playlist_ctx w' = playlist_ctx w ∧
    files (fs w') = <[playlist_path t (pl_dir d) := pl_text d]> (files (fs w)).
Proof.
  intros Et (Hn & Hl & Hl2 & Hz) Hs Hc. destruct (Hs (hist w)) as (pre & post & s & Ha & Hq & He & Hd).
  destruct (download_file_run (pl_name d) (pl_dir d) t pre post s w) as (w' & Hr & Hf); try done; [by rewrite Hd..|].
  exists w'. split; [done|]. split; [by apply (download_file_ctx _ _ _ _ Hr)|]. by rewrite Hf, Hd.
Qed.

(** The playlists from the [k]-th on. *)
Lemma playlists_from t ds k w : dl_toy (dl w) = t →
  (∀ i d, ds !! i = Some d → direction_file_names (dl w) !! (k + i)%nat = Some (Some (pl_name d))) →
  direction_file_count (dl w) = Z.of_nat (k + length ds) →
  (∀ d, d ∈ ds → playlist_ok t d ∧ serves_playlist (baseUrl (dl w)) d ∧
    can_create (playlist_path t (pl_dir d)) (fs w) = true) →
  ∃ w', for_each (Z.of_nat <$> seq k (length ds))
      (λ i, name ← get_direction_file_name i;
            match name with Some dir_file_name => download_file dir_file_name | None => skip end) w = Ok ((), w') ∧
    playlist_ctx w' = playlist_ctx w ∧ files (fs w') = with_playlists t ds (files (fs w)).
Proof.
  revert k w. induction ds as [|d ds IH]; intros k w Et Hnames Hcount Hds; [by exists w|].
  cbn [length seq fmap list_fmap for_each]. cbn [length] in Hcount.
  destruct (Hds d ltac:(left)) as (Hok & Hsrv & Hc).
  destruct (one_playlist t d w Et Hok Hsrv Hc) as (w1 & Hr1 & Hctx & Hf1). pose proof Hctx as Hctx'.
  injection Hctx' as _ _ Ety _ Ed Eb _ _ _ En Ec.
  destruct (IH (S k) w1) as (w2 & Hr2 & Hctx2 & Hf2).
  - congruence.
  - intros i d' Hi. rewrite En. replace (S k + i)%nat with (k + S i)%nat by lia. by apply Hnames.
  - rewrite Ec, Hcount. lia.
  - intros d' Hd'. rewrite Eb. unfold can_create. rewrite Ed. apply Hds. by right.
  - exists w2. split; [|split; [congruence|by rewrite Hf2, Hf1]].
    rewrite (bind_run _ _ w () w1); [exact Hr2|]. rewrite (bind_run _ _ w (Some (pl_name d)) w); [exact Hr1|].
    unfold get_direction_file_name. cbv [bind get_dl gets]. rewrite Hcount, bool_decide_true by lia.
    rewrite Nat2Z.id. specialize (Hnames 0%nat d eq_refl). rewrite Nat.add_0_r in Hnames. by rewrite Hnames.
Qed.

Lemma process_directions_run t ds w : dl_toy (dl w) = t →
  direction_file_names (dl w) = Some <$> (pl_name <$> ds) → direction_file_count (dl w) = Z.of_nat (length ds) →
  (∀ d, d ∈ ds → playlist_ok t d ∧ serves_playlist (baseUrl (dl w)) d ∧
    can_create (playlist_path t (pl_dir d)) (fs w) = true) →
  ∃ w', process_direction_files w = Ok ((), w') ∧ playlist_ctx w' = playlist_ctx w ∧
    files (fs w') = with_playlists t ds (files (fs w)).
Proof.
  intros Et Hn Hc Hds. unfold process_direction_files. unfold bind at 1, get_dl, gets. rewrite Hc, Nat2Z.id.
  apply (playlists_from t ds 0); [done| |done|done].
  intros i d Hi. cbn [Nat.add]. by rewrite Hn, !list_lookup_fmap, Hi.
Qed.

End all_playlists.

(** ** Lemmas: the whole download *)

Section begin.
Context `{Env} `{CJSON} `{!CJSONLaws} `{!FreedClose}.

Definition audio_dir : bytes := lit "/sdcard/media/audio/".

(** The box: connected, with a token, no download half done, toy [t] on the pad. *)
Record box_ready (t : bytes) (w : world) : Prop := {
  box_layout : layout w;
  box_tag : until_nul (tagUid_qbus (tag w)) = t;
  box_toy : (length t < 20)%nat;
  box_wifi : connected (wifi w) = true;
  box_creds : ∃ s p, holds_creds s p (wifi w) ∧ s ≠ [];
  box_token : validTokenFlag (dl w) ≠ 0;
  box_idle : idle_response w ∧ download_buffer (dl w) = [];
}.

(** The card: the folders are there, and no folder stands where a file goes. *)
Record card_ready (t : bytes) (ds : list playlist) (w : world) : Prop := {
  card_folders : toys_there w;
  card_name : name_ok t;
  card_toy : files (fs w) !! toy_dir t = None;
  card_metadata : metadata_path t ∉ dirs (fs w);
  card_verify : verify_path t ∉ dirs (fs w);
  card_playlists : ∀ d, d ∈ ds → (47 ∉ pl_dir d) ∧ (playlist_path t (pl_dir d) ∉ dirs (fs w));
}.

Lemma master_request_length t w : layout w → (length t < 20)%nat → (length (master_request t w) < 500)%nat.
Proof.
  intros (_ & _ & Hs & _) Ht. destruct Hs. unfold master_request, master_body, member, quoted, braces.
  pose proof (length_until_nul (uniqueBoxID (sys w))).
  rewrite !length_app. cbn. lia.
Qed.

(** A folder more is in the way of no other path. *)
Lemma can_create_more path p w w' : dirs (fs w') = {[path]} ∪ dirs (fs w) → p ≠ path →
  can_create p (fs w) = true → can_create p (fs w') = true.
Proof.
  intros Hd Hne [Hc1 Hc2]%andb_true_iff. apply bool_decide_eq_true in Hc1, Hc2. unfold can_create.
  rewrite Hd, !bool_decide_true; set_solver.
Qed.

Lemma dirname_last (d name : bytes) : 47 ∉ name → dirname (d ++ 47 :: name) = d.
Proof.
  intros Hn. unfold dirname. rewrite reverse_app, reverse_cons, <-app_assoc. cbn [app].
  assert (∀ l r, 47 ∉ l → drop_component (l ++ 47 :: r) = r) as ->; [|apply reverse_involutive|by rewrite elem_of_reverse].
  intros l r. induction l as [|c l IH]; intros Hl; [done|]. apply not_elem_of_cons in Hl as [Hc Hl].
  cbn [app drop_component]. rewrite bool_decide_false by done. by apply IH.
Qed.

Lemma dirname_toy t name : 47 ∉ name → dirname (toy_dir t ++ lit "/" ++ name) = toy_dir t.
Proof. apply (dirname_last (toy_dir t)). Qed.

Lemma can_create_in_toy t name w : 47 ∉ name → toy_dir t ∈ dirs (fs w) →
  toy_dir t ++ lit "/" ++ name ∉ dirs (fs w) → can_create (toy_dir t ++ lit "/" ++ name) (fs w) = true.
Proof. intros. unfold can_create. by rewrite dirname_toy, !bool_decide_true. Qed.

Lemma longer_toy (t name : bytes) : toy_dir t ++ lit "/" ++ name ≠ toy_dir t.
Proof. intros E. apply (f_equal length) in E. rewrite !length_app in E. cbn in E. lia. Qed.

Lemma set_toy_run t w : no_nul t → (length t < 20)%nat → set_toy t w = Ok ((), update dl (set dl_toy t) w).
Proof.
  intros Hn Ht. unfold set_toy. rewrite strcpy_zeros by done. unfold bind, lift.
  by rewrite until_nul_padded.
Qed.

Lemma connected_run t w : box_ready t w →
  WiFi_connect w = Ok (0, update wifi (set count (i32 (count (wifi w) + 1))) w).
Proof.
  intros [_ _ _ Hc (s & p & Hcr & Hne)]. unfold WiFi_connect.
  rewrite (bind_run _ _ _ _ _ (cred_ssid_run _ _ _ Hcr)), bool_decide_false by done.
  cbv [bind get_wifi gets put_wifi modify].
  match goal with |- context [connected (wifi ?x)] => change (connected (wifi x)) with (connected (wifi w)) end.
  by rewrite Hc.
Qed.

Lemma createFolders_run t w : dl_toy (dl w) = t → (length t < 20)%nat → toys_there w →
  files (fs w) !! toy_dir t = None → 47 ∉ t →
  ∃ w', createFolders w = Ok ((), w') ∧ dirs (fs w') = {[toy_dir t]} ∪ dirs (fs w) ∧ files (fs w') = files (fs w) ∧
    (dl w', tag w', sys w', hist w') = (dl w, tag w, sys w, hist w).
Proof.
  intros Et Hl (_ & _ & Htoys) Hf Hs. unfold createFolders. unfold bind at 1, get_dl, gets. rewrite Et.
  unfold bind at 1. unfold sprintf. rewrite bool_decide_true by (unfold toy_dir; rewrite length_app; cbn; lia).
  cbn [lift]. unfold mkdir. cbv [bind gets]. rewrite Hf, (bool_decide_false (is_Some _)) by (by intros [? ?]).
  rewrite orb_false_r. case_bool_decide as Hd.
  - exists w. split; [done|]. split; [|done]. set_solver.
  - assert (dirname (toy_dir t) = lit "/sdcard/media/toys") as ->.
    { by apply (dirname_last (lit "/sdcard/media/toys")). }
    rewrite bool_decide_true by done. by eexists.
Qed.

(** A track that is missing and can be had. *)
Definition wanted (base : bytes) (media : Z) (w : world) (name text data : bytes) : Prop :=
  (length name ≤ 200)%nat ∧ can_create (temp_path name) (fs w) = true ∧
  can_create (final_path name) (fs w) = true ∧ files (fs w) !! final_path name = None ∧
  track_header media name = Ok text ∧ serves_track base name data.

Lemma toy_not_audio t : ¬ in_audio (toy_dir t).
Proof. intros E. apply (f_equal (.!! 14%nat)) in E. cbv in E. discriminate E. Qed.
Lemma playlist_not_spared t d : ¬ spared (playlist_path t d).
Proof. apply not_spared; [reflexivity|]. unfold playlist_path. by rewrite !app_assoc, list.last_app. Qed.

(** The names of tracks that a listing shows, and what the site of a download
    has to offer: the master JSON, the playlists [ds], and the tracks [fresh]
    that the card does not have yet, each with its header and its bytes. *)
Definition listed_names (entries : list dirent) : list bytes :=
  take MAX_FILES (d_name <$> filter (λ e, Is_true (d_is_reg e)) entries).

Record site_ready (t response base : bytes) (ds : list playlist) (names : list bytes) (media : Z)
    (entries : list dirent) (fresh : list bytes) (header data : bytes → bytes) (w : world) : Prop := {
  site_box : box_ready t w;
  site_card : card_ready t ds w;
  site_json : toy_json (cJSON_ParseWithLength response) base (pl_name <$> ds) names media;
  site_master : serves_master (master_request t w) response;
  site_playlists : ∀ d, d ∈ ds → playlist_ok t d ∧ serves_playlist base d;
  site_sides : NoDup (playlist_path t ∘ pl_dir <$> ds);
  site_listing : ∀ h, env_readdir h audio_dir = Some entries;
  site_fresh : fresh = filter (λ n, negb (is_duplicate (listed_names entries) n)) names;
  site_apart : apart fresh;
  site_tracks : ∀ n, n ∈ fresh → wanted base media w n (header n) (data n);
}.

(** From the connection to the playlists: the state before the tracks. *)
Lemma metadata_run response base (ds : list playlist) names media t w :
  box_ready t w → card_ready t ds w → no_nul t → serves_master (master_request t w) response →
  (∀ d, d ∈ ds → playlist_ok t d ∧ serves_playlist base d) →
  toy_json (cJSON_ParseWithLength response) base (pl_name <$> ds) names media →
  ∃ w' m, begin t w = (success ← process_audio_files audio_dir; put_dl dl_toy [];; ret success) w' ∧
    baseUrl (dl w') = base ∧ media_json (dl w') = media ∧ N_server (dl w') = Some names ∧
    N_count (dl w') = Z.of_nat (length names) ∧ download_buffer (dl w') = [] ∧ tag w' = tag w ∧ sys w' = sys w ∧
    dirs (fs w') = {[toy_dir t]} ∪ dirs (fs w) ∧ files (fs w') = with_playlists t ds m ∧
    ∀ p, spared p → files (fs w') !! p = files (fs w) !! p.
Proof.
  intros Hbox Hcard Hnn Hm Hds Hj. destruct Hcard as [Hfold Hname Htoy Hmeta Hver Hpl].
  pose proof (box_toy _ _ Hbox) as Hlt. pose proof (connected_run t (update dl (set dl_toy t) w)) as Hconn.
  set (w1 := update dl (set dl_toy t) w) in *. assert (box_ready t w1) as Hbox1.
  { destruct Hbox as [Hlay ????? ]. split; try done. destruct Hlay as (?&?&?&?&?&?&[]). unfold layout. split_and!; try done. }
  specialize (Hconn Hbox1). set (w2 := update wifi _ w1) in Hconn.
  destruct (createFolders_run t w2) as (w3 & Hr3 & Hd3 & Hf3 & E3); [done..|by apply Hname|].
  injection E3 as Edl3 Etag3 Esys3 Eh3.
  destruct (box_idle _ _ Hbox) as [Hidle Hbuf].
  assert (master_request t w3 = master_request t w) as Ereq by (unfold master_request; by rewrite Esys3).
  destruct (master_run response base (pl_name <$> ds) names media t w3) as (w4 & Hr4 & Hp4 & Hd4 & Hf4).
  { by rewrite Edl3. }
  { rewrite Etag3. symmetry. apply (box_tag _ _ Hbox). }
  { unfold can_store, toys_there. rewrite Hd3. destruct Hfold as (? & ? & ?).
    split_and!; [apply Hname..|by apply elem_of_union_r|by apply elem_of_union_r|by apply elem_of_union_r| |].
    - by apply elem_of_union_l, elem_of_singleton.
    - apply not_elem_of_union. split; [|done]. apply not_elem_of_singleton, longer_toy. }
  { unfold idle_response. by rewrite Edl3. }
  { rewrite Ereq. apply master_request_length; [apply (box_layout _ _ Hbox)|done]. }
  { by rewrite Ereq. }
  { done. }
  pose proof (download_master_ctx _ _ _ Hr4) as Hctx4. injection Hctx4 as Es4 Et4 Ety4 Eb4.
  destruct Hp4 as (Ebase & En & Ec & Ens & Enc & Em).
  destruct (process_directions_run t ds w4) as (w5 & Hr5 & Hctx5 & Hf5).
  { by rewrite Ety4, Edl3. }
  { done. }
  { by rewrite Ec, length_fmap. }
  { intros d Hd. rewrite Ebase. split; [by apply Hds|]. split; [by apply Hds|]. destruct (Hpl d Hd) as [Hns Hnd].
    unfold playlist_path. apply can_create_in_toy; rewrite ?Hd4, ?Hd3; [|by apply elem_of_union_l, elem_of_singleton|].
    - apply not_elem_of_app. split; [done|]. by apply (bool_decide_unpack _).
    - apply not_elem_of_union. split; [|done]. apply not_elem_of_singleton, longer_toy. }
  injection Hctx5 as Es5 Et5 Ety5 Eb5 Ed5 Ebase5 Em5 Ens5 Enc5 En5 Ec5.
  exists w5, (files (fs w4)). split_and!; try congruence.
  - unfold begin. rewrite (bind_run _ _ w () w1) by (by apply set_toy_run).
    rewrite (bind_run _ _ _ _ _ Hconn). cbv beta iota. rewrite bool_decide_true by done.
    rewrite (bind_run _ _ _ _ _ Hr3). rewrite (bind_run _ _ w3 () w3).
    2: { unfold Metadata.downloadToken. unfold bind at 1, get_dl, gets. rewrite Edl3.
         change (validTokenFlag (dl w2)) with (validTokenFlag (dl w)).
         by rewrite bool_decide_false by apply (box_token _ _ Hbox). }
    by rewrite (bind_run _ _ _ _ _ Hr4), (bind_run _ _ _ _ _ Hr5).
  - by rewrite Eb5, Eb4, Edl3.
  - by rewrite Ed5, Hd4, Hd3.
  - intros p Hp. rewrite Hf5, with_playlists_other, Hf4, Hf3 by (try done; intros d _ ->; by apply (playlist_not_spared t (pl_dir d))).
    done.
Qed.

Lemma verify_not_playlist t d : playlist_path t d ≠ verify_path t.
Proof. intros E. apply (playlist_not_spared t d). rewrite E. right. by exists t. Qed.

Lemma strip_toy t : name_ok t → strip_slash (toy_dir t) = toy_dir t.
Proof.
  intros (Hne & _ & Hs). unfold strip_slash, toy_dir. rewrite reverse_app.
  destruct (reverse t) as [|c r] eqn:E; [by apply (f_equal reverse) in E; rewrite reverse_involutive in E|].
  cbn [app]. rewrite bool_decide_false; [done|]. intros ->. apply Hs. rewrite <-elem_of_reverse, E. left.
Qed.

Lemma begin_run t response base ds names media entries fresh header data w :
  site_ready t response base ds names media entries fresh header data w →
  ∃ w', begin t w = Ok (true, w') ∧ sys w' = sys w ∧
    (toy (sys w) = t → toy_ready w' = true ↔ fresh ≠ [] ∨ is_Some (files (fs w) !! verify_path t)) ∧
    (∀ d, d ∈ ds → files (fs w') !! playlist_path t (pl_dir d) = Some (pl_text d)) ∧
    (∀ n, n ∈ names → is_duplicate (listed_names entries) n = true ∨ files (fs w') !! final_path n = Some (header n ++ data n)).
Proof.
  intros [Hbox Hcard Hjson Hmaster Hds Hdirs Hdir Ef Hap Hwant]. pose proof (box_tag _ _ Hbox) as Htag. pose proof (box_toy _ _ Hbox) as Hlt.
  destruct (metadata_run response base ds names media t w) as (w1 & m & Hr & Eb & Em & Ens & Enc & Ebuf & Et & Es & Ed & Ef1 & Ea);
    try done; [by rewrite <-Htag; apply until_nul_no_nul|].
  destruct (process_audio_run audio_dir entries names fresh header data w1)
    as (w2 & s & Hr2 & _ & Ed2 & Et2 & Ef2); try done.
  { intros n Hn. destruct (Hwant n Hn) as (? & Hc1 & Hc2 & Hnew & ? & ?). unfold can_download. rewrite Em, Eb.
    split_and!; try done.
    - eapply can_create_more; [exact Ed| |exact Hc1]. intros E. by apply (toy_not_audio t); rewrite <-E.
    - eapply can_create_more; [exact Ed| |exact Hc2]. intros E. by apply (toy_not_audio t); rewrite <-E.
    - by rewrite Ea by (left; reflexivity). }
  { rewrite Et, Htag. unfold verify_path. rewrite !length_app. cbn. lia. }
  { rewrite Et, Htag. unfold verify_path. rewrite app_assoc. change (lit "/verify.txt") with (lit "/" ++ lit "verify.txt").
    apply can_create_in_toy; [by apply (bool_decide_unpack _)|rewrite Ed; by apply elem_of_union_l, elem_of_singleton|].
    rewrite Ed. apply not_elem_of_union. split; [apply not_elem_of_singleton, longer_toy|].
    pose proof (card_verify _ _ _ Hcard) as Hv. by unfold verify_path in Hv; rewrite app_assoc in Hv. }
  rewrite Et, Htag in Ef2.
  assert (∀ q, in_audio q → q ≠ verify_path t) as Hpa by by (intros q Hq ->).
  assert (begin t w = Ok (true, update dl (set dl_toy []) w2)) as Hrun by (rewrite Hr; by rewrite (bind_run _ _ _ _ _ Hr2)).
  pose proof (f_equal (λ x, x.1.1) (begin_keeps t _ _ _ Hrun)) as Esys. cbn [fst beside_download] in Esys.
  exists (update dl (set dl_toy []) w2). split_and!; [done|done|..].
  - intros Ety. unfold toy_ready, has_file. rewrite Esys, Ety. fold (toy_dir t).
    rewrite (strip_toy t) by apply (card_name _ _ _ Hcard). simpl. rewrite Ed2, Ed, Ef2, andb_true_iff, !bool_decide_eq_true, marked_mark,
      with_tracks_other, Ea by first [right; by eexists | intros (n & E & _)%list_elem_of_fmap; by apply (Hpa (verify_path t)); [rewrite E|]].
    split; [by intros [_ ?]|]. split; [|done]. by apply elem_of_union_l, elem_of_singleton.
  - intros d Hd. simpl. rewrite Ef2, marked_other by apply verify_not_playlist.
    rewrite with_tracks_other, Ef1.
    + by apply with_playlists_in.
    + intros (n & E & _)%list_elem_of_fmap. apply (playlist_not_spared t (pl_dir d)). rewrite E. by left.
    + intros (n & E & _)%list_elem_of_fmap. apply (playlist_not_spared t (pl_dir d)). rewrite E. by left.
  - intros n Hl. destruct (is_duplicate _ n) eqn:Hdup; [by left|right]. simpl.
    rewrite Ef2, marked_other by by apply Hpa.
    apply (with_tracks_final (λ n, header n ++ data n)); [done|].
    rewrite Ef. apply list_elem_of_filter. split; [by rewrite Hdup|done].
Qed.

End begin.

(** ** Properties *)

Section download_properties.
Context `{Env} `{CJSON}.

(** C16 (the tracks of a toy).  With a server that delivers them and no bytes of
    an earlier download in the buffer, processing the tracks of a toy downloads
    every track whose name is not on the card yet: each is there complete, its
    header first, under its final name, no temporary file is left, and no other
    file of the card is touched.  Afterwards the toy is marked as complete
    exactly when a track was missing or the mark was there before: with all
    tracks on the card nothing is marked. *)
Theorem tracks_completed (path : bytes) (entries : list dirent) (l sd fresh : list bytes)
    (header data : bytes → bytes) (w : world) (p := verify_path (until_nul (tagUid_qbus (tag w))))
    (Hd : env_readdir (hist w) path = Some entries)
    (Esd : sd = take MAX_FILES (d_name <$> filter (λ e, Is_true (d_is_reg e)) entries))
    (Hs : N_server (dl w) = Some l) (Hn : N_count (dl w) = Z.of_nat (length l))
    (Ef : fresh = filter (λ n, negb (is_duplicate sd n)) l) (Hap : apart fresh)
    (Hcan : ∀ n, n ∈ fresh → can_download n (header n) (data n) w)
    (Hb : download_buffer (dl w) = []) (Hp : (length p < 256)%nat) (Hc : can_create p (fs w) = true) :
  ∃ w', process_audio_files path w = Ok (true, w') ∧
    (∀ n, n ∈ l → is_duplicate sd n = true ∨ files (fs w') !! final_path n = Some (header n ++ data n)) ∧
    (∀ n, n ∈ fresh → files (fs w') !! temp_path n = None) ∧
    (is_Some (files (fs w') !! p) ↔ fresh ≠ [] ∨ is_Some (files (fs w) !! p)) ∧
    (∀ q, q ≠ p → q ∉ final_path <$> fresh → q ∉ temp_path <$> fresh → files (fs w') !! q = files (fs w) !! q).
Proof.
  subst sd. destruct (process_audio_run path entries l fresh header data w)
    as (w' & s & Hr & _ & _ & _ & Hf); [done..|]. fold p in Hf.
  assert (∀ q, in_audio q → q ≠ p) as Hpa by by (intros q Hq ->).
  exists w'. rewrite Hf. split_and!; [exact Hr| | | |].
  - intros n Hl. destruct (is_duplicate _ n) eqn:Hdup; [by left|right].
    rewrite marked_other by by apply Hpa. apply (with_tracks_final (λ n, header n ++ data n)); [done|].
    rewrite Ef. apply list_elem_of_filter. split; [by rewrite Hdup|done].
  - intros n Hin. rewrite marked_other by by apply Hpa. by apply with_tracks_temp.
  - rewrite marked_mark, with_tracks_other; [done|..];
      intros (n & E & _)%list_elem_of_fmap; by apply (Hpa p); [rewrite E|].
  - intros q Hq Hqf Hqt. rewrite marked_other by done. by apply with_tracks_other.
Qed.

(** C8 (when a download makes the toy ready).  With the box connected and
    holding a token, a card with its folders, a server that delivers the master
    JSON of the toy on the pad, its playlists and its tracks, and a client that
    can be closed after it was freed, a download succeeds: every playlist is on
    the card under its direction, and every track the document names is there,
    with its header, unless the card had a file of that name before.
    Afterwards the state machine finds the toy ready exactly when a track was
    missing or the card had the toy's mark of completeness already: a download
    that finds all tracks on the card leaves a new toy not ready.  The state
    machine's own object is untouched. *)
Theorem begin_makes_ready `{!CJSONLaws} `{!FreedClose} (t response base : bytes) (ds : list playlist) (names : list bytes)
    (media : Z) (entries : list dirent) (fresh : list bytes) (header data : bytes → bytes) (w : world)
    (Hsite : site_ready t response base ds names media entries fresh header data w) :
  ∃ w', begin t w = Ok (true, w') ∧ sys w' = sys w ∧
    (toy (sys w) = t → toy_ready w' = true ↔ fresh ≠ [] ∨ is_Some (files (fs w) !! verify_path t)) ∧
    (∀ d, d ∈ ds → files (fs w') !! playlist_path t (pl_dir d) = Some (pl_text d)) ∧
    (∀ n, n ∈ names → is_duplicate (listed_names entries) n = true ∨ files (fs w') !! final_path n = Some (header n ++ data n)).
Proof. by apply (begin_run t response base ds names media entries fresh header data w). Qed.
End download_properties.

(** ** Witnesses *)

Section download_witnesses.

(** A server with a document of two questions, a playlist and tracks of three
    bytes, which arrive in two pieces; the card has all tracks but B. *)
Definition site : bytes := lit "http://s/".
Definition south : playlist := {| pl_name := lit "Kit_south.json"; pl_dir := lit "south"; pl_text := lit "{}" |}.
Definition answer_of (url : bytes) : http_answer :=
  if bool_decide (url = HTTPS_GET_USER_TOY_MEDIA_URL) then
    {| http_events := (HTTP_EVENT_ON_DATA <$> [lit "doc"]) ++ [HTTP_EVENT_ON_FINISH; HTTP_EVENT_DISCONNECTED];
       http_ok := true; http_status := 200 |}
  else if bool_decide (url = snprintf 256 (site ++ pl_name south)) then
    {| http_events := [HTTP_EVENT_ON_DATA (lit "{}")] ++ [HTTP_EVENT_ON_FINISH; HTTP_EVENT_DISCONNECTED];
       http_ok := true; http_status := 200 |}
  else
    {| http_events := [HTTP_EVENT_ON_DATA (lit "MP"); HTTP_EVENT_ON_DATA (lit "3")] ++ HTTP_EVENT_ON_FINISH :: [];
       http_ok := true; http_status := 200 |}.

Definition audio_entries : list dirent :=
  (λ n, {| d_name := n ++ lit ".mp3"; d_is_dir := false; d_is_reg := true |}) <$>
    [lit "A"; lit "AC"; lit "AW"; lit "BC"; lit "BW"].

#[local] Instance server_env : Env := {|
  env_time h := 1000 * Z.of_nat (length h);
  env_el_state _ := AEL_STATE_RUNNING;
  env_msg _ := Some Sample.no_msg;
  env_stack _ := Sample.no_msg;
  env_bits _ := 0;
  env_http h := match h with esp_http_client_perform url _ :: _ => answer_of url | _ => Sample.no_answer end;
  env_disconnects _ := true;
  env_freed_close _ := true;
  env_readdir _ _ := Some audio_entries;
  env_err _ := 0;
  env_getfree _ := None;
  FF_SS_SDCARD := 512;
|}.

#[local] Instance server_close : FreedClose.
Proof. by split. Qed.

(** The document 1: base address 2, playlists 3 with the item 5, tracks 4 with
    the items 6 and 9, of the names 7 and 10, the type 8, a question, and the
    answer 13.  A playlist is 11, with the one track 12. *)
#[local] Instance server_json : CJSON := {|
  cJSON_Parse _ := 11;
  cJSON_ParseWithLength _ := 1;
  cJSON_Duplicate j := j;
  cJSON_GetObjectItem j key :=
    if bool_decide (key = lit "baseUrl") then 2 else if bool_decide (key = lit "directionFiles") then 3
    else if bool_decide (key = lit "media") then 4
    else if bool_decide (key = lit "N") then (if bool_decide (j = 6) then 7 else 10)
    else if bool_decide (key = lit "T") then 8 else if bool_decide (key = lit "A") then 13
    else if bool_decide (key = lit "1") then 12 else 0;
  cJSON_GetObjectItemCaseSensitive _ _ := 0;
  cJSON_GetArraySize j := if bool_decide (j = 3 ∨ j = 11) then 1 else if bool_decide (j = 4) then 2 else 0;
  cJSON_GetArrayItem j i := if bool_decide (j = 3) then 5 else if bool_decide (i = 0) then 6 else 9;
  cJSON_IsString j := bool_decide (j ∈ [2; 5; 7; 10]);
  cJSON_IsNumber j := bool_decide (j = 8 ∨ j = 13);
  cJSON_IsArray j := bool_decide (j ∈ [3; 4]);
  cJSON_IsTrue _ := false;
  valuestring j := if bool_decide (j = 2) then Some site else if bool_decide (j = 5) then Some (pl_name south)
                   else if bool_decide (j = 7) then Some (lit "A") else Some (lit "B");
  valueint j := if bool_decide (j = 8 ∨ j = 13) then 1 else 0;
|}.

#[local] Instance server_laws : CJSONLaws.
Proof.
  split.
  - intros v Hv. split; [intros ->; discriminate Hv|]. cbn [valuestring server_json].
    repeat case_bool_decide; by eexists.
  - intros v Hv ->. discriminate Hv.
  - intros v i _ _. cbn [cJSON_GetArrayItem server_json]. repeat case_bool_decide; done.
Qed.

(** Connected, with a token, and the toy A0 on the pad. *)
Definition online : world :=
  update tag (set tagUid_qbus (lit "A0" ++ memset0 18)) (update sys (set toy (lit "A0"))
    (update dl (set validTokenFlag 1) (set wifi (set connected true home_wifi) Sample.world0))).

Definition question_header : bytes := header_text 1 1 (0, 0, 0) (0, 0, 0) (0, 0).

Lemma online_box : box_ready (lit "A0") online.
Proof.
  split.
  - destruct layout_start as (?&?&?&?&?&?&?). unfold layout. split_and!; try done.
    all: constructor; first [reflexivity | vm_compute; lia | split; vm_compute; congruence].
  - vm_compute. reflexivity.
  - apply length_check. vm_compute. reflexivity.
  - reflexivity.
  - exists home_ssid, home_password. split; [exact home_holds|]. vm_compute. discriminate.
  - vm_compute. discriminate.
  - split; [split_and!|]; reflexivity.
Qed.

Lemma online_card : card_ready (lit "A0") [south] online.
Proof.
  split.
  - split_and!; apply (bool_decide_unpack _); vm_compute; exact I.
  - split_and!; [discriminate|vm_compute; lia|apply (bool_decide_unpack _); vm_compute; exact I].
  - vm_compute. reflexivity.
  - apply (bool_decide_unpack _). vm_compute. exact I.
  - apply (bool_decide_unpack _). vm_compute. exact I.
  - intros d ->%list_elem_of_singleton. split; apply (bool_decide_unpack _); vm_compute; exact I.
Qed.

Lemma site_serves name : answer_of (mp3_url site name) = answer_of (lit "track") → serves_track site name (lit "MP3").
Proof.
  intros E h. exists [HTTP_EVENT_ON_DATA (lit "MP"); HTTP_EVENT_ON_DATA (lit "3")], [], 200.
  split; [exact E|]. split; [by repeat constructor|reflexivity].
Qed.

Lemma B_wanted : wanted site 4 online (lit "B") question_header (lit "MP3").
Proof.
  split_and!; [vm_compute; lia|vm_compute; reflexivity..|]. apply site_serves. vm_compute. reflexivity.
Qed.

Lemma B_apart : apart [lit "B"].
Proof.
  split; [apply list.NoDup_singleton|].
  intros a b ->%list_elem_of_singleton ->%list_elem_of_singleton. vm_compute. discriminate.
Qed.

Lemma online_site : site_ready (lit "A0") (lit "doc") site [south] [lit "A"; lit "AC"; lit "AW"; lit "B"; lit "BC"; lit "BW"] 4 audio_entries
  [lit "B"] (λ _, question_header) (λ _, lit "MP3") online.
Proof.
  split.
  - exact online_box.
  - exact online_card.
  - split; [vm_compute; discriminate|..].
    + split_and!; [vm_compute; reflexivity..|vm_compute; lia].
    + split_and!; [vm_compute; discriminate|vm_compute; reflexivity..].
    + split_and!; try (vm_compute; first [reflexivity|discriminate]). eexists. split; vm_compute; reflexivity.
  - intros h. exists (lit "doc"), [], 200. split_and!; [reflexivity|discriminate|reflexivity].
  - intros d ->%list_elem_of_singleton. split.
    + split_and!; [vm_compute; reflexivity|vm_compute; lia..|by repeat constructor].
    + intros h. exists [HTTP_EVENT_ON_DATA (lit "{}")], [HTTP_EVENT_ON_FINISH; HTTP_EVENT_DISCONNECTED], 200.
      split_and!; [vm_compute; reflexivity|by repeat constructor|constructor; [by left|]; constructor; [by right|]; constructor|reflexivity].
  - apply list.NoDup_singleton.
  - reflexivity.
  - vm_compute. reflexivity.
  - exact B_apart.
  - intros n ->%list_elem_of_singleton. exact B_wanted.
Qed.

Example begin_makes_ready_witness :
  ∃ w', begin (lit "A0") online = Ok (true, w') ∧ toy_ready w' = true ∧
    files (fs w') !! final_path (lit "B") = Some (question_header ++ lit "MP3").
Proof.
  destruct (begin_makes_ready _ _ _ _ _ _ _ _ _ _ _ online_site) as (w' & Hr & _ & Hready & _ & Htracks).
  exists w'. split; [exact Hr|]. split; [apply Hready; [reflexivity|left; discriminate]|].
  destruct (Htracks (lit "B")) as [E|E]; [by do 3 right; left|discriminate E|exact E].
Defined.

(** The same box before its tracks, without metadata. *)
Definition listed : world :=
  update dl (λ s, set N_server (Some [lit "A"; lit "B"]) (set N_count 2 (set baseUrl site s)))
    (update fs (update dirs ({[toy_dir (lit "A0")]} ∪.)) online).
Definition no_header : bytes := lit "0" ++ nl ++ lit "0,0" ++ nl.

Example tracks_completed_witness :
  ∃ w', process_audio_files audio_dir listed = Ok (true, w') ∧
    files (fs w') !! final_path (lit "B") = Some (no_header ++ lit "MP3").
Proof.
  destruct (tracks_completed audio_dir audio_entries [lit "A"; lit "B"] (d_name <$> audio_entries) [lit "B"]
    (λ _, no_header) (λ _, lit "MP3") listed) as (w' & Hr & Hf & _).
  - reflexivity.
  - vm_compute. reflexivity.
  - reflexivity.
  - reflexivity.
  - vm_compute. reflexivity.
  - exact B_apart.
  - intros n ->%list_elem_of_singleton.
    split_and!; [vm_compute; lia|vm_compute; reflexivity..|]. apply site_serves. vm_compute. reflexivity.
  - reflexivity.
  - apply length_check. vm_compute. reflexivity.
  - vm_compute. reflexivity.
  - exists w'. split; [exact Hr|].
    destruct (Hf (lit "B")) as [E|E]; [right; left|discriminate E|exact E].
Defined.

End download_witnesses.
