(* ===== verification/Network.v ===== *)
(** * Network: the states in which the box talks to its servers

    Safety.v and Playback.v leave out four states of the state machine: the
    two checks that the phone starts, the connection, and the download.  The
    downloader closes clients it has freed and, after a track that failed, a
    stream it has closed.  With servers that answer as [GoodServer] says, this
    use of freed objects is the only fault these states can have, whatever the
    card holds, whether WiFi connects or not, and however a response is cut
    into pieces; where the closes return and the tracks arrive, there is none. *)

From S2P Require Import Prelude CString World TimeSpent Led SystemBase Player QbusSlave IotQbus SdCard Wifi Ble.
From S2P Require Import SystemHandler SystemControl SystemSpec Metadata MetadataSpec Tracks TracksSpec Downloader Firmware Layout Safety Serial Playback DownloadSpec.
#[local] Open Scope M_scope.

(** ** What the downloads leave behind for the next one *)

(** A NUL in an array: the string it holds ends inside. *)
Definition has_nul (buf : bytes) : Prop := 0 ∈ buf.

(** Paths of the folders of toys and tracks. *)
Definition in_media (path : bytes) : Prop := path !! 8%nat = Some 109.

(** Both lists of names are as long as their counts say, the buffer of the
    playlists holds a string, an open file is one of the media. *)
Definition dl_net (d : dl_st) : Prop :=
  (∀ i, 0 <= i < direction_file_count d → ∃ name, direction_file_names d !! Z.to_nat i = Some (Some name)) ∧
  N_count d = Z.of_nat (length (default [] (N_server d))) ∧
  has_nul (output_buffer d) ∧
  (∀ path, mj_file d = Some path → in_media path) ∧
  (∀ path, mp3_file d = Some path → in_media path).

Definition wifi_net (c : wifi_st) : Prop := has_nul (ssid c) ∧ has_nul (password c).

(** What the phone sent for the checks; the last byte of the response buffer
    is never written. *)
Definition init_net (s : sys_st) : Prop :=
  has_nul (init_ssid s) ∧ has_nul (init_password s) ∧ init_outputBuff s !! 1023%nat = Some 0.

(** The stored credentials, as [readCredentials] reads them, are two strings. *)
Definition as_read (content : bytes) : bytes := take 96 content ++ drop (length (take 96 content)) (memset0 96).
Definition creds_net (f : fs_st) : Prop := ∀ content, files f !! CREDENTIALS_SDCARD_LOCATION = Some content →
  has_nul (take 32 (as_read content)) ∧ has_nul (drop 32 (as_read content)).

Definition net (w : world) : Prop :=
  dl_net (dl w) ∧ wifi_net (wifi w) ∧ init_net (sys w) ∧ creds_net (fs w).

(** ** Servers *)

(** The login is answered with a token; the verdict on a user fits the buffer
    in front of its last byte; a request for a track that fails does not end
    the response; the direction files of a document are named. *)
Class GoodServer `{Env} `{CJSON} : Prop := {
  login_answers h body : let a := env_http (esp_http_client_perform HTTPS_BOX_LOGIN_URL body :: h) in
    http_ok a = true ∧ 200 <= http_status a <= 299;
  verdict_fits h body data :
    HTTP_EVENT_ON_DATA data ∈ http_events (env_http (esp_http_client_perform HTTPS_VERIFY_USERID_URL body :: h)) →
    (length data < 1024)%nat;
  tracks_end h base name : let a := env_http (esp_http_client_perform (mp3_url base name) [] :: h) in
    http_ok a = true ∨ Forall quiet (http_events a);
  directions_named text item : let files := cJSON_GetObjectItem (cJSON_ParseWithLength text) (lit "directionFiles") in
    files ≠ 0 → cJSON_IsArray files = true → item ∈ array_items files → cJSON_IsString item = true;
}.

(** A track arrives: of three requests for it, one after the other, the last
    succeeds at the latest. *)
Definition tracks_arrive `{Env} : Prop := ∀ h base name, let request := esp_http_client_perform (mp3_url base name) [] in
  http_ok (env_http (request :: vTaskDelay 100 :: request :: vTaskDelay 100 :: request :: h)) = true.

(** ** Operations that return and keep the invariant *)

(** What a run may come to besides: whether the use of a freed object counts
    as a way to end. *)
Class Lenience := { lenient : Prop }.

(** Where it does not, closes return and tracks arrive. *)
Class Careful `{Env} `{Lenience} : Prop := {
  closes : lenient ∨ FreedClose;
  arrives : lenient ∨ tracks_arrive;
}.

Definition upto `{Lenience} {A} (m : FW A) (Q : A → world → Prop) (w : world) : Prop :=
  match m w with Ok (a, w') => Q a w' | Fault f => f = UseAfterFree ∧ lenient end.

Section upto.
Context `{Lenience}.

Lemma upto_seq {A B} (m : FW A) (k : A → FW B) (P : A → world → Prop) Q w :
  upto m P w → (∀ a w', P a w' → upto (k a) Q w') → upto (bind m k) Q w.
Proof. unfold upto, bind. destruct (m w) as [[a w']|]; naive_solver. Qed.
Lemma upto_ret {A} (a : A) (Q : A → world → Prop) w : Q a w → upto (ret a) Q w.
Proof. done. Qed.
Lemma upto_of_Ok {A} (m : FW A) (Q : A → world → Prop) w a w' : m w = Ok (a, w') → Q a w' → upto m Q w.
Proof. unfold upto. by intros ->. Qed.
Lemma upto_run_bind {A B} (m : FW A) (k : A → FW B) Q w a w1 : m w = Ok (a, w1) → upto (k a) Q w1 → upto (bind m k) Q w.
Proof. unfold upto, bind. by intros ->. Qed.
Lemma upto_gets_bind {A B} (f : world → A) (k : A → FW B) Q w : upto (k (f w)) Q w → upto (bind (gets f) k) Q w.
Proof. done. Qed.
Lemma upto_modify_bind {B} g (k : () → FW B) Q w : upto (k ()) Q (g w) → upto (bind (modify g) k) Q w.
Proof. done. Qed.
Lemma upto_lift_bind {A B} (r : res A) (a : A) (k : A → FW B) Q w : r = Ok a → upto (k a) Q w → upto (bind (lift r) k) Q w.
Proof. by intros ->. Qed.
Lemma upto_both {A} (m : FW A) (P Q : A → world → Prop) w : upto m P w → wlp m Q w → upto m (λ a w', P a w' ∧ Q a w') w.
Proof. unfold upto, wlp. by destruct (m w) as [[a w']|]. Qed.

End upto.

Definition sound (w : world) : Prop := layout w ∧ net w.
Definition safe `{Lenience} {A} (m : FW A) : Prop := ∀ w, sound w → upto m (λ _, sound) w.

Section safe.
Context `{Lenience}.

Lemma safe_run {A} (m : FW A) w : safe m → sound w →
  (∃ a w', m w = Ok (a, w') ∧ sound w') ∨ (m w = Fault UseAfterFree ∧ lenient).
Proof.
  intros Hm Hw. specialize (Hm w Hw). unfold upto in Hm. destruct (m w) as [[a w']|f]; [left; eauto|right].
  by destruct Hm as [-> ?].
Qed.

Lemma safe_ret {A} (a : A) : safe (ret a).
Proof. by intros w ?. Qed.
Lemma safe_gets {A} (f : world → A) : safe (gets f).
Proof. by intros w ?. Qed.
Lemma safe_modify g : (∀ w, sound w → sound (g w)) → safe (modify g).
Proof. intros Hg w Hw. by apply Hg. Qed.
Lemma safe_bind {A B} (m : FW A) (k : A → FW B) : safe m → (∀ a, safe (k a)) → safe (bind m k).
Proof. intros Hm Hk w Hw. eapply upto_seq; [by apply Hm|]. intros a w1 Hw1. by apply Hk. Qed.
Lemma safe_gets_bind {A B} (f : world → A) (k : A → FW B) : (∀ w0, layout w0 → net w0 → safe (k (f w0))) → safe (bind (gets f) k).
Proof. intros Hk w Hw. by apply (Hk w); destruct Hw. Qed.
Lemma safe_lift_bind {A B} (r : res A) (k : A → FW B) : (∃ a, r = Ok a) → (∀ a, r = Ok a → safe (k a)) → safe (bind (lift r) k).
Proof. intros [a ->] Hk w Hw. by apply (Hk a). Qed.
Lemma safe_lift {A} (r : res A) : (∃ a, r = Ok a) → safe (lift r).
Proof. by intros [a ->] w Hw. Qed.
Lemma safe_if {A} (b : bool) (m1 m2 : FW A) : safe m1 → safe m2 → safe (if b then m1 else m2).
Proof. by destruct b. Qed.
Lemma safe_when b (m : FW ()) : (b = true → safe m) → safe (when b m).
Proof. destruct b; [auto|]. intros _. apply safe_ret. Qed.
Lemma safe_for_each {A} (l : list A) (g : A → FW ()) : (∀ a, a ∈ l → safe (g a)) → safe (for_each l g).
Proof.
  induction l as [|x l IH]; intros Hg; [apply safe_ret|]. apply safe_bind; [apply Hg; left|].
  intros _. apply IH. intros a Ha. apply Hg. by right.
Qed.
Lemma safe_total {A} (m : FW A) : total m → preserves layout m → preserves net m → safe m.
Proof.
  intros Ht Hl Hn w [Hlw Hnw]. destruct (Ht w) as (a & w' & Hr). apply (upto_of_Ok _ _ _ _ _ Hr).
  split; [by apply (preserves_elim _ _ _ _ _ Hl Hlw Hr)|by apply (preserves_elim _ _ _ _ _ Hn Hnw Hr)].
Qed.
Lemma safe_preserves {A} (m : FW A) : safe m → preserves sound m.
Proof. intros Hm w Hw. specialize (Hm w Hw). unfold upto, wlp in *. by destruct (m w) as [[a w']|]. Qed.
(** The answer of a request is the server's. *)
Lemma safe_request `{Env} url body on_event w (w1 := update hist (esp_http_client_perform url body ::.) w)
    (answer := env_http (hist w1)) :
  (∀ e, e ∈ http_events answer → safe (on_event e)) → sound w →
  upto (http_perform url body on_event) (λ a w2, a = answer ∧ sound w2 ∧
    for_each (http_events answer) on_event w1 = Ok ((), w2)) w.
Proof.
  intros He Hw. unfold http_perform. apply upto_modify_bind, upto_gets_bind. fold w1. fold answer.
  destruct (safe_run (for_each (http_events answer) on_event) w1) as [([] & w2 & Hr & Hw2)|[Hr Hl]];
    [by apply safe_for_each|exact Hw|by apply (upto_run_bind _ _ _ _ _ _ Hr)|].
  unfold upto, bind. by rewrite Hr.
Qed.
Lemma safe_http `{Env} {B} url body on_event (k : http_answer → FW B) :
  (∀ h e, e ∈ http_events (env_http (esp_http_client_perform url body :: h)) → safe (on_event e)) →
  (∀ h, safe (k (env_http (esp_http_client_perform url body :: h)))) → safe (bind (http_perform url body on_event) k).
Proof.
  intros He Hk w Hw. eapply upto_seq; [apply safe_request; [apply (He (hist w))|done]|].
  intros _ w2 (-> & Hw2 & _). by apply (Hk (hist w)).
Qed.
End safe.

(** ** Files other than the credentials *)

Lemma media_not_creds path : in_media path → path ≠ CREDENTIALS_SDCARD_LOCATION.
Proof. by intros Hp ->. Qed.

Lemma update_files_net g w : (∀ m, g m !! CREDENTIALS_SDCARD_LOCATION = m !! CREDENTIALS_SDCARD_LOCATION) →
  net w → net (update fs (update files g) w).
Proof.
  intros Hg (Hd & Hw & Hi & Hc). split_and!; [exact Hd|exact Hw|exact Hi|]. intros content. simpl. rewrite Hg. apply Hc.
Qed.

Lemma fopen_w_net path : path ≠ CREDENTIALS_SDCARD_LOCATION → preserves net (fopen_w path).
Proof.
  intros Hp. unfold fopen_w. pres_read. apply preserves_bind; [|intros ?; apply preserves_ret].
  apply preserves_when, preserves_modify. intros w Hw. apply update_files_net; [|done].
  intros m. by apply lookup_insert_ne.
Qed.

Lemma fappend_net path data : path ≠ CREDENTIALS_SDCARD_LOCATION → preserves net (fappend path data).
Proof. intros Hp. apply preserves_modify. intros w Hw. apply update_files_net; [|done]. intros m. by apply lookup_alter_ne. Qed.

Lemma rename_net from to : from ≠ CREDENTIALS_SDCARD_LOCATION → to ≠ CREDENTIALS_SDCARD_LOCATION → preserves net (rename from to).
Proof.
  intros Hf Ht. unfold rename. pres_read. case_match; [|apply preserves_ret].
  apply preserves_if; [apply preserves_ret|]. apply preserves_bind; [|intros ?; apply preserves_ret].
  apply preserves_modify. intros w Hw. apply update_files_net; [|done].
  intros m. by rewrite lookup_insert_ne, lookup_delete_ne.
Qed.

(** ** Strings in arrays *)

Lemma has_nul_cstr buf rest : has_nul buf → ∃ s, cstr (buf ++ rest) = Some s ∧ (length s < length buf)%nat.
Proof.
  unfold has_nul. induction buf as [|c buf IH]; [by intros ?%elem_of_nil|]. intros Hn. cbn [app cstr length].
  case_bool_decide; [by exists []; split; [|simpl; lia]|].
  destruct IH as (s & -> & Hl); [by apply elem_of_cons in Hn as [<-|Hn]|]. exists (c :: s). split; [done|]. simpl. lia.
Qed.

Lemma has_nul_string buf : has_nul buf → ∃ s, cstr buf = Some s ∧ (length s < length buf)%nat.
Proof. intros Hn. destruct (has_nul_cstr buf [] Hn) as (s & Hs & Hl). rewrite app_nil_r in Hs. eauto. Qed.

Lemma has_nul_until buf : has_nul buf → (length (until_nul buf) < length buf)%nat.
Proof.
  unfold has_nul. induction buf as [|c buf IH]; [by intros ?%elem_of_nil|]. intros Hn. cbn [until_nul length].
  case_bool_decide; [simpl; lia|]. simpl. apply -> Nat.succ_lt_mono. apply IH. by apply elem_of_cons in Hn as [<-|Hn].
Qed.

Lemma strcpy_has_nul dst src buf : strcpy dst src = Ok buf → has_nul buf.
Proof. unfold strcpy. case_bool_decide; intros [= <-]. unfold has_nul. set_solver. Qed.

Lemma store_has_nul buf i buf' : store buf i 0 = Ok buf' → has_nul buf'.
Proof.
  unfold store. case_bool_decide; intros [= <-]. unfold has_nul. apply (list_elem_of_lookup_2 _ (Z.to_nat i)).
  apply list_lookup_insert_eq. lia.
Qed.

Lemma memset0_has_nul n : (0 < n)%nat → has_nul (memset0 n).
Proof. intros Hn. unfold has_nul, memset0. destruct n; [lia|]. left. Qed.

(** ** The operations without a server *)

Ltac net_leaf := apply preserves_modify; let w := fresh "w" in intros w Hw; exact Hw.
Ltac net_ops := pres net_leaf.

#[local] Hint Extern 0 (preserves net (fopen_w _)) => apply fopen_w_net; discriminate : pres.
#[local] Hint Extern 0 (preserves net (fappend _ _)) => apply fappend_net; discriminate : pres.

Section credentials.
Context `{Env} `{CJSON}.

Lemma readCredentials_net : preserves net readCredentials.
Proof.
  intros w (Hd & Hw & Hi & Hc). unfold readCredentials. cbv [wlp bind put_wifi modify fopen_r gets ret lift].
  cbn [fs update]. match goal with |- context [files (fs ?x)] => change (files (fs x)) with (files (fs w)) end.
  destruct (files (fs w) !! CREDENTIALS_SDCARD_LOCATION) as [content|] eqn:E.
  - pose proof (Hc _ E) as [H32 H64]. unfold fread_into. rewrite bool_decide_true by (vm_compute; lia).
    split_and!; [exact Hd|split; [exact H32|exact H64]|exact Hi|exact Hc].
  - split_and!; [exact Hd|split; apply memset0_has_nul; lia|exact Hi|exact Hc].
Qed.
#[local] Hint Resolve readCredentials_net : pres.

Lemma ConfigSdCardCredentials_net : preserves net ConfigSdCardCredentials.
Proof. net_ops. Qed.

(** The file is emptied and then holds both arrays. *)
Lemma writeCredentials_net s p : preserves net (writeCredentials s p).
Proof.
  unfold writeCredentials. apply preserves_lift_bind; intros s' Hs. apply preserves_lift_bind; intros p' Hp.
  apply strcpy_has_nul in Hs as Hns. apply strcpy_has_nul in Hp as Hnp.
  apply length_strcpy in Hs, Hp. rewrite length_memset0 in Hs, Hp.
  intros w (Hd & Hw & Hi & Hc). mrun. destruct (can_create _ _); simpl;
    (split_and!; [exact Hd|split; [exact Hns|exact Hnp]|exact Hi|]); [|exact Hc].
  intros content. simpl. rewrite lookup_alter_eq, lookup_insert_eq. intros [= <-]. cbn [app].
  unfold as_read. rewrite (take_ge (s' ++ p') 96), drop_ge, app_nil_r by (rewrite ?length_memset0, length_app; lia).
  rewrite take_app_length', drop_app_length' by done. done.
Qed.
#[local] Hint Resolve writeCredentials_net : pres.

Lemma bleWriteCredentials_net s p : preserves net (bleWriteCredentials s p).
Proof. net_ops. Qed.

(** The strings of the phone are copied with their NUL. *)
Lemma put_init_net {T} (f : sys_st → T) `{!Update f} v : (∀ s, init_net s → init_net (set f v s)) → preserves net (put_sys f v).
Proof. intros Hf. apply preserves_modify. intros w (Hd & Hw & Hi & Hc). split_and!; [done|done|by apply Hf|done]. Qed.

Lemma System_initialize_net s p u : preserves net (System_initialize s p u).
Proof.
  unfold System_initialize. apply preserves_lift_bind; intros s' Hs%strcpy_has_nul.
  apply preserves_bind; [apply put_init_net; by intros ? (_ & ? & ?)|intros _].
  apply preserves_lift_bind; intros p' Hp%strcpy_has_nul.
  apply preserves_bind; [apply put_init_net; by intros ? (? & _ & ?)|intros _]. net_ops.
Qed.
End credentials.

Section others.
Context `{Env} `{CJSON} (float_text : Z → bytes).

#[local] Hint Resolve bleWriteCredentials_net ConfigSdCardCredentials_net System_initialize_net : pres.

Lemma verifyUserID_net u i : preserves net (verifyUserID u i).
Proof. net_ops. Qed.
#[local] Hint Resolve verifyUserID_net : pres.

Lemma EnableTxRx_net tx rx : preserves net (EnableTxRx tx rx).
Proof. apply preserves_skip. Qed.
Lemma TransmitChar_net b : preserves net (TransmitChar b).
Proof. change (preserves net (IotQbusSendByte b)). net_ops. Qed.
Lemma ReadRegCb_net a l d : preserves net (ReadRegCb a l d).
Proof. change (preserves net (QbusRegReadCb a l d)). net_ops. Qed.
Lemma WriteRegCb_net a l d : preserves net (WriteRegCb a l d).
Proof. change (preserves net (QbusRegWriteCb a l d)). unfold QbusRegWriteCb. net_ops. Qed.
#[local] Hint Resolve EnableTxRx_net TransmitChar_net ReadRegCb_net WriteRegCb_net : pres.
Lemma tx_loop_net n : preserves net (tx_loop n).
Proof. induction n; cbn [tx_loop]; net_ops. Qed.
#[local] Hint Resolve tx_loop_net : pres.

Lemma event_turn_net m : event_turn float_text m → preserves net m.
Proof.
  intros []; [| | | | |by destruct e; net_ops|].
  - net_ops.
  - destruct e; net_ops.
  - unfold onRead, read_text. net_ops.
  - net_ops.
  - net_ops.
  - unfold main_rest. net_ops.
Qed.

Lemma play_tone_net tone st : preserves net (play_tone tone st).
Proof. net_ops. Qed.
Lemma battery_gate_net bat chg : preserves net (battery_gate bat chg).
Proof. net_ops. Qed.
#[local] Hint Resolve play_tone_net battery_gate_net : pres.

(** The states outside the network leave its objects alone. *)
Lemma handler_net `{!DownloaderOps} w a w' : networking (state (sys w)) = false → net w → handler w = Ok (a, w') → net w'.
Proof.
  intros Hn Hw Hr. revert Hr. unfold handler, getBatteryLevel, getChargingStatus. cbv [bind get_sys gets].
  destruct (state (sys w)); try discriminate Hn; intros Hr; revert Hw Hr; apply preserves_elim; net_ops.
Qed.
End others.

(** ** The operations with a server *)

(** An update of the state: the fields it changes are looked at one by one. *)
Ltac net_field :=
  first
    [ assumption
    | by eapply store_has_nul
    | by apply memset0_has_nul; lia
    | intros ? [= <-]; first [assumption | done]
    | by intros ? [=] ].
Ltac layout_of Hl :=
  destruct Hl as (? & ? & ? & ? & ? & ? & ?); unfold layout; split_and!; first [assumption | lay_object].
Ltac sound_leaf :=
  apply safe_modify; let w := fresh "w" in let Hl := fresh "Hl" in let Hn := fresh "Hn" in intros w [Hl Hn]; split;
  [ layout_of Hl
  | first [ exact Hn
          | destruct Hn as ((? & ? & ? & ? & ?) & (? & ?) & (? & ? & ?) & ?);
            unfold net, dl_net, wifi_net, init_net; split_and!; net_field ] ].

Create HintDb safe discriminated.

(** What a call of the C library needs: a text shorter than its array. *)
Lemma sprintf_fits n text : (length text < n)%nat → ∃ s, sprintf n text = Ok s.
Proof. intros Hn. exists text. unfold sprintf. by rewrite bool_decide_true. Qed.
Lemma sprintf_Ok n text s : sprintf n text = Ok s → s = text.
Proof. unfold sprintf. case_bool_decide; by intros [= <-]. Qed.
Lemma strcpy_fits dst src : (length src < length dst)%nat → ∃ s, strcpy dst src = Ok s.
Proof. intros Hn. unfold strcpy. rewrite bool_decide_true by done. by eexists. Qed.
Lemma strncpy_fits dst src n : (n ≤ length dst)%nat → ∃ s, strncpy dst src n = Ok s.
Proof. intros Hn. unfold strncpy. rewrite bool_decide_true by done. by eexists. Qed.
Lemma store_fits buf i v : 0 <= i < Z.of_nat (length buf) → ∃ s, store buf i v = Ok s.
Proof. intros Hn. unfold store. rewrite bool_decide_true by done. by eexists. Qed.

Lemma fread_fits buf n content : (n ≤ length buf)%nat → ∃ s, fread_into buf n content = Ok s.
Proof. intros Hn. unfold fread_into. rewrite bool_decide_true by done. by eexists. Qed.

Ltac call_length :=
  lay_open; unfold toy_dir, token_body, master_body, verify_body, braces, member, quoted, splice in *; lay_lengths;
  repeat match goal with |- context [length (until_nul ?b)] => lazymatch goal with
    | _ : (length (until_nul b) ≤ length b)%nat |- _ => fail | _ => pose proof (length_until_nul b) end end;
  repeat match goal with |- context [length (lit ?s)] =>
    let n := eval vm_compute in (length (lit s)) in change (length (lit s)) with n end; cbn [length]; lia.
Ltac call :=
  first
    [ apply sprintf_fits; call_length
    | apply strcpy_fits; call_length
    | apply strncpy_fits; call_length
    | apply store_fits; call_length
    | apply fread_fits; call_length ].

(** The structure of an operation. *)
Ltac safety :=
  lazymatch goal with
  | |- safe (modify _) => sound_leaf
  | |- safe (put_sys _ _) => sound_leaf
  | |- safe (put_wifi _ _) => sound_leaf
  | |- safe (put_dl _ _) => sound_leaf
  | |- safe (emit _) => sound_leaf
  | |- safe (gets _) => apply safe_gets
  | |- safe (ret _) => apply safe_ret
  | |- safe skip => apply safe_ret
  | |- safe (lift _) => apply safe_lift; call
  | |- safe (bind (lift _) _) => apply safe_lift_bind; [call|intros ? ?; safety]
  | |- safe (bind (gets _) _) => safe_read; safety
  | |- safe (bind (get_sys _) _) => safe_read; safety
  | |- safe (bind (get_wifi _) _) => safe_read; safety
  | |- safe (bind (get_tag _) _) => safe_read; safety
  | |- safe (bind (get_dl _) _) => safe_read; safety
  | |- safe (bind _ _) => apply safe_bind; [safety|intros ?; safety]
  | |- safe (when ?b _) => apply safe_when; intros ?; safety
  | |- safe (for_each _ _) => apply safe_for_each; intros ? _; safety
  | |- safe (match ?x with _ => _ end) => destruct x eqn:?; safety
  | |- safe ?m =>
      first
        [ progress cbv zeta beta; safety
        | assumption
        | solve [auto 1 with safe nocore]
        | let rec head t := lazymatch t with ?g _ => head g | _ => t end in
          let h := head m in unfold h; safety ]
  end
with safe_read := apply safe_gets_bind; let w0 := fresh "w0" in let Hl0 := fresh "Hl0" in let Hn0 := fresh "Hn0" in
  intros w0 Hl0 Hn0; cbv beta.

Section network.
Context `{Env} `{CJSON} `{!CJSONLaws} `{!GoodServer} `{Lenience} `{!Careful}.

(** *** Clients *)

Lemma http_cleanup_safe on_event : safe (on_event HTTP_EVENT_DISCONNECTED) → safe (http_cleanup on_event).
Proof. intros He. safety. Qed.

Lemma http_close_freed_safe : safe http_close_freed.
Proof.
  intros w Hw. unfold http_close_freed. apply upto_modify_bind, upto_gets_bind.
  destruct closes as [Hl|Hc]; [by case_match|]. by rewrite freed_close_returns.
Qed.
#[local] Hint Resolve http_close_freed_safe : safe.

(** *** Files and directories *)

Lemma safe_files {A} (m : FW A) : total m → keeps (λ w, (led w, plr w, sys w, wifi w, tag w, qbusSlave w, dl w)) m →
  preserves net m → safe m.
Proof.
  intros Ht Hk Hn. apply safe_total; [done| |done]. intros w Hw. unfold wlp. destruct (m w) as [[a w']|] eqn:E; [|done].
  specialize (Hk _ _ _ E) as [= ? ? ? ? ? ? ?]. unfold layout. by repeat match goal with E : _ w' = _ w |- _ => rewrite E; clear E end.
Qed.

Lemma fopen_w_other path : path ≠ CREDENTIALS_SDCARD_LOCATION → safe (fopen_w path).
Proof. intros Hp. apply safe_files; [total|keeps|by apply fopen_w_net]. Qed.
Lemma fappend_other path data : path ≠ CREDENTIALS_SDCARD_LOCATION → safe (fappend path data).
Proof. intros Hp. apply safe_files; [total|keeps|by apply fappend_net]. Qed.
Lemma fopen_w_safe path : in_media path → safe (fopen_w path).
Proof. intros Hp. by apply fopen_w_other, media_not_creds. Qed.
Lemma fappend_safe path data : in_media path → safe (fappend path data).
Proof. intros Hp. by apply fappend_other, media_not_creds. Qed.
Lemma rename_safe from to : in_media from → in_media to → safe (rename from to).
Proof. intros Hf Ht. apply safe_files; [total|keeps|by apply rename_net; apply media_not_creds]. Qed.
Lemma mkdir_safe path : safe (mkdir path).
Proof. apply safe_files; [total|keeps|net_ops]. Qed.
#[local] Hint Resolve mkdir_safe : safe.
Lemma mkdir_parents_safe seen rest : safe (mkdir_parents seen rest).
Proof. revert seen. induction rest as [|c rest IH]; intros seen; cbn [mkdir_parents]; [apply safe_ret|]. pose proof (IH (c :: seen)). safety. Qed.
#[local] Hint Resolve mkdir_parents_safe : safe.

Lemma strip_slash_length path : (length path ≤ S (length (strip_slash path)))%nat.
Proof.
  unfold strip_slash. destruct (reverse path) as [|c p] eqn:E; [lia|]. apply (f_equal length) in E.
  rewrite length_reverse in E. simpl in E. case_bool_decide; rewrite ?length_reverse; lia.
Qed.

Lemma create_directory_safe path : (2 ≤ length path)%nat → safe (create_directory path).
Proof.
  intros Hp. unfold create_directory. cbv zeta. pose proof (strip_slash_length (snprintf 256 path)) as Hs.
  assert (2 ≤ length (snprintf 256 path))%nat by (unfold snprintf; rewrite length_take; lia).
  rewrite bool_decide_false by (intros E; rewrite E in *; simpl in *; lia).
  destruct (strip_slash _) as [|c rest]; [simpl in *; lia|]. safety.
Qed.

Lemma create_file_safe path content : in_media path → safe (create_file path content).
Proof. intros Hp. pose proof (fopen_w_safe path Hp). pose proof (fappend_safe path content Hp). safety. Qed.

(** The paths of the downloader. *)
Lemma meta_in_media t name : in_media (meta_path (snprintf 256 (toy_dir t)) name).
Proof. done. Qed.
Lemma toy_in_media t rest : in_media (toy_dir t ++ rest).
Proof. done. Qed.
Lemma playlist_in_media t rest : in_media (snprintf 256 (toy_dir t ++ rest)).
Proof. done. Qed.

(** *** WiFi *)

Lemma cred_ssid_safe : safe cred_ssid.
Proof.
  unfold cred_ssid. safe_read. safe_read. apply safe_lift. destruct Hn0 as (_ & [Hs _] & _).
  destruct (has_nul_cstr _ (password (wifi w1)) Hs) as (s & -> & _). by eexists.
Qed.
#[local] Hint Resolve cred_ssid_safe : safe.

Lemma WiFi_connect_safe : safe WiFi_connect.
Proof. safety. Qed.
Lemma WiFi_disconnect_safe : safe WiFi_disconnect.
Proof. safety. Qed.
#[local] Hint Resolve create_directory_safe WiFi_connect_safe WiFi_disconnect_safe : safe.
#[local] Hint Extern 0 (safe (create_file _ _)) => apply create_file_safe; done : safe.

(** *** The token *)

Lemma createFolders_safe : safe createFolders.
Proof. safety. Qed.

Lemma TokenCallback_safe e : safe (TokenCallback e).
Proof. destruct e; safety. Qed.

Lemma getMacID_safe {B} (k : bytes → FW B) : (∀ mac, (length mac < 20)%nat → safe (k mac)) → safe (bind getMacID k).
Proof. intros Hk. unfold getMacID. safe_read. apply Hk. by apply Hl0. Qed.
Lemma getUniqueBoxID_safe {B} (k : bytes → FW B) : (∀ box, (length box ≤ 40)%nat → safe (k box)) → safe (bind getUniqueBoxID k).
Proof.
  intros Hk w Hw. unfold getUniqueBoxID. apply (Hk (until_nul (uniqueBoxID (sys w)))); [|done].
  destruct Hw as [Hl _]. lay_open. pose proof (length_until_nul (uniqueBoxID (sys w))). lia.
Qed.

Lemma downloadToken_safe : safe Metadata.downloadToken.
Proof.
  unfold Metadata.downloadToken. safe_read. case_match; [safety|]. apply safe_bind; [safety|]. intros r.
  apply safe_when. intros _. apply safe_bind; [safety|]. intros _.
  apply getMacID_safe; intros mac Hm. apply getUniqueBoxID_safe; intros box Hb.
  apply safe_lift_bind; [call|]. intros body _. apply safe_http; [intros; apply TokenCallback_safe|]. intros h.
  destruct (login_answers h body) as [Hok Hs]. rewrite Hok. rewrite !bool_decide_false by lia. cbn [orb when]. safety.
Qed.

(** *** The document *)

Lemma str_of_fits v : cJSON_IsString v = true → ∃ s, str_of v = Ok s.
Proof. intros Hv. destruct (str_of_string v Hv) as (s & _ & Hs). eauto. Qed.
Lemma int_of_fits v : v ≠ 0 → ∃ n, int_of v = Ok n.
Proof. intros Hv. unfold int_of. rewrite bool_decide_false by done. by eexists. Qed.
Lemma all_res_fits {A B} (P : B → Prop) (f : A → res B) l : (∀ x, x ∈ l → ∃ y, f x = Ok y ∧ P y) →
  ∃ ys, all_res (f <$> l) = Ok ys ∧ length ys = length l ∧ Forall P ys.
Proof.
  induction l as [|x l IH]; intros Hf; [by exists []|]. cbn [fmap list_fmap all_res].
  destruct (Hf x) as (y & -> & Hy); [left|]. destruct IH as (ys & Hr & Hl & HP); [intros; apply Hf; by right|].
  fold (fmap (M := list) f l). rewrite Hr. exists (y :: ys). split; [done|]. split; [simpl; by rewrite Hl|by constructor].
Qed.
Lemma array_items_there v item : cJSON_IsArray v = true → item ∈ array_items v → item ≠ 0.
Proof.
  intros Hv (i & -> & Hi)%list_elem_of_fmap. apply elem_of_seq in Hi. apply array_item; [done|lia].
Qed.
Lemma array_ints_fit v : cJSON_IsArray v = true → ∃ l, all_res (int_of <$> array_items v) = Ok l.
Proof.
  intros Hv. destruct (all_res_fits (λ _, True) int_of (array_items v)) as (l & Hl & _); [|by exists l].
  intros x Hx. destruct (int_of_fits x) as [n Hn]; [by eapply array_items_there|eauto].
Qed.
Lemma media_names_fit item : ∃ l, media_names item = Ok l.
Proof.
  unfold media_names. destruct (cJSON_IsString _) eqn:Hs; [|by eexists].
  destruct (cJSON_IsNumber _) eqn:Ht; [|by eexists]. cbn [andb].
  destruct (str_of_fits _ Hs) as [n ->]. destruct (int_of_fits _ (number_there _ Ht)) as [t ->]. by eexists.
Qed.

Lemma store_base_url_safe j : safe (store_base_url j).
Proof.
  unfold store_base_url. cbv zeta. apply safe_when. intros [_ Hs]%andb_true_iff. apply safe_lift_bind; [by apply str_of_fits|]. intros s _. safety.
Qed.

(** The count is stored before the names: both together keep the invariant. *)
Lemma store_direction_files_safe text : safe (store_direction_files (cJSON_ParseWithLength text)).
Proof.
  unfold store_direction_files. cbv zeta. set (v := cJSON_GetObjectItem _ _). apply safe_when.
  intros [Hne%negb_true_iff%bool_decide_eq_false Ha]%andb_true_iff.
  destruct (all_res_fits is_Some direction_entry (array_items v)) as (ns & Hns & Hl & HS).
  { intros item Hi. unfold direction_entry. pose proof (directions_named text item Hne Ha Hi) as Hs. rewrite Hs.
    destruct (str_of_fits _ Hs) as [s Ht]. exists (Some s). rewrite Ht. split; [reflexivity|by exists s]. }
  intros w [Hlw (Hd & Hw)]. rewrite Hns. cbv [upto bind put_dl modify lift]. split; [layout_of Hlw|]. split; [|exact Hw].
  split; [|apply Hd]. intros i Hi. change (0 <= i < cJSON_GetArraySize v) in Hi.
  change (∃ name, ns !! Z.to_nat i = Some (Some name)). unfold array_items in Hl. rewrite length_fmap, length_seq in Hl.
  destruct (lookup_lt_is_Some_2 ns (Z.to_nat i)) as [o Ho]; [lia|]. 
  destruct (Forall_lookup_1 _ _ _ _ HS Ho) as [name ->]. eauto.
Qed.

Lemma store_media_safe j : safe (store_media j).
Proof.
  unfold store_media. cbv zeta. apply safe_bind; [safety|]. intros _. safe_read. apply safe_when. intros _.
  destruct (all_res_fits (λ _, True) media_names (array_items (media_json (dl w0)))) as (ns & Hns & Hl & _).
  { intros item _. destruct (media_names_fit item) as [l ->]. eauto. }
  intros w [Hlw (Hd & Hw)]. rewrite Hns. cbv [upto bind put_dl modify lift]. split; [layout_of Hlw|]. split; [|exact Hw].
  destruct Hd as (? & _ & ? & ? & ?). split_and!; try assumption. simpl. case_bool_decide as He; [|done].
  rewrite He in Hl. by destruct ns.
Qed.

Section stores.
Context (j : Z) (t : bytes).
Lemma store_number_safe name : safe (store_number j (snprintf 256 (toy_dir t)) name).
Proof. safety. Qed.
Lemma store_string_safe name : safe (store_string j (snprintf 256 (toy_dir t)) name).
Proof.
  unfold store_string. cbv zeta. apply safe_when. intros [_ Hs]%andb_true_iff.
  apply safe_lift_bind; [by apply str_of_fits|]. intros s _. safety.
Qed.
Lemma store_colours_safe : safe (store_colours j (snprintf 256 (toy_dir t))).
Proof.
  unfold store_colours. cbv zeta. apply safe_when. intros [_ Ha]%andb_true_iff.
  apply safe_lift_bind; [by apply array_ints_fit|]. intros l _. safety.
Qed.
End stores.
#[local] Hint Resolve createFolders_safe downloadToken_safe store_base_url_safe store_direction_files_safe store_media_safe
  store_number_safe store_string_safe store_colours_safe : safe.

Lemma parse_and_store_metadata_safe text : safe (parse_and_store_metadata text).
Proof. safety. Qed.

(** When the file of the response is said to be open, it is. *)
Lemma open_metadata_file_safe w : sound w →
  upto open_metadata_file (λ ok w', sound w' ∧ (ok = true → is_Some (mj_file (dl w')))) w.
Proof.
  intros Hw. unfold open_metadata_file. apply upto_gets_bind. case_bool_decide as Hf; [done|]. apply upto_gets_bind.
  destruct (sprintf_fits 256 (toy_dir (until_nul (tagUid_qbus (tag w))) ++ lit "/")) as [dir Hd].
  { destruct Hw as [Hl _]. call_length. }
  eapply upto_lift_bind; [done|]. apply sprintf_Ok in Hd as ->.
  eapply upto_seq; [by apply create_directory_safe; [rewrite length_app; simpl; lia|]|]. intros [] w1 Hw1; [|done].
  eapply upto_seq; [by apply fopen_w_safe|]. intros opened w2 Hw2.
  set (path := _ ++ lit "metadata.cubbies"). assert (in_media path) as Hp by done. clearbody path.
  assert (safe (put_dl mj_file (if opened then Some path else None))) as Hs by (destruct opened; safety).
  specialize (Hs w2 Hw2). apply upto_modify_bind, upto_ret. split; [exact Hs|]. intros ->. by eexists.
Qed.

Lemma MasterjsonCallback_safe e : safe (MasterjsonCallback e).
Proof.
  pose proof parse_and_store_metadata_safe. destruct e as [| | | |data| | |]; try solve [safety]. unfold MasterjsonCallback. case_match; [safety|].
  safe_read. safe_read. do 2 (apply safe_bind; [safety|intros _]).
  intros w Hw. eapply upto_seq; [by apply open_metadata_file_safe|]. intros ok w2 [Hw2 Hok].
  destruct ok; cbn [when]; [|done]. specialize (Hok eq_refl) as [path Hf]. apply upto_gets_bind. rewrite Hf.
  eapply upto_lift_bind; [reflexivity|]. apply fappend_safe; [|done]. destruct Hw2 as [_ ((_ & _ & _ & Hm & _) & _)]. by apply Hm.
Qed.
#[local] Hint Resolve MasterjsonCallback_safe TokenCallback_safe : safe.
#[local] Hint Extern 1 (safe (http_cleanup _)) => apply http_cleanup_safe; auto 1 with safe nocore : safe.

Lemma download_master_json_safe : safe download_master_json.
Proof.
  unfold download_master_json. safe_read. apply getUniqueBoxID_safe; intros box Hb. apply getMacID_safe; intros mac Hm.
  apply safe_lift_bind; [call|]. intros body _. apply safe_http; [auto 1 with safe nocore|]. intros h. safety.
Qed.

(** *** The playlists *)

Lemma DirectionCallback_safe e : safe (DirectionCallback e).
Proof. destruct e; safety. Qed.
#[local] Hint Resolve DirectionCallback_safe : safe.

Lemma save_file_to_sd_safe name data : safe (save_file_to_sd name data).
Proof. safety. Qed.
#[local] Hint Resolve save_file_to_sd_safe : safe.

Lemma download_file_safe name : safe (download_file name).
Proof.
  unfold download_file. do 2 (apply safe_bind; [safety|intros _]). safe_read. apply safe_http; [auto 1 with safe nocore|].
  intros h. apply safe_bind; [|intros _; safety]. apply safe_when. intros _. case_match; [|safety].
  safe_read. destruct Hn1 as ((_ & _ & Hb & _) & _). destruct (has_nul_string _ Hb) as (s & Hs & _).
  apply safe_lift_bind; [rewrite Hs; by eexists|]. intros text _. safety.
Qed.
#[local] Hint Resolve download_file_safe : safe.

Lemma get_direction_file_name_safe i : safe (get_direction_file_name i).
Proof.
  intros w Hw. unfold get_direction_file_name. apply upto_gets_bind. case_bool_decide as Hi; [|done].
  apply upto_gets_bind. pose proof Hw as [_ ((Hd & _) & _)]. destruct (Hd i Hi) as [name ->].
  eapply upto_lift_bind; [reflexivity|]. by eapply upto_lift_bind.
Qed.
#[local] Hint Resolve get_direction_file_name_safe : safe.

Lemma process_direction_files_safe : safe process_direction_files.
Proof. safety. Qed.

(** *** The tracks *)

Lemma array_field_fits j key n : ∃ l, array_field j key n = Ok l.
Proof.
  unfold array_field. case_match eqn:E; [|by eexists]. apply andb_true_iff in E as [[_ Ha]%andb_true_iff _].
  by apply array_ints_fit.
Qed.

Lemma metadata_text_fits j : ∃ text, metadata_text j = Ok text.
Proof.
  unfold metadata_text. destruct (array_field_fits j (lit "L") 3) as [l Hl], (array_field_fits j (lit "R") 3) as [r Hr],
    (array_field_fits j (lit "Z") 2) as [z Hz]. rewrite Hl, Hr, Hz. case_bool_decide; by eexists.
Qed.

Lemma find_item_fits items name : ∃ m, find_item items name = Ok m.
Proof.
  induction items as [|item items IH]; cbn [find_item]; [by eexists|]. case_match eqn:E; [|done].
  apply andb_true_iff in E as [_ Hs]. destruct (str_of_fits _ Hs) as [s ->]. case_match; [by eexists|done].
Qed.

Lemma write_track_header_safe path name : in_media path → safe (write_track_header path name).
Proof.
  intros Hp. unfold write_track_header, find_metadata_for_file. 
  apply safe_bind.
  - safe_read. case_match; [safety|]. apply safe_lift, find_item_fits.
  - intros m. apply safe_if; [|by apply fappend_safe]. unfold write_metadata_to_file. case_match; [safety|].
    apply safe_lift_bind; [apply metadata_text_fits|]. intros text _. by apply fappend_safe.
Qed.

Lemma flush_buffer_safe : safe flush_buffer.
Proof.
  unfold flush_buffer. safe_read. safe_read. case_match eqn:Hf; [|safety]. destruct Hn1 as ((_ & _ & _ & _ & Hm) & _).
  pose proof (fappend_safe _ (download_buffer (dl w0)) (Hm _ Hf)). safety.
Qed.
#[local] Hint Resolve flush_buffer_safe : safe.

Lemma copy_loop_safe fuel data : safe (copy_loop fuel data).
Proof. revert data. induction fuel as [|fuel IH]; intros data; cbn [copy_loop]; safety. Qed.
#[local] Hint Resolve copy_loop_safe : safe.

Lemma Downloadmp3Callback_safe e : safe (Downloadmp3Callback e).
Proof. destruct e; safety. Qed.
#[local] Hint Resolve Downloadmp3Callback_safe : safe.

Definition track_open (w : world) := mp3_file (dl w).

Lemma copy_loop_open fuel data : keeps track_open (copy_loop fuel data).
Proof. revert data. induction fuel; intros; cbn [copy_loop]; keeps. Qed.
#[local] Hint Resolve copy_loop_open : keeps.

(** Only the end of a response closes the file. *)
Lemma quiet_open e : quiet e → keeps track_open (Downloadmp3Callback e).
Proof. intros [Hf Hd]. destruct e; try done; keeps. Qed.

Lemma quiet_events_open l : Forall quiet l → keeps track_open (for_each l Downloadmp3Callback).
Proof. induction 1; cbn [for_each]; [keeps|]. apply keeps_bind; [by apply quiet_open|done]. Qed.

(** A track that could not be downloaded is still open. *)
Lemma perform_retry_safe n base name w : sound w → is_Some (track_open w) →
  upto (perform_retry n (mp3_url base name)) (λ ok w', sound w' ∧ (ok = false → is_Some (track_open w'))) w.
Proof.
  revert w. induction n as [|n IH]; intros w Hw Hf; cbn [perform_retry]; [done|].
  eapply upto_seq; [apply safe_request; [intros; apply Downloadmp3Callback_safe|done]|].
  intros _ w1 (-> & Hw1 & Hev). case_match eqn:Hok; [done|].
  destruct (tracks_end (hist w) base name) as [Ht|Hq]; [simpl in *; congruence|].
  apply (quiet_events_open _ Hq) in Hev. change (track_open (update hist _ w)) with (track_open w) in Hev.
  apply upto_modify_bind, IH; [exact Hw1|]. change (is_Some (track_open w1)). by rewrite Hev.
Qed.

(** The calls made while a track arrives. *)
Lemma copy_loop_hist fuel data : keeps hist (copy_loop fuel data).
Proof. revert data. induction fuel; intros; cbn [copy_loop]; keeps. Qed.
#[local] Hint Resolve copy_loop_hist : keeps.
Lemma Downloadmp3Callback_hist e : keeps hist (Downloadmp3Callback e).
Proof. destruct e; keeps. Qed.

(** One attempt: it asks once, and once more unless that succeeded. *)
Lemma one_attempt n url w r w' (h := esp_http_client_perform url [] :: hist w) : perform_retry (S n) url w = Ok (r, w') →
  (http_ok (env_http h) = true ∧ r = true) ∨
  ∃ w1, http_ok (env_http h) = false ∧ hist w1 = vTaskDelay 100 :: h ∧ perform_retry n url w1 = Ok (r, w').
Proof.
  cbn [perform_retry]. unfold http_perform. intros (a & w1 & Hr & Hk)%bind_Ok.
  unfold emit in Hr. cbv [bind modify gets ret] in Hr. fold h in Hr.
  match type of Hr with context [for_each ?l _ ?x] => destruct (for_each l Downloadmp3Callback x) as [[[] w2]|] eqn:E; [|discriminate Hr] end.
  injection Hr as <- <-. assert (hist w2 = h) as Hh.
  { refine (keeps_for_each hist _ _ _ _ _ _ E). intros e. apply Downloadmp3Callback_hist. }
  change (env_http _) with (env_http h) in Hk. destruct (http_ok (env_http h)) eqn:Hok; [left|right].
  - by injection Hk as <- <-.
  - exists (update hist (vTaskDelay 100 ::.) w2). split_and!; [done|simpl; by rewrite Hh|exact Hk].
Qed.

Lemma track_arrives base name w r w' : tracks_arrive →
  perform_retry MAX_RETRY_COUNT (mp3_url base name) w = Ok (r, w') → r = true.
Proof.
  intros Ha Hr. apply one_attempt in Hr as [[_ ->]|(w1 & _ & Hh1 & Hr)]; [done|].
  apply one_attempt in Hr as [[_ ->]|(w2 & _ & Hh2 & Hr)]; [done|].
  apply one_attempt in Hr as [[_ ->]|(w3 & Hno & _ & _)]; [done|]. rewrite Hh2, Hh1 in Hno.
  specialize (Ha (hist w) base name). cbv zeta in Ha. congruence.
Qed.

Lemma open_track_safe temp name w : in_media temp → sound w →
  upto (open_track temp name) (λ ok w', sound w' ∧ (ok = true → is_Some (track_open w'))) w.
Proof.
  intros Hp Hw. unfold open_track. eapply upto_seq; [by apply fopen_w_safe|]. intros opened w1 Hw1.
  assert (safe (put_dl mp3_file (if opened then Some temp else None))) as Hs by (destruct opened; safety).
  specialize (Hs w1 Hw1). apply upto_modify_bind. destruct opened; [|apply upto_ret; split; [exact Hs|done]].
  set (w2 := update dl _ w1) in *. change (sound w2) in Hs.
  assert (keeps track_open (write_track_header temp name)) as Hk by keeps.
  eapply upto_seq; [apply upto_both; [by apply (write_track_header_safe temp name Hp)|by unfold wlp; destruct (write_track_header temp name w2) as [[? ?]|] eqn:E; [apply (Hk _ _ _ E)|]]|].
  intros [] w3 [Hw3 Ht]. change (track_open w2) with (Some temp) in Ht. apply upto_modify_bind, upto_ret. split; [|by intros _; exists temp].
  assert (safe (put_dl response_body_size 0)) as Hb by safety. exact (Hb w3 Hw3).
Qed.

Lemma timer_reading w : timer_get_time w = Ok (env_time (esp_timer_get_time :: hist w), update hist (esp_timer_get_time ::.) w).
Proof. done. Qed.

Lemma finish_track_safe ok temp final w : in_media temp → in_media final → sound w →
  (ok = false → is_Some (track_open w) ∧ lenient) → upto (finish_track ok temp final) (λ _, sound) w.
Proof.
  intros Ht Hf Hw Ho. unfold finish_track. destruct ok.
  - pose proof (rename_safe temp final Ht Hf).
    assert (safe (' renamed ← rename temp final; http_cleanup Downloadmp3Callback;; ret renamed)) as Hs.
    { apply safe_bind; [done|intros ?]. apply safe_bind; [apply http_cleanup_safe, Downloadmp3Callback_safe|intros _; safety]. }
    exact (Hs w Hw).
  - destruct (Ho eq_refl) as [Hopen Hl]. apply upto_gets_bind. change (mp3_file (dl w)) with (track_open w).
    rewrite bool_decide_true by done. apply upto_modify_bind, upto_gets_bind. by case_match.
Qed.

Lemma download_mp3_file_safe name : safe (download_mp3_file name).
Proof.
  intros w Hw. unfold download_mp3_file. apply upto_gets_bind. cbv zeta.
  eapply upto_seq; [by apply open_track_safe|]. intros ok w1 [Hw1 Ho1]. destruct ok; cbn [negb]; [|done].
  eapply upto_run_bind; [apply timer_reading|]. set (w1' := update hist _ w1).
  assert (wlp (perform_retry MAX_RETRY_COUNT (mp3_url (baseUrl (dl w)) name)) (λ r _, r = false → lenient) w1') as Hin.
  { unfold wlp. destruct (perform_retry _ _ w1') as [[r w2]|] eqn:Hr; [|done]. intros ->.
    destruct arrives as [Hl|Ha]; [done|]. by apply (track_arrives _ _ _ _ _ Ha) in Hr. }
  eapply upto_seq; [apply upto_both; [apply perform_retry_safe; [exact Hw1|by apply Ho1]|exact Hin]|].
  intros ok w2 [[Hw2 Ho2] Hl2]. eapply upto_run_bind; [apply timer_reading|]. apply upto_gets_bind, upto_modify_bind.
  apply finish_track_safe; [done|done| |intros Hf; split; [exact (Ho2 Hf)|exact (Hl2 Hf)]].
  assert (∀ n, safe (put_dl total_download_time n)) as Hs by (intros n; safety). exact (Hs _ w2 Hw2).
Qed.
#[local] Hint Resolve download_mp3_file_safe : safe.

Lemma download_all_safe names : safe (download_all names).
Proof. induction names as [|name names IH]; cbn [download_all]; safety. Qed.
#[local] Hint Resolve download_all_safe : safe.

Lemma N_values_safe : safe N_values.
Proof.
  intros w Hw. pose proof Hw as [_ ((_ & Hn & _) & _)]. destruct (N_server (dl w)) as [l|] eqn:E.
  - apply (upto_of_Ok _ _ w l w); [by apply N_values_run|done].
  - apply (upto_of_Ok _ _ w [] w); [|done]. unfold N_values. cbv [bind get_dl gets]. by rewrite Hn.
Qed.

Lemma free_N_server_safe : safe free_N_server.
Proof.
  intros w Hw. unfold free_N_server. apply upto_gets_bind. case_match; [|done].
  cbv [upto bind put_dl modify]. destruct Hw as [Hlw ((Hd & _ & Hb) & Hn)].
  split; [layout_of Hlw|]. split; [|exact Hn]. split; [exact Hd|]. split; [reflexivity|exact Hb].
Qed.

Lemma create_verified_file_safe : safe create_verified_file.
Proof.
  unfold create_verified_file, timer_get_time. safe_read. apply safe_lift_bind; [unfold verify_path; call|]. intros path ->%sprintf_Ok.
  pose proof (fopen_w_safe (verify_path (until_nul (tagUid_qbus (tag w0)))) eq_refl).
  pose proof (λ data, fappend_safe (verify_path (until_nul (tagUid_qbus (tag w0)))) data eq_refl). safety.
Qed.
#[local] Hint Resolve N_values_safe free_N_server_safe create_verified_file_safe : safe.

Lemma process_audio_files_safe path : safe (process_audio_files path).
Proof. safety. Qed.
#[local] Hint Resolve createFolders_safe download_master_json_safe process_direction_files_safe process_audio_files_safe : safe.

Lemma begin_safe t : (length t < 20)%nat → safe (begin t).
Proof. intros Ht. unfold begin, set_toy. safety. Qed.
#[local] Hint Extern 0 (safe (begin _)) => apply begin_safe : safe.

(** *** The states *)

Lemma play_tone_safe tone st : safe (play_tone tone st).
Proof. apply safe_total; [apply play_tone_total|apply play_tone_layout|apply play_tone_net]. Qed.
Lemma setState_safe st : safe (setState st).
Proof. apply safe_total; [total|layout|net_ops]. Qed.
#[local] Hint Resolve play_tone_safe setState_safe : safe.

Lemma cred_ssid_value {B} (k : bytes → FW B) : (∀ s, (length s < 32)%nat → safe (k s)) → safe (bind cred_ssid k).
Proof.
  intros Hk w Hw. pose proof Hw as [Hl (_ & [Hs _] & _)]. destruct (has_nul_cstr _ (password (wifi w)) Hs) as (s & E & Hlen).
  eapply upto_run_bind; [unfold cred_ssid; cbv [bind get_wifi gets]; by rewrite E|]. apply Hk; [|done]. lay_open. lia.
Qed.
Lemma cred_password_value {B} (k : bytes → FW B) : (∀ p, (length p < 64)%nat → safe (k p)) → safe (bind cred_password k).
Proof.
  intros Hk w Hw. pose proof Hw as [Hl (_ & [_ Hp] & _)]. destruct (has_nul_string _ Hp) as (p & E & Hlen).
  eapply upto_run_bind; [unfold cred_password; cbv [bind get_wifi gets]; by rewrite E|]. apply Hk; [|done]. lay_open. lia.
Qed.

Lemma start_sta_safe s p : (length s < 32)%nat → (length p < 64)%nat → safe (start_sta s p).
Proof. intros Hs Hp. unfold start_sta. safety. Qed.

Lemma readCredentials_safe : safe readCredentials.
Proof.
  apply safe_total; [|layout|apply readCredentials_net]. intros w. unfold readCredentials, fread_into.
  cbv [bind put_wifi modify fopen_r gets]. case_match; [|by eexists _, _].
  rewrite bool_decide_true by (vm_compute; lia). by eexists _, _.
Qed.

Lemma ConfigSdCardCredentials_safe : safe ConfigSdCardCredentials.
Proof.
  unfold ConfigSdCardCredentials. apply safe_bind; [apply readCredentials_safe|]. intros err. apply safe_if; [safety|].
  apply cred_ssid_value; intros s Hs. apply cred_password_value; intros p Hp. pose proof (start_sta_safe s p Hs Hp). safety.
Qed.
#[local] Hint Resolve ConfigSdCardCredentials_safe : safe.

Lemma DOWNLOAD_WIFI_CONN_safe : safe case_DOWNLOAD_WIFI_CONN.
Proof. safety. Qed.

Lemma DOWNLOAD_TOY_safe : safe case_DOWNLOAD_TOY.
Proof.
  unfold case_DOWNLOAD_TOY. apply safe_bind; [apply safe_total; [total|layout|net_ops]|intros _].
  apply safe_bind; [safety|intros _]. safe_read. apply safe_bind; [|intros _; safety].
  change (safe (Downloader_Downloader;; begin (toy (sys w0)))). apply safe_bind; [safety|intros _]. apply begin_safe. by apply Hl0.
Qed.

Lemma bleWriteCredentials_safe s p : (length s < 32)%nat → (length p < 64)%nat → safe (bleWriteCredentials s p).
Proof.
  intros Hs Hp. assert (∀ a b, (length a < 32)%nat → (length b < 64)%nat → safe (start_sta a b)) as Hsta by apply start_sta_safe.
  assert (safe (writeCredentials s p)) as Hw.
  { apply safe_total; [|layout|apply writeCredentials_net]. intros w. unfold writeCredentials, strcpy.
    rewrite !bool_decide_true by (rewrite length_memset0; lia). mrun. destruct (can_create _ _); by eexists _, _. }
  unfold bleWriteCredentials. safe_read. apply safe_bind; [safety|intros _]. apply safe_bind; [by apply Hsta|intros _].
  apply safe_bind; [safety|]. intros r. apply safe_if; [safety|]. apply safe_bind; [safety|intros _]. safe_read.
  apply safe_bind; [|intros _; safety]. apply safe_when. intros _.
  apply cred_ssid_value; intros a Ha. apply cred_password_value; intros b Hb. pose proof (Hsta a b Ha Hb). safety.
Qed.

Lemma INIT_WIFI_CHECK_safe : safe case_INIT_WIFI_CHECK.
Proof.
  unfold case_INIT_WIFI_CHECK. safe_read. safe_read. apply safe_bind; [|intros ok; safety].
  apply bleWriteCredentials_safe.
  - destruct Hn0 as (_ & _ & (Hs & _) & _). pose proof (has_nul_until _ Hs). lay_open. lia.
  - destruct Hn1 as (_ & _ & (_ & Hp & _) & _). pose proof (has_nul_until _ Hp). lay_open. lia.
Qed.

Lemma InitializerCallback_safe e : (∀ data, e = HTTP_EVENT_ON_DATA data → (length data < 1024)%nat) → safe (InitializerCallback e).
Proof.
  intros Hd. destruct e as [| | | |data| | |]; try solve [safety]. specialize (Hd data eq_refl). unfold InitializerCallback. safe_read.
  assert (length (init_outputBuff (sys w0)) = 1024%nat) as Hlen by apply Hl0. rewrite bool_decide_true by lia.
  destruct Hn0 as (_ & _ & (_ & _ & Hlast) & _).
  assert ((data ++ drop (length data) (init_outputBuff (sys w0))) !! 1023%nat = Some 0).
  { rewrite lookup_app_r, lookup_drop by lia. rewrite <-Hlast. f_equal. lia. }
  safety.
Qed.

Lemma user_verdict_safe j key i user : safe (user_verdict j key i user).
Proof.
  assert (∀ p d, p = USER_ID1_SDCARD_LOCATION ∨ p = USER_ID2_SDCARD_LOCATION → safe (fopen_w p) ∧ safe (fappend p d)) as Hp.
  { by intros p d [-> | ->]; (split; [apply fopen_w_other|apply fappend_other]). }
  assert (safe (fopen_w USER_ID1_SDCARD_LOCATION) ∧ safe (fopen_w USER_ID2_SDCARD_LOCATION)) as [? ?] by (split; apply (Hp _ []); auto).
  assert (∀ d, safe (fappend USER_ID1_SDCARD_LOCATION d)) by (intros d; apply Hp; auto).
  assert (∀ d, safe (fappend USER_ID2_SDCARD_LOCATION d)) by (intros d; apply Hp; auto).
  safety.
Qed.
#[local] Hint Resolve user_verdict_safe : safe.

Lemma verifyUserIdWithServer_safe : safe verifyUserIdWithServer.
Proof.
  unfold verifyUserIdWithServer. safe_read. apply safe_bind.
  { apply safe_when. intros _. change (safe (Downloader_Downloader;; Metadata.downloadToken)). safety. }
  intros _. apply safe_bind; [safety|]. intros r. apply safe_if; [|safety]. safe_read. safe_read. apply getMacID_safe. intros mac Hm.
  apply safe_lift_bind; [call|]. intros body _. apply safe_http.
  { intros h e He. apply InitializerCallback_safe. intros data ->. by eapply verdict_fits. }
  intros h. apply safe_if; [safety|]. apply safe_bind; [safety|intros _]. safe_read.
  destruct Hn3 as (_ & _ & (_ & _ & Hlast) & _). apply list_elem_of_lookup_2, has_nul_string in Hlast as (text & Ht & _).
  apply safe_lift_bind; [rewrite Ht; by eexists|]. intros text' _. safety.
Qed.

Lemma INIT_USER_ID_CHECK_safe : safe case_INIT_USER_ID_CHECK.
Proof. pose proof verifyUserIdWithServer_safe. safety. Qed.

Lemma networking_runs w : sound w → networking (state (sys w)) = true → upto handler (λ _, sound) w.
Proof.
  intros Hw Hn. assert (∀ m : FW (), safe m → handler w = m w → upto handler (λ _, sound) w) as Hrun.
  { intros m Hm E. unfold upto. rewrite E. by apply Hm. }
  destruct (state (sys w)) eqn:Hst; try discriminate Hn.
  - apply (Hrun _ INIT_WIFI_CHECK_safe). by handler_at Hst.
  - apply (Hrun _ INIT_USER_ID_CHECK_safe). by handler_at Hst.
  - apply (Hrun _ DOWNLOAD_WIFI_CONN_safe). by handler_at Hst.
  - apply (Hrun _ DOWNLOAD_TOY_safe). by handler_at Hst.
Qed.

Lemma sound_step float_text a b : sound a → step float_text a b → sound b.
Proof.
  intros Ha Hs. split; [eapply layout_steps; [apply Ha|by apply rtc_once]|]. destruct Hs as [Hr|m Hm Hr].
  - unfold SystemTask_turn in Hr. apply bind_Ok in Hr as ([] & w1 & Hh & [= <-]). change (net w1).
    destruct (networking (state (sys a))) eqn:Hn.
    + pose proof (networking_runs a Ha Hn) as Hup. unfold upto in Hup. rewrite Hh in Hup. apply Hup.
    + eapply handler_net; [exact Hn|apply Ha|exact Hh].
  - eapply (preserves_elim net m); [by eapply event_turn_net|apply Ha|exact Hr].
Qed.

Lemma sound_steps float_text a b : sound a → rtc (step float_text) a b → sound b.
Proof. intros Ha Hr. induction Hr as [|? ? ? Hs _ IH]; [done|]. apply IH. by eapply sound_step. Qed.
End network.

(** ** Properties *)

Section network_properties.
Context `{Env} `{CJSON} `{!CJSONLaws} `{!GoodServer} (float_text : Z → bytes).

(** C6 (what can fault in the network).  With servers that answer as
    [GoodServer] says, in every state the firmware reaches, in any order of its
    tasks' turns and callbacks, the four states that use the network - the
    checks of the credentials and of the user, the connection and the whole
    download of a toy - return, or end in the use of a freed object: the
    client that is closed after its cleanup, or the stream of a track that
    failed, closed once more by the cleanup's event.  Where the close of a
    freed client returns and every track arrives at the third request at the
    latest, they return.  Nothing is asked of the WiFi, of the pieces in which
    responses arrive, of the status of any response but the login's, of the
    documents beyond the names of their direction files, or of the files that
    are on the card, the stored credentials apart.  Each condition is needed:
    see the end of the file. *)
Theorem network_faults (w0 w : world) (Hl : layout w0) (Hn : net w0) (Hr : rtc (step float_text) w0 w)
    (Hs : networking (state (sys w)) = true) :
  ((∃ w', SystemTask_turn w = Ok ((), w')) ∨ SystemTask_turn w = Fault UseAfterFree) ∧
  (FreedClose → tracks_arrive → ∃ w', SystemTask_turn w = Ok ((), w')).
Proof.
  pose (any := {| lenient := True |}). assert (@Careful _ any) as Hany by by split; left.
  assert (sound w) as Hw by by apply (sound_steps float_text w0).
  split.
  - pose proof (networking_runs w Hw Hs) as Hup. unfold upto in Hup. unfold SystemTask_turn, bind.
    destruct (handler w) as [[[] w1]|f]; [left; by eexists|right]. by destruct Hup as [-> _].
  - intros Hc Ha. pose (none := {| lenient := False |}). assert (@Careful _ none) as Hnone by by split; right.
    pose proof (@networking_runs _ _ _ _ none Hnone w Hw Hs) as Hup. unfold upto in Hup. unfold SystemTask_turn, bind.
    destruct (handler w) as [[[] w1]|f]; [by eexists|]. by destruct Hup as [_ []].
Qed.
End network_properties.

(** ** Witnesses *)

Section network_witnesses.
#[local] Existing Instance DownloadSpec.server_env.
#[local] Existing Instance DownloadSpec.server_json.
#[local] Existing Instance DownloadSpec.server_laws.
#[local] Existing Instance DownloadSpec.server_close.

Lemma answers_ok url : http_ok (answer_of url) = true ∧ http_status (answer_of url) = 200.
Proof. unfold answer_of. by repeat case_bool_decide. Qed.

#[local] Instance good_server : GoodServer.
Proof.
  split.
  - intros h body. destruct (answers_ok HTTPS_BOX_LOGIN_URL) as [Hok Hs].
    change (http_ok (answer_of HTTPS_BOX_LOGIN_URL) = true ∧ 200 <= http_status (answer_of HTTPS_BOX_LOGIN_URL) <= 299).
    rewrite Hok, Hs. split; [done|lia].
  - intros h body data Hd. assert (data ∈ [lit "MP"; lit "3"]) as Hin.
    { change (HTTP_EVENT_ON_DATA data ∈ http_events (answer_of HTTPS_VERIFY_USERID_URL)) in Hd.
      assert (http_events (answer_of HTTPS_VERIFY_USERID_URL) = [HTTP_EVENT_ON_DATA (lit "MP"); HTTP_EVENT_ON_DATA (lit "3"); HTTP_EVENT_ON_FINISH]) as E by (vm_compute; reflexivity).
      rewrite E, !elem_of_cons, elem_of_nil in Hd. set_solver. }
    rewrite !elem_of_cons, elem_of_nil in Hin. destruct Hin as [->|[->|[]]]; vm_compute; lia.
  - intros h base name. left. apply answers_ok.
  - intros text item. cbn. intros _ _ Hi. vm_compute in Hi. by apply list_elem_of_singleton in Hi as ->.
Qed.

(** A toy that the card does not know. *)
Definition unknown_toy : world := update sys (set state SYS_TOY_DETECTED) online.

Definition connecting : world := match SystemTask_turn unknown_toy with Ok (_, w) => w | Fault _ => unknown_toy end.

Lemma unknown_toy_layout : layout unknown_toy.
Proof.
  destruct (box_layout _ _ online_box) as (? & ? & [] & ? & ? & ? & ?). split; [done|]. split; [done|]. split; [by constructor|done].
Qed.

Lemma unknown_toy_net : net unknown_toy.
Proof.
  split; [|split; [|split]].
  - split_and!; [intros i Hi; exfalso; simpl in Hi; lia|reflexivity|by apply memset0_has_nul; lia|discriminate|discriminate].
  - split; apply (bool_decide_unpack _); vm_compute; exact I.
  - split_and!; [by apply memset0_has_nul; lia..|reflexivity].
  - intros content Hf. exfalso.
    assert (files (fs unknown_toy) !! CREDENTIALS_SDCARD_LOCATION = None) as E by (vm_compute; reflexivity). congruence.
Qed.

Example network_faults_witness :
  state (sys connecting) = SYS_DOWNLOAD_WIFI_CONN ∧ ∃ w', SystemTask_turn connecting = Ok ((), w').
Proof.
  assert (SystemTask_turn unknown_toy = Ok ((), connecting)) as E by (vm_compute; reflexivity).
  assert (state (sys connecting) = SYS_DOWNLOAD_WIFI_CONN) as Hs by (vm_compute; reflexivity). split; [exact Hs|].
  apply (network_faults fmt_d unknown_toy connecting unknown_toy_layout unknown_toy_net).
  - apply rtc_once, step_system. exact E.
  - rewrite Hs. reflexivity.
  - exact server_close.
  - intros h base name. apply answers_ok.
Defined.
End network_witnesses.

(** ** Every condition is needed *)

Section conditions.

(** The server of DownloadSpec.v with other answers. *)
Definition server_with (answer : bytes → http_answer) : Env := {|
  env_time h := 1000 * Z.of_nat (length h);
  env_el_state _ := AEL_STATE_RUNNING;
  env_msg _ := Some Sample.no_msg;
  env_stack _ := Sample.no_msg;
  env_bits _ := 0;
  env_http h := match h with esp_http_client_perform url _ :: _ => answer url | _ => Sample.no_answer end;
  env_disconnects _ := true;
  env_freed_close _ := true;
  env_readdir _ _ := Some audio_entries;
  env_err _ := 0;
  env_getfree _ := None;
  FF_SS_SDCARD := 512;
|}.

Definition turn_with (servers : Env) (documents : CJSON) : FW () := SystemTask_turn.

Definition downloading : world := update sys (set state SYS_DOWNLOAD_TOY) (update dl (set validTokenFlag 0) online).

(** A login that is refused: the mark of the error is read beyond its byte. *)
Definition refusing (url : bytes) : http_answer :=
  if bool_decide (url = HTTPS_BOX_LOGIN_URL) then {| http_events := []; http_ok := true; http_status := 401 |} else answer_of url.
Example refused_login_faults : turn_with (server_with refusing) server_json downloading = Fault OutOfBounds.
Proof. vm_compute. reflexivity. Qed.

(** A track that breaks off: the stream that the callback closed is closed again. *)
Definition breaking (url : bytes) : http_answer :=
  if bool_decide (url = mp3_url site (lit "B")) then
    {| http_events := [HTTP_EVENT_ON_DATA (lit "M"); HTTP_EVENT_DISCONNECTED]; http_ok := false; http_status := 0 |}
  else answer_of url.
Example broken_track_faults : turn_with (server_with breaking) server_json downloading = Fault NullDeref.
Proof. vm_compute. reflexivity. Qed.

(** A track that cannot be had: its stream is closed, and the cleanup's event
    closes it again. *)
Definition missing (url : bytes) : http_answer :=
  if bool_decide (url = mp3_url site (lit "B")) then {| http_events := []; http_ok := false; http_status := 0 |}
  else answer_of url.
Example failed_track_faults : turn_with (server_with missing) server_json downloading = Fault UseAfterFree.
Proof. vm_compute. reflexivity. Qed.

(** A client that does not let itself be closed once it is freed: the first
    download of the toy's document ends there. *)
Definition strict_env (servers : Env) : Env := {|
  env_time := @env_time servers;
  env_el_state := @env_el_state servers;
  env_msg := @env_msg servers;
  env_stack := @env_stack servers;
  env_bits := @env_bits servers;
  env_http := @env_http servers;
  env_disconnects := @env_disconnects servers;
  env_freed_close _ := false;
  env_readdir := @env_readdir servers;
  env_err := @env_err servers;
  env_getfree := @env_getfree servers;
  FF_SS_SDCARD := @FF_SS_SDCARD servers;
|}.
Example freed_close_faults : turn_with (strict_env (server_with answer_of)) server_json downloading = Fault UseAfterFree.
Proof. vm_compute. reflexivity. Qed.

(** A direction file that is not named by a string: its pointer was never assigned. *)
Definition unnamed_json : CJSON := {|
  cJSON_Parse := @cJSON_Parse server_json;
  cJSON_ParseWithLength := @cJSON_ParseWithLength server_json;
  cJSON_Duplicate := @cJSON_Duplicate server_json;
  cJSON_GetObjectItem := @cJSON_GetObjectItem server_json;
  cJSON_GetObjectItemCaseSensitive := @cJSON_GetObjectItemCaseSensitive server_json;
  cJSON_GetArraySize := @cJSON_GetArraySize server_json;
  cJSON_GetArrayItem := @cJSON_GetArrayItem server_json;
  cJSON_IsString j := negb (bool_decide (j = 5)) && @cJSON_IsString server_json j;
  cJSON_IsNumber := @cJSON_IsNumber server_json;
  cJSON_IsArray := @cJSON_IsArray server_json;
  cJSON_IsTrue := @cJSON_IsTrue server_json;
  valuestring := @valuestring server_json;
  valueint := @valueint server_json;
|}.
Example unnamed_direction_faults : turn_with (server_with answer_of) unnamed_json downloading = Fault Uninitialised.
Proof. vm_compute. reflexivity. Qed.

(** A verdict of more bytes than its buffer has. *)
Definition verbose (url : bytes) : http_answer :=
  if bool_decide (url = HTTPS_VERIFY_USERID_URL) then
    {| http_events := [HTTP_EVENT_ON_DATA (replicate 1025 65)]; http_ok := true; http_status := 200 |} else answer_of url.
Definition asking_user : world := update sys (set state SYS_INIT_USER_ID_CHECK) online.
Example long_verdict_faults : turn_with (server_with verbose) server_json asking_user = Fault OutOfBounds.
Proof. vm_compute. reflexivity. Qed.
End conditions.
