(* ===== verification/PlaySpec.v ===== *)
(** * PlaySpec: a toy on the pad is played

    The turns of the state machine from [SYS_TOY_DETECTED] to the first track,
    composed: what the card holds for the toy decides what is played and what
    the box does when the track ends.  With DownloadSpec.v this gives the whole
    way of a track, from the server to the player. *)

From S2P Require Import Prelude CString World TimeSpent Led SystemBase Player SdCard Wifi Ble SystemHandler SystemControl SystemSpec.
From S2P Require Import Metadata MetadataSpec Tracks TracksSpec Downloader Firmware Layout Safety Playback DownloadSpec.
#[local] Open Scope M_scope.

(** ** What is on the card for a side of a toy *)

(** [n] turns of the state machine with nothing in between. *)
Fixpoint turns `{Env} `{CJSON} (n : nat) : FW () :=
  match n with O => skip | S n => SystemTask_turn;; turns n end.

(** The state that plays a track of type [T], and the one it leads back to. *)
Definition track_state (T : Z) : system_states_et :=
  if bool_decide (T = 2) then SYS_PLAY_ACTIVITY else if bool_decide (T = 1) then SYS_PLAY_QNA else SYS_PLAY_NORMAL_AUDIO.
Definition back_of (T : Z) : system_states_et :=
  if bool_decide (T = 2) then SYS_WAIT_ACTIVITY_RESP else if bool_decide (T = 1) then SYS_WAIT_QNA_RESP else SYS_PLAY_NEXT.

(** ** Lemmas: one turn each *)

Section steps.
Context `{Env} `{CJSON}.

(** What decides what is played, and what has been. *)
Definition pad (w : world) := (files (fs w), toy (sys w), turnTable (sys w), batteryLevel (sys w)).
Definition tape (w : world) := (json (sys w), indexx (sys w), headerData (plr w), played (hist w)).

Lemma turn_of w w1 : handler w = Ok ((), w1) → SystemTask_turn w = Ok ((), update hist (vTaskDelay 20 ::.) w1).
Proof. intros Hr. unfold SystemTask_turn. by rewrite (bind_run _ _ _ _ _ Hr). Qed.

Lemma turns_S n w w1 : handler w = Ok ((), w1) → turns (S n) w = turns n (update hist (vTaskDelay 20 ::.) w1).
Proof. intros Hr. cbn [turns]. by rewrite (bind_run _ _ _ _ _ (turn_of _ _ Hr)). Qed.

Lemma setState_to s w : s ≠ SYS_IDLE → setState s w = Ok ((), update sys (set state s) w).
Proof. intros Hs. unfold setState. by rewrite bool_decide_false by done. Qed.

Lemma TOY_DETECTED_new w : state (sys w) = SYS_TOY_DETECTED → (length (toy (sys w)) < 20)%nat → toy_ready w = true →
  toy (sys w) ≠ previousToy (sys w) → handler w = Ok ((), update sys (set state SYS_PLAY_TOY) w).
Proof.
  intros Hst Ht Hr Hne. handler_at Hst. unfold case_TOY_DETECTED, strcmp_eq. cbv [get_sys gets]. do 2 unfold bind at 1.
  rewrite bool_decide_false, content_or_download_run, Hr by done. by apply setState_to.
Qed.

Lemma PLAY_TOY_next w : state (sys w) = SYS_PLAY_TOY → handler w = Ok ((), update sys (set state SYS_GET_DIRECTION) w).
Proof. intros Hst. handler_at Hst. by apply setState_to. Qed.

Lemma read_theme_at w : (∀ c, files (fs w) !! toy_file (toy (sys w)) (lit "colourTheme") = Some c → good_theme c) →
  (length (toy (sys w)) < 20)%nat → length (themeColor (sys w)) = 3%nat →
  ∃ w', read_theme w = Ok ((), w') ∧ pad w' = pad w ∧ tape w' = tape w ∧ control w' = control w.
Proof.
  intros Hth Ht Hc. assert (keeps (λ w, (pad w, tape w, control w)) read_theme) as Hk by keeps.
  enough (∃ w', read_theme w = Ok ((), w')) as [w' Hr].
  { exists w'. split; [done|]. specialize (Hk _ _ _ Hr).
    split_and!; [apply (f_equal (fst ∘ fst) Hk)|apply (f_equal (snd ∘ fst) Hk)|apply (f_equal snd Hk)]. }
  by apply read_theme_total.
Qed.

(** The playlist of the side the toy faces is there, and the colours can be read. *)
Definition side_open (w : world) (j : Z) : Prop :=
  (∃ dir content, direction_name (turnTable (sys w)) = Some dir ∧
    files (fs w) !! toy_file (toy (sys w)) dir = Some content ∧ j = cJSON_Parse (until_nul (take 1023 content))) ∧
  (∀ content, files (fs w) !! toy_file (toy (sys w)) (lit "colourTheme") = Some content → good_theme content).

Lemma side_open_pad w w' j : pad w' = pad w → side_open w j → side_open w' j.
Proof. intros [= Ef Et Ed _]. unfold side_open. by rewrite Ef, Et, Ed. Qed.

Lemma GET_DIRECTION_opens w j : state (sys w) = SYS_GET_DIRECTION → side_open w j →
  (length (toy (sys w)) < 20)%nat → length (themeColor (sys w)) = 3%nat → 35 <= batteryLevel (sys w) →
  ∃ w', handler w = Ok ((), w') ∧ state (sys w') = SYS_READ_AUDIO_HEADER ∧ pad w' = pad w ∧
    tape w' = (Some j, 0, headerData (plr w), played (hist w)).
Proof.
  intros Hst [(dir & content & Hd & Hf & Ej) Hth] Ht Hc Hb. handler_at Hst. unfold case_GET_DIRECTION.
  rewrite (bind_run _ _ w (turnTable (sys w)) w eq_refl).
  set (w1 := update sys (set turnTable (turnTable (sys w))) w). rewrite (bind_run (put_sys turnTable _) _ w () w1 eq_refl).
  rewrite Hd, (bind_run _ _ w1 (toy (sys w)) w1 eq_refl). pose proof (length_direction _ _ Hd).
  rewrite (lift_run _ (toy_file (toy (sys w)) dir)) by (apply sprintf_short; rewrite length_toy_file; lia).
  rewrite (bind_run _ _ w1 (files (fs w) !! toy_file (toy (sys w)) dir) w1 eq_refl), Hf, <-Ej, battery_gate_charged by done.
  set (w2 := update sys (set state SYS_READ_AUDIO_HEADER) (update sys (set indexx 0) (update sys (set json (Some j)) w1))).
  rewrite (bind_run _ _ w1 () w2); [|reflexivity].
  destruct (read_theme_at w2) as (w3 & Hr3 & Hp & Hk & Hctl); [done..|].
  exists w3. split; [exact Hr3|]. split; [by apply (f_equal fst) in Hctl|]. split; [by rewrite Hp|by rewrite Hk].
Qed.

(** The track of the index, and its header on the card. *)
Definition track_there (w : world) (j i : Z) (name : bytes) (h : header_t) : Prop :=
  track_name j (fmt_d (i + 1)) = Some name ∧ (length name < 50)%nat ∧
  ∃ content, files (fs w) !! audio_path name [] = Some content ∧ parse_header content (headerData (plr w)) = Ok h.

Lemma READ_AUDIO_HEADER_reads w j name h : state (sys w) = SYS_READ_AUDIO_HEADER → json (sys w) = Some j →
  u8_ok (indexx (sys w)) → track_there w j (indexx (sys w)) name h →
  handler w = Ok ((), update sys (set state (track_state (hdr_T h))) (update plr (set headerData h) w)).
Proof.
  intros Hst Hj Hi (Hn & Hl & content & Hf & Hh). handler_at Hst. unfold case_READ_AUDIO_HEADER.
  pose proof (length_key _ Hi) as Hk.
  rewrite (bind_run _ _ w () (update plr (set headerData h) w)).
  2: { unfold readHeader. rewrite (bind_run _ _ w (indexx (sys w)) w eq_refl).
       rewrite (lift_run _ (fmt_d (indexx (sys w) + 1))) by (apply sprintf_short; lia).
       rewrite (bind_run _ _ _ _ _ (item_string_run _ j name w Hj Hn)).
       rewrite (lift_run _ (audio_path name [])) by (apply sprintf_short; rewrite length_audio_path; simpl; lia).
       unfold fopen_r, bind, gets. rewrite Hf. cbv [get_plr gets]. by rewrite Hh. }
  unfold track_state. cbv [bind get_plr gets].
  change (headerData (plr (update plr (set headerData h) w))) with h.
  repeat case_bool_decide; by rewrite setState_to.
Qed.

(** The turn of a track, whatever its type. *)
Lemma track_turn w j T : state (sys w) = track_state T → json (sys w) = Some j →
  u8_ok (indexx (sys w)) → valid_key j (fmt_d (indexx (sys w) + 1)) →
  ∃ w', handler w = Ok ((), w') ∧ track_started j (back_of T) w w' ∧ headerData (plr w') = headerData (plr w) ∧
    pad w' = pad w.
Proof.
  intros Hst Hj Hi Hv. destruct (track_case_runs j w Hj Hi Hv) as ((w1 & Hr1 & Hs1) & (w2 & Hr2 & Hs2) & (w3 & Hr3 & Hs3)).
  set (obs := λ w, (headerData (plr w), pad w)).
  assert (keeps obs case_PLAY_NORMAL_AUDIO ∧ keeps obs case_PLAY_QNA ∧ keeps obs case_PLAY_ACTIVITY) as (Hk1 & Hk2 & Hk3)
    by (split_and!; keeps).
  revert Hst. unfold track_state, back_of. repeat case_bool_decide; intros Hst; handler_at Hst.
  - specialize (Hk3 _ _ _ Hr3). exists w3. split_and!; [done..|apply (f_equal fst Hk3)|apply (f_equal snd Hk3)].
  - specialize (Hk2 _ _ _ Hr2). exists w2. split_and!; [done..|apply (f_equal fst Hk2)|apply (f_equal snd Hk2)].
  - specialize (Hk1 _ _ _ Hr1). exists w1. split_and!; [done..|apply (f_equal fst Hk1)|apply (f_equal snd Hk1)].
Qed.

(** From the header on: two turns. *)
Lemma track_begins w j name h : state (sys w) = SYS_READ_AUDIO_HEADER → json (sys w) = Some j →
  u8_ok (indexx (sys w)) → track_there w j (indexx (sys w)) name h →
  ∃ w', turns 2 w = Ok ((), w') ∧ control w' = (SYS_WAIT_FOR_PLAYER, back_of (hdr_T h)) ∧ pad w' = pad w ∧
    tape w' = (Some j, indexx (sys w), h, audio_path name [] :: played (hist w)).
Proof.
  intros Hst Hj Hi Ht. pose proof (READ_AUDIO_HEADER_reads w j name h Hst Hj Hi Ht) as Hr. destruct Ht as (Hn & Hl & _).
  rewrite (turns_S _ _ _ Hr). set (w1 := update hist _ _).
  destruct (track_turn w1 j (hdr_T h)) as (w2 & Hr2 & (_ & Hj2 & Hi2 & _ & Hc2 & name' & Hn' & Hp2) & Hh2 & Hpad2);
    [done|done|done|by exists name|].
  change (indexx (sys w1)) with (indexx (sys w)) in *. rewrite Hn in Hn'. injection Hn' as <-.
  rewrite (turns_S _ _ _ Hr2). eexists. split; [reflexivity|]. split; [exact Hc2|]. split; [exact Hpad2|].
  unfold tape. simpl. by rewrite Hj2, Hi2, Hh2, Hp2, <-Hj.
Qed.

(** From the direction on: three turns to the first track. *)
Lemma side_begins w j name h : state (sys w) = SYS_GET_DIRECTION → layout w → 35 <= batteryLevel (sys w) →
  side_open w j → track_there w j 0 name h →
  ∃ w', turns 3 w = Ok ((), w') ∧ control w' = (SYS_WAIT_FOR_PLAYER, back_of (hdr_T h)) ∧ pad w' = pad w ∧
    tape w' = (Some j, 0, h, audio_path name [] :: played (hist w)).
Proof.
  intros Hst (_ & _ & Hs & _) Hb Hside Ht. destruct Hs as [Hty _ _ _ _ _ _ _ _ _ _ _ Hth _ _ _].
  destruct (GET_DIRECTION_opens w j) as (w1 & Hr1 & Hst1 & Hpad1 & Ht1); [done..|].
  rewrite (turns_S _ _ _ Hr1). set (w1' := update hist _ w1). injection Ht1 as Ej1 Ei1 Eh1 Ep1. pose proof Hpad1 as [= Ef1 _ _ _].
  destruct (track_begins w1' j name h) as (w2 & Hr2 & Hc2 & Hpad2 & Ht2); [done|done| | |].
  - change (u8_ok (indexx (sys w1))). rewrite Ei1. split; lia.
  - change (track_there w1' j (indexx (sys w1)) name h). rewrite Ei1. destruct Ht as (? & ? & c & Hf & Hh).
    split; [done|]. split; [done|]. exists c. change (fs w1') with (fs w1). change (plr w1') with (plr w1).
    by rewrite Ef1, Eh1.
  - exists w2. split; [exact Hr2|]. split; [exact Hc2|]. split; [by rewrite Hpad2|]. rewrite Ht2. simpl. by rewrite Ei1, Ep1.
Qed.

(** The five turns. *)
Lemma first_track_run w j name h : layout w → state (sys w) = SYS_TOY_DETECTED → toy_ready w = true →
  toy (sys w) ≠ previousToy (sys w) → 35 <= batteryLevel (sys w) → side_open w j → track_there w j 0 name h →
  ∃ w', turns 5 w = Ok ((), w') ∧ control w' = (SYS_WAIT_FOR_PLAYER, back_of (hdr_T h)) ∧ pad w' = pad w ∧
    tape w' = (Some j, 0, h, audio_path name [] :: played (hist w)).
Proof.
  intros Hl Hst Hr Hne Hb Hside Ht. assert (length (toy (sys w)) < 20)%nat as Hty by apply Hl.
  rewrite (turns_S _ _ _ (TOY_DETECTED_new w Hst Hty Hr Hne)). set (w1 := update hist _ _).
  rewrite (turns_S _ _ _ (PLAY_TOY_next w1 eq_refl)). set (w2 := update hist _ _).
  apply (side_begins w2 j name h); [done| |done..].
  destruct Hl as (? & ? & [] & ? & ? & ? & ?). by split_and!.
Qed.

End steps.

(** ** Properties *)

Section play_properties.
Context `{Env} `{CJSON}.

(** C22 (a toy is played).  A toy that is ready and was not the last one on the
    pad is played in five turns: the playlist of the side it faces is opened
    at its first track, the header of that track is read, the pipeline is
    told to play the track's file, and when it ends the box asks the question,
    waits for the activity or goes on, as the type in the header says. *)
Theorem ready_toy_plays (w : world) (j : Z) (name : bytes) (h : header_t) (Hl : layout w)
    (Hst : state (sys w) = SYS_TOY_DETECTED) (Hr : toy_ready w = true)
    (Hne : toy (sys w) ≠ previousToy (sys w)) (Hb : 35 <= batteryLevel (sys w))
    (Hside : side_open w j) (Ht : track_there w j 0 name h) :
  ∃ w', turns 5 w = Ok ((), w') ∧ control w' = (SYS_WAIT_FOR_PLAYER, back_of (hdr_T h)) ∧ pad w' = pad w ∧
    tape w' = (Some j, 0, h, audio_path name [] :: played (hist w)).
Proof. by apply first_track_run. Qed.

Lemma final_audio_path n : (length n < 50)%nat → final_path n = audio_path n [].
Proof. intros Hl. unfold final_path, audio_path, snprintf. apply take_ge. rewrite !length_app. cbn. lia. Qed.

Lemma playlist_toy_file t dir : playlist_path t dir = toy_file t dir.
Proof. unfold playlist_path, toy_file, toy_dir. by rewrite <-!app_assoc. Qed.

(** C4 (from the server to the player).  Where the downloader's close of a freed
    client returns, after a download of the toy on the pad, whenever the machine finds that toy placed anew, facing a side whose
    playlist starts with a track of the download, it plays that track within
    five turns; and it treats the track as the document of the server says: a
    question is asked as a question, with the document's answer. *)
Theorem downloaded_track_plays `{!CJSONLaws} `{!FreedClose} (t response base : bytes) (ds : list playlist) (names : list bytes)
    (media : Z) (entries : list dirent) (fresh : list bytes) (header data : bytes → bytes) (w : world)
    (d : playlist) (n : bytes) (item : Z) (T := number_field item (lit "T"))
    (Hsite : site_ready t response base ds names media entries fresh header data w) (Htoy : toy (sys w) = t)
    (Hd : d ∈ ds) (Hn : n ∈ fresh) (Hlen : (length n < 50)%nat) (Hint : ∀ i, int_ok (valueint i))
    (Hitem : find_item (array_items media) n = Ok item) (Hi : item ≠ 0)
    (Hfirst : track_name (cJSON_Parse (until_nul (take 1023 (pl_text d)))) (lit "1") = Some n) :
  ∃ w1, begin t w = Ok (true, w1) ∧ ∀ w2, fs w2 = fs w1 → layout w2 → state (sys w2) = SYS_TOY_DETECTED →
    toy (sys w2) = t → previousToy (sys w2) ≠ t → direction_name (turnTable (sys w2)) = Some (pl_dir d) →
    35 <= batteryLevel (sys w2) →
    (∀ c, files (fs w2) !! toy_file t (lit "colourTheme") = Some c → good_theme c) →
    ∃ w3, turns 5 w2 = Ok ((), w3) ∧ played (hist w3) = final_path n :: played (hist w2) ∧
      control w3 = (SYS_WAIT_FOR_PLAYER, back_of T) ∧
      (T = 1 → hdr_A (headerData (plr w3)) = number_field item (lit "A")).
Proof.
  destruct (begin_run _ _ _ _ _ _ _ _ _ _ _ Hsite) as (w1 & Hr & Es & Hready & Hlists & Htracks).
  exists w1. split; [exact Hr|]. intros w2 Ef Hl Hst Ety Hpt Hdir Hb Hth.
  pose proof (final_audio_path n Hlen) as Efin.
  destruct (Htracks n) as [Hdup|Hfile].
  { rewrite (site_fresh _ _ _ _ _ _ _ _ _ _ _ Hsite) in Hn. by apply list_elem_of_filter in Hn as [_ Hn]. }
  { rewrite (site_fresh _ _ _ _ _ _ _ _ _ _ _ Hsite) in Hn. apply list_elem_of_filter in Hn as [Hn _]. by rewrite Hdup in Hn. }
  destruct (site_tracks _ _ _ _ _ _ _ _ _ _ _ Hsite n Hn) as (_ & _ & _ & _ & Hh & _).
  assert (metadata_text item = Ok (header n)) as Htext.
  { destruct (json_media _ _ _ _ _ (site_json _ _ _ _ _ _ _ _ _ _ _ Hsite)) as (_ & _ & _ & Hm & _).
    revert Hh. unfold track_header. rewrite (bool_decide_false (media = 0)) by done. rewrite Hitem.
    cbv [mbind res_bind]. by rewrite bool_decide_false. }
  destruct (metadata_header_reads item (header n) (data n) (headerData (plr w2)) Hint Htext) as (h & Hp & HT & Hq & _).
  destruct (first_track_run w2 (cJSON_Parse (until_nul (take 1023 (pl_text d)))) n h) as (w3 & Hr3 & Hc & _ & Htape);
    [done|done| |congruence|done| | |].
  - assert (toy_ready w1 = true) as Hr1 by (apply (Hready Htoy); left; intros ->; by apply elem_of_nil in Hn).
    revert Hr1. unfold toy_ready, has_file. by rewrite Ef, Ety, Es, Htoy.
  - split; [|by rewrite Ety]. exists (pl_dir d), (pl_text d). rewrite Ef, Ety, <-playlist_toy_file.
    split_and!; [done|by apply Hlists|done].
  - split; [done|]. split; [done|]. exists (header n ++ data n). by rewrite Ef, <-Efin.
  - injection Htape as _ _ Eh Ep. exists w3. rewrite Efin. split_and!; [done|done|by rewrite Hc, HT|].
    rewrite Eh. intros HT1. by apply Hq; rewrite HT.
Qed.

End play_properties.

(** ** Witnesses *)

Section play_witnesses.

(** The toy of Playback.v with its mark of completeness. *)
Definition complete : world :=
  update sys (set state SYS_TOY_DETECTED) (update fs (λ f, update dirs ({[toy_dir (lit "A0")]} ∪.)
    (update files (<[verify_path (lit "A0") := []]>) f)) Playback.deck).

Example ready_toy_plays_witness :
  ∃ w', @turns Playback.sample_env Playback.one_track 5 complete = Ok ((), w') ∧
    played (hist w') = [audio_path (lit "A") []] ∧ playerGoBackToState (sys w') = SYS_WAIT_QNA_RESP.
Proof.
  destruct (@ready_toy_plays Playback.sample_env Playback.one_track complete 1 (lit "A")
    (MkHeader 1 0 (0, 0, 0) (0, 0, 0) (memset0 20))) as (w' & Hr & Hc & _ & Hp).
  - destruct layout_start as (? & ? & ? & ? & ? & ? & ?). split_and!; try assumption.
    constructor; first [reflexivity | vm_compute; lia | split; vm_compute; congruence].
  - reflexivity.
  - vm_compute. reflexivity.
  - discriminate.
  - vm_compute. discriminate.
  - split.
    + exists (lit "south"), (lit "{}"). split_and!; vm_compute; reflexivity.
    + intros c Hf. assert (c = lit "1,2,3") as ->.
      { assert (files (fs complete) !! toy_file (toy (sys complete)) (lit "colourTheme") = Some (lit "1,2,3")) as E
          by (vm_compute; reflexivity). rewrite E in Hf. by injection Hf. }
      intros line rest [[r g] b] [= <- <-]. by eexists.
  - split; [vm_compute; reflexivity|]. split; [vm_compute; lia|]. exists Playback.question. split; vm_compute; reflexivity.
  - injection Hp as _ _ _ Hp. exists w'. split; [exact Hr|]. split; [exact Hp|exact (f_equal snd Hc)].
Defined.

(** A toy that is lifted during its detection tone and comes back counts as
    the same toy, and is resumed although its playlist was never opened: the
    machine goes on in the playlist of an earlier toy, and faults when there
    is none. *)
Definition first_toy : world :=
  update sys (λ s, set state SYS_IDLE (set toyPresenseFlag true s))
    (update fs (update files (<[TOY_DETECT_TONE_SDCARD_LOCATION := []]>)) complete).

Section lifted.
#[local] Existing Instance Playback.sample_env.
#[local] Existing Instance Playback.one_track.

Example toy_back_during_tone_faults :
  let lifted := SystemTask_turn;; resetToy;; SystemTask_turn;; setToy (lit "A0");; turns 2 in
  match lifted first_toy with
  | Ok (_, w) => (state (sys w), json (sys w)) = (SYS_RESUME_PLAYING, None)
  | Fault _ => False
  end ∧
  (lifted;; turns 2) first_toy = Fault Uninitialised.
Proof. split; vm_compute; reflexivity. Qed.
End lifted.

(** The toy A0 is placed on the box that downloaded it; the south side is up. *)
Definition placed (w1 : world) : world :=
  update sys (λ s, set state SYS_TOY_DETECTED (set turnTable eSOUTH (set batteryLevel 40 s))) (update fs (λ _, fs w1) online).

Lemma placed_layout w1 : layout (placed w1).
Proof.
  destruct (box_layout _ _ online_box) as (? & ? & ? & ? & ? & ? & ?). split_and!; try assumption.
  constructor; first [reflexivity | vm_compute; lia | split; vm_compute; congruence].
Qed.

Example downloaded_track_plays_witness :
  ∃ w1 w3, @begin server_env server_json (lit "A0") online = Ok (true, w1) ∧
    @turns server_env server_json 5 (placed w1) = Ok ((), w3) ∧ played (hist w3) = [final_path (lit "B")] ∧
    control w3 = (SYS_WAIT_FOR_PLAYER, SYS_WAIT_QNA_RESP) ∧ hdr_A (headerData (plr w3)) = 1.
Proof.
  destruct (@downloaded_track_plays server_env server_json server_laws server_close (lit "A0") (lit "doc") site [south]
    [lit "A"; lit "AC"; lit "AW"; lit "B"; lit "BC"; lit "BW"] 4 audio_entries [lit "B"] (λ _, question_header) (λ _, lit "MP3") online south (lit "B") 9) as (w1 & Hr & Hgo).
  - exact online_site.
  - reflexivity.
  - left.
  - left.
  - vm_compute. lia.
  - intros i. unfold int_ok. simpl. case_bool_decide; lia.
  - vm_compute. reflexivity.
  - discriminate.
  - vm_compute. reflexivity.
  - assert (files (fs w1) !! toy_file (lit "A0") (lit "colourTheme") = None) as Hc.
    { assert (match @begin server_env server_json (lit "A0") online with
        | Ok (_, w) => files (fs w) !! toy_file (lit "A0") (lit "colourTheme") | Fault _ => None end = None) as E
        by (vm_compute; reflexivity). by rewrite Hr in E. }
    destruct (Hgo (placed w1)) as (w3 & Hr3 & Hp & Hctl & Ha).
    + reflexivity.
    + apply placed_layout.
    + reflexivity.
    + reflexivity.
    + discriminate.
    + reflexivity.
    + discriminate.
    + intros c. change (fs (placed w1)) with (fs w1). by rewrite Hc.
    + exists w1, w3. split_and!; [exact Hr|exact Hr3|exact Hp|exact Hctl|by apply Ha].
Defined.
End play_witnesses.
