(* ===== verification/Songs.v ===== *)
(** * Songs: a toy left on the pad plays its songs in order, round and round

    One song after the other: the end of a song, reported by the player, leads
    to the next one, and the end of the last one to the first.  The machine
    runs alone here; what the keys, the base and the phone may do in between
    is bounded in Firmware.v and Playback.v. *)

From S2P Require Import Prelude CString World TimeSpent Led SystemBase Player SdCard Wifi Ble SystemHandler SystemControl SystemSpec.
From S2P Require Import Metadata Tracks Downloader Firmware Layout Safety Playback DownloadSpec PlaySpec.
#[local] Open Scope M_scope.

(** ** Songs and a player that finishes them *)

Section songs.
Context `{Env} `{CJSON}.

(** The playlist [j] has the tracks [names], and each of them is a plain song
    on the card.  (A playlist of 256 tracks has no end, see SystemSpec.v.) *)
Record songs (j : Z) (names : list bytes) (card : gmap bytes bytes) : Prop := {
  songs_size : cJSON_GetArraySize j = Z.of_nat (length names);
  songs_count : (0 < length names < 256)%nat;
  songs_tracks : ∀ i name, names !! i = Some name →
    track_name j (fmt_d (Z.of_nat i + 1)) = Some name ∧ (length name < 50)%nat;
  songs_plain : ∀ name, name ∈ names → ∃ content, card !! audio_path name [] = Some content ∧
    ∀ h, ∃ h', parse_header content h = Ok h' ∧ back_of (hdr_T h') = SYS_PLAY_NEXT;
}.

(** What [CheckPlayingCompleted] takes for the end of a track. *)
Definition finishes (msg : audio_msg) : bool :=
  msg_is_element msg && bool_decide (msg_source msg = src_writer)
  && bool_decide (msg_cmd msg = AEL_MSG_CMD_REPORT_STATUS) && bool_decide (msg_data msg = AEL_STATUS_STATE_FINISHED).

(** The calls of a turn that waits: the event is read (after a timeout, whatever
    the message holds), the format of the
    output is set when the decoder reports it, and the task sleeps. *)
Definition waited (h : list call) : list call :=
  let msg := heard h in
  let h := listened h in
  vTaskDelay 20 :: (if msg_is_element msg && bool_decide (msg_source msg = src_decoder)
                       && bool_decide (msg_cmd msg = AEL_MSG_CMD_REPORT_MUSIC_INFO)
                    then i2s_stream_set_clk :: audio_element_setinfo :: audio_element_getinfo :: h else h).

(** However long the box waits, the player reports the end of the track. *)
Definition player_finishes : Prop :=
  ∀ h, ∃ n, finishes (heard (Nat.iter n waited h)) = true.

(** ** Lemmas: waiting *)

(** The song [i] plays, for the toy and the card of [p]. *)
Record at_song (j : Z) (i : nat) p (w : world) : Prop := {
  song_control : control w = (SYS_WAIT_FOR_PLAYER, SYS_PLAY_NEXT);
  song_layout : layout w;
  song_json : json (sys w) = Some j;
  song_index : indexx (sys w) = Z.of_nat i;
  song_pad : pad w = p;
}.

Lemma wait_turn w : control w = (SYS_WAIT_FOR_PLAYER, SYS_PLAY_NEXT) →
  ∃ w', handler w = Ok ((), w') ∧ pad w' = pad w ∧ tape w' = tape w ∧
    if finishes (heard (hist w)) then state (sys w') = SYS_PLAY_NEXT
    else control w' = control w ∧ vTaskDelay 20 :: hist w' = waited (hist w).
Proof.
  intros Hctl. pose proof Hctl as [= Hst Hback]. handler_at Hst. unfold case_WAIT_FOR_PLAYER. cbv [get_sys gets]. unfold bind at 1.
  rewrite Hback. cbn [bool_decide]. unfold wait_completed.
  assert (∃ w1, CheckPlayingCompleted w = Ok (finishes (heard (hist w)), w1) ∧
    sys w1 = sys w ∧ fs w1 = fs w ∧ headerData (plr w1) = headerData (plr w) ∧ played (hist w1) = played (hist w) ∧
    vTaskDelay 20 :: hist w1 = waited (hist w)) as (w1 & Hr & Es & Ef & Eh & Ep & Ew).
  { unfold waited, finishes. unfold CheckPlayingCompleted. rewrite (bind_run _ _ _ _ _ (listen_run w)). mrun.
    assert (played (listened (hist w)) = played (hist w)) as Hlp by (unfold listened; by case_match).
    destruct (heard (hist w)) as [el src cmd data]. simpl.
    destruct el, src, cmd, data; simpl; try (by eexists);
      destruct (isResponseRequiredFlag (plr w)) eqn:Hf; simpl; by eexists. }
  rewrite !(bool_decide_false (SYS_PLAY_NEXT = _)) by done. rewrite (bind_run _ _ _ _ _ Hr).
  assert (pad w1 = pad w ∧ tape w1 = tape w ∧ control w1 = control w) as (Hp & Ht & Hc).
  { unfold pad, tape, control. by rewrite Es, Ef, Eh, Ep. }
  destruct (finishes _); cbn [when]; [|by exists w1].
  rewrite (bind_run _ _ _ _ _ (GetStartTime_run w1)).
  assert (playerGoBackToState (sys w1) = SYS_PLAY_NEXT) as Hb1 by by rewrite Es.
  cbv [put_plr modify bind get_sys gets].
  change (playerGoBackToState (sys (update plr _ (ticked 1 w1)))) with (playerGoBackToState (sys w1)).
  rewrite Hb1, setState_to by done. eexists. split; [reflexivity|]. split; [exact Hp|]. split; [exact Ht|done].
Qed.
(** ** Lemmas: from one song to the next *)

Lemma pad_battery w w' : pad w' = pad w → batteryLevel (sys w') = batteryLevel (sys w).
Proof. by intros [=]. Qed.

Lemma turns_app n m w w1 : turns n w = Ok ((), w1) → turns (n + m) w = turns m w1.
Proof.
  revert w. induction n as [|n IH]; intros w; cbn [turns Nat.add]; [by intros [= <-]|].
  intros ([] & w2 & Hr & Hn)%bind_Ok. rewrite (bind_run _ _ _ _ _ Hr). by apply IH.
Qed.

Lemma turns_layout n w w' : layout w → turns n w = Ok ((), w') → layout w'.
Proof.
  revert w. induction n as [|n IH]; intros w Hl; cbn [turns]; [by intros [= <-]|].
  intros ([] & w1 & Hr & Hn)%bind_Ok. apply (IH w1); [|done].
  apply (layout_steps fmt_d w); [done|]. by apply rtc_once, step_system.
Qed.

Lemma PLAY_NEXT_moves w j : state (sys w) = SYS_PLAY_NEXT → json (sys w) = Some j → 35 <= batteryLevel (sys w) →
  ∃ w', handler w = Ok ((), w') ∧ pad w' = pad w ∧
    tape w' = (Some j, u8 (indexx (sys w) + 1), headerData (plr w), played (hist w)) ∧
    state (sys w') = if bool_decide (cJSON_GetArraySize j <= u8 (indexx (sys w) + 1)) then SYS_PLAYING_COMPLETE
                     else SYS_READ_AUDIO_HEADER.
Proof.
  intros Hst Hj Hb. handler_at Hst. unfold case_PLAY_NEXT.
  assert (∃ w0, SkipCurrentAudio w = Ok ((), w0) ∧ sys w0 = sys w ∧ fs w0 = fs w ∧ plr w0 = plr w ∧
    played (hist w0) = played (hist w)) as (w0 & Hr & Es & Ef & Ep & Eh).
  { mrun. mcase; by eexists. }
  rewrite (bind_run _ _ _ _ _ Hr). set (w1 := update sys (set indexx (u8 (indexx (sys w) + 1))) w0).
  rewrite (bind_run (get_sys indexx) _ w0 (indexx (sys w)) w0) by (cbv [get_sys gets]; by rewrite Es).
  rewrite (bind_run (put_sys indexx _) _ w0 () w1 eq_refl).
  rewrite (bind_run (get_sys indexx) _ w1 (u8 (indexx (sys w) + 1)) w1 eq_refl).
  rewrite (bind_run SystemHandler.playlist _ w1 j w1) by (unfold SystemHandler.playlist; cbv [bind get_sys gets]; simpl; by rewrite Es, Hj).
  assert (pad w1 = pad w ∧ tape w1 = (Some j, u8 (indexx (sys w) + 1), headerData (plr w), played (hist w))) as [Hp Ht].
  { unfold pad, tape. simpl. by rewrite Es, Ef, Ep, Eh, Hj. }
  rewrite battery_gate_charged by done.
  case_bool_decide; rewrite setState_to by done; by eexists.
Qed.

Section toy.
Context (j : Z) (names : list bytes) (w0 : world).
Context (Hsongs : songs j names (files (fs w0))) (Hside : side_open w0 j) (Hb : 35 <= batteryLevel (sys w0)).

Lemma song_there i w name : pad w = pad w0 → names !! i = Some name →
  ∃ h, track_there w j (Z.of_nat i) name h ∧ back_of (hdr_T h) = SYS_PLAY_NEXT.
Proof.
  intros [= Ef _ _ _] Hn. destruct (songs_tracks _ _ _ Hsongs i name Hn) as [Ht Hl].
  destruct (songs_plain _ _ _ Hsongs name) as (c & Hc & Hh); [by eapply list_elem_of_lookup_2|].
  destruct (Hh (headerData (plr w))) as (h & Hp & Hback). exists h. split; [|done].
  split; [done|]. split; [done|]. exists c. by rewrite Ef.
Qed.

(** The end of a song: the index is moved. *)
Lemma song_ends i w : at_song j i (pad w0) w → (i < length names)%nat →
  finishes (heard (hist w)) = true →
  ∃ w', turns 2 w = Ok ((), w') ∧ pad w' = pad w0 ∧ json (sys w') = Some j ∧ indexx (sys w') = Z.of_nat (S i) ∧
    played (hist w') = played (hist w) ∧
    state (sys w') = if decide (S i = length names) then SYS_PLAYING_COMPLETE else SYS_READ_AUDIO_HEADER.
Proof.
  intros [Hc Hl Hj Hi Hp] Hlt Hf. pose proof (songs_size _ _ _ Hsongs) as Hsz. pose proof (songs_count _ _ _ Hsongs) as Hcnt.
  destruct (wait_turn w Hc) as (w1 & Hr1 & Hp1 & Ht1 & Hst1). rewrite Hf in Hst1. set (w1' := update hist (vTaskDelay 20 ::.) w1).
  injection Ht1 as Ej1 Ei1 Eh1 Epl1.
  destruct (PLAY_NEXT_moves w1' j Hst1) as (w2 & Hr2 & Hp2 & Ht2 & Hst2).
  { simpl. congruence. }
  { pose proof (pad_battery _ _ Hp1) as E1. pose proof (pad_battery _ _ Hp) as E0.
    change (35 <= batteryLevel (sys w1)). by rewrite E1, E0. }
  assert (u8 (indexx (sys w1') + 1) = Z.of_nat (S i)) as Eu.
  { change (indexx (sys w1')) with (indexx (sys w1)). rewrite Ei1, Hi. unfold u8. rewrite Z.mod_small; lia. }
  rewrite Eu in Ht2, Hst2. injection Ht2 as Ej2 Ei2 Eh2 Epl2.
  exists (update hist (vTaskDelay 20 ::.) w2). split; [rewrite (turns_S _ _ _ Hr1); by rewrite (turns_S _ _ _ Hr2)|].
  split; [by rewrite <-Hp, <-Hp1|]. split; [done|]. split; [done|]. split; [by rewrite <-Epl1|].
  change (state (sys w2) = if decide (S i = length names) then SYS_PLAYING_COMPLETE else SYS_READ_AUDIO_HEADER).
  rewrite Hst2, Hsz. clear -Hlt. case_bool_decide; case_decide; done || lia.
Qed.

(** And the next one begins, after four turns, or seven when the playlist is
    opened again. *)
Lemma next_song i w : at_song j i (pad w0) w → (i < length names)%nat →
  finishes (heard (hist w)) = true →
  ∃ n w' name, turns n w = Ok ((), w') ∧ names !! (S i mod length names)%nat = Some name ∧
    at_song j (S i mod length names) (pad w0) w' ∧ played (hist w') = audio_path name [] :: played (hist w).
Proof.
  intros Hat Hlt Hf. destruct (song_ends i w Hat Hlt Hf) as (w2 & H2 & Hp2 & Hj2 & Hi2 & Hpl2 & Hst2).
  destruct Hat as [_ Hl _ _ _]. pose proof (songs_count _ _ _ Hsongs) as Hcnt.
  destruct (decide (S i = length names)) as [Hend|Hend].
  - rewrite Hend, Nat.Div0.mod_same. destruct (lookup_lt_is_Some_2 names 0) as [name Hn]; [lia|].
    set (w3 := update hist (vTaskDelay 20 ::.) (update sys (set state SYS_PLAY_TOY) w2)).
    set (w4 := update hist (vTaskDelay 20 ::.) (update sys (set state SYS_GET_DIRECTION) w3)).
    assert (turns 4 w = Ok ((), w4)) as H4.
    { etrans; [exact (turns_app 2 2 w w2 H2)|]. assert (handler w2 = Ok ((), update sys (set state SYS_PLAY_TOY) w2)) as Hr.
      { handler_at Hst2. by apply setState_to. }
      rewrite (turns_S _ _ _ Hr). by rewrite (turns_S _ _ _ (PLAY_TOY_next w3 eq_refl)). }
    destruct (song_there 0 w4 name) as (h & Ht & Hback); [by rewrite <-Hp2|done|].
    destruct (side_begins w4 j name h) as (w5 & Hr5 & Hc5 & Hp5 & Ht5); [done|by eapply turns_layout| | |done|].
    { pose proof (pad_battery _ _ Hp2) as E2. change (35 <= batteryLevel (sys w2)). by rewrite E2. }
    { by apply (side_open_pad w0); [rewrite <-Hp2|]. }
    injection Ht5 as Ej5 Ei5 _ Epl5.
    assert (turns 7 w = Ok ((), w5)) as H7 by (by etrans; [exact (turns_app 4 3 w w4 H4)|]).
    exists 7%nat, w5, name. split; [done|]. split; [done|]. split; [|by rewrite Epl5, <-Hpl2].
    split; [by rewrite Hc5, Hback|by eapply turns_layout|done|done|by rewrite Hp5, <-Hp2].
  - rewrite Nat.mod_small by lia. destruct (lookup_lt_is_Some_2 names (S i)) as [name Hn]; [lia|].
    destruct (song_there (S i) w2 name) as (h & Ht & Hback); [done..|].
    destruct (track_begins w2 j name h) as (w3 & Hr3 & Hc3 & Hp3 & Ht3); [done|done| |by rewrite Hi2|].
    { rewrite Hi2. unfold u8_ok. lia. }
    injection Ht3 as Ej3 Ei3 _ Epl3. assert (turns 4 w = Ok ((), w3)) as H4 by (by etrans; [exact (turns_app 2 2 w w2 H2)|]).
    exists 4%nat, w3, name. split; [done|]. split; [done|]. split; [|by rewrite Epl3, Hpl2].
    split; [by rewrite Hc3, Hback|by eapply turns_layout|done|by rewrite Ei3|by rewrite Hp3].
Qed.

(** A song is waited for, however long it plays. *)
Lemma song_waits n i w : at_song j i (pad w0) w →
  finishes (heard (Nat.iter n waited (hist w))) = true →
  ∃ m w', turns m w = Ok ((), w') ∧ at_song j i (pad w0) w' ∧ played (hist w') = played (hist w) ∧
    finishes (heard (hist w')) = true.
Proof.
  revert w. induction n as [|n IH]; intros w Hat Hf; [by exists 0%nat, w|].
  destruct (finishes (heard (hist w))) eqn:Hnow; [by exists 0%nat, w|].
  destruct Hat as [Hc Hl Hj Hi Hp]. destruct (wait_turn w Hc) as (w1 & Hr1 & Hp1 & Ht1 & Hst1).
  rewrite Hnow in Hst1. destruct Hst1 as [Hc1 Hh1]. injection Ht1 as Ej1 Ei1 _ Epl1.
  set (w1' := update hist (vTaskDelay 20 ::.) w1).
  assert (turns 1 w = Ok ((), w1')) as H1 by (by rewrite (turns_S _ _ _ Hr1)).
  destruct (IH w1') as (m & w2 & Hr2 & Hat2 & Hpl2 & Hf2).
  - split; [by rewrite <-Hc, <-Hc1|by eapply turns_layout|simpl; congruence|simpl; congruence|by rewrite <-Hp, <-Hp1].
  - change (hist w1') with (vTaskDelay 20 :: hist w1). rewrite Hh1. by rewrite <-Nat.iter_succ_r.
  - exists (S m), w2. split; [by etrans; [exact (turns_app 1 m w w1' H1)|]|]. split; [done|]. split; [|done].
    rewrite Hpl2. exact Epl1.
Qed.

(** The [k] songs after the [i]-th, in the order in which they are played. *)
Definition songs_after (i k : nat) : list bytes :=
  (λ d, audio_path (nth ((i + d) mod length names) names []) []) <$> seq 1 k.

Lemma songs_on i k w : player_finishes → at_song j i (pad w0) w → (i < length names)%nat →
  ∃ n w', turns n w = Ok ((), w') ∧ at_song j ((i + k) mod length names) (pad w0) w' ∧
    played (hist w') = reverse (songs_after i k) ++ played (hist w).
Proof.
  intros Hfin Hat Hi. pose proof (songs_count _ _ _ Hsongs) as Hcnt. induction k as [|k (n & w1 & Hr1 & Hat1 & Hpl1)].
  { exists 0%nat, w. split; [done|]. by rewrite Nat.add_0_r, Nat.mod_small. }
  destruct (Hfin (hist w1)) as [d Hd]. destruct (song_waits d _ w1 Hat1 Hd) as (m & w2 & Hr2 & Hat2 & Hpl2 & Hf2).
  assert (((i + k) mod length names < length names)%nat) as Hlt by (apply Nat.mod_upper_bound; lia).
  destruct (next_song _ w2 Hat2 Hlt Hf2) as (l & w3 & name & Hr3 & Hn & Hat3 & Hpl3).
  assert ((S ((i + k) mod length names) mod length names = (i + S k) mod length names)%nat) as Emod.
  { rewrite <-Nat.add_1_r, Nat.Div0.add_mod_idemp_l. f_equal. lia. }
  rewrite Emod in Hn, Hat3. exists (n + (m + l))%nat, w3. split_and!; [|done|].
  - by rewrite (turns_app _ _ _ _ Hr1), (turns_app _ _ _ _ Hr2).
  - unfold songs_after. rewrite Hpl3, Hpl2, Hpl1, seq_S, fmap_app, reverse_app. cbn [fmap list_fmap].
    rewrite (nth_lookup_Some names _ [] name) by done. done.
Qed.

End toy.

(** ** Properties *)

(** C21 (a toy plays its songs).  A toy with plain songs that is placed anew
    plays all of them in the order of its playlist, and then starts over: for
    every number [k] the box comes, in a finite number of turns, to the
    song after the first [k], and the player was told to play exactly these
    songs, one after the other, whatever time each of them takes. *)
Theorem songs_in_order (w : world) (j : Z) (names : list bytes) (Hl : layout w)
    (Hst : state (sys w) = SYS_TOY_DETECTED) (Hr : toy_ready w = true) (Hne : toy (sys w) ≠ previousToy (sys w))
    (Hb : 35 <= batteryLevel (sys w)) (Hside : side_open w j) (Hsongs : songs j names (files (fs w)))
    (Hfin : player_finishes) (k : nat) :
  ∃ n w', turns n w = Ok ((), w') ∧ control w' = (SYS_WAIT_FOR_PLAYER, SYS_PLAY_NEXT) ∧
    indexx (sys w') = Z.of_nat (k mod length names) ∧
    played (hist w') = reverse ((λ i, audio_path (nth (i mod length names) names []) []) <$> seq 0 (S k)) ++ played (hist w).
Proof.
  pose proof (songs_count _ _ _ Hsongs) as Hcnt. destruct (lookup_lt_is_Some_2 names 0) as [name Hn]; [lia|].
  destruct (song_there j names w Hsongs 0 w name) as (h & Ht & Hback); [done..|].
  destruct (first_track_run w j name h) as (w1 & Hr1 & Hc1 & Hp1 & Ht1); [done..|]. injection Ht1 as Ej1 Ei1 _ Epl1.
  destruct (songs_on j names w Hsongs Hside Hb 0 k w1) as (n & w2 & Hr2 & [Hc2 _ _ Hi2 _] & Hpl2); [done| |lia|].
  { split; [by rewrite Hc1, Hback|by eapply turns_layout|done..]. }
  exists (5 + n)%nat, w2. rewrite (turns_app _ _ _ _ Hr1). split; [done|]. split; [done|]. split; [exact Hi2|].
  rewrite Hpl2, Epl1. cbn [seq fmap list_fmap]. rewrite reverse_cons, <-app_assoc. cbn [app].
  rewrite Nat.mod_small by lia. by rewrite (nth_lookup_Some names 0 [] name).
Qed.
End songs.


(** ** Witnesses *)

Section songs_witnesses.

(** Every file parses to a playlist of the two tracks "A" and "B". *)
#[local] Instance two_tracks : CJSON := {|
  cJSON_Parse _ := 1;
  cJSON_ParseWithLength _ := 1;
  cJSON_Duplicate j := j;
  cJSON_GetObjectItem j key :=
    if bool_decide (j = 1 ∧ key = lit "1") then 2 else if bool_decide (j = 1 ∧ key = lit "2") then 3 else 0;
  cJSON_GetObjectItemCaseSensitive _ _ := 0;
  cJSON_GetArraySize j := if bool_decide (j = 1) then 2 else 0;
  cJSON_GetArrayItem _ _ := 0;
  cJSON_IsString j := bool_decide (j = 2 ∨ j = 3);
  cJSON_IsNumber _ := false;
  cJSON_IsArray _ := false;
  cJSON_IsTrue _ := false;
  valuestring j := if bool_decide (j = 2) then Some (lit "A") else if bool_decide (j = 3) then Some (lit "B") else None;
  valueint _ := 0;
|}.

(** A player that is done with a song now and then, and says nothing before. *)
Definition song_end : audio_msg :=
  {| msg_is_element := true; msg_source := src_writer; msg_cmd := AEL_MSG_CMD_REPORT_STATUS;
     msg_data := AEL_STATUS_STATE_FINISHED |}.
#[local] Instance song_env : Env := {|
  env_time h := 1000 * Z.of_nat (length h);
  env_el_state _ := AEL_STATE_RUNNING;
  env_msg h := if bool_decide (Z.of_nat (length h) mod 6 < 3) then Some song_end else None;
  env_stack _ := Sample.no_msg;
  env_bits _ := 0;
  env_http _ := Sample.no_answer;
  env_disconnects _ := true;
  env_freed_close _ := true;
  env_readdir _ _ := None;
  env_err _ := 0;
  env_getfree _ := None;
  FF_SS_SDCARD := 512;
|}.

Lemma song_env_finishes : player_finishes.
Proof.
  intros h. destruct (decide (Z.of_nat (length (audio_event_iface_listen :: h)) mod 6 < 3)) as [Hd|Hd].
  - exists 0%nat. unfold heard. cbn [Nat.iter nat_rect env_msg song_env]. by rewrite bool_decide_true.
  - exists 1%nat. cbn [Nat.iter nat_rect]. unfold waited, heard, listened. cbn [env_msg env_stack song_env].
    rewrite (bool_decide_false _ Hd). cbn [msg_is_element Sample.no_msg andb]. rewrite bool_decide_true; [done|].
    revert Hd. cbn [length]. intros. zify. Z.div_mod_to_equations. lia.
Qed.

(** The toy of PlaySpec.v with two songs. *)
Definition song_text : bytes := header_text 0 0 (0, 0, 0) (0, 0, 0) (0, 0) ++ lit "MP3".
Definition singing : world :=
  update fs (update files (λ c, <[audio_path (lit "B") [] := song_text]> (<[audio_path (lit "A") [] := song_text]> c))) complete.

Lemma singing_songs : songs 1 [lit "A"; lit "B"] (files (fs singing)).
Proof.
  split; [reflexivity|simpl; lia| |].
  - intros [|[|i]] name [= <-]; split; first [vm_compute; reflexivity | simpl; lia].
  - intros name Hn. exists song_text. split.
    + apply list_elem_of_In in Hn as [<-|[<-|[]]]; vm_compute; reflexivity.
    + intros h. eexists. split; [unfold song_text; apply parse_header_text; split_and?; simpl; unfold int_ok; lia|reflexivity].
Qed.

(** After three songs the third is the first again. *)
Example songs_in_order_witness :
  ∃ n w', @turns song_env two_tracks n singing = Ok ((), w') ∧ indexx (sys w') = 0 ∧
    played (hist w') = [audio_path (lit "A") []; audio_path (lit "B") []; audio_path (lit "A") []].
Proof.
  destruct (@songs_in_order song_env two_tracks singing 1 [lit "A"; lit "B"]) with (k := 2%nat) as (n & w' & Hr & _ & Hi & Hp).
  - destruct layout_start as (? & ? & ? & ? & ? & ? & ?). split_and!; try assumption.
    constructor; first [reflexivity | vm_compute; lia | split; vm_compute; congruence].
  - reflexivity.
  - vm_compute. reflexivity.
  - discriminate.
  - vm_compute. discriminate.
  - split.
    + exists (lit "south"), (lit "{}"). split_and!; vm_compute; reflexivity.
    + intros c Hf. assert (c = lit "1,2,3") as ->.
      { assert (files (fs singing) !! toy_file (toy (sys singing)) (lit "colourTheme") = Some (lit "1,2,3")) as E
          by (vm_compute; reflexivity). rewrite E in Hf. by injection Hf. }
      intros line rest [[r g] b] [= <- <-]. by eexists.
  - exact singing_songs.
  - exact song_env_finishes.
  - exists n, w'. split; [exact Hr|]. split; [exact Hi|exact Hp].
Defined.
End songs_witnesses.
